(* ===== verification/_CoqProject ===== *)
-Q . S2P
Prelude.v
Mem.v
LibString.v
Console.v
Machine.v
I8259.v
Rtc.v
Tasks.v
Pcb.v
Fs.v
Paging.v
Termios.v
Keyboard.v
Kernel.v
Scheduling.v
Syscall.v
Execute.v
FileCalls.v
Irq.v
Linkage.v
System.v
Assembly.v
Shell.v
Boot.v
Startup.v
User.v
Programs.v
Syserr.v
Userland.v
Utilities.v
Interactive.v
Grep.v
Lawful.v
Session.v
Emulate.v
Blink.v
Fish.v
