(* ===== verification/Prelude.v ===== *)
(** * Verification of the ECE391 operating system (src/student-distrib)

    The repository is a small 32-bit x86 operating system in C with a few lines of assembly: a
    kernel that a multiboot loader starts with a read-only file system image in memory, with
    four text terminals, a keyboard, a real-time clock, a round-robin scheduler, paging with one
    4 MB frame for each of up to 15 programs, and eleven system calls.  This library translates
    the kernel's C code into executable Rocq functions and proves what it promises.

    ** The parts and where they are

    - Prelude: machine words of a fixed width, arrays as finite maps, the counting loops of the
      code, tactics and hints.  Mem: byte-addressed memory; the kernel's part and the window of
      the running program (0x8000000 to 0x8400000) are two maps.
    - LibString, Console (lib/lib.c): strings and memory blocks; the boot console, printf.
    - Machine: ports and the interrupt flag as a class of operations; the laws of the 8259A and
      of the clock chip as classes that the drivers' theorems assume; [sim] satisfies them all.
    - I8259, Rtc (drivers/i8259.c, rtc.c, pit.c): the interrupt controllers, clock and timer.
    - Tasks, Pcb (kernel/tasks.c, pcb.c): process identifiers, control blocks, descriptors.
    - Fs (drivers/fs.c): the file system image, the file and directory drivers, the loader.
    - Paging (kernel/paging.c): the page tables bit by bit; [translate] is the processor's walk.
    - Termios, Keyboard (drivers/termios.c, keyboard.c): terminals, input queues, scan codes.
    - Kernel: the record of all of the above that the handlers share, with the control blocks by
      address and the memory of every process.
    - Scheduling (kernel/scheduling.c): the schedule and the context switch.
    - Syscall (kernel/syscall.c): the system calls; Execute and FileCalls hold their theorems.
    - Irq (kernel/irq.c, exception.c): the interrupt table and the exception handlers.
    - Linkage (kernel/asm_linkage.S): the entry points that interrupts and INT 0x80 reach, as
      operations on the kernel.  Assembly (asm_linkage.S, ece391syscall.S): the same entry points
      and the wrappers DO_CALL instruction by instruction, on registers and stacks.
    - System: the running system as a relation whose steps are whole handlers; its invariant.
    - Shell: starting shells at boot, by the keyboard and after a shell has exited.
    - Boot (kernel.c, x86_desc.h, multiboot.h): [entry], from the boot loader to the shell.
      Startup (boot.S, x86_desc.S): the descriptor tables bit by bit, the loads of the segment
      registers, and [start], from the loader's jump through [entry].
    - User (syscalls/ece391support.c, ece391syscall.S): the user library over the class [Calls],
      a memory and an answer to INT 0x80; Programs (syscalls/ece391cat.c and the others): the
      user programs; Syserr (syscalls/ece391syserr.c): the repository's tests of bad calls.
    - Userland: the kernel as an instance of [Calls]; the tests of Syserr on it.  Utilities (cat
      and ls), Grep (grep), Interactive (hello, counter and the shell, while a line is typed):
      programs that run on it.  Lawful: what every run of a program leaves alone.  Session: the
      shell with the programs that it starts, as one run.
    - Emulate (syscalls/ece391emulate.c): the same calls under Linux, over a class of host calls.
    - Blink, Fish (fish/blink.S, fish/fish.c): the linked list of blinking characters, from the
      assembly, on a byte memory, and the animation that uses it.

    Calls between C functions are calls between the definitions of the same names.  Static
    variables are fields of the state that a function takes and returns; a pointer to a struct
    of the kernel is an address or an index, so that aliasing shows; a local array whose address
    is taken lies in a [frame] of addresses that the caller of the model chooses, and so do the
    uninitialised pointers of the code.  Integers are [Z] with [u8] to [s32] written where the
    C type wraps.  A call that waits for interrupts takes them from an environment.

    ** What the theorems show

    - The whole system: from the loader's jump the boot reaches the first shell, with flat
      segments and the invariant established (Startup);
      every system call and interrupt keeps it (System: the running process is live, scheduled
      and in its own address space, the others can be resumed, parents wait for children); so a
      program's accesses stay in its own frame and video memory for ever.
    - Processes: execute starts a program with its arguments, a failed execute leaves no trace,
      halt returns to the parent, the two together are a call (Execute); shells (Shell); the
      identifiers implement a pool (Tasks); the tick switches context and is fair (Scheduling).
    - Registers: the instructions of the entry points and wrappers do what Linkage and User say,
      and an interrupted program, also one that a tick takes the processor from, gets all its
      registers back, whatever a C function does with what the calling convention leaves it
      (Assembly, where the classes Compiled and CompiledLaws stand for the compiler).
    - Files: reads refine the contents of the file, in order, over any sequence of reads; names,
      descriptors, the loader (Fs); the same through the system calls, with their error
      results (FileCalls).
    - Terminals: the code with its per-terminal buffers implements a text screen; a typed line is
      what read returns; switching preserves the screens (Termios); keys (Keyboard).
    - Memory protection: page tables and address translation (Paging).
    - Hardware: controllers, clock rates, interrupt table, exceptions (I8259, Rtc, Irq, Boot).
    - User programs, from INT 0x80 through the drivers to the screen: the repository's tests of
      bad calls pass (Userland), cat prints the file, ls the directory (Utilities), grep the lines
      that match, across the reads of its buffer (Grep), hello greets with the typed line, counter
      never counts, and the command typed at the shell starts its program (Interactive).  A session
      of the shell executes a list of typed commands up to exit: the shell's process waits in its
      execute call while the new process runs to its halt, and has its memory, descriptors, terminal
      and registers back afterwards (Lawful, Session).
    - Under Linux: execute and getargs of the emulation agree on the arguments, and a read of the
      directory delivers the next name (Emulate).
    - The blinking list: a tick ends and ticks every entry, adding and removing keep the list,
      an entry at the first place breaks it (Blink).
    - The library: the assembly block routines equal plain copies, numerals read back as the
      number, printf returns (LibString, Console).
    Several theorems state what the code does where that is not what it means to do; each says so.

    ** Loops and fuel

    Loops with a counter are [for_], whose length is part of the call.  A loop over a string has
    [mem_fuel m] rounds, more than memory has non-zero bytes, so that it ends as the code does
    when the string does.  A loop that the code may not leave (a walk over the memory map, the
    wait for a key, the parse of an unterminated command) returns [None] or [false] when its
    fuel or its events are used up, and the theorems prove that it ends where it does.  The
    loops of the user programs that only the results of calls end have a bound as argument.

    ** Not modelled

    What a handler does to the kernel when it interrupts another handler, other than one that waits
    for it, and interrupts during the boot (Assembly covers the registers of both); interrupts and other processes while a user program runs between two of its calls (in a
    Session a started program runs alone until it halts); how the compiler translates the programs'
    C code into the file that execute loads, and which registers halt restores for the frame of execute;
    the real-time behaviour of devices.  In x86_desc.S, the handler unknown_int, which nothing installs.
    The test files and debug.h: no code of the kernel calls the tests.  The kernel page and the stacks
    are not part of the memory of Blink, whose variables and screen are the classes Fish and FishLaws.
    Ports, the controllers and the clock chip are hardware, and Linux is a host: the classes of Machine
    and the class Host state what the code relies on.  The addresses the linker chooses are the
    classes Layout, Handlers and Segments; what compiled code does to registers and stacks is Compiled. *)

From Stdlib Require Import ZArith Lia.
From stdpp Require Export base gmap list numbers option strings tactics.

#[global] Open Scope Z_scope.

(** ** Notation and machine integers *)

Declare Scope kernel_scope.
Delimit Scope kernel_scope with kernel.
#[global] Open Scope kernel_scope.

(** C integer types: a value of a w-bit type is the integer it denotes; these are the
    conversions the compiler applies (two's complement, so the signed ones also wrap). *)
Definition u8 (z : Z) : Z := z mod 2 ^ 8.

Definition u16 (z : Z) : Z := z mod 2 ^ 16.

Definition u32 (z : Z) : Z := z mod 2 ^ 32.

Definition s8 (z : Z) : Z := (z + 2 ^ 7) mod 2 ^ 8 - 2 ^ 7.

Definition s16 (z : Z) : Z := (z + 2 ^ 15) mod 2 ^ 16 - 2 ^ 15.

Definition s32 (z : Z) : Z := (z + 2 ^ 31) mod 2 ^ 32 - 2 ^ 31.

(** A C truth value used as an integer. *)
Definition b2z (b : bool) : Z := if b then 1 else 0.

(** ** Arrays

    A C array (or a region of memory) is a finite map from index to cell with default 0.  The
    map is total, so an access outside the declared bounds is visible: it reads or writes a key
    that is not an index of the array. *)
Abbreviation arr := (gmap Z Z).

Definition aget (a : arr) (i : Z) : Z := default 0 (a !! i).

Definition aset (a : arr) (i v : Z) : arr := <[i := v]> a.

Notation "a .[ i ]" := (aget a i) (at level 1, i at level 200, left associativity,
  format "a .[ i ]") : kernel_scope.
Notation "a .[ i <- v ]" := (aset a i v) (at level 1, i at level 200, v at level 200,
  left associativity, format "a .[ i  <-  v ]") : kernel_scope.

(** The array whose cells 0, 1, ... hold the list. *)
Fixpoint arr_at (i : Z) (l : list Z) : arr :=
  match l with
  | [] => ∅
  | x :: l' => <[i := x]> (arr_at (i + 1) l')
  end.

(** [n] cells from [i], as a list. *)
Fixpoint cells (a : arr) (i : Z) (n : nat) : list Z :=
  match n with
  | O => []
  | S n' => a.[i] :: cells a (i + 1) n'
  end.

(** ** Loops

    [for_ a b body s] is [for (i = a; i < b; i++) body]. *)
Fixpoint for_n {S : Type} (n : nat) (i : Z) (body : Z -> S -> S) (s : S) : S :=
  match n with
  | O => s
  | Datatypes.S n' => for_n n' (i + 1) body (body i s)
  end.

Definition for_ {S : Type} (a b : Z) (body : Z -> S -> S) (s : S) : S :=
  for_n (Z.to_nat (b - a)) a body s.

(** [find_ a b p] is the first [i] with [a <= i < b] and [p i], the index at which a search loop
    [for (i = a; i < b; i++) if (p(i)) ...] stops. *)
Fixpoint find_n (n : nat) (i : Z) (p : Z -> bool) : option Z :=
  match n with
  | O => None
  | S n' => if p i then Some i else find_n n' (i + 1) p
  end.

Definition find_ (a b : Z) (p : Z -> bool) : option Z := find_n (Z.to_nat (b - a)) a p.

(** ** Tactics *)

(** Case analysis on every boolean comparison of the goal, as propositions. *)
Ltac case_b :=
  repeat match goal with
    | |- context [if (?a =? ?b)%Z then _ else _] => destruct (Z.eqb_spec a b)
    | |- context [if (?a <? ?b)%Z then _ else _] => destruct (Z.ltb_spec a b)
    | |- context [if (?a <=? ?b)%Z then _ else _] => destruct (Z.leb_spec a b)
    end.

(** The booleans of a hypothesis, as propositions. *)
Ltac bool_prop :=
  repeat match goal with
    | H : (_ && _)%bool = true |- _ => apply andb_true_iff in H; destruct H
    | H : (_ || _)%bool = false |- _ => apply orb_false_iff in H; destruct H
    | H : (_ =? _)%Z = true |- _ => apply Z.eqb_eq in H
    | H : (_ =? _)%Z = false |- _ => apply Z.eqb_neq in H
    | H : (_ <? _)%Z = true |- _ => apply Z.ltb_lt in H
    | H : (_ <? _)%Z = false |- _ => apply Z.ltb_ge in H
    | H : (_ <=? _)%Z = true |- _ => apply Z.leb_le in H
    | H : (_ <=? _)%Z = false |- _ => apply Z.leb_gt in H
    | H : negb _ = true |- _ => apply negb_true_iff in H
    | H : negb _ = false |- _ => apply negb_false_iff in H
    end.

(** Decide the comparisons that linear arithmetic settles. *)
Ltac decide_b :=
  repeat match goal with
    | |- context [(?a =? ?b)%Z] =>
        first [ rewrite (proj2 (Z.eqb_eq a b)) by lia | rewrite (proj2 (Z.eqb_neq a b)) by lia ]
    | |- context [(?a <? ?b)%Z] =>
        first [ rewrite (proj2 (Z.ltb_lt a b)) by lia | rewrite (proj2 (Z.ltb_ge a b)) by lia ]
    | |- context [(?a <=? ?b)%Z] =>
        first [ rewrite (proj2 (Z.leb_le a b)) by lia | rewrite (proj2 (Z.leb_gt a b)) by lia ]
    end.

Create HintDb kernel discriminated.
Create Rewrite HintDb arr.

(** ** Machine integers: lemmas *)

Lemma u8_small z : 0 <= z < 256 -> u8 z = z.
Proof. intros; unfold u8; apply Z.mod_small; lia. Qed.

Lemma u16_small z : 0 <= z < 65536 -> u16 z = z.
Proof. intros; unfold u16; apply Z.mod_small; lia. Qed.

Lemma u32_small z : 0 <= z < 2 ^ 32 -> u32 z = z.
Proof. intros; unfold u32; apply Z.mod_small; lia. Qed.

Lemma s8_small z : -128 <= z < 128 -> s8 z = z.
Proof. intros; unfold s8; rewrite Z.mod_small; lia. Qed.

Lemma s32_small z : - 2 ^ 31 <= z < 2 ^ 31 -> s32 z = z.
Proof. intros; unfold s32; rewrite Z.mod_small; lia. Qed.

Lemma u8_range z : 0 <= u8 z < 256.
Proof. unfold u8; apply Z.mod_pos_bound; lia. Qed.

Lemma u16_range z : 0 <= u16 z < 65536.
Proof. unfold u16; apply Z.mod_pos_bound; lia. Qed.

Lemma u32_range z : 0 <= u32 z < 2 ^ 32.
Proof. unfold u32; apply Z.mod_pos_bound; lia. Qed.

Lemma s8_range z : -128 <= s8 z < 128.
Proof. unfold s8. pose proof (Z.mod_pos_bound (z + 2 ^ 7) (2 ^ 8)). lia. Qed.

Lemma u8_s8 z : u8 (s8 z) = u8 z.
Proof. unfold u8, s8. Z.div_mod_to_equations. lia. Qed.

Lemma s8_u8 z : s8 (u8 z) = s8 z.
Proof. unfold u8, s8. Z.div_mod_to_equations. lia. Qed.

(** ** Arrays: lemmas *)

Lemma aget_aset a i v j : a.[i <- v].[j] = if i =? j then v else a.[j].
Proof.
  unfold aget, aset. case_b; subst; [by rewrite lookup_insert_eq|by rewrite lookup_insert_ne].
Qed.

Lemma aget_aset_eq a i v : a.[i <- v].[i] = v.
Proof. rewrite aget_aset, Z.eqb_refl. done. Qed.

Lemma aget_aset_ne a i v j : i <> j -> a.[i <- v].[j] = a.[j].
Proof. intros. rewrite aget_aset. by decide_b. Qed.

Lemma aget_empty i : (∅ : arr).[i] = 0.
Proof. unfold aget. by rewrite lookup_empty. Qed.

Hint Rewrite aget_aset_eq aget_empty : arr.
Hint Rewrite aget_aset_ne using lia : arr.

Lemma aget_arr_at l : forall i j,
  (arr_at i l).[j] = if (i <=? j) && (j <? i + Z.of_nat (length l))
                     then nth (Z.to_nat (j - i)) l 0 else 0.
Proof.
  induction l as [|x l IH]; intros i j; cbn [arr_at length].
  - rewrite aget_empty. destruct (Z.leb_spec i j), (Z.ltb_spec j (i + Z.of_nat 0)); cbn; lia || done.
  - change (<[i:=x]> (arr_at (i + 1) l)) with (aset (arr_at (i + 1) l) i x).
    rewrite aget_aset, IH. case_b; subst.
    + decide_b. cbn. by rewrite Z.sub_diag.
    + destruct (Z.leb_spec (i + 1) j); decide_b; cbn [andb]; [|done].
      replace (j <? i + 1 + Z.of_nat (length l)) with (j <? i + Z.of_nat (S (length l)))
        by (f_equal; lia).
      case_b; [|done]. replace (Z.to_nat (j - i)) with (S (Z.to_nat (j - (i + 1)))) by lia. done.
Qed.

Lemma length_cells a n : forall i, length (cells a i n) = n.
Proof. induction n; intros; cbn; congruence. Qed.

Lemma nth_cells a n : forall i k, (k < n)%nat -> nth k (cells a i n) 0 = a.[i + Z.of_nat k].
Proof.
  induction n as [|n IH]; intros i k Hk; [lia|].
  destruct k; cbn [cells nth]; [f_equal; lia|]. rewrite IH by lia. f_equal; lia.
Qed.

Lemma cells_ext a b n : forall i j,
  (forall k, 0 <= k < Z.of_nat n -> a.[i + k] = b.[j + k]) -> cells a i n = cells b j n.
Proof.
  induction n as [|n IH]; intros i j H; cbn [cells]; [done|]. f_equal.
  - specialize (H 0 ltac:(lia)). by rewrite !Z.add_0_r in H.
  - apply IH. intros k Hk. specialize (H (k + 1) ltac:(lia)).
    by replace (i + 1 + k) with (i + (k + 1)) by lia;
       replace (j + 1 + k) with (j + (k + 1)) by lia.
Qed.

Lemma cells_app a n m : forall i, cells a i (n + m) = cells a i n ++ cells a (i + Z.of_nat n) m.
Proof.
  induction n as [|n IH]; intros i; cbn [cells Nat.add app].
  - by rewrite Z.add_0_r.
  - rewrite IH. do 3 f_equal. lia.
Qed.

(** ** Loops: lemmas *)

Lemma for_n_inv {S} (P : Z -> S -> Prop) body n : forall i s,
  P i s ->
  (forall j s, i <= j < i + Z.of_nat n -> P j s -> P (j + 1) (body j s)) ->
  P (i + Z.of_nat n) (for_n n i body s).
Proof.
  induction n as [|n IH]; intros i s H0 Hs; cbn [for_n].
  - by rewrite Z.add_0_r.
  - replace (i + Z.of_nat (Datatypes.S n)) with (i + 1 + Z.of_nat n) by lia.
    apply IH; [apply Hs; [lia|done]|]. intros; apply Hs; [lia|done].
Qed.

(** The invariant rule for counted loops. *)
Lemma for_inv {S} (P : Z -> S -> Prop) a b body s :
  a <= b ->
  P a s ->
  (forall i s, a <= i < b -> P i s -> P (i + 1) (body i s)) ->
  P b (for_ a b body s).
Proof.
  intros Hab H0 Hs. unfold for_. replace b with (a + Z.of_nat (Z.to_nat (b - a))) at 1 by lia.
  apply for_n_inv; [done|]. intros; apply Hs; [lia|done].
Qed.

(** A loop whose body keeps a property of the state keeps it, whatever the bounds. *)
Lemma for_keep {S} (P : S -> Prop) a b body s :
  P s -> (forall i s, a <= i < b -> P s -> P (body i s)) -> P (for_ a b body s).
Proof.
  intros H0 Hs. destruct (Z.le_gt_cases a b) as [Hab|Hab].
  - by apply (for_inv (fun _ => P)).
  - unfold for_. by replace (Z.to_nat (b - a)) with O by lia.
Qed.

Lemma for_empty {S} a b body (s : S) : b <= a -> for_ a b body s = s.
Proof. intros. unfold for_. by replace (Z.to_nat (b - a)) with O by lia. Qed.

Lemma for_step {S} a b body (s : S) :
  a < b -> for_ a b body s = for_ (a + 1) b body (body a s).
Proof.
  intros. unfold for_. replace (Z.to_nat (b - a)) with (Datatypes.S (Z.to_nat (b - (a + 1)))) by lia.
  done.
Qed.

(** [for (i = a; i < b; i++) arr[i] = g(i);] *)
Lemma aget_for_fill a b g s j :
  (for_ a b (fun i s => s.[i <- g i]) s).[j] = if (a <=? j) && (j <? b) then g j else s.[j].
Proof.
  destruct (Z.le_gt_cases a b) as [Hab|Hab].
  - pose proof (for_inv (fun k (t : arr) => forall j,
        t.[j] = if (a <=? j) && (j <? k) then g j else s.[j]) a b
        (fun i s => s.[i <- g i]) s Hab) as H.
    apply H; clear H.
    + intros k. by destruct (Z.leb_spec a k), (Z.ltb_spec k a); try lia.
    + intros i t Hi IH k. rewrite aget_aset, IH.
      destruct (Z.eqb_spec i k), (Z.leb_spec a k), (Z.ltb_spec k i), (Z.ltb_spec k (i + 1));
        cbn; try lia; congruence.
  - rewrite for_empty by lia. by destruct (Z.leb_spec a j), (Z.ltb_spec j b); try lia.
Qed.

(** [for (i = a; i < b; i++) arr[i] = f(arr[i + k]);] with [k > 0]: a shift to the left. *)
Lemma aget_for_shift a b f d s j :
  0 < d ->
  (for_ a b (fun i s => s.[i <- f (s.[i + d])]) s).[j]
  = if (a <=? j) && (j <? b) then f (s.[j + d]) else s.[j].
Proof.
  intros Hd. destruct (Z.le_gt_cases a b) as [Hab|Hab].
  - pose proof (for_inv (fun k (t : arr) => forall j,
        t.[j] = if (a <=? j) && (j <? k) then f (s.[j + d]) else s.[j]) a b
        (fun i s => s.[i <- f (s.[i + d])]) s Hab) as H.
    apply H; clear H.
    + intros k. by destruct (Z.leb_spec a k), (Z.ltb_spec k a); try lia.
    + intros i t Hi IH k. rewrite aget_aset, !IH. decide_b. cbn [andb].
      destruct (Z.eqb_spec i k), (Z.leb_spec a k), (Z.ltb_spec k i), (Z.ltb_spec k (i + 1)),
        (Z.ltb_spec (i + d) i); rewrite ?andb_false_r; cbn; try lia; congruence.
  - rewrite for_empty by lia. by destruct (Z.leb_spec a j), (Z.ltb_spec j b); try lia.
Qed.

(** [for (i = a; i < b; i++) arr[h(i)] = F(i, arr[h(i)]);] on distinct cells. *)
Lemma aget_for_map a b (h : Z -> Z) (F : Z -> Z -> Z) s :
  (forall i j, h i = h j -> i = j) ->
  (forall i, a <= i < b ->
     (for_ a b (fun i s => s.[h i <- F i (s.[h i])]) s).[h i] = F i (s.[h i])) /\
  (forall j, (forall i, a <= i < b -> h i <> j) ->
     (for_ a b (fun i s => s.[h i <- F i (s.[h i])]) s).[j] = s.[j]).
Proof.
  intros Hinj. destruct (Z.le_gt_cases a b) as [Hab|Hab].
  2:{ rewrite for_empty by lia. split; [intros; lia|done]. }
  pose proof (for_inv (fun k (t : arr) =>
    (forall i, a <= i < k -> t.[h i] = F i (s.[h i])) /\
    (forall j, (forall i, a <= i < k -> h i <> j) -> t.[j] = s.[j])) a b
    (fun i s => s.[h i <- F i (s.[h i])]) s Hab) as H.
  apply H; clear H; [split; [intros; lia|done]|].
  intros k t Hk [IH1 IH2]. split.
  - intros i Hi. rewrite aget_aset. destruct (Z.eqb_spec (h k) (h i)) as [E|E].
    + apply Hinj in E as <-. f_equal. apply IH2. intros i' Hi' E. apply Hinj in E. lia.
    + apply IH1. destruct (Z.eq_dec i k) as [->|]; [done|lia].
  - intros j Hj. rewrite aget_aset_ne by (apply Hj; lia). apply IH2. intros i Hi. apply Hj. lia.
Qed.

(** A loop over two independent states. *)
Lemma for_pair {S T} a b (f : Z -> S -> S) (g : Z -> T -> T) x y :
  for_ a b (fun i '(x, y) => (f i x, g i y)) (x, y) = (for_ a b f x, for_ a b g y).
Proof.
  unfold for_. generalize (Z.to_nat (b - a)) as n. intros n. revert a x y.
  induction n as [|n IH]; intros a x y; cbn [for_n]; [done|]. by rewrite IH.
Qed.

Lemma find_n_Some n p : forall i k,
  find_n n i p = Some k ->
  i <= k < i + Z.of_nat n /\ p k = true /\ forall j, i <= j < k -> p j = false.
Proof.
  induction n as [|n IH]; intros i k; cbn [find_n]; [done|].
  destruct (p i) eqn:E.
  - intros [= <-]. repeat split; [lia|lia|done|intros; lia].
  - intros H. apply IH in H as (? & ? & Hj). repeat split; [lia|lia|done|].
    intros j ?. destruct (decide (j = i)) as [->|]; [done|]. apply Hj; lia.
Qed.

Lemma find_n_None n p : forall i,
  find_n n i p = None -> forall j, i <= j < i + Z.of_nat n -> p j = false.
Proof.
  induction n as [|n IH]; intros i; cbn [find_n]; [intros; lia|].
  destruct (p i) eqn:E; [done|]. intros H j Hj.
  destruct (decide (j = i)) as [->|]; [done|]. apply (IH (i + 1)); [done|lia].
Qed.

Lemma find_Some a b p k :
  find_ a b p = Some k -> a <= k < b /\ p k = true /\ forall j, a <= j < k -> p j = false.
Proof.
  unfold find_. intros H. apply find_n_Some in H as (? & ? & ?). repeat split; auto; lia.
Qed.

Lemma find_None a b p : find_ a b p = None -> forall j, a <= j < b -> p j = false.
Proof. unfold find_. intros H j Hj. apply (find_n_None _ _ _ H). lia. Qed.

(** The rounds of the search. *)
Lemma find_empty a b p : b <= a -> find_ a b p = None.
Proof. intros Hb. unfold find_. by replace (Z.to_nat (b - a)) with O by lia. Qed.

Lemma find_step a b p : a < b -> find_ a b p = if p a then Some a else find_ (a + 1) b p.
Proof. intros Hb. unfold find_. by replace (Z.to_nat (b - a)) with (S (Z.to_nat (b - (a + 1)))) by lia. Qed.

Lemma find_is_Some a b p k :
  a <= k < b -> p k = true -> exists i, find_ a b p = Some i /\ a <= i <= k.
Proof.
  intros Hk Hp. destruct (find_ a b p) as [i|] eqn:E.
  - exists i; split; [done|]. apply find_Some in E as (? & ? & Hj).
    destruct (Z.le_gt_cases i k); [lia|]. specialize (Hj k ltac:(lia)). congruence.
  - pose proof (find_None _ _ _ E k Hk). congruence.
Qed.

(** ** Finite checks *)

(** A boolean property that evaluates to true on [0, n) holds there. *)
Lemma check_below n (p : Z -> bool) :
  forallb p (seqZ 0 n) = true -> forall i, 0 <= i < n -> p i = true.
Proof.
  intros H i Hi. rewrite forallb_forall in H. apply H.
  rewrite <- list_elem_of_In, elem_of_seqZ. lia.
Qed.

Lemma land_ff z : Z.land z 0xFF = u8 z.
Proof. change 0xFF with (Z.ones 8). by rewrite Z.land_ones. Qed.

(** Disjoint bit ranges: the union is the sum. *)
Lemma land_shifted x y k : 0 <= k -> 0 <= x < 2 ^ k -> Z.land x (y * 2 ^ k) = 0.
Proof.
  intros Hk Hx. apply Z.bits_inj'. intros n Hn. rewrite Z.land_spec, Z.bits_0.
  destruct (Z.lt_ge_cases n k).
  - rewrite (Z.mul_pow2_bits_low y k n) by lia. by rewrite andb_false_r.
  - rewrite <- (Z.mod_small x (2 ^ k)) by lia. by rewrite Z.mod_pow2_bits_high by lia.
Qed.

Lemma lor_shifted x y k : 0 <= k -> 0 <= x < 2 ^ k -> Z.lor x (y * 2 ^ k) = x + y * 2 ^ k.
Proof.
  intros Hk Hx. pose proof (land_shifted x y k Hk Hx) as H0.
  rewrite <- Z.lxor_lor by done. symmetry. by apply Z.add_nocarry_lxor.
Qed.

(** The loops are used through their rules; evaluation by [vm_compute] is unaffected. *)
#[global] Opaque for_ find_.
