(* ===== verification/Mem.v ===== *)
(** * Byte-addressed memory

    The memory a kernel routine reads and writes through pointers: the file-system image, user
    buffers, C strings.  The kernel objects that C declares as structures (process control
    blocks, page tables, terminals) are records of their own in the files that model them.

    An address space is two regions: the kernel part, the same for every process, and the
    4 MB program window at 128 MB, which CR3 selects (Paging.v shows which frame it is). *)

From stdpp Require Import fin_maps fin_sets.
From S2P Require Import Prelude.

Definition USER_WINDOW_START : Z := 0x8000000.

Definition USER_WINDOW_END : Z := 0x8400000.

Record mem := Mem { km : arr; um : arr }.

Definition in_user (a : Z) : bool := (USER_WINDOW_START <=? a) && (a <? USER_WINDOW_END).

Definition mem_empty : mem := Mem ∅ ∅.

(** One byte; a cell is read modulo 256. *)
Definition ld (m : mem) (a : Z) : Z := u8 (if in_user a then (um m).[a] else (km m).[a]).

Definition st (m : mem) (a v : Z) : mem :=
  if in_user a then Mem (km m) (aset (um m) a v) else Mem (aset (km m) a v) (um m).

(** A 32-bit word, little-endian. *)
Definition ld32 (m : mem) (a : Z) : Z :=
  ld m a + 2 ^ 8 * ld m (a + 1) + 2 ^ 16 * ld m (a + 2) + 2 ^ 24 * ld m (a + 3).

Definition st32 (m : mem) (a v : Z) : mem :=
  st (st (st (st m a v) (a + 1) (v / 2 ^ 8)) (a + 2) (v / 2 ^ 16)) (a + 3) (v / 2 ^ 24).

(** [n] bytes from [a]. *)
Fixpoint bytes (m : mem) (a : Z) (n : nat) : list Z :=
  match n with
  | O => []
  | S n' => ld m a :: bytes m (a + 1) n'
  end.

(** Store a list of bytes. *)
Fixpoint st_list (m : mem) (a : Z) (l : list Z) : mem :=
  match l with
  | [] => m
  | x :: l' => st_list (st m a x) (a + 1) l'
  end.

(** The NUL-terminated string [l] is at [a]. *)
Fixpoint cstr (m : mem) (a : Z) (l : list Z) : Prop :=
  match l with
  | [] => ld m a = 0
  | c :: l' => ld m a = c /\ c <> 0 /\ cstr m (a + 1) l'
  end.

(** [m'] is [m] with [n] bytes from [a] set to [v]. *)
Definition filled (m m' : mem) (a n v : Z) : Prop :=
  forall x, ld m' x = if (a <=? x) && (x <? a + n) then v else ld m x.

(** [m'] is [m] with the [n] bytes from [s] (as they are in [m]) at [d]. *)
Definition copied (m m' : mem) (d s n : Z) : Prop :=
  forall x, ld m' x = if (d <=? x) && (x <? d + n) then ld m (s + (x - d)) else ld m x.

(** [m'] agrees with [m] outside [a, a + n). *)
Definition unchanged_outside (m m' : mem) (a n : Z) : Prop :=
  forall x, x < a \/ a + n <= x -> ld m' x = ld m x.

(** A bound on the length of any C string of the memory: cells outside the maps read 0. *)
Definition mem_fuel (m : mem) : nat := S (size (km m) + size (um m)).

(** ** Lemmas *)

Lemma ld_range m a : 0 <= ld m a < 256.
Proof. apply u8_range. Qed.

Lemma ld_st m a v x : ld (st m a v) x = if a =? x then u8 v else ld m x.
Proof.
  unfold ld, st. destruct (Z.eqb_spec a x) as [->|Hne].
  - destruct (in_user x) eqn:E; cbn; by rewrite aget_aset_eq.
  - destruct (in_user a) eqn:Ea, (in_user x) eqn:Ex; cbn; rewrite ?aget_aset_ne; done.
Qed.

Lemma ld_st_eq m a v : ld (st m a v) a = u8 v.
Proof. by rewrite ld_st, Z.eqb_refl. Qed.

Lemma ld_st_ne m a v x : a <> x -> ld (st m a v) x = ld m x.
Proof. intros. rewrite ld_st. by decide_b. Qed.

Lemma u8_ld m a : u8 (ld m a) = ld m a.
Proof. apply u8_small, ld_range. Qed.

Lemma ld_empty a : ld mem_empty a = 0.
Proof. unfold ld, mem_empty; cbn. destruct (in_user a); by rewrite aget_empty. Qed.

#[export] Hint Rewrite ld_st_eq u8_ld ld_empty : arr.
#[export] Hint Rewrite ld_st_ne using lia : arr.

Lemma ld32_range m a : 0 <= ld32 m a < 2 ^ 32.
Proof.
  unfold ld32. pose proof (ld_range m a). pose proof (ld_range m (a + 1)).
  pose proof (ld_range m (a + 2)). pose proof (ld_range m (a + 3)). lia.
Qed.

Lemma ld_st32 m a v x :
  ld (st32 m a v) x = if (a <=? x) && (x <? a + 4) then u8 (v / 2 ^ (8 * (x - a))) else ld m x.
Proof.
  unfold st32. rewrite !ld_st.
  destruct (Z.eqb_spec (a + 3) x), (Z.eqb_spec (a + 2) x), (Z.eqb_spec (a + 1) x),
    (Z.eqb_spec a x), (Z.leb_spec a x), (Z.ltb_spec x (a + 4)); cbn [andb]; try lia; try done;
    subst.
  - replace (8 * (a + 3 - a)) with 24 by lia. done.
  - replace (8 * (a + 2 - a)) with 16 by lia. done.
  - replace (8 * (a + 1 - a)) with 8 by lia. done.
  - rewrite Z.sub_diag. cbn. by rewrite Z.div_1_r.
Qed.

Lemma ld32_st32 m a v : ld32 (st32 m a v) a = u32 v.
Proof.
  unfold ld32. rewrite !ld_st32. decide_b. cbn [andb].
  replace (a - a) with 0 by lia. replace (a + 1 - a) with 1 by lia.
  replace (a + 2 - a) with 2 by lia. replace (a + 3 - a) with 3 by lia.
  unfold u8, u32.
  change (2 ^ (8 * 0)) with 1. change (2 ^ (8 * 1)) with (2 ^ 8).
  change (2 ^ (8 * 2)) with (2 ^ 16). change (2 ^ (8 * 3)) with (2 ^ 24).
  Z.div_mod_to_equations. lia.
Qed.

Lemma ld32_ext m m' a :
  (forall x, a <= x < a + 4 -> ld m' x = ld m x) -> ld32 m' a = ld32 m a.
Proof. intros H. unfold ld32. rewrite !H by lia. done. Qed.

Lemma ld_st32_ne m a v x : x < a \/ a + 4 <= x -> ld (st32 m a v) x = ld m x.
Proof. intros. rewrite ld_st32. destruct (Z.leb_spec a x), (Z.ltb_spec x (a + 4)); cbn; lia || done. Qed.

Lemma ld32_st32_ne m a v b : b + 4 <= a \/ a + 4 <= b -> ld32 (st32 m a v) b = ld32 m b.
Proof. intros. apply ld32_ext. intros. apply ld_st32_ne. lia. Qed.

Lemma length_bytes m n : forall a, length (bytes m a n) = n.
Proof. induction n; intros; cbn; congruence. Qed.

Lemma nth_bytes m n : forall a k, (k < n)%nat -> nth k (bytes m a n) 0 = ld m (a + Z.of_nat k).
Proof.
  induction n as [|n IH]; intros a k Hk; [lia|].
  destruct k; cbn [bytes nth]; [f_equal; lia|]. rewrite IH by lia. f_equal; lia.
Qed.

Lemma bytes_ext m m' n : forall a b,
  (forall k, 0 <= k < Z.of_nat n -> ld m (a + k) = ld m' (b + k)) -> bytes m a n = bytes m' b n.
Proof.
  induction n as [|n IH]; intros a b H; cbn [bytes]; [done|]. f_equal.
  - specialize (H 0 ltac:(lia)). by rewrite !Z.add_0_r in H.
  - apply IH. intros k Hk. specialize (H (k + 1) ltac:(lia)).
    by replace (a + 1 + k) with (a + (k + 1)) by lia;
       replace (b + 1 + k) with (b + (k + 1)) by lia.
Qed.

Lemma bytes_app m n k : forall a, bytes m a (n + k) = bytes m a n ++ bytes m (a + Z.of_nat n) k.
Proof.
  induction n as [|n IH]; intros a; cbn [bytes Nat.add app]; [by rewrite Z.add_0_r|].
  rewrite IH. do 3 f_equal. lia.
Qed.

Lemma ld_st_list l : forall m a x,
  ld (st_list m a l) x = if (a <=? x) && (x <? a + Z.of_nat (length l))
                         then u8 (nth (Z.to_nat (x - a)) l 0) else ld m x.
Proof.
  induction l as [|y l IH]; intros m a x; cbn [st_list length].
  - destruct (Z.leb_spec a x), (Z.ltb_spec x (a + Z.of_nat 0)); cbn; lia || done.
  - rewrite IH, ld_st.
    destruct (Z.eqb_spec a x), (Z.leb_spec (a + 1) x), (Z.leb_spec a x),
      (Z.ltb_spec x (a + 1 + Z.of_nat (length l))), (Z.ltb_spec x (a + Z.of_nat (S (length l))));
      cbn [andb]; try lia; try done; subst.
    + by rewrite Z.sub_diag.
    + by replace (Z.to_nat (x - a)) with (S (Z.to_nat (x - (a + 1)))) by lia.
Qed.

(** *** C strings *)

Lemma cstr_spec m l : forall a,
  cstr m a l <->
  bytes m a (length l) = l /\ Forall (fun c => c <> 0) l /\ ld m (a + Z.of_nat (length l)) = 0.
Proof.
  induction l as [|c l IH]; intros a; cbn [cstr bytes length].
  - rewrite Z.add_0_r. split; [by intros|by intros (_ & _ & ?)].
  - rewrite IH, List.Forall_cons_iff. replace (a + Z.of_nat (S (length l))) with (a + 1 + Z.of_nat (length l)) by lia.
    split.
    + intros (E1 & ? & E2 & ? & ?). rewrite E1, E2. auto.
    + intros (E & [? ?] & ?). injection E as E1 E2. auto.
Qed.

Lemma cstr_nth m a l k :
  cstr m a l -> 0 <= k < Z.of_nat (length l) ->
  ld m (a + k) = nth (Z.to_nat k) l 0 /\ ld m (a + k) <> 0.
Proof.
  rewrite cstr_spec. intros (Hb & Hnz & _) Hk.
  assert (E : nth (Z.to_nat k) l 0 = ld m (a + k)).
  { rewrite <- Hb at 1. rewrite nth_bytes by lia. f_equal; lia. }
  split; [done|]. rewrite <- E. rewrite List.Forall_forall in Hnz. apply Hnz, nth_In. lia.
Qed.

Lemma cstr_end m a l : cstr m a l -> ld m (a + Z.of_nat (length l)) = 0.
Proof. rewrite cstr_spec. tauto. Qed.

Lemma cstr_intro m a l :
  (forall k, 0 <= k < Z.of_nat (length l) ->
     ld m (a + k) = nth (Z.to_nat k) l 0 /\ nth (Z.to_nat k) l 0 <> 0) ->
  ld m (a + Z.of_nat (length l)) = 0 -> cstr m a l.
Proof.
  revert a. induction l as [|c l IH]; intros a H0 H1; cbn [cstr length] in *.
  - by rewrite Z.add_0_r in H1.
  - pose proof (H0 0 ltac:(lia)) as [E ?]. rewrite Z.add_0_r in E. cbn in *.
    repeat split; auto. apply IH.
    + intros k Hk. specialize (H0 (k + 1) ltac:(lia)).
      replace (Z.to_nat (k + 1)) with (S (Z.to_nat k)) in H0 by lia.
      by replace (a + 1 + k) with (a + (k + 1)) by lia.
    + rewrite <- H1. f_equal; lia.
Qed.

(** The string at an address is determined by the memory. *)
Lemma cstr_inj m l1 : forall l2 a, cstr m a l1 -> cstr m a l2 -> l1 = l2.
Proof.
  induction l1 as [|c l1 IH]; intros [|d l2] a; cbn [cstr]; intros H1 H2; try done.
  - destruct H2 as (? & ? & _); congruence.
  - destruct H1 as (? & ? & _); congruence.
  - destruct H1 as (? & ? & ?), H2 as (? & ? & ?). f_equal; [congruence|by eapply IH].
Qed.

Lemma cstr_ext m m' a l :
  (forall x, a <= x <= a + Z.of_nat (length l) -> ld m' x = ld m x) -> cstr m a l -> cstr m' a l.
Proof.
  intros E H. apply cstr_intro.
  - intros k Hk. destruct (cstr_nth _ _ _ k H Hk) as [E1 ?]. rewrite E by lia. split; congruence.
  - rewrite E by lia. by apply cstr_end.
Qed.

(** *** Fills and copies *)

Lemma filled_refl m a v : filled m m a 0 v.
Proof. intros x. destruct (Z.leb_spec a x), (Z.ltb_spec x (a + 0)); cbn; lia || done. Qed.

Lemma filled_trans m m1 m2 a n1 n2 v :
  0 <= n1 -> 0 <= n2 ->
  filled m m1 a n1 v -> filled m1 m2 (a + n1) n2 v -> filled m m2 a (n1 + n2) v.
Proof.
  intros ?? H1 H2 x. rewrite H2, H1.
  destruct (Z.leb_spec (a + n1) x), (Z.ltb_spec x (a + n1 + n2)), (Z.leb_spec a x),
    (Z.ltb_spec x (a + n1)), (Z.ltb_spec x (a + (n1 + n2))); cbn; try lia; done.
Qed.

Lemma filled_st m a v : filled m (st m a v) a 1 (u8 v).
Proof.
  intros x. rewrite ld_st.
  destruct (Z.eqb_spec a x), (Z.leb_spec a x), (Z.ltb_spec x (a + 1)); cbn; try lia; done.
Qed.

Lemma copied_refl m d s : copied m m d s 0.
Proof. intros x. destruct (Z.leb_spec d x), (Z.ltb_spec x (d + 0)); cbn; lia || done. Qed.

(** Ascending copies compose when the destination does not run into the unread source. *)
Lemma copied_trans m m1 m2 d s n1 n2 :
  0 <= n1 -> 0 <= n2 -> d <= s \/ s + n1 + n2 <= d ->
  copied m m1 d s n1 -> copied m1 m2 (d + n1) (s + n1) n2 -> copied m m2 d s (n1 + n2).
Proof.
  intros ?? Hov H1 H2 x. rewrite H2.
  destruct (Z.leb_spec (d + n1) x), (Z.ltb_spec x (d + n1 + n2)); cbn [andb];
    rewrite H1;
    destruct (Z.leb_spec d x), (Z.ltb_spec x (d + (n1 + n2))), (Z.ltb_spec x (d + n1));
    cbn [andb]; try lia; try done;
    destruct (Z.leb_spec d (s + n1 + (x - (d + n1)))),
      (Z.ltb_spec (s + n1 + (x - (d + n1))) (d + n1)); cbn; try lia; f_equal; lia.
Qed.

Lemma copied_st m d s : copied m (st m d (ld m s)) d s 1.
Proof.
  intros x. rewrite ld_st, u8_ld.
  destruct (Z.eqb_spec d x), (Z.leb_spec d x), (Z.ltb_spec x (d + 1)); cbn; try lia; [|done..].
  f_equal; lia.
Qed.

(** A word is loaded before it is stored, so a word copy is right for any overlap. *)
Lemma copied_st32 m d s : copied m (st32 m d (ld32 m s)) d s 4.
Proof.
  intros x. rewrite ld_st32.
  destruct (Z.leb_spec d x), (Z.ltb_spec x (d + 4)); cbn [andb]; try done.
  assert (Hx : x = d \/ x = d + 1 \/ x = d + 2 \/ x = d + 3) by lia.
  unfold ld32, u8. pose proof (ld_range m s). pose proof (ld_range m (s + 1)).
  pose proof (ld_range m (s + 2)). pose proof (ld_range m (s + 3)).
  destruct Hx as [-> | [-> | [-> | ->] ] ].
  - replace (d - d) with 0 by lia. rewrite Z.add_0_r. cbn [Z.mul Z.pow].
    change (2 ^ 0) with 1. Z.div_mod_to_equations; lia.
  - replace (d + 1 - d) with 1 by lia. change (2 ^ (8 * 1)) with 256.
    Z.div_mod_to_equations; lia.
  - replace (d + 2 - d) with 2 by lia. change (2 ^ (8 * 2)) with 65536.
    Z.div_mod_to_equations; lia.
  - replace (d + 3 - d) with 3 by lia. change (2 ^ (8 * 3)) with 16777216.
    Z.div_mod_to_equations; lia.
Qed.

Lemma st32_outside m a v : unchanged_outside m (st32 m a v) a 4.
Proof. intros x Hx. rewrite ld_st32. destruct (Z.leb_spec a x), (Z.ltb_spec x (a + 4)); cbn [andb]; lia || done. Qed.

Lemma copied_outside m m' d s n : copied m m' d s n -> unchanged_outside m m' d n.
Proof.
  intros H x Hx. rewrite H. destruct (Z.leb_spec d x), (Z.ltb_spec x (d + n)); cbn; lia || done.
Qed.

Lemma copied_bytes m m' d s n k :
  copied m m' d s n -> Z.of_nat k <= n -> bytes m' d k = bytes m s k.
Proof.
  intros H Hk. apply bytes_ext. intros i Hi. rewrite H. decide_b. cbn. f_equal; lia.
Qed.

(** *** The fuel bound *)

Lemma ld_nonzero_dom m a : ld m a <> 0 -> a ∈ dom (km m) ∪ dom (um m).
Proof.
  unfold ld, aget. intros H. rewrite elem_of_union, !elem_of_dom.
  destruct (in_user a); [right|left].
  - destruct (um m !! a); [by eexists|by cbn in H].
  - destruct (km m !! a); [by eexists|by cbn in H].
Qed.

(** A list of distinct non-zero addresses is shorter than [mem_fuel m]. *)
Lemma mem_fuel_bound_list m (L : list Z) :
  NoDup L -> (forall x, x ∈ L -> ld m x <> 0) -> (length L < mem_fuel m)%nat.
Proof.
  intros Hnd Hnz. unfold mem_fuel.
  assert (Hsub : list_to_set L ⊆ (dom (km m) ∪ dom (um m) : gset Z)).
  { intros x. rewrite elem_of_list_to_set. intros Hx. by apply ld_nonzero_dom, Hnz. }
  apply subseteq_size in Hsub. rewrite size_list_to_set in Hsub by done.
  rewrite size_union_alt in Hsub.
  assert (size (dom (um m) ∖ dom (km m) : gset Z) ≤ size (dom (um m) : gset Z))%nat
    by (apply subseteq_size, subseteq_difference_l; done).
  rewrite !size_dom in *. lia.
Qed.

(** Fewer than [mem_fuel m] consecutive cells are non-zero. *)
Lemma mem_fuel_bound m s n :
  (forall i, 0 <= i < Z.of_nat n -> ld m (s + i) <> 0) -> (n < mem_fuel m)%nat.
Proof.
  intros H. replace n with (length (seqZ s (Z.of_nat n))) at 1 by (rewrite length_seqZ; lia).
  apply mem_fuel_bound_list; [apply NoDup_seqZ|]. intros x. rewrite elem_of_seqZ. intros Hx.
  specialize (H (x - s) ltac:(lia)). by replace (s + (x - s)) with x in H by lia.
Qed.
