(* ===== verification/LibString.v ===== *)
(** * lib/lib.c: strings and memory blocks

    The C string routines and the inline-assembly block routines.  A pointer is an address of
    [mem]; the assembly routines follow their labels ([.memcpy_top], [.memcpy_aligned],
    [.memcpy_bottom]) with the registers EDI, ESI, ECX and EDX as the loop variables. *)

From S2P Require Import Prelude Mem.

(** ** Strings *)

(** [register uint32_t len] counts up to the first NUL; every address space has one within
    [mem_fuel] cells (mem_fuel_bound). *)
Fixpoint strlen_loop (fuel : nat) (m : mem) (s len : Z) : option Z :=
  match fuel with
  | O => None
  | S f => if ld m (s + len) =? 0 then Some len else strlen_loop f m s (len + 1)
  end.

Definition strlen (m : mem) (s : Z) : Z := default 0 (strlen_loop (mem_fuel m) m s 0).

(** Swap ends, then move both inwards; [end] starts at [strlen(s) - 1], -1 for "". *)
Fixpoint strrev_loop (fuel : nat) (m : mem) (s beg end_ : Z) : mem :=
  match fuel with
  | O => m
  | S f =>
      if beg <? end_ then
        let tmp := ld m (s + end_) in
        let m1 := st m (s + end_) (ld m (s + beg)) in
        let m2 := st m1 (s + beg) tmp in
        strrev_loop f m2 s (beg + 1) (end_ - 1)
      else m
  end.

Definition strrev (m : mem) (s : Z) : mem :=
  let end_ := strlen m s - 1 in
  strrev_loop (Z.to_nat (end_ + 1)) m s 0 end_.

(** The digit table "0123456789ABCDEFGHIJKLMNOPQRSTUVWXYZ". *)
Definition itoa_lookup (i : Z) : Z :=
  if (0 <=? i) && (i <? 10) then 48 + i else if (10 <=? i) && (i <? 36) then 55 + i else 0.

(** Digits from the lowest place value up; returns the memory and [newbuf].  32 rounds are
    enough for a 32-bit value in any radix of at least 2. *)
Fixpoint itoa_loop (fuel : nat) (m : mem) (newbuf newval radix : Z) : mem * Z :=
  match fuel with
  | O => (m, newbuf)
  | S f =>
      if 0 <? newval then
        let i := newval mod radix in
        itoa_loop f (st m newbuf (itoa_lookup i)) (newbuf + 1) (newval / radix) radix
      else (m, newbuf)
  end.

Definition itoa (m : mem) (value buf radix : Z) : mem :=
  if value =? 0 then st (st m buf 48) (buf + 1) 0
  else
    let '(m1, newbuf) := itoa_loop 32 m buf value radix in
    strrev (st m1 newbuf 0) buf.

(** Bytes are compared as [int8_t] (signed [char]); a loop of at most [n] rounds. *)
Fixpoint strncmp_loop (n : nat) (m : mem) (s1 s2 i : Z) : Z :=
  match n with
  | O => 0
  | S n' =>
      if negb (ld m (s1 + i) =? ld m (s2 + i)) || (ld m (s1 + i) =? 0)
      then s8 (ld m (s1 + i)) - s8 (ld m (s2 + i))
      else strncmp_loop n' m s1 s2 (i + 1)
  end.

Definition strncmp (m : mem) (s1 s2 n : Z) : Z := strncmp_loop (Z.to_nat n) m s1 s2 0.

(** [None]: the copy overwrites the terminator before it reads it, and the loop does not end. *)
Fixpoint strcpy_loop (fuel : nat) (m : mem) (dest src i : Z) : option mem :=
  match fuel with
  | O => None
  | S f =>
      if ld m (src + i) =? 0 then Some (st m (dest + i) 0)
      else strcpy_loop f (st m (dest + i) (ld m (src + i))) dest src (i + 1)
  end.

Definition strcpy (m : mem) (dest src : Z) : option mem :=
  strcpy_loop (mem_fuel m) m dest src 0.

(** [while (src[i] != 0 && i < n)]: returns the memory and [i]. *)
Fixpoint strncpy_loop (fuel : nat) (m : mem) (dest src i : Z) : mem * Z :=
  match fuel with
  | O => (m, i)
  | S f =>
      if ld m (src + i) =? 0 then (m, i)
      else strncpy_loop f (st m (dest + i) (ld m (src + i))) dest src (i + 1)
  end.

Definition strncpy (m : mem) (dest src n : Z) : mem :=
  let '(m1, i) := strncpy_loop (Z.to_nat n) m dest src 0 in
  for_ i n (fun i m => st m (dest + i) 0) m1.

(** ** Memory blocks (inline assembly) *)

(** [.memset_top]: bytes until ECX is 0 or EDI is 4-byte aligned; returns (mem, EDI, ECX). *)
Fixpoint memset_top (fuel : nat) (m : mem) (edi ecx al : Z) : mem * Z * Z :=
  match fuel with
  | O => (m, edi, ecx)
  | S f =>
      if ecx =? 0 then (m, edi, ecx)
      else if Z.land edi 3 =? 0 then (m, edi, ecx)
      else memset_top f (st m edi al) (edi + 1) (ecx - 1) al
  end.

(** [rep stosl]. *)
Fixpoint rep_stosl (ecx : nat) (m : mem) (edi eax : Z) : mem :=
  match ecx with
  | O => m
  | S n => rep_stosl n (st32 m edi eax) (edi + 4) eax
  end.

(** [.memset_bottom] (and [rep stosb]). *)
Fixpoint rep_stosb (edx : nat) (m : mem) (edi al : Z) : mem :=
  match edx with
  | O => m
  | S n => rep_stosb n (st m edi al) (edi + 1) al
  end.

Definition memset (m : mem) (s c n : Z) : mem :=
  let c := Z.land c 0xFF in
  let eax := Z.lor (Z.lor (Z.lor (Z.shiftl c 24) (Z.shiftl c 16)) (Z.shiftl c 8)) c in
  let '(m1, edi, ecx) := memset_top (Z.to_nat n) m s n (u8 eax) in
  if ecx =? 0 then m1
  else
    let edx := Z.land ecx 3 in
    let ecx4 := Z.shiftr ecx 2 in
    let m2 := rep_stosl (Z.to_nat ecx4) m1 edi eax in
    rep_stosb (Z.to_nat edx) m2 (edi + 4 * ecx4) (u8 eax).

(** [rep stosw]: the low 16 bits of EAX. *)
Fixpoint memset_word (m : mem) (s c : Z) (n : nat) : mem :=
  match n with
  | O => m
  | S n' => memset_word (st (st m s c) (s + 1) (c / 2 ^ 8)) (s + 2) c n'
  end.

Definition memset_dword (m : mem) (s c : Z) (n : nat) : mem := rep_stosl n m s c.

(** [.memcpy_top]; returns (mem, EDI, ESI, ECX). *)
Fixpoint memcpy_top (fuel : nat) (m : mem) (edi esi ecx : Z) : mem * Z * Z * Z :=
  match fuel with
  | O => (m, edi, esi, ecx)
  | S f =>
      if ecx =? 0 then (m, edi, esi, ecx)
      else if Z.land edi 3 =? 0 then (m, edi, esi, ecx)
      else memcpy_top f (st m edi (ld m esi)) (edi + 1) (esi + 1) (ecx - 1)
  end.

(** [rep movsl], direction flag clear. *)
Fixpoint rep_movsl (ecx : nat) (m : mem) (edi esi : Z) : mem :=
  match ecx with
  | O => m
  | S n => rep_movsl n (st32 m edi (ld32 m esi)) (edi + 4) (esi + 4)
  end.

(** [.memcpy_bottom], and [rep movsb] with the direction flag clear. *)
Fixpoint rep_movsb (n : nat) (m : mem) (edi esi : Z) : mem :=
  match n with
  | O => m
  | S n' => rep_movsb n' (st m edi (ld m esi)) (edi + 1) (esi + 1)
  end.

(** [rep movsb] with the direction flag set. *)
Fixpoint rep_movsb_down (n : nat) (m : mem) (edi esi : Z) : mem :=
  match n with
  | O => m
  | S n' => rep_movsb_down n' (st m edi (ld m esi)) (edi - 1) (esi - 1)
  end.

Definition memcpy (m : mem) (dest src n : Z) : mem :=
  let '(m1, edi, esi, ecx) := memcpy_top (Z.to_nat n) m dest src n in
  if ecx =? 0 then m1
  else
    let edx := Z.land ecx 3 in
    let ecx4 := Z.shiftr ecx 2 in
    let m2 := rep_movsl (Z.to_nat ecx4) m1 edi esi in
    rep_movsb (Z.to_nat edx) m2 (edi + 4 * ecx4) (esi + 4 * ecx4).

(** Returns the memory and the direction flag the routine leaves behind: [std] is executed on
    the descending path and no [cld] follows it. *)
Definition memmove (m : mem) (dest src n : Z) : mem * bool :=
  if dest <=? src then (rep_movsb (Z.to_nat n) m dest src, false)
  else (rep_movsb_down (Z.to_nat n) m (dest + n - 1) (src + n - 1), true).

(** ** Reference definitions *)

(** The value of a digit character, and of a numeral in a radix (most significant first). *)
Definition digit_value (c : Z) : Z :=
  if (48 <=? c) && (c <? 58) then c - 48 else if (65 <=? c) && (c <? 91) then c - 55 else -1.

Definition numeral_value (radix : Z) (l : list Z) : Z :=
  fold_left (fun acc c => acc * radix + digit_value c) l 0.

(** Digits from the lowest place value up. *)
Fixpoint digits_low (fuel : nat) (v radix : Z) : list Z :=
  match fuel with
  | O => []
  | S f => if 0 <? v then itoa_lookup (v mod radix) :: digits_low f (v / radix) radix else []
  end.

(** ** Lemmas: strings *)

Lemma strlen_loop_Some f m s : forall len n,
  strlen_loop f m s len = Some n ->
  len <= n /\ ld m (s + n) = 0 /\ forall i, len <= i < n -> ld m (s + i) <> 0.
Proof.
  induction f as [|f IH]; intros len n; cbn [strlen_loop]; [done|]. case_b.
  - intros [= <-]. repeat split; [lia|done|intros; lia].
  - intros H. apply IH in H as (? & ? & Hi). repeat split; [lia|done|].
    intros i ?. destruct (decide (i = len)) as [->|]; [done|]. apply Hi; lia.
Qed.

Lemma strlen_loop_None f m s : forall len,
  strlen_loop f m s len = None -> forall i, 0 <= i < Z.of_nat f -> ld m (s + len + i) <> 0.
Proof.
  induction f as [|f IH]; intros len; cbn [strlen_loop]; [intros; lia|]. case_b; [done|].
  intros H i Hi. destruct (decide (i = 0)) as [->|]; [by rewrite Z.add_0_r|].
  replace (s + len + i) with (s + (len + 1) + (i - 1)) by lia. apply IH; [done|lia].
Qed.

Lemma strlen_loop_total m s : exists n, strlen_loop (mem_fuel m) m s 0 = Some n.
Proof.
  destruct (strlen_loop (mem_fuel m) m s 0) as [n|] eqn:E; [by exists n|].
  exfalso. assert (mem_fuel m < mem_fuel m)%nat; [|lia].
  apply (mem_fuel_bound m s). intros i Hi.
  pose proof (strlen_loop_None _ _ _ _ E i Hi) as H. by rewrite Z.add_0_r in H.
Qed.

Lemma strlen_spec m s :
  0 <= strlen m s /\ ld m (s + strlen m s) = 0 /\
  forall i, 0 <= i < strlen m s -> ld m (s + i) <> 0.
Proof.
  unfold strlen. destruct (strlen_loop_total m s) as [n E]. rewrite E. cbn.
  by apply strlen_loop_Some in E.
Qed.

Lemma strlen_cstr m s : cstr m s (bytes m s (Z.to_nat (strlen m s))).
Proof.
  destruct (strlen_spec m s) as (? & H0 & Hi). apply cstr_intro; rewrite length_bytes.
  - intros k Hk. rewrite nth_bytes by lia. replace (Z.of_nat (Z.to_nat k)) with k by lia.
    split; [done|]. apply Hi; lia.
  - by replace (Z.of_nat (Z.to_nat (strlen m s))) with (strlen m s) by lia.
Qed.

Lemma strlen_eq m s l : cstr m s l -> strlen m s = Z.of_nat (length l).
Proof.
  intros H. pose proof (cstr_inj _ _ _ _ H (strlen_cstr m s)) as ->. rewrite length_bytes.
  destruct (strlen_spec m s). lia.
Qed.

Lemma strlen_fuel m s : (Z.to_nat (strlen m s) < mem_fuel m)%nat.
Proof.
  destruct (strlen_spec m s) as (? & _ & Hi).
  apply (mem_fuel_bound m s). intros i Hi'. apply Hi; lia.
Qed.

Lemma strrev_loop_spec f : forall m s b e,
  e - b < Z.of_nat f ->
  forall x, ld (strrev_loop f m s b e) x
            = if (s + b <=? x) && (x <=? s + e) then ld m (s + b + (s + e - x)) else ld m x.
Proof.
  induction f as [|f IH]; intros m s b e Hf x; cbn [strrev_loop].
  - destruct (Z.leb_spec (s + b) x), (Z.leb_spec x (s + e)); cbn; lia || done.
  - destruct (Z.ltb_spec b e).
    + rewrite IH by lia. rewrite !ld_st, !u8_ld.
      destruct (Z.leb_spec (s + (b + 1)) x), (Z.leb_spec x (s + (e - 1))),
        (Z.leb_spec (s + b) x), (Z.leb_spec x (s + e)); cbn [andb]; try lia;
        repeat case_b; subst; try lia; f_equal; lia.
    + destruct (Z.leb_spec (s + b) x), (Z.leb_spec x (s + e)); cbn; try done. f_equal; lia.
Qed.

(** In-place reversal of a string. *)
Lemma strrev_cstr m s l :
  cstr m s l ->
  cstr (strrev m s) s (rev l) /\ unchanged_outside m (strrev m s) s (Z.of_nat (length l)).
Proof.
  intros H. unfold strrev. rewrite (strlen_eq _ _ _ H).
  set (n := Z.of_nat (length l)).
  assert (E : forall x, ld (strrev_loop (Z.to_nat (n - 1 + 1)) m s 0 (n - 1)) x
     = if (s <=? x) && (x <=? s + (n - 1)) then ld m (s + (s + (n - 1) - x)) else ld m x).
  { intros x. rewrite strrev_loop_spec by lia. by rewrite !Z.add_0_r. }
  split.
  - apply cstr_intro; rewrite length_rev; fold n.
    + intros k Hk. rewrite E. decide_b. cbn [andb].
      replace (s + (s + (n - 1) - (s + k))) with (s + (n - 1 - k)) by lia.
      destruct (cstr_nth m s l (n - 1 - k) H ltac:(lia)) as [E1 ?].
      rewrite rev_nth by lia. replace (length l - S (Z.to_nat k))%nat with (Z.to_nat (n - 1 - k)) by lia.
      split; congruence.
    + rewrite E. destruct (Z.leb_spec (s + n) (s + (n - 1))); [lia|]. rewrite andb_false_r.
      by apply cstr_end.
  - intros x Hx. rewrite E.
    destruct (Z.leb_spec s x), (Z.leb_spec x (s + (n - 1))); cbn; lia || done.
Qed.

(** *** itoa *)

Lemma itoa_loop_eq f : forall m nb v r,
  itoa_loop f m nb v r
  = (st_list m nb (digits_low f v r), nb + Z.of_nat (length (digits_low f v r))).
Proof.
  induction f as [|f IH]; intros m nb v r; cbn [itoa_loop digits_low].
  - cbn. by rewrite Z.add_0_r.
  - destruct (0 <? v); cbn [st_list length].
    + rewrite IH. f_equal; lia.
    + by rewrite Z.add_0_r.
Qed.

Lemma itoa_lookup_range i : 0 <= i < 36 -> 48 <= itoa_lookup i < 91.
Proof. intros. unfold itoa_lookup. destruct (Z.ltb_spec i 10); decide_b; cbn; lia. Qed.

Lemma digit_value_lookup i : 0 <= i < 36 -> digit_value (itoa_lookup i) = i.
Proof.
  intros. unfold itoa_lookup. destruct (Z.ltb_spec i 10); decide_b; cbn [andb];
    unfold digit_value; decide_b; cbn; lia.
Qed.

Lemma digits_low_range f : forall v r,
  2 <= r <= 36 -> Forall (fun c => 48 <= c < 91) (digits_low f v r).
Proof.
  induction f as [|f IH]; intros v r Hr; cbn [digits_low]; [constructor|].
  destruct (0 <? v); constructor; [|by apply IH].
  apply itoa_lookup_range. pose proof (Z.mod_pos_bound v r). lia.
Qed.

Lemma div_lt_pow v r k : 2 <= r -> v < r ^ Z.of_nat (S k) -> v / r < r ^ Z.of_nat k.
Proof.
  intros Hr Hv. apply Z.div_lt_upper_bound; [lia|]. rewrite <- Z.pow_succ_r by lia.
  by replace (Z.succ (Z.of_nat k)) with (Z.of_nat (S k)) by lia.
Qed.

Lemma digits_low_length f : forall v r k,
  2 <= r -> v < r ^ Z.of_nat k -> (length (digits_low f v r) <= k)%nat.
Proof.
  induction f as [|f IH]; intros v r k Hr Hk; cbn [digits_low]; [cbn; lia|].
  destruct (Z.ltb_spec 0 v); [|cbn; lia]. destruct k as [|k]; [cbn in Hk; lia|].
  cbn [length]. apply le_n_S, IH; [done|]. by apply div_lt_pow.
Qed.

Lemma numeral_value_snoc r l c : numeral_value r (l ++ [c]) = numeral_value r l * r + digit_value c.
Proof. unfold numeral_value. by rewrite fold_left_app. Qed.

Lemma numeral_value_digits f : forall v r,
  2 <= r <= 36 -> 0 <= v < r ^ Z.of_nat f -> numeral_value r (rev (digits_low f v r)) = v.
Proof.
  induction f as [|f IH]; intros v r Hr Hv; cbn [digits_low]; [cbn in *; lia|].
  destruct (Z.ltb_spec 0 v); [|cbn; lia]. cbn [rev].
  pose proof (Z.mod_pos_bound v r ltac:(lia)). pose proof (Z.div_mod v r ltac:(lia)).
  rewrite numeral_value_snoc, digit_value_lookup by lia. rewrite IH; [lia|done|].
  split; [apply Z.div_pos; lia|apply div_lt_pow; lia].
Qed.

(** The most significant digit is not '0'. *)
Lemma digits_low_last f : forall v r,
  2 <= r <= 36 -> 0 < v < r ^ Z.of_nat f -> List.last (digits_low f v r) 0 <> 48.
Proof.
  induction f as [|f IH]; intros v r Hr Hv; cbn [digits_low]; [cbn in *; lia|].
  decide_b. pose proof (Z.mod_pos_bound v r ltac:(lia)). pose proof (Z.div_mod v r ltac:(lia)).
  assert (Hd : v / r < r ^ Z.of_nat f) by (apply div_lt_pow; lia).
  destruct (Z.ltb_spec 0 (v / r)) as [Hq|Hq].
  - specialize (IH (v / r) r Hr ltac:(lia)).
    destruct (digits_low f (v / r) r) eqn:E; [|done]. destruct f; cbn in E, Hd; [lia|].
    rewrite (proj2 (Z.ltb_lt 0 (v / r)) Hq) in E. done.
  - assert (v / r = 0) by (pose proof (Z.div_pos v r); lia).
    replace (digits_low f (v / r) r) with (@nil Z) by (destruct f; cbn; by decide_b).
    cbn. unfold itoa_lookup. destruct (Z.ltb_spec (v mod r) 10); decide_b; cbn; lia.
Qed.

Lemma cstr_st_list m a l :
  Forall (fun c => 0 < c < 256) l -> cstr (st (st_list m a l) (a + Z.of_nat (length l)) 0) a l.
Proof.
  intros Hl. rewrite List.Forall_forall in Hl. apply cstr_intro.
  - intros k Hk. rewrite ld_st_ne, ld_st_list by lia. decide_b. cbn [andb].
    replace (a + k - a) with k by lia.
    assert (H : 0 < nth (Z.to_nat k) l 0 < 256) by (apply Hl, nth_In; lia).
    rewrite u8_small by lia. lia.
  - by rewrite ld_st_eq.
Qed.

Lemma hd_rev_last {A} (d : A) (l : list A) : List.hd d (rev l) = List.last l d.
Proof.
  induction l as [|x l IH] using rev_ind; [done|]. rewrite rev_app_distr, last_last. done.
Qed.

Lemma itoa_spec m value buf radix :
  0 <= value < 2 ^ 32 -> 2 <= radix <= 36 ->
  exists l, cstr (itoa m value buf radix) buf l /\ numeral_value radix l = value /\
    (length l <= 32)%nat /\ Forall (fun c => 48 <= c < 91) l /\
    (value <> 0 -> List.hd 0 l <> 48) /\
    (forall k, value < radix ^ Z.of_nat (S k) -> (length l <= S k)%nat) /\
    unchanged_outside m (itoa m value buf radix) buf (Z.of_nat (length l) + 1).
Proof.
  intros Hv Hr. unfold itoa.
  assert (H32 : 2 ^ 32 <= radix ^ Z.of_nat 32) by (apply (Z.pow_le_mono_l 2 radix); lia).
  destruct (Z.eqb_spec value 0) as [->|Hnz].
  - exists [48]. split; [|split; [done|]; repeat split; try done; try (cbn; lia)].
    + cbn. by rewrite (ld_st_ne _ (buf + 1)), !ld_st_eq by lia.
    + constructor; [lia|constructor].
    + intros x Hx. cbn in Hx. by rewrite !ld_st_ne by lia.
  - rewrite itoa_loop_eq. set (l := digits_low 32 value radix).
    pose proof (digits_low_range 32 value radix Hr) as Hd. fold l in Hd.
    assert (Hc : cstr (st (st_list m buf l) (buf + Z.of_nat (length l)) 0) buf l).
    { apply cstr_st_list. eapply List.Forall_impl; [|exact Hd]. cbn; lia. }
    apply strrev_cstr in Hc as [Hc Ho]. exists (rev l).
    rewrite length_rev. repeat split; try done.
    + apply numeral_value_digits; [done|lia].
    + apply digits_low_length; lia.
    + by apply List.Forall_rev.
    + intros _. rewrite hd_rev_last. apply digits_low_last; [done|lia].
    + intros k Hk. apply digits_low_length; [lia|done].
    + intros x Hx. rewrite Ho by lia. rewrite ld_st_ne, ld_st_list by lia.
      destruct (Z.leb_spec buf x), (Z.ltb_spec x (buf + Z.of_nat (length l))); cbn; lia || done.
Qed.

(** *** strcpy, strncmp *)

Lemma strcpy_loop_spec f : forall m d s i n,
  0 <= i <= n -> n - i < Z.of_nat f ->
  (forall j, i <= j < n -> ld m (s + j) <> 0) -> ld m (s + n) = 0 ->
  d <= s \/ s + n < d ->
  exists m', strcpy_loop f m d s i = Some m' /\ copied m m' (d + i) (s + i) (n - i + 1).
Proof.
  induction f as [|f IH]; intros m d s i n Hi Hf Hnz Hz Hov; [lia|]. cbn [strcpy_loop].
  destruct (decide (i = n)) as [->|Hne].
  - rewrite Hz. cbn. eexists; split; [done|]. rewrite Z.sub_diag, Z.add_0_l.
    rewrite <- Hz. apply copied_st.
  - destruct (Z.eqb_spec (ld m (s + i)) 0) as [E|E]; [by destruct (Hnz i ltac:(lia))|].
    destruct (IH (st m (d + i) (ld m (s + i))) d s (i + 1) n) as (m' & E' & Hc);
      [lia|lia| | |lia|].
    + intros j Hj. rewrite ld_st_ne by lia. apply Hnz; lia.
    + by rewrite ld_st_ne by lia.
    + exists m'. split; [done|]. replace (n - i + 1) with (1 + (n - (i + 1) + 1)) by lia.
      eapply copied_trans; [lia|lia|lia|apply copied_st|].
      by replace (d + i + 1) with (d + (i + 1)) by lia;
         replace (s + i + 1) with (s + (i + 1)) by lia.
Qed.

Lemma strcpy_spec m d s :
  d <= s \/ s + strlen m s < d ->
  exists m', strcpy m d s = Some m' /\ copied m m' d s (strlen m s + 1).
Proof.
  intros Hov. destruct (strlen_spec m s) as (? & ? & Hnz). unfold strcpy.
  pose proof (strlen_fuel m s).
  destruct (strcpy_loop_spec (mem_fuel m) m d s 0 (strlen m s)) as (m' & E & Hc);
    [lia|lia|exact Hnz|done|done|].
  exists m'. by rewrite !Z.add_0_r, Z.sub_0_r in Hc.
Qed.

Lemma copied_cstr m m' d s n l :
  copied m m' d s n -> Z.of_nat (length l) < n -> cstr m s l -> cstr m' d l.
Proof.
  intros Hc Hn Hs. apply cstr_intro.
  - intros k Hk. rewrite Hc. decide_b. cbn. replace (s + (d + k - d)) with (s + k) by lia.
    destruct (cstr_nth _ _ _ k Hs Hk). split; congruence.
  - rewrite Hc. decide_b. cbn. replace (d + Z.of_nat (length l) - d) with (Z.of_nat (length l)) by lia.
    by apply cstr_end.
Qed.

Lemma s8_inj_byte a b : 0 <= a < 256 -> 0 <= b < 256 -> s8 a - s8 b = 0 -> a = b.
Proof.
  intros Ha Hb H. assert (E : u8 (s8 a) = u8 (s8 b)) by (f_equal; lia).
  rewrite !u8_s8, !u8_small in E by lia. done.
Qed.

(** Zero exactly when the two strings agree on their first [n] bytes, up to a NUL. *)
Lemma strncmp_loop_zero n m s1 s2 : forall l1 l2 i,
  cstr m (s1 + i) l1 -> cstr m (s2 + i) l2 ->
  (strncmp_loop n m s1 s2 i = 0 <-> take n l1 = take n l2).
Proof.
  induction n as [|n IH]; intros l1 l2 i H1 H2; [done|]. cbn [strncmp_loop].
  destruct l1 as [|c1 l1], l2 as [|c2 l2]; cbn [cstr] in H1, H2; cbn [take].
  - rewrite H1, H2. done.
  - destruct H2 as (E2 & ? & _). rewrite H1, E2. destruct (Z.eqb_spec 0 c2); [done|]. cbn.
    split; [|done]. intros E. pose proof (ld_range m (s2 + i)).
    exfalso. apply (s8_inj_byte 0 c2) in E; lia.
  - destruct H1 as (E1 & ? & _). rewrite H2, E1. destruct (Z.eqb_spec c1 0); [done|]. cbn.
    split; [|done]. intros E. pose proof (ld_range m (s1 + i)).
    exfalso. apply (s8_inj_byte c1 0) in E; lia.
  - destruct H1 as (E1 & ? & H1), H2 as (E2 & ? & H2). rewrite E1, E2.
    pose proof (ld_range m (s1 + i)). pose proof (ld_range m (s2 + i)).
    destruct (Z.eqb_spec c1 c2) as [->|Hne]; cbn [negb orb].
    + decide_b. rewrite (IH l1 l2 (i + 1)); [|by rewrite Z.add_assoc..].
      split; [by intros ->|by intros [= ->]].
    + split; [|congruence]. intros E. apply s8_inj_byte in E; lia.
Qed.

Lemma strncmp_zero m s1 s2 n l1 l2 :
  cstr m s1 l1 -> cstr m s2 l2 ->
  (strncmp m s1 s2 n = 0 <-> take (Z.to_nat n) l1 = take (Z.to_nat n) l2).
Proof. intros. apply strncmp_loop_zero; by rewrite Z.add_0_r. Qed.

(** ** Lemmas: memory blocks *)

(** Use a lemma on a [nat] count for a non-negative [Z] count. *)
Ltac use_count L := let H := fresh in pose proof L as H; rewrite !Z2Nat.id in H by done; exact H.

Lemma memset_top_spec f : forall m edi ecx al,
  0 <= ecx <= Z.of_nat f -> 0 <= al < 256 ->
  let '(m', edi', ecx') := memset_top f m edi ecx al in
  0 <= ecx' /\ edi <= edi' /\ edi' + ecx' = edi + ecx /\
  filled m m' edi (edi' - edi) al.
Proof.
  induction f as [|f IH]; intros m edi ecx al Hf Hal; cbn [memset_top].
  - repeat split; try lia. rewrite Z.sub_diag. apply filled_refl.
  - destruct (Z.eqb_spec ecx 0).
    { repeat split; try lia. rewrite Z.sub_diag. apply filled_refl. }
    destruct (Z.eqb_spec (Z.land edi 3) 0).
    { repeat split; try lia. rewrite Z.sub_diag. apply filled_refl. }
    specialize (IH (st m edi al) (edi + 1) (ecx - 1) al ltac:(lia) Hal).
    destruct (memset_top f (st m edi al) (edi + 1) (ecx - 1) al) as [[m' edi'] ecx'].
    destruct IH as (? & ? & ? & Hfl). repeat split; try lia.
    replace (edi' - edi) with (1 + (edi' - (edi + 1))) by lia.
    eapply filled_trans; [lia|lia| |exact Hfl]. rewrite <- (u8_small al) at 2 by lia.
    apply filled_st.
Qed.

Lemma rep_stosb_spec n : forall m edi al, 0 <= al < 256 ->
  filled m (rep_stosb n m edi al) edi (Z.of_nat n) al.
Proof.
  induction n as [|n IH]; intros m edi al Hal; cbn [rep_stosb]; [apply filled_refl|].
  replace (Z.of_nat (S n)) with (1 + Z.of_nat n) by lia.
  eapply filled_trans; [lia|lia| |by apply IH]. rewrite <- (u8_small al) at 2 by lia.
  apply filled_st.
Qed.

Lemma rep_stosl_spec n : forall m edi c, 0 <= c < 256 ->
  filled m (rep_stosl n m edi (c * 16843009)) edi (4 * Z.of_nat n) c.
Proof.
  induction n as [|n IH]; intros m edi c Hc; cbn [rep_stosl]; [apply filled_refl|].
  replace (4 * Z.of_nat (S n)) with (4 + 4 * Z.of_nat n) by lia.
  eapply filled_trans; [lia|lia| |by apply IH]. intros x. rewrite ld_st32.
  destruct (Z.leb_spec edi x), (Z.ltb_spec x (edi + 4)); cbn [andb]; try done.
  unfold u8. assert (Hx : x - edi = 0 \/ x - edi = 1 \/ x - edi = 2 \/ x - edi = 3) by lia.
  destruct Hx as [-> | [-> | [-> | ->]]];
    [change (2 ^ (8 * 0)) with 1|change (2 ^ (8 * 1)) with 256
    |change (2 ^ (8 * 2)) with 65536|change (2 ^ (8 * 3)) with 16777216];
    Z.div_mod_to_equations; lia.
Qed.

(** The byte replicated in EAX. *)
Lemma memset_eax c : 0 <= c < 256 ->
  Z.lor (Z.lor (Z.lor (Z.shiftl c 24) (Z.shiftl c 16)) (Z.shiftl c 8)) c = c * 16843009.
Proof.
  intros Hc. apply Z.eqb_eq. revert c Hc. apply (check_below 256 (fun c =>
    Z.lor (Z.lor (Z.lor (Z.shiftl c 24) (Z.shiftl c 16)) (Z.shiftl c 8)) c =? c * 16843009)).
  by vm_compute.
Qed.

(** ECX = 4 * (ECX >> 2) + (ECX & 3). *)
Lemma ecx_split ecx : 0 <= ecx ->
  0 <= Z.land ecx 3 /\ 0 <= Z.shiftr ecx 2 /\ 4 * Z.shiftr ecx 2 + Z.land ecx 3 = ecx.
Proof.
  intros. change 3 with (Z.ones 2). rewrite Z.land_ones, Z.shiftr_div_pow2 by lia.
  change (2 ^ 2) with 4. Z.div_mod_to_equations. lia.
Qed.

Lemma memset_spec m s c n : 0 <= n -> filled m (memset m s c n) s n (u8 c).
Proof.
  intros Hn. unfold memset. rewrite land_ff, memset_eax by apply u8_range.
  set (b := u8 c). assert (Hb : 0 <= b < 256) by apply u8_range.
  replace (u8 (b * 16843009)) with b by (unfold u8; Z.div_mod_to_equations; lia).
  pose proof (memset_top_spec (Z.to_nat n) m s n b ltac:(lia) Hb) as Ht.
  destruct (memset_top (Z.to_nat n) m s n b) as [[m1 edi] ecx].
  destruct Ht as (? & ? & ? & Hf). destruct (Z.eqb_spec ecx 0) as [->|].
  - by replace n with (edi - s) by lia.
  - destruct (ecx_split ecx) as (? & ? & ?); [done|].
    replace n with ((edi - s) + (4 * Z.shiftr ecx 2 + Z.land ecx 3)) by lia.
    eapply filled_trans; [lia|lia|exact Hf|]. replace (s + (edi - s)) with edi by lia.
    eapply filled_trans; [lia|lia| |].
    + use_count (rep_stosl_spec (Z.to_nat (Z.shiftr ecx 2)) m1 edi b Hb).
    + use_count (rep_stosb_spec (Z.to_nat (Z.land ecx 3))
        (rep_stosl (Z.to_nat (Z.shiftr ecx 2)) m1 edi (b * 16843009))
        (edi + 4 * Z.shiftr ecx 2) b Hb).
Qed.

Lemma memcpy_top_spec f : forall m edi esi ecx,
  0 <= ecx <= Z.of_nat f -> edi <= esi \/ esi + ecx <= edi ->
  let '(m', edi', esi', ecx') := memcpy_top f m edi esi ecx in
  0 <= ecx' /\ edi <= edi' /\ edi' + ecx' = edi + ecx /\ esi' - esi = edi' - edi /\
  copied m m' edi esi (edi' - edi).
Proof.
  induction f as [|f IH]; intros m edi esi ecx Hf Hov; cbn [memcpy_top].
  - repeat split; try lia. rewrite Z.sub_diag. apply copied_refl.
  - destruct (Z.eqb_spec ecx 0).
    { repeat split; try lia. rewrite Z.sub_diag. apply copied_refl. }
    destruct (Z.eqb_spec (Z.land edi 3) 0).
    { repeat split; try lia. rewrite Z.sub_diag. apply copied_refl. }
    specialize (IH (st m edi (ld m esi)) (edi + 1) (esi + 1) (ecx - 1) ltac:(lia) ltac:(lia)).
    destruct (memcpy_top f (st m edi (ld m esi)) (edi + 1) (esi + 1) (ecx - 1))
      as [[[m' edi'] esi'] ecx'].
    destruct IH as (? & ? & ? & ? & Hc). repeat split; try lia.
    replace (edi' - edi) with (1 + (edi' - (edi + 1))) by lia.
    eapply copied_trans; [lia|lia|lia|apply copied_st|exact Hc].
Qed.

Lemma rep_movsb_spec n : forall m edi esi,
  edi <= esi \/ esi + Z.of_nat n <= edi -> copied m (rep_movsb n m edi esi) edi esi (Z.of_nat n).
Proof.
  induction n as [|n IH]; intros m edi esi Hov; cbn [rep_movsb]; [apply copied_refl|].
  replace (Z.of_nat (S n)) with (1 + Z.of_nat n) by lia.
  eapply copied_trans; [lia|lia|lia|apply copied_st|]. apply IH; lia.
Qed.

Lemma rep_movsl_spec n : forall m edi esi,
  edi <= esi \/ esi + 4 * Z.of_nat n <= edi ->
  copied m (rep_movsl n m edi esi) edi esi (4 * Z.of_nat n).
Proof.
  induction n as [|n IH]; intros m edi esi Hov; cbn [rep_movsl]; [apply copied_refl|].
  replace (4 * Z.of_nat (S n)) with (4 + 4 * Z.of_nat n) by lia.
  eapply copied_trans; [lia|lia|lia|apply copied_st32|]. apply IH; lia.
Qed.

Lemma memcpy_spec m dest src n :
  0 <= n -> dest <= src \/ src + n <= dest -> copied m (memcpy m dest src n) dest src n.
Proof.
  intros Hn Hov. unfold memcpy.
  pose proof (memcpy_top_spec (Z.to_nat n) m dest src n ltac:(lia) Hov) as Ht.
  destruct (memcpy_top (Z.to_nat n) m dest src n) as [[[m1 edi] esi] ecx].
  destruct Ht as (? & ? & ? & ? & Hc). destruct (Z.eqb_spec ecx 0) as [->|].
  - by replace n with (edi - dest) by lia.
  - destruct (ecx_split ecx) as (? & ? & ?); [done|].
    replace n with ((edi - dest) + (4 * Z.shiftr ecx 2 + Z.land ecx 3)) by lia.
    eapply copied_trans; [lia|lia|lia|exact Hc|].
    replace (dest + (edi - dest)) with edi by lia. replace (src + (edi - dest)) with esi by lia.
    eapply copied_trans; [lia|lia|lia| |].
    + use_count (rep_movsl_spec (Z.to_nat (Z.shiftr ecx 2)) m1 edi esi ltac:(lia)).
    + use_count (rep_movsb_spec (Z.to_nat (Z.land ecx 3))
        (rep_movsl (Z.to_nat (Z.shiftr ecx 2)) m1 edi esi) (edi + 4 * Z.shiftr ecx 2)
        (esi + 4 * Z.shiftr ecx 2) ltac:(lia)).
Qed.

(** The descending copy: from the last byte down, for a destination above the source. *)
Lemma rep_movsb_down_spec n : forall m edi esi,
  esi < edi ->
  copied m (rep_movsb_down n m edi esi) (edi - Z.of_nat n + 1) (esi - Z.of_nat n + 1) (Z.of_nat n).
Proof.
  induction n as [|n IH]; intros m edi esi Hov; cbn [rep_movsb_down]; [apply copied_refl|].
  intros x. rewrite IH by lia. rewrite !ld_st, u8_ld.
  destruct (Z.leb_spec (edi - 1 - Z.of_nat n + 1) x), (Z.ltb_spec x (edi - 1 - Z.of_nat n + 1 + Z.of_nat n)),
    (Z.leb_spec (edi - Z.of_nat (S n) + 1) x),
    (Z.ltb_spec x (edi - Z.of_nat (S n) + 1 + Z.of_nat (S n))); cbn [andb]; try lia;
    case_b; subst; try lia; f_equal; lia.
Qed.

Lemma memmove_spec m dest src n :
  0 <= n -> copied m (memmove m dest src n).1 dest src n.
Proof.
  intros Hn. unfold memmove. destruct (Z.leb_spec dest src); cbn [fst].
  - use_count (rep_movsb_spec (Z.to_nat n) m dest src ltac:(lia)).
  - pose proof (rep_movsb_down_spec (Z.to_nat n) m (dest + n - 1) (src + n - 1) ltac:(lia)) as Hc.
    replace (Z.of_nat (Z.to_nat n)) with n in Hc by lia.
    by replace (dest + n - 1 - n + 1) with dest in Hc by lia;
       replace (src + n - 1 - n + 1) with src in Hc by lia.
Qed.

(** The comparison of two names by [strlen] and then [strncmp], as fs.c makes it. *)
Lemma same_name m s1 s2 l1 l2 :
  cstr m s1 l1 -> cstr m s2 l2 ->
  (strlen m s1 = strlen m s2 /\ strncmp m s1 s2 (strlen m s1) = 0 <-> l1 = l2).
Proof.
  intros H1 H2. rewrite (strncmp_zero _ _ _ _ _ _ H1 H2), (strlen_eq _ _ _ H1), (strlen_eq _ _ _ H2).
  rewrite Nat2Z.id. split.
  - intros [Hl Ht]. rewrite firstn_all in Ht. rewrite Ht. rewrite take_ge; [done|lia].
  - by intros ->.
Qed.

(** ** Properties *)

(** C38: [itoa] terminates for every 32-bit value and radix 2..36 and writes a NUL-terminated
    numeral: reading it back in the radix gives the value, it has no leading zero, it takes at
    most 32 digits (10 in decimal, 8 in hexadecimal, so the 36- and 64-byte conversion buffers
    of printf are large enough), and no byte outside the numeral and its NUL changes. *)
Theorem itoa_roundtrip m value buf radix :
  0 <= value < 2 ^ 32 -> 2 <= radix <= 36 ->
  exists l, cstr (itoa m value buf radix) buf l /\ numeral_value radix l = value /\
    (value <> 0 -> List.hd 0 l <> 48) /\ (length l <= 32)%nat /\
    (radix = 10 -> (length l <= 10)%nat) /\ (radix = 16 -> (length l <= 8)%nat) /\
    unchanged_outside m (itoa m value buf radix) buf (Z.of_nat (length l) + 1).
Proof.
  intros Hv Hr. destruct (itoa_spec m value buf radix Hv Hr) as (l & ? & ? & ? & ? & ? & Hk & ?).
  exists l. repeat split; try done; intros ->; apply Hk; lia.
Qed.

(** The numeral of 391 in decimal. *)
Lemma itoa_roundtrip_witness :
  bytes (itoa mem_empty 391 100 10) 100 4 = [51; 57; 49; 0] /\
  exists l, cstr (itoa mem_empty 391 100 10) 100 l /\ numeral_value 10 l = 391.
Proof.
  split; [by vm_compute|].
  destruct (itoa_roundtrip mem_empty 391 100 10) as (l & ? & ? & _); [lia|lia|by exists l].
Defined.

(** [memcpy] (bytes to a 4-byte boundary, then [rep movsl], then the remaining bytes) is a
    plain copy of [n] bytes for every alignment and length, whenever the destination does not
    start inside the source; nothing outside the destination changes. *)
Theorem memcpy_correct m dest src n :
  0 <= n -> dest <= src \/ src + n <= dest -> copied m (memcpy m dest src n) dest src n.
Proof. apply memcpy_spec. Qed.

Lemma memcpy_correct_witness :
  bytes (memcpy (st_list mem_empty 101 [1; 2; 3; 4; 5; 6; 7; 8; 9; 10]) 203 101 10) 203 10
  = [1; 2; 3; 4; 5; 6; 7; 8; 9; 10] /\
  copied (st_list mem_empty 101 [1; 2; 3; 4; 5; 6; 7; 8; 9; 10])
    (memcpy (st_list mem_empty 101 [1; 2; 3; 4; 5; 6; 7; 8; 9; 10]) 203 101 10) 203 101 10.
Proof. split; [by vm_compute|]. apply memcpy_correct; lia. Defined.

(** C39: [memmove] copies correctly for every overlap of source and destination; it leaves the
    direction flag set exactly when the destination is above the source. *)
Theorem memmove_correct m dest src n :
  0 <= n -> copied m (memmove m dest src n).1 dest src n /\
            ((memmove m dest src n).2 = true <-> src < dest).
Proof.
  intros Hn. split; [by apply memmove_spec|]. unfold memmove.
  destruct (Z.leb_spec dest src); cbn; split; intros; try done; lia.
Qed.

Lemma memmove_correct_witness :
  bytes (memmove (st_list mem_empty 100 [1; 2; 3; 4; 5]) 102 100 5).1 102 5 = [1; 2; 3; 4; 5] /\
  copied (st_list mem_empty 100 [1; 2; 3; 4; 5])
    (memmove (st_list mem_empty 100 [1; 2; 3; 4; 5]) 102 100 5).1 102 100 5.
Proof. split; [by vm_compute|]. apply memmove_correct; lia. Defined.

(** [memset] (the three-phase assembly) sets exactly [n] bytes to the low byte of [c]. *)
Theorem memset_correct m s c n : 0 <= n -> filled m (memset m s c n) s n (u8 c).
Proof. apply memset_spec. Qed.

Lemma memset_correct_witness :
  bytes (memset mem_empty 101 0x1FF 7) 100 9 = [0; 255; 255; 255; 255; 255; 255; 255; 0] /\
  filled mem_empty (memset mem_empty 101 0x1FF 7) 101 7 (u8 0x1FF).
Proof. split; [by vm_compute|]. apply memset_correct; lia. Defined.

(** when the destination does not start inside the source string, [strcpy] terminates, the
    destination holds the string with its NUL, and no other byte changes. *)
Theorem strcpy_correct m dest src l :
  cstr m src l -> dest <= src \/ src + Z.of_nat (length l) < dest ->
  exists m', strcpy m dest src = Some m' /\ cstr m' dest l /\
             unchanged_outside m m' dest (Z.of_nat (length l) + 1).
Proof.
  intros Hs Hov. pose proof (strlen_eq _ _ _ Hs) as El.
  destruct (strcpy_spec m dest src) as (m' & E & Hc); [lia|]. rewrite El in Hc.
  exists m'. split; [done|]. split; [eapply copied_cstr; eauto; lia|]. by eapply copied_outside.
Qed.

Lemma strcpy_correct_witness :
  cstr (st_list mem_empty 100 [97; 98; 0]) 100 [97; 98] /\
  exists m', strcpy (st_list mem_empty 100 [97; 98; 0]) 200 100 = Some m' /\ cstr m' 200 [97; 98].
Proof.
  assert (H : cstr (st_list mem_empty 100 [97; 98; 0]) 100 [97; 98]) by (by vm_compute).
  split; [exact H|].
  destruct (strcpy_correct _ 200 100 [97; 98] H) as (m' & E & ? & _); [cbn; lia|by exists m'].
Defined.
