(* ===== verification/Console.v ===== *)
(** * lib/lib.c: the boot console

    [putc], [puts] and [printf] on the text-mode video memory, with the cursor held in the file
    variables [screen_x] and [screen_y].  Port writes are recorded as a trace of (port, byte). *)

From S2P Require Import Prelude Mem LibString.

Definition NUM_COLS : Z := 80.

Definition NUM_ROWS : Z := 25.

Definition ATTRIB : Z := 0x7.

(** A trace of [outb(data, port)] in program order. *)
Definition io := list (Z * Z).

(** [video] is the bytes from the address [VIDEO] up. *)
Record console := Console { screen_x : Z; screen_y : Z; video : arr; con_io : io }.

(** One iteration of the loop of [clear]. *)
Definition clear_cell (i : Z) (c : console) : console :=
  Console 0 0 (video c).[Z.shiftl i 1 <- 32].[Z.shiftl i 1 + 1 <- ATTRIB] (con_io c).

Definition clear (c : console) : console := for_ 0 (NUM_ROWS * NUM_COLS) clear_cell c.

(** One iteration of each loop of [vertical_scroll]. *)
Definition scroll_cell (i : Z) (c : console) : console :=
  let v := video c in
  let v1 := v.[Z.shiftl i 1 <- v.[Z.shiftl i 1 + NUM_COLS * 2]] in
  let v2 := v1.[Z.shiftl i 1 + 1 <- v1.[Z.shiftl i 1 + 1 + NUM_COLS * 2]] in
  Console 0 (NUM_ROWS - 1) v2 (con_io c).

Definition blank_cell (i : Z) (c : console) : console :=
  Console (screen_x c) (screen_y c)
    (video c).[Z.shiftl i 1 <- 32].[Z.shiftl i 1 + 1 <- ATTRIB] (con_io c).

Definition vertical_scroll (c : console) : console :=
  let c1 := for_ 0 (NUM_ROWS * NUM_COLS - NUM_COLS) scroll_cell c in
  for_ (NUM_ROWS * NUM_COLS - NUM_COLS) (NUM_ROWS * NUM_COLS) blank_cell c1.

(** The cursor position goes to the CRTC registers 0x0F (low) and 0x0E (high). *)
Definition update_cursor (row col : Z) (c : console) : console :=
  let position := u16 (row * 80 + col) in
  Console (screen_x c) (screen_y c) (video c)
    (con_io c ++ [(0x3D4, 0x0F); (0x3D5, u8 (Z.land position 0xFF));
                  (0x3D4, 0x0E); (0x3D5, u8 (Z.land (Z.shiftr position 8) 0xFF))]).

Definition putc (ch : Z) (c : console) : console :=
  let c1 :=
    if (ch =? 10) || (ch =? 13) then Console 0 (screen_y c + 1) (video c) (con_io c)
    else
      let off := Z.shiftl (NUM_COLS * screen_y c + screen_x c) 1 in
      let v := (video c).[off <- ch].[off + 1 <- ATTRIB] in
      let x := screen_x c + 1 in
      let y := if x =? NUM_COLS then screen_y c + 1 else screen_y c in
      let x := Z.rem x NUM_COLS in
      if negb (y =? NUM_ROWS) then Console x (y + Z.quot x NUM_COLS) v (con_io c)
      else vertical_scroll (Console x y v (con_io c)) in
  let c2 := if screen_y c1 =? NUM_ROWS then vertical_scroll c1 else c1 in
  update_cursor (screen_y c2) (screen_x c2) c2.

(** [while (s[index] != 0) putc(s[index++])]; the string ends within [mem_fuel] bytes. *)
Fixpoint puts_loop (fuel : nat) (m : mem) (s index : Z) (c : console) : console * Z :=
  match fuel with
  | O => (c, index)
  | S f => if ld m (s + index) =? 0 then (c, index)
           else puts_loop f m s (index + 1) (putc (ld m (s + index)) c)
  end.

Definition puts (m : mem) (s : Z) (c : console) : console * Z := puts_loop (mem_fuel m) m s 0 c.

(** The conversions of [printf] that go through the local array [conv_buf], here at address 0 of
    a memory of its own. *)
Definition conv_x (value : Z) (c : console) : console := (puts (itoa mem_empty value 0 16) 0 c).1.

(** "%#x": the digits at [&conv_buf[8]], and '0' from index [strlen] up to 8 in front of them. *)
Definition conv_hash_x_buf (value : Z) : mem * Z :=
  let m1 := itoa mem_empty value 8 16 in
  let starting_index := strlen m1 8 in
  (for_ starting_index 8 (fun i m => st m i 48) m1, starting_index).

Definition conv_hash_x (value : Z) (c : console) : console :=
  let '(m, starting_index) := conv_hash_x_buf value in (puts m starting_index c).1.

Definition conv_u (value : Z) (c : console) : console := (puts (itoa mem_empty value 0 10) 0 c).1.

Definition conv_d_buf (value : Z) : mem :=
  if s32 value <? 0 then itoa (st mem_empty 0 45) (u32 (- s32 value)) 1 10
  else itoa mem_empty (s32 value) 0 10.

Definition conv_d (value : Z) (c : console) : console := (puts (conv_d_buf value) 0 c).1.

(** The label [format_char_switch] with [buf] after the '%'.  [args] are the 32-bit stack words
    from [esp] up.  Returns [buf] (at the conversion character), [esp] and the console. *)
Fixpoint format_char_switch (fuel : nat) (m : mem) (buf : Z) (args : list Z) (alternate : bool)
    (c : console) : option (Z * list Z * console) :=
  match fuel with
  | O => None
  | S f =>
      let ch := ld m buf in
      let arg := List.hd 0 args in
      let esp := List.tl args in
      if ch =? 37 then Some (buf, args, putc 37 c)                          (* %  *)
      else if ch =? 35 then format_char_switch f m (buf + 1) args true c    (* #  *)
      else if ch =? 120 then                                                (* x  *)
        Some (buf, esp, if alternate then conv_hash_x arg c else conv_x arg c)
      else if ch =? 117 then Some (buf, esp, conv_u arg c)                  (* u  *)
      else if ch =? 100 then Some (buf, esp, conv_d arg c)                  (* d  *)
      else if ch =? 99 then Some (buf, esp, putc (u8 arg) c)                (* c  *)
      else if ch =? 115 then Some (buf, esp, (puts m arg c).1)              (* s  *)
      else Some (buf, args, c)
  end.

(** Returns the console and [buf - format]. *)
Fixpoint printf_loop (fuel : nat) (m : mem) (format buf : Z) (args : list Z) (c : console)
    : option (console * Z) :=
  match fuel with
  | O => None
  | S f =>
      let ch := ld m buf in
      if ch =? 0 then Some (c, buf - format)
      else if ch =? 37 then
        match format_char_switch (mem_fuel m) m (buf + 1) args false c with
        | Some (buf', args', c') => printf_loop f m format (buf' + 1) args' c'
        | None => None
        end
      else printf_loop f m format (buf + 1) args (putc ch c)
  end.

(** A '%' at the end of the format makes [buf] step over the NUL; every round still passes a
    non-zero cell, so [mem_fuel] rounds are enough (printf_loop_total). *)
Definition printf (m : mem) (format : Z) (args : list Z) (c : console) : option (console * Z) :=
  printf_loop (mem_fuel m) m format format args c.

(** The characters of a source string literal. *)
Fixpoint chars (s : string) : list Z :=
  match s with
  | EmptyString => []
  | String a s' => Z.of_N (Ascii.N_of_ascii a) :: chars s'
  end.

(** [printf] with a literal format, which lies in read-only data of its own. *)
Definition printk (format : string) (args : list Z) (c : console) : console :=
  match printf (st_list mem_empty 16 (chars format ++ [0])) 16 args c with
  | Some (c', _) => c'
  | None => c
  end.

Arguments printk format%_string args c.

Definition test_interrupts (c : console) : console :=
  for_ 0 (NUM_ROWS * NUM_COLS) (fun i c =>
    Console (screen_x c) (screen_y c)
      (video c).[Z.shiftl i 1 <- u8 ((video c).[Z.shiftl i 1] + 1)] (con_io c)) c.

(** ** Specification *)

(** The cursor is on the screen. *)
Definition cursor_ok (c : console) : Prop :=
  0 <= screen_x c < NUM_COLS /\ 0 <= screen_y c < NUM_ROWS.

(** [c'] has a valid cursor and differs from [c] only in the 4000 bytes of the text screen. *)
Definition screen_step (c c' : console) : Prop :=
  cursor_ok c' /\ forall j, j < 0 \/ 2 * (NUM_ROWS * NUM_COLS) <= j -> (video c').[j] = (video c).[j].

(** Print the characters of a list. *)
Definition put_list (l : list Z) (c : console) : console := fold_left (fun c ch => putc ch c) l c.

(** The integer a decimal string with an optional minus sign denotes. *)
Definition decimal_value (l : list Z) : Z :=
  match l with
  | c :: d => if c =? 45 then - numeral_value 10 d else numeral_value 10 l
  | [] => 0
  end.

(** ** Lemmas *)

Lemma shl1 i : Z.shiftl i 1 = 2 * i.
Proof. rewrite Z.shiftl_mul_pow2 by lia. lia. Qed.

(** The two stores of one character cell. *)
Lemma aget_cell v i a b j :
  v.[Z.shiftl i 1 <- a].[Z.shiftl i 1 + 1 <- b].[j]
  = if j =? 2 * i then a else if j =? 2 * i + 1 then b else v.[j].
Proof.
  rewrite shl1, !aget_aset.
  destruct (Z.eqb_spec (2 * i + 1) j), (Z.eqb_spec (2 * i) j), (Z.eqb_spec j (2 * i)),
    (Z.eqb_spec j (2 * i + 1)); done || lia.
Qed.

Lemma scroll_loop c n j : 0 <= n ->
  (video (for_ 0 n scroll_cell c)).[j]
  = if (0 <=? j) && (j <? 2 * n) then (video c).[j + 160] else (video c).[j].
Proof.
  intros Hn. revert j.
  apply (for_inv (fun k (t : console) => forall j, (video t).[j]
    = if (0 <=? j) && (j <? 2 * k) then (video c).[j + 160] else (video c).[j])); [done|..].
  - intros k. by destruct (Z.leb_spec 0 k), (Z.ltb_spec k (2 * 0)); try lia.
  - intros i t Hi IH k. unfold scroll_cell, NUM_COLS; cbn [video].
    rewrite aget_cell, shl1, aget_aset_ne by lia. rewrite !IH. decide_b.
    rewrite !andb_false_r. destruct (Z.eqb_spec k (2 * i)); [subst; by decide_b|].
    destruct (Z.eqb_spec k (2 * i + 1)); [subst; by decide_b|].
    by destruct (Z.leb_spec 0 k), (Z.ltb_spec k (2 * i)), (Z.ltb_spec k (2 * (i + 1))); try lia.
Qed.

Lemma blank_loop c a b j : a <= b ->
  (video (for_ a b blank_cell c)).[j]
  = if (2 * a <=? j) && (j <? 2 * b) then (if Z.even j then 32 else ATTRIB) else (video c).[j].
Proof.
  intros Hab. revert j.
  apply (for_inv (fun k (t : console) => forall j, (video t).[j]
    = if (2 * a <=? j) && (j <? 2 * k) then (if Z.even j then 32 else ATTRIB)
      else (video c).[j])); [done|..].
  - intros k. by destruct (Z.leb_spec (2 * a) k), (Z.ltb_spec k (2 * a)); try lia.
  - intros i t Hi IH k. unfold blank_cell; cbn [video]. rewrite aget_cell, IH.
    destruct (Z.eqb_spec k (2 * i)) as [->|]; [decide_b; by rewrite Z.even_even|].
    destruct (Z.eqb_spec k (2 * i + 1)) as [->|]; [decide_b; by rewrite Z.even_odd|].
    by destruct (Z.leb_spec (2 * a) k), (Z.ltb_spec k (2 * i)), (Z.ltb_spec k (2 * (i + 1))); try lia.
Qed.

Lemma vertical_scroll_video c j :
  (video (vertical_scroll c)).[j]
  = if (0 <=? j) && (j <? 3840) then (video c).[j + 160]
    else if (3840 <=? j) && (j <? 4000) then (if Z.even j then 32 else ATTRIB)
    else (video c).[j].
Proof.
  unfold vertical_scroll, NUM_ROWS, NUM_COLS. rewrite blank_loop, scroll_loop by lia.
  change (2 * (25 * 80 - 80)) with 3840. change (2 * (25 * 80)) with 4000.
  by destruct (Z.leb_spec 0 j), (Z.ltb_spec j 3840), (Z.leb_spec 3840 j), (Z.ltb_spec j 4000);
    try lia.
Qed.

Lemma vertical_scroll_cursor c :
  screen_x (vertical_scroll c) = 0 /\ screen_y (vertical_scroll c) = NUM_ROWS - 1 /\
  con_io (vertical_scroll c) = con_io c.
Proof.
  unfold vertical_scroll.
  apply (for_keep (fun t => screen_x t = 0 /\ screen_y t = NUM_ROWS - 1 /\ con_io t = con_io c)).
  - rewrite for_step by (unfold NUM_ROWS, NUM_COLS; lia).
    apply (for_keep (fun t => screen_x t = 0 /\ screen_y t = NUM_ROWS - 1 /\ con_io t = con_io c));
      [done|by intros i t _ (_ & _ & ?)].
  - by intros i t _ (? & ? & ?).
Qed.

Lemma vertical_scroll_step c : screen_step c (vertical_scroll c).
Proof.
  split.
  - destruct (vertical_scroll_cursor c) as (Ex & Ey & _). unfold cursor_ok. rewrite Ex, Ey.
    unfold NUM_ROWS, NUM_COLS. lia.
  - intros j. unfold NUM_ROWS, NUM_COLS. intros Hj. rewrite vertical_scroll_video.
    by destruct (Z.leb_spec 0 j), (Z.ltb_spec j 3840), (Z.leb_spec 3840 j), (Z.ltb_spec j 4000);
      try lia.
Qed.

Lemma screen_step_trans c1 c2 c3 : screen_step c1 c2 -> screen_step c2 c3 -> screen_step c1 c3.
Proof. intros [_ H1] [? H2]. split; [done|]. intros j Hj. by rewrite H2, H1. Qed.

(** One character: the cursor stays on the screen, and only the screen changes. *)
Lemma putc_step ch c : cursor_ok c -> screen_step c (putc ch c).
Proof.
  intros [Hx Hy]. unfold putc, update_cursor.
  set (c1 := if (ch =? 10) || (ch =? 13) then _ else _).
  assert (H1 : 0 <= screen_x c1 < NUM_COLS /\ 0 <= screen_y c1 <= NUM_ROWS /\
    forall j, j < 0 \/ 2 * (NUM_ROWS * NUM_COLS) <= j -> (video c1).[j] = (video c).[j]).
  { unfold NUM_COLS, NUM_ROWS in *. subst c1.
    destruct ((ch =? 10) || (ch =? 13)); [cbn; split; [lia|split; [lia|done]]|].
    set (v := (video c).[_ <- ch].[_ <- ATTRIB]).
    assert (Hv : forall j, j < 0 \/ 2 * (25 * 80) <= j -> v.[j] = (video c).[j]).
    { intros j Hj. unfold v. rewrite aget_cell. by decide_b. }
    destruct (Z.eqb_spec (screen_x c + 1) 80) as [E|E].
    - rewrite E. change (Z.rem 80 80) with 0. change (Z.quot 0 80) with 0.
      destruct (Z.eqb_spec (screen_y c + 1) 25); cbn [negb].
      + destruct (vertical_scroll_step (Console 0 (screen_y c + 1) v (con_io c))) as [[? ?] Hs].
        unfold NUM_COLS, NUM_ROWS in *. split; [lia|split; [lia|]].
        intros j Hj. rewrite Hs by done. by apply Hv.
      + cbn. split; [lia|split; [lia|done]].
    - rewrite Z.rem_small by lia. rewrite Z.quot_small by lia.
      destruct (Z.eqb_spec (screen_y c) 25); [lia|]. cbn. split; [lia|split; [lia|done]]. }
  clearbody c1. destruct H1 as (? & ? & Hv). destruct (Z.eqb_spec (screen_y c1) NUM_ROWS).
  - destruct (vertical_scroll_step c1) as [Hcur Hs]. generalize dependent (vertical_scroll c1).
    intros c2 Hcur Hs. split; [exact Hcur|]. cbn [video]. intros j Hj. rewrite Hs by done. by apply Hv.
  - split; [|exact Hv]. unfold cursor_ok; cbn [screen_x screen_y]. lia.
Qed.

Lemma screen_step_refl c : cursor_ok c -> screen_step c c.
Proof. by split. Qed.

#[export] Hint Resolve putc_step screen_step_refl : kernel.

Lemma puts_loop_step f m s : forall i c, cursor_ok c -> screen_step c (puts_loop f m s i c).1.
Proof.
  induction f as [|f IH]; intros i c Hc; cbn [puts_loop]; [auto with kernel|].
  destruct (ld m (s + i) =? 0); [auto with kernel|].
  pose proof (putc_step (ld m (s + i)) c Hc) as Hp.
  eapply screen_step_trans; [exact Hp|]. apply IH, Hp.
Qed.

Lemma puts_step m s c : cursor_ok c -> screen_step c (puts m s c).1.
Proof. apply puts_loop_step. Qed.

#[export] Hint Resolve puts_step : kernel.

Lemma conv_hash_x_step v c : cursor_ok c -> screen_step c (conv_hash_x v c).
Proof. intros. unfold conv_hash_x. destruct (conv_hash_x_buf v). auto with kernel. Qed.

#[export] Hint Resolve conv_hash_x_step : kernel.

Lemma format_char_switch_step f m : forall buf args alt c b' a' c',
  cursor_ok c -> format_char_switch f m buf args alt c = Some (b', a', c') -> screen_step c c'.
Proof.
  induction f as [|f IH]; intros buf args alt c b' a' c' Hc; cbn [format_char_switch]; [done|].
  unfold conv_x, conv_u, conv_d.
  repeat case_match; intros E; simplify_eq; eauto with kernel.
Qed.

Lemma printf_loop_step f m format : forall buf args c c' n,
  cursor_ok c -> printf_loop f m format buf args c = Some (c', n) -> screen_step c c'.
Proof.
  induction f as [|f IH]; intros buf args c c' n Hc; cbn [printf_loop]; [done|].
  destruct (ld m buf =? 0); [intros [= -> _]; auto with kernel|].
  destruct (ld m buf =? 37).
  - destruct (format_char_switch (mem_fuel m) m (buf + 1) args false c) as [[[b' a'] c1]|] eqn:E; [|done].
    apply format_char_switch_step in E; [|done]. intros H.
    eapply screen_step_trans; [exact E|]. eapply IH; [|exact H]. apply E.
  - intros H. pose proof (putc_step (ld m buf) c Hc) as Hp.
    eapply screen_step_trans; [exact Hp|]. eapply IH; [|exact H]. apply Hp.
Qed.

(** The '#' flags of one conversion are non-zero cells in a row. *)
Lemma format_char_switch_None f m : forall buf args alt c,
  format_char_switch f m buf args alt c = None ->
  forall i, 0 <= i < Z.of_nat f -> ld m (buf + i) <> 0.
Proof.
  induction f as [|f IH]; intros buf args alt c; cbn [format_char_switch]; [intros; lia|].
  destruct (Z.eqb_spec (ld m buf) 37); [done|].
  destruct (Z.eqb_spec (ld m buf) 35) as [E|]; [|by repeat case_match].
  intros H i Hi. destruct (decide (i = 0)) as [->|]; [rewrite Z.add_0_r; lia|].
  replace (buf + i) with (buf + 1 + (i - 1)) by lia. eapply IH; [exact H|lia].
Qed.

Lemma format_char_switch_total m buf args alt c :
  exists b' a' c', format_char_switch (mem_fuel m) m buf args alt c = Some (b', a', c').
Proof.
  destruct (format_char_switch (mem_fuel m) m buf args alt c) as [[[b' a'] c']|] eqn:E; [by eauto|].
  pose proof (mem_fuel_bound m buf _ (format_char_switch_None _ _ _ _ _ _ E)). lia.
Qed.

Lemma format_char_switch_buf f m : forall buf args alt c b' a' c',
  format_char_switch f m buf args alt c = Some (b', a', c') -> buf <= b'.
Proof.
  induction f as [|f IH]; intros buf args alt c b' a' c'; cbn [format_char_switch]; [done|].
  destruct (ld m buf =? 37); [intros; simplify_eq; lia|].
  destruct (ld m buf =? 35); [intros H; apply IH in H; lia|].
  repeat case_match; intros; simplify_eq; lia.
Qed.

(** A loop that runs out of fuel has passed that many distinct non-zero cells. *)
Lemma printf_loop_None f m format : forall buf args c,
  printf_loop f m format buf args c = None ->
  exists L, length L = f /\ NoDup L /\ forall x, x ∈ L -> buf <= x /\ ld m x <> 0.
Proof.
  induction f as [|f IH]; intros buf args c; cbn [printf_loop].
  { intros _. exists []. split; [done|split; [constructor|]]. intros x Hx. by apply elem_of_nil in Hx. }
  destruct (Z.eqb_spec (ld m buf) 0) as [|Hnz]; [done|]. intros H.
  assert (Hrec : exists b' a' c', buf < b' /\ printf_loop f m format b' a' c' = None).
  { destruct (ld m buf =? 37); [|exists (buf + 1); eauto with lia].
    destruct (format_char_switch_total m (buf + 1) args false c) as (b' & a' & c' & E).
    rewrite E in H. apply format_char_switch_buf in E. exists (b' + 1), a', c'. split; [lia|done]. }
  destruct Hrec as (b' & a' & c' & Hb & HN). apply IH in HN as (L & <- & Hnd & HL).
  exists (buf :: L). split; [done|]. split.
  - constructor; [|done]. intros Hin. apply HL in Hin. lia.
  - intros x. rewrite elem_of_cons. intros [->|Hx]; [split; [lia|done]|]. apply HL in Hx. lia.
Qed.

Lemma printf_loop_total m format args c :
  exists c' n, printf_loop (mem_fuel m) m format format args c = Some (c', n).
Proof.
  destruct (printf_loop (mem_fuel m) m format format args c) as [[c' n]|] eqn:E; [by eauto|].
  apply printf_loop_None in E as (L & El & Hnd & HL).
  assert (length L < mem_fuel m)%nat; [|lia].
  apply mem_fuel_bound_list; [done|]. intros x Hx. apply HL, Hx.
Qed.

(** *** The number conversions *)

Lemma numeral_value_app r l1 : forall l2,
  numeral_value r (l1 ++ l2) = numeral_value r l1 * r ^ Z.of_nat (length l2) + numeral_value r l2.
Proof.
  intros l2. induction l2 as [|c l2 IH] using rev_ind.
  - rewrite app_nil_r. cbn. lia.
  - rewrite app_assoc, !numeral_value_snoc, IH, length_app. cbn [length].
    rewrite Nat2Z.inj_add, Z.pow_add_r by lia. lia.
Qed.

Lemma numeral_value_zeros r n : numeral_value r (repeat 48 n) = 0.
Proof.
  induction n as [|n IH]; [done|]. replace (S n) with (n + 1)%nat by lia.
  rewrite repeat_app. cbn [repeat]. rewrite numeral_value_snoc, IH. done.
Qed.

Lemma conv_hash_x_string value :
  0 <= value < 2 ^ 32 ->
  exists l, cstr (conv_hash_x_buf value).1 (conv_hash_x_buf value).2 l /\ length l = 8%nat /\
            numeral_value 16 l = value.
Proof.
  intros Hv. destruct (itoa_spec mem_empty value 8 16 Hv ltac:(lia))
    as (d & Hd & Hval & _ & Hch & _ & Hlen & _).
  specialize (Hlen 7%nat ltac:(lia)). unfold conv_hash_x_buf.
  rewrite (strlen_eq _ _ _ Hd). cbn [fst snd]. set (m1 := itoa mem_empty value 8 16) in *.
  set (k := length d) in *. exists (repeat 48 (8 - k) ++ d).
  assert (E : forall x, ld (for_ (Z.of_nat k) 8 (fun i m => st m i 48) m1) x
    = if (Z.of_nat k <=? x) && (x <? 8) then 48 else ld m1 x).
  { apply (for_inv (fun j t => forall x, ld t x
      = if (Z.of_nat k <=? x) && (x <? j) then 48 else ld m1 x)); [lia|..].
    - intros x. by destruct (Z.leb_spec (Z.of_nat k) x), (Z.ltb_spec x (Z.of_nat k)); try lia.
    - intros i t Hi IH x. rewrite ld_st, IH.
      by destruct (Z.eqb_spec i x), (Z.leb_spec (Z.of_nat k) x), (Z.ltb_spec x i),
        (Z.ltb_spec x (i + 1)); try lia. }
  split; [|split].
  - apply cstr_intro; rewrite length_app, repeat_length.
    + fold k. intros j Hj. rewrite E. destruct (Z.ltb_spec (Z.of_nat k + j) 8); decide_b; cbn [andb].
      * rewrite app_nth1 by (rewrite repeat_length; lia). rewrite nth_repeat_lt by lia. lia.
      * rewrite app_nth2 by (rewrite repeat_length; lia). rewrite repeat_length.
        replace (Z.to_nat j - (8 - k))%nat with (Z.to_nat (Z.of_nat k + j - 8)) by lia.
        destruct (cstr_nth m1 8 d (Z.of_nat k + j - 8) Hd ltac:(lia)) as [Ed ?].
        replace (8 + (Z.of_nat k + j - 8)) with (Z.of_nat k + j) in Ed, H0 by lia.
        split; congruence.
    + rewrite E. fold k. destruct (Z.ltb_spec (Z.of_nat k + Z.of_nat (8 - k + k)) 8); [lia|].
      rewrite andb_false_r. replace (Z.of_nat k + Z.of_nat (8 - k + k)) with (8 + Z.of_nat k) by lia.
      by apply cstr_end.
  - rewrite length_app, repeat_length. fold k. lia.
  - rewrite numeral_value_app, numeral_value_zeros. done.
Qed.

Lemma conv_d_string value :
  exists l, cstr (conv_d_buf value) 0 l /\ decimal_value l = s32 value.
Proof.
  assert (Hs : - 2 ^ 31 <= s32 value < 2 ^ 31).
  { unfold s32. pose proof (Z.mod_pos_bound (value + 2 ^ 31) (2 ^ 32)). lia. }
  unfold conv_d_buf. destruct (Z.ltb_spec (s32 value) 0).
  - rewrite u32_small by lia.
    destruct (itoa_spec (st mem_empty 0 45) (- s32 value) 1 10 ltac:(lia) ltac:(lia))
      as (d & Hd & Hv & _ & _ & _ & _ & Ho).
    exists (45 :: d). split; [|cbn; lia]. cbn [cstr]. rewrite Ho by lia. by rewrite ld_st_eq.
  - destruct (itoa_spec mem_empty (s32 value) 0 10 ltac:(lia) ltac:(lia))
      as (d & Hd & Hv & _ & Hc & _ & _ & _).
    exists d. split; [done|]. destruct d as [|c d]; [cbn in *; lia|]. cbn [decimal_value].
    inversion Hc; subst. by decide_b.
Qed.

(** [puts] prints the string. *)
Lemma puts_loop_string m s l : forall f i c,
  cstr m (s + i) l -> (length l < f)%nat ->
  puts_loop f m s i c = (put_list l c, i + Z.of_nat (length l)).
Proof.
  induction l as [|ch l IH]; intros f i c Hs Hf; (destruct f as [|f]; [cbn in Hf; lia|]);
    cbn [puts_loop cstr put_list fold_left length] in *.
  - rewrite Hs. cbn. by rewrite Z.add_0_r.
  - destruct Hs as (E & ? & Hs). rewrite E. decide_b. rewrite IH; [|by rewrite Z.add_assoc|lia].
    f_equal. lia.
Qed.

Lemma puts_string m s l c : cstr m s l -> puts m s c = (put_list l c, Z.of_nat (length l)).
Proof.
  intros Hs. unfold puts. rewrite (puts_loop_string m s l); [done|by rewrite Z.add_0_r|].
  pose proof (strlen_fuel m s). rewrite (strlen_eq _ _ _ Hs) in *. lia.
Qed.

(** ** Properties *)

(** C37: for every memory, format string and argument words, [printf] returns, keeps the cursor
    on the 80x25 screen, and writes no byte of video memory outside the 4000 bytes of the text
    screen. *)
Theorem printf_returns_and_stays_on_screen m format args c :
  cursor_ok c ->
  exists c' n, printf m format args c = Some (c', n) /\ cursor_ok c' /\
    forall j, j < 0 \/ 4000 <= j -> (video c').[j] = (video c).[j].
Proof.
  intros Hc. destruct (printf_loop_total m format args c) as (c' & n & E).
  exists c', n. split; [exact E|]. by destruct (printf_loop_step _ _ _ _ _ _ _ _ Hc E).
Qed.

Lemma printf_returns_and_stays_on_screen_witness :
  cursor_ok (Console 79 24 ∅ []) /\
  exists c' n, printf (st_list mem_empty 100 [104; 105; 37; 100; 10; 0]) 100 [391]
                 (Console 79 24 ∅ []) = Some (c', n) /\ cursor_ok c'.
Proof.
  assert (H : cursor_ok (Console 79 24 ∅ [])) by (vm_compute; repeat split; congruence).
  split; [exact H|].
  destruct (printf_returns_and_stays_on_screen
    (st_list mem_empty 100 [104; 105; 37; 100; 10; 0]) 100 [391] _ H) as (c' & n & E & Hc & _).
  by exists c', n.
Defined.

(** the number conversions print what they say: "%#x" prints exactly eight hexadecimal
    digits that denote the word, and "%d" prints a decimal numeral, with a minus sign for a
    negative word (-2147483648 included), that denotes the word as a signed integer. *)
Theorem printf_number_conversions value c :
  0 <= value < 2 ^ 32 ->
  (exists l, conv_hash_x value c = put_list l c /\ length l = 8%nat /\ numeral_value 16 l = value) /\
  (exists l, conv_d value c = put_list l c /\ decimal_value l = s32 value).
Proof.
  intros Hv. split.
  - destruct (conv_hash_x_string value Hv) as (l & Hl & ? & ?). exists l. split; [|done].
    unfold conv_hash_x. destruct (conv_hash_x_buf value) as [m i]. by rewrite (puts_string _ _ _ _ Hl).
  - destruct (conv_d_string value) as (l & Hl & ?). exists l. split; [|done].
    unfold conv_d. by rewrite (puts_string _ _ _ _ Hl).
Qed.

Lemma printf_number_conversions_witness :
  0 <= 0x80000000 < 2 ^ 32 /\
  exists l, conv_d 0x80000000 (Console 0 0 ∅ []) = put_list l (Console 0 0 ∅ []) /\
            decimal_value l = -2147483648.
Proof.
  split; [lia|].
  destruct (printf_number_conversions 0x80000000 (Console 0 0 ∅ []) ltac:(lia)) as [_ (l & E & Hl)].
  exists l. split; [exact E|]. rewrite Hl. reflexivity.
Defined.

(** [vertical_scroll] moves rows 1..24 up by one row, character and attribute, blanks the
    last row, puts the cursor at its start, and writes nothing outside the screen. *)
Theorem vertical_scroll_moves_rows c x y k :
  0 <= x < NUM_COLS -> 0 <= y < NUM_ROWS -> 0 <= k < 2 ->
  let cell (c : console) (y : Z) := (video c).[2 * (NUM_COLS * y + x) + k] in
  (y < NUM_ROWS - 1 -> cell (vertical_scroll c) y = cell c (y + 1)) /\
  (y = NUM_ROWS - 1 -> cell (vertical_scroll c) y = if k =? 0 then 32 else ATTRIB) /\
  screen_x (vertical_scroll c) = 0 /\ screen_y (vertical_scroll c) = NUM_ROWS - 1.
Proof.
  unfold NUM_ROWS, NUM_COLS. intros Hx Hy Hk.
  destruct (vertical_scroll_cursor c) as (Ex & Ey & _). rewrite vertical_scroll_video.
  split; [|split; [|by split]].
  - intros ?. decide_b. cbn [andb]. f_equal. lia.
  - intros ->. decide_b. cbn [andb]. assert (k = 0 \/ k = 1) as [-> | ->] by lia.
    + by rewrite Z.add_0_r, Z.even_even.
    + by rewrite Z.even_odd.
Qed.

Lemma vertical_scroll_moves_rows_witness :
  (video (vertical_scroll (Console 0 0 (∅.[2 * (80 * 1 + 5) <- 65]) []))).[2 * (80 * 0 + 5) + 0] = 65.
Proof.
  destruct (vertical_scroll_moves_rows (Console 0 0 (∅.[2 * (80 * 1 + 5) <- 65]) []) 5 0 0) as [H _];
    [unfold NUM_COLS; lia|unfold NUM_ROWS; lia|lia|].
  unfold NUM_COLS, NUM_ROWS in H. rewrite H by lia. reflexivity.
Defined.
