(* ===== verification/Machine.v ===== *)
(** * The machine the drivers program

    I/O ports and the interrupt flag are the processor's and the devices', not this
    repository's code: they are the operations of a class, the drivers are written against it,
    and the behaviour a driver relies on is a class of laws taken from the device's data sheet.
    [sim] is a small concrete machine that satisfies the laws. *)

From S2P Require Import Prelude.

(** [outb(data, port)] and [inb(port)] of lib/lib.h, and the IF bit of EFLAGS that [cli], [sti],
    [cli_and_save] and [restore_flags] read and write. *)
Class Machine (D : Type) := {
  outb : Z -> Z -> D -> D;
  inb : Z -> D -> Z * D;
  get_if : D -> bool;
  set_if : bool -> D -> D
}.

Definition cli {D} `{Machine D} (d : D) : D := set_if false d.

Definition sti {D} `{Machine D} (d : D) : D := set_if true d.

(** Port accesses do not change IF, and IF is not visible to the devices. *)
Class MachineLaws (D : Type) `{Machine D} := {
  get_set_if : forall b d, get_if (set_if b d) = b;
  get_if_outb : forall v p d, get_if (outb v p d) = get_if d;
  get_if_inb : forall p d, get_if (snd (inb p d)) = get_if d
}.

(** ** The 8259A interrupt controller

    [icws] is how many initialisation command words the chip still expects. *)
Record pic := Pic { imr : Z; isr : Z; base : Z; icws : Z }.

(** [false] is the master (ports 0x20/0x21), [true] the slave (0xA0/0xA1). *)
Definition pic_cmd (slave : bool) : Z := if slave then 0xA0 else 0x20.

Definition pic_data (slave : bool) : Z := if slave then 0xA1 else 0x21.

(** A write to the command port: ICW1 (bit 4 set) starts the initialisation and clears the mask;
    OCW2 0x60 | n is the specific end of interrupt n. *)
Definition pic_write_cmd (v : Z) (p : pic) : pic :=
  if Z.testbit v 4 then Pic 0 0 (base p) 3
  else if Z.land v 0xF8 =? 0x60 then Pic (imr p) (Z.clearbit (isr p) (Z.land v 7)) (base p) (icws p)
  else p.

(** A write to the data port: ICW2 (vector base), ICW3, ICW4, and then OCW1 (the mask). *)
Definition pic_write_data (v : Z) (p : pic) : pic :=
  if icws p =? 3 then Pic (imr p) (isr p) (Z.land v 0xF8) 2
  else if icws p =? 2 then Pic (imr p) (isr p) (base p) 1
  else if icws p =? 1 then Pic (imr p) (isr p) (base p) 0
  else Pic (u8 v) (isr p) (base p) (icws p).

Definition pic_write (slave : bool) (v port : Z) (p : pic) : pic :=
  if port =? pic_cmd slave then pic_write_cmd v p
  else if port =? pic_data slave then pic_write_data v p else p.

Class PicLaws (D : Type) `{Machine D} := {
  pic_of : bool -> D -> pic;
  pic_outb : forall s v p d, pic_of s (outb v p d) = pic_write s v p (pic_of s d);
  pic_inb_state : forall s p d, pic_of s (snd (inb p d)) = pic_of s d;
  pic_inb_data : forall s d, icws (pic_of s d) = 0 -> fst (inb (pic_data s) d) = imr (pic_of s d);
  pic_set_if : forall s b d, pic_of s (set_if b d) = pic_of s d
}.

(** ** The MC146818 real-time clock: an index port and a data port *)

Record rtc_chip := RtcChip { rtc_index : Z; rtc_regs : arr }.

(** Port 0x70 selects a register (bit 7 is the NMI mask); port 0x71 writes the selected one. *)
Definition rtc_port_write (v port : Z) (r : rtc_chip) : rtc_chip :=
  if port =? 0x70 then RtcChip (Z.land v 0x7F) (rtc_regs r)
  else if port =? 0x71 then RtcChip (rtc_index r) (aset (rtc_regs r) (rtc_index r) (u8 v))
  else r.

(** Reading register C acknowledges the interrupt and clears it. *)
Definition rtc_port_read (port : Z) (r : rtc_chip) : rtc_chip :=
  if (port =? 0x71) && (rtc_index r =? 0x0C)
  then RtcChip (rtc_index r) (aset (rtc_regs r) 0x0C 0) else r.

Class RtcLaws (D : Type) `{Machine D} := {
  rtc_of : D -> rtc_chip;
  rtc_outb : forall v p d, rtc_of (outb v p d) = rtc_port_write v p (rtc_of d);
  rtc_inb_state : forall p d, rtc_of (snd (inb p d)) = rtc_port_read p (rtc_of d);
  rtc_inb_data : forall d, fst (inb 0x71 d) = u8 (aget (rtc_regs (rtc_of d)) (rtc_index (rtc_of d)));
  rtc_set_if : forall b d, rtc_of (set_if b d) = rtc_of d
}.

(** ** A concrete machine *)

Record sim := Sim { sim_if : bool; sim_master : pic; sim_slave : pic; sim_rtc : rtc_chip;
                    sim_log : list (Z * Z) }.

Definition sim_outb (v p : Z) (d : sim) : sim :=
  Sim (sim_if d) (pic_write false v p (sim_master d)) (pic_write true v p (sim_slave d))
    (rtc_port_write v p (sim_rtc d)) (sim_log d ++ [(p, v)]).

Definition sim_inb (p : Z) (d : sim) : Z * sim :=
  (if p =? 0x21 then imr (sim_master d) else if p =? 0xA1 then imr (sim_slave d)
   else if p =? 0x71 then u8 (aget (rtc_regs (sim_rtc d)) (rtc_index (sim_rtc d))) else 0,
   Sim (sim_if d) (sim_master d) (sim_slave d) (rtc_port_read p (sim_rtc d)) (sim_log d)).

#[export] Instance sim_machine : Machine sim := {
  outb := sim_outb;
  inb := sim_inb;
  get_if := sim_if;
  set_if b d := Sim b (sim_master d) (sim_slave d) (sim_rtc d) (sim_log d)
}.

#[export] Instance sim_laws : MachineLaws sim.
Proof. split; done. Qed.

#[export] Instance sim_pic : PicLaws sim.
Proof.
  refine {| pic_of := fun s d => if s then sim_slave d else sim_master d |}; by intros [].
Defined.

#[export] Instance sim_rtc_laws : RtcLaws sim.
Proof. refine {| rtc_of := sim_rtc |}; done. Defined.

(** The state at power-on. *)
Definition sim0 : sim :=
  Sim false (Pic 0 0 0 0) (Pic 0 0 0 0) (RtcChip 0 (∅.[0x0A <- 0x26])) [].
