(* ===== verification/I8259.v ===== *)
(** * drivers/i8259.c: the interrupt controller driver *)

From S2P Require Import Prelude Mem LibString Console Machine.

Definition SLAVE_IRQ_NUM : Z := 2.

Definition NR_IRQS : Z := 16.

Definition MASTER_8259_PORT : Z := 0x20.

Definition MASTER_MASK_8259_PORT : Z := 0x21.

Definition SLAVE_8259_PORT : Z := 0xA0.

Definition SLAVE_MASK_8259_PORT : Z := 0xA1.

Definition EOI : Z := 0x60.

Section driver.
Context {D : Type} `{Machine D}.

(** [inb(port) & ~(1 << n)], written back. *)
Definition enable_irq (irq_num : Z) (d : D) : D :=
  if irq_num <? 8 then
    let port := MASTER_MASK_8259_PORT in
    let '(old, d) := inb port d in
    outb (u8 (Z.land old (Z.lnot (Z.shiftl 1 irq_num)))) port d
  else
    let port := SLAVE_MASK_8259_PORT in
    let '(old, d) := inb port d in
    outb (u8 (Z.land old (Z.lnot (Z.shiftl 1 (irq_num - 8))))) port d.

Definition disable_irq (irq_num : Z) (d : D) : D :=
  if irq_num <? 8 then
    let port := MASTER_MASK_8259_PORT in
    let '(old, d) := inb port d in
    outb (u8 (Z.lor old (Z.shiftl 1 irq_num))) port d
  else
    let port := SLAVE_MASK_8259_PORT in
    let '(old, d) := inb port d in
    outb (u8 (Z.lor old (Z.shiftl 1 (irq_num - 8)))) port d.

Definition send_eoi (irq_num : Z) (d : D) : D :=
  if 8 <=? irq_num then
    let slave_eoi := u8 (Z.lor EOI (irq_num - 8)) in
    let master_eoi := u8 (Z.lor EOI 2) in
    outb master_eoi MASTER_8259_PORT (outb slave_eoi SLAVE_8259_PORT d)
  else outb (u8 (Z.lor EOI irq_num)) MASTER_8259_PORT d.

(** The command words go to the two chips in turn; then every line is masked and the cascade
    line 2 is enabled.  (The two progress messages of the routine go to the console.) *)
Definition i8259_init (dc : D * console) : D * console :=
  let '(d, c) := dc in
  let c := printk "
Initializing the PIC..." [] c in
  let d := outb 0x11 MASTER_8259_PORT d in
  let d := outb 0x11 SLAVE_8259_PORT d in
  let d := outb 0x20 MASTER_MASK_8259_PORT d in
  let d := outb 0x28 SLAVE_MASK_8259_PORT d in
  let d := outb 0x04 MASTER_MASK_8259_PORT d in
  let d := outb 0x02 SLAVE_MASK_8259_PORT d in
  let d := outb 0x01 MASTER_MASK_8259_PORT d in
  let d := outb 0x01 SLAVE_MASK_8259_PORT d in
  let c := printk "the PIC initialized
" [] c in
  let d := for_ 0 NR_IRQS disable_irq d in
  (enable_irq SLAVE_IRQ_NUM d, c).
End driver.

(** ** Specification *)

(** IRQ line [i] of the cascaded pair is masked; it is in service. *)
Definition masked (P : bool -> pic) (i : Z) : bool :=
  if i <? 8 then Z.testbit (imr (P false)) i else Z.testbit (imr (P true)) (i - 8).

Definition in_service (P : bool -> pic) (i : Z) : bool :=
  if i <? 8 then Z.testbit (isr (P false)) i else Z.testbit (isr (P true)) (i - 8).

(** Both chips have their command words and byte-sized registers. *)
Definition pic_ready (P : bool -> pic) : Prop :=
  forall s, icws (P s) = 0 /\ 0 <= imr (P s) < 256.

(** ** Lemmas *)

(** A byte and a bit number, checked exhaustively. *)
Lemma check_byte_bit (p : Z -> Z -> bool) :
  forallb (fun a => forallb (p a) (seqZ 0 8)) (seqZ 0 256) = true ->
  forall a k, 0 <= a < 256 -> 0 <= k < 8 -> p a k = true.
Proof.
  intros Hc a k Ha Hk. apply (check_below 8 (p a)); [|done].
  by apply (check_below 256 (fun a => forallb (p a) (seqZ 0 8))).
Qed.

Lemma mask_clear a k : 0 <= a < 256 -> 0 <= k < 8 ->
  u8 (Z.land a (Z.lnot (Z.shiftl 1 k))) = Z.clearbit a k /\ 0 <= Z.clearbit a k < 256.
Proof.
  intros Ha Hk.
  pose proof (check_byte_bit (fun a k => (u8 (Z.land a (Z.lnot (Z.shiftl 1 k))) =? Z.clearbit a k)
    && (0 <=? Z.clearbit a k) && (Z.clearbit a k <? 256)) ltac:(by vm_compute) a k Ha Hk) as E.
  cbn beta in E. bool_prop. lia.
Qed.

Lemma mask_set a k : 0 <= a < 256 -> 0 <= k < 8 ->
  u8 (Z.lor a (Z.shiftl 1 k)) = Z.setbit a k /\ 0 <= Z.setbit a k < 256.
Proof.
  intros Ha Hk.
  pose proof (check_byte_bit (fun a k => (u8 (Z.lor a (Z.shiftl 1 k)) =? Z.setbit a k)
    && (0 <=? Z.setbit a k) && (Z.setbit a k <? 256)) ltac:(by vm_compute) a k Ha Hk) as E.
  cbn beta in E. bool_prop. lia.
Qed.

Lemma testbit_clearbit a k j : 0 <= k -> 0 <= j ->
  Z.testbit (Z.clearbit a k) j = Z.testbit a j && negb (j =? k).
Proof.
  intros. destruct (Z.eqb_spec j k) as [->|].
  - rewrite Z.clearbit_eq. by rewrite andb_false_r.
  - rewrite Z.clearbit_neq by done. by rewrite andb_true_r.
Qed.

Lemma testbit_setbit a k j : 0 <= k -> 0 <= j ->
  Z.testbit (Z.setbit a k) j = Z.testbit a j || (j =? k).
Proof.
  intros. destruct (Z.eqb_spec j k) as [->|].
  - rewrite Z.setbit_eq by done. by rewrite orb_true_r.
  - rewrite Z.setbit_neq by done. by rewrite orb_false_r.
Qed.

(** The end-of-interrupt bytes are OCW2 commands for their line. *)
Lemma eoi_write k p : 0 <= k < 8 ->
  pic_write_cmd (u8 (Z.lor EOI k)) p = Pic (imr p) (Z.clearbit (isr p) k) (base p) (icws p).
Proof.
  intros Hk. unfold pic_write_cmd.
  pose proof (check_below 8 (fun k => negb (Z.testbit (u8 (Z.lor EOI k)) 4)
    && (Z.land (u8 (Z.lor EOI k)) 0xF8 =? 0x60) && (Z.land (u8 (Z.lor EOI k)) 7 =? k))
    ltac:(by vm_compute) k Hk) as E. cbn beta in E. bool_prop.
  match goal with H1 : Z.testbit _ 4 = false, H2 : _ = 0x60, H3 : Z.land _ 7 = k |- _ =>
    rewrite H1, H2, H3 end. done.
Qed.

Section proofs.
Context {D : Type} `{MD : Machine D} `{!PicLaws D} `{!MachineLaws D}.

Lemma inb_pic s p (d : D) old d' : inb p d = (old, d') -> pic_of s d' = pic_of s d.
Proof. intros E. rewrite <- (pic_inb_state s p d). by rewrite E. Qed.

(** A write of the mask register of one chip. *)
Lemma pic_write_mask s s' v (d : D) :
  icws (pic_of s d) = 0 ->
  pic_of s' (outb v (pic_data s) d)
  = if Bool.eqb s s' then Pic (u8 v) (isr (pic_of s d)) (base (pic_of s d)) 0 else pic_of s' d.
Proof.
  intros Hi. rewrite pic_outb. unfold pic_write, pic_write_data.
  destruct s, s'; cbn [pic_cmd pic_data Bool.eqb Z.eqb Pos.eqb]; rewrite ?Hi; done.
Qed.

Lemma inb_mask s (d : D) old d' :
  pic_ready (fun s => pic_of s d) -> inb (pic_data s) d = (old, d') ->
  old = imr (pic_of s d) /\ (forall s', pic_of s' d' = pic_of s' d) /\ get_if d' = get_if d.
Proof.
  intros Hr E. split; [|split].
  - rewrite <- (pic_inb_data s d) by apply Hr. by rewrite E.
  - intros s'. by apply (inb_pic s' _ _ _ _ E).
  - rewrite <- (get_if_inb (pic_data s) d). by rewrite E.
Qed.

(** [enable_irq] and [disable_irq] as one read-modify-write of a mask register. *)
Lemma mask_update (s : bool) (f : Z -> Z) (d : D) :
  pic_ready (fun s => pic_of s d) ->
  let d' := let '(old, d1) := inb (pic_data s) d in outb (f old) (pic_data s) d1 in
  (forall s', pic_of s' d' = if Bool.eqb s s'
     then Pic (u8 (f (imr (pic_of s d)))) (isr (pic_of s d)) (base (pic_of s d)) 0
     else pic_of s' d) /\ get_if d' = get_if d.
Proof.
  intros Hr. destruct (inb (pic_data s) d) as [old d1] eqn:E.
  apply inb_mask in E as (-> & Hp & Hf); [|done]. cbn. split.
  - intros s'. rewrite pic_write_mask by (rewrite Hp; apply Hr). by rewrite !Hp.
  - by rewrite get_if_outb.
Qed.

Lemma u8_u8 z : u8 (u8 z) = u8 z.
Proof. apply u8_small, u8_range. Qed.

Lemma enable_irq_pic i (d : D) :
  pic_ready (fun s => pic_of s d) -> 0 <= i < 16 ->
  (forall s, pic_of s (enable_irq i d)
    = if Bool.eqb (8 <=? i) s
      then Pic (Z.clearbit (imr (pic_of s d)) (i mod 8)) (isr (pic_of s d)) (base (pic_of s d)) 0
      else pic_of s d) /\ get_if (enable_irq i d) = get_if d.
Proof.
  intros Hr Hi. unfold enable_irq. destruct (Z.ltb_spec i 8).
  - destruct (mask_update false (fun old => u8 (Z.land old (Z.lnot (Z.shiftl 1 i)))) d Hr) as [E ?].
    split; [|done]. intros s. rewrite E. rewrite u8_u8. decide_b. rewrite Z.mod_small by lia.
    destruct s; [done|]. cbn [Bool.eqb]. by rewrite (proj1 (mask_clear (imr (pic_of false d)) i (proj2 (Hr false)) ltac:(lia))).
  - destruct (mask_update true (fun old => u8 (Z.land old (Z.lnot (Z.shiftl 1 (i - 8))))) d Hr) as [E ?].
    split; [|done]. intros s. rewrite E. rewrite u8_u8. decide_b.
    replace (i mod 8) with (i - 8) by (Z.div_mod_to_equations; lia).
    destruct s; [|done]. cbn [Bool.eqb]. by rewrite (proj1 (mask_clear (imr (pic_of true d)) (i - 8) (proj2 (Hr true)) ltac:(lia))).
Qed.

Lemma disable_irq_pic i (d : D) :
  pic_ready (fun s => pic_of s d) -> 0 <= i < 16 ->
  (forall s, pic_of s (disable_irq i d)
    = if Bool.eqb (8 <=? i) s
      then Pic (Z.setbit (imr (pic_of s d)) (i mod 8)) (isr (pic_of s d)) (base (pic_of s d)) 0
      else pic_of s d) /\ get_if (disable_irq i d) = get_if d.
Proof.
  intros Hr Hi. unfold disable_irq. destruct (Z.ltb_spec i 8).
  - destruct (mask_update false (fun old => u8 (Z.lor old (Z.shiftl 1 i))) d Hr) as [E ?].
    split; [|done]. intros s. rewrite E. rewrite u8_u8. decide_b. rewrite Z.mod_small by lia.
    destruct s; [done|]. cbn [Bool.eqb]. by rewrite (proj1 (mask_set (imr (pic_of false d)) i (proj2 (Hr false)) ltac:(lia))).
  - destruct (mask_update true (fun old => u8 (Z.lor old (Z.shiftl 1 (i - 8)))) d Hr) as [E ?].
    split; [|done]. intros s. rewrite E. rewrite u8_u8. decide_b.
    replace (i mod 8) with (i - 8) by (Z.div_mod_to_equations; lia).
    destruct s; [|done]. cbn [Bool.eqb]. by rewrite (proj1 (mask_set (imr (pic_of true d)) (i - 8) (proj2 (Hr true)) ltac:(lia))).
Qed.

(** Exactly line [i] is unmasked. *)
Lemma enable_irq_masked i (d : D) :
  pic_ready (fun s => pic_of s d) -> 0 <= i < 16 ->
  pic_ready (fun s => pic_of s (enable_irq i d)) /\
  (forall j, 0 <= j < 16 ->
    masked (fun s => pic_of s (enable_irq i d)) j = masked (fun s => pic_of s d) j && negb (j =? i)) /\
  (forall s, base (pic_of s (enable_irq i d)) = base (pic_of s d)) /\
  (forall s, isr (pic_of s (enable_irq i d)) = isr (pic_of s d)).
Proof.
  intros Hr Hi. destruct (enable_irq_pic i d Hr Hi) as [E _].
  assert (Hm : 0 <= i mod 8 < 8) by (apply Z.mod_pos_bound; lia).
  repeat split.
  - rewrite E. destruct (Bool.eqb (8 <=? i) s); [done|apply Hr].
  - rewrite E. destruct (Bool.eqb (8 <=? i) s); [|apply Hr].
    apply (mask_clear _ _ (proj2 (Hr s)) Hm).
  - rewrite E. destruct (Bool.eqb (8 <=? i) s); [|apply Hr].
    apply (mask_clear _ _ (proj2 (Hr s)) Hm).
  - intros j Hj. unfold masked. rewrite !E.
    destruct (Z.ltb_spec j 8), (Z.leb_spec 8 i); cbn [Bool.eqb imr].
    + destruct (Z.eqb_spec j i); [lia|]. by rewrite andb_true_r.
    + rewrite testbit_clearbit by lia. by rewrite Z.mod_small by lia.
    + rewrite testbit_clearbit by lia. do 2 f_equal.
      replace (i mod 8) with (i - 8) by (Z.div_mod_to_equations; lia).
      destruct (Z.eqb_spec j i), (Z.eqb_spec (j - 8) (i - 8)); try done; lia.
    + destruct (Z.eqb_spec j i); [lia|]. by rewrite andb_true_r.
  - intros s. rewrite E. by destruct (Bool.eqb (8 <=? i) s).
  - intros s. rewrite E. by destruct (Bool.eqb (8 <=? i) s).
Qed.

Lemma disable_irq_masked i (d : D) :
  pic_ready (fun s => pic_of s d) -> 0 <= i < 16 ->
  pic_ready (fun s => pic_of s (disable_irq i d)) /\
  (forall j, 0 <= j < 16 ->
    masked (fun s => pic_of s (disable_irq i d)) j = masked (fun s => pic_of s d) j || (j =? i)) /\
  (forall s, base (pic_of s (disable_irq i d)) = base (pic_of s d)) /\
  (forall s, isr (pic_of s (disable_irq i d)) = isr (pic_of s d)).
Proof.
  intros Hr Hi. destruct (disable_irq_pic i d Hr Hi) as [E _].
  assert (Hm : 0 <= i mod 8 < 8) by (apply Z.mod_pos_bound; lia).
  repeat split.
  - rewrite E. destruct (Bool.eqb (8 <=? i) s); [done|apply Hr].
  - rewrite E. destruct (Bool.eqb (8 <=? i) s); [|apply Hr].
    apply (mask_set _ _ (proj2 (Hr s)) Hm).
  - rewrite E. destruct (Bool.eqb (8 <=? i) s); [|apply Hr].
    apply (mask_set _ _ (proj2 (Hr s)) Hm).
  - intros j Hj. unfold masked. rewrite !E.
    destruct (Z.ltb_spec j 8), (Z.leb_spec 8 i); cbn [Bool.eqb imr].
    + destruct (Z.eqb_spec j i); [lia|]. by rewrite orb_false_r.
    + rewrite testbit_setbit by lia. by rewrite Z.mod_small by lia.
    + rewrite testbit_setbit by lia. f_equal.
      replace (i mod 8) with (i - 8) by (Z.div_mod_to_equations; lia).
      destruct (Z.eqb_spec j i), (Z.eqb_spec (j - 8) (i - 8)); try done; lia.
    + destruct (Z.eqb_spec j i); [lia|]. by rewrite orb_false_r.
  - intros s. rewrite E. by destruct (Bool.eqb (8 <=? i) s).
  - intros s. rewrite E. by destruct (Bool.eqb (8 <=? i) s).
Qed.

(** The state of a chip after its four command words. *)
Lemma i8259_init_chips (d : D) s :
  pic_of s (outb 1 SLAVE_MASK_8259_PORT (outb 1 MASTER_MASK_8259_PORT
    (outb 2 SLAVE_MASK_8259_PORT (outb 4 MASTER_MASK_8259_PORT
    (outb 0x28 SLAVE_MASK_8259_PORT (outb 0x20 MASTER_MASK_8259_PORT
    (outb 0x11 SLAVE_8259_PORT (outb 0x11 MASTER_8259_PORT d))))))))
  = Pic 0 0 (if s then 0x28 else 0x20) 0.
Proof. rewrite !pic_outb. by destruct s. Qed.

Lemma disable_all_masked (d : D) n :
  0 <= n <= 16 -> pic_ready (fun s => pic_of s d) ->
  let d' := for_ 0 n disable_irq d in
  pic_ready (fun s => pic_of s d') /\
  (forall j, 0 <= j < 16 -> masked (fun s => pic_of s d') j = masked (fun s => pic_of s d) j || (j <? n)) /\
  (forall s, base (pic_of s d') = base (pic_of s d)) /\
  (forall s, isr (pic_of s d') = isr (pic_of s d)).
Proof.
  intros Hn Hr. cbn zeta.
  apply (for_inv (fun k t => pic_ready (fun s => pic_of s t) /\
    (forall j, 0 <= j < 16 -> masked (fun s => pic_of s t) j = masked (fun s => pic_of s d) j || (j <? k)) /\
    (forall s, base (pic_of s t) = base (pic_of s d)) /\
    (forall s, isr (pic_of s t) = isr (pic_of s d)))); [lia|..].
  - repeat split; try done; try apply Hr. intros j Hj. decide_b. by rewrite orb_false_r.
  - intros i t Hi (Hr' & Hm & Hb & Hs).
    destruct (disable_irq_masked i t Hr' ltac:(lia)) as (? & Hm' & Hb' & Hs').
    repeat split; try done; try apply H.
    + intros j Hj. rewrite Hm', Hm by done. rewrite <- orb_assoc. f_equal.
      by destruct (Z.ltb_spec j i), (Z.eqb_spec j i), (Z.ltb_spec j (i + 1)); try lia.
    + intros s. by rewrite Hb'.
    + intros s. by rewrite Hs'.
Qed.

Lemma i8259_init_spec (d : D) c :
  let P s := pic_of s (i8259_init (d, c)).1 in
  pic_ready P /\ (forall j, 0 <= j < 16 -> masked P j = negb (j =? 2)) /\
  base (P false) = 0x20 /\ base (P true) = 0x28 /\ forall s, isr (P s) = 0.
Proof.
  unfold i8259_init. cbn [fst]. set (d0 := outb 1 SLAVE_MASK_8259_PORT _).
  assert (E0 : forall s, pic_of s d0 = Pic 0 0 (if s then 0x28 else 0x20) 0)
    by (intros s; apply i8259_init_chips).
  assert (Hr0 : pic_ready (fun s => pic_of s d0)) by (intros s; rewrite E0; cbn; lia).
  destruct (disable_all_masked d0 16 ltac:(lia) Hr0) as (Hr1 & Hm1 & Hb1 & Hs1).
  destruct (enable_irq_masked 2 (for_ 0 16 disable_irq d0) Hr1 ltac:(lia)) as (Hr2 & Hm2 & Hb2 & Hs2).
  split; [exact Hr2|]. split; [|split; [|split]].
  - intros j Hj. unfold NR_IRQS, SLAVE_IRQ_NUM. rewrite Hm2, Hm1 by done. decide_b.
    by rewrite orb_true_r.
  - etransitivity; [apply Hb2|]. rewrite Hb1, E0. done.
  - etransitivity; [apply Hb2|]. rewrite Hb1, E0. done.
  - intros s. etransitivity; [apply Hs2|]. rewrite Hs1, E0. done.
Qed.

Lemma send_eoi_pic i (d : D) s : 0 <= i < 16 ->
  pic_of s (send_eoi i d)
  = let p := pic_of s d in
    let k := if s then i - 8 else if 8 <=? i then 2 else i in
    if s && (i <? 8) then p else Pic (imr p) (Z.clearbit (isr p) k) (base p) (icws p).
Proof.
  intros Hi. unfold send_eoi. destruct (Z.leb_spec 8 i).
  - rewrite !pic_outb. unfold pic_write, MASTER_8259_PORT, SLAVE_8259_PORT. decide_b.
    destruct s; cbn [pic_cmd pic_data Z.eqb Pos.eqb andb]; rewrite eoi_write by lia; done.
  - rewrite pic_outb. unfold pic_write, MASTER_8259_PORT. decide_b.
    destruct s; cbn [pic_cmd pic_data Z.eqb Pos.eqb andb]; [done|]. by rewrite eoi_write by lia.
Qed.
End proofs.

(** ** Properties *)

(** from any state of the two controllers, [i8259_init] leaves both initialised, IRQ 0-7
    at vectors 0x20-0x27 and IRQ 8-15 at 0x28-0x2F, nothing in service, and every line masked
    except the cascade line 2. *)
Theorem i8259_init_correct {D} `{MD : Machine D} `{!PicLaws D} `{!MachineLaws D} (d : D) c :
  let P s := pic_of s (i8259_init (d, c)).1 in
  pic_ready P /\ (forall j, 0 <= j < 16 -> masked P j = negb (j =? 2)) /\
  base (P false) = 0x20 /\ base (P true) = 0x28 /\ forall s, isr (P s) = 0.
Proof. apply i8259_init_spec. Qed.

Lemma i8259_init_correct_witness :
  imr (sim_master (i8259_init (sim0, Console 0 0 ∅ [])).1) = 0xFB /\
  masked (fun s => pic_of s (i8259_init (sim0, Console 0 0 ∅ [])).1) 0 = true.
Proof.
  split; [by vm_compute|].
  destruct (i8259_init_correct sim0 (Console 0 0 ∅ [])) as (_ & H & _). apply H. lia.
Defined.

(** on an initialised pair, [enable_irq] and [disable_irq] change the mask of exactly the
    line they are given, on either chip, and [send_eoi] ends exactly the service of its line,
    and of the cascade line 2 for a line of the slave. *)
Theorem irq_line_operations {D} `{MD : Machine D} `{!PicLaws D} `{!MachineLaws D} (d : D) i j :
  pic_ready (fun s => pic_of s d) -> 0 <= i < 16 -> 0 <= j < 16 ->
  masked (fun s => pic_of s (enable_irq i d)) j = masked (fun s => pic_of s d) j && negb (j =? i) /\
  masked (fun s => pic_of s (disable_irq i d)) j = masked (fun s => pic_of s d) j || (j =? i) /\
  masked (fun s => pic_of s (send_eoi i d)) j = masked (fun s => pic_of s d) j /\
  in_service (fun s => pic_of s (send_eoi i d)) j
  = in_service (fun s => pic_of s d) j && negb (j =? i) && negb ((8 <=? i) && (j =? 2)).
Proof.
  intros Hr Hi Hj.
  split; [by apply enable_irq_masked|split; [by apply disable_irq_masked|split]].
  - unfold masked. rewrite !send_eoi_pic by done. cbn [andb].
    destruct (j <? 8); [done|]. by destruct (i <? 8).
  - unfold in_service. rewrite !send_eoi_pic by done. cbn [andb].
    destruct (Z.ltb_spec j 8), (Z.ltb_spec i 8), (Z.leb_spec 8 i); try lia; cbn [isr andb negb];
      rewrite ?testbit_clearbit, ?andb_true_r by lia; try done.
    + destruct (Z.eqb_spec j i); [lia|]. by rewrite andb_true_r.
    + destruct (Z.eqb_spec j i); [lia|]. by rewrite andb_true_r.
    + destruct (Z.eqb_spec j i), (Z.eqb_spec (j - 8) (i - 8)), (Z.eqb_spec j 2);
        rewrite ?andb_true_r; done || lia.
Qed.

Lemma irq_line_operations_witness :
  pic_ready (fun s => pic_of s (disable_irq 8 sim0)) /\
  masked (fun s => pic_of s (disable_irq 8 sim0)) 8 = true /\
  masked (fun s => pic_of s (enable_irq 8 (disable_irq 8 sim0))) 8 = false.
Proof.
  assert (H : pic_ready (fun s => pic_of s (disable_irq 8 sim0)))
    by (intros []; (split; [by vm_compute|]); vm_compute; (split; congruence)).
  split; [exact H|]. split; [by vm_compute|].
  destruct (irq_line_operations (disable_irq 8 sim0) 8 8 H ltac:(lia) ltac:(lia)) as [E _].
  rewrite E. by vm_compute.
Defined.
