(* ===== verification/Rtc.v ===== *)
(** * drivers/rtc.c and drivers/pit.c: the clocks

    The driver state is the volatile [rtc_flag] beside the machine. *)

From S2P Require Import Prelude Mem LibString Console Machine I8259.

Definition RTC_PORT : Z := 0x70.

Definition RTC_CMOS : Z := 0x71.

Definition RTC_IRQ_NUM : Z := 8.

Definition RTC_MAX_RATE : Z := 1024.

Definition RTC_MIN_RATE : Z := 2.

Definition DEFAULT_RATE : Z := 2.

Section driver.
Context {D : Type} `{Machine D}.

(** The loop that looks up the divider: [16 - i] for the lowest set bit [i < 12] of the rate. *)
Definition rtc_divider (rtc_rate : Z) : Z :=
  match find_ 0 12 (fun i => negb (Z.land rtc_rate (Z.shiftl 1 i) =? 0)) with
  | Some i => u8 (16 - i)
  | None => 0
  end.

(** [rtc_write] after it has read the rate from its buffer. *)
Definition rtc_set_rate (rtc_rate : Z) (d : D) : Z * D :=
  if (RTC_MAX_RATE <? rtc_rate) || (rtc_rate <? RTC_MIN_RATE) then (-1, d)
  else if negb (negb (rtc_rate =? 0) && (Z.land rtc_rate (Z.lnot rtc_rate + 1) =? rtc_rate))
  then (-1, d)
  else
    let divider_value := rtc_divider (Z.land rtc_rate 0xFFF) in
    let flags := get_if d in
    let d := cli d in
    let d := outb 0x8A RTC_PORT d in
    let '(prev, d) := inb RTC_CMOS d in
    let d := outb 0x8A RTC_PORT d in
    let d := outb (u8 (Z.lor (Z.land (s8 prev) 0xF0) divider_value)) RTC_CMOS d in
    (0, set_if flags d).

Definition rtc_write (m : mem) (fd buf nbytes : Z) (d : D) : Z * D :=
  rtc_set_rate (s32 (ld32 m buf)) d.

Definition rtc_open (d : D) : Z * D := (0, (rtc_set_rate DEFAULT_RATE d).2).

Definition rtc_close (fd buf nbytes : Z) : Z := 0.

(** Reads register C so that the next interrupt can happen, and raises the flag. *)
Definition rtc_irq_handler (s : Z * D) : Z * D :=
  let d := outb 0x0C RTC_PORT (snd s) in
  let d := snd (inb RTC_CMOS d) in
  (1, send_eoi RTC_IRQ_NUM d).

(** The polling loop.  [arrivals] says before which polls the processor takes an RTC interrupt
    (between [restore_flags] and the next [cli_and_save]); [None] while no poll has seen one. *)
Fixpoint rtc_read_loop (arrivals : list bool) (s : Z * D) : option (Z * (Z * D) * list bool) :=
  match arrivals with
  | [] => None
  | irq :: rest =>
      let s := if irq then rtc_irq_handler s else s in
      if fst s =? 1 then Some (0, (0, snd s), rest) else rtc_read_loop rest s
  end.

Definition rtc_read (arrivals : list bool) (s : Z * D) : option (Z * (Z * D) * list bool) :=
  rtc_read_loop arrivals (0, snd s).

Definition rtc_init (s : Z * D) (c : console) : (Z * D) * console :=
  let d := snd s in
  let flags := get_if d in
  let d := cli d in
  let d := enable_irq RTC_IRQ_NUM d in
  let d := outb (Z.lor 0x0B 0x80) RTC_PORT d in
  let '(prev, d) := inb RTC_CMOS d in
  let d := outb (Z.lor 0x0B 0x80) RTC_PORT d in
  let d := outb (Z.lor (u8 prev) 0x40) RTC_CMOS d in
  let d := set_if flags d in
  let d := (rtc_set_rate DEFAULT_RATE d).2 in
  ((0, d), printk "Enabled RTC
" [] c).

(** PIT channel 0, rate generator, divisor 0x2E9C. *)
Definition pit_init (d : D) : D :=
  let flags := get_if d in
  let d := cli d in
  let d := outb 0x34 0x43 d in
  let d := outb 0x9C 0x40 d in
  let d := outb 0x2E 0x40 d in
  let d := enable_irq 0 d in
  set_if flags d.
End driver.

(** ** Specification *)

(** The periodic rate the clock chip derives from register A: 32768 Hz >> (RS - 1). *)
Definition rtc_frequency (reg_a : Z) : Z := Z.shiftr 32768 (Z.land reg_a 0xF - 1).

(** ** Lemmas *)

(** The rates that [rtc_write] accepts, and the register values it writes for them. *)
Lemma rtc_rate_table rate :
  RTC_MIN_RATE <= rate <= RTC_MAX_RATE ->
  Z.land rate (Z.lnot rate + 1) = rate <-> exists k, 1 <= k <= 10 /\ rate = 2 ^ k.
Proof.
  unfold RTC_MIN_RATE, RTC_MAX_RATE. intros Hr. split.
  - intros E. exists (Z.log2 rate).
    pose proof (check_below 1025 (fun r => negb (Z.land r (Z.lnot r + 1) =? r)
      || (r <? 2) || (r =? 2 ^ Z.log2 r)) ltac:(by vm_compute) rate ltac:(lia)) as Hc.
    cbn beta in Hc. rewrite E, Z.eqb_refl in Hc. cbn [negb orb] in Hc.
    apply orb_true_iff in Hc as [Hc|Hc]; bool_prop; [lia|]. split; [|done].
    assert (Z.log2 rate < 11) by (apply Z.log2_lt_pow2; lia).
    assert (1 <= Z.log2 rate) by (apply Z.log2_le_pow2; lia). lia.
  - intros (k & Hk & ->). apply Z.eqb_eq.
    apply (check_below 11 (fun k => Z.land (2 ^ k) (Z.lnot (2 ^ k) + 1) =? 2 ^ k)); [by vm_compute|lia].
Qed.

Lemma rtc_divider_table k : 1 <= k <= 10 -> rtc_divider (Z.land (2 ^ k) 0xFFF) = 16 - k.
Proof.
  intros Hk.
  pose proof (check_below 11 (fun k => (k <? 1) || (rtc_divider (Z.land (2 ^ k) 0xFFF) =? 16 - k))
    ltac:(by vm_compute) k ltac:(lia)) as Hc.
  apply orb_true_iff in Hc as [Hc|Hc]; bool_prop; [lia|done].
Qed.

(** The byte written to register A keeps the old high nibble and programs the rate 2^k. *)
Lemma rtc_reg_a prev k : 0 <= prev < 256 -> 1 <= k <= 10 ->
  let v := u8 (Z.lor (Z.land (s8 prev) 0xF0) (16 - k)) in
  Z.land v 0xF0 = Z.land prev 0xF0 /\ rtc_frequency v = 2 ^ k.
Proof.
  intros Hp Hk. cbn zeta.
  pose proof (check_below 11 (fun k => (k <? 1) || forallb (fun prev =>
    let v := u8 (Z.lor (Z.land (s8 prev) 0xF0) (16 - k)) in
    (Z.land v 0xF0 =? Z.land prev 0xF0) && (rtc_frequency v =? 2 ^ k)) (seqZ 0 256))
    ltac:(by vm_compute) k ltac:(lia)) as Hc.
  apply orb_true_iff in Hc as [Hc|Hc]; [bool_prop; lia|].
  pose proof (check_below _ _ Hc prev Hp) as E. cbn beta zeta in E. bool_prop. done.
Qed.

Section proofs.
Context {D : Type} `{MD : Machine D} `{!MachineLaws D} `{!RtcLaws D}.

Lemma rtc_set_rate_reject rate (d : D) :
  (~ exists k, 1 <= k <= 10 /\ rate = 2 ^ k) -> rtc_set_rate rate d = (-1, d).
Proof.
  intros Hn. unfold rtc_set_rate.
  destruct (Z.ltb_spec RTC_MAX_RATE rate), (Z.ltb_spec rate RTC_MIN_RATE); try done. cbn [orb].
  destruct (Z.eqb_spec (Z.land rate (Z.lnot rate + 1)) rate) as [E|].
  - apply rtc_rate_table in E; [done|lia].
  - by rewrite andb_false_r.
Qed.

Lemma rtc_set_rate_accept k (d : D) :
  1 <= k <= 10 ->
  exists d', rtc_set_rate (2 ^ k) d = (0, d') /\ get_if d' = get_if d /\
    let a := aget (rtc_regs (rtc_of d')) 0x0A in
    rtc_frequency a = 2 ^ k /\ Z.land a 0xF0 = Z.land (aget (rtc_regs (rtc_of d)) 0x0A) 0xF0 /\
    forall r, r <> 0x0A -> aget (rtc_regs (rtc_of d')) r = aget (rtc_regs (rtc_of d)) r.
Proof.
  intros Hk. assert (Hr : RTC_MIN_RATE <= 2 ^ k <= RTC_MAX_RATE).
  { unfold RTC_MIN_RATE, RTC_MAX_RATE. split.
    - change 2 with (2 ^ 1) at 1. apply Z.pow_le_mono_r; lia.
    - change 1024 with (2 ^ 10). apply Z.pow_le_mono_r; lia. }
  unfold rtc_set_rate.
  rewrite (proj2 (rtc_rate_table (2 ^ k) Hr)) by eauto. rewrite Z.eqb_refl.
  unfold RTC_MIN_RATE, RTC_MAX_RATE in *. decide_b. cbn [orb andb negb].
  rewrite rtc_divider_table by done.
  set (d1 := outb 0x8A RTC_PORT (cli d)).
  assert (E1 : rtc_of d1 = RtcChip 0x0A (rtc_regs (rtc_of d)))
    by (unfold d1, cli; rewrite rtc_outb, rtc_set_if; done).
  pose proof (rtc_inb_data d1) as Hp. pose proof (rtc_inb_state 0x71 d1) as Hs.
  change RTC_CMOS with 0x71. destruct (inb 0x71 d1) as [prev d2] eqn:Ei. cbn [fst snd] in Hp, Hs.
  rewrite E1 in Hp, Hs. cbn in Hp. cbn in Hs.
  assert (Hpr : 0 <= prev < 256) by (rewrite Hp; apply u8_range).
  destruct (rtc_reg_a prev k Hpr Hk) as [Hn Hf].
  eexists; split; [reflexivity|]. split; [by rewrite get_set_if|].
  rewrite rtc_set_if, !rtc_outb, Hs. cbn [rtc_port_write Z.eqb Pos.eqb rtc_index rtc_regs].
  change (Z.land 0x8A 0x7F) with 0x0A.
  split; [|split].
  - rewrite aget_aset_eq, u8_u8. exact Hf.
  - rewrite aget_aset_eq, u8_u8, Hn, Hp.
    unfold u8. rewrite <- (Z.land_ones _ 8) by lia. rewrite <- Z.land_assoc. done.
  - intros r Hne. by rewrite aget_aset_ne.
Qed.

Lemma rtc_read_loop_spec arrivals : forall (d : D),
  (In true arrivals ->
   exists pre rest d', arrivals = repeat false pre ++ true :: rest /\
     rtc_read_loop arrivals (0, d) = Some (0, (0, d'), rest) /\ d' = snd (rtc_irq_handler (0, d))) /\
  (~ In true arrivals -> rtc_read_loop arrivals (0, d) = None).
Proof.
  induction arrivals as [|[] l IH]; intros d; cbn [rtc_read_loop].
  - split; [by intros []|done].
  - split; [|intros Hn; by destruct Hn; left]. intros _. exists O, l, (snd (rtc_irq_handler (0, d))).
    repeat split.
  - cbn [fst Z.eqb]. destruct (IH d) as [H1 H2]. split.
    + intros [|Hin]; [done|]. destruct (H1 Hin) as (pre & rest & d' & -> & ? & ?).
      by exists (S pre), rest, d'.
    + intros Hn. apply H2. intros ?. apply Hn. by right.
Qed.
End proofs.

(** ** Properties *)

(** [rtc_write] accepts exactly the rates 2, 4, ..., 1024.  For one of them it returns 0,
    leaves the clock ticking at that rate (register A's rate bits), keeps the other bits of
    register A, every other register and the interrupt flag; for any other 32-bit word it
    returns -1 and touches no port. *)
Theorem rtc_write_rate {D} `{MD : Machine D} `{!MachineLaws D} `{!RtcLaws D} m fd buf nbytes (d : D) :
  let rate := s32 (ld32 m buf) in
  (forall k, 1 <= k <= 10 -> rate = 2 ^ k ->
    exists d', rtc_write m fd buf nbytes d = (0, d') /\ get_if d' = get_if d /\
      rtc_frequency (aget (rtc_regs (rtc_of d')) 0x0A) = rate /\
      Z.land (aget (rtc_regs (rtc_of d')) 0x0A) 0xF0 = Z.land (aget (rtc_regs (rtc_of d)) 0x0A) 0xF0 /\
      forall r, r <> 0x0A -> aget (rtc_regs (rtc_of d')) r = aget (rtc_regs (rtc_of d)) r) /\
  ((~ exists k, 1 <= k <= 10 /\ rate = 2 ^ k) -> rtc_write m fd buf nbytes d = (-1, d)).
Proof.
  cbn zeta. unfold rtc_write. split; [|apply rtc_set_rate_reject].
  intros k Hk ->. destruct (rtc_set_rate_accept k d Hk) as (d' & E & ? & ? & ? & ?). by exists d'.
Qed.

Lemma rtc_write_rate_witness :
  exists d', rtc_write (st32 mem_empty 100 32) 3 100 4 sim0 = (0, d') /\
             rtc_frequency (aget (rtc_regs (rtc_of d')) 0x0A) = 32.
Proof.
  assert (E : s32 (ld32 (st32 mem_empty 100 32) 100) = 2 ^ 5) by (by vm_compute).
  destruct (rtc_write_rate (st32 mem_empty 100 32) 3 100 4 sim0) as [H _].
  destruct (H 5 ltac:(lia) E) as (d' & ? & _ & Hf & _). exists d'. rewrite Hf, E. done.
Defined.

(** [rtc_read] returns (with 0, the flag lowered again) at the first poll that follows an
    RTC interrupt taken after the call, whatever the flag was before the call, and keeps
    polling while none arrives. *)
Theorem rtc_read_waits_for_tick {D} `{MD : Machine D} arrivals flag (d : D) :
  (In true arrivals ->
   exists pre rest, arrivals = repeat false pre ++ true :: rest /\
     rtc_read arrivals (flag, d) = Some (0, (0, snd (rtc_irq_handler (0, d))), rest)) /\
  (~ In true arrivals -> rtc_read arrivals (flag, d) = None).
Proof.
  unfold rtc_read. destruct (rtc_read_loop_spec arrivals d) as [H1 H2]. split; [|exact H2].
  intros Hin. destruct (H1 Hin) as (pre & rest & d' & E1 & E2 & ->). by exists pre, rest.
Qed.

Lemma rtc_read_waits_for_tick_witness :
  exists pre rest, [false; true; true] = repeat false pre ++ true :: rest /\
    rtc_read [false; true; true] (1, sim0) = Some (0, (0, snd (rtc_irq_handler (0, sim0))), rest).
Proof. apply (rtc_read_waits_for_tick [false; true; true] 1 sim0). right. left. reflexivity. Defined.
