(* ===== verification/Tasks.v ===== *)
(** * kernel/tasks.c: the process identifiers

    [pid_usage] is the array of flags; pid 0 is the boot context and is never handed out. *)

From stdpp Require Import fin_sets.
From S2P Require Import Prelude.

Definition FREE : Z := 0.

Definition IN_USE : Z := 1.

Definition MAX_PID : Z := 16.

(** The kernel stack of a process starts just below the stack of the process before it. *)
Definition KERNEL_STACK (next_pid : Z) : Z := 0x800000 - (0x2000 * next_pid) - 4.

Definition init_tasks (pid_usage : arr) : arr :=
  for_ 1 MAX_PID (fun i pid_usage => pid_usage.[i <- FREE]) pid_usage.

Definition tasks_pid_new (pid_usage : arr) : Z * arr :=
  match find_ 1 MAX_PID (fun i => pid_usage.[i] =? FREE) with
  | Some i => (s16 i, pid_usage.[i <- IN_USE])
  | None => (-1, pid_usage)
  end.

Definition tasks_pid_free (pid : Z) (pid_usage : arr) : arr := pid_usage.[pid <- FREE].

(** ** Specification: a pool of identifiers *)

Definition pid_space : gset Z := list_to_set (seqZ 1 15).

(** What the array represents: the identifiers that are in use. *)
Definition live (pid_usage : arr) : gset Z :=
  filter (fun p => pid_usage.[p] <> FREE) pid_space.

(** The pool's steps: an allocation takes some identifier that is not in use, fails only when
    there is none, and a release gives one back. *)
Inductive pool_step : gset Z -> option Z -> gset Z -> Prop :=
  | pool_new S p : p ∈ pid_space -> p ∉ S -> pool_step S (Some p) (S ∪ {[p]})
  | pool_full S : S = pid_space -> pool_step S None S.

(** ** Lemmas *)

Lemma elem_of_pid_space p : p ∈ pid_space <-> 1 <= p < MAX_PID.
Proof. unfold pid_space, MAX_PID. rewrite elem_of_list_to_set, elem_of_seqZ. lia. Qed.

Lemma elem_of_live u p : p ∈ live u <-> 1 <= p < MAX_PID /\ u.[p] <> FREE.
Proof. unfold live. rewrite elem_of_filter, elem_of_pid_space. tauto. Qed.

Lemma live_init u : live (init_tasks u) = ∅.
Proof.
  apply set_eq. intros p. rewrite elem_of_live. unfold init_tasks.
  rewrite aget_for_fill. set_unfold. split; [|done].
  intros [Hp H]. apply H. by decide_b.
Qed.

Lemma live_set u p v : 1 <= p < MAX_PID -> v <> FREE -> live (u.[p <- v]) = live u ∪ {[p]}.
Proof.
  intros Hp Hv. apply set_eq. intros q. rewrite elem_of_union, elem_of_singleton, !elem_of_live.
  rewrite aget_aset. case_b; subst; [|]; intuition congruence.
Qed.

Lemma live_free u p : live (tasks_pid_free p u) = live u ∖ {[p]}.
Proof.
  apply set_eq. intros q. rewrite elem_of_difference, elem_of_singleton, !elem_of_live.
  unfold tasks_pid_free. rewrite aget_aset. case_b; subst; intuition congruence.
Qed.

(** An identifier that is handed out and given back. *)
Lemma live_new_free u u' p : p ∉ live u -> live u' = live u ∪ {[p]} -> live (tasks_pid_free p u') = live u.
Proof. 
  intros Hn E. rewrite live_free, E. apply set_eq. intros x.
  rewrite elem_of_difference, elem_of_union, elem_of_singleton. split; [tauto|].
  intros Hx. split; [by left|]. by intros ->.
Qed.

(** The outcome of an allocation. *)
Lemma tasks_pid_new_spec u :
  let '(p, u') := tasks_pid_new u in
  ((1 <= p < MAX_PID /\ (p ∉ live u) /\ live u' = live u ∪ {[p]} /\
   (forall q, 1 <= q < p -> q ∈ live u) /\ (forall q, q <> p -> u'.[q] = u.[q])) \/
  (p = -1 /\ live u = pid_space /\ u' = u)).
Proof.
  unfold tasks_pid_new. destruct (find_ _ _ _) as [i|] eqn:E.
  - left. apply find_Some in E as (Hi & Hf & Hl). bool_prop.
    assert (E16 : s16 i = i)
      by (unfold s16, MAX_PID in *; rewrite Z.mod_small; lia).
    rewrite E16. split_and!; try lia.
    + rewrite elem_of_live. intros [_ ?]. congruence.
    + by apply live_set.
    + intros q Hq. specialize (Hl q ltac:(lia)). bool_prop. apply elem_of_live. split; [lia|done].
    + intros q Hq. by rewrite aget_aset_ne.
  - right. split_and!; [done| |done]. apply set_eq. intros q.
    rewrite elem_of_live, elem_of_pid_space. split; [tauto|]. intros Hq. split; [done|].
    pose proof (find_None _ _ _ E q Hq) as Hn. cbn in Hn. by bool_prop.
Qed.

(** ** Properties *)

(** C27: The array implements a pool of the identifiers 1 to 15.  Starting from any contents,
    [init_tasks] empties the pool; [tasks_pid_new] takes the smallest identifier not in use,
    never one that is in use, and answers -1, changing nothing, exactly when all fifteen are;
    [tasks_pid_free] gives back exactly its argument. *)
Theorem tasks_implement_pid_pool u :
  live (init_tasks u) = ∅ /\
  (let '(p, u') := tasks_pid_new u in
   pool_step (live u) (if p =? -1 then None else Some p) (live u') /\
   (p = -1 -> u' = u) /\ (forall q, 1 <= q < p -> q ∈ live u)) /\
  (forall p, live (tasks_pid_free p u) = live u ∖ {[p]}).
Proof.
  split; [apply live_init|]. split; [|intros; apply live_free].
  pose proof (tasks_pid_new_spec u) as H. destruct (tasks_pid_new u) as [p u'].
  destruct H as [(Hp & Hn & -> & Hl & _)|(-> & Hf & ->)].
  - decide_b. split_and!; [|lia|done]. constructor; [by apply elem_of_pid_space|done].
  - cbn. split_and!; [by constructor|done|lia].
Qed.
