(* ===== verification/Pcb.v ===== *)
(** * kernel/pcb.c and pcb.h: process control blocks and their file descriptors

    A process control block lies at the bottom of its process's 8 KB kernel stack, so that the
    stack pointer names it.  Function-pointer tables are the values of [jmp_tbl]. *)

From S2P Require Import Prelude Tasks.

Definition KERNEL_MEM_END : Z := 0x800000.

Definition KERNEL_STACK_SIZE : Z := 0x2000.

Definition PCB_MASK : Z := 0xFFFFE000.

Definition FD_MAX : Z := 8.

(** A [func_ptr *]: one of the four driver tables, NULL, or a pointer to no table (an
    uninitialised one). *)
Inductive jmp_tbl :=
  | TblNull
  | rtc_driver
  | file_driver
  | dir_driver
  | terminal_driver
  | TblWild.

#[export] Instance jmp_tbl_eq_dec : EqDecision jmp_tbl.
Proof. solve_decision. Defined.

Record file_descriptor_element := Fde {
  file_operation_jmp_tbl : jmp_tbl;
  inode_ptr : Z;
  file_position : Z;
  flags : Z
}.

Record pcb := Pcb {
  elements : gmap Z file_descriptor_element;
  parent_pcb : Z;
  child : Z;
  esp_reg : Z;
  ebp_reg : Z;
  pid : Z;
  args : arr;
  vidmap : Z;
  term : Z;
  rtc_fd : Z;
  rtc : Z;
  rtc_rate : Z
}.

(** [sizeof(pcb_t)]: the structure is packed. *)
Definition sizeof_pcb : Z := 8 * 16 + 4 * 4 + 2 + 100 + 1 + 4 + 1 + 1 + 4.

Definition fde0 : file_descriptor_element := Fde TblNull 0 0 0.

(** [p.elements[i]]. *)
Definition elem (p : pcb) (i : Z) : file_descriptor_element := default fde0 (elements p !! i).

Definition set_elements (p : pcb) (e : gmap Z file_descriptor_element) : pcb :=
  Pcb e (parent_pcb p) (child p) (esp_reg p) (ebp_reg p) (pid p) (args p) (vidmap p) (term p)
    (rtc_fd p) (rtc p) (rtc_rate p).

Definition set_elem (p : pcb) (i : Z) (e : file_descriptor_element) : pcb :=
  set_elements p (<[i := e]> (elements p)).

Definition set_term (p : pcb) (t : Z) : pcb :=
  Pcb (elements p) (parent_pcb p) (child p) (esp_reg p) (ebp_reg p) (pid p) (args p) (vidmap p) t
    (rtc_fd p) (rtc p) (rtc_rate p).

Definition set_flags (e : file_descriptor_element) (f : Z) : file_descriptor_element :=
  Fde (file_operation_jmp_tbl e) (inode_ptr e) (file_position e) f.

Definition set_file_position (e : file_descriptor_element) (v : Z) : file_descriptor_element :=
  Fde (file_operation_jmp_tbl e) (inode_ptr e) v (flags e).

Definition set_inode_ptr (e : file_descriptor_element) (v : Z) : file_descriptor_element :=
  Fde (file_operation_jmp_tbl e) v (file_position e) (flags e).

Definition set_jmp_tbl (e : file_descriptor_element) (t : jmp_tbl) : file_descriptor_element :=
  Fde t (inode_ptr e) (file_position e) (flags e).

(** ** Operations *)

Definition pcb_init (p : pcb) : Z * pcb :=
  let p := set_term p 0 in
  let p := for_ 0 FD_MAX (fun i p => set_elem p i (Fde TblNull 0 0 0)) p in
  let p := set_elem p 0 (set_jmp_tbl (elem p 0) terminal_driver) in
  let p := set_elem p 0 (set_flags (elem p 0) 1) in
  let p := set_elem p 1 (set_jmp_tbl (elem p 1) terminal_driver) in
  let p := set_elem p 1 (set_flags (elem p 1) 1) in
  (0, p).

Definition pcb_open (p : pcb) (file_op_tbl : jmp_tbl) : Z * pcb :=
  match find_ 2 FD_MAX (fun i => flags (elem p i) =? 0) with
  | Some i => (i, set_elem p i (Fde file_op_tbl 0 0 1))
  | None => (-1, p)
  end.

(** [fd] is a [uint8_t] parameter. *)
Definition pcb_close (p : pcb) (fd : Z) : Z * pcb :=
  let fd := u8 fd in
  if FD_MAX <=? fd then (-1, p) else (0, set_elem p fd (set_flags (elem p fd) 0)).

(** The address of the current block, from the stack pointer. *)
Definition pcb_process (esp_curr : Z) : Z := Z.land esp_curr PCB_MASK.

Definition get_pcb (pid : Z) : Z :=
  let pcb_addr := u32 (KERNEL_MEM_END - 1) in
  let pcb_addr := u32 (pcb_addr - KERNEL_STACK_SIZE * pid) in
  Z.land pcb_addr (u32 (Z.lnot KERNEL_STACK_SIZE + 1)).

(** ** Invariant *)

Definition fd_open (p : pcb) (i : Z) : Prop := flags (elem p i) <> 0.

Definition is_table (t : jmp_tbl) : bool :=
  match t with TblNull | TblWild => false | _ => true end.

(** The standard descriptors are open on the terminal, and every open descriptor has a driver. *)
Definition pcb_ok (p : pcb) : Prop :=
  (forall i, 0 <= i < 2 -> fd_open p i /\ file_operation_jmp_tbl (elem p i) = terminal_driver) /\
  (forall i, 0 <= i < FD_MAX -> fd_open p i -> is_table (file_operation_jmp_tbl (elem p i)) = true).

(** ** Lemmas *)

Lemma elem_set_elem p i e j : elem (set_elem p i e) j = if i =? j then e else elem p j.
Proof.
  unfold elem, set_elem; cbn. case_b; subst; [by rewrite lookup_insert_eq|by rewrite lookup_insert_ne].
Qed.

Lemma elem_set_elem_eq p i e : elem (set_elem p i e) i = e.
Proof. by rewrite elem_set_elem, Z.eqb_refl. Qed.

Lemma elem_set_elem_ne p i e j : i <> j -> elem (set_elem p i e) j = elem p j.
Proof. intros. rewrite elem_set_elem. by decide_b. Qed.

#[export] Hint Rewrite elem_set_elem_eq : arr.
#[export] Hint Rewrite elem_set_elem_ne using lia : arr.

(** Everything but the descriptors is untouched. *)
Definition same_but_elements (p q : pcb) : Prop := q = set_elements p (elements q).

Lemma same_but_elements_refl p : same_but_elements p p.
Proof. by destruct p. Qed.

Lemma same_but_elements_set p q i e :
  same_but_elements p q -> same_but_elements p (set_elem q i e).
Proof. unfold same_but_elements. intros ->. done. Qed.

Lemma same_but_elements_trans p q r :
  same_but_elements p q -> same_but_elements q r -> same_but_elements p r.
Proof. unfold same_but_elements. intros -> ->. done. Qed.

#[export] Hint Resolve same_but_elements_refl same_but_elements_set : kernel.

Lemma pcb_init_elem p i :
  0 <= i < FD_MAX ->
  elem (pcb_init p).2 i = if i <? 2 then Fde terminal_driver 0 0 1 else fde0.
Proof.
  intros Hi. unfold pcb_init. cbn [snd].
  set (p1 := for_ _ _ _ _).
  assert (Hall : forall j, 0 <= j < FD_MAX -> elem p1 j = fde0).
  { unfold p1. pose proof (for_inv (fun k q => forall j, 0 <= j < k -> elem q j = fde0) 0 FD_MAX
      (fun i p => set_elem p i (Fde TblNull 0 0 0)) (set_term p 0)) as H.
    apply H; [done|intros; lia|]. intros k q Hk IH j Hj. rewrite elem_set_elem.
    case_b; [done|]. apply IH. lia. }
  clearbody p1. rewrite !elem_set_elem. unfold FD_MAX in *.
  rewrite (Hall 0), (Hall 1), (Hall i) by lia.
  destruct (Z.eqb_spec 1 i), (Z.eqb_spec 0 i), (Z.ltb_spec i 2); subst; try lia; done.
Qed.

Lemma pcb_init_ok p : pcb_ok (pcb_init p).2.
Proof.
  split.
  - intros i Hi. unfold fd_open. rewrite pcb_init_elem by (unfold FD_MAX; lia). by decide_b.
  - intros i Hi. unfold fd_open. rewrite pcb_init_elem by done. by destruct (i <? 2).
Qed.

Lemma pcb_open_spec p t :
  let '(fd, p') := pcb_open p t in
  (2 <= fd < FD_MAX /\ ~ fd_open p fd /\ (forall i, 2 <= i < fd -> fd_open p i) /\
   p' = set_elem p fd (Fde t 0 0 1)) \/
  (fd = -1 /\ p' = p /\ forall i, 2 <= i < FD_MAX -> fd_open p i).
Proof.
  unfold pcb_open, fd_open. destruct (find_ _ _ _) as [i|] eqn:E.
  - left. apply find_Some in E as (? & ? & Hl). bool_prop. split_and!; try lia; [|done].
    intros j Hj. specialize (Hl j Hj). by bool_prop.
  - right. split_and!; try done. intros i Hi. pose proof (find_None _ _ _ E i Hi) as Hn. cbn in Hn.
    by bool_prop.
Qed.

Lemma set_elem_ok p i e :
  pcb_ok p -> 2 <= i -> (flags e <> 0 -> is_table (file_operation_jmp_tbl e) = true) ->
  pcb_ok (set_elem p i e).
Proof.
  intros [H1 H2] Hi He. split; intros j Hj; unfold fd_open; rewrite elem_set_elem.
  - rewrite (proj2 (Z.eqb_neq i j)) by lia. by apply H1.
  - case_b; [exact He|]. by apply H2.
Qed.

(** The stack of process [pid] is the 8 KB from its block up to the next one. *)
Lemma get_pcb_eq pid : 0 <= pid < MAX_PID -> get_pcb pid = KERNEL_MEM_END - KERNEL_STACK_SIZE * (pid + 1).
Proof.
  intros Hp. apply Z.eqb_eq.
  apply (check_below MAX_PID (fun pid => get_pcb pid =? KERNEL_MEM_END - KERNEL_STACK_SIZE * (pid + 1)));
    [by vm_compute|done].
Qed.

Lemma get_pcb_inj p q : 0 <= p < MAX_PID -> 0 <= q < MAX_PID -> get_pcb p = get_pcb q -> p = q.
Proof. intros. rewrite !get_pcb_eq in * by done. unfold KERNEL_STACK_SIZE in *. lia. Qed.

Lemma pcb_process_eq esp : 0 <= esp < 2 ^ 32 -> pcb_process esp = esp / 0x2000 * 0x2000.
Proof.
  intros Hr. unfold pcb_process, PCB_MASK.
  apply Z.bits_inj'. intros n Hn. rewrite Z.land_spec.
  change 0x2000 with (2 ^ 13). rewrite Z.mul_pow2_bits, <- Z.shiftr_div_pow2 by lia.
  change 0xFFFFE000 with (Z.shiftl (Z.ones 19) 13). rewrite Z.shiftl_spec by lia.
  destruct (Z.lt_ge_cases n 13).
  - rewrite !(Z.testbit_neg_r _ (n - 13)) by lia. by rewrite andb_false_r.
  - rewrite Z.shiftr_spec by lia. replace (n - 13 + 13) with n by lia.
    destruct (Z.lt_ge_cases n 32).
    + rewrite Z.ones_spec_low by lia. by rewrite andb_true_r.
    + rewrite (Z.bits_above_log2 esp n), andb_false_l; [done|lia|].
      destruct (Z.eq_dec esp 0) as [->|]; [cbn; lia|]. apply Z.log2_lt_pow2; [lia|].
      apply Z.lt_le_trans with (2 ^ 32); [lia|]. apply Z.pow_le_mono_r; lia.
Qed.

Lemma pcb_process_stack pid esp :
  0 <= pid < MAX_PID -> get_pcb pid <= esp < get_pcb pid + KERNEL_STACK_SIZE ->
  pcb_process esp = get_pcb pid.
Proof.
  intros Hp Hs. rewrite get_pcb_eq in * by done. unfold KERNEL_STACK_SIZE, KERNEL_MEM_END, MAX_PID in *.
  rewrite pcb_process_eq by lia. Z.div_mod_to_equations. lia.
Qed.

(** ** Properties *)

(** The control blocks and kernel stacks of the sixteen processes are disjoint 8 KB regions
    of the kernel's 4 MB page; [KERNEL_STACK(pid)] is the last word of the region, the block
    fits below it, and from any stack pointer inside the region [pcb_process] finds the block
    that [get_pcb] gives for the process. *)
Theorem kernel_stacks_disjoint_and_found p :
  0 <= p < MAX_PID ->
  0x400000 <= get_pcb p /\ get_pcb p + sizeof_pcb < KERNEL_STACK p /\
  KERNEL_STACK p + 4 = get_pcb p + KERNEL_STACK_SIZE /\ KERNEL_STACK p + 4 <= KERNEL_MEM_END /\
  (forall esp, get_pcb p <= esp < get_pcb p + KERNEL_STACK_SIZE -> pcb_process esp = get_pcb p) /\
  (forall q, 0 <= q < MAX_PID -> q <> p ->
     get_pcb p + KERNEL_STACK_SIZE <= get_pcb q \/ get_pcb q + KERNEL_STACK_SIZE <= get_pcb p).
Proof.
  intros Hp. split_and!.
  1-4: rewrite ?get_pcb_eq by done;
       unfold MAX_PID, KERNEL_STACK, KERNEL_STACK_SIZE, KERNEL_MEM_END, sizeof_pcb in *; lia.
  - intros. by apply pcb_process_stack.
  - intros q Hq Hne. rewrite !get_pcb_eq by done. unfold KERNEL_STACK_SIZE. lia.
Qed.

Lemma kernel_stacks_disjoint_and_found_witness :
  pcb_process (KERNEL_STACK 3 - 200) = get_pcb 3 /\ get_pcb 3 + KERNEL_STACK_SIZE <= get_pcb 2.
Proof.
  destruct (kernel_stacks_disjoint_and_found 3 ltac:(by vm_compute)) as (_ & _ & _ & _ & H1 & H2).
  split; [apply H1; by vm_compute|]. destruct (H2 2 ltac:(by vm_compute) ltac:(lia)) as [H|H]; [exact H|].
  by vm_compute in H.
Defined.

