(* ===== verification/Fs.v ===== *)
(** * drivers/fs.c: the read-only file system

    The image is in memory where the boot loader put it: the boot block at [boot_block] (counts
    and 64-byte directory entries), one 4 KB inode per file, then the 4 KB data blocks.  All
    address arithmetic is modulo 2^32, as in the source.

    A local variable whose address the code takes is in memory too; its address, which the
    compiler chooses, is an argument of the definition ([dentry], [entry_point], [magic_buf]). *)

From S2P Require Import Prelude Mem LibString Console Tasks Pcb.

Definition FOUR_KB : Z := 0x1000.

Definition FOUR_MB : Z := 0x400000.

Definition RTC_TYPE : Z := 0.

Definition DIRECTORY_TYPE : Z := 1.

Definition FILE_TYPE : Z := 2.

Definition ENTRY_POINT_OFFSET : Z := 24.

Definition ENTRY_POINT_SIZE : Z := 4.

Definition EXEC_MAGIC_NUM_COUNT : Z := 4.

Definition USER_PROGRAM_VIRTUAL_START : Z := 0x8000000.

Definition USER_PROGRAM_OFFSET : Z := 0x048000.

(** The static variables of fs.c. *)
Record fs := Fs { boot_block : Z; fs_end : Z; num_directories : Z; num_inodes : Z }.

(** The boot module's fields that fs.c uses (multiboot.h). *)
Record module := Module_ { mod_start : Z; mod_end : Z }.

(** ** Structure fields *)

Definition sizeof_dentry : Z := 64.

Definition dir_entry_num (m : mem) (bb : Z) : Z := ld32 m bb.

Definition inode_num (m : mem) (bb : Z) : Z := ld32 m (bb + 4).

Definition data_block_num (m : mem) (bb : Z) : Z := ld32 m (bb + 8).

(** [&boot_block->dentry_directory[i]]; its first field is [filename[32]]. *)
Definition dentry_directory (f : fs) (i : Z) : Z := boot_block f + 64 + sizeof_dentry * i.

Definition filetype (m : mem) (dentry : Z) : Z := ld32 m (dentry + 32).

Definition inode_index (m : mem) (dentry : Z) : Z := ld32 m (dentry + 36).

(** ** Operations *)

Definition fs_init (mod_ : module) (m : mem) (c : console) : Z * fs * console :=
  let bb := mod_start mod_ in
  let f := Fs bb (mod_end mod_) (dir_entry_num m bb) (inode_num m bb) in
  let c := printk "Boot Block loaded at address: 0x%#x
" [bb] c in
  let c := printk "iNodes: %d
" [inode_num m bb] c in
  let c := printk "Dir Entries: %d
" [dir_entry_num m bb] c in
  let c := printk "Data Blocks: %d
" [data_block_num m bb] c in
  (0, f, c).

Definition read_dentry_by_name (f : fs) (m : mem) (fname dentry : Z) : Z * mem :=
  if dentry =? 0 then (-1, m)
  else
    match find_ 0 (num_directories f) (fun currFile =>
      (strlen m fname =? strlen m (dentry_directory f currFile)) &&
      (strncmp m fname (dentry_directory f currFile) (strlen m fname) =? 0)) with
    | Some currFile => (0, memcpy m dentry (dentry_directory f currFile) sizeof_dentry)
    | None => (-1, m)
    end.

Definition read_dentry_by_index (f : fs) (m : mem) (index dentry : Z) : Z * mem :=
  if (index <? num_directories f) && (0 <=? index) && negb (dentry =? 0)
  then (0, memcpy m dentry (dentry_directory f index) sizeof_dentry)
  else (-1, m).

Definition inode_addr (f : fs) (inode : Z) : Z := u32 (boot_block f + u32 (inode + 1) * FOUR_KB).

Definition data_block_addr (f : fs) (m : mem) : Z :=
  u32 (boot_block f + u32 (inode_num m (boot_block f) + 1) * FOUR_KB).

(** [data_block_addr + inode_addr->data[b] * FOUR_KB]. *)
Definition block_at (m : mem) (ia da b : Z) : Z :=
  u32 (da + ld32 m (u32 (ia + 4 + 4 * b)) * FOUR_KB).

Fixpoint read_data_loop (n : nat) (m : mem) (ia da file_length buf current_block offset i
    bytes_in_block_read : Z) : mem * Z :=
  match n with
  | O => (m, bytes_in_block_read)
  | S n' =>
      let m := st m (u32 (buf + i)) (ld m (u32 (current_block + offset mod FOUR_KB))) in
      let offset := u32 (offset + 1) in
      let current_block :=
        if offset mod FOUR_KB =? 0 then block_at m ia da (offset / FOUR_KB) else current_block in
      if file_length <? offset then (m, bytes_in_block_read)
      else read_data_loop n' m ia da file_length buf current_block offset (i + 1)
             (bytes_in_block_read + 1)
  end.

(** The parameters are unsigned, so only the NULL test of the first line can fail. *)
Definition read_data (f : fs) (m : mem) (inode offset buf length : Z) : Z * mem :=
  if (inode <? 0) || (buf =? 0) || (length <? 0) || (offset <? 0) then (-1, m)
  else
    let ia := inode_addr f inode in
    let da := data_block_addr f m in
    let file_length := ld32 m ia in
    let current_block := block_at m ia da (offset / FOUR_KB) in
    if file_length <? offset then (0, m)
    else
      let '(m, n) := read_data_loop (Z.to_nat length) m ia da file_length buf current_block
                       offset 0 0 in
      (s32 n, m).

Definition set_rtc (p : pcb) (v : Z) : pcb :=
  Pcb (elements p) (parent_pcb p) (child p) (esp_reg p) (ebp_reg p) (pid p) (args p) (vidmap p)
    (term p) (rtc_fd p) v (rtc_rate p).

(** [file_op_tbl] is not initialised when [pcb_open] stores it. *)
Definition file_open (f : fs) (m : mem) (p : pcb) (filename dentry : Z) : Z * pcb * mem :=
  let '(r, m) := read_dentry_by_name f m filename dentry in
  if negb (r =? 0) then (-1, p, m)
  else
    let '(fd, p) := pcb_open p TblWild in
    if fd =? -1 then (-1, p, m)
    else
      let p :=
        if filetype m dentry =? FILE_TYPE then set_elem p fd (set_jmp_tbl (elem p fd) file_driver)
        else if filetype m dentry =? DIRECTORY_TYPE
        then set_elem p fd (set_jmp_tbl (elem p fd) dir_driver)
        else if filetype m dentry =? RTC_TYPE
        then set_rtc (set_elem p fd (set_jmp_tbl (elem p fd) rtc_driver)) 1
        else p in
      let p :=
        if filetype m dentry =? FILE_TYPE
        then set_elem p fd (set_inode_ptr (elem p fd) (inode_index m dentry)) else p in
      (fd, p, m).

Definition file_write (inode buf bytes : Z) : Z := -1.

Definition file_read (f : fs) (m : mem) (p : pcb) (fd buf bytes : Z) : Z * pcb * mem :=
  let file := elem p fd in
  if flags file =? 0 then (-1, p, m)
  else
    let '(bytes_read, m) := read_data f m (inode_ptr file) (file_position file) buf bytes in
    (bytes_read,
     set_elem p fd (set_file_position file (u32 (file_position file + bytes_read))), m).

(** [curr_pcb] is not initialised: [wild] is the block it happens to point to. *)
Definition file_close (wild : pcb) (fd buf bytes : Z) : Z * pcb :=
  if (8 <=? fd) || (fd <? 0) then (-1, wild) else pcb_close wild fd.

Definition dir_open (dir_name : Z) : Z := 0.

(** [None]: a [strcpy] that does not end.  [bytes] is not used. *)
Definition dir_read (f : fs) (m : mem) (p : pcb) (file_desc buf bytes dentry : Z)
  : option (Z * pcb * mem) :=
  let e := elem p file_desc in
  if num_directories f <=? file_position e then Some (0, p, m)
  else
    let '(_, m) := read_dentry_by_index f m (file_position e) dentry in
    match strcpy m buf dentry with
    | None => None
    | Some m =>
        Some (strlen m buf,
              set_elem p file_desc (set_file_position e (u32 (file_position e + 1))), m)
    end.

Definition dir_write (file_desc buf bytes : Z) : Z := -1.

Definition dir_close : Z := 0.

Definition loader (f : fs) (m : mem) (filename dentry entry_point : Z) : Z * mem :=
  let program_start_ptr := USER_PROGRAM_VIRTUAL_START + USER_PROGRAM_OFFSET in
  let '(r, m) := read_dentry_by_name f m filename dentry in
  if negb (r =? 0) then (-1, m)
  else
    let '(_, m) := read_data f m (inode_index m dentry) 0 program_start_ptr
                     (FOUR_MB - USER_PROGRAM_OFFSET) in
    let '(_, m) := read_data f m (inode_index m dentry) ENTRY_POINT_OFFSET entry_point
                     ENTRY_POINT_SIZE in
    let ret_val := for_ 0 ENTRY_POINT_SIZE (fun i ret_val =>
      Z.lor ret_val (u32 (Z.shiftl (ld m (entry_point + i)) (i * 8)))) 0 in
    (s32 ret_val, m).

Definition executable_check (f : fs) (m : mem) (dentry magic_buf : Z) : Z * mem :=
  let '(r, m) := read_data f m (inode_index m dentry) 0 magic_buf EXEC_MAGIC_NUM_COUNT in
  if r =? 0 then (0, m)
  else
    (b2z (negb ((ld m magic_buf =? 0x7f) && (ld m (magic_buf + 1) =? 0x45) &&
                (ld m (magic_buf + 2) =? 0x4c) && (ld m (magic_buf + 3) =? 0x46))), m).

(** ** The abstract file system *)

(** Byte [k] of the file, through the block list of its inode. *)
Definition file_byte (f : fs) (m : mem) (inode k : Z) : Z :=
  ld m (u32 (block_at m (inode_addr f inode) (data_block_addr f m) (k / FOUR_KB) + k mod FOUR_KB)).

Definition file_length (f : fs) (m : mem) (inode : Z) : Z := ld32 m (inode_addr f inode).

(** The contents of a file. *)
Definition file_content (f : fs) (m : mem) (inode : Z) : list Z :=
  (fun k => file_byte f m inode k) <$> seqZ 0 (file_length f m inode).

(** The name of directory entry [i], as the string functions see it. *)
Definition file_name (f : fs) (m : mem) (i : Z) : list Z :=
  bytes m (dentry_directory f i) (Z.to_nat (strlen m (dentry_directory f i))).

Definition image_end (f : fs) (m : mem) : Z :=
  boot_block f + (1 + inode_num m (boot_block f) + data_block_num m (boot_block f)) * FOUR_KB.

(** An image that a correct tool writes: it is in the address space, has at most 63 entries, and
    the block lists are inside the inode and name blocks of the image. *)
Record image_ok (f : fs) (m : mem) : Prop := {
  img_base : 0 < boot_block f;
  img_end : image_end f m <= 2 ^ 32;
  img_entries : 0 <= num_directories f <= 63;
  img_length : forall ino, 0 <= ino < inode_num m (boot_block f) ->
    file_length f m ino <= 1023 * FOUR_KB;
  img_blocks : forall ino b, 0 <= ino < inode_num m (boot_block f) ->
    0 <= b -> b * FOUR_KB < file_length f m ino ->
    ld32 m (inode_addr f ino + 4 + 4 * b) < data_block_num m (boot_block f)
}.

(** [m'] has the image of [m]. *)
Definition same_image (f : fs) (m m' : mem) : Prop :=
  forall x, boot_block f <= x < image_end f m -> ld m' x = ld m x.

(** The [n] bytes from [a] are addresses outside the image. *)
Definition off_image (f : fs) (m : mem) (a n : Z) : Prop :=
  0 < a /\ a + n <= 2 ^ 32 /\ (a + n <= boot_block f \/ image_end f m <= a).

(** ** Lemmas: reading data *)

Section reading.
Context (f : fs) (m0 : mem) (Hok : image_ok f m0).
Local Abbreviation bb := (boot_block f).

Lemma counts_nonneg : 0 <= inode_num m0 bb /\ 0 <= data_block_num m0 bb.
Proof.
  unfold inode_num, data_block_num. pose proof (ld32_range m0 (bb + 4)).
  pose proof (ld32_range m0 (bb + 8)). lia.
Qed.

Lemma inode_addr_eq ino :
  0 <= ino < inode_num m0 bb ->
  inode_addr f ino = bb + (ino + 1) * FOUR_KB /\ bb + (ino + 2) * FOUR_KB <= image_end f m0.
Proof.
  intros Hi. destruct Hok as [Hb He _ _ _]. pose proof counts_nonneg.
  unfold inode_addr, image_end, FOUR_KB in *.
  rewrite (u32_small (ino + 1)) by lia. rewrite u32_small by lia. lia.
Qed.

Lemma data_block_addr_eq :
  inode_num m0 bb < 2 ^ 20 - 1 -> data_block_addr f m0 = u32 (bb + (inode_num m0 bb + 1) * FOUR_KB).
Proof. intros. unfold data_block_addr. by rewrite (u32_small (inode_num m0 bb + 1)) by (pose proof counts_nonneg; lia). Qed.

Lemma ld32_image m a :
  same_image f m0 m -> bb <= a -> a + 4 <= image_end f m0 -> ld32 m a = ld32 m0 a.
Proof. intros H ??. apply ld32_ext. intros x Hx. apply H. lia. Qed.

Lemma data_block_addr_image m :
  same_image f m0 m -> 0 < image_end f m0 - bb -> data_block_addr f m = data_block_addr f m0.
Proof.
  intros H Hp. unfold data_block_addr, inode_num. rewrite (ld32_image m (bb + 4)); [done|done|lia|].
  pose proof counts_nonneg. unfold image_end, FOUR_KB in *. lia.
Qed.

(** A block pointer of a file, and the block, are in the image. *)
Lemma block_at_image m ino b :
  same_image f m0 m -> 0 <= ino < inode_num m0 bb -> 0 <= b -> b * FOUR_KB < file_length f m0 ino ->
  block_at m (inode_addr f ino) (data_block_addr f m0) b
    = block_at m0 (inode_addr f ino) (data_block_addr f m0) b /\
  bb <= block_at m0 (inode_addr f ino) (data_block_addr f m0) b /\
  block_at m0 (inode_addr f ino) (data_block_addr f m0) b + FOUR_KB <= image_end f m0.
Proof.
  intros Hs Hi Hb Hl. destruct (inode_addr_eq ino Hi) as [Ea Ee]. pose proof counts_nonneg.
  destruct Hok as [Hp He _ Hlen Hblk]. specialize (Hlen ino Hi). specialize (Hblk ino b Hi Hb Hl).
  unfold block_at. unfold FOUR_KB in *.
  assert (Hb' : b < 1023) by lia.
  rewrite (u32_small (inode_addr f ino + 4 + 4 * b)) by (rewrite Ea; lia).
  rewrite (ld32_image m) by (auto; rewrite Ea; lia). split; [done|].
  pose proof (ld32_range m0 (inode_addr f ino + 4 + 4 * b)).
  set (v := ld32 m0 (inode_addr f ino + 4 + 4 * b)) in *.
  unfold image_end, FOUR_KB in *.
  rewrite data_block_addr_eq by lia. unfold FOUR_KB.
  rewrite (u32_small (bb + _)) by lia. rewrite u32_small by lia. lia.
Qed.

Lemma file_byte_image m ino k :
  same_image f m0 m -> 0 <= ino < inode_num m0 bb -> 0 <= k < file_length f m0 ino ->
  ld m (u32 (block_at m0 (inode_addr f ino) (data_block_addr f m0) (k / FOUR_KB) + k mod FOUR_KB))
  = file_byte f m0 ino k.
Proof.
  intros Hs Hi Hk. unfold file_byte.
  destruct (block_at_image m ino (k / FOUR_KB)) as (_ & H1 & H2); [done..| | |].
  { apply Z.div_pos; unfold FOUR_KB; lia. }
  { unfold FOUR_KB in *. Z.div_mod_to_equations. lia. }
  apply Hs. pose proof (img_base _ _ Hok). pose proof (img_end _ _ Hok).
  assert (0 <= k mod FOUR_KB < FOUR_KB) by (apply Z.mod_pos_bound; unfold FOUR_KB; lia).
  rewrite u32_small by lia. lia.
Qed.

Context (ino buf len : Z) (Hino : 0 <= ino < inode_num m0 bb) (Hbuf : off_image f m0 buf len).
Local Abbreviation L := (file_length f m0 ino).
Local Abbreviation ia := (inode_addr f ino).
Local Abbreviation da := (data_block_addr f m0).

Lemma read_data_loop_spec n : forall m cur offset i count,
  0 <= offset <= L -> 0 <= i -> i + Z.of_nat n <= len ->
  (offset < L -> cur = block_at m0 ia da (offset / FOUR_KB)) -> same_image f m0 m ->
  exists m', read_data_loop n m ia da L buf cur offset i count
    = (m', count + Z.min (Z.of_nat n) (L - offset)) /\
  (forall j, 0 <= j < Z.min (Z.of_nat n) (L - offset) ->
     ld m' (buf + i + j) = file_byte f m0 ino (offset + j)) /\
  unchanged_outside m m' (buf + i) (Z.min (Z.of_nat n) (L - offset + 1)).
Proof.
  pose proof (img_length _ _ Hok ino Hino) as HL. destruct Hbuf as (Hb0 & Hb1 & Hb2).
  unfold FOUR_KB in HL.
  induction n as [|n IH]; intros m cur offset i count Ho Hi Hn Hcur Hs; cbn [read_data_loop].
  { exists m. rewrite Z.min_l, Z.add_0_r by lia. split; [done|]. split; [intros; lia|by intros x _]. }
  rewrite (u32_small (buf + i)), (u32_small (offset + 1)) by lia.
  set (v := ld m _). set (m1 := st m (buf + i) v).
  assert (Hs1 : same_image f m0 m1).
  { intros x Hx. unfold m1. rewrite ld_st_ne by lia. by apply Hs. }
  assert (Hx : unchanged_outside m m1 (buf + i) 1).
  { intros x Hx. unfold m1. apply ld_st_ne. lia. }
  destruct (Z.ltb_spec L (offset + 1)).
  { exists m1. replace (Z.min _ (L - offset)) with 0 by lia. rewrite Z.add_0_r. split; [done|].
    split; [intros; lia|]. by replace (Z.min _ _) with 1 by lia. }
  assert (Hv : v = file_byte f m0 ino offset).
  { unfold v. rewrite Hcur by lia. apply file_byte_image; [done|done|lia]. }
  edestruct (IH m1 (if (offset + 1) mod FOUR_KB =? 0
                    then block_at m1 ia da ((offset + 1) / FOUR_KB) else cur)
               (offset + 1) (i + 1) (count + 1)) as (m' & E & Hby & Hout); [lia|lia|lia| |done|].
  { intros Hlt. destruct (Z.eqb_spec ((offset + 1) mod FOUR_KB) 0).
    - apply block_at_image; [done|done| |]; unfold FOUR_KB in *; Z.div_mod_to_equations; lia.
    - rewrite Hcur by lia. f_equal. unfold FOUR_KB in *. Z.div_mod_to_equations. lia. }
  exists m'. rewrite E. split; [f_equal; lia|]. split.
  - intros j Hj. destruct (Z.eq_dec j 0) as [->|].
    + rewrite !Z.add_0_r, Hout by lia. unfold m1. rewrite ld_st_eq, Hv.
      apply u8_small. apply ld_range.
    + replace (buf + i + j) with (buf + (i + 1) + (j - 1)) by lia. rewrite Hby by lia. f_equal. lia.
  - intros x Hxo. rewrite Hout by lia. apply Hx. lia.
Qed.

Lemma length_file_content : Z.of_nat (length (file_content f m0 ino)) = L.
Proof.
  unfold file_content. rewrite length_fmap, length_seqZ.
  pose proof (ld32_range m0 (inode_addr f ino)). unfold file_length. lia.
Qed.

Lemma nth_file_content k :
  0 <= k < L -> nth (Z.to_nat k) (file_content f m0 ino) 0 = file_byte f m0 ino k.
Proof.
  intros Hk. apply nth_lookup_Some. unfold file_content. rewrite list_lookup_fmap.
  rewrite lookup_seqZ_lt by lia. cbn. do 2 f_equal. lia.
Qed.

(** What one call of [read_data] does: the chunk of the contents, and one byte more in the
    buffer when the request runs past the end of the file. *)
Lemma read_data_spec offset :
  0 <= offset -> 0 <= len < 2 ^ 31 ->
  let chunk := take (Z.to_nat len) (drop (Z.to_nat offset) (file_content f m0 ino)) in
  exists m', read_data f m0 ino offset buf len = (Z.of_nat (length chunk), m') /\
    bytes m' buf (length chunk) = chunk /\
    unchanged_outside m0 m' buf (if L <? offset then 0 else Z.min len (L - offset + 1)).
Proof.
  intros Ho Hlen. cbn zeta. pose proof Hbuf as (Hb0 & Hb1 & Hb2). unfold read_data.
  decide_b. cbn [orb]. pose proof length_file_content as HL. change (ld32 m0 (inode_addr f ino)) with L.
  set (c := file_content f m0 ino) in *.
  assert (Hch : Z.of_nat (length (take (Z.to_nat len) (drop (Z.to_nat offset) c)))
                = Z.max 0 (Z.min len (L - offset))) by (rewrite length_take, length_drop; lia).
  destruct (Z.ltb_spec L offset).
  - exists m0. rewrite Z.max_l in Hch by lia. rewrite Hch. split; [done|].
    destruct (take _ _) as [|]; [|cbn in Hch; lia]. split; [done|by intros x _].
  - destruct (read_data_loop_spec (Z.to_nat len) m0 (block_at m0 ia da (offset / FOUR_KB)) offset 0 0)
      as (m' & E & Hby & Hout); [lia|lia|lia|done|by intros x _|].
    rewrite Z2Nat.id in * by lia. exists m'. rewrite E, Hch, Z.add_0_l, Z.max_r by lia.
    rewrite s32_small by lia. split; [done|].
    split; [|by rewrite Z.add_0_r in Hout].
    apply nth_ext with 0 0; [by rewrite length_bytes|]. intros k Hk. rewrite length_bytes in Hk.
    rewrite nth_bytes by done. specialize (Hby (Z.of_nat k) ltac:(lia)). rewrite Z.add_0_r in Hby.
    rewrite Hby. rewrite <- nth_file_content by lia. fold c.
    rewrite List.nth_firstn, List.nth_skipn, (proj2 (Nat.ltb_lt _ _)) by lia. f_equal. lia.
Qed.

Lemma read_data_same_image offset :
  0 <= offset -> 0 <= len < 2 ^ 31 -> same_image f m0 (read_data f m0 ino offset buf len).2.
Proof.
  intros Ho Hlen. destruct (read_data_spec offset Ho Hlen) as (m' & -> & _ & Hout).
  destruct Hbuf as (? & ? & ?). intros x Hx. apply Hout. case_b; lia.
Qed.
End reading.

(** ** Lemmas: the image is stable *)

Lemma same_image_refl f m : same_image f m m.
Proof. by intros x _. Qed.

Lemma outside_same_image f m m' a n :
  off_image f m a n -> unchanged_outside m m' a n -> same_image f m m'.
Proof. intros (_ & _ & H) Hu x Hx. apply Hu. lia. Qed.

Lemma unchanged_outside_weaken m m' a n b k :
  a <= b -> b + k <= a + n -> unchanged_outside m m' b k -> unchanged_outside m m' a n.
Proof. intros ?? H x Hx. apply H. lia. Qed.

Section stable.
Context (f : fs) (m m' : mem) (Hok : image_ok f m) (Hs : same_image f m m').

Lemma inode_num_stable : inode_num m' (boot_block f) = inode_num m (boot_block f).
Proof.
  unfold inode_num. pose proof (counts_nonneg f m). apply (ld32_image f m); [done|lia|].
  unfold image_end, FOUR_KB. lia.
Qed.

Lemma data_block_num_stable : data_block_num m' (boot_block f) = data_block_num m (boot_block f).
Proof.
  unfold data_block_num. pose proof (counts_nonneg f m). apply (ld32_image f m); [done|lia|].
  unfold image_end, FOUR_KB. lia.
Qed.

Lemma image_end_stable : image_end f m' = image_end f m.
Proof. unfold image_end. by rewrite inode_num_stable, data_block_num_stable. Qed.

Lemma off_image_stable a n : off_image f m a n -> off_image f m' a n.
Proof. unfold off_image. by rewrite image_end_stable. Qed.

Lemma file_length_stable ino :
  0 <= ino < inode_num m (boot_block f) -> file_length f m' ino = file_length f m ino.
Proof.
  intros Hi. unfold file_length. destruct (inode_addr_eq f m Hok ino Hi) as [Ea Ee].
  unfold FOUR_KB in *. apply (ld32_image f m); [done|rewrite Ea; lia|rewrite Ea; lia].
Qed.

Lemma data_block_addr_stable : data_block_addr f m' = data_block_addr f m.
Proof.
  apply data_block_addr_image; [done|]. pose proof (counts_nonneg f m). unfold image_end, FOUR_KB. lia.
Qed.

Lemma file_byte_stable ino k :
  0 <= ino < inode_num m (boot_block f) -> 0 <= k < file_length f m ino ->
  file_byte f m' ino k = file_byte f m ino k.
Proof.
  intros Hi Hk. unfold file_byte at 1. rewrite data_block_addr_stable.
  destruct (block_at_image f m Hok m' ino (k / FOUR_KB)) as (-> & _ & _); [done|done| | |].
  { apply Z.div_pos; unfold FOUR_KB; lia. }
  { unfold FOUR_KB in *. Z.div_mod_to_equations. lia. }
  by apply file_byte_image.
Qed.

Lemma file_content_stable ino :
  0 <= ino < inode_num m (boot_block f) -> file_content f m' ino = file_content f m ino.
Proof.
  intros Hi. unfold file_content. rewrite file_length_stable by done.
  apply list_fmap_ext. intros i k Hk. apply lookup_seqZ in Hk. apply file_byte_stable; [done|lia].
Qed.

Lemma image_ok_stable : image_ok f m'.
Proof.
  destruct Hok as [H1 H2 H3 H4 H5]. split; [done|by rewrite image_end_stable|done|..].
  - intros ino. rewrite inode_num_stable. intros Hi. rewrite file_length_stable by done. auto.
  - intros ino b. rewrite inode_num_stable, data_block_num_stable. intros Hi Hb.
    rewrite file_length_stable by done. intros Hl. specialize (H4 ino Hi).
    destruct (inode_addr_eq f m Hok ino Hi) as [Ea Ee]. unfold FOUR_KB in *.
    rewrite (ld32_image f m); [auto|done|rewrite Ea; lia|rewrite Ea; lia].
Qed.
End stable.

(** ** Lemmas: the directory *)

Lemma cstr_file_name f m i : cstr m (dentry_directory f i) (file_name f m i).
Proof. apply strlen_cstr. Qed.

Lemma name_test f m fname l i :
  cstr m fname l ->
  (strlen m fname =? strlen m (dentry_directory f i)) &&
  (strncmp m fname (dentry_directory f i) (strlen m fname) =? 0) = bool_decide (file_name f m i = l).
Proof.
  intros Hn. pose proof (same_name _ _ _ _ _ Hn (cstr_file_name f m i)) as H.
  apply eq_true_iff_eq. rewrite andb_true_iff, !Z.eqb_eq, bool_decide_eq_true. rewrite H.
  split; congruence.
Qed.

Lemma dentry_in_image f m i :
  image_ok f m -> 0 <= i < num_directories f ->
  boot_block f <= dentry_directory f i /\ dentry_directory f i + sizeof_dentry <= image_end f m.
Proof.
  intros Hok Hi. pose proof (img_entries _ _ Hok). pose proof (counts_nonneg f m).
  unfold dentry_directory, image_end, FOUR_KB, sizeof_dentry. lia.
Qed.

Lemma dentry_copied f m i dentry :
  image_ok f m -> 0 <= i < num_directories f -> off_image f m dentry sizeof_dentry ->
  copied m (memcpy m dentry (dentry_directory f i) sizeof_dentry) dentry (dentry_directory f i)
    sizeof_dentry.
Proof.
  intros Hok Hi (? & ? & ?). destruct (dentry_in_image f m i Hok Hi).
  apply memcpy_spec; [by vm_compute|]. unfold sizeof_dentry in *. lia.
Qed.

(** Look-up by name: the first entry with the name. *)
Lemma read_dentry_by_name_spec f m fname l dentry :
  image_ok f m -> cstr m fname l -> off_image f m dentry sizeof_dentry ->
  (exists i m', read_dentry_by_name f m fname dentry = (0, m') /\
     0 <= i < num_directories f /\ file_name f m i = l /\
     (forall j, 0 <= j < i -> file_name f m j <> l) /\
     copied m m' dentry (dentry_directory f i) sizeof_dentry) \/
  (read_dentry_by_name f m fname dentry = (-1, m) /\
   forall i, 0 <= i < num_directories f -> file_name f m i <> l).
Proof.
  intros Hok Hn Hd. unfold read_dentry_by_name. pose proof Hd as (? & _). decide_b.
  destruct (find_ _ _ _) as [i|] eqn:E.
  - left. apply find_Some in E as (Hi & Hp & Hl). rewrite (name_test _ _ _ _ _ Hn) in Hp.
    exists i. eexists. split; [done|]. split_and!; try lia.
    + by apply bool_decide_eq_true in Hp.
    + intros j Hj. specialize (Hl j Hj). rewrite (name_test _ _ _ _ _ Hn) in Hl.
      by apply bool_decide_eq_false in Hl.
    + by apply dentry_copied.
  - right. split; [done|]. intros i Hi. pose proof (find_None _ _ _ E i Hi) as Hf. cbn beta in Hf.
    rewrite (name_test _ _ _ _ _ Hn) in Hf. by apply bool_decide_eq_false in Hf.
Qed.

Lemma ld32_copied m m' d s n k :
  copied m m' d s n -> 0 <= k -> k + 4 <= n -> ld32 m' (d + k) = ld32 m (s + k).
Proof.
  intros H ??. unfold ld32. rewrite !H. decide_b. cbn [andb].
  replace (s + (d + k - d)) with (s + k) by lia. replace (s + (d + k + 1 - d)) with (s + k + 1) by lia.
  replace (s + (d + k + 2 - d)) with (s + k + 2) by lia.
  by replace (s + (d + k + 3 - d)) with (s + k + 3) by lia.
Qed.

(** A copied entry has the fields of the original. *)
Lemma dentry_fields m m' d s :
  copied m m' d s sizeof_dentry -> filetype m' d = filetype m s /\ inode_index m' d = inode_index m s.
Proof.
  intros H. unfold filetype, inode_index. rewrite !(ld32_copied _ _ _ _ _ _ H) by (unfold sizeof_dentry; lia). done.
Qed.

(** ** Lemmas: descriptors *)

(** A descriptor open on file [ino], with the position inside the file. *)
Definition reading_file (f : fs) (m : mem) (p : pcb) (fd ino : Z) : Prop :=
  fd_open p fd /\ inode_ptr (elem p fd) = ino /\ 0 <= ino < inode_num m (boot_block f) /\
  0 <= file_position (elem p fd) <= file_length f m ino.

Lemma file_read_spec f m p fd ino buf n :
  image_ok f m -> reading_file f m p fd ino -> off_image f m buf n -> 0 <= n < 2 ^ 31 ->
  let pos := file_position (elem p fd) in
  let chunk := take (Z.to_nat n) (drop (Z.to_nat pos) (file_content f m ino)) in
  exists p' m', file_read f m p fd buf n = (Z.of_nat (length chunk), p', m') /\
    bytes m' buf (length chunk) = chunk /\ unchanged_outside m m' buf n /\
    p' = set_elem p fd (set_file_position (elem p fd) (pos + Z.of_nat (length chunk))) /\
    pos + Z.of_nat (length chunk) <= file_length f m ino.
Proof.
  intros Hok (Hop & Hi & Hr & Hpos) Hb Hn. cbn zeta. unfold file_read, fd_open in *. decide_b.
  rewrite Hi. set (pos := file_position (elem p fd)) in *.
  destruct (read_data_spec f m Hok ino buf n Hr Hb pos ltac:(lia) Hn) as (m' & -> & Hby & Hout).
  set (chunk := take _ _) in *. eexists _, m'. split; [done|]. split; [done|].
  pose proof (length_file_content f m ino). pose proof (img_length _ _ Hok ino Hr).
  assert (Hl : pos + Z.of_nat (length chunk) <= file_length f m ino)
    by (unfold chunk; rewrite length_take, length_drop; lia).
  split_and!; [|by rewrite u32_small by (unfold FOUR_KB in *; lia)|done].
  eapply unchanged_outside_weaken; [| |exact Hout]; [lia|]. case_b; lia.
Qed.

(** A run of reads through one descriptor; each request is a buffer and a count. *)
Fixpoint file_reads (f : fs) (m : mem) (p : pcb) (fd : Z) (reqs : list (Z * Z))
  : list (list Z) * pcb * mem :=
  match reqs with
  | [] => ([], p, m)
  | (buf, n) :: reqs' =>
      let '(r, p, m) := file_read f m p fd buf n in
      let '(out, p', m') := file_reads f m p fd reqs' in
      (bytes m buf (Z.to_nat r) :: out, p', m')
  end.

Lemma take_split {A} (a b : nat) (l : list A) :
  take (a + b) l = take a l ++ take b (drop (length (take a l)) l).
Proof.
  rewrite <- (take_drop a (take (a + b) l)).
  rewrite take_take, Nat.min_l by lia. f_equal.
  rewrite length_take. destruct (Nat.le_gt_cases a (length l)).
  - rewrite Nat.min_l by done. rewrite take_drop_commute. f_equal.
  - rewrite Nat.min_r by lia. rewrite !drop_ge, ?take_nil; [done|lia|]. rewrite length_take. lia.
Qed.

Lemma file_reads_spec f ino fd reqs : forall m p,
  image_ok f m -> reading_file f m p fd ino ->
  Forall (fun r => off_image f m r.1 r.2 /\ 0 <= r.2 < 2 ^ 31) reqs ->
  let '(out, p', m') := file_reads f m p fd reqs in
  concat out = take (Z.to_nat (foldr (fun r s => r.2 + s) 0 reqs))
                 (drop (Z.to_nat (file_position (elem p fd))) (file_content f m ino)) /\
  file_content f m' ino = file_content f m ino.
Proof.
  induction reqs as [|[buf n] reqs IH]; intros m p Hok Hrd Hall; cbn [file_reads foldr concat fst snd];
    [done|].
  apply List.Forall_cons_iff in Hall as [[Hb Hn] Hall]. cbn [fst snd] in *.
  destruct (file_read_spec f m p fd ino buf n Hok Hrd Hb Hn) as (p1 & m1 & -> & Hby & Hout & -> & Hle).
  assert (Hs : same_image f m m1) by (by eapply outside_same_image).
  pose proof Hrd as (Hop & Hi & Hr & Hpos).
  set (pos := file_position (elem p fd)) in *. set (chunk := take (Z.to_nat n) _) in *.
  set (p1 := set_elem _ _ _).
  assert (Hrd1 : reading_file f m1 p1 fd ino).
  { unfold reading_file, fd_open, p1. rewrite elem_set_elem_eq. cbn.
    rewrite (inode_num_stable f m m1 Hs), (file_length_stable f m m1 Hok Hs) by done.
    split_and!; auto; lia. }
  specialize (IH m1 p1 (image_ok_stable f m m1 Hok Hs) Hrd1).
  destruct (file_reads f m1 p1 fd reqs) as [[out p'] m'].
  destruct IH as [IH1 IH2].
  { eapply List.Forall_impl; [|exact Hall]. intros [a k] [Ha Hk]. split; [|done].
    by apply (off_image_stable f m m1 Hs). }
  rewrite (file_content_stable f m m1 Hok Hs) in IH1, IH2 by done. split; [|done].
  cbn [concat]. rewrite Nat2Z.id, Hby, IH1. unfold p1. rewrite elem_set_elem_eq.
  cbn [file_position set_file_position]. rewrite Z2Nat.inj_add, Nat2Z.id by lia.
  rewrite <- drop_drop. unfold chunk. rewrite <- take_split.
  assert (0 <= foldr (fun r s => r.2 + s) 0 reqs).
  { clear -Hall. induction reqs as [|[a k] reqs IH]; cbn; [lia|].
    apply List.Forall_cons_iff in Hall as [[_ ?] ?]. cbn in *. specialize (IH ltac:(done)). lia. }
  by rewrite Z2Nat.inj_add by lia.
Qed.

(** ** Lemmas: programs *)

Lemma bytes_nth m a n l k :
  bytes m a n = l -> (k < n)%nat -> ld m (a + Z.of_nat k) = nth k l 0.
Proof. intros <- Hk. by rewrite nth_bytes. Qed.

(** The little-endian word that the loop of [loader] assembles. *)
Lemma loader_word (b : Z -> Z) :
  (forall i, 0 <= b i < 256) ->
  for_ 0 ENTRY_POINT_SIZE (fun i r => Z.lor r (u32 (Z.shiftl (b i) (i * 8)))) 0
  = b 0 + 2 ^ 8 * b 1 + 2 ^ 16 * b 2 + 2 ^ 24 * b 3.
Proof.
  intros Hb. unfold ENTRY_POINT_SIZE. do 4 rewrite for_step by lia. rewrite for_empty by lia.
  rewrite !Z.shiftl_mul_pow2 by lia. pose proof (Hb 0); pose proof (Hb 1); pose proof (Hb 2);
    pose proof (Hb 3).
  change (0 + 1 + 1 + 1) with 3. change (0 + 1 + 1) with 2. change (0 + 1) with 1.
  change (0 * 8) with 0. change (1 * 8) with 8. change (2 * 8) with 16. change (3 * 8) with 24.
  rewrite !u32_small by lia. rewrite Z.lor_0_l.
  change (2 ^ 0) with 1. rewrite Z.mul_1_r.
  rewrite (lor_shifted (b 0) (b 1) 8), (lor_shifted _ (b 2) 16), (lor_shifted _ (b 3) 24) by lia. lia.
Qed.

(** Entry [i] is the one that the name [l] refers to. *)
Definition names (f : fs) (m : mem) (l : list Z) (i : Z) : Prop :=
  0 <= i < num_directories f /\ file_name f m i = l /\
  forall j, 0 <= j < i -> file_name f m j <> l.

Lemma names_unique f m l i j : names f m l i -> names f m l j -> i = j.
Proof.
  intros (? & Ei & Hi) (? & Ej & Hj). destruct (Z.lt_trichotomy i j) as [?|[?|?]]; [|done|].
  - by destruct (Hj i ltac:(lia)).
  - by destruct (Hi j ltac:(lia)).
Qed.

Lemma read_dentry_by_name_found f m fname l dentry i :
  image_ok f m -> cstr m fname l -> off_image f m dentry sizeof_dentry -> names f m l i ->
  exists m', read_dentry_by_name f m fname dentry = (0, m') /\
    copied m m' dentry (dentry_directory f i) sizeof_dentry.
Proof.
  intros Hok Hn Hd Hi.
  destruct (read_dentry_by_name_spec f m fname l dentry Hok Hn Hd) as [(k & m' & E & ? & ? & ? & ?)|[_ H]].
  - exists m'. split; [done|]. by rewrite (names_unique f m l i k).
  - destruct Hi as (? & ? & _). by destruct (H i).
Qed.

(** Where the locals of [loader] are: in kernel memory, off the image and apart. *)
Record loader_frame (f : fs) (m : mem) (dentry entry_point : Z) : Prop := {
  lf_dentry : off_image f m dentry sizeof_dentry;
  lf_entry : off_image f m entry_point ENTRY_POINT_SIZE;
  lf_window : off_image f m (USER_PROGRAM_VIRTUAL_START + USER_PROGRAM_OFFSET)
                (FOUR_MB - USER_PROGRAM_OFFSET);
  lf_kernel : dentry + sizeof_dentry <= USER_PROGRAM_VIRTUAL_START /\
              entry_point + ENTRY_POINT_SIZE <= USER_PROGRAM_VIRTUAL_START;
  lf_apart : dentry + sizeof_dentry <= entry_point \/ entry_point + ENTRY_POINT_SIZE <= dentry
}.

Lemma inode_index_ext m m' d :
  (forall x, d <= x < d + sizeof_dentry -> ld m' x = ld m x) -> inode_index m' d = inode_index m d.
Proof. intros H. apply ld32_ext. intros x Hx. apply H. unfold sizeof_dentry. lia. Qed.

(** The second half of [loader]: the entry point of a file of at least 28 bytes. *)
Lemma loader_entry f m ino entry_point c :
  image_ok f m -> 0 <= ino < inode_num m (boot_block f) ->
  off_image f m entry_point ENTRY_POINT_SIZE -> file_content f m ino = c -> (28 <= length c)%nat ->
  exists m', read_data f m ino ENTRY_POINT_OFFSET entry_point ENTRY_POINT_SIZE = (4, m') /\
    unchanged_outside m m' entry_point ENTRY_POINT_SIZE /\
    for_ 0 ENTRY_POINT_SIZE (fun i r => Z.lor r (u32 (Z.shiftl (ld m' (entry_point + i)) (i * 8)))) 0
    = nth 24 c 0 + 2 ^ 8 * nth 25 c 0 + 2 ^ 16 * nth 26 c 0 + 2 ^ 24 * nth 27 c 0.
Proof.
  intros Hok Hi He Hc Hl. pose proof (length_file_content f m ino) as HL. rewrite Hc in HL.
  destruct (read_data_spec f m Hok ino entry_point ENTRY_POINT_SIZE Hi He ENTRY_POINT_OFFSET)
    as (m' & E & Hby & Hout); [by vm_compute|by vm_compute|].
  rewrite Hc in E, Hby. unfold ENTRY_POINT_SIZE, ENTRY_POINT_OFFSET in *.
  assert (H4 : length (take (Z.to_nat 4) (drop (Z.to_nat 24) c)) = 4%nat)
    by (rewrite length_take, length_drop; lia).
  rewrite H4 in E, Hby. exists m'. split; [exact E|]. split.
  { eapply unchanged_outside_weaken; [| |exact Hout]; [lia|]. case_b; lia. }
  assert (Hn : forall k, (k < 4)%nat -> ld m' (entry_point + Z.of_nat k) = nth (24 + k) c 0).
  { intros k Hk. rewrite (bytes_nth _ _ _ _ _ Hby Hk), List.nth_firstn, List.nth_skipn.
    by rewrite (proj2 (Nat.ltb_lt _ _)) by lia. }
  change 4 with ENTRY_POINT_SIZE.
  rewrite (loader_word (fun i => ld m' (entry_point + i))) by (intros; apply ld_range).
  pose proof (Hn 0%nat ltac:(lia) : ld m' (entry_point + 0) = nth 24 c 0) as E0.
  pose proof (Hn 1%nat ltac:(lia) : ld m' (entry_point + 1) = nth 25 c 0) as E1.
  pose proof (Hn 2%nat ltac:(lia) : ld m' (entry_point + 2) = nth 26 c 0) as E2.
  pose proof (Hn 3%nat ltac:(lia) : ld m' (entry_point + 3) = nth 27 c 0) as E3.
  by rewrite E0, E1, E2, E3.
Qed.

Lemma loader_found f m filename l dentry entry_point i c :
  image_ok f m -> cstr m filename l -> loader_frame f m dentry entry_point -> names f m l i ->
  let ino := inode_index m (dentry_directory f i) in
  0 <= ino < inode_num m (boot_block f) -> file_content f m ino = c -> (28 <= length c)%nat ->
  let prog := take (Z.to_nat (FOUR_MB - USER_PROGRAM_OFFSET)) c in
  exists m', loader f m filename dentry entry_point
    = (s32 (nth 24 c 0 + 2 ^ 8 * nth 25 c 0 + 2 ^ 16 * nth 26 c 0 + 2 ^ 24 * nth 27 c 0), m') /\
    bytes m' 0x8048000 (length prog) = prog /\ same_image f m m' /\
    forall x, ~ (0x8048000 <= x < 0x8400000) -> ~ (dentry <= x < dentry + sizeof_dentry) ->
      ~ (entry_point <= x < entry_point + ENTRY_POINT_SIZE) -> ld m' x = ld m x.
Proof.
  intros Hok Hn [Hd He Hw [Hk1 Hk2] Hap] Hi. cbn zeta. unfold loader. intros Hino Hc Hl.
  destruct (read_dentry_by_name_found _ _ _ _ _ _ Hok Hn Hd Hi) as (m1 & -> & Hcp).
  cbn [Z.eqb negb]. destruct (dentry_fields _ _ _ _ Hcp) as [_ Eino]. rewrite Eino.
  pose proof (outside_same_image _ _ _ _ _ Hd (copied_outside _ _ _ _ _ Hcp)) as Hs1.
  set (ino := inode_index m (dentry_directory f i)) in *.
  pose proof (image_ok_stable f m m1 Hok Hs1) as Hok1.
  pose proof (inode_num_stable f m m1 Hs1) as En1.
  destruct (read_data_spec f m1 Hok1 ino (USER_PROGRAM_VIRTUAL_START + USER_PROGRAM_OFFSET)
    (FOUR_MB - USER_PROGRAM_OFFSET) ltac:(rewrite En1; exact Hino)
    (off_image_stable f m m1 Hs1 _ _ Hw) 0) as (m2 & E2 & Hby & Hout); [lia|by vm_compute|].
  rewrite E2. rewrite (file_content_stable f m m1 Hok Hs1 ino Hino), Hc, drop_0 in Hby, E2.
  assert (Hout2 : unchanged_outside m1 m2 0x8048000 (FOUR_MB - USER_PROGRAM_OFFSET)).
  { eapply unchanged_outside_weaken; [| |exact Hout]; [by vm_compute|].
    change (USER_PROGRAM_VIRTUAL_START + USER_PROGRAM_OFFSET) with 0x8048000.
    unfold FOUR_MB, USER_PROGRAM_OFFSET. case_b; lia. }
  pose proof (outside_same_image f m1 m2 _ _ (off_image_stable f m m1 Hs1 _ _ Hw) Hout2) as Hs2.
  assert (Hs02 : same_image f m m2).
  { intros x Hx. rewrite Hs2 by (by rewrite (image_end_stable f m m1 Hs1)). by apply Hs1. }
  assert (Ei2 : inode_index m2 dentry = ino).
  { rewrite <- Eino. apply inode_index_ext. intros x Hx. apply Hout2. unfold USER_PROGRAM_VIRTUAL_START in *. lia. }
  cbn [fst snd]. rewrite Ei2.
  destruct (loader_entry f m2 ino entry_point c (image_ok_stable f m m2 Hok Hs02))
    as (m3 & -> & Hout3 & ->).
  { by rewrite (inode_num_stable f m m2 Hs02). }
  { by apply (off_image_stable f m m2 Hs02). }
  { by rewrite (file_content_stable f m m2 Hok Hs02). }
  { done. }
  exists m3. split; [done|].
  unfold USER_PROGRAM_VIRTUAL_START, USER_PROGRAM_OFFSET, FOUR_MB, ENTRY_POINT_SIZE in *. split_and!.
  - rewrite <- Hby at 2. apply bytes_ext. intros k Hk. apply Hout3. lia.
  - intros x Hx. rewrite Hout3; [by apply Hs02|]. destruct He as (_ & _ & ?). lia.
  - intros x H1 H2 H3. rewrite Hout3, Hout2 by lia. apply (copied_outside _ _ _ _ _ Hcp). lia.
Qed.

(** The check of the magic number writes its buffer only. *)
Lemma executable_check_found f m dentry magic_buf c :
  image_ok f m -> off_image f m magic_buf EXEC_MAGIC_NUM_COUNT ->
  0 <= inode_index m dentry < inode_num m (boot_block f) ->
  file_content f m (inode_index m dentry) = c -> c = [] \/ (4 <= length c)%nat ->
  exists r m', executable_check f m dentry magic_buf = (r, m') /\
    (r = 0 <-> c = [] \/ take 4 c = [0x7f; 0x45; 0x4c; 0x46]) /\
    unchanged_outside m m' magic_buf EXEC_MAGIC_NUM_COUNT.
Proof.
  intros Hok Hb Hi Hc Hl. unfold executable_check.
  destruct (read_data_spec f m Hok _ magic_buf EXEC_MAGIC_NUM_COUNT Hi Hb 0)
    as (m' & -> & Hby & Hout); [lia|by vm_compute|].
  rewrite Hc, drop_0 in *. change (Z.to_nat EXEC_MAGIC_NUM_COUNT) with 4%nat in *.
  assert (Ho : unchanged_outside m m' magic_buf EXEC_MAGIC_NUM_COUNT).
  { pose proof (firstn_le_length 4 c). unfold EXEC_MAGIC_NUM_COUNT in *.
    eapply unchanged_outside_weaken; [| |exact Hout]; [lia|case_b; lia]. }
  clear Hout. destruct Hl as [->|Hl]; [eexists _, _; split; [reflexivity|]; cbn; tauto|].
  destruct c as [|c0 [|c1 [|c2 [|c3 c]]]]; cbn [length] in Hl; try lia.
  change (take 4 (c0 :: c1 :: c2 :: c3 :: c)) with [c0; c1; c2; c3] in *.
  change (Z.of_nat (length [c0; c1; c2; c3]) =? 0) with false.
  cbn [bytes length] in Hby. injection Hby as E0 E1 E2 E3.
  replace (magic_buf + 1 + 1 + 1) with (magic_buf + 3) in E3 by lia.
  replace (magic_buf + 1 + 1) with (magic_buf + 2) in E2 by lia.
  rewrite E0, E1, E2, E3. clear E0 E1 E2 E3 Hc. eexists _, _. split; [reflexivity|]. split; [|done].
  destruct (Z.eqb_spec c0 0x7f), (Z.eqb_spec c1 0x45), (Z.eqb_spec c2 0x4c), (Z.eqb_spec c3 0x46);
    cbn; subst; split; intros H; try done; try (by right); destruct H; congruence.
Qed.

(** A name that ends inside its entry is looked up inside the image. *)
Lemma entry_name_stable f m m' l i :
  image_ok f m -> same_image f m m' -> Z.of_nat (length l) < sizeof_dentry -> 0 <= i < num_directories f ->
  file_name f m' i = l <-> file_name f m i = l.
Proof.
  intros Hok Hs Hl Hi. destruct (dentry_in_image f m i Hok Hi) as [Hd1 Hd2].
  assert (Hag : forall x, dentry_directory f i <= x <= dentry_directory f i + Z.of_nat (length l) ->
    ld m' x = ld m x) by (intros x Hx; apply Hs; lia).
  split; intros E; symmetry.
  - apply (cstr_inj m _ _ (dentry_directory f i)); [|apply cstr_file_name].
    apply (cstr_ext m'); [intros x Hx; symmetry; apply Hag; lia|]. rewrite <- E. apply cstr_file_name.
  - apply (cstr_inj m' _ _ (dentry_directory f i)); [|apply cstr_file_name].
    apply (cstr_ext m); [intros x Hx; apply Hag; lia|]. rewrite <- E. apply cstr_file_name.
Qed.

Lemma name_stable f m m' l i :
  image_ok f m -> same_image f m m' -> (length l <= 32)%nat -> 0 <= i < num_directories f ->
  file_name f m' i = l <-> file_name f m i = l.
Proof. intros. apply entry_name_stable; unfold sizeof_dentry; lia || done. Qed.

Lemma names_stable f m m' l i :
  image_ok f m -> same_image f m m' -> (length l <= 32)%nat -> names f m l i -> names f m' l i.
Proof.
  intros Hok Hs Hl (Hi & Hn & Hj). split; [done|]. split; [by apply (name_stable f m m')|].
  intros j Hjr E. apply (Hj j Hjr). apply (name_stable f m m'); [done|done|done|lia|done].
Qed.

(** ** Properties *)

(** C6: [read_data] refines the read of a byte sequence.  For a file of a well-formed image and
    a buffer off the image, it returns the number of bytes of the file's contents from [offset]
    that the request covers, puts exactly those in the buffer, and changes nothing else, except
    that a request past the end of the file also overwrites the one byte that follows them. *)
Theorem read_data_refines_file_contents f m ino offset buf length_ :
  image_ok f m -> 0 <= ino < inode_num m (boot_block f) -> off_image f m buf length_ ->
  0 <= offset -> 0 <= length_ < 2 ^ 31 ->
  let c := file_content f m ino in
  let chunk := take (Z.to_nat length_) (drop (Z.to_nat offset) c) in
  let n := Z.of_nat (length chunk) in
  exists m', read_data f m ino offset buf length_ = (n, m') /\
    bytes m' buf (length chunk) = chunk /\
    unchanged_outside m m' buf (if n <? length_ then n + 1 else n) /\
    file_content f m' ino = c.
Proof.
  intros Hok Hi Hb Ho Hl. cbn zeta.
  destruct (read_data_spec f m Hok ino buf length_ Hi Hb offset Ho Hl) as (m' & E & Hby & Hout).
  pose proof (read_data_same_image f m Hok ino buf length_ Hi Hb offset Ho Hl) as Hs.
  pose proof (length_file_content f m ino) as HL. rewrite E in Hs. cbn in Hs.
  exists m'. split_and!; [done|done| |by apply file_content_stable].
  eapply unchanged_outside_weaken; [| |exact Hout]; [lia|].
  rewrite length_take, length_drop. case_b; lia.
Qed.

(** C26: Reading a file in any sequence of requests returns its contents in order: the
    concatenation of what the reads deliver is the prefix of the rest of the file whose length
    is the sum of the requests, and the file is still what it was. *)
Theorem file_reads_are_sequential f m p fd ino reqs :
  image_ok f m -> reading_file f m p fd ino ->
  Forall (fun r => off_image f m r.1 r.2 /\ 0 <= r.2 < 2 ^ 31) reqs ->
  let '(out, p', m') := file_reads f m p fd reqs in
  concat out = take (Z.to_nat (foldr (fun r s => r.2 + s) 0 reqs))
                 (drop (Z.to_nat (file_position (elem p fd))) (file_content f m ino)) /\
  file_content f m' ino = file_content f m ino.
Proof. apply file_reads_spec. Qed.

(** [read_dentry_by_name] finds the first directory entry whose name equals the argument and
    copies its 64 bytes to [dentry], touching nothing else; when there is none it returns -1 and
    changes nothing. *)
Theorem read_dentry_by_name_correct f m fname l dentry :
  image_ok f m -> cstr m fname l -> off_image f m dentry sizeof_dentry ->
  (forall i, names f m l i -> exists m', read_dentry_by_name f m fname dentry = (0, m') /\
     bytes m' dentry 64 = bytes m (dentry_directory f i) 64 /\
     unchanged_outside m m' dentry sizeof_dentry) /\
  ((forall i, 0 <= i < num_directories f -> file_name f m i <> l) ->
   read_dentry_by_name f m fname dentry = (-1, m)).
Proof.
  intros Hok Hn Hd. split.
  - intros i Hi. destruct (read_dentry_by_name_found _ _ _ _ _ _ Hok Hn Hd Hi) as (m' & E & Hc).
    exists m'. split; [done|]. split; [|by eapply copied_outside].
    eapply copied_bytes; [exact Hc|by vm_compute].
  - intros Hno. destruct (read_dentry_by_name_spec f m fname l dentry Hok Hn Hd)
      as [(i & ? & _ & ? & ? & _)|[E _]]; [|done]. by destruct (Hno i).
Qed.

(** A name that fills all 32 bytes of its entry cannot be looked up: the comparison runs on
    into the type field, so an entry of a directory or regular file (type 1 or 2) whose name has
    no NUL is never found under that name. *)
Theorem full_length_names_are_not_found f m fname l dentry i :
  image_ok f m -> cstr m fname l -> off_image f m dentry sizeof_dentry ->
  0 <= i < num_directories f -> length l = 32%nat ->
  bytes m (dentry_directory f i) 32 = l -> ld m (dentry_directory f i + 32) <> 0 ->
  (forall j, 0 <= j < num_directories f -> j <> i -> file_name f m j <> l) ->
  read_dentry_by_name f m fname dentry = (-1, m).
Proof.
  intros Hok Hn Hd Hi Hl Hb Ht Hj.
  destruct (read_dentry_by_name_spec f m fname l dentry Hok Hn Hd)
    as [(k & ? & _ & ? & E & _)|[E _]]; [|done].
  destruct (Z.eq_dec k i) as [->|]; [|by destruct (Hj k)].
  pose proof (cstr_end _ _ _ (cstr_file_name f m i)) as H0. rewrite E, Hl in H0. done.
Qed.

(** [loader] puts the program file at 0x8048000 (as much of it as the 4 MB window holds),
    returns the entry point in bytes 24 to 27 of the file, and leaves everything outside the
    window and its own locals alone, the image included; for a name that is not in the directory
    it returns -1 and changes nothing. *)
Theorem loader_loads_program f m filename l dentry entry_point :
  image_ok f m -> cstr m filename l -> loader_frame f m dentry entry_point ->
  (forall i c, names f m l i ->
     let ino := inode_index m (dentry_directory f i) in
     0 <= ino < inode_num m (boot_block f) -> file_content f m ino = c -> (28 <= length c)%nat ->
     let prog := take (Z.to_nat (FOUR_MB - USER_PROGRAM_OFFSET)) c in
     exists m', loader f m filename dentry entry_point
       = (s32 (nth 24 c 0 + 2 ^ 8 * nth 25 c 0 + 2 ^ 16 * nth 26 c 0 + 2 ^ 24 * nth 27 c 0), m') /\
       bytes m' 0x8048000 (length prog) = prog /\ same_image f m m' /\
       forall x, ~ (0x8048000 <= x < 0x8400000) -> ~ (dentry <= x < dentry + sizeof_dentry) ->
         ~ (entry_point <= x < entry_point + ENTRY_POINT_SIZE) -> ld m' x = ld m x) /\
  ((forall i, 0 <= i < num_directories f -> file_name f m i <> l) ->
   loader f m filename dentry entry_point = (-1, m)).
Proof.
  intros Hok Hn Hf. split.
  - intros i c Hi ino Hino Hc Hl. by apply (loader_found f m filename l dentry entry_point i c).
  - intros Hno. unfold loader.
    destruct (read_dentry_by_name_spec f m filename l dentry Hok Hn (lf_dentry _ _ _ _ Hf))
      as [(i & ? & _ & ? & ? & _)|[-> _]]; [by destruct (Hno i)|done].
Qed.

(** [executable_check] answers 0 exactly for the files that start with the ELF magic number
    and for empty files, among the files that are empty or have at least four bytes. *)
Theorem executable_check_decides_magic f m dentry magic_buf c :
  image_ok f m -> off_image f m magic_buf EXEC_MAGIC_NUM_COUNT ->
  0 <= inode_index m dentry < inode_num m (boot_block f) ->
  file_content f m (inode_index m dentry) = c -> c = [] \/ (4 <= length c)%nat ->
  (executable_check f m dentry magic_buf).1 = 0 <->
  c = [] \/ take 4 c = [0x7f; 0x45; 0x4c; 0x46].
Proof.
  intros Hok Hb Hi Hc Hl.
  by destruct (executable_check_found f m dentry magic_buf c Hok Hb Hi Hc Hl) as (r & m' & -> & Hr & _).
Qed.

(** [dir_read] at position [k] delivers the name of entry [k] as a NUL-terminated string,
    returns its length and moves to the next entry; once all entries have been delivered it
    returns 0 and changes nothing.  The size of the buffer is not consulted. *)
Theorem dir_read_delivers_entry f m p fd buf bytes dentry :
  image_ok f m -> 0 <= file_position (elem p fd) ->
  let k := file_position (elem p fd) in
  (num_directories f <= k -> dir_read f m p fd buf bytes dentry = Some (0, p, m)) /\
  (k < num_directories f ->
   let name := file_name f m k in let n := Z.of_nat (length name) in
   n < sizeof_dentry -> off_image f m dentry sizeof_dentry ->
   buf + n < dentry \/ dentry + sizeof_dentry <= buf ->
   exists m', dir_read f m p fd buf bytes dentry
     = Some (n, set_elem p fd (set_file_position (elem p fd) (k + 1)), m') /\
     cstr m' buf name /\
     forall x, ~ (buf <= x <= buf + n) -> ~ (dentry <= x < dentry + sizeof_dentry) ->
       ld m' x = ld m x).
Proof.
  intros Hok Hk0. cbn zeta. unfold dir_read. set (k := file_position (elem p fd)) in *. split.
  { intros Hk. by decide_b. }
  intros Hk Hn Hd Hov. pose proof Hd as (Hd0 & _ & _). decide_b.
  unfold read_dentry_by_index. decide_b. cbn [andb negb].
  pose proof (dentry_copied f m k dentry Hok ltac:(lia) Hd) as Hc.
  set (m1 := memcpy _ _ _ _) in *. set (name := file_name f m k) in *.
  pose proof (copied_cstr _ _ _ _ _ name Hc Hn (cstr_file_name f m k)) as Hs1.
  pose proof (strlen_eq _ _ _ Hs1) as El.
  destruct (strcpy_spec m1 buf dentry) as (m2 & -> & Hc2).
  { rewrite El. unfold sizeof_dentry in *. lia. }
  rewrite El in Hc2. assert (Hs2 : cstr m2 buf name) by (eapply copied_cstr; eauto; lia).
  exists m2. rewrite (strlen_eq _ _ _ Hs2). pose proof (img_entries _ _ Hok).
  rewrite u32_small by lia. split; [done|]. split; [done|].
  intros x H1 H2. rewrite (copied_outside _ _ _ _ _ Hc2) by lia.
  apply (copied_outside _ _ _ _ _ Hc). lia.
Qed.

(** The driver a directory entry's type selects. *)
Definition driver_of (ty : Z) : jmp_tbl :=
  if ty =? FILE_TYPE then file_driver else if ty =? DIRECTORY_TYPE then dir_driver
  else if ty =? RTC_TYPE then rtc_driver else TblWild.

Lemma elem_set_rtc p v i : elem (set_rtc p v) i = elem p i.
Proof. done. Qed.

Lemma file_open_found f m p filename l dentry i :
  image_ok f m -> cstr m filename l -> off_image f m dentry sizeof_dentry -> names f m l i ->
  let d := dentry_directory f i in
  let '(fd, p', m') := file_open f m p filename dentry in
  unchanged_outside m m' dentry sizeof_dentry /\
  ((2 <= fd < FD_MAX /\ ~ fd_open p fd /\ (forall j, 2 <= j < fd -> fd_open p j) /\
    elem p' fd = Fde (driver_of (filetype m d))
                   (if filetype m d =? FILE_TYPE then inode_index m d else 0) 0 1 /\
    (forall j, j <> fd -> elem p' j = elem p j)) \/
   (fd = -1 /\ p' = p /\ forall j, 2 <= j < FD_MAX -> fd_open p j)).
Proof.
  intros Hok Hn Hd Hi. cbn zeta. unfold file_open.
  destruct (read_dentry_by_name_found _ _ _ _ _ _ Hok Hn Hd Hi) as (m' & -> & Hc).
  cbn [Z.eqb negb]. destruct (dentry_fields _ _ _ _ Hc) as [-> ->].
  pose proof (copied_outside _ _ _ _ _ Hc) as Hout.
  pose proof (pcb_open_spec p TblWild) as Ho. destruct (pcb_open p TblWild) as [fd p'].
  destruct Ho as [(Hfd & Hno & Hle & ->)|(-> & -> & Hall)]; [|by split; [|right]].
  decide_b. split; [done|]. left. unfold driver_of.
  destruct (Z.eqb_spec (filetype m (dentry_directory f i)) FILE_TYPE) as [E|];
    [|destruct (Z.eqb_spec (filetype m (dentry_directory f i)) DIRECTORY_TYPE);
      [|destruct (Z.eqb_spec (filetype m (dentry_directory f i)) RTC_TYPE)]].
  all: split_and!; [lia|lia|done|done| |].
  all: try (intros j Hj).
  all: repeat (rewrite elem_set_rtc || rewrite elem_set_elem_eq || rewrite elem_set_elem_ne by done); done.
Qed.

(** [file_open] on a name of the directory takes the smallest free descriptor and sets it up
    for the entry's type: the driver of that type, position 0 and, for a regular file, the
    entry's inode; the other descriptors keep their contents.  It fails, leaving the descriptors
    alone, exactly when the name is not in the directory or no descriptor is free. *)
Theorem file_open_sets_descriptor f m p filename l dentry :
  image_ok f m -> cstr m filename l -> off_image f m dentry sizeof_dentry ->
  (forall i, names f m l i ->
    let d := dentry_directory f i in
    let '(fd, p', m') := file_open f m p filename dentry in
    unchanged_outside m m' dentry sizeof_dentry /\
    ((2 <= fd < FD_MAX /\ ~ fd_open p fd /\ (forall j, 2 <= j < fd -> fd_open p j) /\
      elem p' fd = Fde (driver_of (filetype m d))
                     (if filetype m d =? FILE_TYPE then inode_index m d else 0) 0 1 /\
      (forall j, j <> fd -> elem p' j = elem p j)) \/
     (fd = -1 /\ p' = p /\ forall j, 2 <= j < FD_MAX -> fd_open p j))) /\
  ((forall i, 0 <= i < num_directories f -> file_name f m i <> l) ->
   file_open f m p filename dentry = (-1, p, m)).
Proof.
  intros Hok Hn Hd. split; [intros i; by apply file_open_found|].
  intros Hno. unfold file_open.
  destruct (read_dentry_by_name_spec f m filename l dentry Hok Hn Hd)
    as [(i & ? & _ & ? & ? & _)|[-> _]]; [by destruct (Hno i)|done].
Qed.

(** ** A small image

    Three entries ("." , "rtc", and "sh", an ELF file of 40 bytes whose block is data block 1) and
    a fourth with a name of 32 characters; one inode, two data blocks, at 0x410000. *)
Definition sample_name32 : list Z := repeat 97 32.

Definition sample_elf : list Z :=
  [0x7f; 0x45; 0x4c; 0x46] ++ repeat 1 20 ++ [0x74; 0x80; 0x04; 0x08] ++ repeat 2 12.

Definition sample_image : mem :=
  let m := st32 (st32 (st32 mem_empty 0x410000 4) 0x410004 1) 0x410008 2 in
  let m := st32 (st_list m 0x410040 [46]) 0x410060 1 in
  let m := st_list m 0x410080 (chars "rtc") in
  let m := st32 (st_list m 0x4100C0 (chars "sh")) 0x4100E0 2 in
  let m := st32 (st_list m 0x410100 sample_name32) 0x410120 2 in
  let m := st32 (st32 m 0x411000 40) 0x411004 1 in
  let m := st_list m 0x413000 sample_elf in
  st_list (st_list m 0x7F0000 (chars "sh")) 0x7F0100 sample_name32.

#[global] Opaque sample_image.

Definition sample_fs : fs := Fs 0x410000 0x414000 4 1.

Definition sample_pcb : pcb :=
  let p := (pcb_init (Pcb ∅ 0 0 0 0 1 ∅ 0 0 0 0 0)).2 in
  set_elem p 2 (Fde file_driver 0 0 1).

Lemma sample_image_ok : image_ok sample_fs sample_image.
Proof.
  assert (E1 : inode_num sample_image 0x410000 = 1) by (by vm_compute).
  assert (E0 : image_end sample_fs sample_image = 0x414000) by (by vm_compute).
  split; cbn [boot_block num_directories sample_fs]; [lia|by rewrite E0|lia|..].
  - intros ino. rewrite E1. intros Hi. replace ino with 0 by lia. by vm_compute.
  - intros ino b. rewrite E1. intros Hi Hb. replace ino with 0 by lia.
    assert (E2 : file_length sample_fs sample_image 0 = 40) by (by vm_compute).
    rewrite E2. unfold FOUR_KB. intros. replace b with 0 by lia. by vm_compute.
Qed.

Lemma sample_off a n :
  0x414000 <= a -> a + n <= 2 ^ 32 -> off_image sample_fs sample_image a n.
Proof.
  intros. unfold off_image. assert (E : image_end sample_fs sample_image = 0x414000) by (by vm_compute).
  rewrite E. split; [lia|]. split; [done|]. right. lia.
Qed.

Lemma sample_sh : cstr sample_image 0x7F0000 (chars "sh").
Proof. by vm_compute. Qed.

Lemma sample_names_sh : names sample_fs sample_image (chars "sh") 2.
Proof.
  split; [by vm_compute|]. split; [by vm_compute|]. intros j Hj.
  assert (j = 0 \/ j = 1) as [-> | ->] by lia; by vm_compute.
Qed.

Lemma read_data_refines_file_contents_witness :
  exists m', read_data sample_fs sample_image 0 30 0x700000 100 = (10, m') /\ bytes m' 0x700000 10 = repeat 2 10.
Proof.
  destruct (read_data_refines_file_contents sample_fs sample_image 0 30 0x700000 100
    sample_image_ok ltac:(by vm_compute) (sample_off 0x700000 100 ltac:(lia) ltac:(lia)) ltac:(lia)
    ltac:(lia)) as (m' & E & Hb & _).
  exists m'. split; [exact E|exact Hb].
Defined.

Lemma file_reads_are_sequential_witness :
  let '(out, _, _) := file_reads sample_fs sample_image sample_pcb 2
                        [(0x700000, 3); (0x700100, 20); (0x700000, 100)] in
  concat out = sample_elf.
Proof.
  assert (Hr : reading_file sample_fs sample_image sample_pcb 2 0)
    by (split_and!; [done|by vm_compute..]).
  assert (Ho : forall a n, 0x700000 <= a <= 0x700100 -> 0 <= n <= 100 ->
    off_image sample_fs sample_image a n /\ 0 <= n < 2 ^ 31).
  { intros. split; [apply sample_off; lia|lia]. }
  pose proof (file_reads_are_sequential sample_fs sample_image sample_pcb 2 0
    [(0x700000, 3); (0x700100, 20); (0x700000, 100)] sample_image_ok Hr) as H.
  destruct (file_reads _ _ _ _ _) as [[out p'] m'].
  destruct H as [H _].
  - constructor; [apply Ho; cbn; lia|]. constructor; [apply Ho; cbn; lia|].
    constructor; [apply Ho; cbn; lia|]. constructor.
  - rewrite H. by vm_compute.
Defined.

Lemma read_dentry_by_name_correct_witness :
  exists m', read_dentry_by_name sample_fs sample_image 0x7F0000 0x700000 = (0, m') /\
    bytes m' 0x700000 64 = bytes sample_image 0x4100C0 64.
Proof.
  destruct (read_dentry_by_name_correct sample_fs sample_image 0x7F0000 (chars "sh") 0x700000
    sample_image_ok sample_sh (sample_off 0x700000 sizeof_dentry ltac:(lia) ltac:(unfold sizeof_dentry; lia))) as [H _].
  destruct (H 2 sample_names_sh) as (m' & E & Hb & _). exists m'. split; [exact E|exact Hb].
Defined.

Lemma full_length_names_are_not_found_witness :
  bytes sample_image (dentry_directory sample_fs 3) 32 = sample_name32 /\
  read_dentry_by_name sample_fs sample_image 0x7F0100 0x700000 = (-1, sample_image).
Proof.
  split; [by vm_compute|].
  apply (full_length_names_are_not_found sample_fs sample_image 0x7F0100 sample_name32 0x700000 3).
  - apply sample_image_ok.
  - by vm_compute.
  - apply sample_off; [lia|by vm_compute].
  - by vm_compute.
  - by vm_compute.
  - by vm_compute.
  - by vm_compute.
  - intros j Hj Hne. cbn in Hj. assert (j = 0 \/ j = 1 \/ j = 2) as [-> | [-> | ->]] by lia; by vm_compute.
Defined.

Lemma sample_loader_frame : loader_frame sample_fs sample_image 0x700000 0x700100.
Proof.
  split.
  1-3: apply sample_off; by vm_compute.
  - by vm_compute.
  - left. by vm_compute.
Qed.

Lemma loader_loads_program_witness :
  exists m', loader sample_fs sample_image 0x7F0000 0x700000 0x700100 = (0x8048074, m') /\
    bytes m' 0x8048000 40 = sample_elf.
Proof.
  destruct (loader_loads_program sample_fs sample_image 0x7F0000 (chars "sh") 0x700000 0x700100
    sample_image_ok sample_sh sample_loader_frame) as [H _].
  destruct (H 2 sample_elf sample_names_sh) as (m' & E & Hb & _).
  - by vm_compute.
  - by vm_compute.
  - apply Nat.leb_le. by vm_compute.
  - exists m'. split; [exact E|].
    rewrite firstn_all2 in Hb by (apply Nat2Z.inj_le; rewrite Z2Nat.id; by vm_compute). exact Hb.
Defined.

Lemma executable_check_decides_magic_witness :
  (executable_check sample_fs sample_image (dentry_directory sample_fs 2) 0x700000).1 = 0 <->
  sample_elf = [] \/ take 4 sample_elf = [0x7f; 0x45; 0x4c; 0x46].
Proof.
  apply (executable_check_decides_magic sample_fs sample_image (dentry_directory sample_fs 2) 0x700000 sample_elf).
  - apply sample_image_ok.
  - apply sample_off; by vm_compute.
  - by vm_compute.
  - by vm_compute.
  - right. apply Nat.leb_le. by vm_compute.
Defined.

Lemma dir_read_delivers_entry_witness :
  exists m' p', dir_read sample_fs sample_image sample_pcb 2 0x700000 32 0x700100 = Some (1, p', m') /\
    cstr m' 0x700000 [46].
Proof.
  destruct (dir_read_delivers_entry sample_fs sample_image sample_pcb 2 0x700000 32 0x700100
    sample_image_ok ltac:(by vm_compute)) as [_ H].
  destruct H as (m' & E & Hc & _).
  - by vm_compute.
  - by vm_compute.
  - apply sample_off; by vm_compute.
  - left. by vm_compute.
  - exists m'. eexists. split; [exact E|]. exact Hc.
Defined.

Lemma file_open_sets_descriptor_witness :
  let '(fd, p', _) := file_open sample_fs sample_image sample_pcb 0x7F0000 0x700000 in
  fd = 3 /\ elem p' fd = Fde file_driver 0 0 1.
Proof.
  destruct (file_open_sets_descriptor sample_fs sample_image sample_pcb 0x7F0000 (chars "sh") 0x700000
    sample_image_ok sample_sh (sample_off 0x700000 sizeof_dentry ltac:(lia) ltac:(unfold sizeof_dentry; lia))) as [H _].
  specialize (H 2 sample_names_sh). destruct (file_open _ _ _ _ _) as [[fd p'] m'] eqn:E.
  assert (Efd : fd = 3)
    by (pose proof (f_equal (fun t => t.1.1) E) as E1; vm_compute in E1; exact (eq_sym E1)).
  destruct H as [_ [(_ & _ & _ & He & _)|(Hf & _)]]; [|lia]. split; [exact Efd|exact He].
Defined.
