(* ===== verification/Paging.v ===== *)
(** * kernel/paging.c and paging.h: page directories and page tables

    Directory and table entries are the 32-bit words of the unions [pde_t] and [pte_t]; their
    bit fields are written with [setf].  The two-dimensional arrays are flat, row [pid] from
    index [pid * 1024].  The addresses of the tables are the linker's choice ([Layout]). *)

From S2P Require Import Prelude Mem Tasks.

Definition TABLE_ADDRESS_SHIFT : Z := 12.

Definition TABLE_ADDRESS_MASK : Z := 0x3FF.

Definition VIDEO_MEM_START : Z := 0xB8.

Definition PAGE_SIZE : Z := 1024.

Definition KERNAL_START : Z := 0x400.

Definition PROGRAM_START : Z := 0x8000000.

Definition P_IMG : Z := 0x20.

Definition VIDEO_MEM_LOAD : Z := 31.

Definition PG_FOUR_KB : Z := 0x1000.

Definition PG_FOUR_MB : Z := 0x400000.

(** ** Bit fields *)

(** Assign [v] to the field of width [w] at bit [pos] of the word [e], and read it. *)
Definition setf (pos w v e : Z) : Z :=
  Z.lor (Z.ldiff e (Z.shiftl (Z.ones w) pos)) (Z.shiftl (Z.land v (Z.ones w)) pos).

Definition getf (pos w e : Z) : Z := Z.land (Z.shiftr e pos) (Z.ones w).

(** The assignments of a [pde_t]'s or [pte_t]'s fields, in the order of the source; bits 6 and 7
    are [zero] and [page_size] of a directory entry, [dirty] and [zero] of a table entry. *)
Definition set_entry (present read_write user_supervisor write_through cache_disabled accessed
    bit6 bit7 global avail e : Z) : Z :=
  setf 9 3 avail (setf 8 1 global (setf 7 1 bit7 (setf 6 1 bit6 (setf 5 1 accessed
    (setf 4 1 cache_disabled (setf 3 1 write_through (setf 2 1 user_supervisor
      (setf 1 1 read_write (setf 0 1 present e))))))))).

(** [physical_page_addr] and [page_table_addr]. *)
Definition set_addr (v e : Z) : Z := setf 12 20 v e.

(** ** State *)

Record paging := Paging {
  page_dir_table : arr;
  page_table : arr;
  user_page_table : arr;
  user_video_page : arr;
  cr0 : Z;
  cr3 : Z;
  cr4 : Z
}.

Class Layout := {
  pd_loc : Z;
  pt_loc : Z;
  upt_loc : Z;
  uvp_loc : Z
}.

(** The tables are aligned to 4 KB, lie in the kernel's page and do not overlap. *)
Class LayoutLaws `{Layout} := {
  pd_aligned : pd_loc mod 4096 = 0;
  pt_aligned : pt_loc mod 4096 = 0;
  upt_aligned : upt_loc mod 4096 = 0;
  uvp_aligned : uvp_loc mod 4096 = 0;
  pd_kernel : 0x400000 <= pd_loc /\ pd_loc + 65536 <= 0x800000;
  pt_kernel : 0x400000 <= pt_loc /\ pt_loc + 4096 <= 0x800000;
  upt_kernel : 0x400000 <= upt_loc /\ upt_loc + 4096 <= 0x800000;
  uvp_kernel : 0x400000 <= uvp_loc /\ uvp_loc + 65536 <= 0x800000;
  pd_pt : pd_loc + 65536 <= pt_loc \/ pt_loc + 4096 <= pd_loc;
  pd_upt : pd_loc + 65536 <= upt_loc \/ upt_loc + 4096 <= pd_loc;
  pd_uvp : pd_loc + 65536 <= uvp_loc \/ uvp_loc + 65536 <= pd_loc;
  pt_upt : pt_loc + 4096 <= upt_loc \/ upt_loc + 4096 <= pt_loc;
  pt_uvp : pt_loc + 4096 <= uvp_loc \/ uvp_loc + 65536 <= pt_loc;
  upt_uvp : upt_loc + 4096 <= uvp_loc \/ uvp_loc + 65536 <= upt_loc
}.

Section operations.
Context `{Layout}.

(** [&page_dir_table[pid]] and [user_video_page[pid]], as addresses. *)
Definition dir_addr (pid : Z) : Z := pd_loc + pid * PAGE_SIZE * 4.

Definition video_page_addr (pid : Z) : Z := uvp_loc + pid * PAGE_SIZE * 4.

(** The inline assembly that loads CR3 (and the macro [RELOAD_CR3]). *)
Definition reload_cr3 (addr cr4_bits : Z) (s : paging) : paging :=
  Paging (page_dir_table s) (page_table s) (user_page_table s) (user_video_page s)
    (Z.lor (cr0 s) 0x80000000) (Z.land addr 0xFFFFFFE7) (Z.lor (cr4 s) cr4_bits).

Definition paging_init (s : paging) : paging :=
  let '(pt, upt) :=
    for_ 0 PAGE_SIZE (fun i '(pt, upt) =>
      (pt.[i <- set_addr i (set_entry 0 0 0 0 0 0 0 0 0 0 (pt.[i]))],
       upt.[i <- set_addr i (set_entry 0 1 1 0 0 0 0 0 0 0 (upt.[i]))]))
      (page_table s, user_page_table s) in
  let pt := pt.[VIDEO_MEM_START <- setf 0 1 1 (pt.[VIDEO_MEM_START])] in
  let upt := upt.[VIDEO_MEM_START <- setf 0 1 1 (upt.[VIDEO_MEM_START])] in
  let pd := page_dir_table s in
  let pd := pd.[0 <- set_addr (Z.shiftr pt_loc TABLE_ADDRESS_SHIFT)
                       (set_entry 1 0 0 0 0 0 0 0 0 0 (pd.[0]))] in
  let pd := pd.[1 <- set_addr KERNAL_START (set_entry 1 1 0 0 0 0 0 1 1 0 (pd.[1]))] in
  let pd := for_ 2 PAGE_SIZE (fun i pd =>
    pd.[i <- set_addr (Z.shiftl i 10) (set_entry 0 1 0 0 0 0 0 0 0 0 (pd.[i]))]) pd in
  reload_cr3 pd_loc 0x10 (Paging pd pt upt (user_video_page s) (cr0 s) (cr3 s) (cr4 s)).

Definition with_pd (s : paging) (pd : arr) : paging :=
  Paging pd (page_table s) (user_page_table s) (user_video_page s) (cr0 s) (cr3 s) (cr4 s).

Definition paging_allocate (pid : Z) (s : paging) : Z * paging :=
  if (MAX_PID <=? pid) || (pid <? 0) then (-1, s)
  else
    let r := pid * PAGE_SIZE in
    let pd := page_dir_table s in
    let pd := pd.[r <- set_addr (Z.shiftr upt_loc TABLE_ADDRESS_SHIFT)
                         (set_entry 1 1 1 0 0 0 0 0 0 0 (pd.[r]))] in
    let pd := pd.[r + 1 <- set_addr KERNAL_START (set_entry 1 1 0 0 0 0 0 1 1 0 (pd.[r + 1]))] in
    let pd := pd.[r + P_IMG <- set_addr (Z.shiftl (pid + 1) 10)
                                 (set_entry 1 1 1 0 0 0 0 1 0 0 (pd.[r + P_IMG]))] in
    (0, with_pd s pd).

Definition paging_update_control (pid : Z) (s : paging) : Z * paging :=
  if (MAX_PID <=? pid) || (pid <? 0) then (-1, s)
  else (0, reload_cr3 (dir_addr pid) 0x90 s).

Definition paging_map_video (pid screen_start : Z) (s : paging) (m : mem) : Z * paging * mem :=
  if (pid <? 0) || (MAX_PID <=? pid) then (-1, s, m)
  else
    let r := pid * PAGE_SIZE in
    let uvp := for_ 0 PAGE_SIZE (fun i uvp =>
      uvp.[r + i <- set_addr 0 (set_entry 0 1 0 0 0 0 0 0 0 0 (uvp.[r + i]))]) (user_video_page s) in
    let v := r + VIDEO_MEM_START in
    let uvp := uvp.[v <- set_addr VIDEO_MEM_START (uvp.[v])] in
    let uvp := uvp.[v <- setf 0 1 1 (uvp.[v])] in
    let uvp := uvp.[v <- setf 2 1 1 (uvp.[v])] in
    let pd := page_dir_table s in
    let d := r + VIDEO_MEM_LOAD in
    let pd := pd.[d <- set_entry 1 1 1 0 0 0 0 0 0 0 (pd.[d])] in
    let pd := pd.[d <- set_addr (Z.shiftr (video_page_addr pid) TABLE_ADDRESS_SHIFT) (pd.[d])] in
    let m := st32 m screen_start (PROGRAM_START - PG_FOUR_MB + VIDEO_MEM_START * PG_FOUR_KB) in
    (0, reload_cr3 (dir_addr pid) 0x90
          (Paging pd (page_table s) (user_page_table s) uvp (cr0 s) (cr3 s) (cr4 s)), m).

Definition update_video_paging (pid addr : Z) (s : paging) : paging :=
  let v := pid * PAGE_SIZE + VIDEO_MEM_START in
  let uvp := user_video_page s in
  let uvp := uvp.[v <- set_addr (Z.land (Z.shiftr addr TABLE_ADDRESS_SHIFT) TABLE_ADDRESS_MASK)
                        (uvp.[v])] in
  reload_cr3 (dir_addr pid) 0x90
    (Paging (page_dir_table s) (page_table s) (user_page_table s) uvp (cr0 s) (cr3 s) (cr4 s)).
End operations.

(** ** The processor's address translation (IA-32, two levels, 4 MB pages)

    [other] is the memory outside the tables.  A supervisor access ignores the write-protect
    bits, since CR0.WP is not set. *)
Section mmu.
Context `{Layout} (other : Z -> Z).

Definition phys_word (s : paging) (a : Z) : Z :=
  if (pd_loc <=? a) && (a <? pd_loc + 65536) then (page_dir_table s).[(a - pd_loc) / 4]
  else if (pt_loc <=? a) && (a <? pt_loc + 4096) then (page_table s).[(a - pt_loc) / 4]
  else if (upt_loc <=? a) && (a <? upt_loc + 4096) then (user_page_table s).[(a - upt_loc) / 4]
  else if (uvp_loc <=? a) && (a <? uvp_loc + 65536) then (user_video_page s).[(a - uvp_loc) / 4]
  else other a.

(** Does the entry allow the access? *)
Definition allows (user write : bool) (e : Z) : bool :=
  (getf 0 1 e =? 1) && (negb user || (getf 2 1 e =? 1)) &&
  (negb (user && write) || (getf 1 1 e =? 1)).

Definition translate (s : paging) (user write : bool) (v : Z) : option Z :=
  if negb (Z.testbit (cr0 s) 31) then Some v
  else
    let pde := phys_word s (Z.land (cr3 s) 0xFFFFF000 + 4 * (v / 2 ^ 22)) in
    if negb (allows user write pde) then None
    else if (getf 7 1 pde =? 1) && Z.testbit (cr4 s) 4
    then Some (getf 22 10 pde * 2 ^ 22 + v mod 2 ^ 22)
    else
      let pte := phys_word s (getf 12 20 pde * 4096 + 4 * (v / 4096 mod 1024)) in
      if negb (allows user write pte) then None
      else Some (getf 12 20 pte * 4096 + v mod 4096).
End mmu.

(** ** Lemmas: bit fields *)

Lemma setf_testbit pos w v e n :
  0 <= pos -> 0 <= w -> 0 <= n ->
  Z.testbit (setf pos w v e) n
  = if (pos <=? n) && (n <? pos + w) then Z.testbit v (n - pos) else Z.testbit e n.
Proof.
  intros. unfold setf. rewrite Z.lor_spec, Z.ldiff_spec, !Z.shiftl_spec, Z.land_spec by lia.
  destruct (Z.leb_spec pos n); cbn [andb].
  - rewrite Z.testbit_ones_nonneg by lia.
    destruct (Z.ltb_spec (n - pos) w), (Z.ltb_spec n (pos + w)); try lia;
      cbn; rewrite ?andb_false_r, ?andb_true_r, ?orb_false_r; done.
  - rewrite !(Z.testbit_neg_r _ (n - pos)) by lia. cbn. by rewrite andb_true_r, orb_false_r.
Qed.

Lemma getf_testbit pos w e n :
  0 <= pos -> 0 <= w -> 0 <= n ->
  Z.testbit (getf pos w e) n = if n <? w then Z.testbit e (n + pos) else false.
Proof.
  intros. unfold getf. rewrite Z.land_spec, Z.shiftr_spec, Z.testbit_ones_nonneg by lia.
  case_b; [by rewrite andb_true_r|by rewrite andb_false_r].
Qed.

Lemma getf_setf_same pos w v e :
  0 <= pos -> 0 <= w -> getf pos w (setf pos w v e) = getf 0 w v.
Proof.
  intros. apply Z.bits_inj'. intros n Hn. rewrite !getf_testbit by lia. case_b; [|done].
  rewrite setf_testbit by lia. decide_b. cbn. f_equal. lia.
Qed.

Lemma getf_setf_other pos w v e p k :
  0 <= pos -> 0 <= w -> 0 <= p -> 0 <= k -> p + k <= pos \/ pos + w <= p ->
  getf p k (setf pos w v e) = getf p k e.
Proof.
  intros. apply Z.bits_inj'. intros n Hn. rewrite !getf_testbit by lia. case_b; [|done].
  rewrite setf_testbit by lia.
  destruct (Z.leb_spec pos (n + p)), (Z.ltb_spec (n + p) (pos + w)); lia || done.
Qed.

Lemma getf_setf_part pos w v e p k :
  0 <= pos -> pos <= p -> 0 <= k -> p + k <= pos + w ->
  getf p k (setf pos w v e) = getf (p - pos) k v.
Proof.
  intros. apply Z.bits_inj'. intros n Hn. rewrite !getf_testbit by lia. case_b; [|done].
  rewrite setf_testbit by lia. decide_b. cbn. f_equal. lia.
Qed.

Lemma getf_mod k v : 0 <= k -> getf 0 k v = v mod 2 ^ k.
Proof. intros. unfold getf. by rewrite Z.shiftr_0_r, Z.land_ones. Qed.

Lemma getf_small k v : 0 <= k -> 0 <= v < 2 ^ k -> getf 0 k v = v.
Proof. intros. rewrite getf_mod by lia. apply Z.mod_small. lia. Qed.

Lemma getf_zero p k : 0 <= p -> getf p k 0 = 0.
Proof. intros. unfold getf. by rewrite Z.shiftr_0_l. Qed.

Create Rewrite HintDb bits.
Hint Rewrite getf_setf_same using lia : bits.
Hint Rewrite getf_setf_other using lia : bits.

(** The fields of an entry that has been written whole. *)
Lemma entry_fields p rw us wt cd ac b6 b7 g av ad e :
  let x := set_addr ad (set_entry p rw us wt cd ac b6 b7 g av e) in
  getf 0 1 x = getf 0 1 p /\ getf 1 1 x = getf 0 1 rw /\ getf 2 1 x = getf 0 1 us /\
  getf 7 1 x = getf 0 1 b7 /\ getf 12 20 x = getf 0 20 ad /\ getf 22 10 x = getf 10 10 ad.
Proof.
  cbn zeta. unfold set_addr, set_entry. split_and!; autorewrite with bits; try done.
  by rewrite getf_setf_part by lia.
Qed.

Lemma allows_entry user write p rw us wt cd ac b6 b7 g av ad e :
  allows user write (set_addr ad (set_entry p rw us wt cd ac b6 b7 g av e))
  = (getf 0 1 p =? 1) && (negb user || (getf 0 1 us =? 1)) &&
    (negb (user && write) || (getf 0 1 rw =? 1)).
Proof.
  unfold allows. destruct (entry_fields p rw us wt cd ac b6 b7 g av ad e) as (-> & -> & -> & _). done.
Qed.

(** ** Invariant *)

Lemma land_aligned a mask :
  0 <= a < 2 ^ 32 -> a mod 4096 = 0 ->
  forallb (fun n => Z.testbit mask (n + 12)) (seqZ 0 20) = true -> Z.land a mask = a.
Proof.
  intros Hr Ha Hm. apply Z.bits_inj'. intros n Hn. rewrite Z.land_spec.
  destruct (Z.testbit a n) eqn:E; [|done]. cbn.
  assert (12 <= n < 32) as Hn'.
  { split.
    - destruct (Z.le_gt_cases 12 n); [done|]. exfalso.
      change 4096 with (2 ^ 12) in Ha. apply (f_equal (fun x => Z.testbit x n)) in Ha.
      rewrite Z.mod_pow2_bits_low, Z.bits_0 in Ha by lia. congruence.
    - destruct (Z.lt_ge_cases n 32); [done|]. exfalso.
      rewrite <- (Z.mod_small a (2 ^ 32)) in E by lia.
      rewrite Z.mod_pow2_bits_high in E by lia. congruence. }
  replace n with (n - 12 + 12) by lia. apply (check_below 20 _ Hm). lia.
Qed.

Section invariant.
Context `{LayoutLaws}.

(** Entry [i] of the directory of [pid]. *)
Definition pde (s : paging) (pid i : Z) : Z := (page_dir_table s).[pid * PAGE_SIZE + i].

(** What user-mode code can pass: the shared table of low memory, the process's own 4 MB page,
    the process's video table. *)
Definition pde_ok (pid i e : Z) : Prop :=
  getf 0 1 e = 1 -> getf 2 1 e = 1 ->
  (i = 0 /\ getf 7 1 e = 0 /\ getf 12 20 e = upt_loc / 4096) \/
  (i = P_IMG /\ 1 <= pid /\ getf 7 1 e = 1 /\ getf 22 10 e = pid + 1) \/
  (i = VIDEO_MEM_LOAD /\ getf 7 1 e = 0 /\ getf 12 20 e = uvp_loc / 4096 + pid).

(** A user-accessible page of a video table is page 0xB8, in the first 4 MB of memory. *)
Definition vte_ok (i e : Z) : Prop :=
  getf 0 1 e = 1 -> getf 2 1 e = 1 -> i = VIDEO_MEM_START /\ getf 12 20 e < 1024.

Record paging_inv (s : paging) : Prop := {
  inv_pde : forall pid i, 0 <= pid < MAX_PID -> 0 <= i < PAGE_SIZE -> pde_ok pid i (pde s pid i);
  inv_upt : forall i, 0 <= i < PAGE_SIZE -> getf 0 1 ((user_page_table s).[i]) = 1 ->
    i = VIDEO_MEM_START /\ getf 12 20 ((user_page_table s).[i]) = VIDEO_MEM_START;
  inv_uvp : forall pid i, 0 <= pid < MAX_PID -> 0 <= i < PAGE_SIZE ->
    vte_ok i ((user_video_page s).[pid * PAGE_SIZE + i]);
  inv_cr0 : Z.testbit (cr0 s) 31 = true;
  inv_cr4 : Z.testbit (cr4 s) 4 = true;
  inv_cr3 : exists pid, 0 <= pid < MAX_PID /\ cr3 s = dir_addr pid
}.

Lemma dir_addr_facts pid :
  0 <= pid < MAX_PID -> 0 <= dir_addr pid < 2 ^ 32 /\ dir_addr pid mod 4096 = 0.
Proof.
  intros Hp. unfold dir_addr, PAGE_SIZE, MAX_PID in *. pose proof pd_kernel. pose proof pd_aligned.
  split; [lia|]. Z.div_mod_to_equations. lia.
Qed.

Lemma reload_cr3_inv pid bits s :
  0 <= pid < MAX_PID -> cr3 (reload_cr3 (dir_addr pid) bits s) = dir_addr pid.
Proof.
  intros Hp. destruct (dir_addr_facts pid Hp). cbn. apply land_aligned; [done|done|by vm_compute].
Qed.

(** Rows of the flat tables do not meet. *)
Lemma row_inj pid i pid' i' :
  0 <= i < PAGE_SIZE -> 0 <= i' < PAGE_SIZE -> pid * PAGE_SIZE + i = pid' * PAGE_SIZE + i' ->
  pid = pid' /\ i = i'.
Proof. unfold PAGE_SIZE. lia. Qed.

Lemma phys_word_pde other s pid i :
  0 <= pid < MAX_PID -> 0 <= i < PAGE_SIZE ->
  phys_word other s (dir_addr pid + 4 * i) = pde s pid i.
Proof.
  intros Hp Hi. unfold phys_word, pde, dir_addr, PAGE_SIZE, MAX_PID in *. decide_b. cbn [andb].
  f_equal. replace (pd_loc + pid * 1024 * 4 + 4 * i - pd_loc) with ((pid * 1024 + i) * 4) by lia.
  by rewrite Z.div_mul.
Qed.

Ltac skip_table :=
  match goal with
  | |- context [(?x <=? ?a) && (?a <? ?x + ?n)] =>
      replace ((x <=? a) && (a <? x + n)) with false
        by (symmetry; destruct (Z.leb_spec x a), (Z.ltb_spec a (x + n)); cbn; lia || done)
  end.

Lemma phys_word_upt other s i :
  0 <= i < PAGE_SIZE -> phys_word other s (upt_loc / 4096 * 4096 + 4 * i) = (user_page_table s).[i].
Proof.
  intros Hi. pose proof upt_aligned. pose proof pd_upt. pose proof pt_upt. unfold PAGE_SIZE in *.
  replace (upt_loc / 4096 * 4096) with upt_loc by (Z.div_mod_to_equations; lia).
  unfold phys_word. do 2 skip_table. decide_b. cbn [andb]. f_equal.
  replace (upt_loc + 4 * i - upt_loc) with (i * 4) by lia. by rewrite Z.div_mul.
Qed.

Lemma phys_word_uvp other s pid i :
  0 <= pid < MAX_PID -> 0 <= i < PAGE_SIZE ->
  phys_word other s ((uvp_loc / 4096 + pid) * 4096 + 4 * i) = (user_video_page s).[pid * PAGE_SIZE + i].
Proof.
  intros Hp Hi. pose proof uvp_aligned. pose proof pd_uvp. pose proof pt_uvp. pose proof upt_uvp.
  unfold PAGE_SIZE, MAX_PID in *.
  replace ((uvp_loc / 4096 + pid) * 4096) with (uvp_loc + pid * 4096) by (Z.div_mod_to_equations; lia).
  unfold phys_word. do 3 skip_table. decide_b. cbn [andb]. f_equal.
  replace (uvp_loc + pid * 4096 + 4 * i - uvp_loc) with ((pid * 1024 + i) * 4) by lia.
  by rewrite Z.div_mul.
Qed.

Lemma allows_user write e : allows true write e = true -> getf 0 1 e = 1 /\ getf 2 1 e = 1.
Proof. unfold allows. intros Ha. bool_prop. cbn in *. by bool_prop. Qed.

(** The current directory is found through CR3. *)
Lemma current_dir s pid : 0 <= pid < MAX_PID -> cr3 s = dir_addr pid -> Z.land (cr3 s) 0xFFFFF000 = dir_addr pid.
Proof.
  intros Hp ->. destruct (dir_addr_facts pid Hp). apply land_aligned; [done|done|by vm_compute].
Qed.

Lemma vaddr_index v : 0 <= v < 2 ^ 32 -> 0 <= v / 2 ^ 22 < PAGE_SIZE /\ 0 <= v / 4096 mod 1024 < PAGE_SIZE.
Proof. intros. unfold PAGE_SIZE. split; [Z.div_mod_to_equations; lia|apply Z.mod_pos_bound; lia]. Qed.

(** Every translation of a user access in a state that satisfies the invariant. *)
Lemma user_translation other s pid write v a :
  paging_inv s -> 0 <= pid < MAX_PID -> cr3 s = dir_addr pid -> 0 <= v < 2 ^ 32 ->
  translate other s true write v = Some a ->
  (1 <= pid /\ PROGRAM_START <= v < PROGRAM_START + PG_FOUR_MB /\
   a = (pid + 1) * PG_FOUR_MB + (v - PROGRAM_START)) \/
  (v / 4096 = VIDEO_MEM_START /\ a = v) \/
  (v / 4096 = VIDEO_MEM_LOAD * 1024 + VIDEO_MEM_START /\ a < PG_FOUR_MB).
Proof.
  intros Hinv Hp Hc Hv. unfold translate. rewrite (inv_cr0 _ Hinv), (inv_cr4 _ Hinv). cbn [negb].
  destruct (vaddr_index v Hv) as [Hi Hj].
  rewrite (current_dir s pid Hp Hc), phys_word_pde by done.
  destruct (allows true write (pde s pid (v / 2 ^ 22))) eqn:Ea; [|done]. cbn [negb].
  apply allows_user in Ea as [E0 E2].
  destruct (inv_pde _ Hinv pid _ Hp Hi E0 E2) as [(Ei & E7 & Ead)|[(Ei & H1 & E7 & Ead)|(Ei & E7 & Ead)]];
    rewrite E7, Ead; cbn [Z.eqb Pos.eqb andb].
  - rewrite phys_word_upt by done. destruct (allows true write _) eqn:Eb; [|done]. cbn [negb].
    apply allows_user in Eb as [F0 F2]. destruct (inv_upt _ Hinv _ Hj F0) as [Fi ->].
    intros [= <-]. right; left. unfold VIDEO_MEM_START in *. Z.div_mod_to_equations. lia.
  - intros [= <-]. left. unfold P_IMG, PROGRAM_START, PG_FOUR_MB in *.
    split; [done|]. Z.div_mod_to_equations. lia.
  - rewrite phys_word_uvp by done. destruct (allows true write _) eqn:Eb; [|done]. cbn [negb].
    apply allows_user in Eb as [F0 F2]. destruct (inv_uvp _ Hinv pid _ Hp Hj F0 F2) as [Fi Fa].
    intros [= <-]. right; right. unfold VIDEO_MEM_LOAD, VIDEO_MEM_START, PG_FOUR_MB in *.
    Z.div_mod_to_equations. lia.
Qed.

(** *** The operations keep the invariant *)

(** Setting one entry of row [pid]. *)
Lemma row_set (t : arr) pid k x pid' i :
  0 <= k < PAGE_SIZE -> 0 <= i < PAGE_SIZE ->
  (t.[pid * PAGE_SIZE + k <- x]).[pid' * PAGE_SIZE + i]
  = if (pid =? pid') && (k =? i) then x else t.[pid' * PAGE_SIZE + i].
Proof.
  intros Hk Hi. rewrite aget_aset.
  destruct (Z.eqb_spec (pid * PAGE_SIZE + k) (pid' * PAGE_SIZE + i)) as [E|E].
  - apply row_inj in E as [-> ->]; [|done|done]. by rewrite !Z.eqb_refl.
  - destruct (Z.eqb_spec pid pid') as [->|], (Z.eqb_spec k i) as [->|]; cbn; done.
Qed.

Lemma pde_ok_supervisor pid i p rw wt cd ac b6 b7 g av ad e :
  pde_ok pid i (set_addr ad (set_entry p rw 0 wt cd ac b6 b7 g av e)).
Proof.
  intros _ E. destruct (entry_fields p rw 0 wt cd ac b6 b7 g av ad e) as (_ & _ & E2 & _).
  rewrite E2 in E. done.
Qed.

Lemma pde_ok_absent pid i rw us wt cd ac b6 b7 g av ad e :
  pde_ok pid i (set_addr ad (set_entry 0 rw us wt cd ac b6 b7 g av e)).
Proof.
  intros E _. destruct (entry_fields 0 rw us wt cd ac b6 b7 g av ad e) as (E0 & _).
  rewrite E0 in E. done.
Qed.

Definition paging_boot (c0 c3 c4 : Z) : paging := Paging ∅ ∅ ∅ ∅ c0 c3 c4.

Lemma paging_init_upt s i :
  0 <= i < PAGE_SIZE ->
  (user_page_table (paging_init s)).[i]
  = (if i =? VIDEO_MEM_START then setf 0 1 1 else id)
      (set_addr i (set_entry 0 1 1 0 0 0 0 0 0 0 ((user_page_table s).[i]))).
Proof.
  intros Hi. unfold paging_init. rewrite for_pair. cbn [user_page_table reload_cr3].
  pose proof (aget_for_map 0 PAGE_SIZE (fun i => i)
    (fun i e => set_addr i (set_entry 0 1 1 0 0 0 0 0 0 0 e)) (user_page_table s) (fun _ _ E => E)) as [Hm _].
  cbn beta in Hm. set (t := for_ 0 PAGE_SIZE _ (user_page_table s)) in *.
  rewrite aget_aset. rewrite (Z.eqb_sym i). destruct (Z.eqb_spec VIDEO_MEM_START i) as [<-|]; cbn [id]; by rewrite Hm.
Qed.

Lemma paging_init_pd s i :
  (page_dir_table (paging_init s)).[i]
  = (if (2 <=? i) && (i <? PAGE_SIZE) then set_addr (Z.shiftl i 10) (set_entry 0 1 0 0 0 0 0 0 0 0 ((page_dir_table s).[i]))
     else if i =? 1 then set_addr KERNAL_START (set_entry 1 1 0 0 0 0 0 1 1 0 ((page_dir_table s).[1]))
     else if i =? 0 then set_addr (Z.shiftr pt_loc TABLE_ADDRESS_SHIFT) (set_entry 1 0 0 0 0 0 0 0 0 0 ((page_dir_table s).[0]))
     else (page_dir_table s).[i]).
Proof.
  unfold paging_init. rewrite for_pair. cbn [page_dir_table reload_cr3].
  set (pd := ((page_dir_table s).[0 <- _]).[1 <- _]).
  pose proof (aget_for_map 2 PAGE_SIZE (fun i => i)
    (fun i e => set_addr (Z.shiftl i 10) (set_entry 0 1 0 0 0 0 0 0 0 0 e)) pd (fun _ _ E => E)) as [Hm Ho].
  cbn beta in Hm, Ho.
  destruct (Z.leb_spec 2 i), (Z.ltb_spec i PAGE_SIZE); cbn [andb].
  - rewrite Hm by lia. unfold pd. by rewrite !aget_aset_ne by lia.
  - rewrite Ho by lia. unfold pd. rewrite !aget_aset. by decide_b.
  - rewrite Ho by lia. unfold pd. rewrite !aget_aset, (Z.eqb_sym i 1), (Z.eqb_sym i 0). by case_b.
  - unfold PAGE_SIZE in *. lia.
Qed.

Lemma paging_init_inv c0 c3 c4 : paging_inv (paging_init (paging_boot c0 c3 c4)).
Proof.
  split.
  - intros pid i Hp Hi. unfold pde. rewrite paging_init_pd. cbn [page_dir_table paging_boot].
    rewrite !aget_empty. unfold PAGE_SIZE, MAX_PID in *.
    destruct (_ && _); [apply pde_ok_absent|]. case_b; [apply pde_ok_supervisor..|].
    intros E. rewrite getf_zero in E by lia. done.
  - intros i Hi. rewrite paging_init_upt by done.
    destruct (entry_fields 0 1 1 0 0 0 0 0 0 0 i ((user_page_table (paging_boot c0 c3 c4)).[i]))
      as (E0 & _ & _ & _ & E12 & _).
    destruct (Z.eqb_spec i VIDEO_MEM_START) as [->|]; cbn [id]; [|rewrite E0; done].
    intros _. split; [done|]. rewrite getf_setf_other, E12 by lia. done.
  - intros pid i Hp Hi. unfold paging_init. rewrite for_pair. cbn [user_video_page reload_cr3 paging_boot].
    rewrite aget_empty. intros E. rewrite getf_zero in E by lia. done.
  - unfold paging_init. rewrite for_pair. cbn [cr0 reload_cr3]. rewrite Z.lor_spec. apply orb_true_r.
  - unfold paging_init. rewrite for_pair. cbn [cr4 reload_cr3]. rewrite Z.lor_spec. apply orb_true_r.
  - exists 0. split; [by vm_compute|]. unfold paging_init. rewrite for_pair.
    replace pd_loc with (dir_addr 0) by (unfold dir_addr; lia). apply reload_cr3_inv. by vm_compute.
Qed.

Lemma reload_cr3_keeps s pid bits :
  0 <= pid < MAX_PID -> paging_inv s -> paging_inv (reload_cr3 (dir_addr pid) bits s).
Proof.
  intros Hp [H1 H2 H3 H4 H5 _]. split; try done.
  - cbn [cr0 reload_cr3]. by rewrite Z.lor_spec, H4.
  - cbn [cr4 reload_cr3]. by rewrite Z.lor_spec, H5.
  - exists pid. split; [done|]. by apply reload_cr3_inv.
Qed.

Lemma pde_ok_low pid e :
  pde_ok pid 0 (set_addr (Z.shiftr upt_loc TABLE_ADDRESS_SHIFT) (set_entry 1 1 1 0 0 0 0 0 0 0 e)).
Proof.
  intros _ _. left. pose proof upt_kernel. split; [done|].
  destruct (entry_fields 1 1 1 0 0 0 0 0 0 0 (Z.shiftr upt_loc TABLE_ADDRESS_SHIFT) e)
    as (_ & _ & _ & -> & -> & _). split; [done|].
  unfold TABLE_ADDRESS_SHIFT. rewrite Z.shiftr_div_pow2 by lia. change (2 ^ 12) with 4096.
  apply getf_small; [lia|]. Z.div_mod_to_equations. lia.
Qed.

Lemma pde_ok_img pid e :
  1 <= pid < MAX_PID ->
  pde_ok pid P_IMG (set_addr (Z.shiftl (pid + 1) 10) (set_entry 1 1 1 0 0 0 0 1 0 0 e)).
Proof.
  intros Hp _ _. right; left. unfold MAX_PID in *. split; [done|]. split; [lia|].
  destruct (entry_fields 1 1 1 0 0 0 0 1 0 0 (Z.shiftl (pid + 1) 10) e)
    as (_ & _ & _ & -> & _ & ->). split; [done|].
  unfold getf. rewrite Z.shiftr_shiftl_l by lia. rewrite Z.shiftl_0_r, Z.land_ones by lia.
  apply Z.mod_small. lia.
Qed.

Lemma pde_ok_video pid e :
  0 <= pid < MAX_PID ->
  pde_ok pid VIDEO_MEM_LOAD
    (set_addr (Z.shiftr (video_page_addr pid) TABLE_ADDRESS_SHIFT) (set_entry 1 1 1 0 0 0 0 0 0 0 e)).
Proof.
  intros Hp _ _. right; right. pose proof uvp_kernel. pose proof uvp_aligned. split; [done|].
  destruct (entry_fields 1 1 1 0 0 0 0 0 0 0 (Z.shiftr (video_page_addr pid) TABLE_ADDRESS_SHIFT) e)
    as (_ & _ & _ & -> & -> & _). split; [done|].
  unfold TABLE_ADDRESS_SHIFT, video_page_addr, PAGE_SIZE, MAX_PID in *.
  rewrite Z.shiftr_div_pow2 by lia. change (2 ^ 12) with 4096.
  rewrite getf_small; [|lia|]; Z.div_mod_to_equations; lia.
Qed.

Lemma row_0 pid : pid * PAGE_SIZE = pid * PAGE_SIZE + 0.
Proof. lia. Qed.

Lemma paging_allocate_inv pid s : 1 <= pid -> paging_inv s -> paging_inv (paging_allocate pid s).2.
Proof.
  intros Hp Hinv. unfold paging_allocate. destruct (_ || _) eqn:Eg; [done|]. bool_prop.
  destruct Hinv as [I1 I2 I3 I4 I5 I6]. split; try done. cbn [snd with_pd].
  intros pid' i Hp' Hi. unfold pde. cbn [page_dir_table with_pd].
  rewrite !row_set by (unfold PAGE_SIZE, P_IMG in *; lia).
  rewrite (row_0 pid), row_set by (unfold PAGE_SIZE in *; lia).
  destruct (Z.eqb_spec pid pid') as [<-|]; cbn [andb]; [|by apply I1].
  destruct (Z.eqb_spec P_IMG i) as [<-|]; [apply pde_ok_img; lia|].
  destruct (Z.eqb_spec 1 i) as [<-|]; [apply pde_ok_supervisor|].
  destruct (Z.eqb_spec 0 i) as [<-|]; [apply pde_ok_low|]. by apply I1.
Qed.

Lemma paging_update_control_inv pid s : paging_inv s -> paging_inv (paging_update_control pid s).2.
Proof.
  intros Hinv. unfold paging_update_control. destruct (_ || _) eqn:Eg; [done|]. bool_prop.
  apply reload_cr3_keeps; [lia|done].
Qed.

(** The video table after [paging_map_video]. *)
Definition map_video_uvp (pid : Z) (uvp : arr) : arr :=
  for_ 0 PAGE_SIZE (fun i uvp =>
    uvp.[pid * PAGE_SIZE + i <- set_addr 0 (set_entry 0 1 0 0 0 0 0 0 0 0 (uvp.[pid * PAGE_SIZE + i]))]) uvp.

Lemma map_video_uvp_row pid uvp pid' i :
  0 <= i < PAGE_SIZE ->
  (map_video_uvp pid uvp).[pid' * PAGE_SIZE + i]
  = if pid =? pid' then set_addr 0 (set_entry 0 1 0 0 0 0 0 0 0 0 (uvp.[pid' * PAGE_SIZE + i]))
    else uvp.[pid' * PAGE_SIZE + i].
Proof.
  intros Hi. unfold map_video_uvp.
  pose proof (aget_for_map 0 PAGE_SIZE (fun i => pid * PAGE_SIZE + i)
    (fun i e => set_addr 0 (set_entry 0 1 0 0 0 0 0 0 0 0 e)) uvp ltac:(cbn beta; intros; lia)) as [Hm Ho].
  cbn beta in Hm, Ho. destruct (Z.eqb_spec pid pid') as [<-|]; [by apply Hm|].
  apply Ho. intros k Hk E. apply row_inj in E as [? _]; done.
Qed.

Lemma paging_map_video_inv pid p s m : paging_inv s -> paging_inv (paging_map_video pid p s m).1.2.
Proof.
  intros Hinv. unfold paging_map_video. destruct (_ || _) eqn:Eg; [done|]. bool_prop.
  cbn [fst snd]. fold (map_video_uvp pid (user_video_page s)). apply reload_cr3_keeps; [lia|].
  destruct Hinv as [I1 I2 I3 I4 I5 I6]. split; [|exact I2| |exact I4|exact I5|exact I6]; intros pid' i Hp' Hi.
  - unfold pde. cbn [page_dir_table]. rewrite aget_aset_eq.
    rewrite !row_set by (unfold PAGE_SIZE, VIDEO_MEM_LOAD in *; lia).
    destruct (Z.eqb_spec pid pid') as [<-|]; cbn [andb]; [|by apply I1].
    destruct (Z.eqb_spec VIDEO_MEM_LOAD i) as [<-|]; [apply pde_ok_video; lia|]. by apply I1.
  - cbn [user_video_page]. rewrite !aget_aset_eq.
    rewrite !row_set by (unfold PAGE_SIZE, VIDEO_MEM_START in *; lia).
    rewrite !map_video_uvp_row by (unfold PAGE_SIZE, VIDEO_MEM_START in *; lia).
    destruct (Z.eqb_spec pid pid') as [<-|]; cbn [andb]; [|by apply I3].
    destruct (Z.eqb_spec VIDEO_MEM_START i) as [<-|].
    + intros _ _. split; [done|]. rewrite Z.eqb_refl. unfold set_addr. autorewrite with bits. by vm_compute.
    + intros E. destruct (entry_fields 0 1 0 0 0 0 0 0 0 0 0 ((user_video_page s).[pid * PAGE_SIZE + i])) as (E0 & _).
      rewrite E0 in E. done.
Qed.

Lemma update_video_paging_inv pid addr s :
  0 <= pid < MAX_PID -> paging_inv s -> paging_inv (update_video_paging pid addr s).
Proof.
  intros Hp Hinv. apply reload_cr3_keeps; [done|].
  destruct Hinv as [I1 I2 I3 I4 I5 I6]. split; try done; intros pid' i Hp' Hi.
  cbn [user_video_page]. rewrite row_set by (unfold PAGE_SIZE, VIDEO_MEM_START in *; lia).
  destruct (Z.eqb_spec pid pid') as [<-|], (Z.eqb_spec VIDEO_MEM_START i) as [<-|]; cbn [andb];
    [|by apply I3..].
  intros _ _. split; [done|]. unfold set_addr. rewrite getf_setf_same by lia.
  unfold TABLE_ADDRESS_MASK. change 0x3FF with (Z.ones 10). rewrite Z.land_ones by lia.
  pose proof (Z.mod_pos_bound (Z.shiftr addr TABLE_ADDRESS_SHIFT) (2 ^ 10) ltac:(lia)).
  rewrite getf_small; lia.
Qed.
End invariant.

(** ** Reachable configurations *)

Section reachable.
Context `{LayoutLaws}.

(** The calls the kernel makes after [paging_init]: processes have identifiers from 1 on. *)
Inductive paging_step (s : paging) : paging -> Prop :=
  | step_allocate pid : 1 <= pid -> paging_step s (paging_allocate pid s).2
  | step_control pid : paging_step s (paging_update_control pid s).2
  | step_map_video pid p m : paging_step s (paging_map_video pid p s m).1.2
  | step_update_video pid addr : 0 <= pid < MAX_PID -> paging_step s (update_video_paging pid addr s).

Inductive paging_reachable : paging -> Prop :=
  | reach_init c0 c3 c4 : paging_reachable (paging_init (paging_boot c0 c3 c4))
  | reach_step s s' : paging_reachable s -> paging_step s s' -> paging_reachable s'.

Lemma reachable_inv s : paging_reachable s -> paging_inv s.
Proof.
  induction 1 as [|s s' _ IH Hs]; [apply paging_init_inv|]. destruct Hs.
  - by apply paging_allocate_inv.
  - by apply paging_update_control_inv.
  - by apply paging_map_video_inv.
  - by apply update_video_paging_inv.
Qed.

(** A present large page of the current directory. *)
Lemma translate_large other s pid user write v i :
  Z.testbit (cr0 s) 31 = true -> Z.testbit (cr4 s) 4 = true ->
  0 <= pid < MAX_PID -> cr3 s = dir_addr pid -> 0 <= v < 2 ^ 32 -> v / 2 ^ 22 = i ->
  getf 7 1 (pde s pid i) = 1 ->
  translate other s user write v
  = if allows user write (pde s pid i) then Some (getf 22 10 (pde s pid i) * 2 ^ 22 + v mod 2 ^ 22)
    else None.
Proof.
  intros C0 C4 Hp Hc Hv Hi H7. destruct (vaddr_index v Hv) as [Hr _]. rewrite Hi in Hr.
  unfold translate. rewrite C0, C4, (current_dir s pid Hp Hc), Hi, phys_word_pde, H7 by done.
  cbn [negb Z.eqb Pos.eqb andb]. by destruct (allows _ _ _).
Qed.

(** The directory of a process after its allocation. *)
Lemma allocate_pde pid s :
  0 <= pid < MAX_PID -> exists e1 e32,
  pde (paging_allocate pid s).2 pid 1 = set_addr KERNAL_START (set_entry 1 1 0 0 0 0 0 1 1 0 e1) /\
  pde (paging_allocate pid s).2 pid P_IMG = set_addr (Z.shiftl (pid + 1) 10) (set_entry 1 1 1 0 0 0 0 1 0 0 e32).
Proof.
  intros Hp. unfold paging_allocate. decide_b. cbn [orb snd]. eexists _, _. unfold pde.
  cbn [page_dir_table with_pd]. split.
  - rewrite !row_set by (unfold PAGE_SIZE, P_IMG; lia). rewrite Z.eqb_refl. cbn [andb Z.eqb Pos.eqb P_IMG].
    reflexivity.
  - rewrite row_set by (unfold PAGE_SIZE, P_IMG; lia). rewrite !Z.eqb_refl. reflexivity.
Qed.

(** The video page of a process after [paging_map_video] and after [update_video_paging]. *)
Lemma translate_video other s pid write v pt :
  Z.testbit (cr0 s) 31 = true -> 0 <= pid < MAX_PID -> cr3 s = dir_addr pid ->
  v / 4096 = VIDEO_MEM_LOAD * 1024 + VIDEO_MEM_START ->
  (exists e, pde s pid VIDEO_MEM_LOAD = set_addr (Z.shiftr (video_page_addr pid) TABLE_ADDRESS_SHIFT)
               (set_entry 1 1 1 0 0 0 0 0 0 0 e)) ->
  pt = (user_video_page s).[pid * PAGE_SIZE + VIDEO_MEM_START] ->
  getf 0 1 pt = 1 -> getf 1 1 pt = 1 -> getf 2 1 pt = 1 ->
  translate other s true write v = Some (getf 12 20 pt * 4096 + v mod 4096).
Proof.
  intros H0' Hp Hc Hv [e He] -> E0 E1 E2. unfold VIDEO_MEM_LOAD, VIDEO_MEM_START in *.
  assert (Hd : v / 2 ^ 22 = 31) by (Z.div_mod_to_equations; lia).
  assert (Ht : v / 4096 mod 1024 = 0xB8) by (rewrite Hv; reflexivity).
  unfold translate. rewrite H0', (current_dir s pid Hp Hc), Hd, Ht, phys_word_pde by (unfold PAGE_SIZE; lia).
  pose proof (pde_ok_video pid e Hp) as Hok. unfold VIDEO_MEM_LOAD in *. rewrite <- He in Hok.
  destruct (entry_fields 1 1 1 0 0 0 0 0 0 0 (Z.shiftr (video_page_addr pid) TABLE_ADDRESS_SHIFT) e)
    as (P0 & P1 & P2 & P7 & P12 & _). rewrite <- He in P0, P1, P2, P7, P12.
  destruct (Hok P0 P2) as [(? & _)|[(? & _)|(_ & _ & Ead)]]; [done|done|].
  unfold allows. rewrite P0, P1, P2, P7, Ead, phys_word_uvp, E0, E1, E2 by (unfold PAGE_SIZE; lia).
  cbn. by destruct write.
Qed.

Lemma map_video_entry pid p s m :
  0 <= pid < MAX_PID ->
  let s' := (paging_map_video pid p s m).1.2 in
  let pt := (user_video_page s').[pid * PAGE_SIZE + VIDEO_MEM_START] in
  (exists e, pde s' pid VIDEO_MEM_LOAD = set_addr (Z.shiftr (video_page_addr pid) TABLE_ADDRESS_SHIFT)
               (set_entry 1 1 1 0 0 0 0 0 0 0 e)) /\
  getf 0 1 pt = 1 /\ getf 1 1 pt = 1 /\ getf 2 1 pt = 1 /\ getf 12 20 pt = VIDEO_MEM_START.
Proof.
  intros Hp. cbn zeta. unfold paging_map_video. decide_b. cbn [orb fst snd].
  fold (map_video_uvp pid (user_video_page s)). cbn [user_video_page reload_cr3]. split.
  { eexists. unfold pde. cbn [page_dir_table reload_cr3]. rewrite !aget_aset_eq. reflexivity. }
  rewrite !aget_aset_eq, map_video_uvp_row, Z.eqb_refl by (unfold PAGE_SIZE, VIDEO_MEM_START; lia).
  unfold set_addr, set_entry. split_and!; autorewrite with bits; reflexivity.
Qed.

Lemma reachable_current s : paging_reachable s -> exists pid, 0 <= pid < MAX_PID /\ cr3 s = dir_addr pid.
Proof. intros Hr. apply inv_cr3, reachable_inv, Hr. Qed.
End reachable.

(** ** A layout *)

#[export] Instance sample_layout : Layout := {|
  pd_loc := 0x420000; pt_loc := 0x430000; upt_loc := 0x431000; uvp_loc := 0x440000 |}.

#[export] Instance sample_layout_laws : LayoutLaws.
Proof. split; unfold pd_loc, pt_loc, upt_loc, uvp_loc, sample_layout; lia || reflexivity. Qed.

(** The video mapping. *)
Lemma map_video_spec `{LayoutLaws} s pid p m other write :
  paging_reachable s -> 0 <= pid < MAX_PID ->
  let '(r, s', m') := paging_map_video pid p s m in
  r = 0 /\ ld32 m' p = 0x7CB8000 /\
  forall k, 0 <= k < 4096 -> translate other s' true write (0x7CB8000 + k) = Some (0xB8000 + k).
Proof.
  intros Hr Hp. pose proof (reachable_inv _ (reach_step s _ Hr (step_map_video s pid p m))) as Hi.
  destruct (map_video_entry pid p s m Hp) as (He & F0 & F1 & F2 & F12).
  assert (Hc : cr3 (paging_map_video pid p s m).1.2 = dir_addr pid).
  { unfold paging_map_video. decide_b. cbn [orb fst snd]. by apply reload_cr3_inv. }
  assert (Hm : (paging_map_video pid p s m).1.1 = 0 /\ (paging_map_video pid p s m).2 = st32 m p 0x7CB8000).
  { unfold paging_map_video. by decide_b. }
  destruct (paging_map_video pid p s m) as [[r s'] m']. cbn [fst snd] in *. destruct Hm as [-> ->].
  split; [done|]. split; [by rewrite ld32_st32|]. intros k Hk.
  erewrite translate_video; [|apply Hi|done|done| |done|reflexivity|done..].
  - rewrite F12. f_equal. unfold VIDEO_MEM_START. Z.div_mod_to_equations. lia.
  - unfold VIDEO_MEM_LOAD, VIDEO_MEM_START. Z.div_mod_to_equations. lia.
Qed.

(** ** Properties *)

(** C16: Isolation.  In every configuration that the kernel can reach from boot, whatever else is
    in memory, a user-mode access through the page tables either faults or lands in the 4 MB
    frame of the process whose directory is loaded (from the program window at 128 MB), in the
    video page at its own address, or, through the process's video mapping, in the first 4 MB.
    So no user access reaches the kernel's page or the frame of another process. *)
Theorem user_memory_isolation `{LayoutLaws} s :
  paging_reachable s ->
  exists pid, 0 <= pid < MAX_PID /\ cr3 s = dir_addr pid /\
  forall other write v a, 0 <= v < 2 ^ 32 -> translate other s true write v = Some a ->
    ((1 <= pid /\ PROGRAM_START <= v < PROGRAM_START + PG_FOUR_MB /\
      a = (pid + 1) * PG_FOUR_MB + (v - PROGRAM_START)) \/
     (v / 4096 = VIDEO_MEM_START /\ a = v) \/
     (v / 4096 = VIDEO_MEM_LOAD * 1024 + VIDEO_MEM_START /\ a < PG_FOUR_MB)) /\
    ~ (PG_FOUR_MB <= a < 2 * PG_FOUR_MB) /\
    (forall q, 1 <= q < MAX_PID -> q <> pid -> ~ ((q + 1) * PG_FOUR_MB <= a < (q + 2) * PG_FOUR_MB)).
Proof.
  intros Hr. destruct (reachable_current s Hr) as (pid & Hp & Hc). exists pid.
  split; [done|]. split; [done|]. intros other write v a Hv Ht.
  pose proof (user_translation other s pid write v a (reachable_inv s Hr) Hp Hc Hv Ht) as Hcase.
  split; [done|]. unfold PG_FOUR_MB, PROGRAM_START, VIDEO_MEM_START in *.
  destruct Hcase as [(? & ? & ->)|[(Hv' & ->)|(_ & ?)]]; [..|split; intros; lia].
  - split; [lia|]. intros q Hq Hne. lia.
  - assert (v < 0x100000) by (Z.div_mod_to_equations; lia). split; intros; lia.
Qed.

Lemma user_memory_isolation_witness :
  let s := (paging_update_control 3 (paging_allocate 3 (paging_init (paging_boot 1 0 0))).2).2 in
  translate (fun _ => 0) s true true 0x8048000 = Some 0x1048000 /\
  exists pid, 0 <= pid < MAX_PID /\ cr3 s = dir_addr pid.
Proof.
  cbn zeta. split; [by vm_compute|].
  assert (Hr : paging_reachable
    (paging_update_control 3 (paging_allocate 3 (paging_init (paging_boot 1 0 0))).2).2).
  { eapply reach_step; [eapply reach_step; [apply reach_init|apply (step_allocate _ 3); lia]|apply (step_control _ 3)]. }
  destruct (user_memory_isolation _ Hr) as (pid & Hp & Hc & _). exists pid. split; [exact Hp|exact Hc].
Defined.

(** The address space of a process.  Once [paging_allocate] has set up its directory and
    [paging_update_control] has loaded it, the program window maps, for user code and for
    writing, onto the process's own 4 MB frame, and the kernel's page is mapped onto itself for
    the kernel and not at all for user code. *)
Theorem process_address_space `{LayoutLaws} s pid other user write :
  paging_reachable s -> 1 <= pid < MAX_PID ->
  let '(r1, s1) := paging_allocate pid s in
  let '(r2, s2) := paging_update_control pid s1 in
  r1 = 0 /\ r2 = 0 /\
  (forall v, PROGRAM_START <= v < PROGRAM_START + PG_FOUR_MB ->
     translate other s2 user write v = Some ((pid + 1) * PG_FOUR_MB + (v - PROGRAM_START))) /\
  (forall v, PG_FOUR_MB <= v < 2 * PG_FOUR_MB ->
     translate other s2 user write v = if user then None else Some v).
Proof.
  intros Hr Hp. pose proof (reachable_inv _ (reach_step s _ Hr (step_allocate s pid (proj1 Hp)))) as Hi1.
  destruct (allocate_pde pid s ltac:(lia)) as (e1 & e32 & P1 & P32).
  destruct (paging_allocate pid s) as [r1 s1] eqn:Ea. cbn [snd] in *.
  assert (Er1 : r1 = 0) by (unfold paging_allocate in Ea; rewrite (proj2 (Z.leb_gt _ _)), (proj2 (Z.ltb_ge _ _)) in Ea by lia; by injection Ea).
  unfold paging_update_control. decide_b. cbn [orb].
  pose proof (reload_cr3_keeps s1 pid 0x90 ltac:(lia) Hi1) as Hi2.
  pose proof (reload_cr3_inv pid 0x90 s1 ltac:(lia)) as Hc.
  change (pde s1) with (pde (reload_cr3 (dir_addr pid) 0x90 s1)) in P1, P32.
  set (s2 := reload_cr3 _ _ _) in *. clearbody s2.
  split; [done|]. split; [done|]. unfold PROGRAM_START, PG_FOUR_MB, MAX_PID in *. split; intros v Hv.
  - destruct (entry_fields 1 1 1 0 0 0 0 1 0 0 (Z.shiftl (pid + 1) 10) e32) as (_ & _ & _ & F7 & _ & F22).
    rewrite <- P32 in F7, F22.
    rewrite (translate_large other s2 pid user write v P_IMG); [|apply Hi2|apply Hi2|unfold MAX_PID; lia|done|lia| |done].
    2:{ unfold P_IMG. Z.div_mod_to_equations. lia. }
    rewrite F22. unfold getf. rewrite Z.shiftr_shiftl_l, Z.shiftl_0_r, Z.land_ones by lia.
    rewrite (Z.mod_small (pid + 1)) by lia. rewrite P32, allows_entry.
    destruct user, write; cbn; f_equal; Z.div_mod_to_equations; lia.
  - destruct (entry_fields 1 1 0 0 0 0 0 1 1 0 KERNAL_START e1) as (_ & _ & _ & F7 & _ & F22).
    rewrite <- P1 in F7, F22.
    rewrite (translate_large other s2 pid user write v 1); [|apply Hi2|apply Hi2|unfold MAX_PID; lia|done|lia| |done].
    2:{ Z.div_mod_to_equations. lia. }
    rewrite F22, P1, allows_entry. change (getf 10 10 KERNAL_START) with 1. destruct user, write; cbn; try done; f_equal; Z.div_mod_to_equations; lia.
Qed.

Lemma process_address_space_witness :
  let '(_, s1) := paging_allocate 2 (paging_init (paging_boot 1 0 0)) in
  let '(_, s2) := paging_update_control 2 s1 in
  translate (fun _ => 0) s2 true false 0x8000010 = Some 0xC00010.
Proof.
  pose proof (process_address_space (paging_init (paging_boot 1 0 0)) 2 (fun _ => 0) true false
    (reach_init 1 0 0) ltac:(by vm_compute)) as Hw.
  destruct (paging_allocate 2 _) as [r1 s1]. destruct (paging_update_control 2 s1) as [r2 s2].
  destruct Hw as (_ & _ & Hw & _). rewrite Hw; [reflexivity|by vm_compute].
Defined.

(** [paging_map_video] stores 0x7CB8000 through its argument, and from then on that page is,
    for user code and for writing, the video page 0xB8000. *)
Theorem map_video_shows_video_memory `{LayoutLaws} s pid p m other write :
  paging_reachable s -> 0 <= pid < MAX_PID ->
  let '(r, s', m') := paging_map_video pid p s m in
  r = 0 /\ ld32 m' p = 0x7CB8000 /\
  forall k, 0 <= k < 4096 -> translate other s' true write (0x7CB8000 + k) = Some (0xB8000 + k).
Proof. apply map_video_spec. Qed.

Lemma map_video_shows_video_memory_witness :
  let '(r, s', m') := paging_map_video 1 0x8000100 (paging_init (paging_boot 1 0 0)) mem_empty in
  translate (fun _ => 0) s' true true 0x7CB8010 = Some 0xB8010.
Proof.
  pose proof (map_video_shows_video_memory (paging_init (paging_boot 1 0 0)) 1 0x8000100 mem_empty
    (fun _ => 0) true (reach_init 1 0 0) ltac:(by vm_compute)) as Hw.
  destruct (paging_map_video 1 _ _ _) as [[r s'] m']. destruct Hw as (_ & _ & Hw).
  exact (Hw 0x10 ltac:(lia)).
Defined.

(** [update_video_paging] retargets a process's video page, but keeps only the low ten bits
    of the frame number: user accesses reach [addr] modulo 4 MB.  For video memory itself that
    is the page asked for; for a buffer in the kernel's page (4 MB and up), where the terminals'
    back buffers are, it is a page of low memory instead. *)
Theorem update_video_paging_truncates `{LayoutLaws} s pid p m addr other write :
  paging_reachable s -> 0 <= pid < MAX_PID -> 0 <= addr < 2 ^ 32 ->
  let s' := update_video_paging pid addr (paging_map_video pid p s m).1.2 in
  forall k, 0 <= k < 4096 ->
    translate other s' true write (0x7CB8000 + k) = Some (addr / 4096 mod 1024 * 4096 + k) /\
    (PG_FOUR_MB <= addr -> translate other s' true write (0x7CB8000 + k) <> Some (addr / 4096 * 4096 + k)).
Proof.
  intros Hr Hp Ha. cbn zeta. intros k Hk.
  pose proof (reachable_inv _ (reach_step s _ Hr (step_map_video s pid p m))) as Hi.
  destruct (map_video_entry pid p s m Hp) as (He & F0 & F1 & F2 & F12).
  set (s1 := (paging_map_video pid p s m).1.2) in *. clearbody s1.
  assert (E : translate other (update_video_paging pid addr s1) true write (0x7CB8000 + k)
              = Some (addr / 4096 mod 1024 * 4096 + k)).
  { erewrite translate_video; [| | |by apply reload_cr3_inv| |exact He|reflexivity|..].
    - cbn [user_video_page reload_cr3 update_video_paging]. rewrite aget_aset_eq.
      unfold set_addr. rewrite getf_setf_same by lia. unfold TABLE_ADDRESS_MASK, TABLE_ADDRESS_SHIFT.
      change 0x3FF with (Z.ones 10). rewrite Z.land_ones, Z.shiftr_div_pow2 by lia.
      change (2 ^ 12) with 4096. change (2 ^ 10) with 1024.
      pose proof (Z.mod_pos_bound (addr / 4096) 1024 ltac:(lia)).
      rewrite getf_small by lia. f_equal. Z.div_mod_to_equations. lia.
    - apply inv_cr0. by apply update_video_paging_inv.
    - done.
    - unfold VIDEO_MEM_LOAD, VIDEO_MEM_START. Z.div_mod_to_equations. lia.
    - cbn [user_video_page reload_cr3 update_video_paging]. rewrite aget_aset_eq.
      unfold set_addr. by rewrite getf_setf_other by lia.
    - cbn [user_video_page reload_cr3 update_video_paging]. rewrite aget_aset_eq.
      unfold set_addr. by rewrite getf_setf_other by lia.
    - cbn [user_video_page reload_cr3 update_video_paging]. rewrite aget_aset_eq.
      unfold set_addr. by rewrite getf_setf_other by lia. }
  split; [exact E|]. intros Hb. rewrite E. unfold PG_FOUR_MB in *. intros [= Heq].
  Z.div_mod_to_equations. lia.
Qed.

Lemma update_video_paging_truncates_witness :
  let s' := update_video_paging 1 0x452000 (paging_map_video 1 0x8000100 (paging_init (paging_boot 1 0 0)) mem_empty).1.2 in
  translate (fun _ => 0) s' true true 0x7CB8000 = Some 0x52000 /\
  translate (fun _ => 0) s' true true 0x7CB8000 <> Some 0x452000.
Proof.
  destruct (update_video_paging_truncates (paging_init (paging_boot 1 0 0)) 1 0x8000100 mem_empty 0x452000
    (fun _ => 0) true (reach_init 1 0 0) ltac:(by vm_compute) ltac:(lia) 0 ltac:(lia)) as [H1 H2].
  split; [exact H1|exact (H2 ltac:(by vm_compute))].
Defined.
