(* ===== verification/Termios.v ===== *)
(** * drivers/termios.c: the virtual terminals

    Text cells are 16-bit words.  [video] is the display at VIDEO_MEM, [screen_buffers] the back
    buffers, one flat array in which terminal [i]'s 2000 cells start at index [2000 * i]; a
    [screen_buf] pointer is kept as such an index and [active_term] as the index of its terminal.
    The arrays are total, so that a write outside a screen is visible as one. *)

From S2P Require Import Prelude Mem LibString Machine.

Definition NR_TERM : Z := 4.

Definition IN_BUF_SIZE : Z := 128.

Definition TERM_WIDTH : Z := 80.

Definition TERM_HEIGHT : Z := 25.

Definition TERM_ATTRIB : Z := 0x7.

Definition TERM_TAB_WIDTH : Z := 8.

Definition KEY_BACKSPACE : Z := 8.

Definition KEY_DELETE : Z := 127.

Definition KEY_ENTER : Z := 10.

Definition KEY_TAB : Z := 9.

Definition CRTC_ADDR : Z := 0x3D4.

Definition CRTC_DATA : Z := 0x3D5.

Definition CRTC_CURSOR_HIGH : Z := 0x0E.

Definition CRTC_CURSOR_LOW : Z := 0x0F.

(** Cells of one screen. *)
Definition SCREEN : Z := TERM_WIDTH * TERM_HEIGHT.

Record term_data := TermData {
  screen_buf : Z;
  cur_x : Z;
  cur_y : Z;
  in_buf : arr;
  in_dat_index : Z;
  in_dat_end : Z;
  in_dat_nr_ret : Z;
  is_active : Z;
  usr_count : Z
}.

Definition term_data0 : term_data := TermData 0 0 0 ∅ 0 0 0 0 0.

Definition set_cursor (t : term_data) (x y : Z) : term_data :=
  TermData (screen_buf t) x y (in_buf t) (in_dat_index t) (in_dat_end t) (in_dat_nr_ret t)
    (is_active t) (usr_count t).

Definition set_input (t : term_data) (b : arr) (i e n : Z) : term_data :=
  TermData (screen_buf t) (cur_x t) (cur_y t) b i e n (is_active t) (usr_count t).

Definition set_active (t : term_data) (a : Z) : term_data :=
  TermData (screen_buf t) (cur_x t) (cur_y t) (in_buf t) (in_dat_index t) (in_dat_end t)
    (in_dat_nr_ret t) a (usr_count t).

(** The file's variables, and the machine for the cursor registers. *)
Record terminals (D : Type) := Terminals {
  term_data_array : gmap Z term_data;
  active_term : Z;
  screen_buffers : arr;
  video : arr;
  dev : D
}.
Arguments Terminals {D} _ _ _ _ _.
Arguments term_data_array {D} _.
Arguments active_term {D} _.
Arguments screen_buffers {D} _.
Arguments video {D} _.
Arguments dev {D} _.

(** The word that [terminal_putc] stores: [ATTRIB<<8 | the_char], the character signed. *)
Definition text_cell (the_char : Z) : Z := u16 (Z.lor (Z.shiftl TERM_ATTRIB 8) the_char).

Section operations.
Context {D : Type} `{Machine D}.
Implicit Types s : terminals D.

(** [term_data_array[i]]. *)
Definition term s (i : Z) : term_data := default term_data0 (term_data_array s !! i).

Definition set_term_data s (i : Z) (t : term_data) : terminals D :=
  Terminals (<[i := t]> (term_data_array s)) (active_term s) (screen_buffers s) (video s) (dev s).

Definition set_dev s (d : D) : terminals D :=
  Terminals (term_data_array s) (active_term s) (screen_buffers s) (video s) d.

Definition terminal_init s : terminals D :=
  let s := Terminals ∅ (active_term s) (screen_buffers s) (video s) (dev s) in
  let s := Terminals (term_data_array s) 0 (screen_buffers s) (video s) (dev s) in
  for_ 0 NR_TERM (fun i s =>
    let t := term s i in
    set_term_data s i (TermData (SCREEN * i) (cur_x t) (cur_y t) (in_buf t) (in_dat_index t)
      (in_dat_end t) (in_dat_nr_ret t) (is_active t) (usr_count t))) s.

(** The address of the terminal's back buffer; [screen_loc] is where [screen_buffers] is. *)
Definition term_data_ptr (screen_loc : Z) s (term_index : Z) : Z :=
  u32 (screen_loc + 2 * screen_buf (term s (u8 term_index))).

Definition is_active_term s (term_index : Z) : Z := b2z (u8 term_index =? active_term s).

Definition terminal_putc (ti the_char x y : Z) s : terminals D :=
  if ti =? active_term s
  then Terminals (term_data_array s) (active_term s) (screen_buffers s)
         (video s).[y * TERM_WIDTH + x <- text_cell the_char] (dev s)
  else Terminals (term_data_array s) (active_term s)
         (screen_buffers s).[screen_buf (term s ti) + (y * TERM_WIDTH + x) <- text_cell the_char]
         (video s) (dev s).

Definition terminal_getc (ti x y : Z) s : Z :=
  if ti =? active_term s then s8 ((video s).[y * TERM_WIDTH + x])
  else s8 ((screen_buffers s).[screen_buf (term s ti) + (y * TERM_WIDTH + x)]).

Definition terminal_set_cursor (row col : Z) s : terminals D :=
  let position := u16 (row * TERM_WIDTH + col) in
  let d := outb CRTC_CURSOR_LOW CRTC_ADDR (dev s) in
  let d := outb (Z.land position 0xFF) CRTC_DATA d in
  let d := outb CRTC_CURSOR_HIGH CRTC_ADDR d in
  let d := outb (Z.land (Z.shiftr position 8) 0xFF) CRTC_DATA d in
  set_dev s d.

Definition terminal_refresh (ti : Z) s : terminals D :=
  if ti =? active_term s then terminal_set_cursor (cur_y (term s ti)) (cur_x (term s ti)) s else s.

(** [terminal_putc(t, terminal_getc(t, x', y'), x, y)]. *)
Definition terminal_move (ti x' y' x y : Z) s : terminals D :=
  terminal_putc ti (terminal_getc ti x' y' s) x y s.

Definition scroll_row (ti y : Z) s : terminals D :=
  for_ 0 TERM_WIDTH (fun x s => terminal_move ti x (y + 1) x y s) s.

Definition terminal_scroll_up (ti : Z) s : terminals D :=
  let s := for_ 0 (TERM_HEIGHT - 1) (scroll_row ti) s in
  let s := for_ 0 TERM_WIDTH (fun x s => terminal_putc ti 32 x (TERM_HEIGHT - 1) s) s in
  set_term_data s ti (set_cursor (term s ti) (cur_x (term s ti)) (cur_y (term s ti) - 1)).

(** The two loops of [terminal_clear]. *)
Definition clear_cells (ti n : Z) s : terminals D :=
  for_ 0 n (fun i s => terminal_putc ti 32 (i mod TERM_WIDTH) (i / TERM_WIDTH) s) s.

Definition flush_input (b : arr) : arr := for_ 0 IN_BUF_SIZE (fun i b => b.[i <- 0]) b.

(** What follows them: the input is emptied, the cursor goes home. *)
Definition clear_data (ti : Z) s : terminals D :=
  let b := flush_input (in_buf (term s ti)) in
  let s := set_term_data s ti (set_input (term s ti) b 0 0 0) in
  let s := set_term_data s ti (set_cursor (term s ti) 0 0) in
  terminal_refresh ti s.

Definition terminal_clear (ti : Z) s : terminals D :=
  clear_data ti (clear_cells ti (TERM_HEIGHT * TERM_WIDTH) s).

(** Scroll if the cursor is on the last line, then go to the start of the next line. *)
Definition next_line (ti : Z) s : terminals D :=
  let s := if cur_y (term s ti) =? TERM_HEIGHT - 1 then terminal_scroll_up ti s else s in
  set_term_data s ti (set_cursor (term s ti) 0 (cur_y (term s ti) + 1)).

(** Put a character at the cursor and advance. *)
Definition put_advance (ti c : Z) s : terminals D :=
  let s := terminal_putc ti c (cur_x (term s ti)) (cur_y (term s ti)) s in
  if cur_x (term s ti) =? TERM_WIDTH - 1 then next_line ti s
  else set_term_data s ti (set_cursor (term s ti) (cur_x (term s ti) + 1) (cur_y (term s ti))).

Definition key_backspace (ti : Z) s : terminals D :=
  if (cur_x (term s ti) =? 0) && negb (cur_y (term s ti) =? 0) then
    let s := set_term_data s ti (set_cursor (term s ti) (TERM_WIDTH - 1) (cur_y (term s ti) - 1)) in
    terminal_putc ti 32 (cur_x (term s ti)) (cur_y (term s ti)) s
  else
    let s := set_term_data s ti (set_cursor (term s ti) (cur_x (term s ti) - 1) (cur_y (term s ti))) in
    let x := cur_x (term s ti) in
    let y := cur_y (term s ti) in
    let s := for_ x (TERM_WIDTH - 1) (fun i s => terminal_move ti (i + 1) y i y s) s in
    terminal_putc ti 32 (Z.max x (TERM_WIDTH - 1)) y s.

(** The loop bound is the height, and the blank goes one column past the last one shifted. *)
Definition key_delete (ti : Z) s : terminals D :=
  let x := cur_x (term s ti) in
  let y := cur_y (term s ti) in
  let s := for_ x (TERM_HEIGHT - 1) (fun i s => terminal_move ti (i + 1) y i y s) s in
  terminal_putc ti 32 (Z.max x (TERM_HEIGHT - 1) + 1) y s.

Definition key_tab (ti : Z) s : terminals D :=
  let x := (Z.quot (cur_x (term s ti)) TERM_TAB_WIDTH + 1) * TERM_TAB_WIDTH in
  let s := set_term_data s ti (set_cursor (term s ti) x (cur_y (term s ti))) in
  if TERM_WIDTH - 1 <=? cur_x (term s ti) then next_line ti s else s.

Definition terminal_handle_key (ti key scancode control alt : Z) s : Z * terminals D :=
  let s :=
    if key =? KEY_BACKSPACE then key_backspace ti s
    else if key =? KEY_DELETE then key_delete ti s
    else if key =? KEY_ENTER then next_line ti s
    else if key =? KEY_TAB then key_tab ti s
    else if negb (control =? 0) then (if key =? 108 then terminal_clear ti s else s)
    else if negb (alt =? 0) then s
    else if negb (key =? 0) then put_advance ti key s
    else if scancode =? 0xFF then put_advance ti 32 s
    else s in
  (0, terminal_refresh ti s).

(** The loop of [terminal_write]; it stops when [terminal_handle_key] reports an error. *)
Fixpoint terminal_write_loop (n : nat) (m : mem) (ti buf i : Z) s : Z * terminals D :=
  match n with
  | O => (i, s)
  | S n' =>
      let '(r, s) := terminal_handle_key ti (s8 (ld m (buf + i))) 0xFF 0 0 s in
      if negb (r =? 0) then (i, s) else terminal_write_loop n' m ti buf (i + 1) s
  end.

(** [ti] is [context->term]. *)
Definition terminal_write (m : mem) (ti fd buf len : Z) s : Z * terminals D :=
  terminal_write_loop (Z.to_nat len) m ti buf 0 s.

(** *** Input *)

Definition input_backspace s : terminals D :=
  let a := active_term s in
  let t := term s a in
  let idx := in_dat_index t - 1 in
  let b := for_ idx (in_dat_end t - 1) (fun i b => b.[i <- b.[i + 1]]) (in_buf t) in
  set_term_data s a (set_input t b idx (in_dat_end t - 1) (in_dat_nr_ret t)).

Definition input_delete s : terminals D :=
  let a := active_term s in
  let t := term s a in
  let b := for_ (in_dat_index t - 1) (in_dat_end t) (fun i b => b.[i <- b.[i + 1]]) (in_buf t) in
  set_term_data s a (set_input t b (in_dat_index t) (in_dat_end t - 1) (in_dat_nr_ret t)).

Definition input_insert (key : Z) s : terminals D :=
  let a := active_term s in
  let t := term s a in
  let e := in_dat_end t + 1 in
  let idx := in_dat_index t + 1 in
  let b := for_ idx e (fun i b => b.[i <- b.[i - 1]]) (in_buf t) in
  let b := b.[idx - 1 <- key] in
  set_term_data s a
    (set_input t b idx e (if key =? KEY_ENTER then in_dat_nr_ret t + 1 else in_dat_nr_ret t)).

Definition input_process_key (key scancode control alt : Z) s : Z * terminals D :=
  let a := active_term s in
  let t := term s a in
  if is_active t =? 0 then (0, s)
  else
    let '(is_modified, s) :=
      if key =? KEY_BACKSPACE then
        (if in_dat_index t =? 0 then (false, s) else (true, input_backspace s))
      else if key =? KEY_DELETE then
        (if in_dat_index t <? in_dat_end t then (true, input_delete s) else (false, s))
      else if negb (key =? 0) && (in_dat_end t <? IN_BUF_SIZE) then (true, input_insert key s)
      else (false, s) in
    let s := (terminal_handle_key (active_term s) (if is_modified then key else 0) scancode control alt s).2 in
    (0, s).

(** The copy loop of [terminal_read]: the memory, [i] and [cr_read]. *)
Fixpoint read_copy_loop (fuel : nat) (m : mem) (b : arr) (e buf len i : Z) : mem * Z * Z :=
  match fuel with
  | O => (m, i, 0)
  | S f =>
      if (i <? e) && (i <? len) then
        let m := st m (buf + i) (b.[i]) in
        if s8 (ld m (buf + i)) =? KEY_ENTER then (m, i + 1, 1)
        else read_copy_loop f m b e buf len (i + 1)
      else (m, i, 0)
  end.

(** [terminal_read] once a newline is in the buffer.  The rest of the input is shifted down into
    the input buffer of the active terminal. *)
Definition terminal_read_line (m : mem) (ti buf len : Z) s : Z * mem * terminals D :=
  let t := term s ti in
  let '(m, i, cr_read) := read_copy_loop (Z.to_nat (Z.min (in_dat_end t) len)) m (in_buf t)
                            (in_dat_end t) buf len 0 in
  let s := for_ 0 (in_dat_end t - i) (fun j s =>
    let ta := term s (active_term s) in
    set_term_data s (active_term s)
      (set_input ta (in_buf ta).[j <- (in_buf (term s ti)).[i + j]] (in_dat_index ta)
         (in_dat_end ta) (in_dat_nr_ret ta))) s in
  let t := term s ti in
  let s := set_term_data s ti
    (set_input t (in_buf t) (in_dat_index t - i) (Z.max 0 (in_dat_end t - i)) (in_dat_nr_ret t - cr_read)) in
  (i, m, s).

(** The spin of [terminal_read]: before each test the keyboard interrupt may deliver a key
    ([Some]); [None] as the result while no newline has arrived. *)
Fixpoint terminal_read (events : list (option (Z * Z * Z * Z))) (m : mem) (ti fd buf len : Z) s
  : option (Z * mem * terminals D * list (option (Z * Z * Z * Z))) :=
  match events with
  | [] => None
  | ev :: rest =>
      let s := match ev with
               | Some (key, scancode, control, alt) => (input_process_key key scancode control alt s).2
               | None => s
               end in
      if in_dat_nr_ret (term s ti) =? 0 then terminal_read rest m ti fd buf len s
      else Some (terminal_read_line m ti buf len s, rest)
  end.

(** *** Opening, closing and switching *)

Definition terminal_open (number : Z) s : Z * terminals D :=
  if negb (usr_count (term s number) =? 0) then (0, s)
  else
    let s := terminal_clear number s in
    let t := term s number in
    let b := flush_input (in_buf t) in
    let s := set_term_data s number (set_input t b 0 0 0) in
    (0, set_term_data s number (set_active (term s number) 1)).

(** [term_data] is not initialised: [wild] is the structure it happens to point to. *)
Definition terminal_close (wild : term_data) (number : Z) : Z * term_data :=
  let c := s8 (usr_count wild - 1) in
  let t := TermData (screen_buf wild) (cur_x wild) (cur_y wild) (in_buf wild) (in_dat_index wild)
             (in_dat_end wild) (in_dat_nr_ret wild) (is_active wild) c in
  (0, if c =? 0 then set_active t 0 else t).

(** The two block copies of [terminal_switch], cell by cell. *)
Definition save_screen s : terminals D :=
  Terminals (term_data_array s) (active_term s)
    (for_ 0 SCREEN (fun i b => b.[screen_buf (term s (active_term s)) + i <- (video s).[i]])
       (screen_buffers s)) (video s) (dev s).

Definition show_screen (ti : Z) s : terminals D :=
  Terminals (term_data_array s) (active_term s) (screen_buffers s)
    (for_ 0 SCREEN (fun i v => v.[i <- (screen_buffers s).[screen_buf (term s ti) + i]]) (video s))
    (dev s).

Definition terminal_switch (term_num : Z) s : terminals D :=
  let ti := u8 term_num in
  let flags := get_if (dev s) in
  let s := set_dev s (cli (dev s)) in
  if ti =? active_term s then set_dev s (set_if flags (dev s))
  else
    let s := save_screen s in
    let s := show_screen ti s in
    let s := set_term_data s (active_term s) (set_active (term s (active_term s)) 0) in
    let s := set_term_data s ti (set_active (term s ti) 1) in
    let s := Terminals (term_data_array s) ti (screen_buffers s) (video s) (dev s) in
    let s := terminal_refresh (active_term s) s in
    set_dev s (set_if flags (dev s)).
End operations.

(** ** Specification: one terminal, whoever is on the display *)

(** What a terminal shows: its cells, row by row, and its cursor. *)
Record vt := Vt { scr : Z -> Z; vx : Z; vy : Z }.

Definition vt_put (c k : Z) (f : Z -> Z) : Z -> Z := fun j => if j =? k then text_cell c else f j.

(** Cells [a, b) take the character [d] cells further on. *)
Definition vt_shift (a b d : Z) (f : Z -> Z) : Z -> Z :=
  fun j => if (a <=? j) && (j <? b) then text_cell (s8 (f (j + d))) else f j.

(** All rows up by one, the last one blank. *)
Definition vt_scroll (f : Z -> Z) : Z -> Z :=
  fun j => if j <? SCREEN - TERM_WIDTH then text_cell (s8 (f (j + TERM_WIDTH))) else text_cell 32.

Definition vt_next_line (v : vt) : vt :=
  if vy v =? TERM_HEIGHT - 1 then Vt (vt_scroll (scr v)) 0 (TERM_HEIGHT - 1)
  else Vt (scr v) 0 (vy v + 1).

Definition vt_char (c : Z) (v : vt) : vt :=
  let v := Vt (vt_put c (vy v * TERM_WIDTH + vx v) (scr v)) (vx v) (vy v) in
  if vx v =? TERM_WIDTH - 1 then vt_next_line v else Vt (scr v) (vx v + 1) (vy v).

Definition vt_backspace (v : vt) : vt :=
  let r := vy v * TERM_WIDTH in
  if (vx v =? 0) && negb (vy v =? 0)
  then Vt (vt_put 32 (r - 1) (scr v)) (TERM_WIDTH - 1) (vy v - 1)
  else Vt (vt_put 32 (r + TERM_WIDTH - 1) (vt_shift (r + vx v - 1) (r + TERM_WIDTH - 1) 1 (scr v)))
         (vx v - 1) (vy v).

Definition vt_delete (v : vt) : vt :=
  let r := vy v * TERM_WIDTH in
  Vt (vt_put 32 (r + Z.max (vx v) (TERM_HEIGHT - 1) + 1)
        (vt_shift (r + vx v) (r + TERM_HEIGHT - 1) 1 (scr v))) (vx v) (vy v).

Definition vt_tab (v : vt) : vt :=
  let x := (vx v / TERM_TAB_WIDTH + 1) * TERM_TAB_WIDTH in
  if TERM_WIDTH - 1 <=? x then vt_next_line (Vt (scr v) x (vy v)) else Vt (scr v) x (vy v).

Definition vt_key (key scancode control alt : Z) (v : vt) : vt :=
  if key =? KEY_BACKSPACE then vt_backspace v
  else if key =? KEY_DELETE then vt_delete v
  else if key =? KEY_ENTER then vt_next_line v
  else if key =? KEY_TAB then vt_tab v
  else if negb (control =? 0) then (if key =? 108 then Vt (fun _ => text_cell 32) 0 0 else v)
  else if negb (alt =? 0) then v
  else if negb (key =? 0) then vt_char key v
  else if scancode =? 0xFF then vt_char 32 v
  else v.

(** The cursor is on the screen. *)
Definition vt_ok (v : vt) : Prop := 0 <= vx v < TERM_WIDTH /\ 0 <= vy v < TERM_HEIGHT.

(** The two places where the code leaves the screen: a backspace in the top left corner and a
    delete in the bottom right one. *)
Definition key_safe (key : Z) (v : vt) : Prop :=
  ~ (key = KEY_BACKSPACE /\ vx v = 0 /\ vy v = 0) /\
  ~ (key = KEY_DELETE /\ vx v = TERM_WIDTH - 1 /\ vy v = TERM_HEIGHT - 1).

Section refinement.
Context {D : Type} `{Machine D}.
Implicit Types s : terminals D.

(** Cell [k] of terminal [ti]: on the display if it is active, in its back buffer if not. *)
Definition tscreen s (ti k : Z) : Z :=
  if ti =? active_term s then (video s).[k] else (screen_buffers s).[SCREEN * ti + k].

Definition shows s (ti : Z) (v : vt) : Prop :=
  cur_x (term s ti) = vx v /\ cur_y (term s ti) = vy v /\
  forall k, 0 <= k < SCREEN -> tscreen s ti k = scr v k.

(** Every terminal has its own back buffer, and one of the four is active. *)
Definition bufs_ok s : Prop :=
  0 <= active_term s < NR_TERM /\
  forall i, 0 <= i < NR_TERM -> screen_buf (term s i) = SCREEN * i.

(** What an operation on terminal [ti] leaves alone: the other terminals and what they show, the
    memory around the screens, the display's owner. *)
Record tframe (ti : Z) (s s' : terminals D) : Prop := {
  tf_active : active_term s' = active_term s;
  tf_buf : screen_buf (term s' ti) = screen_buf (term s ti);
  tf_term : forall j, j <> ti -> term s' j = term s j;
  tf_screen : forall j k, 0 <= j < NR_TERM -> j <> ti -> 0 <= k < SCREEN -> tscreen s' j k = tscreen s j k;
  tf_video : forall k, k < 0 \/ SCREEN <= k -> (video s').[k] = (video s).[k];
  tf_back : forall k, k < 0 \/ SCREEN * NR_TERM <= k -> (screen_buffers s').[k] = (screen_buffers s).[k]
}.

Lemma tframe_refl ti s : tframe ti s s.
Proof. done. Qed.

Lemma tframe_trans ti s1 s2 s3 : tframe ti s1 s2 -> tframe ti s2 s3 -> tframe ti s1 s3.
Proof.
  intros [A1 A2 A3 A4 A5 A6] [B1 B2 B3 B4 B5 B6]. split; intros.
  - congruence.
  - congruence.
  - rewrite B3, A3; done.
  - rewrite B4, A4; done.
  - rewrite B5, A5; done.
  - rewrite B6, A6; done.
Qed.

Lemma tframe_bufs ti s s' : tframe ti s s' -> bufs_ok s -> bufs_ok s'.
Proof.
  intros [A1 A2 A3 _ _ _] [B1 B2]. split; [by rewrite A1|]. intros i Hi.
  destruct (Z.eq_dec i ti) as [->|]; [by rewrite A2, B2|by rewrite A3, B2].
Qed.

Lemma term_set_eq s i t : term (set_term_data s i t) i = t.
Proof. unfold term, set_term_data. cbn. by rewrite lookup_insert_eq. Qed.

Lemma term_set_ne s i t j : i <> j -> term (set_term_data s i t) j = term s j.
Proof. intros. unfold term, set_term_data. cbn. by rewrite lookup_insert_ne. Qed.

Lemma tframe_set s ti t : screen_buf t = screen_buf (term s ti) -> tframe ti s (set_term_data s ti t).
Proof.
  intros E. split; try done.
  - by rewrite term_set_eq.
  - intros j Hj. by rewrite term_set_ne by congruence.
Qed.

(** One character. *)
Lemma putc_spec s ti c x y :
  bufs_ok s -> 0 <= ti < NR_TERM -> 0 <= y * TERM_WIDTH + x < SCREEN ->
  tframe ti s (terminal_putc ti c x y s) /\
  (forall j, term (terminal_putc ti c x y s) j = term s j) /\
  forall k, 0 <= k < SCREEN ->
    tscreen (terminal_putc ti c x y s) ti k = vt_put c (y * TERM_WIDTH + x) (tscreen s ti) k.
Proof.
  intros [Ha Hb] Hti Hxy. unfold terminal_putc, tscreen, vt_put. rewrite Hb by done.
  unfold SCREEN, NR_TERM, TERM_WIDTH, TERM_HEIGHT in *.
  destruct (Z.eqb_spec ti (active_term s)) as [->|Hne]; cbn [active_term video screen_buffers term_data_array].
  - rewrite Z.eqb_refl. split_and!; try done.
    + split; try done.
      * intros j k Hj Hne Hk. unfold tscreen. cbn [active_term video screen_buffers].
        by destruct (Z.eqb_spec j (active_term s)).
      * intros k Hk. cbn [video]. unfold SCREEN, TERM_WIDTH, TERM_HEIGHT in Hk. by rewrite aget_aset_ne by lia.
    + intros k Hk. rewrite aget_aset, (Z.eqb_sym k). done.
  - rewrite (proj2 (Z.eqb_neq _ _) Hne). split_and!; try done.
    + split; try done.
      * intros j k Hj Hnj Hk. unfold tscreen, SCREEN, TERM_WIDTH, TERM_HEIGHT, NR_TERM in *.
        cbn [active_term video screen_buffers].
        destruct (Z.eqb_spec j (active_term s)); [done|]. by rewrite aget_aset_ne by lia.
      * intros k Hk. cbn [screen_buffers]. unfold SCREEN, TERM_WIDTH, TERM_HEIGHT, NR_TERM in *.
        by rewrite aget_aset_ne by lia.
    + intros k Hk. rewrite aget_aset.
      destruct (Z.eqb_spec (80 * 25 * ti + (y * 80 + x)) (80 * 25 * ti + k)), (Z.eqb_spec k (y * 80 + x)); lia || done.
Qed.

Lemma getc_spec s ti x y :
  bufs_ok s -> 0 <= ti < NR_TERM -> terminal_getc ti x y s = s8 (tscreen s ti (y * TERM_WIDTH + x)).
Proof. intros [Ha Hb] Hti. unfold terminal_getc, tscreen. rewrite Hb by done. by case_b. Qed.

(** A result of [putc]s on terminal [ti]: the frame, the structures, and the cells. *)
Definition paints (ti : Z) (s s' : terminals D) (f : Z -> Z) : Prop :=
  tframe ti s s' /\ (forall j, term s' j = term s j) /\
  forall k, 0 <= k < SCREEN -> tscreen s' ti k = f k.

Lemma paints_putc s s1 ti c x y f :
  bufs_ok s -> 0 <= ti < NR_TERM -> 0 <= y * TERM_WIDTH + x < SCREEN -> paints ti s s1 f ->
  paints ti s (terminal_putc ti c x y s1) (vt_put c (y * TERM_WIDTH + x) f).
Proof.
  intros Hb Hti Hxy (Hf & Ht & Hc).
  destruct (putc_spec s1 ti c x y (tframe_bufs _ _ _ Hf Hb) Hti Hxy) as (Hf1 & Ht1 & Hc1).
  split_and!; [by eapply tframe_trans|intros; by rewrite Ht1|].
  intros k Hk. rewrite Hc1 by done. unfold vt_put. case_b; [done|by apply Hc].
Qed.

(** A loop that moves a run of cells [d] to the left. *)
Lemma paints_moves s s0 ti f d a b base x' y' y body :
  bufs_ok s -> 0 <= ti < NR_TERM -> paints ti s s0 f -> 0 < d -> a <= b ->
  0 <= base + a -> base + b + d <= SCREEN -> base = y * TERM_WIDTH ->
  (forall i s, body i s = terminal_move ti (x' i) y' i y s) ->
  (forall i, y' * TERM_WIDTH + x' i = base + i + d) ->
  paints ti s (for_ a b body s0) (vt_shift (base + a) (base + b) d f).
Proof.
  intros Hb Hti H0 Hd Hab Ha Hbd -> Hbody Hidx.
  apply (for_inv (fun k s' => paints ti s s' (vt_shift (y * TERM_WIDTH + a) (y * TERM_WIDTH + k) d f))); [done| |].
  - destruct H0 as (? & ? & Hc). split_and!; try done. intros k Hk. rewrite Hc by done. unfold vt_shift.
    destruct (Z.leb_spec (y * TERM_WIDTH + a) k), (Z.ltb_spec k (y * TERM_WIDTH + a)); cbn; lia || done.
  - intros i s1 Hi H1. rewrite Hbody. unfold terminal_move.
    pose proof H1 as (Hf1 & _ & Hc1).
    rewrite (getc_spec s1) by (done || by eapply tframe_bufs). rewrite Hidx, Hc1 by lia.
    pose proof (paints_putc s s1 ti (s8 (vt_shift (y * TERM_WIDTH + a) (y * TERM_WIDTH + i) d f (y * TERM_WIDTH + i + d)))
      i y _ Hb Hti ltac:(lia) H1) as (Hf2 & Ht2 & Hc2).
    split_and!; [done|done|]. intros k Hk. rewrite Hc2 by done. unfold vt_put, vt_shift.
    destruct (Z.eqb_spec k (y * TERM_WIDTH + i)) as [->|].
    + decide_b. by rewrite andb_false_r.
    + destruct (Z.leb_spec (y * TERM_WIDTH + a) k), (Z.ltb_spec k (y * TERM_WIDTH + i)),
        (Z.ltb_spec k (y * TERM_WIDTH + (i + 1))); cbn; lia || done.
Qed.

Lemma paints_ext ti s s' f g :
  paints ti s s' f -> (forall k, 0 <= k < SCREEN -> f k = g k) -> paints ti s s' g.
Proof. intros (? & ? & Hc) E. split_and!; try done. intros k Hk. by rewrite Hc, E. Qed.

Lemma paints_refl ti s : paints ti s s (tscreen s ti).
Proof. done. Qed.

(** A loop that blanks the run of cells [base + a, base + b). *)
Lemma paints_blanks s s0 ti f a b base body :
  bufs_ok s -> 0 <= ti < NR_TERM -> paints ti s s0 f -> a <= b -> 0 <= base + a -> base + b <= SCREEN ->
  (forall i s, a <= i < b -> exists x y, body i s = terminal_putc ti 32 x y s /\ y * TERM_WIDTH + x = base + i) ->
  paints ti s (for_ a b body s0) (fun j => if (base + a <=? j) && (j <? base + b) then text_cell 32 else f j).
Proof.
  intros Hb Hti H0 Hab Ha Hbs Hbody.
  apply (for_inv (fun k s' => paints ti s s'
    (fun j => if (base + a <=? j) && (j <? base + k) then text_cell 32 else f j))); [done| |].
  - eapply paints_ext; [exact H0|]. intros k Hk.
    destruct (Z.leb_spec (base + a) k), (Z.ltb_spec k (base + a)); cbn; lia || done.
  - intros i s1 Hi H1. destruct (Hbody i s1 Hi) as (x & y & -> & E).
    eapply paints_ext; [apply paints_putc; [done|done|lia|exact H1]|].
    intros k Hk. unfold vt_put. rewrite E.
    destruct (Z.eqb_spec k (base + i)), (Z.leb_spec (base + a) k), (Z.ltb_spec k (base + i)),
      (Z.ltb_spec k (base + (i + 1))); cbn; lia || done.
Qed.

Lemma scroll_rows_spec s ti :
  bufs_ok s -> 0 <= ti < NR_TERM ->
  paints ti s (for_ 0 (TERM_HEIGHT - 1) (scroll_row ti) s)
    (vt_shift 0 (SCREEN - TERM_WIDTH) TERM_WIDTH (tscreen s ti)).
Proof.
  intros Hb Hti.
  pose proof (for_inv (fun y s' => paints ti s s' (vt_shift 0 (y * TERM_WIDTH) TERM_WIDTH (tscreen s ti)))
    0 (TERM_HEIGHT - 1) (scroll_row ti) s ltac:(by vm_compute)) as Hf.
  replace (SCREEN - TERM_WIDTH) with ((TERM_HEIGHT - 1) * TERM_WIDTH) by done. apply Hf; clear Hf.
  - eapply paints_ext; [apply paints_refl|]. intros k Hk. unfold vt_shift.
    destruct (Z.leb_spec 0 k), (Z.ltb_spec k (0 * TERM_WIDTH)); cbn; lia || done.
  - intros y s1 Hy H1. unfold SCREEN, TERM_HEIGHT, TERM_WIDTH in *.
    eapply paints_ext.
    { unfold scroll_row. eapply (paints_moves s s1 ti _ 80 0 80 (y * 80) (fun x => x) (y + 1) y);
        [done|done|exact H1|lia|by vm_compute|unfold SCREEN, TERM_WIDTH, TERM_HEIGHT; lia|unfold SCREEN, TERM_WIDTH, TERM_HEIGHT; lia|done|done|].
      intros i. unfold TERM_WIDTH. lia. }
    intros k Hk. unfold vt_shift.
    destruct (Z.leb_spec (y * 80 + 0) k), (Z.ltb_spec k (y * 80 + 80)), (Z.leb_spec 0 k),
      (Z.ltb_spec k (y * 80)), (Z.ltb_spec k ((y + 1) * 80)); cbn [andb]; try lia; try done.
    decide_b. done.
Qed.

Lemma scroll_up_spec s ti :
  bufs_ok s -> 0 <= ti < NR_TERM ->
  let s' := terminal_scroll_up ti s in
  tframe ti s s' /\ term s' ti = set_cursor (term s ti) (cur_x (term s ti)) (cur_y (term s ti) - 1) /\
  forall k, 0 <= k < SCREEN -> tscreen s' ti k = vt_scroll (tscreen s ti) k.
Proof.
  intros Hb Hti. cbn zeta. unfold terminal_scroll_up.
  pose proof (scroll_rows_spec s ti Hb Hti) as H1. set (s1 := for_ 0 _ _ s) in *. clearbody s1.
  pose proof (paints_blanks s s1 ti _ 0 TERM_WIDTH (SCREEN - TERM_WIDTH)
    (fun x s => terminal_putc ti 32 x (TERM_HEIGHT - 1) s) Hb Hti H1 ltac:(by vm_compute) ltac:(by vm_compute)
    ltac:(by vm_compute)) as H2.
  set (s2 := for_ 0 TERM_WIDTH _ s1) in *. clearbody s2.
  destruct H2 as (Hf & Ht & Hc).
  { intros i s' Hi. exists i, (TERM_HEIGHT - 1). split; [done|]. unfold SCREEN, TERM_HEIGHT, TERM_WIDTH. lia. }
  rewrite Ht. split_and!.
  - eapply tframe_trans; [exact Hf|]. apply tframe_set. by rewrite Ht.
  - by rewrite term_set_eq.
  - intros k Hk. transitivity (tscreen s2 ti k); [done|]. rewrite Hc by done. unfold vt_scroll, vt_shift.
    unfold SCREEN, TERM_WIDTH, TERM_HEIGHT in *.
    destruct (Z.leb_spec (80 * 25 - 80 + 0) k), (Z.ltb_spec k (80 * 25 - 80 + 80)), (Z.leb_spec 0 k),
      (Z.ltb_spec k (80 * 25 - 80)); cbn; lia || done.
Qed.

(** After a step on terminal [ti]: the frame, the structure up to its cursor, what it shows. *)
Definition stepped (ti : Z) (s s' : terminals D) (v' : vt) : Prop :=
  tframe ti s s' /\ (exists x y, term s' ti = set_cursor (term s ti) x y) /\ shows s' ti v'.

Lemma stepped_cursor s s1 ti v x y :
  stepped ti s s1 v -> stepped ti s (set_term_data s1 ti (set_cursor (term s1 ti) x y)) (Vt (scr v) x y).
Proof.
  intros (Hf & (x0 & y0 & Ht) & _ & _ & Hc). split_and!.
  - eapply tframe_trans; [exact Hf|]. by apply tframe_set.
  - exists x, y. by rewrite term_set_eq, Ht.
  - unfold shows. rewrite term_set_eq. split_and!; try done.
Qed.

Lemma stepped_refl s ti v : shows s ti v -> stepped ti s s v.
Proof.
  intros Hs. split_and!; try done. exists (cur_x (term s ti)), (cur_y (term s ti)). by destruct (term s ti).
Qed.

Lemma stepped_paints s s1 s2 ti v f :
  stepped ti s s1 v -> (forall g, (forall k, 0 <= k < SCREEN -> tscreen s1 ti k = g k) -> paints ti s1 s2 (f g)) ->
  stepped ti s s2 (Vt (f (scr v)) (vx v) (vy v)).
Proof.
  intros (Hf & (x0 & y0 & Ht) & Hx & Hy & Hc) Hp. destruct (Hp (scr v) Hc) as (Hf2 & Ht2 & Hc2).
  split_and!.
  - by eapply tframe_trans.
  - exists x0, y0. by rewrite Ht2.
  - unfold shows. by rewrite Ht2.
Qed.

Lemma stepped_putc s s1 ti v c x y :
  bufs_ok s -> 0 <= ti < NR_TERM -> 0 <= y * TERM_WIDTH + x < SCREEN -> stepped ti s s1 v ->
  stepped ti s (terminal_putc ti c x y s1) (Vt (vt_put c (y * TERM_WIDTH + x) (scr v)) (vx v) (vy v)).
Proof.
  intros Hb Hti Hxy H1. apply (stepped_paints s s1 _ ti v (vt_put c (y * TERM_WIDTH + x))); [done|].
  intros g Hg. assert (Hb1 : bufs_ok s1) by (eapply tframe_bufs; [apply H1|done]).
  apply paints_putc; try done.
Qed.

Lemma stepped_moves s s1 ti v d a b y x' y' :
  bufs_ok s -> 0 <= ti < NR_TERM -> 0 < d -> a <= b ->
  0 <= y * TERM_WIDTH + a -> y * TERM_WIDTH + b + d <= SCREEN ->
  (forall i, y' * TERM_WIDTH + x' i = y * TERM_WIDTH + i + d) -> stepped ti s s1 v ->
  stepped ti s (for_ a b (fun i s => terminal_move ti (x' i) y' i y s) s1)
    (Vt (vt_shift (y * TERM_WIDTH + a) (y * TERM_WIDTH + b) d (scr v)) (vx v) (vy v)).
Proof.
  intros Hb Hti Hd Hab Ha Hbd Hi H1.
  apply (stepped_paints s s1 _ ti v (vt_shift (y * TERM_WIDTH + a) (y * TERM_WIDTH + b) d)); [done|].
  intros g Hg. assert (Hb1 : bufs_ok s1) by (eapply tframe_bufs; [apply H1|done]).
  by eapply paints_moves.
Qed.

Lemma stepped_next_line s s1 ti v :
  bufs_ok s -> 0 <= ti < NR_TERM -> stepped ti s s1 v -> stepped ti s (next_line ti s1) (vt_next_line v).
Proof.
  intros Hb Hti H1. pose proof H1 as (Hf & (x0 & y0 & Ht) & Hx & Hy & Hc). unfold next_line, vt_next_line.
  rewrite Hy. destruct (Z.eqb_spec (vy v) (TERM_HEIGHT - 1)) as [E|E].
  - destruct (scroll_up_spec s1 ti (tframe_bufs _ _ _ Hf Hb) Hti) as (Hf2 & Ht2 & Hc2).
    set (s2 := terminal_scroll_up ti s1) in *. clearbody s2. split_and!.
    + eapply tframe_trans; [exact Hf|]. eapply tframe_trans; [exact Hf2|]. by apply tframe_set.
    + rewrite term_set_eq, Ht2, Ht. by eexists _, _.
    + unfold shows. rewrite term_set_eq. split_and!; [done| |].
      * cbn. rewrite Ht2. cbn. rewrite Hy, E. lia.
      * intros k Hk. transitivity (tscreen s2 ti k); [done|]. rewrite Hc2 by done. cbn [scr].
        unfold vt_scroll, SCREEN, TERM_WIDTH, TERM_HEIGHT in *. case_b; [|done]. do 2 f_equal. apply Hc. lia.
  - rewrite <- Hy. by apply (stepped_cursor s s1 ti v 0 (cur_y (term s1 ti) + 1)).
Qed.

Lemma stepped_char s ti v c :
  bufs_ok s -> 0 <= ti < NR_TERM -> vt_ok v -> shows s ti v -> stepped ti s (put_advance ti c s) (vt_char c v).
Proof.
  intros Hb Hti Hv Hs. pose proof Hs as (Hx & Hy & _). unfold put_advance, vt_char. rewrite Hx, Hy.
  destruct v as [f x y]. unfold vt_ok in Hv. cbn [vx vy scr] in *.
  assert (Hxy : 0 <= y * TERM_WIDTH + x < SCREEN)
    by (unfold SCREEN, TERM_WIDTH, TERM_HEIGHT in *; lia).
  pose proof (stepped_putc s s ti (Vt f x y) c x y Hb Hti Hxy (stepped_refl _ _ _ Hs)) as H1.
  set (s1 := terminal_putc ti c x y s) in *. clearbody s1. cbn [vx vy scr] in H1.
  pose proof H1 as (_ & _ & Hx1 & Hy1 & _). cbn [vx vy] in Hx1, Hy1. rewrite Hx1, Hy1.
  destruct (Z.eqb_spec x (TERM_WIDTH - 1)).
  - by apply stepped_next_line.
  - by apply (stepped_cursor s s1 ti _ (x + 1) y) in H1.
Qed.

Lemma stepped_backspace s ti v :
  bufs_ok s -> 0 <= ti < NR_TERM -> vt_ok v -> ~ (vx v = 0 /\ vy v = 0) -> shows s ti v ->
  stepped ti s (key_backspace ti s) (vt_backspace v).
Proof.
  intros Hb Hti Hv Hnz Hs. pose proof Hs as (Hx & Hy & _). unfold key_backspace, vt_backspace.
  rewrite Hx, Hy. destruct v as [f x y]. unfold vt_ok in Hv. cbn [vx vy scr] in *.
  unfold SCREEN, TERM_WIDTH, TERM_HEIGHT in *.
  destruct ((x =? 0) && negb (y =? 0)) eqn:E.
  - apply andb_true_iff in E as [Ex Ey]. apply Z.eqb_eq in Ex. apply negb_true_iff, Z.eqb_neq in Ey.
    pose proof (stepped_cursor s s ti _ (80 - 1) (y - 1) (stepped_refl _ _ _ Hs)) as H1. cbn [scr] in H1.
    set (s1 := set_term_data s ti _) in *. clearbody s1.
    pose proof H1 as (_ & _ & Hx1 & Hy1 & _). cbn [vx vy] in Hx1, Hy1. rewrite Hx1, Hy1.
    pose proof (stepped_putc s s1 ti _ 32 (80 - 1) (y - 1) Hb Hti
      ltac:(unfold SCREEN, TERM_WIDTH, TERM_HEIGHT; lia) H1) as H2. cbn [scr vx vy] in H2.
    by replace ((y - 1) * TERM_WIDTH + (80 - 1)) with (y * 80 - 1) in H2 by (unfold TERM_WIDTH; lia).
  - assert (0 < x).
    { destruct (Z.eqb_spec x 0), (Z.eqb_spec y 0); cbn in E; try done; lia. }
    pose proof (stepped_cursor s s ti _ (x - 1) y (stepped_refl _ _ _ Hs)) as H1. cbn [scr] in H1.
    set (s1 := set_term_data s ti _) in *. clearbody s1.
    pose proof H1 as (_ & _ & Hx1 & Hy1 & _). cbn [vx vy] in Hx1, Hy1. rewrite Hx1, Hy1.
    pose proof (stepped_moves s s1 ti _ 1 (x - 1) (80 - 1) y (fun i => i + 1) y Hb Hti
      ltac:(lia) ltac:(lia) ltac:(unfold TERM_WIDTH; lia) ltac:(unfold SCREEN, TERM_WIDTH, TERM_HEIGHT; lia)
      ltac:(intros; unfold TERM_WIDTH; lia) H1) as H2. cbn [scr vx vy] in H2.
    rewrite Z.max_r by lia.
    pose proof (stepped_putc s _ ti _ 32 (80 - 1) y Hb Hti
      ltac:(unfold SCREEN, TERM_WIDTH, TERM_HEIGHT; lia) H2) as H3. cbn [scr vx vy] in H3.
    unfold TERM_WIDTH in H3.
    replace (y * 80 + (80 - 1)) with (y * 80 + 80 - 1) in H3 by lia.
    by replace (y * 80 + (x - 1)) with (y * 80 + x - 1) in H3 by lia.
Qed.

Lemma stepped_delete s ti v :
  bufs_ok s -> 0 <= ti < NR_TERM -> vt_ok v -> ~ (vx v = TERM_WIDTH - 1 /\ vy v = TERM_HEIGHT - 1) ->
  shows s ti v -> stepped ti s (key_delete ti s) (vt_delete v).
Proof.
  intros Hb Hti Hv Hnz Hs. pose proof Hs as (Hx & Hy & _). unfold key_delete, vt_delete.
  rewrite Hx, Hy. destruct v as [f x y]. unfold vt_ok in Hv. cbn [vx vy scr] in *.
  unfold TERM_WIDTH, TERM_HEIGHT in *.
  assert (H1 : stepped ti s (for_ x (25 - 1) (fun i s => terminal_move ti (i + 1) y i y s) s)
                 (Vt (vt_shift (y * 80 + x) (y * 80 + 25 - 1) 1 f) x y)).
  { destruct (Z.le_gt_cases x 24).
    - replace (y * 80 + 25 - 1) with (y * 80 + (25 - 1)) by lia.
      apply (stepped_moves s s ti (Vt f x y) 1 x (25 - 1) y (fun i => i + 1) y);
        [done|done|lia|lia|unfold TERM_WIDTH; lia|unfold SCREEN, TERM_WIDTH, TERM_HEIGHT; lia|
         intros; unfold TERM_WIDTH; lia|by apply stepped_refl].
    - rewrite for_empty by lia. apply stepped_refl in Hs as (? & ? & ? & ? & Hc). split_and!; try done.
      split_and!; try done. intros k Hk. rewrite Hc by done. cbn. unfold vt_shift.
      destruct (Z.leb_spec (y * 80 + x) k), (Z.ltb_spec k (y * 80 + 25 - 1)); cbn; lia || done. }
  set (s1 := for_ _ _ _ s) in *. clearbody s1.
  pose proof (stepped_putc s s1 ti _ 32 (Z.max x (25 - 1) + 1) y Hb Hti
    ltac:(unfold SCREEN, TERM_WIDTH, TERM_HEIGHT; lia) H1) as H2. cbn [scr vx vy] in H2.
  unfold TERM_WIDTH in H2.
  by replace (y * 80 + (Z.max x (25 - 1) + 1)) with (y * 80 + Z.max x (25 - 1) + 1) in H2 by lia.
Qed.

Lemma stepped_tab s ti v :
  bufs_ok s -> 0 <= ti < NR_TERM -> vt_ok v -> shows s ti v -> stepped ti s (key_tab ti s) (vt_tab v).
Proof.
  intros Hb Hti Hv Hs. pose proof Hs as (Hx & Hy & _). unfold key_tab, vt_tab. rewrite Hx, Hy.
  destruct v as [f x y]. unfold vt_ok in Hv. cbn [vx vy scr] in *.
  rewrite Z.quot_div_nonneg by (unfold TERM_TAB_WIDTH; lia).
  set (x1 := (x / TERM_TAB_WIDTH + 1) * TERM_TAB_WIDTH).
  pose proof (stepped_cursor s s ti _ x1 y (stepped_refl _ _ _ Hs)) as H1. cbn [scr] in H1.
  set (s1 := set_term_data s ti _) in *. clearbody s1.
  pose proof H1 as (_ & _ & Hx1 & _). cbn [vx] in Hx1. rewrite Hx1.
  destruct (TERM_WIDTH - 1 <=? x1); [by apply stepped_next_line|done].
Qed.

(** Moving the hardware cursor changes nothing a terminal shows. *)
Lemma refresh_frame ti s :
  tframe ti s (terminal_refresh ti s) /\ (forall j, term (terminal_refresh ti s) j = term s j) /\
  (forall v, shows s ti v -> shows (terminal_refresh ti s) ti v).
Proof. unfold terminal_refresh. by destruct (ti =? active_term s). Qed.

Lemma clear_cells_spec s ti n :
  bufs_ok s -> 0 <= ti < NR_TERM -> 0 <= n <= SCREEN ->
  paints ti s (clear_cells ti n s) (fun j => if (0 <=? j) && (j <? n) then text_cell 32 else tscreen s ti j).
Proof.
  intros Hb Hti Hn.
  pose proof (paints_blanks s s ti (tscreen s ti) 0 n 0
    (fun i s => terminal_putc ti 32 (i mod TERM_WIDTH) (i / TERM_WIDTH) s) Hb Hti (paints_refl ti s)
    ltac:(lia) ltac:(lia) ltac:(lia)) as H1.
  apply H1. intros i s' Hi. eexists _, _. split; [reflexivity|]. unfold TERM_WIDTH. Z.div_mod_to_equations. lia.
Qed.

Lemma clear_data_spec s1 ti f :
  shows s1 ti (Vt f (cur_x (term s1 ti)) (cur_y (term s1 ti))) ->
  let s' := clear_data ti s1 in
  tframe ti s1 s' /\ shows s' ti (Vt f 0 0) /\
  in_dat_index (term s' ti) = 0 /\ in_dat_end (term s' ti) = 0 /\ in_dat_nr_ret (term s' ti) = 0 /\
  is_active (term s' ti) = is_active (term s1 ti) /\ usr_count (term s' ti) = usr_count (term s1 ti).
Proof.
  intros (_ & _ & Hc). cbn zeta. unfold clear_data. set (b := flush_input _). clearbody b.
  set (s2 := set_term_data s1 ti (set_input (term s1 ti) b 0 0 0)).
  assert (E2 : term s2 ti = set_input (term s1 ti) b 0 0 0) by (apply term_set_eq).
  set (s3 := set_term_data s2 ti (set_cursor (term s2 ti) 0 0)).
  assert (E3 : term s3 ti = set_cursor (term s2 ti) 0 0) by (apply term_set_eq).
  assert (Hf3 : tframe ti s1 s3) by (apply (tframe_trans ti s1 s2 s3); apply tframe_set; done).
  assert (Hs3 : shows s3 ti (Vt f 0 0)) by (unfold shows; rewrite E3; done).
  destruct (refresh_frame ti s3) as (Hfr & Htr & Hsr). rewrite Htr, E3, E2.
  split_and!; try done; [by eapply tframe_trans|by apply Hsr].
Qed.

Lemma clear_spec s ti :
  bufs_ok s -> 0 <= ti < NR_TERM ->
  let s' := terminal_clear ti s in
  tframe ti s s' /\ shows s' ti (Vt (fun _ => text_cell 32) 0 0) /\
  in_dat_index (term s' ti) = 0 /\ in_dat_end (term s' ti) = 0 /\ in_dat_nr_ret (term s' ti) = 0 /\
  is_active (term s' ti) = is_active (term s ti) /\ usr_count (term s' ti) = usr_count (term s ti).
Proof.
  intros Hb Hti. cbn zeta. unfold terminal_clear.
  destruct (clear_cells_spec s ti (TERM_HEIGHT * TERM_WIDTH) Hb Hti) as (Hf & Ht & Hc);
    [unfold SCREEN, TERM_HEIGHT, TERM_WIDTH; lia|].
  set (s1 := clear_cells ti _ s) in *. clearbody s1.
  destruct (clear_data_spec s1 ti (fun _ => text_cell 32)) as (Hf2 & Hs2 & Hi & He & Hn & Ha & Hu).
  { split; [done|]. split; [done|]. intros k Hk. rewrite Hc by done.
    assert (Hk' : 0 <= k < TERM_HEIGHT * TERM_WIDTH) by (unfold SCREEN in Hk; lia). by decide_b. }
  rewrite Ht in Ha, Hu. split_and!; try done. by eapply tframe_trans.
Qed.

Lemma vt_next_line_ok v : 0 <= vy v < TERM_HEIGHT -> vt_ok (vt_next_line v).
Proof.
  unfold vt_next_line, vt_ok, TERM_WIDTH, TERM_HEIGHT. intros Hv. case_b; cbn; lia.
Qed.

Lemma vt_char_ok c v : vt_ok v -> vt_ok (vt_char c v).
Proof.
  intros [Hx Hy]. unfold vt_char. cbn [vx vy scr]. case_b; [by apply vt_next_line_ok|].
  unfold vt_ok, TERM_WIDTH, TERM_HEIGHT in *. cbn. lia.
Qed.

Lemma vt_key_ok key sc control alt v : vt_ok v -> key_safe key v -> vt_ok (vt_key key sc control alt v).
Proof.
  intros Hv [Hs _]. pose proof Hv as [Hx Hy]. unfold vt_key.
  destruct (Z.eqb_spec key KEY_BACKSPACE).
  { unfold vt_backspace, vt_ok, TERM_WIDTH, TERM_HEIGHT in *.
    destruct (Z.eqb_spec (vx v) 0), (Z.eqb_spec (vy v) 0); cbn; try lia. }
  destruct (Z.eqb_spec key KEY_DELETE); [done|].
  destruct (Z.eqb_spec key KEY_ENTER); [by apply vt_next_line_ok|].
  destruct (Z.eqb_spec key KEY_TAB).
  { unfold vt_tab. case_b; [by apply vt_next_line_ok|]. unfold vt_ok, TERM_WIDTH, TERM_TAB_WIDTH in *. cbn.
    Z.div_mod_to_equations. lia. }
  destruct (negb (control =? 0)); [case_b; [by vm_compute|done]|].
  destruct (negb (alt =? 0)); [done|]. destruct (negb (key =? 0)); [by apply vt_char_ok|].
  case_b; [by apply vt_char_ok|done].
Qed.

(** Control-L, the one key that also empties the input. *)
Definition is_clear (key control : Z) : bool := negb (control =? 0) && (key =? 108).

Lemma handle_key_spec s ti v key sc control alt :
  bufs_ok s -> 0 <= ti < NR_TERM -> vt_ok v -> key_safe key v -> shows s ti v ->
  let '(r, s') := terminal_handle_key ti key sc control alt s in
  r = 0 /\ tframe ti s s' /\ shows s' ti (vt_key key sc control alt v) /\
  (is_clear key control = false -> exists x y, term s' ti = set_cursor (term s ti) x y) /\
  (is_clear key control = true -> in_dat_index (term s' ti) = 0 /\ in_dat_end (term s' ti) = 0 /\
     in_dat_nr_ret (term s' ti) = 0 /\ is_active (term s' ti) = is_active (term s ti)).
Proof.
  intros Hb Hti Hv [Hk1 Hk2] Hs. unfold terminal_handle_key, vt_key, is_clear.
  assert (Hdone : forall s1 v1, stepped ti s s1 v1 ->
    tframe ti s (terminal_refresh ti s1) /\ shows (terminal_refresh ti s1) ti v1 /\
    exists x y, term (terminal_refresh ti s1) ti = set_cursor (term s ti) x y).
  { intros s1 v1 (Hf & Ht & Hsh). destruct (refresh_frame ti s1) as (Hfr & Htr & Hsr).
    rewrite Htr. split_and!; [by eapply tframe_trans|by apply Hsr|done]. }
  assert (Hfin : forall s1 v1 b, stepped ti s s1 v1 -> b = false ->
    0 = 0 /\ tframe ti s (terminal_refresh ti s1) /\ shows (terminal_refresh ti s1) ti v1 /\
    (b = false -> exists x y, term (terminal_refresh ti s1) ti = set_cursor (term s ti) x y) /\
    (b = true -> in_dat_index (term (terminal_refresh ti s1) ti) = 0 /\
       in_dat_end (term (terminal_refresh ti s1) ti) = 0 /\ in_dat_nr_ret (term (terminal_refresh ti s1) ti) = 0 /\
       is_active (term (terminal_refresh ti s1) ti) = is_active (term s ti))).
  { intros s1 v1 b H1 ->. destruct (Hdone s1 v1 H1) as (? & ? & ?). by split_and!. }
  destruct (Z.eqb_spec key KEY_BACKSPACE) as [->|].
  { apply Hfin; [by apply stepped_backspace; [..|intros [? ?]; apply Hk1|]|by rewrite andb_false_r]. }
  destruct (Z.eqb_spec key KEY_DELETE) as [->|].
  { apply Hfin; [by apply stepped_delete; [..|intros [? ?]; apply Hk2|]|by rewrite andb_false_r]. }
  destruct (Z.eqb_spec key KEY_ENTER) as [->|].
  { apply Hfin; [by apply stepped_next_line, stepped_refl|by rewrite andb_false_r]. }
  destruct (Z.eqb_spec key KEY_TAB) as [->|].
  { apply Hfin; [by apply stepped_tab|by rewrite andb_false_r]. }
  destruct (negb (control =? 0)); cbn [andb].
  { destruct (key =? 108); [|by apply Hfin; [apply stepped_refl|]].
    destruct (clear_spec s ti Hb Hti) as (Hf & Hsh & Hi & He & Hn & Ha & _).
    destruct (refresh_frame ti (terminal_clear ti s)) as (Hfr & Htr & Hsr). rewrite Htr.
    split_and!; try done; [by eapply tframe_trans|by apply Hsr]. }
  destruct (negb (alt =? 0)); [by apply Hfin; [apply stepped_refl|]|].
  destruct (negb (key =? 0)); [by apply Hfin; [apply stepped_char|]|].
  destruct (sc =? 0xFF); by apply Hfin; [apply stepped_char || apply stepped_refl|].
Qed.

(** *** Writing a string *)

Fixpoint write_safe (l : list Z) (v : vt) : Prop :=
  match l with
  | [] => True
  | c :: l' => key_safe (s8 c) v /\ write_safe l' (vt_key (s8 c) 0xFF 0 0 v)
  end.

Definition vt_write (l : list Z) (v : vt) : vt := fold_left (fun v c => vt_key (s8 c) 0xFF 0 0 v) l v.

Lemma write_safe_plain l : forall v, Forall (fun c => s8 c <> KEY_BACKSPACE /\ s8 c <> KEY_DELETE) l -> write_safe l v.
Proof.
  induction l as [|c l IH]; intros v Hl; cbn [write_safe]; [done|].
  apply List.Forall_cons_iff in Hl as [[? ?] ?]. split; [split; intros [? _]; done|]. by apply IH.
Qed.

Lemma write_loop_spec m ti buf n : forall i s v,
  bufs_ok s -> 0 <= ti < NR_TERM -> vt_ok v -> shows s ti v -> write_safe (bytes m (buf + i) n) v ->
  let '(r, s') := terminal_write_loop n m ti buf i s in
  r = i + Z.of_nat n /\ tframe ti s s' /\ shows s' ti (vt_write (bytes m (buf + i) n) v) /\
  vt_ok (vt_write (bytes m (buf + i) n) v) /\ exists x y, term s' ti = set_cursor (term s ti) x y.
Proof.
  induction n as [|n IH]; intros i s v Hb Hti Hv Hs Hw; cbn [terminal_write_loop bytes vt_write fold_left].
  - destruct (stepped_refl _ _ _ Hs) as (? & ? & ?). split_and!; [lia|done..].
  - cbn [bytes write_safe] in Hw. destruct Hw as [Hk Hw].
    pose proof (handle_key_spec s ti v (s8 (ld m (buf + i))) 0xFF 0 0 Hb Hti Hv Hk Hs) as H1.
    pose proof (vt_key_ok (s8 (ld m (buf + i))) 0xFF 0 0 v Hv Hk) as Hv1.
    destruct (terminal_handle_key _ _ _ _ _ s) as [r s1]. destruct H1 as (-> & Hf & Hs1 & Hcur & _).
    destruct (Hcur eq_refl) as (x & y & Ht). cbn [Z.eqb negb].
    replace (buf + i + 1) with (buf + (i + 1)) in * by lia.
    specialize (IH (i + 1) s1 _ (tframe_bufs _ _ _ Hf Hb) Hti Hv1 Hs1 Hw).
    destruct (terminal_write_loop n m ti buf (i + 1) s1) as [r s2].
    destruct IH as (-> & Hf2 & Hs2 & Hv2 & x2 & y2 & Ht2).
    split_and!; [lia|by eapply tframe_trans|done|done|]. exists x2, y2. by rewrite Ht2, Ht.
Qed.
End refinement.

(** ** Properties: the screen *)


Section switching.
Context {D : Type} `{Machine D}.
Implicit Types s : terminals D.

Lemma save_screen_back s k :
  (screen_buffers (save_screen s)).[k]
  = let b := screen_buf (term s (active_term s)) in
    if (b <=? k) && (k <? b + SCREEN) then (video s).[k - b] else (screen_buffers s).[k].
Proof.
  unfold save_screen. cbn [screen_buffers]. set (b := screen_buf (term s (active_term s))).
  destruct (aget_for_map 0 SCREEN (fun i => b + i) (fun i _ => (video s).[i]) (screen_buffers s)) as [Hm Ho];
    [cbn beta; intros; lia|]. cbn beta in Hm, Ho.
  destruct (Z.leb_spec b k), (Z.ltb_spec k (b + SCREEN)); cbn [andb].
  2-4: apply Ho; intros; lia.
  replace k with (b + (k - b)) at 1 by lia. apply Hm. lia.
Qed.

Lemma show_screen_video ti s k :
  (video (show_screen ti s)).[k]
  = if (0 <=? k) && (k <? SCREEN) then (screen_buffers s).[screen_buf (term s ti) + k] else (video s).[k].
Proof. unfold show_screen. cbn [video]. by rewrite aget_for_fill. Qed.

(** The cells after the two copies and the change of [active_term]. *)
Lemma switch_cells s ti j k :
  bufs_ok s -> 0 <= ti < NR_TERM -> ti <> active_term s -> 0 <= j < NR_TERM -> 0 <= k < SCREEN ->
  (if j =? ti then (video (show_screen ti (save_screen s))).[k]
   else (screen_buffers (save_screen s)).[SCREEN * j + k]) = tscreen s j k.
Proof.
  intros [Ha Hb] Hti Hne Hj Hk. rewrite show_screen_video, !save_screen_back. cbn zeta.
  change (term (save_screen s) ti) with (term s ti). rewrite !Hb by done. unfold tscreen.
  unfold SCREEN, NR_TERM, TERM_WIDTH, TERM_HEIGHT in *. decide_b. cbn [andb].
  destruct (Z.eqb_spec j ti) as [->|].
  - decide_b.
    destruct (Z.leb_spec (80 * 25 * active_term s) (80 * 25 * ti + k)),
      (Z.ltb_spec (80 * 25 * ti + k) (80 * 25 * active_term s + 80 * 25)); cbn; lia || done.
  - destruct (Z.eqb_spec j (active_term s)) as [->|].
    + decide_b. cbn [andb]. f_equal. lia.
    + destruct (Z.leb_spec (80 * 25 * active_term s) (80 * 25 * j + k)),
        (Z.ltb_spec (80 * 25 * j + k) (80 * 25 * active_term s + 80 * 25)); cbn; lia || done.
Qed.

(** The terminals' structures after a switch: only [is_active] changes. *)
Lemma switch_terms s ti :
  0 <= ti < NR_TERM -> ti <> active_term s ->
  let s' := terminal_switch ti s in
  active_term s' = ti /\
  term s' ti = set_active (term s ti) 1 /\
  term s' (active_term s) = set_active (term s (active_term s)) 0 /\
  (forall j, j <> ti -> j <> active_term s -> term s' j = term s j) /\
  video s' = video (show_screen ti (save_screen s)) /\
  screen_buffers s' = screen_buffers (save_screen s).
Proof.
  intros Hti Hne. cbn zeta. unfold terminal_switch. rewrite u8_small by (unfold NR_TERM in *; lia).
  cbn [active_term set_dev]. rewrite (proj2 (Z.eqb_neq _ _) Hne). cbn zeta.
  unfold terminal_refresh. cbn [active_term]. rewrite Z.eqb_refl. split_and!; try done.
  - unfold term. cbn. by rewrite lookup_insert_eq, lookup_insert_ne by congruence.
  - unfold term. cbn. rewrite lookup_insert_ne by congruence. by rewrite lookup_insert_eq.
  - intros j H1 H2. unfold term. cbn. by rewrite !lookup_insert_ne by congruence.
Qed.
End switching.

(** C25: Switching terminals loses nothing.  [terminal_switch] makes the terminal it is given the
    one on the display, and after it every one of the four terminals shows exactly the cells and
    has the cursor it had before, and keeps its input; the interrupt flag is as before. *)
Theorem terminal_switch_preserves_screens {D} `{Machine D} `{!MachineLaws D} (s : terminals D) ti :
  bufs_ok s -> 0 <= ti < NR_TERM ->
  let s' := terminal_switch ti s in
  active_term s' = ti /\ bufs_ok s' /\ get_if (dev s') = get_if (dev s) /\
  (forall j v, 0 <= j < NR_TERM -> shows s j v -> shows s' j v) /\
  (forall j, 0 <= j < NR_TERM -> exists a, term s' j = set_active (term s j) a).
Proof.
  intros Hb Hti. cbn zeta.
  assert (Hif : get_if (dev (terminal_switch ti s)) = get_if (dev s)).
  { unfold terminal_switch. destruct (u8 ti =? _); cbn; by rewrite get_set_if. }
  destruct (Z.eq_dec ti (active_term s)) as [->|Hne].
  { unfold terminal_switch in *. rewrite u8_small in * by (unfold NR_TERM in *; lia).
    cbn [active_term set_dev] in *. rewrite Z.eqb_refl in *. split_and!; try done.
    intros j Hj. exists (is_active (term s j)). unfold term; cbn. by destruct (default _ _). }
  destruct (switch_terms s ti Hti Hne) as (Ea & E1 & E2 & E3 & Ev & Eb).
  assert (Hterm : forall j, exists a, term (terminal_switch ti s) j = set_active (term s j) a).
  { intros j. destruct (Z.eq_dec j ti) as [->|]; [by eexists|].
    destruct (Z.eq_dec j (active_term s)) as [->|]; [by eexists|].
    exists (is_active (term s j)). rewrite E3 by done. by destruct (term s j). }
  split_and!; [done| |done| |by intros].
  - destruct Hb as [Ha Hb]. split; [by rewrite Ea|]. intros j Hj. destruct (Hterm j) as [a ->]. by apply Hb.
  - intros j v Hj (Hx & Hy & Hc). destruct (Hterm j) as [a Ht]. unfold shows. rewrite Ht.
    split_and!; [done|done|]. intros k Hk. rewrite <- Hc by done.
    rewrite <- (switch_cells s ti j k Hb Hti Hne Hj Hk). unfold tscreen. by rewrite Ea, Ev, Eb.
Qed.

(** ** The input queue *)

(** The characters typed and not yet read. *)
Definition inq (t : term_data) : list Z := cells (in_buf t) 0 (Z.to_nat (in_dat_end t)).

(** The insertion point is at the end of the queue, inside the buffer. *)
Definition input_ok (t : term_data) : Prop :=
  0 <= in_dat_end t <= IN_BUF_SIZE /\ in_dat_index t = in_dat_end t.

(** At most [n] characters of [q], up to and including the first newline. *)
Fixpoint line_of (n : nat) (q : list Z) : list Z :=
  match n, q with
  | S n', c :: q' => if s8 c =? KEY_ENTER then [c] else c :: line_of n' q'
  | _, _ => []
  end.

(** 1 if the line ends in a newline. *)
Definition ends_line (l : list Z) : Z := if s8 (List.last l 0) =? KEY_ENTER then 1 else 0.

Lemma length_inq t : 0 <= in_dat_end t -> Z.of_nat (length (inq t)) = in_dat_end t.
Proof. intros. unfold inq. rewrite length_cells. lia. Qed.

Lemma line_of_cons n c q :
  line_of (S n) (c :: q) = if s8 c =? KEY_ENTER then [c] else c :: line_of n q.
Proof. done. Qed.

Lemma line_of_length n : forall q, (length (line_of n q) <= n /\ length (line_of n q) <= length q)%nat.
Proof.
  induction n as [|n IH]; intros [|c q]; cbn [line_of length]; try lia.
  specialize (IH q). destruct (s8 c =? KEY_ENTER); cbn; lia.
Qed.

Lemma line_of_prefix n : forall q, line_of n q = take (length (line_of n q)) q.
Proof.
  induction n as [|n IH]; intros [|c q]; cbn [line_of length]; try done.
  destruct (s8 c =? KEY_ENTER); cbn; [done|]. by rewrite <- IH.
Qed.

Lemma ends_line_cons c l : s8 c <> KEY_ENTER -> ends_line (c :: l) = ends_line l.
Proof.
  intros Hc. unfold ends_line. destruct l as [|d l]; cbn [List.last]; [|done].
  by rewrite (proj2 (Z.eqb_neq _ _) Hc).
Qed.

Lemma read_copy_loop_spec b e buf len : forall f m i,
  0 <= i -> Z.of_nat f = Z.max 0 (Z.min e len - i) ->
  let line := line_of f (cells b i (Z.to_nat (e - i))) in
  exists m', read_copy_loop f m b e buf len i = (m', i + Z.of_nat (length line), ends_line line) /\
    bytes m' (buf + i) (length line) = map u8 line /\
    unchanged_outside m m' (buf + i) (Z.of_nat (length line)).
Proof.
  induction f as [|f IH]; intros m i Hi Hf; cbn zeta.
  { exists m. cbn [line_of read_copy_loop]. cbn. rewrite Z.add_0_r. split; [done|]. split; [done|]. by intros x _. }
  cbn [read_copy_loop]. decide_b. cbn [andb].
  replace (Z.to_nat (e - i)) with (S (Z.to_nat (e - (i + 1)))) by lia. cbn [cells].
  rewrite line_of_cons, ld_st_eq, s8_u8.
  destruct (Z.eqb_spec (s8 (b.[i])) KEY_ENTER) as [E|E].
  - exists (st m (buf + i) (b.[i])). unfold ends_line. cbn [length List.last map bytes]. rewrite E.
    split; [done|]. split; [by rewrite ld_st_eq|]. intros x Hx. apply ld_st_ne. lia.
  - destruct (IH (st m (buf + i) (b.[i])) (i + 1) ltac:(lia) ltac:(lia)) as (m' & -> & Hb & Ho).
    set (line := line_of f _) in *. exists m'. rewrite ends_line_cons by done. cbn [length map bytes].
    split; [f_equal; f_equal; lia|]. replace (buf + i + 1) with (buf + (i + 1)) by lia. split.
    + f_equal; [|done]. rewrite Ho by lia. by rewrite ld_st_eq.
    + intros x Hx. rewrite Ho by lia. apply ld_st_ne. lia.
Qed.

Section reading.
Context {D : Type} `{Machine D}.
Implicit Types s : terminals D.

(** The shift of the rest of the input, into the active terminal's buffer. *)
Definition shift_step (ti i j : Z) s : terminals D :=
  let ta := term s (active_term s) in
  set_term_data s (active_term s)
    (set_input ta (in_buf ta).[j <- (in_buf (term s ti)).[i + j]] (in_dat_index ta)
       (in_dat_end ta) (in_dat_nr_ret ta)).

Lemma shift_loop_spec s ti i n :
  0 <= i ->
  let s' := for_ 0 n (shift_step ti i) s in
  active_term s' = active_term s /\ screen_buffers s' = screen_buffers s /\ video s' = video s /\
  dev s' = dev s /\ (forall j, j <> active_term s -> term s' j = term s j) /\
  exists b, term s' (active_term s)
      = set_input (term s (active_term s)) b (in_dat_index (term s (active_term s)))
          (in_dat_end (term s (active_term s))) (in_dat_nr_ret (term s (active_term s))) /\
    forall j, b.[j] = if (0 <=? j) && (j <? n) then (in_buf (term s ti)).[i + j]
                      else (in_buf (term s (active_term s))).[j].
Proof.
  intros Hi. cbn zeta. set (a := active_term s).
  destruct (Z.le_gt_cases 0 n) as [Hn|Hn].
  2:{ rewrite for_empty by lia. split_and!; try done. exists (in_buf (term s a)).
      split; [by destruct (term s a)|]. intros j. destruct (Z.leb_spec 0 j), (Z.ltb_spec j n); cbn; lia || done. }
  apply (for_inv (fun k s' =>
    active_term s' = a /\ screen_buffers s' = screen_buffers s /\ video s' = video s /\
    dev s' = dev s /\ (forall j, j <> a -> term s' j = term s j) /\
    exists b, term s' a = set_input (term s a) b (in_dat_index (term s a)) (in_dat_end (term s a)) (in_dat_nr_ret (term s a)) /\
      forall j, b.[j] = if (0 <=? j) && (j <? k) then (in_buf (term s ti)).[i + j] else (in_buf (term s a)).[j])); [done| |].
  - split_and!; try done. exists (in_buf (term s a)). split; [by destruct (term s a)|].
    intros j. destruct (Z.leb_spec 0 j), (Z.ltb_spec j 0); cbn; lia || done.
  - intros k s1 Hk (E1 & E2 & E3 & E4 & E5 & b & E6 & Hb). unfold shift_step. rewrite E1, E6.
    split_and!; try done.
    + intros j Hj. rewrite term_set_ne by congruence. by apply E5.
    + eexists. rewrite term_set_eq. split; [reflexivity|]. cbn [in_buf set_input].
      assert (Hread : (in_buf (term s1 ti)).[i + k] = (in_buf (term s ti)).[i + k]).
      { destruct (Z.eq_dec ti a) as [->|Hne]; [|by rewrite E5].
        rewrite E6. cbn [in_buf set_input]. rewrite Hb.
        destruct (Z.leb_spec 0 (i + k)), (Z.ltb_spec (i + k) k); cbn; lia || done. }
      intros j. rewrite aget_aset, Hb, Hread.
      destruct (Z.eqb_spec k j), (Z.leb_spec 0 j), (Z.ltb_spec j k), (Z.ltb_spec j (k + 1));
        cbn; try lia; try done. by subst.
Qed.

(** One line is taken from a terminal. *)
Lemma read_line_spec m ti buf len s :
  0 <= in_dat_end (term s ti) -> 0 <= len ->
  let t := term s ti in
  let line := line_of (Z.to_nat (Z.min (in_dat_end t) len)) (inq t) in
  let i := Z.of_nat (length line) in
  exists m' s', terminal_read_line m ti buf len s = (i, m', s') /\
    bytes m' buf (length line) = map u8 line /\ unchanged_outside m m' buf i /\
    in_dat_index (term s' ti) = in_dat_index t - i /\ in_dat_end (term s' ti) = in_dat_end t - i /\
    in_dat_nr_ret (term s' ti) = in_dat_nr_ret t - ends_line line /\
    (forall k, (in_buf (term s' (active_term s))).[k]
       = if (0 <=? k) && (k <? in_dat_end t - i) then (in_buf t).[i + k]
         else (in_buf (term s (active_term s))).[k]) /\
    (ti <> active_term s -> in_buf (term s' ti) = in_buf t).
Proof.
  intros He Hl. cbn zeta. unfold terminal_read_line. set (t := term s ti) in *.
  destruct (read_copy_loop_spec (in_buf t) (in_dat_end t) buf len (Z.to_nat (Z.min (in_dat_end t) len)) m 0
    ltac:(lia) ltac:(lia)) as (m' & -> & Hb & Ho).
  rewrite !Z.sub_0_r, !Z.add_0_r in *. fold (inq t) in *.
  pose proof (line_of_length (Z.to_nat (Z.min (in_dat_end t) len)) (inq t)) as [HL _].
  set (line := line_of _ (inq t)) in *. rewrite Z.add_0_l. set (i := Z.of_nat (length line)) in *.
  destruct (shift_loop_spec s ti i (in_dat_end t - i) ltac:(lia)) as (E1 & E2 & E3 & E4 & E5 & b & E6 & Hbuf).
  change (for_ 0 (in_dat_end t - i) _ s) with (for_ 0 (in_dat_end t - i) (shift_step ti i) s).
  set (s1 := for_ 0 (in_dat_end t - i) (shift_step ti i) s) in *. clearbody s1.
  assert (Ht1 : in_dat_index (term s1 ti) = in_dat_index t /\ in_dat_end (term s1 ti) = in_dat_end t /\
                in_dat_nr_ret (term s1 ti) = in_dat_nr_ret t /\
                (ti <> active_term s -> in_buf (term s1 ti) = in_buf t)).
  { destruct (Z.eq_dec ti (active_term s)) as [E|Hne]; [|by rewrite E5].
    unfold t. rewrite E, E6. cbn. split_and!; try done. }
  destruct Ht1 as (F1 & F2 & F3 & F4).
  eexists m', _. split; [reflexivity|]. split_and!; try done.
  1-3: rewrite term_set_eq; cbn; rewrite ?F1, ?F2, ?F3; lia.
  - intros k. destruct (Z.eq_dec ti (active_term s)) as [E|Hne].
    + rewrite <- E at 1. rewrite term_set_eq. cbn [in_buf set_input]. rewrite E at 1. rewrite E6.
      cbn [in_buf set_input]. by rewrite Hbuf.
    + rewrite term_set_ne by done. rewrite E6. cbn [in_buf set_input]. by rewrite Hbuf.
  - intros Hne. rewrite term_set_eq. cbn. by apply F4.
Qed.

(** Reading from the active terminal takes the line off the front of its queue. *)
Lemma read_line_active m ti buf len s :
  0 <= in_dat_end (term s ti) -> 0 <= len -> ti = active_term s ->
  let t := term s ti in
  let line := line_of (Z.to_nat (Z.min (in_dat_end t) len)) (inq t) in
  exists m' s', terminal_read_line m ti buf len s = (Z.of_nat (length line), m', s') /\
    bytes m' buf (length line) = map u8 line /\ unchanged_outside m m' buf (Z.of_nat (length line)) /\
    inq (term s' ti) = drop (length line) (inq t) /\
    in_dat_index (term s' ti) = in_dat_index t - Z.of_nat (length line) /\
    in_dat_end (term s' ti) = in_dat_end t - Z.of_nat (length line) /\
    in_dat_nr_ret (term s' ti) = in_dat_nr_ret t - ends_line line.
Proof.
  intros He Hl Ha. cbn zeta.
  destruct (read_line_spec m ti buf len s He Hl) as (m' & s' & E & Hb & Ho & Hi & Hend & Hn & Hbuf & _).
  set (line := line_of _ _) in *. exists m', s'. split_and!; try done.
  pose proof (line_of_length (Z.to_nat (Z.min (in_dat_end (term s ti)) len)) (inq (term s ti))) as [HL _].
  fold line in HL. unfold inq. rewrite Hend.
  replace (Z.to_nat (in_dat_end (term s ti))) with
    (length line + Z.to_nat (in_dat_end (term s ti) - Z.of_nat (length line)))%nat by lia.
  rewrite cells_app, drop_app_length' by (by rewrite length_cells).
  apply cells_ext. intros k Hk. rewrite Ha at 1. rewrite Hbuf. decide_b. cbn [andb].
  f_equal.
Qed.
End reading.

Section typing.
Context {D : Type} `{Machine D}.
Implicit Types s : terminals D.

Lemma input_insert_spec key s :
  let a := active_term s in
  input_ok (term s a) -> in_dat_end (term s a) < IN_BUF_SIZE ->
  let s' := input_insert key s in
  tframe a s s' /\ (forall v, shows s a v -> shows s' a v) /\ active_term s' = a /\
  inq (term s' a) = inq (term s a) ++ [key] /\ input_ok (term s' a) /\
  in_dat_nr_ret (term s' a) = in_dat_nr_ret (term s a) + (if key =? KEY_ENTER then 1 else 0) /\
  is_active (term s' a) = is_active (term s a).
Proof.
  intros a [He Hi] Hr. cbn zeta. unfold input_insert. fold a. rewrite Hi.
  rewrite for_empty by lia. split_and!; try done.
  - by apply tframe_set.
  - intros v (? & ? & Hc). unfold shows. by rewrite term_set_eq.
  - rewrite term_set_eq. unfold inq. cbn [in_dat_end set_input in_buf].
    replace (Z.to_nat (in_dat_end (term s a) + 1)) with (Z.to_nat (in_dat_end (term s a)) + 1)%nat by lia.
    rewrite cells_app. f_equal.
    + apply cells_ext. intros k Hk. apply aget_aset_ne. lia.
    + cbn [cells]. f_equal. rewrite Z2Nat.id by lia.
      replace (in_dat_end (term s a) + 1 - 1) with (0 + in_dat_end (term s a)) by lia.
      apply aget_aset_eq.
  - rewrite term_set_eq. unfold input_ok, IN_BUF_SIZE in *. cbn. lia.
  - rewrite term_set_eq. cbn. case_b; lia.
  - by rewrite term_set_eq.
Qed.

Lemma input_backspace_spec s :
  let a := active_term s in
  input_ok (term s a) -> 0 < in_dat_end (term s a) ->
  let s' := input_backspace s in
  tframe a s s' /\ (forall v, shows s a v -> shows s' a v) /\ active_term s' = a /\
  inq (term s' a) = take (length (inq (term s a)) - 1) (inq (term s a)) /\ input_ok (term s' a) /\
  in_dat_nr_ret (term s' a) = in_dat_nr_ret (term s a) /\
  is_active (term s' a) = is_active (term s a).
Proof.
  intros a [He Hi] Hr. cbn zeta. unfold input_backspace. fold a. rewrite Hi.
  rewrite for_empty by lia. split_and!; try done.
  - by apply tframe_set.
  - intros v (? & ? & Hc). unfold shows. by rewrite term_set_eq.
  - rewrite term_set_eq. unfold inq. cbn [in_dat_end set_input in_buf]. rewrite length_cells.
    replace (Z.to_nat (in_dat_end (term s a))) with (Z.to_nat (in_dat_end (term s a) - 1) + 1)%nat at 2 by lia.
    rewrite cells_app, take_app_length'; [done|]. rewrite length_cells. lia.
  - rewrite term_set_eq. unfold input_ok in *. cbn. lia.
  - by rewrite term_set_eq.
  - by rewrite term_set_eq.
Qed.

(** The queue after a key without Control: typed characters go to its end while there is room,
    backspace takes the last one off, the rest is ignored. *)
Definition type_key (key : Z) (q : list Z) : list Z :=
  if key =? KEY_BACKSPACE then take (length q - 1) q
  else if (key =? KEY_DELETE) || (key =? 0) || (IN_BUF_SIZE <=? Z.of_nat (length q)) then q
  else q ++ [key].

(** The character that reaches the screen, 0 for none. *)
Definition key_echoed (key : Z) (q : list Z) : Z :=
  if key =? KEY_BACKSPACE then (if Z.of_nat (length q) =? 0 then 0 else key)
  else if (key =? KEY_DELETE) || (key =? 0) || (IN_BUF_SIZE <=? Z.of_nat (length q)) then 0 else key.

(** The state after a key: the queue, the count of newlines, the screen. *)
Definition typed (s s' : terminals D) (q : list Z) (n : Z) (v : vt) : Prop :=
  let a := active_term s in
  tframe a s s' /\ inq (term s' a) = q /\ input_ok (term s' a) /\ in_dat_nr_ret (term s' a) = n /\
  is_active (term s' a) = is_active (term s a) /\ shows s' a v.

Lemma typed_echo s s1 q n v k sc alt :
  bufs_ok s -> vt_ok v -> key_safe k v -> typed s s1 q n v ->
  typed s (terminal_handle_key (active_term s1) k sc 0 alt s1).2 q n (vt_key k sc 0 alt v).
Proof.
  unfold typed. intros Hb Hv Hk (Hf1 & <- & Hok1 & <- & Hact1 & Hs1). set (a := active_term s) in *.
  rewrite (tf_active _ _ _ Hf1 : active_term s1 = a).
  pose proof (handle_key_spec s1 a v k sc 0 alt (tframe_bufs _ _ _ Hf1 Hb) (proj1 Hb) Hv Hk Hs1) as Hh.
  destruct (terminal_handle_key a k sc 0 alt s1) as [r s2]. cbn [snd].
  destruct Hh as (_ & Hf2 & Hs2 & Hcur & _). destruct (Hcur eq_refl) as (x & y & ->).
  split_and!; try done. by eapply tframe_trans.
Qed.

Lemma input_process_key_spec key sc alt s v :
  let a := active_term s in
  bufs_ok s -> input_ok (term s a) -> is_active (term s a) <> 0 -> vt_ok v -> shows s a v ->
  ~ (key = KEY_BACKSPACE /\ vx v = 0 /\ vy v = 0) ->
  let '(r, s') := input_process_key key sc 0 alt s in
  r = 0 /\ typed s s' (type_key key (inq (term s a)))
    (in_dat_nr_ret (term s a) + (if (key =? KEY_ENTER) && (in_dat_end (term s a) <? IN_BUF_SIZE) then 1 else 0))
    (vt_key (key_echoed key (inq (term s a))) sc 0 alt v).
Proof.
  intros a Hb Hok Hact Hv Hs Hsafe. unfold input_process_key. fold a.
  rewrite (proj2 (Z.eqb_neq _ _) Hact). pose proof Hok as [He Hi]. pose proof (length_inq _ (proj1 He)) as Hl.
  assert (Hz : key_safe 0 v) by (split; by intros [? _]).
  assert (Hsame : typed s s (inq (term s a)) (in_dat_nr_ret (term s a)) v) by done.
  unfold type_key, key_echoed. rewrite Hl, Hi.
  destruct (Z.eqb_spec key KEY_BACKSPACE) as [->|Hnb].
  { cbn [andb Z.eqb Pos.eqb KEY_BACKSPACE KEY_ENTER]. rewrite Z.add_0_r.
    destruct (Z.eqb_spec (in_dat_end (term s a)) 0) as [E0|]; (split; [done|]).
    - apply typed_echo; try done. by rewrite take_ge by lia.
    - destruct (input_backspace_spec s Hok ltac:(fold a; lia)) as (? & Hsh & ? & ? & ? & ? & ?).
      apply typed_echo; [done|done|split; [done|by intros [? _]]|]. split_and!; try done. by apply Hsh. }
  destruct (Z.eqb_spec key KEY_DELETE) as [->|Hnd].
  { rewrite Z.ltb_irrefl. cbn [andb Z.eqb Pos.eqb KEY_DELETE KEY_ENTER orb]. rewrite Z.add_0_r.
    split; [done|]. by apply typed_echo. }
  destruct (Z.eqb_spec key 0) as [->|Hnz]; cbn [negb andb orb].
  { rewrite Z.add_0_r. split; [done|]. by apply typed_echo. }
  destruct (Z.ltb_spec (in_dat_end (term s a)) IN_BUF_SIZE).
  - rewrite (proj2 (Z.leb_gt _ _)) by lia. rewrite andb_true_r.
    destruct (input_insert_spec key s Hok ltac:(done)) as (? & Hsh & ? & ? & ? & ? & ?).
    split; [done|]. apply typed_echo; [done|done|split; by intros [? _]|]. split_and!; try done. by apply Hsh.
  - rewrite (proj2 (Z.leb_le _ _)) by lia. rewrite andb_false_r, Z.add_0_r. split; [done|]. by apply typed_echo.
Qed.
End typing.

(** A key press as the keyboard driver delivers it. *)
Definition press (key : Z) : option (Z * Z * Z * Z) := Some (key, 0, 0, 0).

(** Characters that are neither newline nor editing keys. *)
Definition plain_key (key : Z) : Prop :=
  -128 <= key < 128 /\ key <> KEY_BACKSPACE /\ key <> KEY_DELETE /\ key <> 0 /\ key <> KEY_ENTER.

Section line.
Context {D : Type} `{Machine D}.
Implicit Types s : terminals D.

Lemma type_plain s v key :
  let a := active_term s in
  bufs_ok s -> input_ok (term s a) -> is_active (term s a) <> 0 -> vt_ok v -> shows s a v ->
  key <> KEY_BACKSPACE -> key <> KEY_DELETE -> key <> 0 -> in_dat_end (term s a) < IN_BUF_SIZE ->
  let s' := (input_process_key key 0 0 0 s).2 in
  active_term s' = a /\ bufs_ok s' /\ input_ok (term s' a) /\ is_active (term s' a) <> 0 /\
  (vt_ok (vt_key key 0 0 0 v) /\ shows s' a (vt_key key 0 0 0 v)) /\
  inq (term s' a) = inq (term s a) ++ [key] /\
  in_dat_nr_ret (term s' a) = in_dat_nr_ret (term s a) + (if key =? KEY_ENTER then 1 else 0).
Proof.
  cbn zeta. intros Hb Hok Hact Hv Hs K1 K2 K3 Hroom.
  pose proof (input_process_key_spec key 0 0 s v Hb Hok Hact Hv Hs ltac:(by intros [? _])) as H1.
  pose proof (length_inq _ (proj1 (proj1 Hok))) as Hl.
  destruct (input_process_key key 0 0 0 s) as [r s']. destruct H1 as (_ & Hf & Hq & Hok' & Hn & Hact' & Hs').
  cbn [snd]. refine (conj _ (conj _ (conj _ (conj _ (conj _ (conj _ _)))))).
  - apply Hf.
  - by eapply tframe_bufs.
  - done.
  - congruence.
  - assert (Ee : key_echoed key (inq (term s (active_term s))) = key).
    { unfold key_echoed. rewrite Hl.
      rewrite (proj2 (Z.eqb_neq _ _) K1), (proj2 (Z.eqb_neq _ _) K2), (proj2 (Z.eqb_neq _ _) K3).
      by rewrite (proj2 (Z.leb_gt _ _)) by lia. }
    rewrite Ee in Hs'. split; [|done]. apply vt_key_ok; [done|]. split; by intros [? _].
  - rewrite Hq. unfold type_key. rewrite Hl.
    rewrite (proj2 (Z.eqb_neq _ _) K1), (proj2 (Z.eqb_neq _ _) K2), (proj2 (Z.eqb_neq _ _) K3).
    by rewrite (proj2 (Z.leb_gt _ _)) by lia.
  - rewrite Hn. by rewrite (proj2 (Z.ltb_lt _ _) Hroom), andb_true_r.
Qed.

(** Typed characters show as written ones do. *)
Lemma vt_key_plain key v : -128 <= key < 128 -> key <> 0 -> vt_key key 0 0 0 v = vt_key (s8 (u8 key)) 0xFF 0 0 v.
Proof.
  intros Hr Hz. assert (E : s8 (u8 key) = key) by (unfold s8, u8; Z.div_mod_to_equations; lia).
  rewrite E. unfold vt_key. by rewrite (proj2 (Z.eqb_neq _ _) Hz).
Qed.

Lemma read_after_typing m fd buf len keys : forall s v,
  let a := active_term s in
  bufs_ok s -> input_ok (term s a) -> is_active (term s a) <> 0 -> vt_ok v -> shows s a v ->
  in_dat_nr_ret (term s a) = 0 -> Forall plain_key keys ->
  in_dat_end (term s a) + Z.of_nat (length keys) < IN_BUF_SIZE ->
  exists s', terminal_read (map press (keys ++ [KEY_ENTER])) m a fd buf len s
    = Some (terminal_read_line m a buf len s', []) /\
    active_term s' = a /\ input_ok (term s' a) /\ in_dat_nr_ret (term s' a) = 1 /\
    inq (term s' a) = inq (term s a) ++ keys ++ [KEY_ENTER] /\
    bufs_ok s' /\ is_active (term s' a) <> 0 /\ vt_ok (vt_write (map u8 (keys ++ [KEY_ENTER])) v) /\
    shows s' a (vt_write (map u8 (keys ++ [KEY_ENTER])) v).
Proof.
  induction keys as [|key keys IH]; cbn zeta; intros s v Hb Hok Hact Hv Hs Hn Hk Hroom.
  - destruct (type_plain s v KEY_ENTER Hb Hok Hact Hv Hs) as (E1 & E2 & E3 & E4 & E5 & E6 & E7); [done..|cbn in Hroom; lia|].
    cbn [map app terminal_read press]. set (s1 := (input_process_key KEY_ENTER 0 0 0 s).2) in *. clearbody s1.
    cbn [Z.eqb Pos.eqb KEY_ENTER] in E7. rewrite Hn in E7. cbn in E7.
    exists s1. rewrite E7. done.
  - apply List.Forall_cons_iff in Hk as [(K0 & K1 & K2 & K3 & K4) Hk]. cbn [length] in Hroom.
    destruct (type_plain s v key Hb Hok Hact Hv Hs K1 K2 K3) as (E1 & E2 & E3 & E4 & (Hv' & Hs') & E6 & E7);
      [lia|]. rewrite (vt_key_plain key v K0 K3) in Hv', Hs'.
    rewrite (proj2 (Z.eqb_neq _ _) K4), Z.add_0_r in E7.
    cbn [map app terminal_read press]. set (s1 := (input_process_key key 0 0 0 s).2) in *. clearbody s1.
    rewrite E7, Hn. cbn [Z.eqb].
    assert (El : in_dat_end (term s1 (active_term s)) = in_dat_end (term s (active_term s)) + 1).
    { rewrite <- (length_inq (term s1 (active_term s))), E6 by apply E3. rewrite length_app, Nat2Z.inj_add.
      rewrite (length_inq (term s (active_term s))) by apply Hok. done. }
    rewrite <- E1 in *. destruct (IH s1 _ E2 E3 E4 Hv' Hs') as (s' & E & F1 & F2 & F3 & F4 & F5 & F6 & F7 & F8); [congruence|done|lia|].
    exists s'. split_and!; try done. by rewrite F4, E6, <- app_assoc.
Qed.

(** A line that fits is delivered whole. *)
Lemma line_of_plain keys n :
  Forall plain_key keys -> (length keys < n)%nat -> line_of n (keys ++ [KEY_ENTER]) = keys ++ [KEY_ENTER].
Proof.
  revert n. induction keys as [|key keys IH]; intros [|n] Hk Hn; cbn [length] in Hn; try lia; [done|].
  apply List.Forall_cons_iff in Hk as [(K0 & _ & _ & _ & K4) Hk]. cbn [app]. rewrite line_of_cons.
  rewrite s8_small, (proj2 (Z.eqb_neq _ _) K4) by lia. f_equal. apply IH; [done|lia].
Qed.
End line.

(** Reading takes input off the queue and shows nothing. *)
Definition shows_same {D} (ti : Z) (s s' : terminals D) : Prop :=
  tframe ti s s' /\ is_active (term s' ti) = is_active (term s ti) /\ forall v, shows s ti v -> shows s' ti v.

Lemma set_input_shows {D} (s s1 : terminals D) ti i b x y z :
  shows_same ti s s1 -> i = ti -> shows_same ti s (set_term_data s1 i (set_input (term s1 i) b x y z)).
Proof.
  intros (Hf & Hi & Hs) ->. split; [eapply tframe_trans; [exact Hf|by apply tframe_set]|].
  split; [by rewrite term_set_eq|].
  intros v Hv. destruct (Hs v Hv) as (? & ? & Hc). unfold shows. by rewrite term_set_eq.
Qed.

Lemma read_line_shows {D} (s : terminals D) m ti buf len :
  ti = active_term s -> let '(_, _, s') := terminal_read_line m ti buf len s in shows_same ti s s'.
Proof.
  intros Ha. unfold terminal_read_line. destruct (read_copy_loop _ _ _ _ _ _ _) as [[m1 i] cr].
  set (s1 := for_ _ _ _ s).
  assert (H0 : shows_same ti s s) by (by split; [apply tframe_refl|]).
  assert (H1 : shows_same ti s s1).
  { destruct (Z.le_gt_cases (in_dat_end (term s ti) - i) 0) as [Hle|Hgt]; [by unfold s1; rewrite for_empty by lia|].
    apply (for_inv (fun _ => shows_same ti s)); [lia|done|].
    intros j s2 _ Hj. apply set_input_shows; [done|]. rewrite (tf_active _ _ _ (proj1 Hj)). done. }
  clearbody s1. by apply set_input_shows.
Qed.

Lemma typed_line_spec {D} `{Machine D} (s : terminals D) v m fd buf len keys :
  let a := active_term s in
  let line := keys ++ [KEY_ENTER] in
  bufs_ok s -> input_ok (term s a) -> is_active (term s a) <> 0 -> vt_ok v -> shows s a v ->
  in_dat_nr_ret (term s a) = 0 -> inq (term s a) = [] -> Forall plain_key keys ->
  Z.of_nat (length line) <= Z.min len IN_BUF_SIZE ->
  exists m' s', terminal_read (map press line) m a fd buf len s
    = Some (Z.of_nat (length line), m', s', []) /\
    bytes m' buf (length line) = map u8 line /\ unchanged_outside m m' buf (Z.of_nat (length line)) /\
    inq (term s' a) = [] /\ in_dat_nr_ret (term s' a) = 0 /\ active_term s' = a /\ bufs_ok s' /\
    input_ok (term s' a) /\ is_active (term s' a) <> 0 /\
    vt_ok (vt_write (map u8 line) v) /\ shows s' a (vt_write (map u8 line) v).
Proof.
  cbn zeta. intros Hb Hok Hact Hv Hs Hn Hq Hk Hl. set (a := active_term s) in *. set (line := keys ++ [KEY_ENTER]) in *. unfold line in Hl. rewrite length_app in Hl. cbn [length] in Hl.
  pose proof (length_inq _ (proj1 (proj1 Hok))) as He. rewrite Hq in He. cbn in He.
  destruct (read_after_typing m fd buf len keys s v Hb Hok Hact Hv Hs Hn Hk) as (s1 & E & E1 & E2 & E3 & E4 & E5 & E5' & E6 & E7);
    [fold a; lia|]. fold a in E, E1, E2, E3, E4, E7. fold line in E, E6, E7. rewrite Hq in E4. cbn [app] in E4. fold line in E4.
  pose proof (length_inq _ (proj1 (proj1 E2))) as He1. rewrite E4 in He1.
  destruct (read_line_active m a buf len s1) as (m' & s' & F & Hby & Ho & Hq' & Hi' & He' & Hn');
    [lia|lia|done|]. pose proof (read_line_shows s1 m a buf len (eq_sym E1)) as Hsh. rewrite F in Hsh.
  destruct Hsh as (Hf & Hai & Hsh). rewrite E4 in *. rewrite <- He1 in *.
  unfold line in *. rewrite !length_app in *. cbn [length] in *.
  rewrite line_of_plain in * by (done || lia). rewrite length_app in *. cbn [length] in *.
  exists m', s'. rewrite E, F.
  refine (conj _ (conj _ (conj _ (conj _ (conj _ (conj _ (conj _ (conj _ (conj _ (conj _ _)))))))))); try done.
  - rewrite Hq'. apply drop_ge. rewrite length_app. done.
  - rewrite Hn', E3. unfold ends_line. by rewrite List.last_last.
  - by rewrite (tf_active _ _ _ Hf).
  - by eapply tframe_bufs.
  - unfold input_ok, IN_BUF_SIZE in *. rewrite Hi', He'. lia.
  - by rewrite Hai.
  - by apply Hsh.
Qed.

(** ** Properties: the keyboard *)

(** What a key press does (without Control) on the active terminal: printable keys, tab and
    newline are appended to the input queue while it holds fewer than 128 characters, backspace
    removes the last character, delete and keys without a character leave the queue alone; the
    screen is updated exactly for the keys that changed the queue; the count of newlines goes up
    with each newline typed; no other terminal changes. *)
Theorem input_process_key_correct {D} `{Machine D} (s : terminals D) key sc alt v :
  let a := active_term s in
  bufs_ok s -> input_ok (term s a) -> is_active (term s a) <> 0 -> vt_ok v -> shows s a v ->
  ~ (key = KEY_BACKSPACE /\ vx v = 0 /\ vy v = 0) ->
  let '(r, s') := input_process_key key sc 0 alt s in
  r = 0 /\ typed s s' (type_key key (inq (term s a)))
    (in_dat_nr_ret (term s a) + (if (key =? KEY_ENTER) && (in_dat_end (term s a) <? IN_BUF_SIZE) then 1 else 0))
    (vt_key (key_echoed key (inq (term s a))) sc 0 alt v).
Proof. apply input_process_key_spec. Qed.

(** A line typed is the line read.  When a process waits in [terminal_read] on the active
    terminal with an empty queue, and up to 127 characters and then Enter are typed, the call
    returns at the Enter with exactly the characters typed followed by a newline in the buffer
    (of at least that size), the queue is empty again and nothing else of memory changes. *)
Theorem typed_line_is_read {D} `{Machine D} (s : terminals D) v m fd buf len keys :
  let a := active_term s in
  let line := keys ++ [KEY_ENTER] in
  bufs_ok s -> input_ok (term s a) -> is_active (term s a) <> 0 -> vt_ok v -> shows s a v ->
  in_dat_nr_ret (term s a) = 0 -> inq (term s a) = [] -> Forall plain_key keys ->
  Z.of_nat (length line) <= Z.min len IN_BUF_SIZE ->
  exists m' s', terminal_read (map press line) m a fd buf len s
    = Some (Z.of_nat (length line), m', s', []) /\
    bytes m' buf (length line) = map u8 line /\ unchanged_outside m m' buf (Z.of_nat (length line)) /\
    inq (term s' a) = [] /\ in_dat_nr_ret (term s' a) = 0.
Proof.
  cbn zeta. intros Hb Hok Hact Hv Hs Hn Hq Hk Hl.
  destruct (typed_line_spec s v m fd buf len keys Hb Hok Hact Hv Hs Hn Hq Hk Hl) as (m' & s' & E & E1 & E2 & E3 & E4 & _).
  by exists m', s'.
Qed.

(** Reading from a terminal that is not on the display damages both terminals' input: the
    rest of the queue is copied over the start of the active terminal's buffer, and the
    terminal read from is left with the start of its own queue instead of the rest. *)
Theorem read_from_background_corrupts_input {D} `{Machine D} (s : terminals D) m ti buf len :
  0 <= in_dat_end (term s ti) -> 0 <= len -> ti <> active_term s ->
  let t := term s ti in
  let line := line_of (Z.to_nat (Z.min (in_dat_end t) len)) (inq t) in
  let i := Z.of_nat (length line) in
  exists m' s', terminal_read_line m ti buf len s = (i, m', s') /\
    inq (term s' ti) = take (length (inq t) - length line) (inq t) /\
    forall k, 0 <= k < in_dat_end t - i ->
      (in_buf (term s' (active_term s))).[k] = nth (Z.to_nat (i + k)) (inq t) 0.
Proof.
  intros He Hl Hne. cbn zeta.
  destruct (read_line_spec m ti buf len s He Hl) as (m' & s' & E & _ & _ & _ & Hend & _ & Hbuf & Hown).
  set (line := line_of _ _) in *.
  pose proof (line_of_length (Z.to_nat (Z.min (in_dat_end (term s ti)) len)) (inq (term s ti))) as [HL _].
  fold line in HL. exists m', s'. split; [done|]. split.
  - unfold inq. rewrite Hend, Hown by done. rewrite length_cells.
    replace (Z.to_nat (in_dat_end (term s ti))) with
      (Z.to_nat (in_dat_end (term s ti) - Z.of_nat (length line)) + length line)%nat at 2 by lia.
    rewrite cells_app, take_app_length'; [done|]. rewrite length_cells. lia.
  - intros k Hk. rewrite Hbuf. decide_b. cbn [andb]. unfold inq. rewrite nth_cells by lia. f_equal. lia.
Qed.

Lemma terminal_init_spec {D} (s : terminals D) :
  active_term (terminal_init s) = 0 /\
  forall i, 0 <= i < NR_TERM -> term (terminal_init s) i = TermData (SCREEN * i) 0 0 ∅ 0 0 0 0 0.
Proof.
  unfold terminal_init. set (s0 := Terminals _ 0 _ _ _).
  pose proof (for_inv (fun k s' => active_term s' = 0 /\
    (forall i, 0 <= i < k -> term s' i = TermData (SCREEN * i) 0 0 ∅ 0 0 0 0 0) /\
    forall i, k <= i -> term s' i = term_data0) 0 NR_TERM (fun i s =>
    let t := term s i in
    set_term_data s i (TermData (SCREEN * i) (cur_x t) (cur_y t) (in_buf t) (in_dat_index t)
      (in_dat_end t) (in_dat_nr_ret t) (is_active t) (usr_count t))) s0) as Hf.
  destruct Hf as (H1 & H2 & _); [by vm_compute| | |split; [exact H1|exact H2]].
  - split_and!; [done|intros; lia|]. intros i Hi. unfold term, s0. cbn. by rewrite lookup_empty.
  - intros k s' Hk (E1 & E2 & E3). cbn zeta. rewrite (E3 k) by lia. split_and!; [done| |].
    + intros i Hi. destruct (Z.eq_dec k i) as [<-|]; [by rewrite term_set_eq|].
      rewrite term_set_ne by done. apply E2. lia.
    + intros i Hi. rewrite term_set_ne by lia. apply E3. lia.
Qed.

Lemma terminal_init_bufs {D} (s : terminals D) : bufs_ok (terminal_init s).
Proof. destruct (terminal_init_spec s) as [Ha Ht]. split; [by rewrite Ha|intros; by rewrite Ht]. Qed.

Lemma terminal_open_spec {D} `{Machine D} (s0 : terminals D) n :
  bufs_ok s0 -> 0 <= n < NR_TERM -> usr_count (term s0 n) = 0 ->
  let s' := (terminal_open n s0).2 in
  (terminal_open n s0).1 = 0 /\ bufs_ok s' /\ active_term s' = active_term s0 /\ tframe n s0 s' /\
  shows s' n (Vt (fun _ => text_cell 32) 0 0) /\ inq (term s' n) = [] /\ input_ok (term s' n) /\
  in_dat_nr_ret (term s' n) = 0 /\ is_active (term s' n) = 1.
Proof.
  intros Hb Hn Hu. cbn zeta. unfold terminal_open. rewrite Hu. cbn [Z.eqb negb fst snd].
  destruct (clear_spec s0 n Hb Hn) as (Hf & Hsh & Hi & He & Hnr & _ & _).
  set (s1 := terminal_clear n s0) in *. clearbody s1. set (b := flush_input _). clearbody b.
  set (s2 := set_term_data (set_term_data s1 n (set_input (term s1 n) b 0 0 0)) n
     (set_active (term (set_term_data s1 n (set_input (term s1 n) b 0 0 0)) n) 1)).
  assert (Ht2 : term s2 n = set_active (set_input (term s1 n) b 0 0 0) 1)
    by (unfold s2; by rewrite !term_set_eq).
  assert (Hf2 : tframe n s0 s2).
  { eapply tframe_trans; [exact Hf|]. eapply tframe_trans; apply tframe_set; [done|].
    by rewrite term_set_eq. }
  assert (Hc2 : forall k, tscreen s2 n k = tscreen s1 n k) by done.
  clearbody s2. unfold shows. rewrite Ht2. destruct Hsh as (Hx & Hy & Hc).
  split_and!; try done.
  - by eapply tframe_bufs.
  - by rewrite (tf_active _ _ _ Hf2).
  - intros k Hk. rewrite Hc2. by apply Hc.
Qed.

(** After [terminal_init], opening any of the four terminals gives it a blank screen with the
    cursor in the corner, an empty input queue, and marks it active; every terminal has its own
    back buffer and terminal 0 is on the display. *)
Theorem terminal_open_gives_blank_terminal {D} `{Machine D} (s : terminals D) n :
  0 <= n < NR_TERM ->
  let '(r, s') := terminal_open n (terminal_init s) in
  r = 0 /\ bufs_ok s' /\ active_term s' = 0 /\ tframe n (terminal_init s) s' /\
  shows s' n (Vt (fun _ => text_cell 32) 0 0) /\ inq (term s' n) = [] /\ input_ok (term s' n) /\
  in_dat_nr_ret (term s' n) = 0 /\ is_active (term s' n) = 1.
Proof.
  intros Hn. destruct (terminal_init_spec s) as [Ha Ht].
  pose proof (terminal_open_spec (terminal_init s) n (terminal_init_bufs s) Hn ltac:(by rewrite Ht)) as H1.
  rewrite Ha in H1. by destruct (terminal_open n (terminal_init s)).
Qed.

Lemma terminal_open_gives_blank_terminal_witness :
  let '(r, s') := terminal_open 2 (terminal_init (Terminals ∅ 0 ∅ ∅ sim0)) in
  r = 0 /\ active_term s' = 0 /\ inq (term s' 2) = [].
Proof.
  pose proof (terminal_open_gives_blank_terminal (Terminals ∅ 0 ∅ ∅ sim0) 2 ltac:(by vm_compute)) as H1.
  destruct (terminal_open 2 _) as [r s']. destruct H1 as (E1 & _ & E2 & _ & _ & E3 & _).
  split; [exact E1|]. split; [exact E2|exact E3].
Defined.

(** A booted terminal 0. *)
Definition sample_terms : terminals sim := (terminal_open 0 (terminal_init (Terminals ∅ 0 ∅ ∅ sim0))).2.

Definition blank_vt : vt := Vt (fun _ => text_cell 32) 0 0.

Lemma sample_terms_ok :
  bufs_ok sample_terms /\ active_term sample_terms = 0 /\ shows sample_terms 0 blank_vt /\
  inq (term sample_terms 0) = [] /\ input_ok (term sample_terms 0) /\
  in_dat_nr_ret (term sample_terms 0) = 0 /\ is_active (term sample_terms 0) = 1.
Proof.
  assert (Hn : 0 <= 0 < NR_TERM) by (by vm_compute).
  destruct (terminal_init_spec (Terminals ∅ 0 ∅ ∅ sim0)) as [Ha Ht].
  destruct (terminal_open_spec (terminal_init (Terminals ∅ 0 ∅ ∅ sim0)) 0 (terminal_init_bufs _) Hn
    ltac:(by rewrite Ht)) as (_ & ? & ? & _ & ? & ? & ? & ? & ?). by split_and!.
Qed.

#[global] Opaque sample_terms.

Lemma blank_vt_ok : vt_ok blank_vt.
Proof. by vm_compute. Qed.

Lemma sample_write_plain v :
  write_safe (bytes (st_list mem_empty 100 [72; 105; 10]) 100 (Z.to_nat 3)) v.
Proof. apply write_safe_plain. change (Z.to_nat 3) with 3%nat. vm_compute. repeat constructor; done. Qed.


Lemma terminal_switch_preserves_screens_witness :
  active_term (terminal_switch 2 sample_terms) = 2 /\ shows (terminal_switch 2 sample_terms) 0 blank_vt.
Proof.
  destruct sample_terms_ok as (Hb & _ & Hs & _).
  destruct (terminal_switch_preserves_screens sample_terms 2 Hb ltac:(by vm_compute)) as (E & _ & _ & H1 & _).
  split; [exact E|exact (H1 0 blank_vt ltac:(unfold NR_TERM; lia) Hs)].
Defined.

Lemma input_process_key_correct_witness :
  let '(r, s') := input_process_key 97 30 0 0 sample_terms in
  r = 0 /\ inq (term s' 0) = [97].
Proof.
  destruct sample_terms_ok as (Hb & Ha & Hs & Hq & Hok & _ & Hact).
  pose proof (input_process_key_correct sample_terms 97 30 0 blank_vt) as H1. cbn zeta in H1. rewrite Ha in H1.
  specialize (H1 Hb Hok ltac:(rewrite Hact; lia) blank_vt_ok Hs ltac:(by intros [? _])).
  destruct (input_process_key _ _ _ _ _) as [r s']. destruct H1 as (E & _ & H1 & _). rewrite Ha, Hq in H1.
  split; [exact E|exact H1].
Defined.

Lemma typed_line_is_read_witness :
  exists m' s', terminal_read (map press [108; 115; 10]) mem_empty 0 0 200 80 sample_terms = Some (3, m', s', []) /\
    bytes m' 200 3 = [108; 115; 10].
Proof.
  destruct sample_terms_ok as (Hb & Ha & Hs & Hq & Hok & Hn & Hact).
  pose proof (typed_line_is_read sample_terms blank_vt mem_empty 0 200 80 [108; 115]) as H1. cbn zeta in H1.
  rewrite Ha in H1.
  destruct H1 as (m' & s' & E & Hby & _); [exact Hb|exact Hok|rewrite Hact; lia|exact blank_vt_ok|exact Hs|exact Hn|exact Hq|
    repeat constructor; vm_compute; done|by vm_compute|].
  exists m', s'. split; [exact E|exact Hby].
Defined.

Lemma active_set_term {D} (s : terminals D) i t : active_term (set_term_data s i t) = active_term s.
Proof. done. Qed.

(** Terminal 1 in the background with "a", newline, "b" in its queue. *)
Definition sample_background : terminals sim :=
  set_term_data sample_terms 1
    (set_input (TermData SCREEN 0 0 ∅ 0 0 0 1 0) (arr_at 0 [97; 10; 98]) 3 3 1).

Lemma read_from_background_corrupts_input_witness :
  exists m' s', terminal_read_line mem_empty 1 200 80 sample_background = (2, m', s') /\
    inq (term s' 1) = [97] /\ (in_buf (term s' 0)).[0] = 98.
Proof.
  destruct sample_terms_ok as (_ & Ha & _).
  assert (Ea : active_term sample_background = 0)
    by (unfold sample_background; rewrite active_set_term; exact Ha).
  assert (Et : term sample_background 1 = set_input (TermData SCREEN 0 0 ∅ 0 0 0 1 0) (arr_at 0 [97; 10; 98]) 3 3 1)
    by apply term_set_eq.
  pose proof (read_from_background_corrupts_input sample_background mem_empty 1 200 80) as H1. cbn zeta in H1.
  rewrite Ea, Et in H1.
  destruct H1 as (m' & s' & E & Hq & Hk); [by vm_compute|lia|lia|].
  exists m', s'. split; [exact E|]. split; [exact Hq|]. exact (Hk 0 (conj (Z.le_refl 0) eq_refl)).
Defined.
