(* ===== verification/Keyboard.v ===== *)
(** * drivers/keyboard.c: scan codes to characters, terminal switching

    The handler either returns or, when a terminal is shown for the first time, calls
    [syscall_init_shell], which leaves for user code; [KShell] is that call, with the state in
    which it is made. *)

From S2P Require Import Prelude Mem Machine I8259 Termios.

Definition KEYBOARD_IRQ_NUM : Z := 1.

Definition KEYBOARD_PORT : Z := 0x60.

Definition KEY_CAPS_LOCK : Z := 0x3A.

Definition KEY_LSHIFT_D : Z := 0x2A.

Definition KEY_RSHIFT_D : Z := 0x36.

Definition KEY_LSHIFT_U : Z := 0xAA.

Definition KEY_RSHIFT_U : Z := 0xB6.

Definition KEY_CTRL_D : Z := 0x1D.

Definition KEY_CTRL_U : Z := 0x9D.

Definition KEY_ALT_D : Z := 0x38.

Definition KEY_ALT_U : Z := 0xB8.

Definition KEY_F1 : Z := 0x3B.

Definition KEY_F2 : Z := 0x3C.

Definition KEY_F3 : Z := 0x3D.

Definition KEY_F4 : Z := 0x3E.

(** The rows of [font_data]; the initialisers stop at code 89, the rest of a row is 0. *)
(** no modifier. *)
Definition font_plain : list Z := [
    0; 27; 49; 50; 51; 52; 53; 54; 55; 56; 57; 48; 45; 61; 8; 9; 113; 119; 101; 114; 116;
    121; 117; 105; 111; 112; 91; 93; 10; 0; 97; 115; 100; 102; 103; 104; 106; 107; 108; 59;
    39; 96; 0; 92; 122; 120; 99; 118; 98; 110; 109; 44; 46; 47; 0; 42; 0; 32; 0; 0; 0; 0; 0;
    0; 0; 0; 0; 0; 0; 0; 0; 0; 0; 0; 45; 0; 0; 0; 43; 10; 0; 0; 0; 127; 0; 0; 0; 0; 0; 0 ].

(** Shift. *)
Definition font_shift : list Z := [
    0; 27; 33; 64; 35; 36; 37; 94; 38; 42; 40; 41; 95; 43; 8; 9; 81; 87; 69; 82; 84; 89; 85;
    73; 79; 80; 123; 125; 10; 0; 65; 83; 68; 70; 71; 72; 74; 75; 76; 58; 34; 126; 0; 124;
    90; 88; 67; 86; 66; 78; 77; 60; 62; 63; 0; 42; 0; 32; 0; 0; 0; 0; 0; 0; 0; 0; 0; 0; 0;
    0; 0; 0; 0; 0; 45; 0; 0; 0; 43; 0; 0; 0; 0; 127; 0; 0; 0; 0; 0; 0 ].

(** Caps Lock. *)
Definition font_caps : list Z := [
    0; 27; 49; 50; 51; 52; 53; 54; 55; 56; 57; 48; 45; 61; 8; 9; 81; 87; 69; 82; 84; 89; 85;
    73; 79; 80; 91; 93; 10; 0; 65; 83; 68; 70; 71; 72; 74; 75; 76; 59; 39; 96; 0; 92; 90;
    88; 67; 86; 66; 78; 77; 44; 46; 47; 0; 42; 0; 32; 0; 0; 0; 0; 0; 0; 0; 0; 0; 0; 0; 0; 0;
    0; 0; 0; 45; 0; 0; 0; 43; 0; 0; 0; 0; 127; 0; 0; 0; 0; 0; 0 ].

(** Caps Lock and Shift. *)
Definition font_caps_shift : list Z := [
    0; 27; 33; 64; 35; 36; 37; 94; 38; 42; 40; 41; 95; 43; 8; 9; 113; 119; 101; 114; 116;
    121; 117; 105; 111; 112; 123; 125; 10; 0; 97; 115; 100; 102; 103; 104; 106; 107; 108;
    58; 39; 126; 0; 92; 122; 120; 99; 118; 98; 110; 109; 60; 62; 63; 0; 42; 0; 32; 0; 0; 0;
    0; 0; 0; 0; 0; 0; 0; 0; 0; 0; 0; 0; 0; 45; 0; 0; 0; 43; 0; 0; 0; 0; 127; 0; 0; 0; 0; 0;
    0 ].

Definition font_row (row : Z) : list Z :=
  if row =? 0 then font_plain else if row =? 1 then font_shift
  else if row =? 2 then font_caps else if row =? 3 then font_caps_shift else [].

(** [font_data[row][key]] in the flat array of four rows of 128. *)
Definition font_data (row key : Z) : Z :=
  let i := row * 128 + key in nth (Z.to_nat (i mod 128)) (font_row (i / 128)) 0.

(** The file's variables. *)
Record kbd := Kbd { caps_lock : Z; shift : Z; control : Z; alt : Z; shell_active : arr }.

Inductive key_outcome (S : Type) :=
  | KDone (s : S)
  | KShell (term_num : Z) (s : S).
Arguments KDone {S} s.
Arguments KShell {S} term_num s.

Section driver.
Context {D : Type} `{Machine D}.

Definition kstate : Type := kbd * terminals D.

(** Alt+F2, F3 and F4: show the terminal, and start its shell the first time. *)
Definition show_terminal (n : Z) (s : kstate) : key_outcome kstate :=
  let '(k, t) := s in
  if alt k =? 0 then KDone (k, t)
  else
    let t := terminal_switch n t in
    if negb ((shell_active k).[n] =? 1) then
      let k := Kbd (caps_lock k) (shift k) (control k) (alt k) (shell_active k).[n <- 1] in
      let t := set_dev t (send_eoi KEYBOARD_IRQ_NUM (dev t)) in
      let t := set_dev t (sti (dev t)) in
      KShell n (k, t)
    else KDone (k, t).

(** The switch on the scan code. *)
Definition key_switch (key_pressed : Z) (s : kstate) : key_outcome kstate :=
  let '(k, t) := s in
  if key_pressed =? KEY_CTRL_D then
    KDone (Kbd (caps_lock k) (shift k) (u8 (control k + 1)) (alt k) (shell_active k), t)
  else if key_pressed =? KEY_CTRL_U then
    KDone (Kbd (caps_lock k) (shift k) (u8 (control k - 1)) (alt k) (shell_active k), t)
  else if key_pressed =? KEY_ALT_D then
    KDone (Kbd (caps_lock k) (shift k) (control k) (u8 (alt k + 1)) (shell_active k), t)
  else if key_pressed =? KEY_ALT_U then
    KDone (Kbd (caps_lock k) (shift k) (control k) (u8 (alt k - 1)) (shell_active k), t)
  else if key_pressed =? KEY_F1 then
    KDone (k, if negb (alt k =? 0) then terminal_switch 0 t else t)
  else if key_pressed =? KEY_F2 then show_terminal 1 s
  else if key_pressed =? KEY_F3 then show_terminal 2 s
  else if key_pressed =? KEY_F4 then show_terminal 3 s
  else KDone s.

Definition finish (s : kstate) : kstate :=
  let '(k, t) := s in (k, set_dev t (send_eoi KEYBOARD_IRQ_NUM (dev t))).

Definition keyboard_handler (s : kstate) : key_outcome kstate :=
  let '(k, t) := s in
  let '(b, d) := inb KEYBOARD_PORT (dev t) in
  let key_pressed := u8 b in
  let t := set_dev t d in
  if key_pressed =? KEY_CAPS_LOCK then
    KDone (finish (Kbd (Z.lxor (caps_lock k) 1) (shift k) (control k) (alt k) (shell_active k), t))
  else if (key_pressed =? KEY_LSHIFT_D) || (key_pressed =? KEY_RSHIFT_D) then
    KDone (finish (Kbd (caps_lock k) (shift k + 1) (control k) (alt k) (shell_active k), t))
  else if (key_pressed =? KEY_LSHIFT_U) || (key_pressed =? KEY_RSHIFT_U) then
    KDone (finish (Kbd (caps_lock k) (shift k - 1) (control k) (alt k) (shell_active k), t))
  else
    let t := set_dev t (cli (dev t)) in
    let font :=
      if key_pressed <? 0x81
      then font_data (Z.lor (Z.shiftl (caps_lock k) 1) (b2z (0 <? shift k))) key_pressed
      else 0 in
    match key_switch key_pressed (k, t) with
    | KShell n s => KShell n s
    | KDone (k, t) =>
        let t := (input_process_key (s8 font) key_pressed (control k) (alt k) t).2 in
        let t := set_dev t (sti (dev t)) in
        KDone (finish (k, t))
    end.

Definition keyboard_init (s : kstate) : kstate :=
  let '(k, t) := s in
  let t := set_dev t (enable_irq KEYBOARD_IRQ_NUM (dev t)) in
  let a := (shell_active k).[0 <- 1] in
  let a := for_ 1 NR_TERM (fun i a => a.[i <- 0]) a in
  (Kbd (caps_lock k) (shift k) (control k) (alt k) a, t).
End driver.
Arguments kstate D : clear implicits.

(** ** Lemmas *)

Definition is_letter (c : Z) : bool := (97 <=? c) && (c <? 123).

(** Keys that the handler treats as modifiers or function keys. *)
Definition special_key (c : Z) : bool :=
  existsb (Z.eqb c) [KEY_CAPS_LOCK; KEY_LSHIFT_D; KEY_RSHIFT_D; KEY_LSHIFT_U; KEY_RSHIFT_U; KEY_CTRL_D;
    KEY_CTRL_U; KEY_ALT_D; KEY_ALT_U; KEY_F1; KEY_F2; KEY_F3; KEY_F4].

Section traces.
Context {D : Type} `{Machine D}.

Lemma special_key_false c :
  special_key c = false ->
  (c =? KEY_CAPS_LOCK) = false /\ (c =? KEY_LSHIFT_D) || (c =? KEY_RSHIFT_D) = false /\
  (c =? KEY_LSHIFT_U) || (c =? KEY_RSHIFT_U) = false /\ forall s : kstate D, key_switch c s = KDone s.
Proof.
  unfold special_key. cbn [existsb]. intros E. bool_prop.
  repeat match goal with H : (_ || _) = false |- _ => apply orb_false_iff in H as [? ?] end.
  rewrite !(proj2 (Z.eqb_neq _ _)) by done. split_and!; try done.
  intros [k t]. unfold key_switch. by rewrite !(proj2 (Z.eqb_neq _ _)) by done.
Qed.

(** Shells are started only for terminals that have none yet, and the mark stays. *)
Lemma show_terminal_shells n (s : kstate D) :
  match show_terminal n s with
  | KDone s' => shell_active s'.1 = shell_active s.1
  | KShell m s' => m = n /\ (shell_active s.1).[n] <> 1 /\ shell_active s'.1 = (shell_active s.1).[n <- 1]
  end.
Proof.
  destruct s as [k t]. unfold show_terminal. destruct (alt k =? 0); [done|].
  destruct (Z.eqb_spec ((shell_active k).[n]) 1); cbn; done.
Qed.

Lemma key_switch_shells c (s : kstate D) :
  match key_switch c s with
  | KDone s' => shell_active s'.1 = shell_active s.1
  | KShell m s' => 1 <= m < NR_TERM /\ (shell_active s.1).[m] <> 1 /\
                   shell_active s'.1 = (shell_active s.1).[m <- 1]
  end.
Proof.
  assert (Hshow : forall n, 1 <= n < NR_TERM ->
    match show_terminal n s with
    | KDone s' => shell_active s'.1 = shell_active s.1
    | KShell m s' => 1 <= m < NR_TERM /\ (shell_active s.1).[m] <> 1 /\
                     shell_active s'.1 = (shell_active s.1).[m <- 1]
    end).
  { intros n Hn. pose proof (show_terminal_shells n s) as Hs. destruct (show_terminal n s); [done|].
    by destruct Hs as (-> & ? & ?). }
  unfold key_switch. destruct s as [k t].
  destruct (c =? KEY_CTRL_D); [done|]. destruct (c =? KEY_CTRL_U); [done|].
  destruct (c =? KEY_ALT_D); [done|]. destruct (c =? KEY_ALT_U); [done|].
  destruct (c =? KEY_F1); [done|]. destruct (c =? KEY_F2); [apply Hshow; by vm_compute|].
  destruct (c =? KEY_F3); [apply Hshow; by vm_compute|].
  destruct (c =? KEY_F4); [apply Hshow; by vm_compute|done].
Qed.

Lemma keyboard_handler_shells (s : kstate D) :
  match keyboard_handler s with
  | KDone s' => shell_active s'.1 = shell_active s.1
  | KShell m s' => 1 <= m < NR_TERM /\ (shell_active s.1).[m] <> 1 /\
                   shell_active s'.1 = (shell_active s.1).[m <- 1]
  end.
Proof.
  destruct s as [k t]. unfold keyboard_handler. destruct (inb KEYBOARD_PORT (dev t)) as [b d].
  destruct (_ =? KEY_CAPS_LOCK); [done|]. destruct (_ || _); [done|]. destruct (_ || _); [done|].
  match goal with |- context [key_switch ?c ?s] => pose proof (key_switch_shells c s) as Hk;
    destruct (key_switch c s) as [[k' t']|m s'] end; [|exact Hk]. exact Hk.
Qed.

(** A run of keyboard interrupts: the terminals for which a shell was started. *)
Fixpoint shells_started (n : nat) (next : kstate D -> kstate D) (s : kstate D) : list Z :=
  match n with
  | O => []
  | S n' =>
      match keyboard_handler s with
      | KDone s' => shells_started n' next (next s')
      | KShell m s' => m :: shells_started n' next (next s')
      end
  end.

Lemma shells_started_marked next n : forall s,
  (forall s, shell_active (next s).1 = shell_active s.1) ->
  NoDup (shells_started n next s) /\
  forall m, In m (shells_started n next s) -> 1 <= m < NR_TERM /\ (shell_active s.1).[m] <> 1.
Proof.
  induction n as [|n IH]; intros s Hnext; cbn [shells_started]; [split; [constructor|done]|].
  pose proof (keyboard_handler_shells s) as Hs. destruct (keyboard_handler s) as [s'|m s'].
  - destruct (IH (next s') Hnext) as [H1 H2]. split; [done|]. intros m Hm.
    destruct (H2 m Hm) as [? H3]. by rewrite Hnext, Hs in H3.
  - destruct Hs as (Hm & Hm1 & Hs). destruct (IH (next s') Hnext) as [H1 H2].
    rewrite Hnext, Hs in H2. split.
    + constructor; [|done]. rewrite list_elem_of_In. intros Hin. destruct (H2 m Hin) as [_ H3].
      by rewrite aget_aset_eq in H3.
    + intros p [<-|Hp]; [done|]. destruct (H2 p Hp) as [? H3]. split; [done|].
      rewrite aget_aset in H3. destruct (Z.eqb_spec m p); congruence.
Qed.
End traces.

(** ** Properties *)

(** Over any run of keyboard interrupts, with anything in between that leaves the driver's
    marks alone, each of the terminals 1 to 3 has its shell started at most once, and terminal 0
    never. *)
Theorem shells_start_at_most_once {D} `{Machine D} (s : kstate D) n next :
  (forall s, shell_active (next s).1 = shell_active s.1) ->
  NoDup (shells_started n next s) /\ (forall m, In m (shells_started n next s) -> 1 <= m < NR_TERM) /\
  ~ In 0 (shells_started n next (keyboard_init s)).
Proof.
  intros Hn. destruct (shells_started_marked next n s Hn) as [H1 H2]. split; [done|].
  split; [intros m Hm; by apply H2|]. intros Hin.
  destruct (shells_started_marked next n (keyboard_init s) Hn) as [_ H3]. destruct (H3 0 Hin) as [? _]. lia.
Qed.

Lemma shells_start_at_most_once_witness :
  NoDup (shells_started 3 id (Kbd 0 0 0 1 ∅, sample_terms)).
Proof. apply (shells_start_at_most_once (Kbd 0 0 0 1 ∅, sample_terms) 3 id). intros s. reflexivity. Defined.

(** The character tables.  On every letter key Shift and Caps Lock each give the capital and
    together the small letter again; on every other key Caps Lock alone changes nothing (the End
    key, code 79, aside), and Caps Lock with Shift gives what Shift gives, except on the quote
    and backslash keys (codes 40 and 43), where the shifted character is lost. *)
Theorem caps_and_shift_tables k :
  0 <= k < 128 ->
  let p := font_data 0 k in
  (is_letter p = true -> font_data 1 k = p - 32 /\ font_data 2 k = p - 32 /\ font_data 3 k = p) /\
  (is_letter p = false -> k <> 79 -> font_data 2 k = p) /\
  (is_letter p = false -> k <> 40 -> k <> 43 -> font_data 3 k = font_data 1 k) /\
  (k = 40 \/ k = 43 -> font_data 3 k = p /\ font_data 1 k <> p).
Proof.
  intros Hk. cbn zeta.
  pose proof (check_below 128 (fun k => let p := font_data 0 k in
    (if is_letter p then (font_data 1 k =? p - 32) && (font_data 2 k =? p - 32) && (font_data 3 k =? p)
     else ((k =? 79) || (font_data 2 k =? p)) &&
          ((k =? 40) || (k =? 43) || (font_data 3 k =? font_data 1 k)))) ltac:(by vm_compute) k Hk) as H1.
  cbn beta zeta in H1. split_and!.
  - intros E. rewrite E in H1. by bool_prop.
  - intros E Hne. rewrite E in H1. bool_prop. rewrite (proj2 (Z.eqb_neq k 79)) in * by done. cbn in *. by bool_prop.
  - intros E H40 H43. rewrite E in H1. bool_prop.
    rewrite (proj2 (Z.eqb_neq k 40)), (proj2 (Z.eqb_neq k 43)) in * by done. cbn in *. by bool_prop.
  - intros [-> | ->]; by vm_compute.
Qed.

Lemma caps_and_shift_tables_witness : font_data 1 30 = 65 /\ font_data 3 30 = 97.
Proof.
  destruct (caps_and_shift_tables 30 ltac:(lia)) as [H1 _]. destruct (H1 eq_refl) as (E1 & _ & E3).
  split; [exact E1|exact E3].
Defined.

(** A key press end to end.  When the keyboard reports a code that is neither a modifier nor
    a function key, and Control is up, the handler returns with the modifiers as they were, and
    the character that the tables give for the code has been typed on the active terminal: the
    queue and the screen are what the specification gives, and no other terminal has changed. *)
Theorem keyboard_types_character {D} `{Machine D} k (t : terminals D) b d v :
  let a := active_term t in
  let c := u8 b in
  let key := if c <? 0x81 then s8 (font_data (Z.lor (Z.shiftl (caps_lock k) 1) (b2z (0 <? shift k))) c) else 0 in
  inb KEYBOARD_PORT (dev t) = (b, d) -> special_key c = false -> control k = 0 ->
  bufs_ok t -> input_ok (term t a) -> is_active (term t a) <> 0 -> vt_ok v -> shows t a v ->
  ~ (key = KEY_BACKSPACE /\ vx v = 0 /\ vy v = 0) ->
  exists t' n, keyboard_handler (k, t) = KDone (k, t') /\
    typed t t' (type_key key (inq (term t a))) n
      (vt_key (key_echoed key (inq (term t a))) c 0 (alt k) v).
Proof.
  cbn zeta. intros Hi Hsp Hc Hb Hok Hact Hv Hs Hsafe. unfold keyboard_handler. rewrite Hi.
  destruct (special_key_false (u8 b) Hsp) as (-> & -> & -> & Hsw). rewrite Hsw, Hc.
  set (t1 := set_dev (set_dev t d) _).
  set (font := if u8 b <? 0x81 then font_data _ _ else 0).
  assert (Ef : s8 font = if u8 b <? 0x81 then
    s8 (font_data (Z.lor (Z.shiftl (caps_lock k) 1) (b2z (0 <? shift k))) (u8 b)) else 0)
    by (unfold font; by destruct (u8 b <? 0x81)).
  rewrite Ef. clearbody font. set (key := if u8 b <? 0x81 then _ else 0) in *. clearbody key.
  pose proof (input_process_key_spec key (u8 b) (alt k) t1 v Hb Hok Hact Hv Hs Hsafe) as H1.
  destruct (input_process_key key (u8 b) 0 (alt k) t1) as [r t2]. cbn [snd finish].
  destruct H1 as (_ & Hf & Hq & Hok2 & Hn & Hact2 & Hs2).
  eexists _, _. split; [reflexivity|]. split_and!; try done.
  destruct Hf as [F1 F2 F3 F4 F5 F6]. split; done.
Qed.

(** Terminal 0 of a machine whose keyboard port reads 0. *)
Definition sample_kbd_terms : terminals sim :=
  Terminals (term_data_array sample_terms) (active_term sample_terms) (screen_buffers sample_terms)
    (video sample_terms) sim0.

Lemma keyboard_types_character_witness :
  exists t' n, keyboard_handler (Kbd 0 0 0 0 ∅, sample_kbd_terms) = KDone (Kbd 0 0 0 0 ∅, t') /\
    typed sample_kbd_terms t' (type_key 0 []) n (vt_key (key_echoed 0 []) 0 0 0 blank_vt).
Proof.
  destruct sample_terms_ok as (Hb & Ha & Hs & Hq & Hok & _ & Hact).
  assert (Ea : active_term sample_kbd_terms = 0) by exact Ha.
  pose proof (keyboard_types_character (Kbd 0 0 0 0 ∅) sample_kbd_terms 0 sim0 blank_vt) as H1.
  cbn zeta in H1. rewrite Ea in H1. rewrite (Hq : inq (term sample_kbd_terms 0) = []) in H1.
  apply H1; [reflexivity|reflexivity|reflexivity|exact Hb|exact Hok| |exact blank_vt_ok|exact Hs|by intros [? _]].
  rewrite (Hact : is_active (term sample_kbd_terms 0) = 1). lia.
Defined.
