(* ===== verification/Kernel.v ===== *)
(** * The state of the running kernel

    The static variables of the kernel's files, the control blocks (by address), the task state
    segment, the stack registers and memory.  The program window of an address space is the 4 MB
    frame of the process whose directory CR3 holds (Paging.v), so memory is the kernel part and
    one map per process. *)

From S2P Require Import Prelude Mem Machine Tasks Pcb Fs Paging Termios.

Definition KERNEL_DS : Z := 0x18.

Record tss := Tss { ss0 : Z; esp0 : Z }.

Record cpu := Cpu { esp : Z; ebp : Z }.

Record kernel (D : Type) := Kernel {
  k_km : arr;
  k_frames : gmap Z arr;
  k_paging : paging;
  k_pid_usage : arr;
  k_sched : arr;
  k_pcbs : gmap Z pcb;
  k_terms : terminals D;
  k_fs : fs;
  k_rtc_flag : Z;
  k_tss : tss;
  k_cpu : cpu
}.
Arguments Kernel {D} _ _ _ _ _ _ _ _ _ _ _.
Arguments k_km {D} _.
Arguments k_frames {D} _.
Arguments k_paging {D} _.
Arguments k_pid_usage {D} _.
Arguments k_sched {D} _.
Arguments k_pcbs {D} _.
Arguments k_terms {D} _.
Arguments k_fs {D} _.
Arguments k_rtc_flag {D} _.
Arguments k_tss {D} _.
Arguments k_cpu {D} _.

Section state.
Context {D : Type} `{Layout}.
Implicit Types k : kernel D.

Definition with_paging k p : kernel D :=
  Kernel (k_km k) (k_frames k) p (k_pid_usage k) (k_sched k) (k_pcbs k) (k_terms k) (k_fs k)
    (k_rtc_flag k) (k_tss k) (k_cpu k).

Definition with_pid_usage k u : kernel D :=
  Kernel (k_km k) (k_frames k) (k_paging k) u (k_sched k) (k_pcbs k) (k_terms k) (k_fs k)
    (k_rtc_flag k) (k_tss k) (k_cpu k).

Definition with_sched k s : kernel D :=
  Kernel (k_km k) (k_frames k) (k_paging k) (k_pid_usage k) s (k_pcbs k) (k_terms k) (k_fs k)
    (k_rtc_flag k) (k_tss k) (k_cpu k).

Definition with_pcbs k p : kernel D :=
  Kernel (k_km k) (k_frames k) (k_paging k) (k_pid_usage k) (k_sched k) p (k_terms k) (k_fs k)
    (k_rtc_flag k) (k_tss k) (k_cpu k).

Definition with_terms k t : kernel D :=
  Kernel (k_km k) (k_frames k) (k_paging k) (k_pid_usage k) (k_sched k) (k_pcbs k) t (k_fs k)
    (k_rtc_flag k) (k_tss k) (k_cpu k).

Definition with_rtc k f (d : D) : kernel D :=
  Kernel (k_km k) (k_frames k) (k_paging k) (k_pid_usage k) (k_sched k) (k_pcbs k)
    (set_dev (k_terms k) d) (k_fs k) f (k_tss k) (k_cpu k).

Definition with_tss k t : kernel D :=
  Kernel (k_km k) (k_frames k) (k_paging k) (k_pid_usage k) (k_sched k) (k_pcbs k) (k_terms k) (k_fs k)
    (k_rtc_flag k) t (k_cpu k).

Definition with_cpu k c : kernel D :=
  Kernel (k_km k) (k_frames k) (k_paging k) (k_pid_usage k) (k_sched k) (k_pcbs k) (k_terms k) (k_fs k)
    (k_rtc_flag k) (k_tss k) c.

(** The process whose address space is loaded. *)
Definition cur_space k : Z := (cr3 (k_paging k) - pd_loc) / 4096.

(** Memory as the loaded address space sees it. *)
Definition k_mem k : mem := Mem (k_km k) (default ∅ (k_frames k !! cur_space k)).

Definition with_mem k (m : mem) : kernel D :=
  Kernel (km m) (<[cur_space k := um m]> (k_frames k)) (k_paging k) (k_pid_usage k) (k_sched k) (k_pcbs k)
    (k_terms k) (k_fs k) (k_rtc_flag k) (k_tss k) (k_cpu k).

Definition pcb0 : pcb := Pcb ∅ 0 0 0 0 0 ∅ 0 0 0 0 0.

(** The control block at an address. *)
Definition pcb_at k (a : Z) : pcb := default pcb0 (k_pcbs k !! a).

Definition set_pcb k (a : Z) (p : pcb) : kernel D := with_pcbs k (<[a := p]> (k_pcbs k)).

(** [pcb_process()]: the block of the process on whose kernel stack the processor runs. *)
Definition curr k : Z := pcb_process (esp (k_cpu k)).

Lemma pcb_at_set_eq k a p : pcb_at (set_pcb k a p) a = p.
Proof. unfold pcb_at, set_pcb. cbn. by rewrite lookup_insert_eq. Qed.

Lemma pcb_at_set_ne k a p b : a <> b -> pcb_at (set_pcb k a p) b = pcb_at k b.
Proof. intros. unfold pcb_at, set_pcb. cbn. by rewrite lookup_insert_ne. Qed.

Lemma ld_with_mem k m x : ld (k_mem (with_mem k m)) x = ld m x.
Proof.
  unfold k_mem, with_mem, cur_space, ld. cbn. rewrite lookup_insert_eq. cbn. by destruct (in_user x).
Qed.

(** An operation in one address space does not touch the frames of the others. *)
Lemma frames_with_mem k m q : q <> cur_space k -> k_frames (with_mem k m) !! q = k_frames k !! q.
Proof. intros. cbn. by rewrite lookup_insert_ne. Qed.
End state.

(** Registers in a control block. *)
Definition set_regs (p : pcb) (esp ebp : Z) : pcb :=
  Pcb (elements p) (parent_pcb p) (child p) esp ebp (pid p) (args p) (vidmap p) (Pcb.term p)
    (rtc_fd p) (rtc p) (rtc_rate p).
