(* ===== verification/Scheduling.v ===== *)
(** * kernel/scheduling.c: round-robin scheduling and the context switch *)

From S2P Require Import Prelude Mem LibString Console Machine Tasks Pcb Fs Paging Termios Kernel.

(** The loop runs to [MAX_PID] inclusive, one past the end of [sched]. *)
Definition scheduling_init (sched : arr) (c : console) : arr * console :=
  (for_ 0 (MAX_PID + 1) (fun i sched => sched.[i <- 0]) sched, printk "Enabled Scheduling
" [] c).

Definition schedule_task (pid : Z) (sched : arr) : arr := sched.[u16 pid <- 1].

Definition unschedule_task (pid : Z) (sched : arr) : arr := sched.[u16 pid <- 0].

(** The second loop of [scheduler_tick], from [i]: the first scheduled task, or the current one
    when the scan comes back to it.  Sixteen rounds visit every task. *)
Fixpoint sched_scan (fuel : nat) (sched : arr) (cpid i : Z) : option Z :=
  match fuel with
  | O => None
  | S f =>
      if i =? cpid then Some cpid
      else if sched.[i] =? 1 then Some i
      else sched_scan f sched cpid ((i + 1) mod MAX_PID)
  end.

(** The task that [scheduler_tick] picks; [None] when no task is scheduled. *)
Definition next_task (sched : arr) (cpid : Z) : option Z :=
  match find_ 0 MAX_PID (fun i => sched.[i] =? 1) with
  | None => None
  | Some _ => sched_scan (Z.to_nat MAX_PID) sched cpid ((cpid + 1) mod MAX_PID)
  end.

Section tick.
Context {D : Type} `{Machine D} `{Layout}.

(** [screen_loc] is the address of the terminals' back buffers. *)
Definition scheduler_tick (screen_loc : Z) (k : kernel D) : kernel D :=
  let context := curr k in
  match next_task (k_sched k) (u16 (pid (pcb_at k context))) with
  | None => k
  | Some next_pid =>
      let next_context := get_pcb (s16 next_pid) in
      let k := set_pcb k context (set_regs (pcb_at k context) (esp (k_cpu k)) (ebp (k_cpu k))) in
      let k := with_tss k (Tss KERNEL_DS (KERNEL_STACK next_pid)) in
      let k := with_paging k (paging_update_control next_pid (k_paging k)).2 in
      let p := pcb_at k next_context in
      let k :=
        if vidmap p =? 1 then
          with_paging k
            (update_video_paging (pid p)
               (if is_active_term (k_terms k) (Pcb.term p) =? 0
                then term_data_ptr screen_loc (k_terms k) (Pcb.term p) else 0xB8000)
               (k_paging k))
        else k in
      with_cpu k (Cpu (esp_reg (pcb_at k next_context)) (ebp_reg (pcb_at k next_context)))
  end.
End tick.

(** ** Lemmas: the choice of the next task *)

Definition scheduled (sched : arr) (p : Z) : Prop := 0 <= p < MAX_PID /\ sched.[p] = 1.

(** How far [q] is after [p] in the cyclic order, from 1 (the next) to 16 ([p] itself). *)
Definition distance (p q : Z) : Z := (q - p - 1) mod MAX_PID + 1.

Lemma sched_scan_spec sched cpid f : forall d,
  0 <= cpid < MAX_PID -> 1 <= d <= MAX_PID -> d + Z.of_nat f = MAX_PID + 1 ->
  (forall e, 1 <= e < d -> sched.[(cpid + e) mod MAX_PID] <> 1) ->
  exists e, d <= e <= MAX_PID /\ sched_scan f sched cpid ((cpid + d) mod MAX_PID) = Some ((cpid + e) mod MAX_PID) /\
    (forall e', 1 <= e' < e -> sched.[(cpid + e') mod MAX_PID] <> 1) /\
    (e = MAX_PID \/ sched.[(cpid + e) mod MAX_PID] = 1).
Proof.
  induction f as [|f IH]; intros d Hc Hd Hf Hno; unfold MAX_PID in *; [lia|]. cbn [sched_scan].
  destruct (Z.eqb_spec ((cpid + d) mod 16) cpid) as [E|E].
  - assert (d = 16) as -> by (Z.div_mod_to_equations; lia). exists 16. split; [lia|].
    rewrite E. split; [done|]. split; [done|by left].
  - assert (d <> 16) by (intros ->; apply E; Z.div_mod_to_equations; lia).
    destruct (Z.eqb_spec (sched.[(cpid + d) mod 16]) 1) as [Es|Es].
    + exists d. split; [lia|]. split; [done|]. split; [done|by right].
    + unfold MAX_PID. replace (((cpid + d) mod 16 + 1) mod 16) with ((cpid + (d + 1)) mod 16)
        by (Z.div_mod_to_equations; lia).
      destruct (IH (d + 1) Hc ltac:(lia) ltac:(lia)) as (e & He & Hs & Hn & Hl).
      { intros e He. destruct (Z.eq_dec e d) as [->|]; [done|]. apply Hno. lia. }
      exists e. split; [lia|done].
Qed.

Lemma distance_add p d : 0 <= p < MAX_PID -> 1 <= d <= MAX_PID -> distance p ((p + d) mod MAX_PID) = d.
Proof. unfold distance, MAX_PID. intros. Z.div_mod_to_equations. lia. Qed.

Lemma distance_spec p q :
  0 <= p < MAX_PID -> 0 <= q < MAX_PID -> 1 <= distance p q <= MAX_PID /\ (p + distance p q) mod MAX_PID = q.
Proof. unfold distance, MAX_PID. intros. Z.div_mod_to_equations. lia. Qed.

(** The next task is the nearest scheduled one. *)
Lemma next_task_spec sched p :
  0 <= p < MAX_PID ->
  match next_task sched p with
  | None => forall q, ~ scheduled sched q
  | Some q => scheduled sched q /\ forall r, scheduled sched r -> distance p q <= distance p r
  end.
Proof.
  intros Hp. unfold next_task. destruct (find_ _ _ _) as [i|] eqn:E.
  - apply find_Some in E as (Hi & Hs & _). apply Z.eqb_eq in Hs.
    destruct (sched_scan_spec sched p (Z.to_nat MAX_PID) 1 Hp) as (e & He & -> & Hno & Hl);
      [unfold MAX_PID; lia|unfold MAX_PID; lia|intros; lia|].
    assert (Hrange : 0 <= (p + e) mod MAX_PID < MAX_PID) by (apply Z.mod_pos_bound; by vm_compute).
    assert (Hnear : forall r, scheduled sched r -> e <= distance p r).
    { intros r [Hr Hr1]. destruct (distance_spec p r Hp Hr) as [Hd Hq].
      destruct (Z.le_gt_cases e (distance p r)); [done|]. exfalso.
      apply (Hno (distance p r)); [lia|]. by rewrite Hq. }
    rewrite distance_add by (done || lia). split; [|done]. split; [done|].
    destruct Hl as [->|Hl]; [|done].
    destruct (distance_spec p i Hp Hi) as [Hd Hq]. specialize (Hnear i (conj Hi Hs)).
    assert (Ed : distance p i = MAX_PID) by lia. rewrite Ed in Hq. by rewrite Hq.
  - intros q [Hq Hs]. pose proof (find_None _ _ _ E q Hq) as Hf. cbn in Hf. apply Z.eqb_neq in Hf. done.
Qed.

(** The tasks that run after [p], while the set of scheduled tasks stays the same. *)
Fixpoint runs (n : nat) (sched : arr) (p : Z) : list Z :=
  match n with
  | O => []
  | S n' => match next_task sched p with None => [] | Some q => q :: runs n' sched q end
  end.

Lemma runs_reach sched n : forall p q,
  0 <= p < MAX_PID -> scheduled sched q -> distance p q <= Z.of_nat n -> In q (runs n sched p).
Proof.
  induction n as [|n IH]; intros p q Hp Hq Hd; pose proof (distance_spec p q Hp (proj1 Hq)) as [Hd1 _]; [lia|].
  cbn [runs]. pose proof (next_task_spec sched p Hp) as Hn. destruct (next_task sched p) as [r|].
  - destruct Hn as [Hr Hmin]. destruct (Z.eq_dec r q) as [->|Hne]; [by left|]. right.
    apply IH; [apply Hr|done|]. specialize (Hmin q Hq). destruct Hr as [Hr _], Hq as [Hq _].
    unfold distance, MAX_PID in *. Z.div_mod_to_equations. lia.
  - by destruct (Hn q).
Qed.

(** ** Properties *)

(** C17: Round-robin scheduling.  The task [scheduler_tick] picks is always a scheduled one, and
    the nearest after the current task in cyclic order; there is none only when no task is
    scheduled; and while the set of scheduled tasks does not change, every scheduled task runs
    within sixteen ticks. *)
Theorem scheduler_is_fair_round_robin sched p :
  0 <= p < MAX_PID ->
  match next_task sched p with
  | None => forall q, ~ scheduled sched q
  | Some q => scheduled sched q /\ forall r, scheduled sched r -> distance p q <= distance p r
  end /\
  (forall q, scheduled sched q -> In q (runs 16 sched p)).
Proof.
  intros Hp. split; [by apply next_task_spec|]. intros q Hq. apply runs_reach; [done|done|].
  destruct (distance_spec p q Hp (proj1 Hq)) as [Hd _]. unfold MAX_PID in Hd. lia.
Qed.

Lemma scheduler_is_fair_round_robin_witness :
  next_task (arr_at 0 [0; 1; 0; 1; 1]) 4 = Some 1 /\ In 3 (runs 16 (arr_at 0 [0; 1; 0; 1; 1]) 4).
Proof.
  split; [by vm_compute|].
  apply (scheduler_is_fair_round_robin (arr_at 0 [0; 1; 0; 1; 1]) 4); [by vm_compute|].
  split; by vm_compute.
Defined.

(** ** The context switch *)

Section switch.
Context {D : Type} `{Machine D} `{LayoutLaws}.
Implicit Types k : kernel D.

Definition on_stack (p a : Z) : Prop := get_pcb p <= a < get_pcb p + KERNEL_STACK_SIZE.

(** The processor runs on the kernel stack of [p], whose block carries its identifier. *)
Definition runs_as k (p : Z) : Prop :=
  0 <= p < MAX_PID /\ on_stack p (esp (k_cpu k)) /\ pid (pcb_at k (get_pcb p)) = p.

(** Process [q] can be resumed: its block carries its identifier, its saved stack pointer is on
    its own stack. *)
Definition resumable k (q : Z) : Prop :=
  pid (pcb_at k (get_pcb q)) = q /\ on_stack q (esp_reg (pcb_at k (get_pcb q))).

(** Every scheduled task but the running one can be resumed. *)
Definition sched_ok k (p : Z) : Prop :=
  forall q, scheduled (k_sched k) q -> q <> p -> resumable k q.

Lemma runs_as_curr k p : runs_as k p -> curr k = get_pcb p.
Proof. intros (Hp & Hs & _). by apply pcb_process_stack. Qed.

(** What a tick does when [p] runs and [q] is next. *)
Record switched (k k' : kernel D) (p q : Z) : Prop := {
  sw_cpu : k_cpu k' = Cpu (esp_reg (pcb_at k' (get_pcb q))) (ebp_reg (pcb_at k' (get_pcb q)));
  sw_saved : pcb_at k' (get_pcb p) = set_regs (pcb_at k (get_pcb p)) (esp (k_cpu k)) (ebp (k_cpu k));
  sw_other : forall a, a <> get_pcb p -> pcb_at k' a = pcb_at k a;
  sw_tss : k_tss k' = Tss KERNEL_DS (KERNEL_STACK q);
  sw_cr3 : cr3 (k_paging k') = dir_addr q;
  sw_rest : k_km k' = k_km k /\ k_frames k' = k_frames k /\ k_pid_usage k' = k_pid_usage k /\
            k_sched k' = k_sched k /\ k_terms k' = k_terms k /\ k_fs k' = k_fs k
}.

Lemma scheduler_tick_spec loc k p q :
  runs_as k p -> next_task (k_sched k) p = Some q -> 0 <= q < MAX_PID -> pid (pcb_at k (get_pcb q)) = q ->
  switched k (scheduler_tick loc k) p q.
Proof.
  intros Hr Hn Hq Hpq. pose proof (runs_as_curr k p Hr) as Hc. destruct Hr as (Hp & _ & Hpid).
  unfold scheduler_tick. rewrite Hc, Hpid.
  assert (E16 : u16 p = p) by (apply u16_small; unfold MAX_PID in *; lia). rewrite E16, Hn.
  assert (Es : s16 q = q) by (unfold s16, MAX_PID in *; rewrite Z.mod_small; lia). rewrite Es.
  unfold paging_update_control. rewrite (proj2 (Z.leb_gt _ _)), (proj2 (Z.ltb_ge _ _)) by lia. cbn [orb snd].
  set (k1 := set_pcb k (get_pcb p) _).
  assert (Hsv : pcb_at k1 (get_pcb p) = set_regs (pcb_at k (get_pcb p)) (esp (k_cpu k)) (ebp (k_cpu k)))
    by apply pcb_at_set_eq.
  assert (Hot : forall a, a <> get_pcb p -> pcb_at k1 a = pcb_at k a)
    by (intros; by apply pcb_at_set_ne).
  assert (Hq1 : pid (pcb_at k1 (get_pcb q)) = q).
  { destruct (Z.eq_dec q p) as [->|]; [by rewrite Hsv|].
    rewrite Hot; [done|]. intros E. apply get_pcb_inj in E; done. }
  change (pcb_at (with_paging _ _) (get_pcb q)) with (pcb_at k1 (get_pcb q)).
  destruct (vidmap _ =? 1).
  - rewrite Hq1. split; try done. cbn [k_paging with_cpu with_paging update_video_paging].
    by apply reload_cr3_inv.
  - split; try done. by apply reload_cr3_inv.
Qed.
End switch.

(** C11: The context switch.  With the processor on the stack of [p], every scheduled task
    resumable, a tick stops [p] with its registers saved in its block and resumes the next
    scheduled task [q]: the processor is on the stack of [q] with the registers [q] was stopped
    with, CR3 holds its directory and the task state segment its kernel stack; no other block,
    no memory, terminal or schedule changes; and the resulting state again satisfies the
    conditions, with [q] running. *)
Theorem scheduler_tick_switches_context {D} `{Machine D} `{LayoutLaws} loc (k : kernel D) p q :
  runs_as k p -> sched_ok k p -> next_task (k_sched k) p = Some q ->
  let k' := scheduler_tick loc k in
  switched k k' p q /\ runs_as k' q /\ sched_ok k' q /\
  (q = p -> k_cpu k' = k_cpu k) /\
  (q <> p -> k_cpu k' = Cpu (esp_reg (pcb_at k (get_pcb q))) (ebp_reg (pcb_at k (get_pcb q)))).
Proof.
  intros Hr Hok Hn. cbn zeta. pose proof Hr as (Hp & Hst & Hpid).
  pose proof (next_task_spec (k_sched k) p Hp) as Hs. rewrite Hn in Hs. destruct Hs as [[Hq Hsq] _].
  assert (Hpq : pid (pcb_at k (get_pcb q)) = q).
  { destruct (Z.eq_dec q p) as [->|]; [done|]. by apply Hok. }
  pose proof (scheduler_tick_spec loc k p q Hr Hn Hq Hpq) as Hsw.
  set (k' := scheduler_tick loc k) in *. clearbody k'. destruct Hsw as [Hcpu Hsv Hot Ht Hc3 Hrest].
  pose proof Hrest as (_ & _ & _ & Hsch & _).
  assert (Hne : forall r, 0 <= r < MAX_PID -> r <> p -> pcb_at k' (get_pcb r) = pcb_at k (get_pcb r)).
  { intros r Hr' Hrp. apply Hot. intros E. apply get_pcb_inj in E; done. }
  split; [done|]. split; [|split; [|split]].
  - split; [done|]. destruct (Z.eq_dec q p) as [->|Hqp].
    + rewrite Hcpu, Hsv. by split.
    + rewrite Hcpu, Hne by done. cbn. split; [|done]. by apply Hok.
  - intros r Hr' Hrq. rewrite Hsch in Hr'. destruct (Z.eq_dec r p) as [->|Hrp].
    + split; rewrite Hsv; done.
    + unfold resumable. rewrite Hne by (done || apply Hr'). by apply Hok.
  - intros ->. rewrite Hcpu, Hsv. cbn. by destruct (k_cpu k).
  - intros Hqp. by rewrite Hcpu, Hne.
Qed.

(** A process that is switched away from and later switched back to continues with exactly
    the registers it was stopped with, whatever ran in between, as long as its control block is
    the one the switch left. *)
Theorem context_switch_round_trip {D} `{Machine D} `{LayoutLaws} loc (k k2 : kernel D) p q r :
  runs_as k p -> sched_ok k p -> next_task (k_sched k) p = Some q ->
  runs_as k2 r -> sched_ok k2 r -> r <> p -> next_task (k_sched k2) r = Some p ->
  pcb_at k2 (get_pcb p) = pcb_at (scheduler_tick loc k) (get_pcb p) ->
  k_cpu (scheduler_tick loc k2) = k_cpu k /\ cr3 (k_paging (scheduler_tick loc k2)) = dir_addr p.
Proof.
  intros Hr Hok Hn Hr2 Hok2 Hrp Hn2 Hsame. pose proof Hr as (Hp & _ & Hpid).
  pose proof (next_task_spec (k_sched k) p Hp) as Hs. rewrite Hn in Hs. destruct Hs as [[Hq Hsq] _].
  assert (Hpq : pid (pcb_at k (get_pcb q)) = q)
    by (destruct (Z.eq_dec q p) as [->|]; [done|by apply Hok]).
  pose proof (scheduler_tick_spec loc k p q Hr Hn Hq Hpq) as [_ Hsv _ _ _ _].
  rewrite Hsv in Hsame.
  assert (Hpid2 : pid (pcb_at k2 (get_pcb p)) = p) by (by rewrite Hsame).
  pose proof (scheduler_tick_spec loc k2 r p Hr2 Hn2 Hp Hpid2) as [Hcpu _ Hot _ Hc3 _].
  split; [|done]. rewrite Hcpu, Hot, Hsame by (intros E; apply get_pcb_inj in E; [congruence|done|apply Hr2]).
  cbn. by destruct (k_cpu k).
Qed.

(** Two shells, 1 running and 2 stopped. *)
Definition sample_kernel : kernel sim :=
  Kernel ∅ ∅ (paging_init (paging_boot 1 0 0)) (arr_at 0 [0; 1; 1]) (arr_at 0 [0; 1; 1])
    (<[get_pcb 1 := set_regs (Pcb ∅ 0 0 0 0 1 ∅ 0 0 0 0 0) 0 0]>
       (<[get_pcb 2 := Pcb ∅ 0 0 (KERNEL_STACK 2 - 64) (KERNEL_STACK 2 - 32) 2 ∅ 0 1 0 0 0]> ∅))
    sample_terms (Fs 0 0 0 0) 0 (Tss 0 0) (Cpu (KERNEL_STACK 1 - 100) (KERNEL_STACK 1 - 80)).

Lemma sample_kernel_ok : runs_as sample_kernel 1 /\ sched_ok sample_kernel 1.
Proof.
  split; [by vm_compute|]. intros q [Hq Hs] Hne.
  assert (q = 2) as ->.
  { unfold MAX_PID in Hq. destruct (Z.eq_dec q 2); [done|]. exfalso.
    assert (q = 0 \/ q = 3 \/ q = 4 \/ q = 5 \/ q = 6 \/ q = 7 \/ q = 8 \/ q = 9 \/ q = 10 \/ q = 11
      \/ q = 12 \/ q = 13 \/ q = 14 \/ q = 15) as Hcase by lia.
    repeat (destruct Hcase as [-> | Hcase]; [by vm_compute in Hs|]). subst q. by vm_compute in Hs. }
  by vm_compute.
Qed.

Lemma scheduler_tick_switches_context_witness :
  k_cpu (scheduler_tick 0x450000 sample_kernel) = Cpu (KERNEL_STACK 2 - 64) (KERNEL_STACK 2 - 32) /\
  runs_as (scheduler_tick 0x450000 sample_kernel) 2.
Proof.
  destruct sample_kernel_ok as [H1 H2].
  destruct (scheduler_tick_switches_context 0x450000 sample_kernel 1 2 H1 H2 ltac:(by vm_compute)) as (_ & H3 & _ & _ & H4).
  split; [rewrite H4 by lia; by vm_compute|exact H3].
Defined.

Lemma context_switch_round_trip_witness :
  k_cpu (scheduler_tick 0x450000 (scheduler_tick 0x450000 sample_kernel)) = k_cpu sample_kernel.
Proof.
  destruct sample_kernel_ok as [H1 H2].
  assert (Hr : runs_as (scheduler_tick 0x450000 sample_kernel) 2) by (by vm_compute).
  assert (Hok : sched_ok (scheduler_tick 0x450000 sample_kernel) 2).
  { intros q Hq Hne. destruct (Z.eq_dec q 1) as [->|]; [by vm_compute|].
    exfalso. destruct Hq as [Hq Hs]. apply Hne. apply Z.eqb_eq.
    assert (Hall : forall q, 0 <= q < 16 -> ((k_sched (scheduler_tick 0x450000 sample_kernel)).[q] =? 1) = (q =? 1) || (q =? 2)).
    { intros x Hx. pose proof (check_below 16 (fun q => Bool.eqb ((k_sched (scheduler_tick 0x450000 sample_kernel)).[q] =? 1)
        ((q =? 1) || (q =? 2))) ltac:(by vm_compute) x Hx) as Hb. by apply Bool.eqb_prop in Hb. }
    specialize (Hall q Hq). rewrite Hs in Hall. cbn in Hall. by destruct (Z.eqb_spec q 1), (Z.eqb_spec q 2). }
  apply (context_switch_round_trip 0x450000 sample_kernel (scheduler_tick 0x450000 sample_kernel) 1 2 2 H1 H2);
    [by vm_compute|exact Hr|exact Hok|lia|by vm_compute|reflexivity].
Defined.
