(* ===== verification/Syscall.v ===== *)
(** * kernel/syscall.c: the system calls

    Local variables whose address is taken, uninitialised pointers and the stale argument of a
    call without arguments are addresses of the caller's stack frame ([frame]).  A call that
    waits takes the interrupts that arrive meanwhile from [env]; [None] means that it is still
    waiting, or that it has jumped through a bad pointer. *)

From S2P Require Import Prelude Mem LibString Console Machine I8259 Rtc Tasks Pcb Fs Paging Termios Kernel Scheduling.

Definition BUFFER_LENGTH : Z := 32.

Definition FD_MIN : Z := 0.

Definition NEGATIVE_1 : Z := 0xFFFF.

Definition VIDEO_MEM_LOC : Z := 0x80000000 - 0x400000 + (0xB8 * 0x1000).

(** Addresses in the stack frame (see the header). *)
Record frame := Frame {
  f_fname : Z;      (* fname[32] of execute *)
  f_fargs : Z;      (* fargs[128] of execute *)
  f_dentry : Z;     (* dentry of execute and of the file functions *)
  f_ldentry : Z;    (* dentry of loader *)
  f_entry : Z;      (* entry_point[4] of loader *)
  f_magic : Z;      (* magic_buf[4] of executable_check *)
  f_stale : Z;      (* what the stack holds where file_open expects its argument *)
  f_rtc_name : Z;   (* the string literal rtc *)
  f_wild_pcb : Z;   (* the uninitialised pcb pointer of file_close *)
  f_wild_term : Z;  (* the terminal that terminal_close's uninitialised pointer hits *)
  f_command : Z     (* command[] of init_shell *)
}.

Record env := Env { e_rtc : list bool; e_keys : list (option (Z * Z * Z * Z)) }.

(** How a call ends: it returns a value, or it leaves for user mode at an entry point. *)
Inductive sys_result (D : Type) :=
  | SRet (r : Z) (k : kernel D)
  | SUser (eip : Z) (k : kernel D).
Arguments SRet {D} r k.
Arguments SUser {D} eip k.

(** ** Fields of a control block *)

Definition set_rtc_fd (p : pcb) (v : Z) : pcb :=
  Pcb (elements p) (parent_pcb p) (child p) (esp_reg p) (ebp_reg p) (pid p) (args p) (vidmap p)
    (Pcb.term p) v (rtc p) (rtc_rate p).

Definition set_rtc_rate (p : pcb) (v : Z) : pcb :=
  Pcb (elements p) (parent_pcb p) (child p) (esp_reg p) (ebp_reg p) (pid p) (args p) (vidmap p)
    (Pcb.term p) (rtc_fd p) (rtc p) v.

Definition set_vidmap (p : pcb) (v : Z) : pcb :=
  Pcb (elements p) (parent_pcb p) (child p) (esp_reg p) (ebp_reg p) (pid p) (args p) v (Pcb.term p)
    (rtc_fd p) (rtc p) (rtc_rate p).

Definition set_child (p : pcb) (v : Z) : pcb :=
  Pcb (elements p) (parent_pcb p) v (esp_reg p) (ebp_reg p) (pid p) (args p) (vidmap p) (Pcb.term p)
    (rtc_fd p) (rtc p) (rtc_rate p).

(** [newPCB->pid], [->esp_reg], [->term], [->parent_pcb]. *)
Definition set_process (p : pcb) (id esp_ term_ parent : Z) : pcb :=
  Pcb (elements p) parent (child p) esp_ (ebp_reg p) id (args p) (vidmap p) term_ (rtc_fd p) (rtc p)
    (rtc_rate p).

Definition set_args (p : pcb) (a : arr) : pcb :=
  Pcb (elements p) (parent_pcb p) (child p) (esp_reg p) (ebp_reg p) (pid p) a (vidmap p) (Pcb.term p)
    (rtc_fd p) (rtc p) (rtc_rate p).

(** Byte [i] from [&p->args[0]]: the array of 100 bytes and the packed fields that follow it. *)
Definition args_store (p : pcb) (i v : Z) : pcb :=
  if i <? 100 then set_args p (args p).[i <- u8 v]
  else if i =? 100 then set_vidmap p (u8 v)
  else if i <? 105 then Pcb (elements p) (parent_pcb p) (child p) (esp_reg p) (ebp_reg p) (pid p) (args p)
    (vidmap p) (s32 (setf (8 * (i - 101)) 8 v (u32 (Pcb.term p)))) (rtc_fd p) (rtc p) (rtc_rate p)
  else if i =? 105 then set_rtc_fd p (u8 v)
  else if i =? 106 then set_rtc p (u8 v)
  else if i <? 111 then set_rtc_rate p (s32 (setf (8 * (i - 107)) 8 v (u32 (rtc_rate p))))
  else p.

Definition args_load (p : pcb) (i : Z) : Z :=
  if i <? 100 then u8 ((args p).[i])
  else if i =? 100 then u8 (vidmap p)
  else if i <? 105 then getf (8 * (i - 101)) 8 (u32 (Pcb.term p))
  else if i =? 105 then u8 (rtc_fd p)
  else if i =? 106 then u8 (rtc p)
  else getf (8 * (i - 107)) 8 (u32 (rtc_rate p)).

(** [strcpy(p->args, src)]. *)
Definition strcpy_args (m : mem) (src : Z) (p : pcb) : pcb :=
  let n := strlen m src in
  args_store (for_ 0 n (fun i p => args_store p i (ld m (src + i))) p) n 0.

(** ** Parsing the command line *)

Inductive parsed :=
  | PEnd (m : mem) (i file_flag fname_length : Z)
  | PFail (m : mem)
  | PLoops.

(** The loop of [syscall_execute]; the branch for a space after the first one is dead code. *)
Fixpoint parse_loop (fuel : nat) (m : mem) (command fname fargs i file_flag fname_length : Z) : parsed :=
  match fuel with
  | O => PLoops
  | S f =>
      let c := ld m (command + i) in
      if c =? 0 then PEnd m i file_flag fname_length
      else if (c =? 32) && (file_flag =? 0) then
        parse_loop f (st m (fname + i) 0) command fname fargs (i + 1) 1 i
      else if file_flag =? 1 then
        parse_loop f (st m (u32 (fargs + u32 (i - fname_length - 1))) c) command fname fargs (i + 1)
          file_flag fname_length
      else if (BUFFER_LENGTH <=? i) && (file_flag =? 0) then PFail m
      else parse_loop f (st m (fname + i) c) command fname fargs (i + 1) file_flag fname_length
  end.

(** The parse and the two terminators; [None] for a command that is rejected. *)
Definition parse_command (m : mem) (command fname fargs : Z) : option (option mem) :=
  match parse_loop (mem_fuel m) m command fname fargs 0 0 0 with
  | PLoops => None
  | PFail _ => Some None
  | PEnd m i file_flag fname_length =>
      let m := st m (u32 (fargs + u32 (i - fname_length - 1))) 0 in
      Some (Some (if file_flag =? 0 then st m (fname + i) 0 else m))
  end.

Section calls.
Context {D : Type} `{Machine D} `{Layout}.
Implicit Types k : kernel D.

Definition set_k_if k (b : bool) : kernel D :=
  with_terms k (set_dev (k_terms k) (set_if b (dev (k_terms k)))).

(** *** execute *)

(** From the loader on: the schedule, the new control block, the task state segment, the caller's
    registers.  [c] is the caller's block, [id] the new identifier. *)
Definition start_tail (fr : frame) (shell : option Z) (c id : Z) (flags : bool) k : kernel D :=
  let k := match shell with
           | Some t => with_terms k (terminal_open t (k_terms k)).2
           | None => k
           end in
  let k := with_sched k (schedule_task id (k_sched k)) in
  let k := match shell with
           | Some _ => k
           | None => with_sched k (unschedule_task (pid (pcb_at k c)) (k_sched k))
           end in
  let newPCB := get_pcb (s16 id) in
  let k := set_pcb k newPCB (pcb_init (pcb_at k newPCB)).2 in
  let k := set_pcb k newPCB (set_process (pcb_at k newPCB) id (newPCB + KERNEL_STACK_SIZE - 4)
                               (match shell with Some t => t | None => Pcb.term (pcb_at k c) end)
                               (match shell with Some _ => 0 | None => c end)) in
  let k := set_pcb k newPCB (strcpy_args (k_mem k) (f_fargs fr) (pcb_at k newPCB)) in
  let k := with_tss k (Tss KERNEL_DS (esp_reg (pcb_at k newPCB))) in
  let k := set_pcb k c (set_regs (pcb_at k c) (esp (k_cpu k)) (ebp (k_cpu k))) in
  set_k_if k flags.

(** From the file check on: [fname] and [fargs] hold the parsed command.  The body is the same in
    [syscall_execute] and [syscall_init_shell], except that the latter ([shell] is its terminal)
    opens the terminal, has no parent and unschedules nobody. *)
Definition start_program (fr : frame) (shell : option Z) k : sys_result D :=
  let c := curr k in
  let '(r, m) := read_dentry_by_name (k_fs k) (k_mem k) (f_fname fr) (f_dentry fr) in
  let k := with_mem k m in
  if negb (r =? 0) then SRet (-1) k
  else
    let '(r, m) := executable_check (k_fs k) (k_mem k) (f_dentry fr) (f_magic fr) in
    let k := with_mem k m in
    if negb (r =? 0) then SRet (-1) k
    else
      let '(id, usage) := tasks_pid_new (k_pid_usage k) in
      let k := with_pid_usage k usage in
      let id := u16 id in
      if id =? NEGATIVE_1 then SRet (-1) k
      else
        let flags := get_if (dev (k_terms k)) in
        let k := set_k_if k false in
        let k := with_paging k (paging_allocate id (k_paging k)).2 in
        let k := with_paging k (paging_update_control id (k_paging k)).2 in
        let '(entry_point, m) := loader (k_fs k) (k_mem k) (f_fname fr) (f_ldentry fr) (f_entry fr) in
        let k := with_mem k m in
        if entry_point =? -1 then
          let k := with_pid_usage k (tasks_pid_free id (k_pid_usage k)) in
          let k := with_paging k (paging_update_control (pid (pcb_at k c)) (k_paging k)).2 in
          SRet (-1) (set_k_if k flags)
        else
          SUser entry_point (start_tail fr shell c id flags k).

Definition syscall_execute (fr : frame) (command : Z) k : option (sys_result D) :=
  if command =? 0 then Some (SRet (-1) k)
  else
    match parse_command (k_mem k) command (f_fname fr) (f_fargs fr) with
    | None => None
    | Some None => Some (SRet (-1) k)
    | Some (Some m) => Some (start_program fr None (with_mem k m))
    end.

Definition syscall_init_shell (fr : frame) (term_num : Z) k : option (sys_result D) :=
  let k := with_mem k (st_list (k_mem k) (f_command fr) (chars "shell" ++ [0])) in
  match parse_command (k_mem k) (f_command fr) (f_fname fr) (f_fargs fr) with
  | None => None
  | Some None => Some (SRet (-1) k)
  | Some (Some m) => Some (start_program fr (Some (u8 term_num)) (with_mem k m))
  end.

(** *** The file calls *)

Definition syscall_read (fr : frame) (ev : env) (fd buf nbytes : Z) k : option (Z * kernel D) :=
  let c := curr k in
  let p := pcb_at k c in
  if nbytes =? 0 then Some (0, k)
  else if (FD_MAX <=? fd) || (fd <? FD_MIN) || (fd =? 1) then Some (-1, k)
  else if flags (elem p fd) =? 0 then Some (-1, k)
  else if buf =? 0 then Some (-1, k)
  else
    match file_operation_jmp_tbl (elem p fd) with
    | rtc_driver =>
        match rtc_read (e_rtc ev) (k_rtc_flag k, dev (k_terms k)) with
        | Some (r, (fl, d), _) => Some (r, with_rtc k fl d)
        | None => None
        end
    | file_driver =>
        let '(r, p, m) := file_read (k_fs k) (k_mem k) p fd buf (u32 nbytes) in
        Some (r, set_pcb (with_mem k m) c p)
    | dir_driver =>
        match dir_read (k_fs k) (k_mem k) p fd buf (u32 nbytes) (f_dentry fr) with
        | Some (r, p, m) => Some (r, set_pcb (with_mem k m) c p)
        | None => None
        end
    | terminal_driver =>
        match terminal_read (e_keys ev) (k_mem k) (Pcb.term p) fd buf nbytes (k_terms k) with
        | Some (r, m, t, _) => Some (r, with_terms (with_mem k m) t)
        | None => None
        end
    | TblNull | TblWild => None
    end.

Definition syscall_write (fd buf nbytes : Z) k : option (Z * kernel D) :=
  let c := curr k in
  if (FD_MAX <=? fd) || (fd <? FD_MIN) || (nbytes =? 0) || (fd =? 0) then Some (-1, k)
  else if buf =? 0 then Some (-1, k)
  else if flags (elem (pcb_at k c) fd) =? 0 then Some (-1, k)
  else
    let k := if fd =? rtc_fd (pcb_at k c)
             then set_pcb k c (set_rtc_rate (pcb_at k c) (s32 (ld32 (k_mem k) buf))) else k in
    match file_operation_jmp_tbl (elem (pcb_at k c) fd) with
    | rtc_driver =>
        let '(r, d) := rtc_write (k_mem k) fd buf nbytes (dev (k_terms k)) in
        Some (r, with_rtc k (k_rtc_flag k) d)
    | file_driver => Some (file_write fd buf nbytes, k)
    | dir_driver => Some (dir_write fd buf nbytes, k)
    | terminal_driver =>
        let '(r, t) := terminal_write (k_mem k) (Pcb.term (pcb_at k c)) fd buf nbytes (k_terms k) in
        Some (r, with_terms k t)
    | TblNull | TblWild => None
    end.

(** The last call goes through the table without arguments. *)
Definition syscall_open (fr : frame) (filename : Z) k : option (Z * kernel D) :=
  let c := curr k in
  if filename =? 0 then Some (-1, k)
  else
    let '(fd, p, m) := file_open (k_fs k) (k_mem k) (pcb_at k c) filename (f_dentry fr) in
    let k := set_pcb (with_mem k m) c p in
    if fd =? -1 then Some (-1, k)
    else
      let k := if negb (strncmp (k_mem k) (f_rtc_name fr) filename 3 =? -1)
               then set_pcb k c (set_rtc_fd (pcb_at k c) (u8 fd)) else k in
      match file_operation_jmp_tbl (elem (pcb_at k c) fd) with
      | rtc_driver =>
          let '(_, d) := rtc_open (dev (k_terms k)) in Some (fd, with_rtc k (k_rtc_flag k) d)
      | file_driver =>
          let '(_, p, m) := file_open (k_fs k) (k_mem k) (pcb_at k c) (f_stale fr) (f_dentry fr) in
          Some (fd, set_pcb (with_mem k m) c p)
      | dir_driver => let _ := dir_open (f_stale fr) in Some (fd, k)
      | terminal_driver =>
          let '(_, t) := terminal_open (f_stale fr) (k_terms k) in Some (fd, with_terms k t)
      | TblNull | TblWild => None
      end.

Definition syscall_close (fr : frame) (fd : Z) k : option (Z * kernel D) :=
  let c := curr k in
  if (FD_MAX <=? fd) || (fd <? 2) then Some (-1, k)
  else if flags (elem (pcb_at k c) fd) =? 0 then Some (-1, k)
  else
    let k := set_pcb k c (pcb_close (pcb_at k c) fd).2 in
    match file_operation_jmp_tbl (elem (pcb_at k c) fd) with
    | rtc_driver => Some (rtc_close fd 0 0, k)
    | file_driver =>
        let '(r, p) := file_close (pcb_at k (f_wild_pcb fr)) fd 0 0 in
        Some (r, set_pcb k (f_wild_pcb fr) p)
    | dir_driver => Some (dir_close, k)
    | terminal_driver =>
        let '(r, t) := terminal_close (term (k_terms k) (f_wild_term fr)) fd in
        Some (r, with_terms k (set_term_data (k_terms k) (f_wild_term fr) t))
    | TblNull | TblWild => None
    end.

(** *** halt *)

(** Close every open descriptor from 2 on. *)
Definition close_all (fr : frame) k : option (kernel D) :=
  for_ 2 FD_MAX (fun i ok =>
    match ok with
    | None => None
    | Some k =>
        if flags (elem (pcb_at k (curr k)) i) =? 0 then Some k
        else match syscall_close fr i k with Some (_, k) => Some k | None => None end
    end) (Some k).

(** The status is put in EAX by inline assembly, but the [return 0] that follows replaces it. *)
Definition syscall_halt (fr : frame) (status : Z) k : option (sys_result D) :=
  let k := set_k_if k false in
  let c := curr k in
  let parent := parent_pcb (pcb_at k c) in
  if parent =? 0 then
    let term_num := u8 (Pcb.term (pcb_at k c)) in
    let k := with_pid_usage k (tasks_pid_free (s16 (pid (pcb_at k c))) (k_pid_usage k)) in
    let k := with_cpu k (Cpu (KERNEL_STACK (pid (pcb_at k c))) (ebp (k_cpu k))) in
    let k := set_k_if k true in
    match syscall_init_shell fr term_num k with
    | Some (SRet _ k) => Some (SRet (-1) k)
    | r => r
    end
  else
    match close_all fr k with
    | None => None
    | Some k =>
        let k := set_pcb k parent (set_child (pcb_at k parent) 0) in
        let k := with_pid_usage k (tasks_pid_free (s16 (pid (pcb_at k c))) (k_pid_usage k)) in
        let k := with_sched k (schedule_task (pid (pcb_at k parent)) (k_sched k)) in
        let k := with_sched k (unschedule_task (pid (pcb_at k c)) (k_sched k)) in
        let '(r, pg) := paging_update_control (pid (pcb_at k parent)) (k_paging k) in
        let k := with_paging k pg in
        if negb (r =? 0) then Some (SRet (-1) k)
        else
          let k := with_tss k (Tss KERNEL_DS (KERNEL_STACK (pid (pcb_at k parent)))) in
          let k := with_cpu k (Cpu (esp_reg (pcb_at k parent)) (ebp_reg (pcb_at k parent))) in
          Some (SRet 0 (set_k_if k true))
    end.

(** *** The other calls *)

(** [None]: the string runs past the end of the block. *)
Definition syscall_getargs (buf nbytes : Z) k : option (Z * kernel D) :=
  if (buf =? 0) || (nbytes =? 0) then Some (-1, k)
  else
    let p := pcb_at k (curr k) in
    match find_ 0 111 (fun i => args_load p i =? 0) with
    | None => None
    | Some n =>
        if u32 nbytes <? n then Some (-1, k)
        else Some (0, with_mem k (for_ 0 (n + 1) (fun i m => st m (buf + i) (args_load p i)) (k_mem k)))
    end.

Definition syscall_vidmap (screen_start : Z) k : Z * kernel D :=
  let c := curr k in
  if screen_start =? 0 then (-1, k)
  else if u32 screen_start <? KERNEL_MEM_END then (-1, k)
  else
    let '(r, pg, m) := paging_map_video (pid (pcb_at k c)) screen_start (k_paging k) (k_mem k) in
    let k := with_paging (with_mem k m) pg in
    if r =? -1 then (-1, k)
    else (s32 VIDEO_MEM_LOC, set_pcb k c (set_vidmap (pcb_at k c) 1)).

Definition syscall_set_handler (signum handler_address : Z) : Z := 0.

Definition syscall_sigreturn : Z := 0.
End calls.
