(* ===== verification/Execute.v ===== *)
(** * execute and halt: starting a program and returning from it

    Properties of [syscall_execute] and [syscall_halt] (Syscall.v): the parse of the command line,
    the state a new process starts in, the failure paths, and the return to the parent. *)

From S2P Require Import Prelude Mem LibString Console Machine I8259 Rtc Tasks Pcb Fs Paging Termios Kernel Scheduling Syscall.

(** ** Lemmas: the command line *)

Lemma st_list_app l1 : forall m a l2,
  st_list m a (l1 ++ l2) = st_list (st_list m a l1) (a + Z.of_nat (length l1)) l2.
Proof.
  induction l1 as [|x l1 IH]; intros m a l2; cbn [st_list app length]; [by rewrite Z.add_0_r|].
  rewrite IH. f_equal. lia.
Qed.

Lemma st_list_outside m a l : unchanged_outside m (st_list m a l) a (Z.of_nat (length l)).
Proof.
  intros x Hx. rewrite ld_st_list.
  destruct (Z.leb_spec a x), (Z.ltb_spec x (a + Z.of_nat (length l))); cbn; lia || done.
Qed.

Lemma cstr_outside m m' a n s l :
  unchanged_outside m m' a n -> a + n <= s \/ s + Z.of_nat (length l) < a -> cstr m s l -> cstr m' s l.
Proof. intros Ho Hd. apply cstr_ext. intros x Hx. apply Ho. lia. Qed.

(** The bytes of a C string are bytes. *)
Lemma cstr_bytes m s l : cstr m s l -> Forall (fun c => 0 < c < 256) l.
Proof.
  revert s. induction l as [|c l IH]; intros s; cbn [cstr]; [constructor|].
  intros (E & Hc & Hl). pose proof (ld_range m s). constructor; [lia|by eapply IH].
Qed.

Lemma cstr_app m s l1 : forall l2, cstr m s (l1 ++ l2) -> cstr m (s + Z.of_nat (length l1)) l2.
Proof.
  revert s. induction l1 as [|c l1 IH]; intros s l2; cbn [cstr app length]; [by rewrite Z.add_0_r|].
  intros (_ & _ & Hl). apply IH in Hl. by replace (s + Z.of_nat (S (length l1))) with (s + 1 + Z.of_nat (length l1)) by lia.
Qed.

(** Where the arrays of [syscall_execute] are: apart, and apart from the command. *)
Record parse_frame (command len fname fargs : Z) : Prop := {
  pf_fname : 0 <= fname /\ fname + 32 <= 2 ^ 32;
  pf_fargs : 0 <= fargs /\ fargs + 128 <= 2 ^ 32;
  pf_apart : fname + 32 <= fargs \/ fargs + 128 <= fname;
  pf_cmd1 : command + len < fname \/ fname + 32 <= command;
  pf_cmd2 : command + len < fargs \/ fargs + 128 <= command
}.

(** The part before the first space. *)
Lemma parse_name command fname fargs n : forall l tail m i,
  cstr m (command + i) (l ++ tail) -> Forall (fun c => c <> 32) l -> 0 <= i ->
  i + Z.of_nat (length l) <= BUFFER_LENGTH ->
  command + i + Z.of_nat (length (l ++ tail)) < fname \/ fname + BUFFER_LENGTH <= command + i ->
  parse_loop (length l + n) m command fname fargs i 0 0
  = parse_loop n (st_list m (fname + i) l) command fname fargs (i + Z.of_nat (length l)) 0 0.
Proof.
  induction l as [|c l IH]; intros tail m i Hc Hsp Hi Hlen Hov; cbn [length app st_list Nat.add parse_loop].
  - by rewrite Z.add_0_r.
  - apply List.Forall_cons_iff in Hsp as [Hc32 Hsp]. cbn [app cstr length] in Hc, Hlen, Hov.
    destruct Hc as (E & Hc0 & Hc). rewrite E. unfold BUFFER_LENGTH in *.
    rewrite (proj2 (Z.eqb_neq c 0)), (proj2 (Z.eqb_neq c 32)), (proj2 (Z.leb_gt _ _)) by lia.
    cbn [andb Z.eqb].
    rewrite (IH tail).
    + f_equal; [f_equal; lia|lia].
    + replace (command + (i + 1)) with (command + i + 1) by lia.
      eapply (cstr_outside m _ (fname + i) 1); [intros x Hx; apply ld_st_ne; lia| |exact Hc]. lia.
    + done.
    + lia.
    + lia.
    + lia.
Qed.

Lemma parse_arg_step f m command fname fargs i len :
  ld m (command + i) <> 0 ->
  parse_loop (S f) m command fname fargs i 1 len
  = parse_loop f (st m (u32 (fargs + u32 (i - len - 1))) (ld m (command + i))) command fname fargs (i + 1) 1 len.
Proof.
  intros Hc. cbn [parse_loop]. rewrite (proj2 (Z.eqb_neq _ _) Hc), andb_false_r. done.
Qed.

Lemma parse_space_step f m command fname fargs i :
  ld m (command + i) = 32 ->
  parse_loop (S f) m command fname fargs i 0 0
  = parse_loop f (st m (fname + i) 0) command fname fargs (i + 1) 1 i.
Proof. intros Hc. cbn [parse_loop]. by rewrite Hc. Qed.

(** The part after it. *)
Lemma parse_args command fname fargs len n : forall a m i,
  cstr m (command + i) a -> 0 <= fargs -> 0 <= i - len - 1 ->
  fargs + (i - len - 1) + Z.of_nat (length a) < 2 ^ 32 ->
  command + i + Z.of_nat (length a) < fargs + (i - len - 1) \/
    fargs + (i - len - 1) + Z.of_nat (length a) <= command + i ->
  parse_loop (S (length a) + n) m command fname fargs i 1 len
  = PEnd (st_list m (fargs + (i - len - 1)) a) (i + Z.of_nat (length a)) 1 len.
Proof.
  induction a as [|c a IH]; intros m i Hc Hf Hi Hw Hov; cbn [length st_list Nat.add].
  - cbn [cstr parse_loop] in *. rewrite Hc. cbn [Z.eqb]. by rewrite Z.add_0_r.
  - cbn [cstr length] in *. destruct Hc as (E & Hc0 & Hc). rewrite parse_arg_step, E by congruence.
    rewrite (u32_small (i - len - 1)), u32_small by lia.
    change (S (length a + n)) with (S (length a) + n)%nat.
    rewrite IH.
    + f_equal; [|lia]. f_equal. lia.
    + replace (command + (i + 1)) with (command + i + 1) by lia.
      eapply (cstr_outside m _ (fargs + (i - len - 1)) 1); [intros x Hx; apply ld_st_ne; lia| |exact Hc]. lia.
    + done.
    + lia.
    + lia.
    + lia.
Qed.

Lemma cstr_fuel m s l : cstr m s l -> (length l < mem_fuel m)%nat.
Proof. intros Hc. apply (mem_fuel_bound m s). intros i Hi. by destruct (cstr_nth _ _ _ i Hc Hi). Qed.

(** A command line with arguments. *)
Lemma parse_command_args m command fname fargs name a :
  cstr m command (name ++ 32 :: a) -> Forall (fun c => c <> 32) name ->
  Z.of_nat (length name) < BUFFER_LENGTH -> Z.of_nat (length a) < 128 ->
  parse_frame command (Z.of_nat (length (name ++ 32 :: a))) fname fargs ->
  exists m', parse_command m command fname fargs = Some (Some m') /\
    cstr m' fname name /\ cstr m' fargs a /\
    forall x, ~ (fname <= x < fname + 32) -> ~ (fargs <= x < fargs + 128) -> ld m' x = ld m x.
Proof.
  intros Hc Hsp Hn Ha [Hf1 Hf2 Hap Hc1 Hc2]. unfold BUFFER_LENGTH in *.
  pose proof (cstr_fuel _ _ _ Hc) as Hfuel. pose proof (cstr_bytes _ _ _ Hc) as Hby.
  apply List.Forall_app in Hby as [Hbn Hba]. apply List.Forall_cons_iff in Hba as [_ Hba].
  rewrite length_app in *. cbn [length] in *.
  assert (exists n, mem_fuel m = length name + S (S (length a) + n))%nat as [n Ef]
    by (exists (mem_fuel m - (length name + S (S (length a))))%nat; lia).
  unfold parse_command. rewrite Ef.
  rewrite (parse_name _ _ _ _ name (32 :: a)); [|by rewrite Z.add_0_r|done|lia|unfold BUFFER_LENGTH; lia|
    rewrite length_app; cbn [length]; unfold BUFFER_LENGTH; lia].
  rewrite Z.add_0_r, Z.add_0_l. set (N := Z.of_nat (length name)) in *.
  set (m1 := st_list m fname name).
  assert (Ho1 : unchanged_outside m m1 fname N) by apply st_list_outside.
  assert (Hc' : cstr m1 (command + N) (32 :: a)).
  { eapply cstr_outside; [exact Ho1| |by apply cstr_app]. cbn [length]. lia. }
  cbn [cstr] in Hc'. destruct Hc' as (E32 & _ & Hca). rewrite (parse_space_step _ _ _ _ _ _ E32).
  set (m2 := st m1 (fname + N) 0).
  assert (Ho2 : unchanged_outside m1 m2 (fname + N) 1) by (intros x Hx; apply ld_st_ne; lia).
  pose proof (parse_args command fname fargs N n a m2 (N + 1)) as Hpa.
  rewrite Hpa; clear Hpa.
  2:{ replace (command + (N + 1)) with (command + N + 1) by lia.
      eapply cstr_outside; [exact Ho2| |exact Hca]. lia. }
  2-5: lia.
  replace (N + 1 - N - 1) with 0 by lia. rewrite Z.add_0_r. cbn [Z.eqb].
  replace (N + 1 + Z.of_nat (length a) - N - 1) with (Z.of_nat (length a)) by lia.
  rewrite (u32_small (Z.of_nat _)), u32_small by lia.
  set (m3 := st_list m2 fargs a). set (m4 := st m3 (fargs + Z.of_nat (length a)) 0).
  assert (Ho4 : unchanged_outside m2 m4 fargs (Z.of_nat (length a) + 1)).
  { intros x Hx. unfold m4. rewrite ld_st_ne by lia. apply st_list_outside. lia. }
  eexists. split; [reflexivity|]. split_and!.
  - eapply (cstr_outside m2); [exact Ho4|unfold N in *; lia|]. by apply cstr_st_list.
  - by apply cstr_st_list.
  - intros x H1 H2. rewrite Ho4, Ho2, Ho1 by lia. done.
Qed.

(** A command line without: the argument string is what the array happens to hold, cut off
    after the length of the name less one. *)
Lemma parse_command_noargs m command fname fargs name :
  cstr m command name -> Forall (fun c => c <> 32) name ->
  0 < Z.of_nat (length name) < BUFFER_LENGTH ->
  parse_frame command (Z.of_nat (length name)) fname fargs ->
  exists m', parse_command m command fname fargs = Some (Some m') /\ cstr m' fname name /\
    ld m' (fargs + Z.of_nat (length name) - 1) = 0 /\
    forall x, ~ (fname <= x < fname + 32) -> x <> fargs + Z.of_nat (length name) - 1 -> ld m' x = ld m x.
Proof.
  intros Hc Hsp Hn [Hf1 Hf2 Hap Hc1 Hc2]. unfold BUFFER_LENGTH in *.
  pose proof (cstr_fuel _ _ _ Hc) as Hfuel. pose proof (cstr_bytes _ _ _ Hc) as Hbn.
  assert (exists n, mem_fuel m = length name + S n)%nat as [n Ef]
    by (exists (mem_fuel m - S (length name))%nat; lia).
  unfold parse_command. rewrite Ef.
  rewrite (parse_name _ _ _ _ name []); [|by rewrite Z.add_0_r, app_nil_r|done|lia|unfold BUFFER_LENGTH; lia|
    rewrite app_nil_r; unfold BUFFER_LENGTH; lia].
  rewrite Z.add_0_r, Z.add_0_l. set (N := Z.of_nat (length name)) in *.
  set (m1 := st_list m fname name).
  assert (Ho1 : unchanged_outside m m1 fname N) by apply st_list_outside.
  assert (E0 : ld m1 (command + N) = 0) by (rewrite Ho1 by lia; by apply cstr_end).
  cbn [parse_loop]. rewrite E0. cbn [Z.eqb]. rewrite Z.sub_0_r.
  rewrite (u32_small (N - 1)), u32_small by lia. eexists. split; [reflexivity|]. split_and!.
  - apply (cstr_ext (st m1 (fname + N) 0)); [|by apply cstr_st_list].
    intros x Hx. rewrite !ld_st. fold N in Hx.
    destruct (Z.eqb_spec (fname + N) x); [done|]. by rewrite (proj2 (Z.eqb_neq _ _)) by lia.
  - rewrite ld_st_ne by lia. replace (fargs + N - 1) with (fargs + (N - 1)) by lia. by rewrite ld_st_eq.
  - intros x H1 H2. rewrite !ld_st_ne, Ho1 by lia. done.
Qed.

(** ** Lemmas: the arguments in a control block *)

(** The fields in front of [args]. *)
Definition same_head (p p' : pcb) : Prop :=
  elements p' = elements p /\ parent_pcb p' = parent_pcb p /\ child p' = child p /\
  esp_reg p' = esp_reg p /\ ebp_reg p' = ebp_reg p /\ pid p' = pid p.

Lemma args_store_head p i v : same_head p (args_store p i v).
Proof. unfold args_store. by repeat case_match. Qed.

Lemma strcpy_args_head m src p : same_head p (strcpy_args m src p).
Proof.
  unfold strcpy_args. set (n := strlen m src).
  assert (Hf : same_head p (for_ 0 n (fun i p => args_store p i (ld m (src + i))) p)).
  { apply (for_inv (fun _ p' => same_head p p')); [apply strlen_spec|done|].
    intros i p' _ Hp'. pose proof (args_store_head p' i (ld m (src + i))) as Hs.
    unfold same_head in *. intuition congruence. }
  pose proof (args_store_head (for_ 0 n (fun i p => args_store p i (ld m (src + i))) p) n 0) as Hs.
  unfold same_head in *. intuition congruence.
Qed.

(** The string [a] is in [p->args]. *)
Definition has_args (p : pcb) (a : list Z) : Prop :=
  (forall i, 0 <= i < Z.of_nat (length a) -> args_load p i = nth (Z.to_nat i) a 0 /\ nth (Z.to_nat i) a 0 <> 0) /\
  args_load p (Z.of_nat (length a)) = 0.

Lemma args_load_store p i v j :
  0 <= i < 100 -> 0 <= j < 100 -> args_load (args_store p i v) j = if i =? j then u8 v else args_load p j.
Proof.
  intros Hi Hj. unfold args_store, args_load. rewrite !(proj2 (Z.ltb_lt _ _)) by lia. cbn [args set_args].
  rewrite aget_aset. case_b; [|done]. apply u8_small, u8_range.
Qed.

Lemma args_store_rest p i v :
  0 <= i < 100 -> vidmap (args_store p i v) = vidmap p /\ Pcb.term (args_store p i v) = Pcb.term p /\
  rtc_fd (args_store p i v) = rtc_fd p /\ rtc (args_store p i v) = rtc p /\
  rtc_rate (args_store p i v) = rtc_rate p.
Proof. intros Hi. unfold args_store. by rewrite (proj2 (Z.ltb_lt _ _)) by lia. Qed.

(** Copying a string of at most 99 bytes. *)
Lemma strcpy_args_spec m src a p :
  cstr m src a -> Z.of_nat (length a) < 100 ->
  has_args (strcpy_args m src p) a /\ Pcb.term (strcpy_args m src p) = Pcb.term p /\
  vidmap (strcpy_args m src p) = vidmap p.
Proof.
  intros Hc Hl. unfold strcpy_args. rewrite (strlen_eq _ _ _ Hc). set (n := Z.of_nat (length a)) in *.
  set (p1 := for_ 0 n (fun i p => args_store p i (ld m (src + i))) p).
  assert (Hf : (forall j, 0 <= j < n -> args_load p1 j = ld m (src + j)) /\
    Pcb.term p1 = Pcb.term p /\ vidmap p1 = vidmap p).
  { apply (for_inv (fun i p' => (forall j, 0 <= j < i -> args_load p' j = ld m (src + j)) /\
      Pcb.term p' = Pcb.term p /\ vidmap p' = vidmap p)); [lia|split; [intros; lia|done]|].
    intros i p' Hi (Hj & Ht & Hv). destruct (args_store_rest p' i (ld m (src + i))) as (-> & -> & _); [lia|].
    split; [|done]. intros j Hj'. rewrite args_load_store by lia.
    destruct (Z.eqb_spec i j) as [->|]; [by rewrite u8_ld|]. apply Hj. lia. }
  destruct Hf as (Hj & Ht & Hv). destruct (args_store_rest p1 n 0) as (-> & -> & _); [lia|].
  split; [|done]. split.
  - intros i Hi. rewrite args_load_store by lia. rewrite (proj2 (Z.eqb_neq _ _)) by lia. rewrite Hj by lia.
    destruct (cstr_nth _ _ _ i Hc Hi) as [<- ?]. done.
  - rewrite args_load_store by lia. by rewrite Z.eqb_refl.
Qed.

(** ** Lemmas: execute *)

Section execute.
Context {D : Type} `{Machine D} `{LayoutLaws}.
Implicit Types k : kernel D.

Lemma k_mem_with_mem k m : k_mem (with_mem k m) = m.
Proof. unfold k_mem, with_mem, cur_space. cbn. rewrite lookup_insert_eq. by destruct m. Qed.

Lemma with_mem_twice k m1 m2 : with_mem (with_mem k m1) m2 = with_mem k m2.
Proof. unfold with_mem, cur_space. cbn. by rewrite insert_insert_eq. Qed.

(** The address space that CR3 selects. *)
Lemma cur_space_dir k q : cr3 (k_paging k) = dir_addr q -> cur_space k = q.
Proof.
  intros E. unfold cur_space. rewrite E. unfold dir_addr, PAGE_SIZE.
  replace (pd_loc + q * 1024 * 4 - pd_loc) with (q * 4096) by lia. by apply Z.div_mul.
Qed.

Definition switch_paging k (q : Z) : paging :=
  (paging_update_control q (paging_allocate q (k_paging k)).2).2.

Lemma switch_paging_cr3 k q : 0 <= q < MAX_PID -> cr3 (switch_paging k q) = dir_addr q.
Proof.
  intros Hq. unfold switch_paging, paging_update_control.
  rewrite (proj2 (Z.leb_gt _ _)), (proj2 (Z.ltb_ge _ _)) by lia. cbn [orb snd]. by apply reload_cr3_inv.
Qed.

(** Memory after the switch to the address space of [q]: the kernel part stays. *)
Definition switched_mem k (m : mem) (q : Z) : mem :=
  Mem (km m) (default ∅ (<[cur_space k := um m]> (k_frames k) !! q)).

Lemma ld_switched_mem k m q x : in_user x = false -> ld (switched_mem k m q) x = ld m x.
Proof. intros E. unfold ld, switched_mem. by rewrite E. Qed.

(** The new control block. *)
Definition new_pcb k (m : mem) (fr : frame) (p q : Z) : pcb :=
  strcpy_args m (f_fargs fr)
    (set_process (pcb_init (pcb_at k (get_pcb q))).2 q (get_pcb q + KERNEL_STACK_SIZE - 4)
       (Pcb.term (pcb_at k (get_pcb p))) (get_pcb p)).

(** What [start_program] leaves when nothing fails. *)
Definition started k (fr : frame) (p q : Z) (u : arr) (m2 m3 : mem) : kernel D :=
  Kernel (km m3) (<[q := um m3]> (<[cur_space k := um m2]> (k_frames k))) (switch_paging k q) u
    (unschedule_task p (schedule_task q (k_sched k)))
    (<[get_pcb p := set_regs (pcb_at k (get_pcb p)) (esp (k_cpu k)) (ebp (k_cpu k))]>
       (<[get_pcb q := new_pcb k m3 fr p q]> (k_pcbs k)))
    (set_dev (set_dev (k_terms k) (set_if false (dev (k_terms k))))
       (set_if (get_if (dev (k_terms k))) (set_if false (dev (k_terms k)))))
    (k_fs k) (k_rtc_flag k) (Tss KERNEL_DS (KERNEL_STACK q)) (k_cpu k).

Lemma k_mem_inserted a b fr pg u s pc t f fl ts c :
  @k_mem D _ (Kernel a (<[(cr3 pg - pd_loc) / 4096 := b]> fr) pg u s pc t f fl ts c) = Mem a b.
Proof. unfold k_mem, cur_space. cbn. by rewrite lookup_insert_eq. Qed.

Lemma stack_top q : 0 <= q < MAX_PID -> get_pcb q + KERNEL_STACK_SIZE - 4 = KERNEL_STACK q.
Proof. intros. rewrite get_pcb_eq by done. unfold KERNEL_STACK_SIZE, KERNEL_MEM_END, KERNEL_STACK. lia. Qed.

Lemma start_program_ok fr k p q u m1 m2 m3 e :
  curr k = get_pcb p -> pid (pcb_at k (get_pcb p)) = p -> 0 <= p < MAX_PID -> p <> q ->
  read_dentry_by_name (k_fs k) (k_mem k) (f_fname fr) (f_dentry fr) = (0, m1) ->
  executable_check (k_fs k) m1 (f_dentry fr) (f_magic fr) = (0, m2) ->
  tasks_pid_new (k_pid_usage k) = (q, u) -> 1 <= q < MAX_PID ->
  loader (k_fs k) (switched_mem k m2 q) (f_fname fr) (f_ldentry fr) (f_entry fr) = (e, m3) -> e <> -1 ->
  start_program fr None k = SUser e (started k fr p q u m2 m3).
Proof.
  intros Hc Hpid Hp Hpq E1 E2 E3 Hq E4 He. unfold start_program. rewrite Hc, E1. cbn [Z.eqb negb].
  change (k_fs (with_mem k m1)) with (k_fs k). rewrite k_mem_with_mem, E2. cbn [Z.eqb negb].
  rewrite with_mem_twice. change (k_pid_usage (with_mem k m2)) with (k_pid_usage k). rewrite E3.
  assert (Hne : get_pcb p <> get_pcb q) by (intros E; apply get_pcb_inj in E; unfold MAX_PID in *; lia).
  assert (U : u16 q = q) by (apply u16_small; unfold MAX_PID in *; lia).
  assert (S : s16 q = q) by (unfold s16, MAX_PID in *; rewrite Z.mod_small; lia).
  rewrite U. replace (q =? NEGATIVE_1) with false
    by (symmetry; apply Z.eqb_neq; unfold NEGATIVE_1, MAX_PID in *; lia).
  set (k1 := with_paging (with_paging _ _) _).
  assert (Ek : k_mem k1 = switched_mem k m2 q).
  { unfold k_mem. rewrite (cur_space_dir k1 q); [done|]. apply (switch_paging_cr3 k q). lia. }
  assert (Es : cur_space k1 = q) by (apply cur_space_dir, (switch_paging_cr3 k q); lia).
  change (k_fs k1) with (k_fs k). rewrite Ek, E4, (proj2 (Z.eqb_neq _ _) He). unfold start_tail. rewrite S. clear Ek E1 E2 E3 E4.
  unfold with_mem at 1. rewrite Es. unfold pcb_at in Hpid. clear Hc. revert Es.
  destruct k as [kkm kfr kpg kpu ksch kpcb kterm kfs kfl ktss kcpu]. intros _. cbn [k_pcbs] in Hpid.
  cbv beta iota zeta delta [k1 set_k_if set_pcb pcb_at with_sched with_tss with_terms with_pcbs with_mem
    with_paging with_pid_usage k_km k_frames k_paging k_pid_usage k_sched k_pcbs k_terms k_fs k_rtc_flag
    k_tss k_cpu cur_space].
  rewrite !lookup_insert_eq. cbn [default from_option id].
  rewrite !(lookup_insert_ne _ (get_pcb q) (get_pcb p)) by done.
  rewrite !insert_insert_eq, !k_mem_inserted, Hpid. clear k1.
  destruct (strcpy_args_head (Mem (km m3) (um m3)) (f_fargs fr)
    (set_process (pcb_init (default pcb0 (kpcb !! get_pcb q))).2 q (get_pcb q + KERNEL_STACK_SIZE - 4)
       (Pcb.term (default pcb0 (kpcb !! get_pcb p))) (get_pcb p))) as (_ & _ & _ & Hesp & _).
  rewrite Hesp. cbn [esp_reg set_process]. rewrite (stack_top q) by lia.
  unfold started, new_pcb. rewrite (stack_top q) by lia. by destruct m3.
Qed.
End execute.

(** The local variables of [syscall_execute], [loader] and [executable_check]. *)
Definition locals (fr : frame) : list (Z * Z) :=
  [(f_fname fr, 32); (f_fargs fr, 128); (f_dentry fr, 64); (f_ldentry fr, 64); (f_entry fr, 4); (f_magic fr, 4)].

Definition in_locals (fr : frame) (x : Z) : Prop := List.Exists (fun '(a, n) => a <= x < a + n) (locals fr).

(** They are in kernel memory, off the image and apart; the image is below the program window. *)
Record exec_frame (f : fs) (m : mem) (fr : frame) : Prop := {
  ef_off : List.Forall (fun '(a, n) => off_image f m a n /\ a + n <= USER_WINDOW_START) (locals fr);
  ef_apart : List.ForallOrdPairs (fun '(a, n) '(b, l) => a + n <= b \/ b + l <= a) (locals fr);
  ef_image : image_end f m <= USER_WINDOW_START
}.

Lemma exec_frame_stable f m m' fr : same_image f m m' -> exec_frame f m fr -> exec_frame f m' fr.
Proof.
  intros Hs [H1 H2 H3]. split; [|done|by rewrite (image_end_stable f m m' Hs)].
  eapply List.Forall_impl; [|exact H1]. intros [a n] [Ho ?]. split; [by apply (off_image_stable f m m' Hs)|done].
Qed.

(** The conditions one by one. *)
Lemma exec_frame_facts f m fr :
  exec_frame f m fr ->
  off_image f m (f_dentry fr) 64 /\ off_image f m (f_magic fr) 4 /\ off_image f m (f_ldentry fr) 64 /\
  off_image f m (f_entry fr) 4 /\ off_image f m (f_fname fr) 32 /\ off_image f m (f_fargs fr) 128 /\
  (f_fname fr + 32 <= USER_WINDOW_START /\ f_fargs fr + 128 <= USER_WINDOW_START /\
   f_dentry fr + 64 <= USER_WINDOW_START /\ f_ldentry fr + 64 <= USER_WINDOW_START /\
   f_entry fr + 4 <= USER_WINDOW_START /\ f_magic fr + 4 <= USER_WINDOW_START) /\
  (f_fname fr + 32 <= f_fargs fr \/ f_fargs fr + 128 <= f_fname fr) /\
  (f_fname fr + 32 <= f_dentry fr \/ f_dentry fr + 64 <= f_fname fr) /\
  (f_fname fr + 32 <= f_magic fr \/ f_magic fr + 4 <= f_fname fr) /\
  (f_fargs fr + 128 <= f_dentry fr \/ f_dentry fr + 64 <= f_fargs fr) /\
  (f_fargs fr + 128 <= f_magic fr \/ f_magic fr + 4 <= f_fargs fr) /\
  (f_fargs fr + 128 <= f_ldentry fr \/ f_ldentry fr + 64 <= f_fargs fr) /\
  (f_fargs fr + 128 <= f_entry fr \/ f_entry fr + 4 <= f_fargs fr) /\
  (f_ldentry fr + 64 <= f_entry fr \/ f_entry fr + 4 <= f_ldentry fr).
Proof.
  intros [H1 H2 _]. unfold locals in *.
  repeat match goal with
  | H : List.Forall _ (_ :: _) |- _ => apply List.Forall_cons_iff in H as [[? ?] H]
  | H : List.ForallOrdPairs _ (_ :: _) |- _ => inversion H; clear H; subst
  end.
  repeat match goal with
  | H : List.Forall _ (_ :: _) |- _ => apply List.Forall_cons_iff in H as [? H]
  end.
  destruct_and!. split_and!; assumption.
Qed.

Lemma in_locals_iff fr x :
  in_locals fr x <->
  f_fname fr <= x < f_fname fr + 32 \/ f_fargs fr <= x < f_fargs fr + 128 \/
  f_dentry fr <= x < f_dentry fr + 64 \/ f_ldentry fr <= x < f_ldentry fr + 64 \/
  f_entry fr <= x < f_entry fr + 4 \/ f_magic fr <= x < f_magic fr + 4.
Proof. unfold in_locals, locals. rewrite !List.Exists_cons, List.Exists_nil. tauto. Qed.

(** The checks before the new process exists. *)
Lemma exec_checks f m fr name i c :
  image_ok f m -> exec_frame f m fr -> cstr m (f_fname fr) name -> names f m name i ->
  0 <= inode_index m (dentry_directory f i) < inode_num m (boot_block f) ->
  file_content f m (inode_index m (dentry_directory f i)) = c -> (4 <= length c)%nat ->
  exists m1 m2 r, read_dentry_by_name f m (f_fname fr) (f_dentry fr) = (0, m1) /\
    executable_check f m1 (f_dentry fr) (f_magic fr) = (r, m2) /\
    (r = 0 <-> take 4 c = [0x7f; 0x45; 0x4c; 0x46]) /\
    forall x, ~ (f_dentry fr <= x < f_dentry fr + 64) -> ~ (f_magic fr <= x < f_magic fr + 4) ->
      ld m2 x = ld m x.
Proof.
  intros Hok Hf Hn Hi Hino Hc Hl. destruct (exec_frame_facts _ _ _ Hf) as (Hd & Hm & _).
  destruct (read_dentry_by_name_found f m (f_fname fr) name (f_dentry fr) i Hok Hn Hd Hi) as (m1 & E1 & Hcp).
  destruct (dentry_fields _ _ _ _ Hcp) as [_ Eino].
  pose proof (copied_outside _ _ _ _ _ Hcp) as Ho1.
  pose proof (outside_same_image _ _ _ _ _ Hd Ho1) as Hs1.
  destruct (executable_check_found f m1 (f_dentry fr) (f_magic fr) c) as (r & m2 & E2 & Hr & Ho2).
  { by apply (image_ok_stable f m m1). }
  { by apply (off_image_stable f m m1 Hs1). }
  { by rewrite Eino, (inode_num_stable f m m1 Hs1). }
  { by rewrite Eino, (file_content_stable f m m1 Hok Hs1). }
  { by right. }
  exists m1, m2, r. split; [done|]. split; [done|]. split.
  { rewrite Hr. split; [intros [->|?]; [by cbn in Hl; lia|done]|by right]. }
  intros x H1 H2. unfold EXEC_MAGIC_NUM_COUNT, sizeof_dentry in *. rewrite Ho2, Ho1 by lia. done.
Qed.

(** The value in bytes 24 to 27 of an executable. *)
Definition entry_of (c : list Z) : Z :=
  s32 (nth 24 c 0 + 2 ^ 8 * nth 25 c 0 + 2 ^ 16 * nth 26 c 0 + 2 ^ 24 * nth 27 c 0).

(** The part of it that fits in the program window. *)
Definition loaded (c : list Z) : list Z := take (Z.to_nat (FOUR_MB - USER_PROGRAM_OFFSET)) c.

Lemma below_window x : x < USER_WINDOW_START -> in_user x = false.
Proof. intros. unfold in_user. by rewrite (proj2 (Z.leb_gt _ _)) by lia. Qed.

Section load.
Context {D : Type} `{LayoutLaws}.

(** Loading, in an address space whose kernel part has the image and the name. *)
Lemma exec_load f m m' fr name i c :
  image_ok f m -> exec_frame f m fr -> cstr m (f_fname fr) name -> (length name < 32)%nat ->
  names f m name i ->
  0 <= inode_index m (dentry_directory f i) < inode_num m (boot_block f) ->
  file_content f m (inode_index m (dentry_directory f i)) = c -> (28 <= length c)%nat ->
  (forall x, x < USER_WINDOW_START -> ~ (f_dentry fr <= x < f_dentry fr + 64) ->
     ~ (f_magic fr <= x < f_magic fr + 4) -> ld m' x = ld m x) ->
  exists m3, loader f m' (f_fname fr) (f_ldentry fr) (f_entry fr) = (entry_of c, m3) /\
    bytes m3 0x8048000 (length (loaded c)) = loaded c /\
    forall x, ~ (0x8048000 <= x < 0x8400000) -> ~ (f_ldentry fr <= x < f_ldentry fr + 64) ->
      ~ (f_entry fr <= x < f_entry fr + 4) -> ld m3 x = ld m' x.
Proof.
  intros Hok Hf Hn Hnl Hi Hino Hc Hl Hag.
  pose proof (exec_frame_facts _ _ _ Hf) as (Hd & Hm & Hld & He & Hfn & _ & Hw & _ & Ha1 & Ha2 & _ & _ & _ & _ & Ha3).
  pose proof (ef_image _ _ _ Hf) as Him. pose proof (img_base _ _ Hok) as Hb.
  assert (Hs : same_image f m m').
  { intros x Hx. destruct Hd as (_ & _ & Hd), Hm as (_ & _ & Hm). apply Hag; lia. }
  assert (Eino : inode_index m' (dentry_directory f i) = inode_index m (dentry_directory f i)).
  { destruct (dentry_in_image f m i Hok (proj1 Hi)). apply inode_index_ext. intros x Hx. apply Hs. lia. }
  destruct (loader_found f m' (f_fname fr) name (f_ldentry fr) (f_entry fr) i c) as (m3 & E & Hby & _ & Ho).
  - by apply (image_ok_stable f m m').
  - apply (cstr_ext m); [|done]. intros x Hx. apply Hag; lia.
  - unfold USER_WINDOW_START in *. split.
    + by apply (off_image_stable f m m' Hs).
    + by apply (off_image_stable f m m' Hs).
    + apply (off_image_stable f m m' Hs).
      unfold off_image, USER_PROGRAM_VIRTUAL_START, USER_PROGRAM_OFFSET, FOUR_MB. lia.
    + unfold USER_PROGRAM_VIRTUAL_START, sizeof_dentry, ENTRY_POINT_SIZE. lia.
    + done.
  - apply (names_stable f m m'); [done|done|lia|done].
  - by rewrite Eino, (inode_num_stable f m m' Hs).
  - by rewrite Eino, (file_content_stable f m m' Hok Hs).
  - done.
  - exists m3. split; [exact E|]. split; [exact Hby|exact Ho].
Qed.

(** What a successful [syscall_execute] of the program [c] with arguments [a] by [p] does. *)
Record executed (k k' : kernel D) (fr : frame) (p q : Z) (c a : list Z) : Prop := {
  ex_pid : 1 <= q < MAX_PID /\ (q ∉ live (k_pid_usage k)) /\ live (k_pid_usage k') = live (k_pid_usage k) ∪ {[q]};
  ex_space : k_paging k' = switch_paging k q /\ cr3 (k_paging k') = dir_addr q;
  ex_program : bytes (k_mem k') 0x8048000 (length (loaded c)) = loaded c;
  ex_block : pid (pcb_at k' (get_pcb q)) = q /\ parent_pcb (pcb_at k' (get_pcb q)) = get_pcb p /\
    esp_reg (pcb_at k' (get_pcb q)) = KERNEL_STACK q /\
    (forall i, 0 <= i < FD_MAX ->
       elem (pcb_at k' (get_pcb q)) i = if i <? 2 then Fde terminal_driver 0 0 1 else fde0);
  ex_args : Z.of_nat (length a) < 100 -> has_args (pcb_at k' (get_pcb q)) a /\
    Pcb.term (pcb_at k' (get_pcb q)) = Pcb.term (pcb_at k (get_pcb p));
  ex_parent : pcb_at k' (get_pcb p) = set_regs (pcb_at k (get_pcb p)) (esp (k_cpu k)) (ebp (k_cpu k));
  ex_blocks : forall b, b <> get_pcb p -> b <> get_pcb q -> pcb_at k' b = pcb_at k b;
  ex_sched : forall r, 0 <= r < MAX_PID ->
    scheduled (k_sched k') r <-> r = q \/ (r <> p /\ scheduled (k_sched k) r);
  ex_tss : k_tss k' = Tss KERNEL_DS (KERNEL_STACK q);
  ex_kernel_memory : forall x, x < USER_WINDOW_START -> ~ in_locals fr x -> ld (k_mem k') x = ld (k_mem k) x;
  ex_frames : forall r x, r <> q -> 0x8000000 <= x < 0x8400000 ->
    u8 ((default ∅ (k_frames k' !! r)).[x]) = u8 ((default ∅ (k_frames k !! r)).[x]);
  ex_rest : k_fs k' = k_fs k /\ k_cpu k' = k_cpu k /\ k_rtc_flag k' = k_rtc_flag k;
  ex_screens : exists d, k_terms k' = set_dev (k_terms k) d
}.

Lemma u16_pid p : 0 <= p < MAX_PID -> u16 p = p.
Proof. intros. apply u16_small. unfold MAX_PID in *. lia. Qed.

(** The schedule after a process takes the place of another. *)
Lemma replace_scheduled sched p q r :
  0 <= p < MAX_PID -> 0 <= q < MAX_PID -> p <> q -> 0 <= r < MAX_PID ->
  scheduled (unschedule_task p (schedule_task q sched)) r <-> r = q \/ (r <> p /\ scheduled sched r).
Proof.
  intros Hp Hq Hne Hr. unfold scheduled, unschedule_task, schedule_task. rewrite !u16_pid, !aget_aset by done.
  destruct (Z.eqb_spec p r) as [->|], (Z.eqb_spec q r) as [->|]; intuition (lia || congruence).
Qed.

(** A store of [ld]-equal memory into the current frame does not show. *)
Lemma frame_unchanged (k : kernel D) m r x :
  (forall x, 0x8000000 <= x < 0x8400000 -> ld m x = ld (k_mem k) x) -> 0x8000000 <= x < 0x8400000 ->
  u8 ((default ∅ (<[cur_space k := um m]> (k_frames k) !! r)).[x]) = u8 ((default ∅ (k_frames k !! r)).[x]).
Proof.
  intros Hag Hx. destruct (decide (cur_space k = r)) as [<-|Hne].
  - rewrite lookup_insert_eq. cbn. specialize (Hag x Hx). unfold ld, k_mem in Hag. cbn [um km] in Hag.
    assert (E : in_user x = true) by (unfold in_user, USER_WINDOW_START, USER_WINDOW_END; by decide_b).
    by rewrite E in Hag.
  - by rewrite lookup_insert_ne.
Qed.
End load.

Section executed.
Context {D : Type} `{Machine D} `{LayoutLaws}.
Implicit Types k : kernel D.

Lemma started_executed fr k p q u m2 m3 c a :
  0 <= p < MAX_PID -> p <> q -> tasks_pid_new (k_pid_usage k) = (q, u) -> 1 <= q < MAX_PID ->
  cr3 (k_paging k) = dir_addr p -> exec_frame (k_fs k) (k_mem k) fr ->
  (forall x, ~ in_locals fr x -> ld m2 x = ld (k_mem k) x) ->
  (forall x, ~ in_locals fr x -> ~ (0x8048000 <= x < 0x8400000) -> ld m3 x = ld (switched_mem k m2 q) x) ->
  cstr m3 (f_fargs fr) a -> bytes m3 0x8048000 (length (loaded c)) = loaded c ->
  executed k (started k fr p q u m2 m3) fr p q c a.
Proof.
  intros Hp Hpq Epid Hq Hcr Hf Ho2 Ho3 Ha Hprog.
  assert (Hne : get_pcb p <> get_pcb q) by (intros E; apply get_pcb_inj in E; unfold MAX_PID in *; lia).
  assert (Hpg : k_paging (started k fr p q u m2 m3) = switch_paging k q) by reflexivity.
  assert (Hcq : cr3 (k_paging (started k fr p q u m2 m3)) = dir_addr q)
    by (rewrite Hpg; apply switch_paging_cr3; lia).
  assert (Hm : k_mem (started k fr p q u m2 m3) = m3).
  { unfold k_mem. rewrite (cur_space_dir _ _ Hcq). cbn [k_km k_frames started].
    rewrite lookup_insert_eq. by destruct m3. }
  assert (Hpq' : pcb_at (started k fr p q u m2 m3) (get_pcb q) = new_pcb k m3 fr p q).
  { unfold pcb_at. cbn [k_pcbs started]. by rewrite lookup_insert_ne, lookup_insert_eq. }
  assert (Hloc : forall x, 0x8000000 <= x -> ~ in_locals fr x).
  { intros x Hx. rewrite in_locals_iff. destruct (exec_frame_facts _ _ _ Hf) as (_ & _ & _ & _ & _ & _ & Hw & _).
    unfold USER_WINDOW_START in *. lia. }
  pose proof (strcpy_args_head m3 (f_fargs fr)
    (set_process (pcb_init (pcb_at k (get_pcb q))).2 q (get_pcb q + KERNEL_STACK_SIZE - 4)
       (Pcb.term (pcb_at k (get_pcb p))) (get_pcb p))) as (He & Hpar & _ & Hesp & _ & Hpid).
  split.
  - pose proof (tasks_pid_new_spec (k_pid_usage k)) as Hs. rewrite Epid in Hs.
    destruct Hs as [(? & ? & ? & _)|(? & _)]; [done|lia].
  - split; [exact Hpg|exact Hcq].
  - by rewrite Hm.
  - rewrite Hpq'. unfold new_pcb. rewrite Hpid, Hpar, Hesp. split_and!; [done|done|apply stack_top; lia|].
    intros i Hi. unfold elem at 1. rewrite He. by apply pcb_init_elem.
  - intros Hl. rewrite Hpq'. unfold new_pcb.
    destruct (strcpy_args_spec m3 (f_fargs fr) a
      (set_process (pcb_init (pcb_at k (get_pcb q))).2 q (get_pcb q + KERNEL_STACK_SIZE - 4)
         (Pcb.term (pcb_at k (get_pcb p))) (get_pcb p)) Ha Hl) as (H1' & -> & _). by split.
  - unfold pcb_at at 1. cbn [k_pcbs started]. by rewrite lookup_insert_eq.
  - intros b Hbp Hbq. unfold pcb_at. cbn [k_pcbs started]. by rewrite !lookup_insert_ne.
  - intros r Hr. apply replace_scheduled; lia.
  - done.
  - intros x Hx Hl. rewrite Hm, Ho3, ld_switched_mem, Ho2 by (done || unfold USER_WINDOW_START in *; lia || by apply below_window).
    done.
  - intros r x Hr Hx. cbn [k_frames started]. rewrite lookup_insert_ne by done. apply frame_unchanged; [|done].
    intros y Hy. apply Ho2, Hloc. lia.
  - done.
  - by eexists.
Qed.
(** The parse only touches the local variables. *)
Lemma executed_parsed k m0 k' fr p q c a :
  exec_frame (k_fs k) (k_mem k) fr -> (forall x, ~ in_locals fr x -> ld m0 x = ld (k_mem k) x) ->
  executed (with_mem k m0) k' fr p q c a -> executed k k' fr p q c a.
Proof.
  intros Hf Ho [E1 E2 E3 E4 E5 E6 E7 E8 E9 E10 E11 E12 E13]. split; try assumption.
  - intros x Hx Hl. rewrite E10 by done. rewrite k_mem_with_mem. by apply Ho.
  - intros r x Hr Hx. rewrite E11 by done. cbn [k_frames with_mem]. apply frame_unchanged; [|done].
    intros y Hy. apply Ho. rewrite in_locals_iff.
    destruct (exec_frame_facts _ _ _ Hf) as (_ & _ & _ & _ & _ & _ & Hw & _). unfold USER_WINDOW_START in *. lia.
Qed.

(** A program that can be started: [name] is the ELF file [c], with an entry point. *)
Record executable (f : fs) (m : mem) (name c : list Z) (i : Z) : Prop := {
  xf_ok : image_ok f m;
  xf_name : names f m name i;
  xf_inode : 0 <= inode_index m (dentry_directory f i) < inode_num m (boot_block f);
  xf_content : file_content f m (inode_index m (dentry_directory f i)) = c;
  xf_length : (28 <= length c)%nat;
  xf_magic : take 4 c = [0x7f; 0x45; 0x4c; 0x46];
  xf_entry : entry_of c <> -1
}.

Lemma executable_stable f m m' name c i :
  (length name <= 32)%nat -> same_image f m m' -> executable f m name c i -> executable f m' name c i.
Proof.
  intros Hl Hs [H1' H2' H3' H4' H5' H6' H7']. 
  assert (Eino : inode_index m' (dentry_directory f i) = inode_index m (dentry_directory f i)).
  { destruct (dentry_in_image f m i H1' (proj1 H2')). apply inode_index_ext. intros x Hx. apply Hs. lia. }
  split; try assumption.
  - by apply (image_ok_stable f m m').
  - by apply (names_stable f m m').
  - by rewrite Eino, (inode_num_stable f m m' Hs).
  - by rewrite Eino, (file_content_stable f m m' H1' Hs).
Qed.

(** The caller: process [p] runs in its address space, a pid is free, and the frame is in place. *)
Record caller k (fr : frame) (p : Z) : Prop := {
  ca_runs : runs_as k p;
  ca_live : p = 0 \/ p ∈ live (k_pid_usage k);
  ca_free : live (k_pid_usage k) <> pid_space;
  ca_space : cr3 (k_paging k) = dir_addr p;
  ca_frame : exec_frame (k_fs k) (k_mem k) fr
}.

Lemma locals_same_image f m m' fr :
  exec_frame f m fr -> (forall x, ~ in_locals fr x -> ld m' x = ld m x) -> same_image f m m'.
Proof.
  intros Hf Ho x Hx. apply Ho. rewrite in_locals_iff.
  pose proof (exec_frame_facts _ _ _ Hf) as (Hd & Hm & Hld & He & Hfn & Hfa & _).
  unfold off_image in *. lia.
Qed.

(** A command that has been parsed. *)
Lemma execute_parsed fr command k p m0 name c i a :
  caller k fr p -> command <> 0 ->
  parse_command (k_mem k) command (f_fname fr) (f_fargs fr) = Some (Some m0) ->
  cstr m0 (f_fname fr) name -> (length name < 32)%nat -> cstr m0 (f_fargs fr) a -> Z.of_nat (length a) < 128 ->
  (forall x, ~ in_locals fr x -> ld m0 x = ld (k_mem k) x) ->
  executable (k_fs k) (k_mem k) name c i ->
  exists q k', syscall_execute fr command k = Some (SUser (entry_of c) k') /\ executed k k' fr p q c a.
Proof.
  intros [Hr Hlv Hfree Hcr Hf] Hc0 Hparse Hn Hnl Ha Hal Ho Hx.
  pose proof (locals_same_image _ _ _ _ Hf Ho) as Hs.
  apply (executable_stable _ _ m0 name c i ltac:(lia) Hs) in Hx. pose proof (exec_frame_stable _ _ _ _ Hs Hf) as Hf0.
  destruct Hx as [Hok Hi Hino Hc Hl Hmag He].
  destruct (exec_checks _ _ _ name i c Hok Hf0 Hn Hi Hino Hc ltac:(lia)) as (m1 & m2 & r & E1 & E2 & Hr0 & Ho2).
  apply Hr0 in Hmag. subst r.
  destruct (tasks_pid_new (k_pid_usage k)) as [q u] eqn:Epid.
  pose proof (tasks_pid_new_spec (k_pid_usage k)) as Hs'. rewrite Epid in Hs'.
  destruct Hs' as [(Hq & Hnew & _)|(_ & ? & _)]; [|done].
  assert (Hpq : p <> q) by (intros ->; destruct Hlv as [->|]; [lia|done]).
  pose proof (runs_as_curr k p Hr) as Hcu. destruct Hr as (Hp & _ & Hpid).
  set (k0 := with_mem k m0) in *.
  assert (Hm0 : k_mem k0 = m0) by apply k_mem_with_mem.
  destruct (exec_load (k_fs k) m0 (switched_mem k0 m2 q) fr name i c) as (m3 & E4 & Hby & Ho3); try assumption.
  { intros x Hx Hxd Hxm. rewrite ld_switched_mem by (by apply below_window). by apply Ho2. }
  exists q, (started k0 fr p q u m2 m3). split.
  - unfold syscall_execute. rewrite (proj2 (Z.eqb_neq _ _) Hc0), Hparse. f_equal.
    apply (start_program_ok fr k0 p q u m1 m2 m3 (entry_of c)); try assumption; by rewrite Hm0.
  - apply (executed_parsed k m0); [done|done|]. fold k0.
    apply started_executed; try assumption; try (by rewrite Hm0).
    + intros x Hx. rewrite Hm0. apply Ho2; intros ?; apply Hx, in_locals_iff; lia.
    + intros x Hx Hw. apply Ho3; [done|..]; intros ?; apply Hx, in_locals_iff; lia.
    + apply (cstr_ext m0); [|done]. intros x Hx.
      pose proof (exec_frame_facts _ _ _ Hf) as (_ & _ & _ & _ & _ & _ & Hw & _ & _ & _ & A1 & A2 & A3 & A4 & _).
      unfold USER_WINDOW_START in *.
      rewrite Ho3 by lia. rewrite ld_switched_mem by (apply below_window; unfold USER_WINDOW_START; lia).
      apply Ho2; lia.
Qed.
End executed.

(** The command line [l] at [command] does not overlap the arrays it is parsed into. *)
Definition command_line (m : mem) (fr : frame) (command : Z) (l : list Z) : Prop :=
  cstr m command l /\ command <> 0 /\
  (command + Z.of_nat (length l) < f_fname fr \/ f_fname fr + 32 <= command) /\
  (command + Z.of_nat (length l) < f_fargs fr \/ f_fargs fr + 128 <= command).

Lemma command_line_frame f m fr command l :
  exec_frame f m fr -> command_line m fr command l ->
  parse_frame command (Z.of_nat (length l)) (f_fname fr) (f_fargs fr).
Proof.
  intros Hf (_ & _ & Hc1 & Hc2).
  pose proof (exec_frame_facts _ _ _ Hf) as (_ & _ & _ & _ & Hfn & Hfa & _ & Hap & _).
  unfold off_image in *. split; lia.
Qed.

(** A command line with arguments is executed. *)
Lemma execute_command_line {D} `{Machine D} `{LayoutLaws} fr command (k : kernel D) p name a c i :
  caller k fr p -> executable (k_fs k) (k_mem k) name c i ->
  command_line (k_mem k) fr command (name ++ 32 :: a) ->
  Forall (fun ch => ch <> 32) name -> (length name < 32)%nat -> Z.of_nat (length a) < 128 ->
  exists q k', syscall_execute fr command k = Some (SUser (entry_of c) k') /\ executed k k' fr p q c a.
Proof.
  intros Hca Hx Hcl Hsp Hn Ha. pose proof (ca_frame _ _ _ Hca) as Hf.
  destruct (parse_command_args (k_mem k) command (f_fname fr) (f_fargs fr) name a) as (m0 & Hp & Hc1 & Hc2 & Ho).
  - apply Hcl.
  - done.
  - unfold BUFFER_LENGTH. lia.
  - done.
  - by eapply command_line_frame.
  - apply (execute_parsed fr command k p m0 name c i a); try assumption; [apply Hcl|].
    intros x Hl. apply Ho; intros ?; apply Hl, in_locals_iff; lia.
Qed.

(** ** Properties: execute *)

(** C5: [syscall_execute] with a command line "name args" for an executable file starts it in a
    new process.  The process has a fresh identifier, its own address space is loaded and holds
    the program (up to the window's size) at 0x8048000, and execution continues at the entry
    point of the file.  Its control block has the terminal's descriptors, the caller as parent,
    the caller's terminal and the argument string (of at most 99 bytes); it is scheduled in the
    place of the caller, whose registers are saved.  Nothing else changes: no other control
    block, no other process's memory, and no kernel memory but the local variables. *)
Theorem execute_starts_program {D} `{Machine D} `{LayoutLaws} fr command (k : kernel D) p name a c i :
  caller k fr p -> executable (k_fs k) (k_mem k) name c i ->
  command_line (k_mem k) fr command (name ++ 32 :: a) ->
  Forall (fun ch => ch <> 32) name -> (length name < 32)%nat -> Z.of_nat (length a) < 128 ->
  exists q k', syscall_execute fr command k = Some (SUser (entry_of c) k') /\ executed k k' fr p q c a.
Proof. apply execute_command_line. Qed.

(** A command line without a space also starts its program, but the new process does not get
    an empty argument string: the terminator goes one byte before the length of the name, so its
    arguments are whatever the uninitialised array holds up to there. *)
Theorem execute_without_arguments {D} `{Machine D} `{LayoutLaws} fr command (k : kernel D) p name c i :
  caller k fr p -> executable (k_fs k) (k_mem k) name c i ->
  command_line (k_mem k) fr command name ->
  Forall (fun ch => ch <> 32) name -> (0 < length name < 32)%nat ->
  exists q k' a, syscall_execute fr command k = Some (SUser (entry_of c) k') /\ executed k k' fr p q c a /\
    (length a < length name)%nat /\ a = bytes (k_mem k) (f_fargs fr) (length a) /\
    (length a = (length name - 1)%nat \/ ld (k_mem k) (f_fargs fr + Z.of_nat (length a)) = 0).
Proof.
  intros Hca Hx Hcl Hsp Hn. pose proof (ca_frame _ _ _ Hca) as Hf.
  destruct (parse_command_noargs (k_mem k) command (f_fname fr) (f_fargs fr) name) as (m0 & Hp & Hc1 & H0' & Ho).
  - apply Hcl.
  - done.
  - unfold BUFFER_LENGTH. lia.
  - by eapply command_line_frame.
  - pose proof (exec_frame_facts _ _ _ Hf) as (_ & _ & _ & _ & _ & _ & _ & Hap & _).
    set (a := bytes m0 (f_fargs fr) (Z.to_nat (strlen m0 (f_fargs fr)))).
    assert (Hac : cstr m0 (f_fargs fr) a) by apply strlen_cstr.
    assert (Hal : (length a < length name)%nat).
    { destruct (Nat.lt_ge_cases (length a) (length name)) as [|Hge]; [done|]. exfalso.
      destruct (cstr_nth _ _ _ (Z.of_nat (length name) - 1) Hac ltac:(lia)) as [_ Hnz]. apply Hnz.
      rewrite <- H0'. f_equal. lia. }
    destruct (execute_parsed fr command k p m0 name c i a Hca) as (q & k' & E & Hexe);
      try assumption; try lia; [apply Hcl| |].
    { intros x Hl. apply Ho; [intros ?; apply Hl, in_locals_iff; lia|]. intros ->. apply Hl, in_locals_iff. lia. }
    exists q, k', a. split; [done|]. split; [done|]. split; [done|]. split.
    + apply cstr_spec in Hac as (Hb & _). rewrite <- Hb at 1. apply bytes_ext. intros j Hj. apply Ho; lia.
    + destruct (Nat.eq_dec (length a) (length name - 1)%nat) as [|Hne]; [by left|right].
      rewrite <- (cstr_end _ _ _ Hac). symmetry. apply Ho; lia.
Qed.


(** ** Lemmas: halt *)

Section halt.
Context {D : Type} `{MachineLaws D} `{LayoutLaws}.
Implicit Types k : kernel D.

(** The descriptors that [pcb_open] hands out carry one of these tables. *)
Definition opened_driver (t : jmp_tbl) : Prop := t = rtc_driver \/ t = file_driver \/ t = dir_driver.

Definition open_drivers (p : pcb) : Prop :=
  forall i, 2 <= i < FD_MAX -> fd_open p i -> opened_driver (file_operation_jmp_tbl (elem p i)).

(** The uninitialised pointer of [file_close] hits none of the sixteen control blocks. *)
Definition wild_elsewhere (fr : frame) : Prop := forall r, 0 <= r < MAX_PID -> f_wild_pcb fr <> get_pcb r.

(** [k'] is [k] with descriptors from 2 to [j] of the block [c] closed. *)
Record closed_to k k' (fr : frame) (c j : Z) : Prop := {
  ct_same : k' = with_pcbs k (k_pcbs k');
  ct_blocks : forall b, b <> c -> b <> f_wild_pcb fr -> pcb_at k' b = pcb_at k b;
  ct_block : same_but_elements (pcb_at k c) (pcb_at k' c);
  ct_closed : forall i, 2 <= i < j -> ~ fd_open (pcb_at k' c) i;
  ct_kept : forall i, i < 2 \/ j <= i -> elem (pcb_at k' c) i = elem (pcb_at k c) i
}.

Lemma close_step fr k c i :
  curr k = c -> c <> f_wild_pcb fr -> 2 <= i < FD_MAX -> fd_open (pcb_at k c) i ->
  opened_driver (file_operation_jmp_tbl (elem (pcb_at k c) i)) ->
  exists r k', syscall_close fr i k = Some (r, k') /\ k' = with_pcbs k (k_pcbs k') /\
    (forall b, b <> c -> b <> f_wild_pcb fr -> pcb_at k' b = pcb_at k b) /\
    pcb_at k' c = set_elem (pcb_at k c) i (set_flags (elem (pcb_at k c) i) 0).
Proof.
  intros Hc Hw Hi Ho Hd. unfold syscall_close, fd_open in *. rewrite Hc.
  rewrite (proj2 (Z.leb_gt _ _)), (proj2 (Z.ltb_ge _ _)), (proj2 (Z.eqb_neq _ _) Ho) by lia. cbn [orb].
  unfold pcb_close. rewrite u8_small by (unfold FD_MAX in *; lia). rewrite (proj2 (Z.leb_gt _ _)) by lia. cbn [snd].
  set (k1 := set_pcb k c _).
  assert (Hk1 : forall b, b <> c -> pcb_at k1 b = pcb_at k b) by (intros; by apply pcb_at_set_ne).
  assert (Hc1 : pcb_at k1 c = set_elem (pcb_at k c) i (set_flags (elem (pcb_at k c) i) 0)) by apply pcb_at_set_eq.
  rewrite Hc1, elem_set_elem_eq. cbn [file_operation_jmp_tbl set_flags].
  destruct Hd as [->|[->| ->]].
  - exists (rtc_close i 0 0), k1. split; [done|]. split; [done|]. split; [auto|done].
  - destruct (file_close _ _ _ _) as [r p']. eexists r, (set_pcb k1 (f_wild_pcb fr) p'). split; [done|].
    split; [done|]. split.
    + intros b Hb Hb'. rewrite pcb_at_set_ne by congruence. by apply Hk1.
    + by rewrite pcb_at_set_ne by congruence.
  - exists dir_close, k1. split; [done|]. split; [done|]. split; [auto|done].
Qed.

Lemma close_all_spec fr k c :
  curr k = c -> c <> f_wild_pcb fr -> open_drivers (pcb_at k c) ->
  exists k', close_all fr k = Some k' /\ closed_to k k' fr c FD_MAX.
Proof.
  intros Hc Hw Hd. unfold close_all.
  apply (for_inv (fun j ok => exists k', ok = Some k' /\ closed_to k k' fr c j)); [by vm_compute|..].
  { exists k. split; [done|]. split; [by destruct k|done|apply same_but_elements_refl|intros; lia|done]. }
  intros i ok Hi (k1 & -> & [Hs Hb Hse Hcl Hk]).
  assert (Hc1 : curr k1 = c) by (rewrite Hs; exact Hc). rewrite Hc1.
  destruct (Z.eqb_spec (flags (elem (pcb_at k1 c) i)) 0) as [E0|E0].
  - exists k1. split; [done|]. split; [done|done|done|..].
    + intros j Hj. destruct (Z.eq_dec j i) as [->|]; [|apply Hcl; lia]. unfold fd_open. lia.
    + intros j Hj. apply Hk. lia.
  - destruct (close_step fr k1 c i Hc1 Hw Hi E0) as (r & k2 & -> & Hs2 & Hb2 & Hc2).
    { rewrite Hk by lia. apply Hd; [done|]. unfold fd_open. by rewrite <- Hk by lia. }
    exists k2. split; [done|]. split.
    + rewrite Hs2, Hs. done.
    + intros b Hb1 Hbw. rewrite Hb2, Hb by done. done.
    + rewrite Hc2. by apply same_but_elements_set.
    + intros j Hj. rewrite Hc2. unfold fd_open. rewrite elem_set_elem.
      destruct (Z.eqb_spec i j) as [->|]; [cbn; lia|]. apply Hcl. lia.
    + intros j Hj. rewrite Hc2, elem_set_elem_ne by lia. apply Hk. lia.
Qed.
(** What [syscall_halt] does when [q] has the parent [p]. *)
Record halted k k' (fr : frame) (p q : Z) : Prop := {
  ha_cpu : k_cpu k' = Cpu (esp_reg (pcb_at k (get_pcb p))) (ebp_reg (pcb_at k (get_pcb p)));
  ha_space : cr3 (k_paging k') = dir_addr p;
  ha_tss : k_tss k' = Tss KERNEL_DS (KERNEL_STACK p);
  ha_pid : live (k_pid_usage k') = live (k_pid_usage k) ∖ {[q]};
  ha_sched : forall r, 0 <= r < MAX_PID ->
    scheduled (k_sched k') r <-> r = p \/ (r <> q /\ scheduled (k_sched k) r);
  ha_parent : pcb_at k' (get_pcb p) = set_child (pcb_at k (get_pcb p)) 0;
  ha_blocks : forall r, 0 <= r < MAX_PID -> r <> p -> r <> q -> pcb_at k' (get_pcb r) = pcb_at k (get_pcb r);
  ha_closed : forall i, 2 <= i < FD_MAX -> ~ fd_open (pcb_at k' (get_pcb q)) i;
  ha_memory : k_km k' = k_km k /\ k_frames k' = k_frames k /\ k_fs k' = k_fs k;
  ha_interrupts : get_if (dev (k_terms k')) = true;
  ha_screens : exists d, k_terms k' = set_dev (k_terms k) d
}.

(** Process [q] runs, and has the parent [p]. *)
Record child_of k (fr : frame) (p q : Z) : Prop := {
  co_runs : runs_as k q;
  co_parent : parent_pcb (pcb_at k (get_pcb q)) = get_pcb p;
  co_pid : 0 <= p < MAX_PID /\ p <> q /\ pid (pcb_at k (get_pcb p)) = p;
  co_drivers : open_drivers (pcb_at k (get_pcb q));
  co_wild : wild_elsewhere fr
}.

Lemma halt_spec fr status k p q :
  child_of k fr p q -> exists k', syscall_halt fr status k = Some (SRet 0 k') /\ halted k k' fr p q.
Proof.
  intros [Hr Hpar (Hp & Hpq & Hpid) Hdr Hw]. pose proof (runs_as_curr k q Hr) as Hcu.
  destruct Hr as (Hq & _ & Hqid).
  assert (Hne : get_pcb p <> get_pcb q) by (intros E; apply get_pcb_inj in E; lia).
  assert (Hnz : get_pcb p <> 0).
  { rewrite get_pcb_eq by done. unfold KERNEL_MEM_END, KERNEL_STACK_SIZE, MAX_PID in *. lia. }
  assert (S : s16 q = q) by (unfold s16, MAX_PID in *; rewrite Z.mod_small; lia).
  unfold syscall_halt. set (k0 := set_k_if k false).
  change (curr k0) with (curr k). rewrite Hcu. change (pcb_at k0) with (pcb_at k).
  rewrite Hpar, (proj2 (Z.eqb_neq _ _) Hnz).
  destruct (close_all_spec fr k0 (get_pcb q)) as (k1 & -> & [Hs Hb Hse Hcl Hk]); [exact Hcu|by apply not_eq_sym, Hw|exact Hdr|].
  assert (H1p : pcb_at k1 (get_pcb p) = pcb_at k (get_pcb p)) by (apply Hb; [done|by apply not_eq_sym, Hw]).
  assert (H1q : pid (pcb_at k1 (get_pcb q)) = q) by (rewrite Hse; exact Hqid).
  set (k2 := set_pcb k1 (get_pcb p) _).
  assert (H2p : pcb_at k2 (get_pcb p) = set_child (pcb_at k (get_pcb p)) 0)
    by (unfold k2; by rewrite pcb_at_set_eq, H1p).
  assert (H2q : pcb_at k2 (get_pcb q) = pcb_at k1 (get_pcb q)) by (by apply pcb_at_set_ne).
  rewrite H2q, H1q, S. set (k3 := with_pid_usage _ _).
  change (pcb_at k3) with (pcb_at k2). rewrite H2p. cbn [pid set_child]. rewrite Hpid. set (k4 := with_sched k3 _).
  change (pcb_at k4) with (pcb_at k2). rewrite H2q, H1q. set (k5 := with_sched k4 _).
  change (pcb_at k5) with (pcb_at k2). rewrite H2p. cbn [pid set_child]. rewrite Hpid.
  unfold paging_update_control. rewrite (proj2 (Z.leb_gt _ _)), (proj2 (Z.ltb_ge _ _)) by lia. cbn [orb Z.eqb negb].
  eexists. split; [reflexivity|]. split.
  - cbn [k_cpu set_k_if with_cpu with_terms]. change (pcb_at (with_tss _ _)) with (pcb_at k2). by rewrite H2p.
  - by apply reload_cr3_inv.
  - change (k_tss _) with (Tss KERNEL_DS (KERNEL_STACK (pid (pcb_at k2 (get_pcb p))))). rewrite H2p. cbn. by rewrite Hpid.
  - change (live (tasks_pid_free q (k_pid_usage k1)) = live (k_pid_usage k) ∖ {[q]}).
    rewrite live_free. by rewrite Hs.
  - intros r Hrr. change (scheduled (unschedule_task q (schedule_task p (k_sched k1))) r <-> r = p \/ (r <> q /\ scheduled (k_sched k) r)).
    rewrite replace_scheduled by (done || congruence). by rewrite Hs.
  - exact H2p.
  - intros r Hrr Hrp Hrq. change (pcb_at k2 (get_pcb r) = pcb_at k (get_pcb r)).
    unfold k2. rewrite pcb_at_set_ne by (intros E; apply get_pcb_inj in E; lia).
    apply Hb; [intros E; apply get_pcb_inj in E; lia|by apply not_eq_sym, Hw].
  - change (forall i, 2 <= i < FD_MAX -> ~ fd_open (pcb_at k2 (get_pcb q)) i). rewrite H2q. exact Hcl.
  - change (k_km k1 = k_km k /\ k_frames k1 = k_frames k /\ k_fs k1 = k_fs k). by rewrite Hs.
  - cbn. apply get_set_if.
  - change (exists d, set_dev (k_terms k1) (set_if true (dev (k_terms k1))) = set_dev (k_terms k) d). rewrite Hs. by eexists.
Qed.
End halt.

(** ** Properties: halt *)

(** C21: [syscall_halt] of a process with a parent always returns, in the parent: its registers,
    kernel stack and address space are the parent's, the identifier is free again, the parent
    is scheduled in the place of the process, all of the process's files are closed, and no
    memory and no other control block has changed.  The value the parent's call returns is 0
    whatever the status. *)
Theorem halt_returns_to_parent {D} `{MachineLaws D} `{LayoutLaws} fr status (k : kernel D) p q :
  child_of k fr p q ->
  exists k', syscall_halt fr status k = Some (SRet 0 k') /\ halted k k' fr p q.
Proof. apply halt_spec. Qed.


(** ** A process on the small image

    Process 1 runs, with four command lines in its program window. *)

Definition sample_frame : frame :=
  Frame 0x7FD000 0x7FD020 0x7FD0A0 0x7FD0E0 0x7FD120 0x7FD124 0 0x7F0200 0 7 0x7FD140.

Definition sample_window : arr :=
  um (st_list (st_list (st_list (st_list mem_empty 0x8100000 (chars "sh hi there")) 0x8100100 (chars "sh"))
        0x8100200 (chars "nosuch file")) 0x8100300 (chars "rtc")).

Definition sample_exec : kernel sim :=
  Kernel (km sample_image) (<[1 := sample_window]> ∅)
    (paging_update_control 1 (paging_allocate 1 (paging_init (paging_boot 1 0 0))).2).2
    (arr_at 0 [0; 1]) (arr_at 0 [0; 1])
    (<[get_pcb 1 := Pcb ∅ 0 0 0 0 1 ∅ 0 2 0 0 0]> ∅)
    sample_terms sample_fs 0 (Tss 0 0) (Cpu 0x7FCF00 0x7FCF80).

Lemma sample_exec_mem : k_mem sample_exec = Mem (km sample_image) sample_window.
Proof.
  unfold k_mem. assert (E : cur_space sample_exec = 1) by (by vm_compute). rewrite E.
  unfold sample_exec. cbn [k_km k_frames]. by rewrite lookup_insert_eq.
Qed.

Lemma sample_exec_image : same_image sample_fs sample_image (k_mem sample_exec).
Proof.
  assert (E : image_end sample_fs sample_image = 0x414000) by (by vm_compute).
  intros x Hx. rewrite E in Hx. cbn [boot_block sample_fs] in Hx. rewrite sample_exec_mem. unfold ld.
  rewrite below_window by (unfold USER_WINDOW_START; lia). done.
Qed.

Lemma sample_executable : executable sample_fs (k_mem sample_exec) (chars "sh") sample_elf 2.
Proof.
  apply (executable_stable sample_fs sample_image); [apply Nat.leb_le; by vm_compute|apply sample_exec_image|].
  split; [apply sample_image_ok|apply sample_names_sh|by vm_compute|by vm_compute|apply Nat.leb_le; by vm_compute|
    by vm_compute|by vm_compute].
Qed.

Lemma sample_caller : caller sample_exec sample_frame 1.
Proof.
  split; [by vm_compute| |by vm_compute|by vm_compute|].
  - right. apply elem_of_live. by vm_compute.
  - apply (exec_frame_stable sample_fs sample_image); [apply sample_exec_image|]. split.
    + unfold locals. repeat apply List.Forall_cons; [..|apply List.Forall_nil];
        (split; [apply sample_off; by vm_compute|by vm_compute]).
    + unfold locals. repeat apply List.FOP_cons; [..|apply List.FOP_nil];
        repeat apply List.Forall_cons; try apply List.Forall_nil; left; by vm_compute.
    + by vm_compute.
Qed.

Lemma execute_starts_program_witness :
  exists q k', syscall_execute sample_frame 0x8100000 sample_exec = Some (SUser 0x8048074 k') /\
    cr3 (k_paging k') = dir_addr q /\ has_args (pcb_at k' (get_pcb q)) (chars "hi there").
Proof.
  destruct (execute_starts_program sample_frame 0x8100000 sample_exec 1 (chars "sh") (chars "hi there") sample_elf 2
    sample_caller sample_executable) as (q & k' & E & Hex).
  - rewrite sample_exec_mem. split; [by vm_compute|]. split; [lia|]. split; right; by vm_compute.
  - apply List.Forall_forall. intros ch Hch. cbn in Hch. lia.
  - apply Nat.ltb_lt. by vm_compute.
  - by vm_compute.
  - exists q, k'. split; [exact E|]. split; [apply (ex_space _ _ _ _ _ _ _ Hex)|].
    apply (ex_args _ _ _ _ _ _ _ Hex). by vm_compute.
Defined.

Lemma execute_without_arguments_witness :
  exists k', syscall_execute sample_frame 0x8100100 sample_exec = Some (SUser 0x8048074 k').
Proof.
  destruct (execute_without_arguments sample_frame 0x8100100 sample_exec 1 (chars "sh") sample_elf 2
    sample_caller sample_executable) as (q & k' & a & E & _).
  - rewrite sample_exec_mem. split; [by vm_compute|]. split; [lia|]. split; right; by vm_compute.
  - apply List.Forall_forall. intros ch Hch. cbn in Hch. lia.
  - split; apply Nat.ltb_lt; by vm_compute.
  - exists k'. exact E.
Defined.

Definition returned {D} (o : option (sys_result D)) : bool := match o with Some (SRet _ _) => true | _ => false end.


Definition sample_child : kernel sim :=
  with_cpu (set_pcb (with_paging sample_exec (switch_paging sample_exec 2)) (get_pcb 2)
    (set_process (pcb_init pcb0).2 2 (KERNEL_STACK 2) 2 (get_pcb 1)))
    (Cpu (KERNEL_STACK 2 - 64) (KERNEL_STACK 2 - 32)).

Lemma sample_wild : wild_elsewhere sample_frame.
Proof.
  intros r Hr. rewrite get_pcb_eq by done. cbn [f_wild_pcb sample_frame].
  unfold KERNEL_MEM_END, KERNEL_STACK_SIZE, MAX_PID in *. lia.
Qed.

(** A block as [syscall_execute] makes it has no descriptors to close. *)
Lemma fresh_drivers p :
  (forall i, 0 <= i < FD_MAX -> elem p i = if i <? 2 then Fde terminal_driver 0 0 1 else fde0) -> open_drivers p.
Proof.
  intros He i Hi Ho. unfold fd_open in Ho. rewrite He, (proj2 (Z.ltb_ge _ _)) in Ho by lia. by destruct Ho.
Qed.

Lemma sample_child_of : child_of sample_child sample_frame 1 2.
Proof.
  split; [by vm_compute|by vm_compute|by vm_compute| |apply sample_wild].
  apply fresh_drivers. intros i Hi.
  change (pcb_at sample_child (get_pcb 2)) with (set_process (pcb_init pcb0).2 2 (KERNEL_STACK 2) 2 (get_pcb 1)).
  by apply pcb_init_elem.
Qed.

Lemma halt_returns_to_parent_witness :
  exists k', syscall_halt sample_frame 5 sample_child = Some (SRet 0 k') /\ cr3 (k_paging k') = dir_addr 1.
Proof.
  destruct (halt_returns_to_parent sample_frame 5 sample_child 1 2 sample_child_of) as (k' & E & Hh).
  exists k'. split; [exact E|exact (ha_space _ _ _ _ _ Hh)].
Defined.

(** The program that [sample_exec] starts, as it enters the kernel to halt. *)
Lemma sample_call :
  exists q (k1 k2 : kernel sim), executed sample_exec k1 sample_frame 1 q sample_elf (chars "hi there") /\
    child_of k2 sample_frame 1 q /\ pcb_at k2 (get_pcb 1) = pcb_at k1 (get_pcb 1) /\ k_sched k2 = k_sched k1 /\
    ~ scheduled (k_sched sample_exec) q.
Proof.
  destruct (parse_command_args (k_mem sample_exec) 0x8100000 0x7FD000 0x7FD020 (chars "sh") (chars "hi there"))
    as (m0 & Hp & Hc1 & Hc2 & Ho).
  - rewrite sample_exec_mem. by vm_compute.
  - apply List.Forall_forall. intros ch Hch. cbn in Hch. lia.
  - by vm_compute.
  - by vm_compute.
  - split; cbn; lia.
  - destruct (execute_parsed sample_frame 0x8100000 sample_exec 1 m0 (chars "sh") sample_elf 2 (chars "hi there")
      sample_caller ltac:(lia) Hp Hc1) as (q & k1 & _ & Hex).
    + apply Nat.ltb_lt. by vm_compute.
    + exact Hc2.
    + by vm_compute.
    + intros x Hx. apply Ho; intros ?; apply Hx, in_locals_iff; cbn; lia.
    + apply sample_executable.
    + clear Hp Hc1 Hc2 Ho m0. pose proof (ex_pid _ _ _ _ _ _ _ Hex) as (Hq & Hnew & _).
      destruct (ex_block _ _ _ _ _ _ _ Hex) as (Hid & Hpar & _ & Hel).
      assert (Hq1 : q <> 1) by (intros ->; apply Hnew, elem_of_live; by vm_compute).
      exists q, k1, (with_cpu k1 (Cpu (KERNEL_STACK q - 64) (KERNEL_STACK q - 32))).
      split; [exact Hex|]. split; [|split; [reflexivity|split; [reflexivity|]]].
      * split.
        -- split; [lia|]. split; [|exact Hid]. unfold on_stack. cbn [k_cpu with_cpu esp].
           rewrite <- stack_top by lia. unfold KERNEL_STACK_SIZE. lia.
        -- exact Hpar.
        -- split; [unfold MAX_PID; lia|]. split; [lia|].
           change (pcb_at (with_cpu k1 _) (get_pcb 1)) with (pcb_at k1 (get_pcb 1)).
           rewrite (ex_parent _ _ _ _ _ _ _ Hex). reflexivity.
        -- by apply fresh_drivers.
        -- apply sample_wild.
      * intros [_ Hs]. assert (Hall : forall r, 0 <= r < 16 -> r <> 1 -> (k_sched sample_exec).[r] = 0).
        { intros r Hr Hne. assert (Hb : ((r =? 1) || ((k_sched sample_exec).[r] =? 0)) = true)
            by (apply (check_below 16 (fun r => (r =? 1) || ((k_sched sample_exec).[r] =? 0))); [by vm_compute|exact Hr]).
          apply orb_true_iff in Hb as [Hb|Hb]; [apply Z.eqb_eq in Hb; lia|by apply Z.eqb_eq]. }
        rewrite Hall in Hs by (unfold MAX_PID in *; lia). discriminate Hs.
Qed.

