(* ===== verification/FileCalls.v ===== *)
(** * The file calls, getargs and vidmap

    Properties of the calls of kernel/syscall.c that work on the descriptors and the arguments of
    the calling process: which requests are refused, what a read of a regular file delivers
    through the descriptor, what an open of one leaves in the descriptor table. *)

From S2P Require Import Prelude Mem LibString Console Machine I8259 Rtc Tasks Pcb Fs Paging Termios Kernel Scheduling Syscall Execute.

(** ** Lemmas *)

Section calls.
Context {D : Type} `{Machine D} `{LayoutLaws}.
Implicit Types k : kernel D.

Lemma fd_guard fd lo : fd < lo \/ FD_MAX <= fd -> (FD_MAX <=? fd) || (fd <? lo) = true.
Proof. intros Hf. apply orb_true_iff. rewrite Z.leb_le, Z.ltb_lt. lia. Qed.

Lemma fd_pass fd lo : lo <= fd < FD_MAX -> (FD_MAX <=? fd) || (fd <? lo) = false.
Proof. intros Hf. apply orb_false_iff. rewrite Z.leb_gt, Z.ltb_ge. lia. Qed.

(** A descriptor that cannot be used for reading or writing. *)
Definition bad_fd (p : pcb) (fd : Z) : Prop := fd < 0 \/ FD_MAX <= fd \/ ~ fd_open p fd.

Lemma bad_fd_cases p fd :
  bad_fd p fd -> (fd < 0 \/ FD_MAX <= fd) \/ (0 <= fd < FD_MAX /\ flags (elem p fd) = 0).
Proof. unfold bad_fd, fd_open. intros. destruct (Z.eq_dec (flags (elem p fd)) 0); lia. Qed.

Lemma read_bad fr ev fd buf nbytes k :
  nbytes <> 0 -> bad_fd (pcb_at k (curr k)) fd -> syscall_read fr ev fd buf nbytes k = Some (-1, k).
Proof.
  intros Hn Hb. unfold syscall_read, FD_MIN. rewrite (proj2 (Z.eqb_neq _ _) Hn).
  destruct (bad_fd_cases _ _ Hb) as [Hr|[Hr E]]; [by rewrite fd_guard|].
  rewrite fd_pass, E by done. cbn [orb Z.eqb]. by destruct (fd =? 1).
Qed.

Lemma write_bad fd buf nbytes k :
  bad_fd (pcb_at k (curr k)) fd -> syscall_write fd buf nbytes k = Some (-1, k).
Proof.
  intros Hb. unfold syscall_write, FD_MIN. destruct (bad_fd_cases _ _ Hb) as [Hr|[Hr E]]; [by rewrite fd_guard|].
  rewrite fd_pass, E by done. cbn [orb Z.eqb]. by destruct (nbytes =? 0), (fd =? 0), (buf =? 0).
Qed.

Lemma close_bad fr fd k :
  fd < 2 \/ bad_fd (pcb_at k (curr k)) fd -> syscall_close fr fd k = Some (-1, k).
Proof.
  intros Hb. unfold syscall_close. destruct (Z.lt_ge_cases fd 2); [by rewrite fd_guard by lia|].
  destruct Hb as [|Hb]; [lia|]. destruct (bad_fd_cases _ _ Hb) as [Hr|[Hr E]]; [by rewrite fd_guard by lia|].
  rewrite fd_pass, E by lia. done.
Qed.

(** A read that passes the checks goes to the driver of the descriptor. *)
Lemma read_file_call fr ev fd buf nbytes k :
  0 <= fd < FD_MAX -> fd <> 1 -> nbytes <> 0 -> buf <> 0 -> fd_open (pcb_at k (curr k)) fd ->
  file_operation_jmp_tbl (elem (pcb_at k (curr k)) fd) = file_driver ->
  syscall_read fr ev fd buf nbytes k
  = let '(r, p, m) := file_read (k_fs k) (k_mem k) (pcb_at k (curr k)) fd buf (u32 nbytes) in
    Some (r, set_pcb (with_mem k m) (curr k) p).
Proof.
  intros Hf Hf1 Hn Hb Ho Ht. unfold syscall_read, FD_MIN, fd_open in *.
  rewrite (proj2 (Z.eqb_neq _ _) Hn), fd_pass, (proj2 (Z.eqb_neq _ _) Hf1), (proj2 (Z.eqb_neq _ _) Ho),
    (proj2 (Z.eqb_neq _ _) Hb), Ht by done. done.
Qed.

(** An open of a regular file opens it, and then calls [file_open] again with whatever the stack
    holds. *)
Lemma open_file_call fr filename k fd p m :
  filename <> 0 -> file_open (k_fs k) (k_mem k) (pcb_at k (curr k)) filename (f_dentry fr) = (fd, p, m) ->
  2 <= fd -> file_operation_jmp_tbl (elem p fd) = file_driver ->
  let '(_, p2, m2) := file_open (k_fs k) m
    (if negb (strncmp m (f_rtc_name fr) filename 3 =? -1) then set_rtc_fd p (u8 fd) else p)
    (f_stale fr) (f_dentry fr) in
  exists k2, syscall_open fr filename k = Some (fd, k2) /\ k_mem k2 = m2 /\
    pcb_at k2 (curr k) = p2 /\ (forall b, b <> curr k -> pcb_at k2 b = pcb_at k b) /\
    k_fs k2 = k_fs k /\ k_terms k2 = k_terms k.
Proof.
  intros Hf E Hfd Ht. unfold syscall_open.
  rewrite (proj2 (Z.eqb_neq _ _) Hf), E, (proj2 (Z.eqb_neq fd (-1))) by lia.
  set (k1 := set_pcb (with_mem k m) (curr k) p).
  assert (Em : k_mem k1 = m) by apply (k_mem_with_mem k m). rewrite Em.
  set (k2 := if negb _ then _ else k1). set (p1 := if negb _ then set_rtc_fd p _ else p).
  assert (Hp : pcb_at k2 (curr k) = p1).
  { unfold k2, p1. destruct (negb _).
    - rewrite pcb_at_set_eq. unfold k1. by rewrite pcb_at_set_eq.
    - unfold k1. by rewrite pcb_at_set_eq. }
  assert (Hb : forall b, b <> curr k -> pcb_at k2 b = pcb_at k b).
  { intros b Hb. unfold k2. destruct (negb _).
    - rewrite pcb_at_set_ne by done. unfold k1. by rewrite pcb_at_set_ne.
    - unfold k1. by rewrite pcb_at_set_ne. }
  assert (Em2 : k_mem k2 = m) by (unfold k2; destruct (negb _); exact Em).
  assert (Efs : k_fs k2 = k_fs k) by (unfold k2; by destruct (negb _)).
  assert (Ett : k_terms k2 = k_terms k) by (unfold k2; by destruct (negb _)).
  assert (Ht1 : file_operation_jmp_tbl (elem p1 fd) = file_driver) by (unfold p1; by destruct (negb _)).
  rewrite Hp, Ht1, Em2, Efs.
  destruct (file_open (k_fs k) m p1 (f_stale fr) (f_dentry fr)) as [[fd2 p2] m2].
  eexists. split; [reflexivity|]. split; [apply (k_mem_with_mem k2 m2)|]. split; [by rewrite pcb_at_set_eq|].
  split; [|done]. intros b Hb'. rewrite pcb_at_set_ne by done. by apply Hb.
Qed.
End calls.

(** [file_open] on a string: it takes a descriptor if the string is a name of the directory, and
    does nothing otherwise. *)
Lemma file_open_cases f m p filename l dentry :
  image_ok f m -> cstr m filename l -> off_image f m dentry sizeof_dentry ->
  let '(fd, p', _) := file_open f m p filename dentry in
  ((forall i, 0 <= i < num_directories f -> file_name f m i <> l) /\ p' = p) \/
  ((exists i, names f m l i) /\
   ((2 <= fd < FD_MAX /\ ~ fd_open p fd /\ fd_open p' fd /\ (forall j, j <> fd -> elem p' j = elem p j)) \/
    (p' = p /\ forall j, 2 <= j < FD_MAX -> fd_open p j))).
Proof.
  intros Hok Hn Hd. destruct (read_dentry_by_name_spec f m filename l dentry Hok Hn Hd)
    as [(i & m' & _ & Hi & Hni & Hlow & _)|[E Hno]].
  - assert (Hnm : names f m l i) by (by split).
    pose proof (file_open_found f m p filename l dentry i Hok Hn Hd Hnm) as Ho. cbn zeta in Ho.
    destruct (file_open f m p filename dentry) as [[fd p'] m1]. right. split; [by exists i|].
    destruct Ho as [_ [(? & ? & _ & He & ?)|(_ & ? & ?)]]; [left|by right].
    split_and!; try done; try lia. unfold fd_open. by rewrite He.
  - unfold file_open. rewrite E. by left.
Qed.

(** ** Properties *)



(** Reading a regular file through its descriptor.  [syscall_read] of [n] bytes returns the
    next [n] bytes of the file's contents, or as many as are left, in the buffer, advances the
    descriptor by that count, and changes no other descriptor, no other process's control block
    and no memory outside the buffer. *)
Theorem read_call_reads_file {D} `{Machine D} `{LayoutLaws} fr ev fd buf n (k : kernel D) ino :
  let c := curr k in
  let pos := file_position (elem (pcb_at k c) fd) in
  let chunk := take (Z.to_nat n) (drop (Z.to_nat pos) (file_content (k_fs k) (k_mem k) ino)) in
  image_ok (k_fs k) (k_mem k) -> reading_file (k_fs k) (k_mem k) (pcb_at k c) fd ino ->
  file_operation_jmp_tbl (elem (pcb_at k c) fd) = file_driver ->
  2 <= fd < FD_MAX -> off_image (k_fs k) (k_mem k) buf n -> 0 < n < 2 ^ 31 ->
  exists k', syscall_read fr ev fd buf n k = Some (Z.of_nat (length chunk), k') /\
    bytes (k_mem k') buf (length chunk) = chunk /\ unchanged_outside (k_mem k) (k_mem k') buf n /\
    reading_file (k_fs k') (k_mem k') (pcb_at k' c) fd ino /\
    file_position (elem (pcb_at k' c) fd) = pos + Z.of_nat (length chunk) /\
    (forall j, j <> fd -> elem (pcb_at k' c) j = elem (pcb_at k c) j) /\
    (forall b, b <> c -> pcb_at k' b = pcb_at k b).
Proof.
  cbn zeta. intros Hok Hrd Ht Hfd Hb Hn.
  rewrite read_file_call; [|lia|lia|lia|destruct Hb; lia|apply Hrd|done]. rewrite u32_small by lia.
  destruct (file_read_spec _ _ _ _ _ _ _ Hok Hrd Hb ltac:(lia)) as (p' & m' & -> & Hby & Ho & -> & Hle).
  set (chunk := take _ _) in *. eexists. split; [reflexivity|].
  set (k' := set_pcb _ _ _). assert (Em : k_mem k' = m') by apply (k_mem_with_mem k m').
  assert (Ep : pcb_at k' (curr k) = set_elem (pcb_at k (curr k)) fd (set_file_position (elem (pcb_at k (curr k)) fd)
    (file_position (elem (pcb_at k (curr k)) fd) + Z.of_nat (length chunk)))) by apply pcb_at_set_eq.
  pose proof (outside_same_image _ _ _ _ _ Hb Ho) as Hs. destruct Hrd as (Hop & Hi & Hir & Hpos).
  rewrite Em, Ep. split; [done|]. split; [done|]. split; [|split; [by rewrite elem_set_elem_eq|split]].
  - unfold reading_file, fd_open. rewrite elem_set_elem_eq. change (k_fs k') with (k_fs k).
    rewrite (inode_num_stable _ _ _ Hs), (file_length_stable _ _ _ Hok Hs) by done.
    split; [exact Hop|]. split; [exact Hi|]. split; [done|]. cbn [file_position set_file_position]. lia.
  - intros j Hj. by rewrite elem_set_elem_ne.
  - intros b Hb'. by apply (pcb_at_set_ne (with_mem k m')).
Qed.

(** Opening a regular file.  [syscall_open] of a file of the directory, with a descriptor free,
    returns the smallest free one, set up for the file at position 0.  But the driver's open
    function, which is called without its argument, is [file_open] itself: with a pointer to the
    name of a file where it looks for its argument it takes a second descriptor, which nothing
    will close; only with any other string there are the remaining descriptors left alone. *)
Theorem open_call_opens_file {D} `{Machine D} `{LayoutLaws} fr filename (k : kernel D) l i l2 :
  let c := curr k in let f := k_fs k in let m := k_mem k in let d := dentry_directory f i in
  image_ok f m -> cstr m filename l -> filename <> 0 -> names f m l i -> filetype m d = FILE_TYPE ->
  off_image f m (f_dentry fr) sizeof_dentry -> (exists j, 2 <= j < FD_MAX /\ ~ fd_open (pcb_at k c) j) ->
  cstr m (f_stale fr) l2 -> (length l2 <= 32)%nat ->
  (f_dentry fr + sizeof_dentry <= f_stale fr \/ f_stale fr + Z.of_nat (length l2) < f_dentry fr) ->
  exists fd k', syscall_open fr filename k = Some (fd, k') /\
    2 <= fd < FD_MAX /\ ~ fd_open (pcb_at k c) fd /\ (forall j, 2 <= j < fd -> fd_open (pcb_at k c) j) /\
    elem (pcb_at k' c) fd = Fde file_driver (inode_index m d) 0 1 /\
    ((forall j, 0 <= j < num_directories f -> file_name f m j <> l2) ->
       forall j, j <> fd -> elem (pcb_at k' c) j = elem (pcb_at k c) j) /\
    (forall i2 j, names f m l2 i2 -> j <> fd -> 2 <= j < FD_MAX -> ~ fd_open (pcb_at k c) j ->
       exists fd2, fd2 <> fd /\ 2 <= fd2 < FD_MAX /\ ~ fd_open (pcb_at k c) fd2 /\ fd_open (pcb_at k' c) fd2) /\
    (forall b, b <> c -> pcb_at k' b = pcb_at k b).
Proof.
  cbn zeta. intros Hok Hn H0' Hi Hty Hd (j0 & Hj0 & Hfree) Hst Hl2 Hap.
  pose proof (file_open_found (k_fs k) (k_mem k) (pcb_at k (curr k)) filename l (f_dentry fr) i Hok Hn Hd Hi) as Ho.
  cbn zeta in Ho. rewrite Hty in Ho. change (FILE_TYPE =? FILE_TYPE) with true in Ho.
  change (driver_of FILE_TYPE) with file_driver in Ho.
  destruct (file_open (k_fs k) (k_mem k) (pcb_at k (curr k)) filename (f_dentry fr)) as [[fd p] m1] eqn:E1.
  destruct Ho as [Hu [(Hfd & Hno & Hle & He & Hoth)|(_ & _ & Hall)]]; [|by destruct Hfree; apply Hall].
  pose proof (open_file_call fr filename k fd p m1 H0' E1 ltac:(lia) ltac:(by rewrite He)) as Hc.
  set (p1 := if negb _ then set_rtc_fd p _ else p) in Hc.
  assert (Hp1 : forall j, elem p1 j = elem p j) by (intros; unfold p1; by destruct (negb _)).
  clearbody p1. pose proof (outside_same_image _ _ _ _ _ Hd Hu) as Hs.
  pose proof (image_ok_stable _ _ _ Hok Hs) as Hok1.
  assert (Hst1 : cstr m1 (f_stale fr) l2) by (eapply cstr_outside; [exact Hu|lia|done]).
  pose proof (off_image_stable _ _ _ Hs _ _ Hd) as Hd1.
  destruct (file_open (k_fs k) m1 p1 (f_stale fr) (f_dentry fr)) as [[fd2 p2] m2] eqn:E2.
  destruct Hc as (k2 & Eo & _ & Hpk & Hb & _). exists fd, k2. rewrite Hpk. split; [done|]. split; [done|].
  split; [done|]. split; [done|].
  pose proof (file_open_cases (k_fs k) m1 p1 (f_stale fr) l2 (f_dentry fr) Hok1 Hst1 Hd1) as Hcase.
  rewrite E2 in Hcase.
  assert (Hfd1 : fd_open p1 fd) by (unfold fd_open; by rewrite Hp1, He).
  split; [|split; [|split; [|exact Hb]]].
  - destruct Hcase as [[_ ->]|[_ [(_ & Hn2 & _ & Hk2)|[-> _]]]]; rewrite <- He; [by rewrite Hp1| |by rewrite Hp1].
    by rewrite Hk2, Hp1 by (intros ->; done).
  - intros Hno2 j Hj. destruct Hcase as [[_ ->]|[(i2 & Hi2 & Hn2 & _) _]]; [by rewrite Hp1; apply Hoth|].
    exfalso. apply (Hno2 i2 Hi2). by apply (name_stable _ _ m1).
  - intros i2 j Hi2 Hj Hjr Hjf. destruct Hcase as [[Hno2 _]|[_ [(Hr & Hn2 & Ho2 & _)|[_ Hall]]]].
    + exfalso. destruct Hi2 as (Hi2 & Hn2 & _). apply (Hno2 i2 Hi2). by apply (name_stable _ (k_mem k) m1).
    + exists fd2. assert (fd2 <> fd) by (intros ->; done). split_and!; try done; try lia.
      intros Hop. apply Hn2. unfold fd_open. rewrite Hp1, Hoth by done. exact Hop.
    + exfalso. apply Hjf. specialize (Hall j Hjr). unfold fd_open in *. by rewrite Hp1, Hoth in Hall.
Qed.

(** Process 1 of the small image, with descriptor 2 open on its file. *)
Definition sample_reader : kernel sim := set_pcb sample_exec (get_pcb 1) sample_pcb.

Lemma sample_reader_mem : k_mem sample_reader = k_mem sample_exec.
Proof. reflexivity. Qed.

Lemma sample_reader_curr : curr sample_reader = get_pcb 1.
Proof. by vm_compute. Qed.

Lemma sample_reader_pcb : pcb_at sample_reader (get_pcb 1) = sample_pcb.
Proof. apply pcb_at_set_eq. Qed.

Lemma sample_exec_ok : image_ok sample_fs (k_mem sample_exec).
Proof. apply (image_ok_stable sample_fs sample_image); [apply sample_image_ok|apply sample_exec_image]. Qed.

Lemma sample_exec_off a n : 0x414000 <= a -> a + n <= 2 ^ 32 -> off_image sample_fs (k_mem sample_exec) a n.
Proof. intros. apply (off_image_stable sample_fs sample_image); [apply sample_exec_image|by apply sample_off]. Qed.

Lemma sample_exec_content : file_content sample_fs (k_mem sample_exec) 0 = sample_elf.
Proof.
  rewrite (file_content_stable _ _ _ sample_image_ok sample_exec_image) by (by vm_compute). by vm_compute.
Qed.

Lemma read_call_reads_file_witness :
  exists k', syscall_read sample_frame (Env [] []) 2 0x8200000 4 sample_reader = Some (4, k') /\
    bytes (k_mem k') 0x8200000 4 = [0x7f; 0x45; 0x4c; 0x46].
Proof.
  destruct (read_call_reads_file sample_frame (Env [] []) 2 0x8200000 4 sample_reader 0) as (k' & E & Hb & _).
  - rewrite sample_reader_mem. exact sample_exec_ok.
  - rewrite sample_reader_mem, sample_reader_curr, sample_reader_pcb.
    split; [by vm_compute|]. split; [by vm_compute|]. change (k_fs sample_reader) with sample_fs.
    rewrite (inode_num_stable _ _ _ sample_exec_image), (file_length_stable _ _ _ sample_image_ok sample_exec_image)
      by (by vm_compute). by vm_compute.
  - rewrite sample_reader_curr, sample_reader_pcb. by vm_compute.
  - by vm_compute.
  - rewrite sample_reader_mem. apply sample_exec_off; lia.
  - lia.
  - rewrite sample_reader_mem, sample_reader_curr, sample_reader_pcb in E, Hb.
    change (k_fs sample_reader) with sample_fs in E, Hb.
    rewrite sample_exec_content in E, Hb. exists k'. split; [exact E|exact Hb].
Defined.

(** The stack holds a pointer to the file name where [file_open] looks for its argument. *)
Definition sample_stale_frame : frame :=
  Frame 0x7FD000 0x7FD020 0x7FD0A0 0x7FD0E0 0x7FD120 0x7FD124 0x8100100 0x7F0200 0 7 0x7FD140.

Lemma open_call_opens_file_witness :
  exists fd k' fd2, syscall_open sample_stale_frame 0x8100100 sample_reader = Some (fd, k') /\
    fd2 <> fd /\ fd_open (pcb_at k' (get_pcb 1)) fd /\ fd_open (pcb_at k' (get_pcb 1)) fd2.
Proof.
  assert (Hsh : cstr (k_mem sample_reader) 0x8100100 (chars "sh"))
    by (rewrite sample_reader_mem, sample_exec_mem; by vm_compute).
  assert (Hnm : names sample_fs (k_mem sample_exec) (chars "sh") 2) by apply (xf_name _ _ _ _ _ sample_executable).
  assert (Hno : forall j, 3 <= j < 8 -> ~ fd_open sample_pcb j).
  { intros j Hj Ho. apply Ho. apply Z.eqb_eq.
    assert (Hc : (j <? 3) || (flags (elem sample_pcb j) =? 0) = true)
      by (apply (check_below 8 (fun j => (j <? 3) || (flags (elem sample_pcb j) =? 0))); [by vm_compute|lia]).
    apply orb_true_iff in Hc as [Hc|Hc]; [apply Z.ltb_lt in Hc; lia|exact Hc]. }
  destruct (open_call_opens_file sample_stale_frame 0x8100100 sample_reader (chars "sh") 2 (chars "sh"))
    as (fd & k' & E & Hfd & Hnf & _ & He & _ & H2nd & _).
  - rewrite sample_reader_mem. exact sample_exec_ok.
  - exact Hsh.
  - lia.
  - exact Hnm.
  - rewrite sample_reader_mem, sample_exec_mem. by vm_compute.
  - rewrite sample_reader_mem. apply sample_exec_off; by vm_compute.
  - exists 3. rewrite sample_reader_curr, sample_reader_pcb. split; [by vm_compute|]. apply Hno. lia.
  - exact Hsh.
  - apply Nat.leb_le. by vm_compute.
  - left. by vm_compute.
  - rewrite sample_reader_curr in *. rewrite sample_reader_pcb in *.
    destruct (H2nd 2 (if fd =? 3 then 4 else 3) Hnm) as (fd2 & Hne & _ & _ & Ho2).
    + destruct (Z.eqb_spec fd 3); lia.
    + unfold FD_MAX. destruct (fd =? 3); lia.
    + apply Hno. destruct (fd =? 3); lia.
    + exists fd, k', fd2. split; [exact E|]. split; [exact Hne|]. split; [|exact Ho2].
      unfold fd_open. rewrite He. discriminate.
Defined.

(** ** getargs and vidmap *)

Section other_calls.
Context {D : Type} `{Machine D} `{LayoutLaws}.
Implicit Types k : kernel D.

(** The copy loop of [strcpy], from the block to memory. *)
Lemma copy_args m p buf a :
  has_args p a ->
  let m' := for_ 0 (Z.of_nat (length a) + 1) (fun i m => st m (buf + i) (args_load p i)) m in
  cstr m' buf a /\ unchanged_outside m m' buf (Z.of_nat (length a) + 1).
Proof.
  intros [Hb Hz]. cbn zeta. set (n := Z.of_nat (length a)) in *. set (m' := for_ _ _ _ m).
  assert (Hm : (forall j, 0 <= j < n + 1 -> ld m' (buf + j) = u8 (args_load p j)) /\
    unchanged_outside m m' buf (n + 1)).
  { apply (for_inv (fun i m' => (forall j, 0 <= j < i -> ld m' (buf + j) = u8 (args_load p j)) /\
      unchanged_outside m m' buf i)); [lia|split; [intros; lia|by intros x _]|].
    intros i m1 Hi [Hj Ho]. split.
    - intros j Hj'. rewrite ld_st. destruct (Z.eqb_spec (buf + i) (buf + j)) as [E|].
      + by replace j with i by lia.
      + apply Hj. lia.
    - intros x Hx. rewrite ld_st_ne by lia. apply Ho. lia. }
  destruct Hm as [Hj Ho]. split; [|done].
  assert (Hu : forall j, 0 <= j < n -> u8 (args_load p j) = args_load p j).
  { intros j Hj'. unfold args_load, getf. apply u8_small.
    repeat case_match; try apply u8_range; rewrite Z.land_ones by lia; apply Z.mod_pos_bound; lia. }
  apply cstr_intro.
  - intros j Hj'. rewrite Hj, Hu by lia. by apply Hb.
  - fold n. by rewrite Hj, Hz by lia.
Qed.

Lemma getargs_found k a :
  has_args (pcb_at k (curr k)) a -> Z.of_nat (length a) < 100 ->
  find_ 0 111 (fun i => args_load (pcb_at k (curr k)) i =? 0) = Some (Z.of_nat (length a)).
Proof.
  intros [Hb Hz] Hl. destruct (find_ _ _ _) as [n|] eqn:E.
  - apply find_Some in E as (Hn & Hp & Hlow). apply Z.eqb_eq in Hp. f_equal.
    destruct (Z.lt_trichotomy n (Z.of_nat (length a))) as [Hlt|[?|Hgt]]; [|done|].
    + destruct (Hb n ltac:(lia)) as [E' ?]. congruence.
    + specialize (Hlow (Z.of_nat (length a)) ltac:(lia)). by rewrite Hz in Hlow.
  - pose proof (find_None _ _ _ E (Z.of_nat (length a)) ltac:(lia)) as Hf. cbn beta in Hf. by rewrite Hz in Hf.
Qed.
End other_calls.




Lemma sample_exec_reachable : paging_reachable (k_paging sample_exec).
Proof.
  eapply reach_step; [eapply reach_step; [apply (reach_init 1 0 0)|apply (step_allocate _ 1); lia]|apply (step_control _ 1)].
Qed.

