(* ===== verification/Irq.v ===== *)
(** * kernel/irq.c and kernel/exception.c: the interrupt descriptor table and the exceptions

    The table is 256 packed [idt_desc_t] (x86_desc.h).  A gate is written field by field, as the
    code does; [desc_word] is the 64-bit word that the fields make, and [deliver] is how the
    processor enters a handler through it.  Where the linker puts the handlers is a class. *)

From S2P Require Import Prelude Mem LibString Console Pcb Paging.

Definition KERNEL_CS : Z := 0x0010.

Definition NUM_VEC : Z := 256.

Definition MAX_STR_LENGTH : Z := 48.

(** ** Handlers *)

Inductive handler :=
  | null_handler | divide | debug | nmi | breakpoint | overflow | bound | invalid_opcode
  | device_not_available | double_fault | invalid_tss | segment | stack | gpf | page_fault
  | pit_linkage | keyboard_linkage | rtc_linkage | syscall_linkage.

#[export] Instance handler_eq_dec : EqDecision handler.
Proof. solve_decision. Defined.

Class Handlers := { handler_addr : handler -> Z }.

(** The handlers are different functions in the 32-bit address space. *)
Class HandlersLaws `{Handlers} := {
  handler_addr_range : forall h, 0 <= handler_addr h < 2 ^ 32;
  handler_addr_inj : forall h1 h2, handler_addr h1 = handler_addr h2 -> h1 = h2
}.

(** ** Descriptors *)

Record idt_desc := IdtDesc {
  offset_15_00 : Z;
  seg_selector : Z;
  reserved4 : Z;
  reserved3 : Z;
  reserved2 : Z;
  reserved1 : Z;
  size : Z;
  reserved0 : Z;
  dpl : Z;
  present : Z;
  offset_31_16 : Z
}.

Definition idt_desc0 : idt_desc := IdtDesc 0 0 0 0 0 0 0 0 0 0 0.

(** The macro [SET_IDT_ENTRY]. *)
Definition SET_IDT_ENTRY (d : idt_desc) (handler : Z) : idt_desc :=
  IdtDesc (Z.land handler 0xFFFF) (seg_selector d) (reserved4 d) (reserved3 d) (reserved2 d) (reserved1 d)
    (size d) (reserved0 d) (dpl d) (present d) (Z.shiftr (Z.land handler 0xFFFF0000) 16).

(** The other assignments of the three gate writers, which differ in [dpl] and [reserved3] only. *)
Definition set_gate (dpl_ reserved3_ : Z) (d : idt_desc) : idt_desc :=
  IdtDesc (offset_15_00 d) KERNEL_CS 0 reserved3_ 1 1 1 0 dpl_ 1 (offset_31_16 d).

Abbreviation idt_table := (gmap Z idt_desc).

Definition idt_at (t : idt_table) (n : Z) : idt_desc := default idt_desc0 (t !! n).

Section gates.
Context `{Handlers}.

Definition write_int_gate (n : Z) (h : handler) (t : idt_table) : idt_table :=
  <[n := set_gate 0 0 (SET_IDT_ENTRY (idt_at t n) (handler_addr h))]> t.

Definition write_sys_gate (n : Z) (h : handler) (t : idt_table) : idt_table :=
  <[n := set_gate 3 1 (SET_IDT_ENTRY (idt_at t n) (handler_addr h))]> t.

Definition write_trap_gate (n : Z) (h : handler) (t : idt_table) : idt_table :=
  <[n := set_gate 0 1 (SET_IDT_ENTRY (idt_at t n) (handler_addr h))]> t.

Definition init_idt (t : idt_table) : idt_table :=
  let t := for_ 0 NUM_VEC (fun i t => write_trap_gate i null_handler t) t in
  let t := write_int_gate 0x20 pit_linkage t in
  let t := write_int_gate 0x21 keyboard_linkage t in
  let t := write_int_gate 0x28 rtc_linkage t in
  write_sys_gate 0x80 syscall_linkage t.

Definition install_exceptions (t : idt_table) : idt_table :=
  let t := write_int_gate 0 divide t in
  let t := write_int_gate 1 debug t in
  let t := write_int_gate 2 nmi t in
  let t := write_int_gate 3 breakpoint t in
  let t := write_int_gate 4 overflow t in
  let t := write_int_gate 5 bound t in
  let t := write_int_gate 6 invalid_opcode t in
  let t := write_int_gate 7 device_not_available t in
  let t := write_int_gate 8 double_fault t in
  let t := write_int_gate 10 invalid_tss t in
  let t := write_int_gate 11 segment t in
  let t := write_int_gate 12 stack t in
  let t := write_int_gate 13 gpf t in
  write_int_gate 14 page_fault t.
End gates.

(** ** Exception handlers *)

(** What [core_dump] reads of the processor and of the current process. *)
Record fault_context := Fault {
  fc_pcb : Z;            (* pcb_process() *)
  fc_pid : Z;
  fc_term : Z;
  fc_esp : Z;            (* ESP when it is read; EBP is read into the same variable before *)
  fc_stack : Z -> Z      (* word i of the stack *)
}.

(** [message] is at address [msg] of the memory [m]. *)
Definition core_dump (m : mem) (msg : Z) (fc : fault_context) (c : console) : console :=
  let c := clear c in
  let c := match printf (st_list m 16 (chars "Core dump - %s
" ++ [0])) 16 [msg] c with Some (c, _) => c | None => c end in
  let c := printk "PCB - 0x%#x
" [fc_pcb fc] c in
  let c := printk "PID - %d
" [u16 (fc_pid fc)] c in
  let c := printk "Term - %d
" [fc_term fc] c in
  let temp := fc_esp fc in
  let c := printk "EBP - 0x%#x
" [temp] c in
  let c := printk "ESP - 0x%#x
" [temp] c in
  for_ 0 64 (fun i c =>
    let c := printk "0x%#x  " [fc_stack fc i] c in
    if i mod 4 =? 0 then printk "
" [] c else c) c.

(** The port writes that set the background blue go in the console's trace. *)
Definition con_outb (v p : Z) (c : console) : console :=
  Console (screen_x c) (screen_y c) (video c) (con_io c ++ [(p, v)]).

(** [R_spaces] and [L_spaces] of [error_screan] for a message of the given length. *)
Definition error_spaces (length : Z) : Z * Z :=
  if negb (Z.rem length 2 =? 0)
  then (Z.quot (MAX_STR_LENGTH - length + 1) 2 - 1, Z.quot (MAX_STR_LENGTH - length + 1) 2)
  else (Z.quot (MAX_STR_LENGTH - length) 2, Z.quot (MAX_STR_LENGTH - length) 2).

(** The cut message and the two strings of spaces, as the local arrays hold them. *)
Definition spaces (n : Z) : arr := (for_ 0 n (fun i a => a.[i <- 32]) ∅).[Z.max 0 n <- 0].

Definition cut_message (m : mem) (message : Z) : mem * Z :=
  let length := strlen m message in
  if MAX_STR_LENGTH <? length
  then let m := st m (message + MAX_STR_LENGTH - 1) 0 in (m, strlen m message)
  else (m, length).

(** The strings of spaces are only used by a call of [printf] that is commented out. *)
Definition error_screan (m : mem) (message : Z) (fc : fault_context) (c : console) : console :=
  let c := con_outb 0x3f 0x03C9 (con_outb 0 0x03C9 (con_outb 0 0x03C9 (con_outb 0 0x03C8 c))) in
  let c := clear c in
  if message =? 0 then c
  else
    let '(m, length) := cut_message m message in
    let '(R_spaces, L_spaces) := error_spaces length in
    let rightstr := spaces R_spaces in
    let leftstr := spaces L_spaces in
    core_dump m message fc c.

(** How a handler of these files ends: all of them end in [while(1);]. *)
Inductive handler_result := Spins (c : console) | Returns (c : console).

(** The body of the exception handlers: the message is a local array, at [msg]. *)
Definition fault (s : string) (m : mem) (msg : Z) (fc : fault_context) (c : console) : handler_result :=
  Spins (error_screan (st_list m msg (chars s ++ [0])) msg fc c).

Definition divide_body := fault "Divide exception".

Definition debug_body := fault "Debug exception".

Definition nmi_body := fault "Kernel received NMI.".

Definition breakpoint_body := fault "Kernel received breakpoint exception.".

Definition overflow_body := fault "Overflow exception".

Definition bound_body := fault "Bound range exceeded exception".

Definition invalid_opcode_body := fault "Invalid opcode exception".

Definition device_not_available_body := fault "Device not available exception".

Definition double_fault_body := fault "Double fault exception".

Definition invalid_tss_body := fault "Invalid TSS exception".

Definition segment_body := fault "Segment not present exception".

Definition stack_body := fault "Stack segment exception".

Definition gpf_body := fault "General protection fault exception".

Definition page_fault_body := fault "Page Fault Exception".

Definition null_handler_body (c : console) : handler_result :=
  Spins (printk "Null Handler Called

" [] c).

(** The C functions among the handlers; the linkages are assembly (Linkage.v). *)
Definition run_handler (m : mem) (msg : Z) (fc : fault_context) (h : handler) (c : console) : option handler_result :=
  match h with
  | null_handler => Some (null_handler_body c)
  | divide => Some (divide_body m msg fc c)
  | debug => Some (debug_body m msg fc c)
  | nmi => Some (nmi_body m msg fc c)
  | breakpoint => Some (breakpoint_body m msg fc c)
  | overflow => Some (overflow_body m msg fc c)
  | bound => Some (bound_body m msg fc c)
  | invalid_opcode => Some (invalid_opcode_body m msg fc c)
  | device_not_available => Some (device_not_available_body m msg fc c)
  | double_fault => Some (double_fault_body m msg fc c)
  | invalid_tss => Some (invalid_tss_body m msg fc c)
  | segment => Some (segment_body m msg fc c)
  | stack => Some (stack_body m msg fc c)
  | gpf => Some (gpf_body m msg fc c)
  | page_fault => Some (page_fault_body m msg fc c)
  | pit_linkage | keyboard_linkage | rtc_linkage | syscall_linkage => None
  end.

(** ** The processor's side *)

(** The 64-bit word of the packed structure, with the fields at their positions. *)
Definition desc_word (d : idt_desc) : Z :=
  setf 48 16 (offset_31_16 d) (setf 47 1 (present d) (setf 45 2 (dpl d) (setf 44 1 (reserved0 d)
    (setf 43 1 (size d) (setf 42 1 (reserved1 d) (setf 41 1 (reserved2 d) (setf 40 1 (reserved3 d)
      (setf 32 8 (reserved4 d) (setf 16 16 (seg_selector d) (setf 0 16 (offset_15_00 d) 0)))))))))).

(** Entry through vector [n]: [int] is the privilege level of an INT instruction, [None] for a
    hardware interrupt or an exception.  [None] is a fault; otherwise the handler's address and
    whether the interrupt flag is cleared (type 14, interrupt gate) or kept (type 15, trap gate). *)
Definition deliver (t : idt_table) (n : Z) (int : option Z) : option (Z * bool) :=
  if (n <? 0) || (NUM_VEC <=? n) then None
  else
    let w := desc_word (idt_at t n) in
    if match int with Some cpl => getf 45 2 w <? cpl | None => false end then None
    else if negb (getf 47 1 w =? 1) || negb (getf 16 16 w =? KERNEL_CS) then None
    else
      let target := getf 0 16 w + getf 48 16 w * 2 ^ 16 in
      if getf 40 5 w =? 14 then Some (target, true)
      else if getf 40 5 w =? 15 then Some (target, false)
      else None.

(** ** Specification *)

(** The handler of each vector. *)
Definition vector_handler (n : Z) : handler :=
  if n =? 0x80 then syscall_linkage
  else if n =? 0x28 then rtc_linkage
  else if n =? 0x21 then keyboard_linkage
  else if n =? 0x20 then pit_linkage
  else nth (Z.to_nat n)
    [divide; debug; nmi; breakpoint; overflow; bound; invalid_opcode; device_not_available; double_fault;
     null_handler; invalid_tss; segment; stack; gpf; page_fault] null_handler.

(** Handlers that are entered with interrupts off. *)
Definition masks_interrupts (n : Z) : bool :=
  negb (bool_decide (vector_handler n = null_handler)) && negb (n =? 0x80).

(** ** Lemmas *)

Lemma idt_at_insert t n d k : idt_at (<[n := d]> t) k = if n =? k then d else idt_at t k.
Proof.
  unfold idt_at. destruct (Z.eqb_spec n k) as [->|]; [by rewrite lookup_insert_eq|by rewrite lookup_insert_ne].
Qed.

(** Both halves of a handler's address come back. *)
Lemma offset_halves a : 0 <= a < 2 ^ 32 ->
  Z.land a 0xFFFF = a mod 2 ^ 16 /\ Z.shiftr (Z.land a 0xFFFF0000) 16 = a / 2 ^ 16.
Proof.
  intros Ha. split.
  - change 0xFFFF with (Z.ones 16). apply Z.land_ones. lia.
  - rewrite Z.shiftr_land. change (Z.shiftr 0xFFFF0000 16) with (Z.ones 16). rewrite Z.land_ones by lia.
    rewrite Z.shiftr_div_pow2 by lia. apply Z.mod_small. split; [apply Z.div_pos; lia|apply Z.div_lt_upper_bound; lia].
Qed.

Lemma getf_five e x0 x1 x2 x3 x4 :
  getf 40 5 (setf 44 1 x0 (setf 43 1 x1 (setf 42 1 x2 (setf 41 1 x3 (setf 40 1 x4 e)))))
  = getf 0 1 x4 + 2 * getf 0 1 x3 + 4 * getf 0 1 x2 + 8 * getf 0 1 x1 + 16 * getf 0 1 x0.
Proof.
  set (w := setf 44 1 x0 _).
  assert (E : getf 40 5 w = getf 40 1 w + 2 * getf 41 1 w + 4 * getf 42 1 w + 8 * getf 43 1 w + 16 * getf 44 1 w).
  { unfold getf. rewrite !Z.land_ones by lia. rewrite !Z.shiftr_div_pow2 by lia.
    change (2 ^ 41) with (2 ^ 40 * 2). change (2 ^ 42) with (2 ^ 40 * 4). change (2 ^ 43) with (2 ^ 40 * 8).
    change (2 ^ 44) with (2 ^ 40 * 16). rewrite <- !Z.div_div by lia.
    generalize (w / 2 ^ 40). intros z. change (2 ^ 5) with 32. change (2 ^ 1) with 2.
    Z.div_mod_to_equations. lia. }
  rewrite E. unfold w. by autorewrite with bits.
Qed.

(** What the processor sees of a gate that has been written. *)
Lemma gate_word dp r3 d a :
  0 <= dp < 4 -> 0 <= r3 < 2 -> 0 <= a < 2 ^ 32 ->
  let w := desc_word (set_gate dp r3 (SET_IDT_ENTRY d a)) in
  getf 45 2 w = dp /\ getf 47 1 w = 1 /\ getf 16 16 w = KERNEL_CS /\ getf 40 5 w = 14 + r3 /\
  getf 0 16 w + getf 48 16 w * 2 ^ 16 = a.
Proof.
  intros Hd Hr Ha. cbn zeta. destruct (offset_halves a Ha) as [E1 E2].
  unfold desc_word, set_gate, SET_IDT_ENTRY. cbn [offset_15_00 seg_selector reserved4 reserved3 reserved2 reserved1 size
    reserved0 dpl present offset_31_16]. rewrite E1, E2.
  set (e := setf 32 8 0 _).
  split_and!; autorewrite with bits.
  - by rewrite getf_small by lia.
  - done.
  - unfold e. by autorewrite with bits.
  - rewrite getf_five, (getf_small 1 r3) by lia. change (getf 0 1 1) with 1. change (getf 0 1 0) with 0. lia.
  - unfold e. autorewrite with bits.
    pose proof (Z.mod_pos_bound a (2 ^ 16) ltac:(lia)).
    assert (0 <= a / 2 ^ 16 < 2 ^ 16) by (split; [apply Z.div_pos; lia|apply Z.div_lt_upper_bound; lia]).
    rewrite !getf_small by lia. Z.div_mod_to_equations. lia.
Qed.

Lemma deliver_gate t n dp r3 d a int :
  0 <= n < NUM_VEC -> idt_at t n = set_gate dp r3 (SET_IDT_ENTRY d a) ->
  0 <= dp < 4 -> 0 <= r3 < 2 -> 0 <= a < 2 ^ 32 ->
  deliver t n int
  = if match int with Some cpl => dp <? cpl | None => false end then None else Some (a, r3 =? 0).
Proof.
  intros Hn E Hd Hr Ha. destruct (gate_word dp r3 d a Hd Hr Ha) as (F1 & F2 & F3 & F4 & F5).
  unfold deliver. rewrite (proj2 (Z.ltb_ge n 0)), (proj2 (Z.leb_gt _ _)) by lia. cbn [orb].
  rewrite E, F1, F2, F3, F4, F5. rewrite !Z.eqb_refl. cbn [negb orb].
  destruct int as [cpl|]; [destruct (dp <? cpl); [done|]|];
    (assert (r3 = 0 \/ r3 = 1) as [-> | ->] by lia; done).
Qed.

Section boot_idt.
Context `{HandlersLaws}.

(** Vector [k] has a gate of the given kind. *)
Definition gate_is (t : idt_table) (k dp r3 : Z) (h : handler) : Prop :=
  exists d, idt_at t k = set_gate dp r3 (SET_IDT_ENTRY d (handler_addr h)).

Lemma gate_int_same t n h : gate_is (write_int_gate n h t) n 0 0 h.
Proof. eexists. unfold write_int_gate. by rewrite idt_at_insert, Z.eqb_refl. Qed.

Lemma gate_sys_same t n h : gate_is (write_sys_gate n h t) n 3 1 h.
Proof. eexists. unfold write_sys_gate. by rewrite idt_at_insert, Z.eqb_refl. Qed.

Lemma gate_int_other t n h k dp r3 h' : n <> k -> gate_is t k dp r3 h' -> gate_is (write_int_gate n h t) k dp r3 h'.
Proof.
  intros Hne [d E]. exists d. unfold write_int_gate. by rewrite idt_at_insert, (proj2 (Z.eqb_neq _ _) Hne).
Qed.

Lemma gate_sys_other t n h k dp r3 h' : n <> k -> gate_is t k dp r3 h' -> gate_is (write_sys_gate n h t) k dp r3 h'.
Proof.
  intros Hne [d E]. exists d. unfold write_sys_gate. by rewrite idt_at_insert, (proj2 (Z.eqb_neq _ _) Hne).
Qed.

Lemma null_gates t k :
  0 <= k < NUM_VEC -> gate_is (for_ 0 NUM_VEC (fun i t => write_trap_gate i null_handler t) t) k 0 1 null_handler.
Proof.
  revert k. pose proof (for_inv (fun i t' => forall k, 0 <= k < i -> gate_is t' k 0 1 null_handler) 0 NUM_VEC
    (fun i t => write_trap_gate i null_handler t) t) as Hf.
  apply Hf; [by vm_compute|intros; lia|]. intros i t' Hi IH k Hk.
  destruct (Z.eq_dec i k) as [->|Hne].
  - eexists. unfold write_trap_gate. by rewrite idt_at_insert, Z.eqb_refl.
  - destruct (IH k ltac:(lia)) as [d E]. exists d. unfold write_trap_gate.
    by rewrite idt_at_insert, (proj2 (Z.eqb_neq _ _) Hne).
Qed.

Ltac find_gate :=
  first [apply gate_int_same | apply gate_sys_same
        | apply gate_int_other; [lia|find_gate] | apply gate_sys_other; [lia|find_gate]
        | apply null_gates; unfold NUM_VEC; lia].

(** The table after boot: every vector has a gate of the kind and with the handler of the
    specification. *)
Lemma boot_gate t n :
  0 <= n < NUM_VEC ->
  gate_is (install_exceptions (init_idt t)) n (if n =? 0x80 then 3 else 0) (if masks_interrupts n then 0 else 1)
    (vector_handler n).
Proof.
  intros Hn. unfold install_exceptions, init_idt. cbv zeta. unfold NUM_VEC in Hn.
  destruct (Z.eq_dec n 0x80) as [->|]; [find_gate|].
  destruct (Z.eq_dec n 0x28) as [->|]; [find_gate|].
  destruct (Z.eq_dec n 0x21) as [->|]; [find_gate|].
  destruct (Z.eq_dec n 0x20) as [->|]; [find_gate|].
  destruct (Z.le_gt_cases 15 n) as [Hge|Hlt].
  - assert (Ev : vector_handler n = null_handler).
    { unfold vector_handler. rewrite !(proj2 (Z.eqb_neq n _)) by lia. apply nth_overflow. cbn. lia. }
    unfold masks_interrupts. rewrite Ev, (proj2 (Z.eqb_neq n 0x80)) by lia. cbn [bool_decide negb andb]. find_gate.
  - assert (Hcase : List.In n (List.map Z.of_nat (List.seq 0 15)))
      by (apply List.in_map_iff; exists (Z.to_nat n); split; [lia|apply List.in_seq; lia]).
    cbn [List.map List.seq List.In Z.of_nat Pos.of_succ_nat Pos.succ] in Hcase.
    repeat (destruct Hcase as [<- | Hcase]; [find_gate|]). destruct Hcase.
Qed.
End boot_idt.

(** *** The error screen *)

Lemma clear_step c : screen_step c (clear c).
Proof.
  unfold clear. change (NUM_ROWS * NUM_COLS) with 2000.
  assert (Hf : (2000 = 0 \/ cursor_ok (for_ 0 2000 clear_cell c)) /\
    forall j, j < 0 \/ 4000 <= j -> (video (for_ 0 2000 clear_cell c)).[j] = (video c).[j]).
  { apply (for_inv (fun i c' => (i = 0 \/ cursor_ok c') /\
      forall j, j < 0 \/ 4000 <= j -> (video c').[j] = (video c).[j])); [lia|split; [by left|done]|].
    intros i c' Hi [_ IH]. split.
    - right. unfold cursor_ok, clear_cell, NUM_COLS, NUM_ROWS. cbn. lia.
    - intros j Hj. unfold clear_cell. cbn [video]. rewrite shl1, !aget_aset_ne by lia. by apply IH. }
  destruct Hf as [[?|Hc] Hv]; [lia|]. split; [done|]. intros j Hj. apply Hv. unfold NUM_ROWS, NUM_COLS in Hj. lia.
Qed.

Lemma printk_step format args c : cursor_ok c -> screen_step c (printk format args c).
Proof.
  intros Hc. unfold printk. destruct (printf _ _ _ _) as [[c' n]|] eqn:E; [|by apply screen_step_refl].
  by eapply printf_loop_step.
Qed.

(** Sequences of steps. *)
Definition prints (f : console -> console) : Prop := forall c, cursor_ok c -> screen_step c (f c).

Lemma prints_then f c c1 : prints f -> screen_step c c1 -> screen_step c (f c1).
Proof. intros Hf Hg. eapply screen_step_trans; [exact Hg|]. apply Hf, Hg. Qed.

Lemma prints_for a b body : a <= b -> (forall i, a <= i < b -> prints (body i)) -> prints (for_ a b body).
Proof.
  intros Hab Hb c Hc. apply (for_inv (fun _ c' => screen_step c c')); [done|by apply screen_step_refl|].
  intros i c' Hi Hs. eapply screen_step_trans; [exact Hs|]. by apply Hb, Hs.
Qed.

Lemma core_dump_step m msg fc c : screen_step c (core_dump m msg fc c).
Proof.
  unfold core_dump. cbv zeta.
  apply (prints_then (for_ 0 64 _)).
  { apply prints_for; [lia|]. intros i Hi c' Hc'. destruct (i mod 4 =? 0); [|by apply printk_step].
    eapply screen_step_trans; [by apply printk_step|]. apply printk_step. by apply printk_step. }
  do 5 (apply (prints_then (printk _ _)); [intros c' Hc'; by apply printk_step|]).
  pose proof (clear_step c) as Hcl. destruct (printf _ _ _ _) as [[c' n]|] eqn:E; [|done].
  eapply screen_step_trans; [exact Hcl|]. eapply printf_loop_step; [apply Hcl|exact E].
Qed.

Lemma error_screan_step m msg fc c : screen_step c (error_screan m msg fc c).
Proof.
  unfold error_screan. cbv zeta. set (c0 := con_outb _ _ _).
  assert (H0 : screen_step c (clear c0)).
  { destruct (clear_step c0) as [H1 H2]. split; [done|]. intros j Hj. rewrite H2 by done. done. }
  destruct (msg =? 0); [done|]. destruct (cut_message m msg) as [m1 l]. destruct (error_spaces l).
  eapply screen_step_trans; [exact H0|]. apply core_dump_step.
Qed.

(** The message is cut so that it fits. *)
Lemma cut_message_fits m msg : 0 <= (cut_message m msg).2 <= MAX_STR_LENGTH.
Proof.
  unfold cut_message. pose proof (strlen_spec m msg) as (H0 & _). destruct (Z.ltb_spec MAX_STR_LENGTH (strlen m msg)); [|cbn [snd]; lia].
  cbn [snd]. set (m' := st m (msg + MAX_STR_LENGTH - 1) 0). destruct (strlen_spec m' msg) as (H1 & _ & Hnz).
  split; [done|]. destruct (Z.le_gt_cases (strlen m' msg) MAX_STR_LENGTH); [done|]. exfalso.
  apply (Hnz (MAX_STR_LENGTH - 1)); [unfold MAX_STR_LENGTH in *; lia|]. unfold m'.
  replace (msg + MAX_STR_LENGTH - 1) with (msg + (MAX_STR_LENGTH - 1)) by lia. by rewrite ld_st_eq.
Qed.

Definition c_handler (h : handler) : bool :=
  match h with pit_linkage | keyboard_linkage | rtc_linkage | syscall_linkage => false | _ => true end.

(** ** Properties *)

(** C29: The interrupt table after [init_idt] and [install_exceptions], whatever it held before.
    Every one of the 256 vectors enters a handler: the exceptions and the three device lines
    theirs, with interrupts turned off, 0x80 the system-call linkage with interrupts left on,
    every other vector the null handler.  An INT instruction of a user program gets through to
    vector 0x80 and to no other. *)
Theorem boot_idt_routes_interrupts `{HandlersLaws} t n :
  0 <= n < NUM_VEC ->
  let t' := install_exceptions (init_idt t) in
  deliver t' n None = Some (handler_addr (vector_handler n), masks_interrupts n) /\
  deliver t' n (Some 3) = (if n =? 0x80 then Some (handler_addr syscall_linkage, false) else None).
Proof.
  intros Hn. cbn zeta. destruct (boot_gate t n Hn) as [d E].
  assert (Hd : 0 <= (if n =? 0x80 then 3 else 0) < 4) by (destruct (n =? 0x80); lia).
  assert (Hr : 0 <= (if masks_interrupts n then 0 else 1) < 2) by (destruct (masks_interrupts n); lia).
  rewrite !(deliver_gate _ n _ _ d _ _ Hn E Hd Hr (handler_addr_range _)). split.
  - by destruct (masks_interrupts n).
  - destruct (Z.eqb_spec n 0x80) as [->|]; done.
Qed.

(** The handlers at multiples of 16. *)
#[export] Instance sample_handlers : Handlers := {|
  handler_addr h := 0x400000 + 16 * match h with
    | null_handler => 0 | divide => 1 | debug => 2 | nmi => 3 | breakpoint => 4 | overflow => 5 | bound => 6
    | invalid_opcode => 7 | device_not_available => 8 | double_fault => 9 | invalid_tss => 10 | segment => 11
    | stack => 12 | gpf => 13 | page_fault => 14 | pit_linkage => 15 | keyboard_linkage => 16 | rtc_linkage => 17
    | syscall_linkage => 18 end |}.

#[export] Instance sample_handlers_laws : HandlersLaws.
Proof. split; [intros []; cbn; lia|]. intros [] []; cbn; intros; try done; lia. Qed.

Lemma boot_idt_routes_interrupts_witness :
  deliver (install_exceptions (init_idt ∅)) 0x21 None = Some (0x400100, true) /\
  deliver (install_exceptions (init_idt ∅)) 0x21 (Some 3) = None.
Proof.
  destruct (boot_idt_routes_interrupts ∅ 0x21 ltac:(unfold NUM_VEC; lia)) as [E1 E2].
  split; [rewrite E1; vm_compute; reflexivity|exact E2].
Defined.


