(* ===== verification/Linkage.v ===== *)
(** * kernel/asm_linkage.S and pit_handler: the entry points of interrupts and system calls

    [syscall_linkage] checks the call number in EAX and calls through the jump table with EBX,
    ECX and EDX as the arguments.  The other linkages save the registers, call a handler and
    return. *)

From S2P Require Import Prelude Mem Machine I8259 Rtc Tasks Pcb Fs Paging Termios Keyboard Kernel Scheduling Syscall.

Definition PIT_IRQ_LINE : Z := 0.

(** The registers of the caller at the INT instruction. *)
Record regs := Regs { eax : Z; ebx : Z; ecx : Z; edx : Z }.

Section linkage.
Context {D : Type} `{Machine D} `{Layout}.
Implicit Types k : kernel D.

Definition value (o : option (Z * kernel D)) : option (sys_result D) :=
  match o with Some (r, k) => Some (SRet r k) | None => None end.

(** The entries of [__syscalls_jumptable] from 1 to 11. *)
Definition jumptable (fr : frame) (ev : env) (r : regs) k : option (sys_result D) :=
  let n := s32 (eax r) in
  if n =? 1 then syscall_halt fr (u8 (ebx r)) k
  else if n =? 2 then syscall_execute fr (u32 (ebx r)) k
  else if n =? 3 then value (syscall_read fr ev (s32 (ebx r)) (u32 (ecx r)) (s32 (edx r)) k)
  else if n =? 4 then value (syscall_write (s32 (ebx r)) (u32 (ecx r)) (s32 (edx r)) k)
  else if n =? 5 then value (syscall_open fr (u32 (ebx r)) k)
  else if n =? 6 then value (syscall_close fr (s32 (ebx r)) k)
  else if n =? 7 then value (syscall_getargs (u32 (ebx r)) (s32 (ecx r)) k)
  else if n =? 8 then value (Some (syscall_vidmap (u32 (ebx r)) k))
  else if n =? 9 then Some (SRet (syscall_set_handler (s32 (ebx r)) (u32 (ecx r))) k)
  else if n =? 10 then Some (SRet syscall_sigreturn k)
  else syscall_init_shell fr (u8 (ebx r)) k.

Definition syscall_linkage (fr : frame) (ev : env) (r : regs) k : option (sys_result D) :=
  if (s32 (eax r) <? 1) || (11 <? s32 (eax r)) then Some (SRet (-1) k)
  else jumptable fr ev r k.

(** [pit_linkage]. *)
Definition pit_handler (screen_loc : Z) k : kernel D :=
  let k := with_terms k (set_dev (k_terms k) (send_eoi PIT_IRQ_LINE (dev (k_terms k)))) in
  scheduler_tick screen_loc k.

(** [rtc_linkage]. *)
Definition rtc_interrupt k : kernel D :=
  let '(fl, d) := rtc_irq_handler (k_rtc_flag k, dev (k_terms k)) in with_rtc k fl d.

(** The rest of [keyboard_handler] after the switch, for a key that has just failed to start the
    shell of terminal [n]. *)
Definition after_switch (n : Z) (kb : kbd) (t : terminals D) : kbd * terminals D :=
  let key_pressed := if n =? 1 then KEY_F2 else if n =? 2 then KEY_F3 else KEY_F4 in
  let font := font_data (Z.lor (Z.shiftl (caps_lock kb) 1) (b2z (0 <? shift kb))) key_pressed in
  let t := (input_process_key (s8 font) key_pressed (control kb) (alt kb) t).2 in
  finish (kb, set_dev t (sti (dev t))).

(** [keyboard_linkage], with the driver's own variables. *)
Definition keyboard_interrupt (fr : frame) (kb : kbd) k : option (kbd * sys_result D) :=
  match keyboard_handler (kb, k_terms k) with
  | KDone (kb, t) => Some (kb, SRet 0 (with_terms k t))
  | KShell n (kb, t) =>
      match syscall_init_shell fr n (with_terms k t) with
      | Some (SUser e k) => Some (kb, SUser e k)
      | Some (SRet _ k) => let '(kb, t) := after_switch n kb (k_terms k) in Some (kb, SRet 0 (with_terms k t))
      | None => None
      end
  end.

(** An interrupt or trap from user mode: the processor switches to the kernel stack of the task
    state segment; [esp_] and [ebp_] are the registers when the handler saves or uses them. *)
Definition enter_kernel k (esp_ ebp_ : Z) : kernel D := with_cpu k (Cpu esp_ ebp_).
End linkage.
