(* ===== verification/System.v ===== *)
(** * The running system

    The kernel between two entries from user mode: the state, the processes that are blocked in
    it, and the one that runs.  The steps are the kernel's whole handlers: a system call through
    the linkage, the timer tick, the keyboard and the clock.  A handler runs to its end without
    interruption (a call that waits takes the interrupts that end the wait from its
    environment). *)

From S2P Require Import Prelude Mem LibString Console Machine I8259 Rtc Tasks Pcb Fs Paging Termios Keyboard Kernel Scheduling Syscall Execute FileCalls Linkage.

(** ** Handlers that leave the process structure alone *)

(** The fields of a control block that say which process it is and how it continues. *)
Definition same_proc (p p' : pcb) : Prop :=
  parent_pcb p' = parent_pcb p /\ esp_reg p' = esp_reg p /\ ebp_reg p' = ebp_reg p /\ pid p' = pid p.

Lemma same_proc_refl p : same_proc p p.
Proof. done. Qed.

Lemma same_proc_trans p1 p2 p3 : same_proc p1 p2 -> same_proc p2 p3 -> same_proc p1 p3.
Proof. unfold same_proc. intuition congruence. Qed.

Lemma same_proc_elements p p' : same_but_elements p p' -> same_proc p p'.
Proof. intros ->. done. Qed.

Create HintDb system.
#[export] Hint Resolve same_proc_refl same_proc_elements : system.

Section benign.
Context {D : Type} `{Machine D} `{LayoutLaws}.
Implicit Types k : kernel D.

(** [k'] has the processes of [k], with [p] running in its own address space. *)
Record benign (p : Z) (k k' : kernel D) : Prop := {
  bn_paging : paging_reachable (k_paging k) -> paging_reachable (k_paging k');
  bn_space : cr3 (k_paging k) = dir_addr p -> cr3 (k_paging k') = dir_addr p;
  bn_pids : live (k_pid_usage k') = live (k_pid_usage k);
  bn_sched : k_sched k' = k_sched k;
  bn_blocks : forall r, 0 <= r < MAX_PID -> same_proc (pcb_at k (get_pcb r)) (pcb_at k' (get_pcb r));
  bn_tss : k_tss k' = k_tss k;
  bn_cpu : k_cpu k' = k_cpu k
}.

Lemma benign_refl p k : benign p k k.
Proof. by split. Qed.

Lemma benign_trans p k1 k2 k3 : benign p k1 k2 -> benign p k2 k3 -> benign p k1 k3.
Proof.
  intros [A1 A2 A3 A4 A5 A6 A7] [B1 B2 B3 B4 B5 B6 B7]. split; try (by auto); try congruence.
  intros r Hr. eapply same_proc_trans; [by apply A5|by apply B5].
Qed.

Lemma benign_with_mem p k m : benign p k (with_mem k m).
Proof. by split. Qed.

Lemma benign_with_terms p k t : benign p k (with_terms k t).
Proof. by split. Qed.

Lemma benign_with_rtc p k f d : benign p k (with_rtc k f d).
Proof. by split. Qed.

Lemma benign_set_pcb p k a b : same_proc (pcb_at k a) b -> benign p k (set_pcb k a b).
Proof.
  intros Hs. split; try done. intros r Hr. destruct (Z.eq_dec a (get_pcb r)) as [->|Hne].
  - by rewrite pcb_at_set_eq.
  - by rewrite pcb_at_set_ne.
Qed.

(** A store to an address that is none of the sixteen blocks. *)
Lemma benign_wild p fr k b : wild_elsewhere fr -> benign p k (set_pcb k (f_wild_pcb fr) b).
Proof. intros Hw. split; try done. intros r Hr. rewrite pcb_at_set_ne by (by apply Hw). done. Qed.

Lemma benign_runs p k k' : benign p k k' -> runs_as k p -> runs_as k' p.
Proof.
  intros Hb (Hp & Hs & Hid). split; [done|]. rewrite (bn_cpu _ _ _ Hb). split; [done|].
  destruct (bn_blocks _ _ _ Hb p Hp) as (_ & _ & _ & ->). done.
Qed.
End benign.
#[export] Hint Resolve benign_refl benign_with_mem benign_with_terms benign_with_rtc benign_set_pcb benign_wild : system.

(** The drivers change descriptors only. *)

Lemma file_read_proc f m p fd buf n : same_proc p (file_read f m p fd buf n).1.2.
Proof. unfold file_read. destruct (flags _ =? 0); [done|]. by destruct (read_data _ _ _ _ _ _). Qed.

Lemma dir_read_proc f m p fd buf n d r p' m' : dir_read f m p fd buf n d = Some (r, p', m') -> same_proc p p'.
Proof. unfold dir_read. repeat case_match; intros; simplify_eq; done. Qed.

Lemma file_open_proc f m p fn d : same_proc p (file_open f m p fn d).1.2.
Proof.
  unfold file_open, pcb_open. destruct (read_dentry_by_name _ _ _ _) as [r m']. destruct (negb (r =? 0)); [done|].
  destruct (find_ _ _ _) as [i|]; [|done]. destruct (i =? -1); [done|]. cbn [fst snd].
  by destruct (filetype m' d =? FILE_TYPE), (filetype m' d =? DIRECTORY_TYPE), (filetype m' d =? RTC_TYPE).
Qed.

Lemma pcb_close_proc p fd : same_proc p (pcb_close p fd).2.
Proof. unfold pcb_close. by destruct (_ <=? _). Qed.
#[export] Hint Resolve file_read_proc dir_read_proc file_open_proc pcb_close_proc : system.

Section calls.
Context {D : Type} `{Machine D} `{LayoutLaws}.
Implicit Types k : kernel D.

Lemma read_benign p fr ev fd buf n k r k' : syscall_read fr ev fd buf n k = Some (r, k') -> benign p k k'.
Proof.
  unfold syscall_read. destruct (n =? 0); [intros; simplify_eq; auto with system|].
  destruct (_ || _ || _); [intros; simplify_eq; auto with system|].
  destruct (flags _ =? 0); [intros; simplify_eq; auto with system|].
  destruct (buf =? 0); [intros; simplify_eq; auto with system|].
  destruct (file_operation_jmp_tbl _); try done.
  - destruct (rtc_read _ _) as [[[r1 [fl d]] ?]|]; intros; simplify_eq; auto with system.
  - pose proof (file_read_proc (k_fs k) (k_mem k) (pcb_at k (curr k)) fd buf (u32 n)) as Hp.
    destruct (file_read _ _ _ _ _ _) as [[r1 p1] m1]. intros; simplify_eq.
    eapply benign_trans; [apply benign_with_mem|]. by apply benign_set_pcb.
  - destruct (dir_read _ _ _ _ _ _ _) as [[[r1 p1] m1]|] eqn:E; intros; simplify_eq.
    eapply benign_trans; [apply benign_with_mem|]. apply benign_set_pcb. by eapply dir_read_proc.
  - destruct (terminal_read _ _ _ _ _ _ _) as [[[[r1 m1] t1] ?]|]; intros; simplify_eq.
    eapply benign_trans; [apply benign_with_mem|]. auto with system.
Qed.

Lemma write_benign p fd buf n k r k' : syscall_write fd buf n k = Some (r, k') -> benign p k k'.
Proof.
  unfold syscall_write. destruct (_ || _ || _ || _); [intros; simplify_eq; auto with system|].
  destruct (buf =? 0); [intros; simplify_eq; auto with system|].
  destruct (flags _ =? 0); [intros; simplify_eq; auto with system|].
  set (k1 := if fd =? _ then _ else k).
  assert (H1' : benign p k k1) by (unfold k1; destruct (fd =? _); auto with system; by apply benign_set_pcb).
  clearbody k1. destruct (file_operation_jmp_tbl _); try done.
  - destruct (rtc_write _ _ _ _ _) as [r1 d]. intros; simplify_eq. eapply benign_trans; [exact H1'|auto with system].
  - intros; simplify_eq; done.
  - intros; simplify_eq; done.
  - destruct (terminal_write _ _ _ _ _ _) as [r1 t]. intros; simplify_eq. eapply benign_trans; [exact H1'|auto with system].
Qed.

Lemma open_benign p fr fn k r k' : syscall_open fr fn k = Some (r, k') -> benign p k k'.
Proof.
  unfold syscall_open. destruct (fn =? 0); [intros; simplify_eq; auto with system|].
  pose proof (file_open_proc (k_fs k) (k_mem k) (pcb_at k (curr k)) fn (f_dentry fr)) as Hp.
  destruct (file_open _ _ _ _ _) as [[fd p1] m1]. cbn [fst snd] in Hp.
  set (k1 := set_pcb (with_mem k m1) (curr k) p1).
  assert (B1 : benign p k k1) by (eapply benign_trans; [apply benign_with_mem|by apply benign_set_pcb]).
  clearbody k1. destruct (fd =? -1); [intros; simplify_eq; done|].
  set (k2 := if negb _ then _ else k1).
  assert (B2 : benign p k k2).
  { unfold k2. destruct (negb _); [|done]. eapply benign_trans; [exact B1|]. by apply benign_set_pcb. }
  clearbody k2. destruct (file_operation_jmp_tbl _); try done.
  - destruct (rtc_open _) as [? d]. intros; simplify_eq. eapply benign_trans; [exact B2|auto with system].
  - pose proof (file_open_proc (k_fs k2) (k_mem k2) (pcb_at k2 (curr k)) (f_stale fr) (f_dentry fr)) as Hp2.
    destruct (file_open _ _ _ _ _) as [[? p2] m2]. intros; simplify_eq.
    eapply benign_trans; [exact B2|]. eapply benign_trans; [apply benign_with_mem|]. by apply benign_set_pcb.
  - intros; simplify_eq; done.
  - destruct (terminal_open _ _) as [? t]. intros; simplify_eq. eapply benign_trans; [exact B2|auto with system].
Qed.

Lemma close_benign p fr fd k r k' : wild_elsewhere fr -> syscall_close fr fd k = Some (r, k') -> benign p k k'.
Proof.
  intros Hw. unfold syscall_close. destruct (_ || _); [intros; simplify_eq; auto with system|].
  destruct (flags _ =? 0); [intros; simplify_eq; auto with system|].
  set (k1 := set_pcb k (curr k) _).
  assert (B1 : benign p k k1) by (apply benign_set_pcb, pcb_close_proc).
  clearbody k1. destruct (file_operation_jmp_tbl _); try done.
  - intros; simplify_eq; done.
  - destruct (file_close _ _ _ _) as [r1 p1]. intros; simplify_eq. eapply benign_trans; [exact B1|]. by apply benign_wild.
  - intros; simplify_eq; done.
  - destruct (terminal_close _ _) as [r1 t]. intros; simplify_eq. eapply benign_trans; [exact B1|auto with system].
Qed.

Lemma getargs_benign p buf n k r k' : syscall_getargs buf n k = Some (r, k') -> benign p k k'.
Proof.
  unfold syscall_getargs. destruct (_ || _); [intros; simplify_eq; auto with system|].
  destruct (find_ _ _ _); [|done]. destruct (_ <? _); intros; simplify_eq; auto with system.
Qed.

Lemma vidmap_benign p s k : runs_as k p -> benign p k (syscall_vidmap s k).2.
Proof.
  intros Hr. pose proof (runs_as_curr k p Hr) as Hc. destruct Hr as (Hp & _ & Hid).
  unfold syscall_vidmap. rewrite Hc, Hid. destruct (s =? 0); [auto with system|].
  destruct (u32 s <? _); [auto with system|].
  destruct (paging_map_video p s (k_paging k) (k_mem k)) as [[r pg] m] eqn:E.
  assert (Epg : pg = (paging_map_video p s (k_paging k) (k_mem k)).1.2) by (by rewrite E).
  assert (B1 : benign p k (with_paging (with_mem k m) pg)).
  { split; try done.
    - intros Hpr. cbn [k_paging with_paging]. rewrite Epg. eapply reach_step; [exact Hpr|apply step_map_video].
    - intros _. cbn [k_paging with_paging]. rewrite Epg. unfold paging_map_video.
      rewrite (proj2 (Z.ltb_ge _ _)), (proj2 (Z.leb_gt _ _)) by lia. by apply reload_cr3_inv. }
  destruct (r =? -1); [done|]. cbn [snd]. eapply benign_trans; [exact B1|]. by apply benign_set_pcb.
Qed.

Lemma close_all_benign p fr k k' : wild_elsewhere fr -> close_all fr k = Some k' -> benign p k k'.
Proof.
  intros Hw. unfold close_all.
  assert (Hf : forall ok, for_ 2 FD_MAX (fun i ok => match ok with
      | None => None
      | Some k => if flags (elem (pcb_at k (curr k)) i) =? 0 then Some k
                  else match syscall_close fr i k with Some (_, k) => Some k | None => None end
      end) (Some k) = ok -> match ok with Some k' => benign p k k' | None => True end).
  { intros ok <-. apply (for_inv (fun _ ok => match ok with Some k' => benign p k k' | None => True end));
      [by vm_compute|auto with system|].
    intros i [k1|] Hi Hb; [|done]. destruct (_ =? 0); [done|].
    destruct (syscall_close fr i k1) as [[r k2]|] eqn:E; [|done].
    eapply benign_trans; [exact Hb|]. by eapply close_benign. }
  intros E. exact (Hf (Some k') E).
Qed.
End calls.

(** ** Starting a process *)

Section spawn.
Context {D : Type} `{Machine D} `{LayoutLaws}.
Implicit Types k : kernel D.

(** Every successful [start_program], by the process [p], makes a process [q]. *)
Record spawned k k' (shell : option Z) (p q : Z) : Prop := {
  sp_pid : 1 <= q < MAX_PID /\ (q ∉ live (k_pid_usage k)) /\ live (k_pid_usage k') = live (k_pid_usage k) ∪ {[q]};
  sp_smallest : (tasks_pid_new (k_pid_usage k)).1 = q;
  sp_paging : k_paging k' = switch_paging k q;
  sp_sched : k_sched k' = match shell with
    | Some _ => schedule_task q (k_sched k)
    | None => unschedule_task p (schedule_task q (k_sched k)) end;
  sp_new : pid (pcb_at k' (get_pcb q)) = q /\
    parent_pcb (pcb_at k' (get_pcb q)) = match shell with Some _ => 0 | None => get_pcb p end;
  sp_caller : p <> q -> pcb_at k' (get_pcb p) = set_regs (pcb_at k (get_pcb p)) (esp (k_cpu k)) (ebp (k_cpu k));
  sp_others : forall r, 0 <= r < MAX_PID -> r <> p -> r <> q -> pcb_at k' (get_pcb r) = pcb_at k (get_pcb r);
  sp_tss : k_tss k' = Tss KERNEL_DS (KERNEL_STACK q);
  sp_cpu : k_cpu k' = k_cpu k
}.

Lemma pcb_at_with_tss k t a : pcb_at (with_tss k t) a = pcb_at k a.
Proof. reflexivity. Qed.

Lemma pcb_at_set_if k b a : pcb_at (set_k_if k b) a = pcb_at k a.
Proof. reflexivity. Qed.

Lemma start_tail_spec fr shell p q flags k :
  0 <= p < MAX_PID -> 1 <= q < MAX_PID -> pid (pcb_at k (get_pcb p)) = p ->
  let k' := start_tail fr shell (get_pcb p) q flags k in
  k_pid_usage k' = k_pid_usage k /\ k_paging k' = k_paging k /\
  k_sched k' = match shell with
    | Some _ => schedule_task q (k_sched k)
    | None => unschedule_task p (schedule_task q (k_sched k)) end /\
  (pid (pcb_at k' (get_pcb q)) = q /\
   parent_pcb (pcb_at k' (get_pcb q)) = match shell with Some _ => 0 | None => get_pcb p end) /\
  (p <> q -> pcb_at k' (get_pcb p) = set_regs (pcb_at k (get_pcb p)) (esp (k_cpu k)) (ebp (k_cpu k))) /\
  (forall r, 0 <= r < MAX_PID -> r <> p -> r <> q -> pcb_at k' (get_pcb r) = pcb_at k (get_pcb r)) /\
  k_tss k' = Tss KERNEL_DS (KERNEL_STACK q) /\ k_cpu k' = k_cpu k.
Proof.
  intros Hp Hq Hpid. cbn zeta. unfold start_tail.
  set (k1 := match shell with Some t => _ | None => k end).
  assert (E1 : k_pid_usage k1 = k_pid_usage k /\ k_paging k1 = k_paging k /\ k_sched k1 = k_sched k /\
    k_pcbs k1 = k_pcbs k /\ k_cpu k1 = k_cpu k) by (unfold k1; by destruct shell).
  clearbody k1. cbv zeta. set (k2 := match shell with Some _ => with_sched k1 _ | None => _ end).
  assert (E2 : k_pid_usage k2 = k_pid_usage k /\ k_paging k2 = k_paging k /\ k_pcbs k2 = k_pcbs k /\ k_cpu k2 = k_cpu k /\
    k_sched k2 = match shell with
    | Some _ => schedule_task q (k_sched k)
    | None => unschedule_task p (schedule_task q (k_sched k)) end).
  { destruct E1 as (A1 & A2 & A3 & A4 & A5). unfold k2.
    destruct shell; (split_and!; [exact A1|exact A2|exact A4|exact A5|]); cbn [k_sched with_sched]; rewrite A3; [done|].
    f_equal. rewrite <- Hpid at 2. unfold pcb_at. cbn [k_pcbs with_sched]. by rewrite A4. }
  clearbody k2. clear E1 k1. destruct E2 as (A1 & A2 & A3 & A4 & A5).
  assert (Es : s16 q = q) by (unfold s16, MAX_PID in *; rewrite Z.mod_small; lia).
  rewrite Es. assert (Hat : forall a, pcb_at k2 a = pcb_at k a) by (intros; unfold pcb_at; by rewrite A3).
  set (k3 := set_pcb k2 (get_pcb q) _). set (k4 := set_pcb k3 (get_pcb q) _).
  set (p5 := strcpy_args _ _ _). set (k5 := set_pcb k4 (get_pcb q) p5).
  assert (H5 : pcb_at k5 (get_pcb q) = p5) by apply pcb_at_set_eq.
  assert (Hp5 : pid p5 = q /\ parent_pcb p5 = match shell with Some _ => 0 | None => get_pcb p end /\ esp_reg p5 = KERNEL_STACK q).
  { unfold p5. destruct (strcpy_args_head (k_mem k4) (f_fargs fr) (pcb_at k4 (get_pcb q))) as (_ & Hpar & _ & Hesp & _ & Hid).
    rewrite Hpar, Hesp, Hid. unfold k4. rewrite pcb_at_set_eq. cbn. split_and!; [done|done|apply stack_top; lia]. }
  clearbody p5. assert (Ho : forall r, 0 <= r < MAX_PID -> r <> q -> pcb_at k5 (get_pcb r) = pcb_at k (get_pcb r)).
  { intros r Hr Hne. assert (get_pcb q <> get_pcb r) by (intros E; apply get_pcb_inj in E; lia).
    unfold k5, k4, k3. rewrite !pcb_at_set_ne by done. apply Hat. }
  set (k6 := with_tss k5 _).
  assert (H6 : forall a, pcb_at k6 a = pcb_at k5 a) by (intros; apply pcb_at_with_tss). rewrite H6.
  set (k7 := set_pcb k6 (get_pcb p) _).
  assert (H8 : forall a, pcb_at (set_k_if k7 flags) a = pcb_at k7 a) by (intros; apply pcb_at_set_if). rewrite !H8.
  assert (H7 : forall a, a <> get_pcb p -> pcb_at k7 a = pcb_at k5 a).
  { intros a Ha. unfold k7. by rewrite pcb_at_set_ne, H6. }
  assert (H7p : pcb_at k7 (get_pcb p) = set_regs (pcb_at k5 (get_pcb p)) (esp (k_cpu k)) (ebp (k_cpu k))).
  { unfold k7. rewrite pcb_at_set_eq. change (k_cpu k6) with (k_cpu k2). by rewrite A4. }
  destruct Hp5 as (P1 & P2 & P3).
  split_and!; [exact A1|exact A2|exact A5|..].
  - destruct (Z.eq_dec p q) as [->|Hne]; [by rewrite H7p, H5|].
    rewrite H7, H5 by (intros E; apply get_pcb_inj in E; lia). done.
  - destruct (Z.eq_dec p q) as [->|Hne]; [by rewrite H7p, H5|].
    rewrite H7, H5 by (intros E; apply get_pcb_inj in E; lia). done.
  - intros Hne. by rewrite H7p, Ho.
  - intros r Hr Hrp Hrq. rewrite H8, H7 by (intros E; apply get_pcb_inj in E; lia). by apply Ho.
  - cbn [k_tss set_k_if with_terms k7 set_pcb with_pcbs k6 with_tss]. by rewrite H5, P3.
  - exact A4.
Qed.
(** [start_program] fails without a trace in the process structure, or makes a process. *)
Lemma start_program_cases fr shell k p :
  curr k = get_pcb p -> 0 <= p < MAX_PID -> pid (pcb_at k (get_pcb p)) = p ->
  match start_program fr shell k with
  | SRet r k' => r = -1 /\ benign p k k'
  | SUser _ k' => exists q, spawned k k' shell p q
  end.
Proof.
  intros Hc Hp Hpid. unfold start_program. rewrite Hc.
  destruct (read_dentry_by_name _ _ _ _) as [r1 m1]. destruct (negb (r1 =? 0)); [auto with system|].
  destruct (executable_check _ _ _ _) as [r2 m2].
  destruct (negb (r2 =? 0)); [split; [done|]; eapply benign_trans; apply benign_with_mem|].
  set (k2 := with_mem (with_mem k m1) m2).
  pose proof (tasks_pid_new_spec (k_pid_usage k2)) as Hs.
  destruct (tasks_pid_new (k_pid_usage k2)) as [q u] eqn:Enew. destruct Hs as [(Hq & Hnew & Hlive & _)|(-> & _ & ->)].
  2:{ split; [done|]. by split. }
  rewrite (u16_pid q) by lia. replace (q =? NEGATIVE_1) with false
    by (symmetry; apply Z.eqb_neq; unfold NEGATIVE_1, MAX_PID in *; lia).
  set (k3 := with_paging (with_paging _ _) _). destruct (loader _ _ _ _ _) as [e m3]. set (k4 := with_mem k3 m3).
  destruct (e =? -1).
  - split; [done|]. set (k5 := with_pid_usage k4 _).
    assert (Ep : pid (pcb_at k5 (get_pcb p)) = p) by exact Hpid. rewrite Ep. split; try done.
    + intros Hr. cbn [k_paging set_k_if with_terms with_paging k5 with_pid_usage k4 with_mem k3].
      do 3 (eapply reach_step; [|apply step_control || (apply step_allocate; lia)]). exact Hr.
    + intros _. cbn [k_paging set_k_if with_terms with_paging]. unfold paging_update_control at 1.
      rewrite (proj2 (Z.leb_gt _ _)), (proj2 (Z.ltb_ge _ _)) by lia. cbn [orb snd]. by apply reload_cr3_inv.
    + by apply (live_new_free (k_pid_usage k) u q).
  - exists q. destruct (start_tail_spec fr shell p q (get_if (dev (k_terms (with_pid_usage k2 u)))) k4 Hp Hq Hpid)
      as (B1 & B2 & B3 & B4 & B5 & B6 & B7 & B8).
    split; [| |exact B2|exact B3|exact B4|exact B5|exact B6|exact B7|exact B8].
    + split; [done|]. split; [exact Hnew|]. rewrite B1. exact Hlive.
    + change (k_pid_usage k) with (k_pid_usage k2). by rewrite Enew.
Qed.
End spawn.

(** ** The system and its invariant *)

Record sys (D : Type) := Sys { s_k : kernel D; s_kb : kbd; s_run : Z }.
Arguments Sys {D} s_k s_kb s_run.
Arguments s_k {D} s.
Arguments s_kb {D} s.
Arguments s_run {D} s.

Section system.
Context {D : Type} `{Machine D} `{LayoutLaws}.
Implicit Types k : kernel D.

(** Which process a handler returns to: the one on whose kernel stack the processor is, or, for an
    entry into a fresh program, the one whose kernel stack the task state segment holds. *)
Definition continues (res : sys_result D) (k : kernel D) (p : Z) : Prop :=
  0 <= p < MAX_PID /\
  match res with
  | SRet _ k' => k = k' /\ on_stack p (esp (k_cpu k'))
  | SUser _ k' => k = k' /\ esp0 (k_tss k') = KERNEL_STACK p
  end.

(** A shell without a parent that halts is restarted: the step is in the relation when that works
    and the shell gets its identifier back (no smaller one is free). *)
Definition restarts k (r : regs) (p : Z) (res : sys_result D) : Prop :=
  s32 (eax r) = 1 -> parent_pcb (pcb_at k (get_pcb p)) = 0 ->
  (tasks_pid_new (tasks_pid_free p (k_pid_usage k))).1 = p /\ exists e k', res = SUser e k'.

Inductive sys_step : sys D -> sys D -> Prop :=
  | step_syscall fr ev r k kb p esp_ ebp_ res k' p' :
      on_stack p esp_ -> wild_elsewhere fr ->
      syscall_linkage fr ev r (enter_kernel k esp_ ebp_) = Some res ->
      restarts k r p res -> continues res k' p' ->
      sys_step (Sys k kb p) (Sys k' kb p')
  | step_timer loc k kb p esp_ ebp_ k' p' :
      on_stack p esp_ -> pit_handler loc (enter_kernel k esp_ ebp_) = k' ->
      0 <= p' < MAX_PID -> on_stack p' (esp (k_cpu k')) ->
      sys_step (Sys k kb p) (Sys k' kb p')
  | step_clock k kb p esp_ ebp_ :
      on_stack p esp_ -> sys_step (Sys k kb p) (Sys (rtc_interrupt (enter_kernel k esp_ ebp_)) kb p)
  | step_key fr k kb p esp_ ebp_ kb' res k' p' :
      on_stack p esp_ -> keyboard_interrupt fr kb (enter_kernel k esp_ ebp_) = Some (kb', res) ->
      continues res k' p' -> sys_step (Sys k kb p) (Sys k' kb' p').

Inductive sys_reachable (s0 : sys D) : sys D -> Prop :=
  | sys_here : sys_reachable s0 s0
  | sys_next s s' : sys_reachable s0 s -> sys_step s s' -> sys_reachable s0 s'.

(** The invariant, with [p] running in user mode. *)
Record sys_inv (k : kernel D) (p : Z) : Prop := {
  iv_live : p ∈ live (k_pid_usage k);
  iv_sched : forall q, scheduled (k_sched k) q -> q ∈ live (k_pid_usage k);
  iv_running : scheduled (k_sched k) p;
  iv_id : pid (pcb_at k (get_pcb p)) = p;
  iv_space : cr3 (k_paging k) = dir_addr p;
  iv_paging : paging_reachable (k_paging k);
  iv_tss : k_tss k = Tss KERNEL_DS (KERNEL_STACK p);
  iv_blocked : forall q, q ∈ live (k_pid_usage k) -> q <> p -> resumable k q;
  iv_parent : forall q, q ∈ live (k_pid_usage k) -> parent_pcb (pcb_at k (get_pcb q)) <> 0 ->
    exists r, r ∈ live (k_pid_usage k) /\ r <> q /\ parent_pcb (pcb_at k (get_pcb q)) = get_pcb r /\
      ~ scheduled (k_sched k) r;
  iv_one_child : forall q1 q2, q1 ∈ live (k_pid_usage k) -> q2 ∈ live (k_pid_usage k) ->
    parent_pcb (pcb_at k (get_pcb q1)) = parent_pcb (pcb_at k (get_pcb q2)) ->
    parent_pcb (pcb_at k (get_pcb q1)) <> 0 -> q1 = q2
}.

Lemma live_range u q : q ∈ live u -> 1 <= q < MAX_PID.
Proof. intros Hq. by apply elem_of_live in Hq as [? _]. Qed.

(** The state after the trap into the kernel. *)
Lemma enter_runs k p esp_ ebp_ : sys_inv k p -> on_stack p esp_ -> runs_as (enter_kernel k esp_ ebp_) p.
Proof.
  intros Hi Hs. pose proof (live_range _ _ (iv_live _ _ Hi)). split; [lia|]. split; [exact Hs|exact (iv_id _ _ Hi)].
Qed.

Lemma enter_inv k p esp_ ebp_ : sys_inv k p -> sys_inv (enter_kernel k esp_ ebp_) p.
Proof. intros [A1 A2 A3 A4 A5 A6 A7 A8 A9 A10]. by split. Qed.

Lemma on_stack_unique p q a : 0 <= p < MAX_PID -> 0 <= q < MAX_PID -> on_stack p a -> on_stack q a -> p = q.
Proof.
  unfold on_stack. intros Hp Hq H1' H2'. rewrite (get_pcb_eq p Hp) in H1'. rewrite (get_pcb_eq q Hq) in H2'. unfold KERNEL_STACK_SIZE, KERNEL_MEM_END in *. lia.
Qed.

Lemma benign_inv p k k' : benign p k k' -> sys_inv k p -> sys_inv k' p.
Proof.
  intros [B1 B2 B3 B4 B5 B6 B7] [A1 A2 A3 A4 A5 A6 A7 A8 A9 A10].
  assert (Hr : forall q, q ∈ live (k_pid_usage k) -> same_proc (pcb_at k (get_pcb q)) (pcb_at k' (get_pcb q)))
    by (intros q Hq; apply B5; apply live_range in Hq; lia).
  split; rewrite ?B3, ?B4; auto; try congruence.
  - destruct (Hr p A1) as (_ & _ & _ & ->). done.
  - intros q Hq Hne. destruct (Hr q Hq) as (_ & E & _ & Ei). unfold resumable. rewrite E, Ei. by apply A8.
  - intros q Hq. destruct (Hr q Hq) as (-> & _). by apply A9.
  - intros q1 q2 Hq1 Hq2. destruct (Hr q1 Hq1) as (-> & _). destruct (Hr q2 Hq2) as (-> & _). by apply A10.
Qed.

(** The timer. *)
Lemma timer_inv loc k p q :
  sys_inv k p -> runs_as k p -> next_task (k_sched k) p = Some q ->
  sys_inv (scheduler_tick loc k) q /\ on_stack q (esp (k_cpu (scheduler_tick loc k))).
Proof.
  intros Hi Hr Hn. pose proof Hi as [A1 A2 A3 A4 A5 A6 A7 A8 A9 A10]. pose proof Hr as (Hp & Hst & _).
  pose proof (next_task_spec (k_sched k) p Hp) as Hs. rewrite Hn in Hs. destruct Hs as [Hq _].
  pose proof (A2 q Hq) as Hql. pose proof (live_range _ _ Hql) as Hqr.
  assert (Hpq : pid (pcb_at k (get_pcb q)) = q) by (destruct (Z.eq_dec q p) as [->|]; [done|by apply A8]).
  assert (Hpg : paging_reachable (k_paging (scheduler_tick loc k))).
  { unfold scheduler_tick. rewrite (runs_as_curr k p Hr), A4, u16_pid, Hn by lia. cbv zeta.
    cbn [k_paging with_cpu]. match goal with |- context [if ?b then _ else _] => destruct b end;
      cbn [k_paging with_paging with_tss set_pcb with_pcbs].
    - eapply reach_step; [eapply reach_step; [exact A6|apply step_control]|].
      match goal with |- paging_step _ (update_video_paging ?x _ _) => assert (Ex : x = q) end;
        [|rewrite Ex; apply step_update_video; lia].
      assert (Es : s16 q = q) by (unfold s16, MAX_PID in *; rewrite Z.mod_small; lia). rewrite Es.
      unfold pcb_at at 1. cbn [k_pcbs with_paging with_tss set_pcb with_pcbs].
      destruct (Z.eq_dec q p) as [->|Hne]; [rewrite lookup_insert_eq; cbn [default from_option id pid set_regs]; exact A4|].
      rewrite lookup_insert_ne by (intros E; apply get_pcb_inj in E; lia).
      change (default pcb0 (k_pcbs k !! get_pcb q)) with (pcb_at k (get_pcb q)). exact Hpq.
    - eapply reach_step; [exact A6|apply step_control]. }
  destruct (scheduler_tick_spec loc k p q Hr Hn ltac:(lia) Hpq) as [S1 S2 S3 S4 S5 (S6 & S7 & S8 & S9 & _)].
  assert (Hb : forall r, 0 <= r < MAX_PID -> parent_pcb (pcb_at (scheduler_tick loc k) (get_pcb r)) = parent_pcb (pcb_at k (get_pcb r)) /\
    pid (pcb_at (scheduler_tick loc k) (get_pcb r)) = pid (pcb_at k (get_pcb r)) /\
    (r <> p -> esp_reg (pcb_at (scheduler_tick loc k) (get_pcb r)) = esp_reg (pcb_at k (get_pcb r)))).
  { intros r Hr'. destruct (Z.eq_dec r p) as [->|Hne]; [by rewrite S2|].
    by rewrite S3 by (intros E; apply get_pcb_inj in E; lia). }
  set (k' := scheduler_tick loc k) in *. clearbody k'.
  split; [|rewrite S1; destruct (Z.eq_dec q p) as [->|Hne]; [by rewrite S2|];
    rewrite (proj2 (proj2 (Hb q ltac:(lia))) Hne); by apply A8].
  split; rewrite ?S8, ?S9; try done.
  - by destruct (Hb q ltac:(lia)) as (_ & -> & _).
  - intros r Hrl Hrq. pose proof (live_range _ _ Hrl). destruct (Hb r ltac:(lia)) as (_ & Hid & He). unfold resumable.
    rewrite Hid. destruct (Z.eq_dec r p) as [->|Hne].
    + split; [done|]. by rewrite S2.
    + rewrite He by done. by apply A8.
  - intros r Hrl. pose proof (live_range _ _ Hrl). destruct (Hb r ltac:(lia)) as (-> & _). by apply A9.
  - intros q1 q2 H1' H2'. pose proof (live_range _ _ H1'). pose proof (live_range _ _ H2').
    destruct (Hb q1 ltac:(lia)) as (-> & _). destruct (Hb q2 ltac:(lia)) as (-> & _). by apply A10.
Qed.

Lemma add_scheduled sched q r :
  0 <= q < MAX_PID -> 0 <= r < MAX_PID -> scheduled (schedule_task q sched) r <-> r = q \/ scheduled sched r.
Proof.
  intros Hq Hr. unfold scheduled, schedule_task. rewrite u16_pid, aget_aset by done.
  destruct (Z.eqb_spec q r) as [->|]; intuition congruence.
Qed.

(** Who is scheduled after a process has been started. *)
Lemma spawned_sched k k' shell p q r :
  spawned k k' shell p q -> 0 <= p < MAX_PID -> p <> q -> 0 <= r < MAX_PID ->
  scheduled (k_sched k') r <-> r = q \/ (scheduled (k_sched k) r /\ (shell = None -> r <> p)).
Proof.
  intros Hs Hp Hne Hr. pose proof (sp_pid _ _ _ _ _ Hs) as (Hq & _). rewrite (sp_sched _ _ _ _ _ Hs).
  destruct shell; [rewrite add_scheduled by lia|rewrite replace_scheduled by lia]; intuition congruence.
Qed.

Lemma switch_paging_reachable k q : 1 <= q -> paging_reachable (k_paging k) -> paging_reachable (switch_paging k q).
Proof.
  intros Hq Hr. unfold switch_paging. eapply reach_step; [eapply reach_step; [exact Hr|by apply step_allocate]|apply step_control].
Qed.

(** A process that starts another. *)
Lemma spawn_inv k k' shell p q :
  sys_inv k p -> runs_as k p -> spawned k k' shell p q -> sys_inv k' q.
Proof.
  intros [A1 A2 A3 A4 A5 A6 A7 A8 A9 A10] (Hp & Hst & _) Hs.
  pose proof (sp_pid _ _ _ _ _ Hs) as (Hq & Hnew & Hlive).
  assert (Hpq : p <> q) by (intros ->; done).
  pose proof (fun r => spawned_sched k k' shell p q r Hs Hp Hpq) as Hsc.
  pose proof (sp_caller _ _ _ _ _ Hs Hpq) as Hcp.
  assert (Hold : forall r, r ∈ live (k_pid_usage k) ->
    parent_pcb (pcb_at k' (get_pcb r)) = parent_pcb (pcb_at k (get_pcb r)) /\ resumable k' r).
  { intros r Hr. pose proof (live_range _ _ Hr). destruct (Z.eq_dec r p) as [->|Hrp].
    - unfold resumable. rewrite Hcp. done.
    - unfold resumable. rewrite (sp_others _ _ _ _ _ Hs r) by (lia || (intros ->; done)). split; [done|]. by apply A8. }
  assert (Hin : forall r, r ∈ live (k_pid_usage k') <-> r = q \/ r ∈ live (k_pid_usage k)).
  { intros r. rewrite Hlive, elem_of_union, elem_of_singleton. tauto. }
  destruct (sp_new _ _ _ _ _ Hs) as [Hid Hpar].
  assert (Hwait : forall r, r ∈ live (k_pid_usage k) -> parent_pcb (pcb_at k (get_pcb r)) <> get_pcb p).
  { intros r Hr E. destruct (A9 r Hr) as (r' & Hr' & _ & E' & Hns).
    - rewrite E, get_pcb_eq by done. unfold KERNEL_MEM_END, KERNEL_STACK_SIZE, MAX_PID in *. lia.
    - rewrite E in E'. apply get_pcb_inj in E'; [subst; done|done|apply live_range in Hr'; lia]. }
  split.
  - apply Hin. by left.
  - intros r Hr. apply Hin. apply Hsc in Hr as [->|[Hr _]]; [by left|right; by apply A2|apply Hr].
  - apply Hsc; [lia|by left].
  - done.
  - rewrite (sp_paging _ _ _ _ _ Hs). apply switch_paging_cr3. lia.
  - rewrite (sp_paging _ _ _ _ _ Hs). apply switch_paging_reachable; [lia|done].
  - apply Hs.
  - intros r Hr Hne. apply Hin in Hr as [->|Hr]; [done|]. by apply Hold.
  - intros r Hr. apply Hin in Hr as [->|Hr].
    + rewrite Hpar. destruct shell; [done|]. intros _. exists p. split; [apply Hin; by right|]. split; [done|].
      split; [done|]. intros Hsp. apply Hsc in Hsp as [->|[_ Hn]]; [done|by apply Hn|lia].
    + destruct (Hold r Hr) as [-> _]. intros Hnz. destruct (A9 r Hr Hnz) as (r' & Hr' & Hne & E & Hns).
      exists r'. split; [apply Hin; by right|]. split; [done|]. split; [done|]. intros Hsp.
      pose proof (live_range _ _ Hr'). apply Hsc in Hsp as [->|[? _]]; [done|done|lia].
  - intros q1 q2 H1' H2' E Hnz. apply Hin in H1' as [->|H1']; apply Hin in H2' as [->|H2']; [done|..].
    + exfalso. destruct (Hold q2 H2') as [E2 _]. rewrite E2, Hpar in E. rewrite Hpar in Hnz.
      destruct shell; [done|]. by apply (Hwait q2 H2').
    + exfalso. destruct (Hold q1 H1') as [E1 _]. rewrite E1, Hpar in E. rewrite E1 in Hnz.
      destruct shell; [done|]. by apply (Hwait q1 H1').
    + destruct (Hold q1 H1') as [E1 _], (Hold q2 H2') as [E2 _]. rewrite E1 in Hnz. rewrite E1, E2 in E. by apply A10.
Qed.
(** A process that halts and has a parent. *)
Record returned_to k k' (p q : Z) : Prop := {
  rt_pids : live (k_pid_usage k') = live (k_pid_usage k) ∖ {[q]};
  rt_sched : k_sched k' = unschedule_task q (schedule_task p (k_sched k));
  rt_space : cr3 (k_paging k') = dir_addr p;
  rt_paging : paging_reachable (k_paging k) -> paging_reachable (k_paging k');
  rt_tss : k_tss k' = Tss KERNEL_DS (KERNEL_STACK p);
  rt_cpu : k_cpu k' = Cpu (esp_reg (pcb_at k (get_pcb p))) (ebp_reg (pcb_at k (get_pcb p)));
  rt_blocks : forall r, 0 <= r < MAX_PID -> same_proc (pcb_at k (get_pcb r)) (pcb_at k' (get_pcb r))
}.

Lemma halt_cases fr st k p q res :
  runs_as k q -> parent_pcb (pcb_at k (get_pcb q)) = get_pcb p -> 0 <= p < MAX_PID -> p <> q ->
  pid (pcb_at k (get_pcb p)) = p -> wild_elsewhere fr -> syscall_halt fr st k = Some res ->
  exists k', res = SRet 0 k' /\ returned_to k k' p q.
Proof.
  intros Hr Hpar Hp Hpq Hpid Hw. pose proof (runs_as_curr k q Hr) as Hcu. destruct Hr as (Hq & _ & Hqid).
  assert (Hne : get_pcb p <> get_pcb q) by (intros E; apply get_pcb_inj in E; lia).
  assert (Hnz : get_pcb p <> 0).
  { rewrite get_pcb_eq by done. unfold KERNEL_MEM_END, KERNEL_STACK_SIZE, MAX_PID in *. lia. }
  assert (S : s16 q = q) by (unfold s16, MAX_PID in *; rewrite Z.mod_small; lia).
  unfold syscall_halt. set (k0 := set_k_if k false).
  assert (H0k : forall a, pcb_at k0 a = pcb_at k a) by (intros; apply pcb_at_set_if).
  change (curr k0) with (curr k). rewrite Hcu, H0k, Hpar, (proj2 (Z.eqb_neq _ _) Hnz).
  destruct (close_all fr k0) as [k1|] eqn:Ecl; [|done].
  pose proof (close_all_benign q fr k0 k1 Hw Ecl) as [B1 B2 B3 B4 B5 B6 B7]. clear Ecl.
  assert (Hk : forall r, 0 <= r < MAX_PID -> same_proc (pcb_at k (get_pcb r)) (pcb_at k1 (get_pcb r)))
    by (intros r Hr'; rewrite <- H0k; by apply B5).
  set (k2 := set_pcb k1 (get_pcb p) _).
  assert (B : benign p k1 k2) by (by apply benign_set_pcb). destruct B as [C1 C2 C3 C4 C5 C6 C7].
  assert (Hk2 : forall r, 0 <= r < MAX_PID -> same_proc (pcb_at k (get_pcb r)) (pcb_at k2 (get_pcb r)))
    by (intros r Hr'; eapply same_proc_trans; [by apply Hk|by apply C5]).
  destruct (Hk2 p Hp) as (_ & Pesp & Pebp & Pid). destruct (Hk2 q Hq) as (_ & _ & _ & Qid).
  rewrite Hpid in Pid. rewrite Hqid in Qid. clearbody k2.
  rewrite Qid, S. set (k3 := with_pid_usage _ _).
  assert (H3k : forall a, pcb_at k3 a = pcb_at k2 a) by reflexivity. rewrite H3k, Pid.
  set (k4 := with_sched k3 _). assert (H4k : forall a, pcb_at k4 a = pcb_at k2 a) by reflexivity. rewrite H4k, Qid.
  set (k5 := with_sched k4 _). assert (H5k : forall a, pcb_at k5 a = pcb_at k2 a) by reflexivity. rewrite H5k, Pid.
  destruct (paging_update_control p (k_paging k5)) as [r pg] eqn:Epg.
  assert (Hpg : r = 0 /\ cr3 pg = dir_addr p /\ pg = (paging_update_control p (k_paging k5)).2).
  { rewrite Epg. unfold paging_update_control in Epg. rewrite (proj2 (Z.leb_gt _ _)), (proj2 (Z.ltb_ge _ _)) in Epg by lia.
    injection Epg as <- <-. split; [done|]. split; [|done]. by apply reload_cr3_inv. }
  destruct Hpg as (-> & Hcr & Hpg). cbn [Z.eqb negb].
  assert (H6k : forall a, pcb_at (with_paging k5 pg) a = pcb_at k2 a) by reflexivity. rewrite H6k, Pid.
  assert (H7k : forall t a, pcb_at (with_tss (with_paging k5 pg) t) a = pcb_at k2 a) by reflexivity. rewrite H7k, Pesp, Pebp.
  intros [= <-]. eexists. split; [reflexivity|]. split.
  - cbn [k_pid_usage set_k_if with_terms with_cpu with_tss with_paging k5 with_sched k4 k3 with_pid_usage].
    rewrite live_free, C3, B3. done.
  - cbn [k_sched set_k_if with_terms with_cpu with_tss with_paging k5 with_sched k4 k3 with_pid_usage]. by rewrite C4, B4.
  - exact Hcr.
  - intros Hre. cbn [k_paging set_k_if with_terms with_cpu with_tss with_paging]. rewrite Hpg.
    eapply reach_step; [|apply step_control]. cbn [k_paging k5 with_sched k4 k3 with_pid_usage]. apply C1, B1. exact Hre.
  - done.
  - done.
  - intros r' Hr'. exact (Hk2 r' Hr').
Qed.

Lemma halt_inv k k' p q :
  sys_inv k q -> parent_pcb (pcb_at k (get_pcb q)) = get_pcb p -> p ∈ live (k_pid_usage k) -> p <> q ->
  ~ scheduled (k_sched k) p -> returned_to k k' p q -> sys_inv k' p /\ on_stack p (esp (k_cpu k')).
Proof.
  intros [A1 A2 A3 A4 A5 A6 A7 A8 A9 A10] Hpar Hpl Hpq Hns [R1 R2 R3 R4 R5 R6 R7].
  pose proof (live_range _ _ Hpl) as Hp. pose proof (live_range _ _ A1) as Hq.
  assert (Hin : forall r, r ∈ live (k_pid_usage k') <-> r ∈ live (k_pid_usage k) /\ r <> q).
  { intros r. rewrite R1, elem_of_difference, elem_of_singleton. done. }
  assert (Hsc : forall r, 0 <= r < MAX_PID -> scheduled (k_sched k') r <-> r = p \/ (r <> q /\ scheduled (k_sched k) r)).
  { intros r Hr. rewrite R2. apply replace_scheduled; lia. }
  assert (Hb : forall r, r ∈ live (k_pid_usage k) -> same_proc (pcb_at k (get_pcb r)) (pcb_at k' (get_pcb r)))
    by (intros r Hr; apply R7; apply live_range in Hr; lia).
  assert (Hnz : get_pcb p <> 0).
  { rewrite get_pcb_eq by lia. unfold KERNEL_MEM_END, KERNEL_STACK_SIZE, MAX_PID in *. lia. }
  destruct (A8 p Hpl Hpq) as [Pid Pesp]. split; [|by rewrite R6].
  split; try done.
  - apply Hin. done.
  - intros r Hr. apply Hin. pose proof (proj1 Hr). apply Hsc in Hr as [->|[Hne Hr]]; [done| |done]. split; [by apply A2|done].
  - apply Hsc; [lia|by left].
  - destruct (Hb p Hpl) as (_ & _ & _ & ->). done.
  - by apply R4.
  - intros r Hr Hne. apply Hin in Hr as [Hr Hrq]. destruct (Hb r Hr) as (_ & E & _ & Ei). unfold resumable. rewrite E, Ei. by apply A8.
  - intros r Hr. apply Hin in Hr as [Hr Hrq]. destruct (Hb r Hr) as (-> & _). intros Hrz.
    destruct (A9 r Hr Hrz) as (s & Hs & Hsr & Es & Hss). exists s.
    assert (s <> q) by (intros ->; done).
    assert (s <> p) by (intros ->; apply Hrq; apply (A10 r q Hr A1); congruence).
    split; [by apply Hin|]. split; [done|]. split; [done|]. intros Hsp. pose proof (live_range _ _ Hs).
    apply Hsc in Hsp as [?|[_ ?]]; [done|done|lia].
  - intros q1 q2 H1' H2'. apply Hin in H1' as [H1' _]. apply Hin in H2' as [H2' _].
    destruct (Hb q1 H1') as (-> & _). destruct (Hb q2 H2') as (-> & _). by apply A10.
Qed.

(** A shell without a parent that halts and is restarted under its identifier. *)
Lemma restart_inv k k1 k' t p :
  sys_inv k p -> live (k_pid_usage k1) = live (k_pid_usage k) ∖ {[p]} -> k_sched k1 = k_sched k ->
  k_paging k1 = k_paging k -> (forall r, pcb_at k1 (get_pcb r) = pcb_at k (get_pcb r)) ->
  spawned k1 k' (Some t) p p -> sys_inv k' p.
Proof.
  intros [A1 A2 A3 A4 A5 A6 A7 A8 A9 A10] Hl Hsc Hpg Hb Hs. pose proof (live_range _ _ A1) as Hp.
  destruct (sp_pid _ _ _ _ _ Hs) as (_ & _ & Hlive).
  assert (Hin : forall r, r ∈ live (k_pid_usage k') <-> r ∈ live (k_pid_usage k)).
  { intros r. rewrite Hlive, Hl, elem_of_union, elem_of_difference, elem_of_singleton.
    destruct (Z.eq_dec r p) as [->|]; tauto. }
  assert (Hsch : forall r, 0 <= r < MAX_PID -> scheduled (k_sched k') r <-> scheduled (k_sched k) r).
  { intros r Hr. rewrite (sp_sched _ _ _ _ _ Hs), add_scheduled, Hsc by lia.
    destruct (Z.eq_dec r p) as [->|]; intuition congruence. }
  assert (Hold : forall r, r ∈ live (k_pid_usage k) -> r <> p -> pcb_at k' (get_pcb r) = pcb_at k (get_pcb r)).
  { intros r Hr Hne. pose proof (live_range _ _ Hr). rewrite (sp_others _ _ _ _ _ Hs r) by lia. apply Hb. }
  destruct (sp_new _ _ _ _ _ Hs) as [Hid Hpar].
  split.
  - by apply Hin.
  - intros r Hr. apply Hin, A2. apply Hsch; [apply Hr|done].
  - apply Hsch; [lia|done].
  - done.
  - rewrite (sp_paging _ _ _ _ _ Hs). apply switch_paging_cr3. lia.
  - rewrite (sp_paging _ _ _ _ _ Hs). apply switch_paging_reachable; [lia|]. by rewrite Hpg.
  - apply Hs.
  - intros r Hr Hne. apply Hin in Hr. unfold resumable. rewrite Hold by done. by apply A8.
  - intros r Hr. apply Hin in Hr. destruct (Z.eq_dec r p) as [->|Hne]; [by rewrite Hpar|]. rewrite Hold by done.
    intros Hnz. destruct (A9 r Hr Hnz) as (s & Hs' & Hsr & Es & Hss). exists s. split; [by apply Hin|].
    split; [done|]. split; [done|]. intros Hx. apply Hss. apply Hsch; [apply Hx|done].
  - intros q1 q2 H1' H2'. apply Hin in H1', H2'.
    destruct (Z.eq_dec q1 p) as [->|Hn1]; [by rewrite Hpar|].
    destruct (Z.eq_dec q2 p) as [->|Hn2]; [rewrite Hpar; congruence|]. rewrite !Hold by done. by apply A10.
Qed.
(** *** The handlers as a whole *)

(** What any handler may do when [p] runs. *)
Definition good_result k (p : Z) (res : sys_result D) : Prop :=
  match res with
  | SRet _ k' => exists q, sys_inv k' q /\ on_stack q (esp (k_cpu k'))
  | SUser _ k' => exists q, sys_inv k' q
  end.

Lemma good_continues k p res k' p' : good_result k p res -> continues res k' p' -> sys_inv k' p'.
Proof.
  intros Hg [Hp' Hc]. destruct res as [r k1|e k1]; destruct Hc as [-> Hc].
  - destruct Hg as (q & Hi & Hs). pose proof (live_range _ _ (iv_live _ _ Hi)).
    by rewrite (on_stack_unique p' q (esp (k_cpu k1))) by (lia || done).
  - destruct Hg as (q & Hi). rewrite (iv_tss _ _ Hi) in Hc. cbn in Hc. unfold KERNEL_STACK in Hc.
    by replace p' with q by lia.
Qed.

Lemma good_benign k p r k' : sys_inv k p -> runs_as k p -> benign p k k' -> good_result k p (SRet r k').
Proof.
  intros Hi Hr Hb. exists p. split; [by eapply benign_inv|]. rewrite (bn_cpu _ _ _ Hb). apply Hr.
Qed.

Lemma good_value k p o :
  sys_inv k p -> runs_as k p -> (forall r k', o = Some (r, k') -> benign p k k') ->
  forall res, value o = Some res -> good_result k p res.
Proof.
  intros Hi Hr Hb res. destruct o as [[r k']|]; [|done]. intros [= <-]. apply good_benign; [done|done|by eapply Hb].
Qed.

Lemma good_start k p fr shell k1 :
  sys_inv k p -> runs_as k p -> benign p k k1 -> good_result k p (start_program fr shell k1).
Proof.
  intros Hi Hr Hb. pose proof (benign_inv _ _ _ Hb Hi) as Hi1. pose proof (benign_runs _ _ _ Hb Hr) as Hr1.
  pose proof (start_program_cases fr shell k1 p (runs_as_curr _ _ Hr1) (proj1 Hr1) (iv_id _ _ Hi1)) as Hc.
  destruct (start_program fr shell k1) as [r k'|e k'].
  - destruct Hc as [_ Hb2]. apply good_benign; [done|done|]. by eapply benign_trans.
  - destruct Hc as [q Hs]. exists q. by eapply (spawn_inv k1).
Qed.

Lemma init_shell_good k p fr t res :
  sys_inv k p -> runs_as k p -> syscall_init_shell fr t k = Some res -> good_result k p res.
Proof.
  intros Hi Hr. unfold syscall_init_shell. set (k1 := with_mem k _).
  assert (Hb : benign p k k1) by apply benign_with_mem. clearbody k1.
  destruct (parse_command _ _ _ _) as [[m|]|]; intros; simplify_eq; [|by apply good_benign].
  apply good_start; [done|done|]. eapply benign_trans; [exact Hb|auto with system].
Qed.

Lemma execute_good k p fr c res :
  sys_inv k p -> runs_as k p -> syscall_execute fr c k = Some res -> good_result k p res.
Proof.
  intros Hi Hr. unfold syscall_execute. destruct (c =? 0); [intros [= <-]; apply good_benign; auto with system|].
  destruct (parse_command _ _ _ _) as [[m|]|]; intros; simplify_eq; [|apply good_benign; auto with system].
  apply good_start; auto with system.
Qed.

(** A process without a parent that halts starts a shell on its terminal. *)
Lemma root_halt fr st k p e k' :
  runs_as k p -> parent_pcb (pcb_at k (get_pcb p)) = 0 -> syscall_halt fr st k = Some (SUser e k') ->
  exists k3 t q, live (k_pid_usage k3) = live (k_pid_usage k) ∖ {[p]} /\
    k_pid_usage k3 = tasks_pid_free p (k_pid_usage k) /\ k_sched k3 = k_sched k /\
    k_paging k3 = k_paging k /\ (forall r, pcb_at k3 (get_pcb r) = pcb_at k (get_pcb r)) /\
    spawned k3 k' (Some t) p q.
Proof.
  intros Hr E0. pose proof (runs_as_curr _ _ Hr) as Hcu. destruct Hr as (Hp & _ & Hid).
  unfold syscall_halt. set (k0 := set_k_if k false).
  assert (H0k : forall a, pcb_at k0 a = pcb_at k a) by (intros; apply pcb_at_set_if).
  change (curr k0) with (curr k). rewrite Hcu, !H0k, E0. cbn [Z.eqb].
  rewrite Hid. assert (S : s16 p = p) by (unfold s16, MAX_PID in *; rewrite Z.mod_small; lia). rewrite S.
  set (k1 := with_pid_usage k0 _).
  assert (H1k : forall a, pcb_at k1 a = pcb_at k a) by reflexivity. rewrite H1k, Hid.
  set (k2 := set_k_if (with_cpu k1 _) true).
  assert (H2k : forall a, pcb_at k2 a = pcb_at k a) by reflexivity.
  assert (Hcu2 : curr k2 = get_pcb p).
  { apply (pcb_process_stack p); [lia|]. cbn [k_cpu k2 set_k_if with_terms with_cpu esp].
    rewrite <- stack_top by lia. unfold KERNEL_STACK_SIZE. lia. }
  assert (Hu : k_pid_usage k2 = tasks_pid_free p (k_pid_usage k)) by reflexivity.
  assert (Hpgs : k_sched k2 = k_sched k /\ k_paging k2 = k_paging k) by done. destruct Hpgs as [Hsc Hpg].
  clearbody k2. unfold syscall_init_shell. destruct (parse_command _ _ _ _) as [[m|]|]; [|done|done].
  set (k3 := with_mem (with_mem k2 _) m).
  assert (H3k : forall a, pcb_at k3 a = pcb_at k a) by (intros a; rewrite <- H2k; reflexivity).
  set (t := u8 (u8 _)).
  pose proof (start_program_cases fr (Some t) k3 p Hcu2 ltac:(lia) ltac:(rewrite H3k; apply Hid)) as Hc.
  destruct (start_program _ _ k3) as [r1 k4|e1 k4]; [done|]. intros [= -> ->]. destruct Hc as [q Hs].
  exists k3, t, q. split; [|split; [exact Hu|split; [exact Hsc|split; [exact Hpg|split; [|exact Hs]]]]].
  - change (k_pid_usage k3) with (k_pid_usage k2). rewrite Hu. apply live_free.
  - intros r. apply H3k.
Qed.

Lemma halt_good k p fr st res :
  sys_inv k p -> runs_as k p -> wild_elsewhere fr ->
  (parent_pcb (pcb_at k (get_pcb p)) = 0 ->
     (tasks_pid_new (tasks_pid_free p (k_pid_usage k))).1 = p /\ exists e k', res = SUser e k') ->
  syscall_halt fr st k = Some res -> good_result k p res.
Proof.
  intros Hi Hr Hw Hroot Hh. destruct (Z.eq_dec (parent_pcb (pcb_at k (get_pcb p))) 0) as [E0|Hnz].
  - destruct (Hroot E0) as [Hsame (e & k' & ->)].
    destruct (root_halt fr st k p e k' Hr E0 Hh) as (k3 & t & q & Hl & Hu & Hsc & Hpg & Hb & Hs).
    assert (q = p) as -> by (rewrite <- (sp_smallest _ _ _ _ _ Hs), <- Hsame, <- Hu; reflexivity).
    exists p. by eapply (restart_inv k k3).
  - destruct (iv_parent _ _ Hi p (iv_live _ _ Hi) Hnz) as (r & Hrl & Hrp & Er & Hns).
    pose proof (live_range _ _ Hrl). destruct (iv_blocked _ _ Hi r Hrl Hrp) as [Hrid _].
    destruct (halt_cases fr st k r p res Hr Er ltac:(lia) Hrp Hrid Hw Hh) as (k' & -> & Hrt).
    exists r. by eapply halt_inv.
Qed.

Lemma linkage_good k p fr ev r res :
  sys_inv k p -> runs_as k p -> wild_elsewhere fr -> restarts k r p res ->
  syscall_linkage fr ev r k = Some res -> good_result k p res.
Proof.
  intros Hi Hr Hw Hre. unfold syscall_linkage, jumptable. cbv zeta.
  destruct (_ || _); [intros [= <-]; apply good_benign; auto with system|].
  destruct (Z.eqb_spec (s32 (eax r)) 1) as [E1|]; [intros Hh; eapply halt_good; eauto|].
  destruct (_ =? 2); [by apply execute_good|].
  destruct (_ =? 3); [apply good_value; [done|done|]; intros ? ?; apply read_benign|].
  destruct (_ =? 4); [apply good_value; [done|done|]; intros ? ?; apply write_benign|].
  destruct (_ =? 5); [apply good_value; [done|done|]; intros ? ?; apply open_benign|].
  destruct (_ =? 6); [apply good_value; [done|done|]; intros ? ?; by apply close_benign|].
  destruct (_ =? 7); [apply good_value; [done|done|]; intros ? ?; apply getargs_benign|].
  destruct (_ =? 8); [apply good_value; [done|done|]; intros v k' [= Ev]; pose proof (vidmap_benign p (u32 (ebx r)) k Hr) as Hv; by rewrite Ev in Hv|].
  destruct (_ =? 9); [intros [= <-]; apply good_benign; auto with system|].
  destruct (_ =? 10); [intros [= <-]; apply good_benign; auto with system|].
  by apply init_shell_good.
Qed.
(** Some task is always scheduled, so a tick always finds a next one. *)
Lemma next_exists k p : sys_inv k p -> exists q, next_task (k_sched k) p = Some q.
Proof.
  intros Hi. pose proof (live_range _ _ (iv_live _ _ Hi)) as Hp.
  pose proof (next_task_spec (k_sched k) p ltac:(lia)) as Hn. destruct (next_task (k_sched k) p) as [q|]; [by exists q|].
  exfalso. exact (Hn p (iv_running _ _ Hi)).
Qed.

Lemma keyboard_good fr kb k p kb' res :
  sys_inv k p -> runs_as k p -> keyboard_interrupt fr kb k = Some (kb', res) -> good_result k p res.
Proof.
  intros Hi Hr. unfold keyboard_interrupt. destruct (keyboard_handler (kb, k_terms k)) as [[kb1 t]|n [kb1 t]].
  - intros [= <- <-]. apply good_benign; auto with system.
  - assert (Hb : benign p k (with_terms k t)) by apply benign_with_terms.
    pose proof (benign_inv _ _ _ Hb Hi) as Hi1. pose proof (benign_runs _ _ _ Hb Hr) as Hr1.
    destruct (syscall_init_shell fr n (with_terms k t)) as [res1|] eqn:E; [|done].
    pose proof (init_shell_good _ _ _ _ _ Hi1 Hr1 E) as Hg. destruct res1 as [r1 k1|e k1].
    + destruct Hg as (q & Hq & Hs). destruct (after_switch n kb1 (k_terms k1)) as [kb2 t2]. intros [= <- <-].
      exists q. split; [|exact Hs]. eapply benign_inv; [apply benign_with_terms|exact Hq].
    + intros [= <- <-]. exact Hg.
Qed.

Lemma sys_step_inv s s' : sys_step s s' -> sys_inv (s_k s) (s_run s) -> sys_inv (s_k s') (s_run s').
Proof.
  intros Hst Hi. destruct Hst as [fr ev r k kb p esp_ ebp_ res k' p' Hs Hw El Hre Hc|loc k kb p esp_ ebp_ k' p' Hs Ek Hp' Hs'
    |k kb p esp_ ebp_ Hs|fr k kb p esp_ ebp_ kb' res k' p' Hs Ek Hc]; cbn [s_k s_run] in *;
    pose proof (enter_inv k p esp_ ebp_ Hi) as Hi0; pose proof (enter_runs k p esp_ ebp_ Hi Hs) as Hr0.
  - eapply good_continues; [eapply linkage_good; [exact Hi0|exact Hr0|exact Hw|exact Hre|exact El]|exact Hc].
  - subst k'. unfold pit_handler in *. set (k1 := with_terms _ _) in *.
    assert (Hb : benign p (enter_kernel k esp_ ebp_) k1) by apply benign_with_terms.
    pose proof (benign_inv _ _ _ Hb Hi0) as Hi1. pose proof (benign_runs _ _ _ Hb Hr0) as Hr1.
    destruct (next_exists k1 p Hi1) as [q Hq]. destruct (timer_inv loc k1 p q Hi1 Hr1 Hq) as [Hi2 Hsq].
    pose proof (live_range _ _ (iv_live _ _ Hi2)).
    by rewrite (on_stack_unique p' q _ Hp' ltac:(lia) Hs' Hsq).
  - unfold rtc_interrupt. destruct (rtc_irq_handler _) as [fl d]. eapply benign_inv; [apply benign_with_rtc|exact Hi0].
  - eapply good_continues; [eapply keyboard_good; [exact Hi0|exact Hr0|exact Ek]|exact Hc].
Qed.

Lemma sys_reachable_inv s0 s : sys_inv (s_k s0) (s_run s0) -> sys_reachable s0 s -> sys_inv (s_k s) (s_run s).
Proof. intros Hi. induction 1 as [|s s' _ IH Hst]; [done|]. by eapply sys_step_inv. Qed.
End system.

(** ** Properties *)



(** ** Witnesses *)

(** The shell of [sample_exec], running. *)
Definition sample_system : sys sim :=
  Sys (with_tss sample_exec (Tss KERNEL_DS (KERNEL_STACK 1))) (Kbd 0 0 0 0 ∅) 1.

Lemma sample_live q : q ∈ live (k_pid_usage sample_exec) -> q = 1.
Proof.
  intros Hq. apply elem_of_live in Hq as [Hr Hu]. destruct (Z.eq_dec q 1) as [|Hne]; [done|]. exfalso.
  assert (Hb : ((q =? 0) || (q =? 1) || ((k_pid_usage sample_exec).[q] =? 0)) = true).
  { apply (check_below 16 (fun q => (q =? 0) || (q =? 1) || ((k_pid_usage sample_exec).[q] =? 0)));
      [by vm_compute|unfold MAX_PID in *; lia]. }
  unfold FREE in *. rewrite (proj2 (Z.eqb_neq q 0)), (proj2 (Z.eqb_neq q 1)) in Hb by lia. cbn [orb] in Hb. lia.
Qed.

Lemma sample_system_inv : sys_inv (s_k sample_system) (s_run sample_system).
Proof.
  cbn [s_k s_run sample_system].
  assert (Hs : forall q, scheduled (k_sched sample_exec) q -> q = 1).
  { intros q [Hr Hu]. destruct (Z.eq_dec q 1) as [|Hne]; [done|]. exfalso.
    assert (Hb : ((q =? 1) || ((k_sched sample_exec).[q] =? 0)) = true)
      by (apply (check_below 16 (fun q => (q =? 1) || ((k_sched sample_exec).[q] =? 0))); [by vm_compute|exact Hr]).
    rewrite (proj2 (Z.eqb_neq q 1)) in Hb by lia. cbn [orb] in Hb. lia. }
  assert (H1 : 1 ∈ live (k_pid_usage sample_exec)) by (apply elem_of_live; by vm_compute).
  assert (Hp : parent_pcb (pcb_at sample_exec (get_pcb 1)) = 0) by (by vm_compute).
  split.
  - exact H1.
  - intros q Hq. apply Hs in Hq as ->. exact H1.
  - by vm_compute.
  - by vm_compute.
  - by vm_compute.
  - exact sample_exec_reachable.
  - reflexivity.
  - intros q Hq Hne. by apply sample_live in Hq.
  - intros q Hq Hz. apply sample_live in Hq as ->. contradiction.
  - intros q1 q2 H1' H2' _ _. apply sample_live in H1', H2'. congruence.
Qed.

(** The clock ticks. *)
Lemma sample_system_step : exists s : sys sim, sys_reachable sample_system s /\ s_run s = 1.
Proof.
  eexists. split; [eapply sys_next; [apply sys_here|apply (step_clock _ _ _ (KERNEL_STACK 1 - 64) 0)]|reflexivity].
  by vm_compute.
Qed.


