(* ===== verification/Assembly.v ===== *)
(** * The assembly code at the instruction level

    The entry points of kernel/asm_linkage.S and the system call wrappers of ece391syscall.S,
    instruction by instruction, on the eight registers, EIP, CS, SS, EFLAGS and the stacks.
    Linkage models what these entry points do to the kernel; this file shows that the
    instructions do that, and that the interrupted program gets its registers back. *)

From S2P Require Import Prelude Mem Machine I8259 Rtc Tasks Pcb Fs Paging Termios Keyboard Kernel Scheduling Syscall.
From S2P Require Irq Linkage Execute System.

(** ** The processor *)

Inductive reg := EAX | ECX | EDX | EBX | ESP | EBP | ESI | EDI.

#[export] Instance reg_eq_dec : EqDecision reg.
Proof. solve_decision. Defined.

Definition reg_num (r : reg) : nat :=
  match r with EAX => 0 | ECX => 1 | EDX => 2 | EBX => 3 | ESP => 4 | EBP => 5 | ESI => 6 | EDI => 7 end.

Definition upd (r : reg) (v : Z) (f : reg -> Z) : reg -> Z :=
  fun r' => if Nat.eqb (reg_num r') (reg_num r) then v else f r'.

(** The C functions that the linkage calls; [syscall_fn n] is entry [n] of the jump table. *)
Inductive c_function := keyboard_handler_fn | rtc_irq_handler_fn | pit_handler_fn | syscall_fn (n : Z).

Inductive label := cleanup_syscall | syscall_failure.

Inductive instr :=
  | PUSHL (r : reg) | POPL (r : reg)
  | MOVL (v : Z) (r : reg)            (* movl $v, r *)
  | LOAD (off : Z) (r : reg)          (* movl off(%esp), r *)
  | ADDL (v : Z) (r : reg) | CMPL (v : Z) (r : reg)
  | PUSHAL | POPAL
  | JL (l : label) | JG (l : label) | JMP (l : label)
  | CALL (g : c_function) | CALL_JUMPTABLE
  | INT (n : Z) | IRET | RET.

(** ** The text of asm_linkage.S and ece391syscall.S *)

Definition code (l : label) : list instr :=
  let cleanup := [POPL EBX; POPL ECX; POPL EDX; IRET] in
  match l with
  | cleanup_syscall => cleanup
  | syscall_failure => [MOVL (-1) EAX; JMP cleanup_syscall]
  end.

Definition keyboard_linkage_code : list instr := [PUSHAL; CALL keyboard_handler_fn; POPAL; IRET].

Definition rtc_linkage_code : list instr := [PUSHAL; CALL rtc_irq_handler_fn; POPAL; IRET].

Definition pit_linkage_code : list instr := [PUSHAL; CALL pit_handler_fn; POPAL; IRET].

Definition syscall_linkage_code : list instr :=
  [PUSHL EDX; PUSHL ECX; PUSHL EBX; CMPL 1 EAX; JL syscall_failure; CMPL 11 EAX; JG syscall_failure; CALL_JUMPTABLE]
  ++ code cleanup_syscall.

(** The wrapper that the programs are linked with. *)
Definition DO_CALL (number : Z) : list instr :=
  [PUSHL EBX; MOVL number EAX; LOAD 8 EBX; LOAD 12 ECX; LOAD 16 EDX; INT 0x80; POPL EBX; RET].

(** The copy in asm_linkage.S. *)
Definition DO_CALL_copy (number : Z) : list instr :=
  [PUSHL EBX; MOVL number EAX; LOAD 8 EBX; LOAD 12 ECX; LOAD 16 EDX; INT 0x80; ADDL 8 ESP; POPL EBX; RET].

(** The parameters of the C functions. *)
Definition params (g : c_function) : Z :=
  match g with
  | syscall_fn n =>
      if (n =? 3) || (n =? 4) then 3 else if (n =? 7) || (n =? 9) then 2 else if n =? 10 then 0 else 1
  | _ => 0
  end.

(** ** Execution *)

(** [x_ks] holds the kernel stacks, which the rest of the model leaves out of the memory of [x_k].
    The interrupt flag is the machine's; [x_eflags] has the other bits. *)
Record state (D : Type) := State {
  x_regs : reg -> Z;
  x_eip : Z;
  x_cs : Z;
  x_ss : Z;
  x_eflags : Z;
  x_ks : mem;
  x_kb : kbd;
  x_k : kernel D
}.
Arguments State {D} _ _ _ _ _ _ _ _.
Arguments x_regs {D} _ _.
Arguments x_eip {D} _.
Arguments x_cs {D} _.
Arguments x_ss {D} _.
Arguments x_eflags {D} _.
Arguments x_ks {D} _.
Arguments x_kb {D} _.
Arguments x_k {D} _.

(** What the calling convention and the compiler leave open: the registers a call does not
    preserve, the flags, what a function leaves in its part of the stack, and how far below its
    caller's frame ESP and EBP are when a function saves or replaces them. *)
Class Compiled (D : Type) := {
  scratch : c_function -> state D -> reg -> Z;
  flags_after : c_function -> state D -> Z;
  leftover : c_function -> state D -> mem;
  esp_depth : Z;
  ebp_depth : Z
}.

(** A function writes on the stack it runs on, below its caller's frame, and on its arguments. *)
Class CompiledLaws (D : Type) `{Compiled D} := {
  leftover_outside : forall g (s : state D) x,
    x < pcb_process (x_regs s ESP) \/ x_regs s ESP + 4 * params g <= x -> ld (leftover g s) x = ld (x_ks s) x;
  esp_depth_pos : 0 <= esp_depth
}.

Inductive outcome (D : Type) :=
  | Resumes (s : state D)                            (* IRET or RET *)
  | Enters (eip : Z) (kb : kbd) (k : kernel D).      (* a program that has just been started *)
Arguments Resumes {D} s.
Arguments Enters {D} eip kb k.

Section execution.
Context {D : Type} `{Machine D} `{Layout} `{Compiled D}.
Variables (fr : frame) (ev : env) (screen_loc : Z).
(** The address of the instruction after the INT of a wrapper. *)
Variable after_int : Z.
Implicit Types s : state D.

Definition user_mode s : bool := Z.land (x_cs s) 3 =? 3.

Definition interrupts s : bool := get_if (dev (k_terms (x_k s))).

Definition set_reg (r : reg) (v : Z) s : state D :=
  State (upd r v (x_regs s)) (x_eip s) (x_cs s) (x_ss s) (x_eflags s) (x_ks s) (x_kb s) (x_k s).

Definition set_eflags (v : Z) s : state D :=
  State (x_regs s) (x_eip s) (x_cs s) (x_ss s) v (x_ks s) (x_kb s) (x_k s).

Definition set_eip (v : Z) s : state D :=
  State (x_regs s) v (x_cs s) (x_ss s) (x_eflags s) (x_ks s) (x_kb s) (x_k s).

Definition rd s (a : Z) : Z := if user_mode s then ld32 (k_mem (x_k s)) a else ld32 (x_ks s) a.

Definition wr (a v : Z) s : state D :=
  State (x_regs s) (x_eip s) (x_cs s) (x_ss s) (x_eflags s)
    (if user_mode s then x_ks s else st32 (x_ks s) a v) (x_kb s)
    (if user_mode s then with_mem (x_k s) (st32 (k_mem (x_k s)) a v) else x_k s).

Definition push (v : Z) s : state D :=
  let a := u32 (x_regs s ESP - 4) in wr a v (set_reg ESP a s).

Definition push_all (vs : list Z) s : state D := fold_left (fun s v => push v s) vs s.

Definition pop s : Z * state D := (rd s (x_regs s ESP), set_reg ESP (u32 (x_regs s ESP + 4)) s).

(** One word into a register, or nowhere. *)
Definition pop_reg (r : option reg) s : state D :=
  let '(v, s) := pop s in match r with Some r => set_reg r v s | None => s end.

Definition pop_all (rs : list (option reg)) s : state D := fold_left (fun s r => pop_reg r s) rs s.

(** The overflow, sign and zero flags of a sum or difference, with its value on signed operands. *)
Definition arith_flags (res signed e : Z) : Z :=
  setf 11 1 (b2z (negb (s32 res =? signed))) (setf 7 1 (b2z (s32 res <? 0)) (setf 6 1 (b2z (u32 res =? 0)) e)).

(** The conditions of jl and jg. *)
Definition less (e : Z) : bool := negb (getf 7 1 e =? getf 11 1 e).

Definition greater (e : Z) : bool := (getf 6 1 e =? 0) && negb (less e).

(** The instructions that do not transfer control. *)
Definition exec (i : instr) s : state D :=
  match i with
  | PUSHL r => push (x_regs s r) s
  | POPL r => pop_reg (Some r) s
  | MOVL v r => set_reg r (u32 v) s
  | LOAD off r => set_reg r (rd s (x_regs s ESP + off)) s
  | ADDL v r => set_reg r (u32 (x_regs s r + v)) (set_eflags (arith_flags (x_regs s r + v) (s32 (x_regs s r) + s32 v) (x_eflags s)) s)
  | CMPL v r => set_eflags (arith_flags (x_regs s r - v) (s32 (x_regs s r) - s32 v) (x_eflags s)) s
  | PUSHAL => push_all (map (x_regs s) [EAX; ECX; EDX; EBX; ESP; EBP; ESI; EDI]) s
  | POPAL => pop_all [Some EDI; Some ESI; Some EBP; None; Some EBX; Some EDX; Some ECX; Some EAX] s
  | _ => s
  end.

(** EFLAGS as it is pushed. *)
Definition flags_word s : Z := setf 9 1 (b2z (interrupts s)) (x_eflags s).

(** An interrupt through a gate: from user mode to the kernel stack of the task state segment. *)
Definition trap (clears_if : bool) s : state D :=
  let fl := flags_word s in
  let t := k_tss (x_k s) in
  let inner := State (if user_mode s then upd ESP (esp0 t) (x_regs s) else x_regs s) (x_eip s) Irq.KERNEL_CS
                 (if user_mode s then ss0 t else x_ss s) (x_eflags s) (x_ks s) (x_kb s) (x_k s) in
  let inner := push_all ((if user_mode s then [x_ss s; x_regs s ESP] else []) ++ [fl; x_cs s; x_eip s]) inner in
  if clears_if
  then State (x_regs inner) (x_eip inner) (x_cs inner) (x_ss inner) (x_eflags inner) (x_ks inner) (x_kb inner)
         (set_k_if (x_k inner) false)
  else inner.

Definition iret s : state D :=
  let sp := x_regs s ESP in
  let cs := rd s (sp + 4) in
  let fl := rd s (sp + 8) in
  let outer := Z.land cs 3 =? 3 in
  State (upd ESP (if outer then rd s (sp + 12) else u32 (sp + 12)) (x_regs s)) (rd s sp) cs
    (if outer then rd s (sp + 16) else x_ss s) fl (x_ks s) (x_kb s) (set_k_if (x_k s) (Z.testbit fl 9)).

(** What a C function computes, and EAX for one with a result. *)
Definition effect (g : c_function) (r : Linkage.regs) (kb : kbd) (k : kernel D) : option (kbd * sys_result D) :=
  match g with
  | keyboard_handler_fn => Linkage.keyboard_interrupt fr kb k
  | rtc_irq_handler_fn => Some (kb, SRet 0 (Linkage.rtc_interrupt k))
  | pit_handler_fn => Some (kb, SRet 0 (Linkage.pit_handler screen_loc k))
  | syscall_fn n =>
      match Linkage.jumptable fr ev (Linkage.Regs n (Linkage.ebx r) (Linkage.ecx r) (Linkage.edx r)) k with
      | Some res => Some (kb, res)
      | None => None
      end
  end.

Definition has_result (g : c_function) : bool := match g with syscall_fn _ => true | _ => false end.

(** The kernel as a function finds it that is called with the stack pointer [sp]. *)
Definition called (sp : Z) (k : kernel D) : kernel D := with_cpu k (Cpu (sp - esp_depth) (sp - ebp_depth)).

(** A call up to its return: LEAVE and RET take the stack pointer from the frame that EBP has
    then, which is another function's frame when the function has replaced ESP and EBP. *)
Definition c_call (g : c_function) s : option (outcome D) :=
  let sp := x_regs s ESP in
  match effect g (Linkage.Regs 0 (rd s sp) (rd s (sp + 4)) (rd s (sp + 8))) (x_kb s) (called sp (x_k s)) with
  | None => None
  | Some (kb, SUser e k) => Some (Enters e kb k)
  | Some (kb, SRet r k) =>
      let sp' := ebp (k_cpu k) + ebp_depth in
      let regs := fun q =>
        match q with
        | ESP => sp'
        | EAX => if has_result g then u32 r else scratch g s EAX
        | ECX | EDX => scratch g s q
        | _ => if sp' =? sp then x_regs s q else scratch g s q
        end in
      Some (Resumes (State regs (x_eip s) (x_cs s) (x_ss s) (flags_after g s) (leftover g s) kb k))
  end.

(** The RET of a wrapper. *)
Definition near_ret s : state D := let '(v, s) := pop s in set_eip v s.

Fixpoint run (fuel : nat) (c : list instr) s : option (outcome D) :=
  match fuel, c with
  | S f, i :: c' =>
      let continue o := match o with Some (Resumes s) => run f c' s | o => o end in
      match i with
      | JL l => if less (x_eflags s) then run f (code l) s else run f c' s
      | JG l => if greater (x_eflags s) then run f (code l) s else run f c' s
      | JMP l => run f (code l) s
      | CALL g => continue (c_call g s)
      | CALL_JUMPTABLE =>
          if (1 <=? s32 (x_regs s EAX)) && (s32 (x_regs s EAX) <=? 11)
          then continue (c_call (syscall_fn (s32 (x_regs s EAX))) s) else None
      | INT n =>
          match (if n =? 0x80 then run f syscall_linkage_code (trap false (set_eip after_int s)) else None) with
          | Some (Resumes s) => if x_eip s =? after_int then run f c' s else None
          | o => o
          end
      | IRET => Some (Resumes (iret s))
      | RET => Some (Resumes (near_ret s))
      | i => run f c' (exec i s)
      end
  | _, _ => None
  end.

(** An interrupt of the program that runs: the gates of the three lines clear IF. *)
Definition interrupt (c : list instr) s : option (outcome D) := run 20 c (trap true s).

Definition wrapper (c : list instr) s : option (outcome D) := run 40 c s.
End execution.

Lemma params_range g : 0 <= params g <= 3.
Proof. destruct g as [| | |n]; [cbn; lia..|]. cbn [params]. repeat case_match; lia. Qed.

(** ** Words on a stack *)

(** The words from [a] are [l]. *)
Fixpoint holds (m : mem) (a : Z) (l : list Z) : Prop :=
  match l with
  | [] => True
  | v :: l' => ld32 m a = v /\ holds m (a + 4) l'
  end.

Definition word (v : Z) : Prop := 0 <= v < 2 ^ 32.

Lemma holds_ext m m' l : forall a,
  (forall x, a <= x < a + 4 * Z.of_nat (length l) -> ld m' x = ld m x) -> holds m a l -> holds m' a l.
Proof.
  induction l as [|v l IH]; intros a He; [done|]. cbn [holds length] in *. intros [Hv Hl]. split.
  - rewrite (ld32_ext m) by (intros; apply He; lia). done.
  - apply IH; [|done]. intros. apply He. lia.
Qed.

Lemma holds_st32 m a v l : word v -> holds m (a + 4) l -> holds (st32 m a v) a (v :: l).
Proof.
  intros Hv Hl. split; [by rewrite ld32_st32, u32_small|]. revert Hl. apply holds_ext. intros. apply ld_st32_ne. lia.
Qed.

Lemma holds_app m l1 l2 : forall a,
  holds m a (l1 ++ l2) <-> holds m a l1 /\ holds m (a + 4 * Z.of_nat (length l1)) l2.
Proof.
  induction l1 as [|v l1 IH]; intros a; cbn [holds app length].
  - replace (a + 4 * Z.of_nat 0) with a by lia. tauto.
  - rewrite IH. replace (a + 4 + 4 * Z.of_nat (length l1)) with (a + 4 * Z.of_nat (S (length l1))) by lia. tauto.
Qed.

(** The values that a row of pops leaves in the registers. *)
Fixpoint assign (rs : list (option reg)) (vs : list Z) (f : reg -> Z) : reg -> Z :=
  match rs, vs with
  | Some r :: rs, v :: vs => assign rs vs (upd r v f)
  | None :: rs, _ :: vs => assign rs vs f
  | _, _ => f
  end.

Lemma upd_eq r v f : upd r v f r = v.
Proof. by destruct r. Qed.

Lemma upd_ne r q v f : q <> r -> upd r v f q = f q.
Proof. by destruct q, r. Qed.

Lemma assign_ext q : q <> ESP -> forall rs vs f g,
  (forall p, p <> ESP -> f p = g p) -> assign rs vs f q = assign rs vs g q.
Proof.
  intros Hq. induction rs as [|[r|] rs IH]; intros [|v vs] f g Hfg; cbn; auto; apply IH; auto.
  intros p Hp. unfold upd. destruct (Nat.eqb _ _); auto.
Qed.

(** [t] is [s] but for the registers and the stack. *)
Definition same_world {D} (s t : state D) : Prop :=
  x_eip t = x_eip s /\ x_cs t = x_cs s /\ x_ss t = x_ss s /\ x_eflags t = x_eflags s /\ x_kb t = x_kb s /\ x_k t = x_k s.

Section stack.
Context {D : Type} `{Machine D} `{Layout}.
Implicit Types s t : state D.

Lemma same_world_mode s t : same_world s t -> user_mode t = user_mode s.
Proof. intros (_ & E & _). unfold user_mode. by rewrite E. Qed.

(** A row of pushes on the kernel stack. *)
Lemma push_all_spec vs : forall s l,
  user_mode s = false -> 4 * Z.of_nat (length vs) <= x_regs s ESP < 2 ^ 32 -> Forall word vs ->
  holds (x_ks s) (x_regs s ESP) l ->
  let t := push_all vs s in
  x_regs t ESP = x_regs s ESP - 4 * Z.of_nat (length vs) /\ (forall r, r <> ESP -> x_regs t r = x_regs s r) /\
  holds (x_ks t) (x_regs t ESP) (rev vs ++ l) /\ same_world s t /\
  (forall x, x < x_regs t ESP \/ x_regs s ESP <= x -> ld (x_ks t) x = ld (x_ks s) x).
Proof.
  induction vs as [|v vs IH]; intros s l Hm Hr Hw Hl; cbn zeta.
  - cbn. split; [lia|]. done.
  - inversion_clear Hw as [|? ? Hv Hvs]. cbn [length] in Hr.
    set (s1 := push v s).
    assert (Hsp : x_regs s1 ESP = x_regs s ESP - 4) by (cbn; rewrite u32_small; lia).
    assert (Hks : x_ks s1 = st32 (x_ks s) (x_regs s ESP - 4) v).
    { unfold s1, push. cbn. unfold user_mode in *. cbn. rewrite Hm, u32_small by lia. done. }
    assert (Hk : x_k s1 = x_k s) by (unfold s1, push; cbn; unfold user_mode in *; cbn; by rewrite Hm).
    destruct (IH s1 (v :: l)) as (I1 & I2 & I3 & I4 & I5); [exact Hm|rewrite Hsp; lia|exact Hvs| |].
    { rewrite Hks, Hsp. apply holds_st32; [done|]. by replace (x_regs s ESP - 4 + 4) with (x_regs s ESP) by lia. }
    change (push_all (v :: vs) s) with (push_all vs s1). split; [rewrite I1, Hsp; cbn [length]; lia|]. split; [|split; [|split]].
    + intros r Hne. rewrite I2 by done. apply (upd_ne ESP r); done.
    + cbn [rev]. rewrite <- app_assoc. exact I3.
    + destruct I4 as (E1 & E2 & E3 & E4 & E5 & E6). rewrite Hk in E6. done.
    + intros x Hx. rewrite I5 by lia. rewrite Hks. apply ld_st32_ne. lia.
Qed.

(** A row of pops from the kernel stack. *)
Lemma pop_all_spec rs : forall s vs,
  user_mode s = false -> 0 <= x_regs s ESP -> x_regs s ESP + 4 * Z.of_nat (length rs) < 2 ^ 32 ->
  length rs = length vs -> ~ In (Some ESP) rs -> holds (x_ks s) (x_regs s ESP) vs ->
  let t := pop_all rs s in
  x_regs t ESP = x_regs s ESP + 4 * Z.of_nat (length rs) /\
  (forall r, r <> ESP -> x_regs t r = assign rs vs (x_regs s) r) /\ x_ks t = x_ks s /\ same_world s t.
Proof.
  induction rs as [|r rs IH]; intros s vs Hm Hsp0 Hsp1 Hlen Hin Hl; cbn zeta.
  - cbn. split; [lia|]. done.
  - destruct vs as [|v vs]; [done|]. cbn [length] in *. destruct Hl as [Hv Hl].
    set (s1 := pop_reg r s).
    assert (Hsp : x_regs s1 ESP = x_regs s ESP + 4).
    { unfold s1. destruct r as [q|]; [|cbn; rewrite u32_small; lia].
      assert (Hne : ESP <> q) by (intros <-; apply Hin; by left).
      etrans; [apply (upd_ne q ESP); exact Hne|]. cbn. rewrite u32_small; lia. }
    assert (Hq : forall q, q <> ESP -> x_regs s1 q = match r with Some r => upd r v (x_regs s) q | None => x_regs s q end).
    { intros q Hne. unfold s1, pop_reg, pop, rd. rewrite Hm, Hv. destruct r as [p|]; [|apply (upd_ne ESP q); done].
      change (upd p v (upd ESP (u32 (x_regs s ESP + 4)) (x_regs s)) q = upd p v (x_regs s) q).
      unfold upd at 1 3. destruct (Nat.eqb _ _); [done|by apply upd_ne]. }
    assert (Hw : x_ks s1 = x_ks s /\ same_world s s1) by (unfold s1; by destruct r).
    destruct Hw as [Hks Hw]. pose proof (same_world_mode _ _ Hw) as Hm1. rewrite Hm in Hm1.
    destruct (IH s1 vs) as (I1 & I2 & I3 & I4); [done|lia|lia|lia|intros Hi; apply Hin; by right|by rewrite Hks, Hsp|].
    change (pop_all (r :: rs) s) with (pop_all rs s1). split; [rewrite I1, Hsp; lia|]. split; [|split].
    + intros q Hne. rewrite I2 by done. destruct r as [r|]; cbn [assign]; by apply assign_ext.
    + by rewrite I3.
    + destruct I4 as (E1 & E2 & E3 & E4 & E5 & E6), Hw as (F1 & F2 & F3 & F4 & F5 & F6). unfold same_world. by rewrite E1, E2, E3, E4, E5, E6.
Qed.
End stack.

(** ** The context of an interrupted program *)

Section context.
Context {D : Type} `{MachineLaws D} `{Layout}.
Implicit Types s t u : state D.

(** The stack on which the processor saves it, and the address of the last word saved. *)
Definition frame_top u : Z := if user_mode u then esp0 (k_tss (x_k u)) else x_regs u ESP.

Definition trap_words u : list Z := [x_eip u; x_cs u; flags_word u] ++ if user_mode u then [x_regs u ESP; x_ss u] else [].

Definition trap_base u : Z := frame_top u - 4 * Z.of_nat (length (trap_words u)).

(** What PUSHAL puts below it. *)
Definition all_words u : list Z :=
  [x_regs u EDI; x_regs u ESI; x_regs u EBP; trap_base u; x_regs u EBX; x_regs u EDX; x_regs u ECX; x_regs u EAX]
  ++ trap_words u.

Definition frame_base u : Z := trap_base u - 32.

Record context_ok u : Prop := {
  cx_regs : forall r, word (x_regs u r);
  cx_words : word (x_eip u) /\ word (x_cs u) /\ word (x_ss u) /\ word (x_eflags u);
  cx_room : 64 <= frame_top u < 2 ^ 32;
  cx_stack : ss0 (k_tss (x_k u)) = KERNEL_DS /\ (user_mode u = false -> x_ss u = KERNEL_DS)
}.

(** Nothing that the program can see is different. *)
Definition same_context u t : Prop :=
  (forall r, x_regs t r = x_regs u r) /\ x_eip t = x_eip u /\ x_cs t = x_cs u /\ x_ss t = x_ss u /\
  flags_word t = flags_word u.

Lemma setf_word pos v e : 0 <= pos < 32 -> word e -> word (setf pos 1 v e).
Proof.
  intros Hp [He0 He1]. assert (E : setf pos 1 v e = setf pos 1 v e mod 2 ^ 32).
  { apply Z.bits_inj'. intros n Hn. destruct (Z.lt_ge_cases n 32); [by rewrite Z.mod_pow2_bits_low|].
    rewrite Z.mod_pow2_bits_high, setf_testbit by lia. decide_b. cbn [andb].
    rewrite <- (Z.mod_small e (2 ^ 32)) by lia. apply Z.mod_pow2_bits_high. lia. }
  unfold word. rewrite E. apply Z.mod_pos_bound. lia.
Qed.

Lemma setf_bit pos b e : 0 <= pos -> Z.testbit (setf pos 1 (b2z b) e) pos = b.
Proof. intros. rewrite setf_testbit by lia. decide_b. cbn [andb]. rewrite Z.sub_diag. by destruct b. Qed.

Lemma setf_again pos v e : 0 <= pos -> setf pos 1 v (setf pos 1 v e) = setf pos 1 v e.
Proof. intros. apply Z.bits_inj'. intros n Hn. rewrite !setf_testbit by lia. by destruct (_ && _). Qed.

Lemma trap_words_word u : context_ok u -> Forall word (rev (trap_words u)).
Proof.
  intros [Hr (Hw1 & Hw2 & Hw3 & Hw4) _ _]. apply Forall_rev. unfold trap_words.
  assert (Hf : word (flags_word u)) by (apply setf_word; [lia|done]).
  repeat (apply Forall_cons; [done|]). destruct (user_mode u); [|apply Forall_nil].
  repeat (apply Forall_cons; [done|]). apply Forall_nil.
Qed.

Lemma trap_words_length u : length (trap_words u) = if user_mode u then 5%nat else 3%nat.
Proof. unfold trap_words. by destruct (user_mode u). Qed.

(** The kernel at the first instruction of a gate's handler. *)
Definition entered (clears_if : bool) u : kernel D := if clears_if then set_k_if (x_k u) false else x_k u.

Lemma trap_spec clears u :
  context_ok u ->
  let t := trap clears u in
  x_regs t ESP = trap_base u /\ (forall r, r <> ESP -> x_regs t r = x_regs u r) /\
  user_mode t = false /\ x_ss t = KERNEL_DS /\ x_kb t = x_kb u /\ x_k t = entered clears u /\
  holds (x_ks t) (trap_base u) (trap_words u) /\
  (forall x, x < trap_base u \/ frame_top u <= x -> ld (x_ks t) x = ld (x_ks u) x).
Proof.
  intros Hc. pose proof (trap_words_word u Hc) as Hw. destruct Hc as [Hr _ Hroom [Hs0 Hs1]]. cbn zeta. unfold trap.
  set (s0 := State _ _ Irq.KERNEL_CS _ _ _ _ _).
  assert (Htop : x_regs s0 ESP = frame_top u) by (unfold s0, frame_top; cbn; destruct (user_mode u); [apply upd_eq|done]).
  replace ((if user_mode u then _ else _) ++ _) with (rev (trap_words u)) by (unfold trap_words; by destruct (user_mode u)).
  destruct (push_all_spec (rev (trap_words u)) s0 []) as (P1 & P2 & P3 & P4 & P5); [done| |done|done|].
  { rewrite Htop, length_rev, trap_words_length. destruct (user_mode u); lia. }
  rewrite length_rev, Htop in P1. change (frame_top u - _) with (trap_base u) in P1.
  rewrite rev_involutive, app_nil_r, P1 in P3. rewrite P1, Htop in P5. set (s1 := push_all _ s0) in *.
  destruct P4 as (E1 & E2 & E3 & E4 & E5 & E6).
  assert (Hss : x_ss s1 = KERNEL_DS) by (rewrite E3; cbn; destruct (user_mode u); [done|by apply Hs1]).
  assert (Hreg : forall r, r <> ESP -> x_regs s1 r = x_regs u r).
  { intros r Hne. rewrite P2 by done. cbn. destruct (user_mode u); [by apply upd_ne|done]. }
  assert (Hmode : user_mode s1 = false) by (unfold user_mode; by rewrite E2).
  destruct clears; (split; [exact P1|]); (split; [exact Hreg|]); (split; [exact Hmode|]); (split; [exact Hss|]);
    (split; [exact E5|]); (split; [cbn [x_k entered]; by rewrite E6|]); done.
Qed.

(** The context is on the kernel stack: the gate and PUSHAL have saved it. *)
Lemma save_context clears u :
  context_ok u ->
  let t := exec PUSHAL (trap clears u) in
  x_regs t ESP = frame_base u /\ (forall r, r <> ESP -> x_regs t r = x_regs u r) /\
  user_mode t = false /\ x_ss t = KERNEL_DS /\ x_kb t = x_kb u /\ x_k t = entered clears u /\
  holds (x_ks t) (frame_base u) (all_words u) /\
  (forall x, x < frame_base u \/ frame_top u <= x -> ld (x_ks t) x = ld (x_ks u) x).
Proof.
  intros Hc. destruct (trap_spec clears u Hc) as (T1 & T2 & T3 & T4 & T5 & T6 & T7 & T8). cbn zeta.
  set (s := trap clears u) in *. clearbody s. destruct Hc as [Hr _ Hroom _].
  pose proof (trap_words_length u) as Hlen.
  assert (Hbase : 32 <= trap_base u <= frame_top u) by (unfold trap_base; rewrite Hlen; destruct (user_mode u); lia).
  assert (Hw : Forall word (map (x_regs s) [EAX; ECX; EDX; EBX; ESP; EBP; ESI; EDI])).
  { cbn [map]. rewrite T1, !T2 by done. repeat (apply Forall_cons; [apply Hr || (unfold word; lia)|]). apply Forall_nil. }
  destruct (push_all_spec (map (x_regs s) [EAX; ECX; EDX; EBX; ESP; EBP; ESI; EDI]) s (trap_words u))
    as (P1 & P2 & P3 & P4 & P5); [done|cbn [length map]; lia|exact Hw|by rewrite T1|].
  change (push_all _ s) with (exec PUSHAL s) in *. set (t := exec PUSHAL s) in *. clearbody t.
  cbn [length map] in P1. rewrite T1 in P1. change (trap_base u - _) with (frame_base u) in P1.
  destruct P4 as (E1 & E2 & E3 & E4 & E5 & E6).
  split; [exact P1|]. split; [intros r Hne; by rewrite P2, T2|]. split; [unfold user_mode in *; by rewrite E2|].
  split; [congruence|]. split; [congruence|]. split; [congruence|]. split.
  - rewrite P1 in P3. cbn [map rev app] in P3. rewrite T1, !T2 in P3 by done. exact P3.
  - intros x Hx. rewrite P5, T8; [done|unfold frame_base in *; lia|]. rewrite P1, T1. unfold frame_base in *. lia.
Qed.

(** The context from the words of the gate. *)
Lemma iret_context u s :
  64 <= frame_top u < 2 ^ 32 -> (user_mode u = false -> x_ss u = KERNEL_DS) ->
  user_mode s = false -> x_regs s ESP = trap_base u -> (forall r, r <> ESP -> x_regs s r = x_regs u r) ->
  holds (x_ks s) (trap_base u) (trap_words u) -> x_ss s = KERNEL_DS ->
  same_context u (iret s) /\ x_k (iret s) = set_k_if (x_k s) (interrupts u) /\ x_kb (iret s) = x_kb s /\
  x_ks (iret s) = x_ks s.
Proof.
  intros Hroom Hks Hm Hsp Hreg Hh Hss. pose proof (trap_words_length u) as Hlen.
  assert (Hbit : Z.testbit (flags_word u) 9 = interrupts u) by (apply setf_bit; lia).
  assert (Hbase : trap_base u = frame_top u - (if user_mode u then 20 else 12))
    by (unfold trap_base; rewrite Hlen; destruct (user_mode u); lia).
  unfold iret, rd. rewrite Hm, Hsp. unfold trap_words in Hh. cbn [app holds] in Hh. destruct Hh as (Hh1 & Hh2 & Hh3 & Ht).
  replace (trap_base u + 4 + 4) with (trap_base u + 8) in * by lia. rewrite Hh1, Hh2, Hh3, Hbit.
  change (Z.land (x_cs u) 3 =? 3) with (user_mode u). split; [|done].
  assert (Hfl : forall s', x_eflags s' = flags_word u -> interrupts s' = interrupts u -> flags_word s' = flags_word u).
  { intros s' E1 E2. unfold flags_word at 1. rewrite E1, E2. apply setf_again. lia. }
  destruct (user_mode u) eqn:Hu; cbn [holds] in Ht.
  - destruct Ht as (Hh4 & Hh5 & _). replace (trap_base u + 8 + 4) with (trap_base u + 12) in * by lia.
    replace (trap_base u + 12 + 4) with (trap_base u + 16) in * by lia. rewrite Hh4, Hh5.
    split; [|split; [done|split; [done|split; [done|]]]].
    + intros r. cbn [x_regs]. destruct (decide (r = ESP)) as [->|Hne]; [apply upd_eq|]. rewrite upd_ne by done. by apply Hreg.
    + apply Hfl; [done|]. apply get_set_if.
  - split; [|split; [done|split; [done|split; [|]]]].
    + intros r. cbn [x_regs]. destruct (decide (r = ESP)) as [->|Hne]; [|rewrite upd_ne by done; by apply Hreg].
      rewrite upd_eq, Hbase. unfold frame_top in *. rewrite Hu in *. rewrite u32_small; lia.
    + cbn [x_ss]. by rewrite Hss, Hks.
    + apply Hfl; [done|]. apply get_set_if.
Qed.

(** POPAL and IRET bring it back. *)
Lemma restore_context u s :
  context_ok u -> user_mode s = false -> x_regs s ESP = frame_base u ->
  holds (x_ks s) (frame_base u) (all_words u) -> x_ss s = KERNEL_DS ->
  let t := iret (exec POPAL s) in
  same_context u t /\ x_k t = set_k_if (x_k s) (interrupts u) /\ x_kb t = x_kb s /\ x_ks t = x_ks s.
Proof.
  intros Hc Hm Hsp Hh Hss. cbn zeta. pose proof (trap_words_length u) as Hlen. destruct Hc as [_ _ Hroom [_ Hks]].
  assert (Hbase : 32 <= trap_base u <= frame_top u) by (unfold trap_base; rewrite Hlen; destruct (user_mode u); lia).
  apply holds_app in Hh as [Hh Ht]. cbn [length] in Ht. change (frame_base u + _) with (trap_base u - 32 + 32) in Ht.
  rewrite Z.sub_add in Ht.
  destruct (pop_all_spec [Some EDI; Some ESI; Some EBP; None; Some EBX; Some EDX; Some ECX; Some EAX] s
    [x_regs u EDI; x_regs u ESI; x_regs u EBP; trap_base u; x_regs u EBX; x_regs u EDX; x_regs u ECX; x_regs u EAX])
    as (P1 & P2 & P3 & P4); [done|rewrite Hsp; unfold frame_base; lia|rewrite Hsp; unfold frame_base; cbn; lia|done| |by rewrite Hsp|].
  { cbn. intuition congruence. }
  change (pop_all _ s) with (exec POPAL s) in *. set (t := exec POPAL s) in *. clearbody t.
  cbn [length] in P1. rewrite Hsp in P1. change (frame_base u + _) with (trap_base u - 32 + 32) in P1. rewrite Z.sub_add in P1.
  pose proof (same_world_mode _ _ P4) as Hmt. rewrite Hm in Hmt. destruct P4 as (_ & _ & E3 & _ & E5 & E6).
  destruct (iret_context u t) as (I1 & I2 & I3 & I4); [done|done|done|done| |by rewrite P3|by rewrite E3|].
  - intros r Hne. rewrite P2 by done. by destruct r.
  - by rewrite I2, I3, I4, P3, E5, E6.
Qed.
End context.

(** ** Interrupts *)

Section interrupt.
Context {D : Type} `{MachineLaws D} `{LayoutLaws} `{CompiledLaws D}.
Variables (fr : frame) (ev : env) (screen_loc after_int : Z).
Implicit Types s t u v : state D.

(** The kernel as the C function of an interrupt finds it. *)
Definition at_handler u : kernel D := called (frame_base u) (entered true u).

(** What the linkage of an interrupt does around the C function. *)
Lemma interrupt_run g u kb' x k' :
  context_ok u -> has_result g = false -> params g = 0 ->
  (forall rs, effect fr ev screen_loc g rs (x_kb u) (at_handler u) = Some (kb', SRet x k')) ->
  exists s, interrupt fr ev screen_loc after_int [PUSHAL; CALL g; POPAL; IRET] u = Some (Resumes (iret (exec POPAL s))) /\
    x_regs s ESP = ebp (k_cpu k') + ebp_depth /\ user_mode s = false /\ x_ss s = KERNEL_DS /\
    x_k s = k' /\ x_kb s = kb' /\
    (forall a, a < pcb_process (frame_base u) \/ frame_base u <= a ->
       ld (x_ks s) a = ld (x_ks (exec PUSHAL (trap true u))) a).
Proof.
  intros Hc Hres Hpar He. destruct (save_context true u Hc) as (S1 & S2 & S3 & S4 & S5 & S6 & S7 & S8).
  unfold interrupt. cbn [run]. set (t := exec PUSHAL (trap true u)) in *. clearbody t.
  unfold c_call. rewrite S1, S5, S6. fold (at_handler u). rewrite He. cbn [run].
  eexists. split; [reflexivity|]. cbn [x_regs x_ss x_k x_kb x_ks]. split; [done|]. split; [exact S3|]. split; [exact S4|].
  split; [done|]. split; [done|]. intros a Ha. apply leftover_outside. rewrite S1, Hpar. lia.
Qed.

(** A function that leaves ESP and EBP alone returns to the program it interrupted. *)
Lemma interrupt_resumes g u kb' x k' :
  context_ok u -> has_result g = false -> params g = 0 ->
  (forall rs, effect fr ev screen_loc g rs (x_kb u) (at_handler u) = Some (kb', SRet x k')) ->
  k_cpu k' = k_cpu (at_handler u) ->
  exists v, interrupt fr ev screen_loc after_int [PUSHAL; CALL g; POPAL; IRET] u = Some (Resumes v) /\
    same_context u v /\ x_kb v = kb' /\ x_k v = set_k_if k' (interrupts u) /\
    (forall a, frame_top u <= a -> ld (x_ks v) a = ld (x_ks u) a).
Proof.
  intros Hc Hres Hpar He Hcpu. destruct (interrupt_run g u kb' x k' Hc Hres Hpar He) as (s & Hrun & R1 & R2 & R3 & R4 & R5 & R6).
  destruct (save_context true u Hc) as (_ & _ & _ & _ & _ & _ & S7 & S8).
  rewrite Hcpu in R1. cbn [k_cpu at_handler called with_cpu ebp] in R1. rewrite Z.sub_add in R1.
  destruct (restore_context u s) as (Q1 & Q2 & Q3 & Q4); [done|done|done| |done|].
  { revert S7. apply holds_ext. intros a Ha. apply R6. lia. }
  exists (iret (exec POPAL s)). rewrite Q2, Q3, Q4, R4, R5. split; [done|]. split; [done|]. split; [done|]. split; [done|].
  intros a Ha. assert (frame_base u <= frame_top u).
  { unfold frame_base, trap_base. rewrite trap_words_length. destruct (user_mode u); lia. }
  rewrite R6 by lia. apply S8. by right.
Qed.

(** ** The timer *)

(** The frame of [u], and the part of the stack that [scheduler_tick] reads ESP in, are on the
    kernel stack of [p]. *)
Definition stack_of u (p : Z) : Prop :=
  0 <= p < MAX_PID /\ get_pcb p <= frame_base u - esp_depth /\ frame_top u <= get_pcb p + KERNEL_STACK_SIZE.

Lemma frame_height u : frame_base u + 44 <= frame_top u <= frame_base u + 52 /\
  frame_base u + 4 * Z.of_nat (length (all_words u)) = frame_top u.
Proof.
  unfold frame_base, trap_base, all_words. rewrite length_app, trap_words_length. cbn [length]. destruct (user_mode u); lia.
Qed.

Lemma stack_of_on u p : stack_of u p -> on_stack p (frame_base u) /\ on_stack p (frame_base u - esp_depth).
Proof. intros (_ & Hs1 & Hs2). pose proof (frame_height u) as [Hh _]. pose proof esp_depth_pos. unfold on_stack. lia. Qed.

(** The state of the kernel when [u] is interrupted by the timer and [q] is next. *)
Lemma timer_switches u p q :
  stack_of u p -> pid (pcb_at (x_k u) (get_pcb p)) = p -> next_task (k_sched (x_k u)) p = Some q ->
  0 <= q < MAX_PID -> pid (pcb_at (x_k u) (get_pcb q)) = q ->
  exists k0, pcb_at k0 = pcb_at (x_k u) /\ k_cpu k0 = k_cpu (at_handler u) /\
    switched k0 (Linkage.pit_handler screen_loc (at_handler u)) p q.
Proof.
  intros Hst Hp Hn Hq Hpq. unfold Linkage.pit_handler. eexists.
  split; [|split; [|eapply scheduler_tick_spec]]; [reflexivity|reflexivity| |exact Hn|done|exact Hpq].
  split; [apply Hst|]. split; [|exact Hp]. by apply stack_of_on.
Qed.

(** The timer's linkage, when [q] is next. *)
Lemma timer_run u p q :
  context_ok u -> stack_of u p -> pid (pcb_at (x_k u) (get_pcb p)) = p -> next_task (k_sched (x_k u)) p = Some q ->
  0 <= q < MAX_PID -> pid (pcb_at (x_k u) (get_pcb q)) = q ->
  exists s, interrupt fr ev screen_loc after_int pit_linkage_code u = Some (Resumes (iret (exec POPAL s))) /\
    x_regs s ESP = ebp_reg (pcb_at (x_k s) (get_pcb q)) + ebp_depth /\ user_mode s = false /\ x_ss s = KERNEL_DS /\
    pcb_at (x_k s) (get_pcb p) =
      set_regs (pcb_at (x_k u) (get_pcb p)) (frame_base u - esp_depth) (frame_base u - ebp_depth) /\
    (forall a, a <> get_pcb p -> pcb_at (x_k s) a = pcb_at (x_k u) a) /\
    cr3 (k_paging (x_k s)) = dir_addr q /\ k_tss (x_k s) = Tss KERNEL_DS (KERNEL_STACK q) /\
    holds (x_ks s) (frame_base u) (all_words u) /\
    (forall a, ~ on_stack p a -> ld (x_ks s) a = ld (x_ks u) a).
Proof.
  intros Hc Hst Hp Hn Hq Hpq. destruct (timer_switches u p q Hst Hp Hn Hq Hpq) as (k0 & K1 & K2 & [W1 W2 W3 W4 W5 _]).
  rewrite K2 in W2. rewrite K1 in W2, W3.
  set (k' := Linkage.pit_handler screen_loc (at_handler u)) in *.
  destruct (interrupt_run pit_handler_fn u (x_kb u) 0 k' Hc eq_refl eq_refl ltac:(reflexivity)) as (s & R0 & R1 & R2 & R3 & R4 & _ & R6).
  destruct (save_context true u Hc) as (_ & _ & _ & _ & _ & _ & S7 & S8). destruct (stack_of_on u p Hst) as [Ho _].
  pose proof (frame_height u) as [_ Hh]. destruct Hst as (Hr & Hlow & Htop). pose proof (pcb_process_stack p (frame_base u) Hr Ho) as Hpp.
  rewrite <- R4 in W1, W2, W3, W4, W5. exists s. split; [exact R0|]. split; [by rewrite R1, <- R4, W1|].
  do 2 (split; [assumption|]). split; [exact W2|]. do 3 (split; [assumption|]). split.
  - revert S7. apply holds_ext. intros a Ha. apply R6. lia.
  - unfold on_stack in *. intros a Ha. rewrite R6, S8; [done|lia|rewrite Hpp; lia].
Qed.
End interrupt.

(** ** System calls *)

Section system_call.
Context {D : Type} `{MachineLaws D} `{LayoutLaws} `{CompiledLaws D}.
Variables (fr : frame) (ev : env) (screen_loc after_int : Z).
Implicit Types s t u v : state D.

(** One step of [run]. *)
Definition plain (i : instr) : bool :=
  match i with JL _ | JG _ | JMP _ | CALL _ | CALL_JUMPTABLE | INT _ | IRET | RET => false | _ => true end.

Abbreviation steps := (run fr ev screen_loc after_int).

Lemma run_plain f i c s : plain i = true -> steps (S f) (i :: c) s = steps f c (exec i s).
Proof. by destruct i. Qed.

Lemma run_jl f l c s : steps (S f) (JL l :: c) s = if less (x_eflags s) then steps f (code l) s else steps f c s.
Proof. done. Qed.

Lemma run_jg f l c s : steps (S f) (JG l :: c) s = if greater (x_eflags s) then steps f (code l) s else steps f c s.
Proof. done. Qed.

Lemma run_jmp f l c s : steps (S f) (JMP l :: c) s = steps f (code l) s.
Proof. done. Qed.

Lemma run_jumptable f c s t :
  1 <= s32 (x_regs s EAX) <= 11 -> c_call fr ev screen_loc (syscall_fn (s32 (x_regs s EAX))) s = Some (Resumes t) ->
  steps (S f) (CALL_JUMPTABLE :: c) s = steps f c t.
Proof. intros Hn Ht. cbn [run]. decide_b. cbn [andb]. by rewrite Ht. Qed.

Lemma run_int f c s t :
  steps f syscall_linkage_code (trap false (set_eip after_int s)) = Some (Resumes t) -> x_eip t = after_int ->
  steps (S f) (INT 0x80 :: c) s = steps f c t.
Proof. intros Ht Hi. change (INT 0x80) with (INT 128). cbn [run Z.eqb Pos.eqb]. rewrite Ht. by rewrite Hi, Z.eqb_refl. Qed.

Lemma s32_s32 x : s32 (s32 x) = s32 x.
Proof. unfold s32. Z.div_mod_to_equations. lia. Qed.

(** The comparisons of [syscall_linkage]. *)
Lemma less_spec a c e : s32 c = c -> less (arith_flags (a - c) (s32 a - s32 c) e) = (s32 a <? c).
Proof.
  intros Hv. rewrite Hv. unfold less, arith_flags. rewrite getf_setf_other, !getf_setf_same by lia.
  assert (Hb : forall b, getf 0 1 (b2z b) = b2z b) by (by intros []). rewrite !Hb.
  destruct (Z.eqb_spec (s32 (a - c)) (s32 a - c)), (Z.ltb_spec (s32 (a - c)) 0), (Z.ltb_spec (s32 a) c); try done;
    exfalso; unfold s32 in *; Z.div_mod_to_equations; lia.
Qed.

Lemma greater_spec a c e : s32 c = c -> greater (arith_flags (a - c) (s32 a - s32 c) e) = (c <? s32 a).
Proof.
  intros Hv. unfold greater. rewrite less_spec by done. unfold arith_flags.
  rewrite getf_setf_other, getf_setf_other, getf_setf_same by lia.
  assert (Hb : forall b, getf 0 1 (b2z b) = b2z b) by (by intros []). rewrite Hb.
  assert (Hz : (u32 (a - c) =? 0) = (s32 a =? c)).
  { destruct (Z.eqb_spec (u32 (a - c)) 0), (Z.eqb_spec (s32 a) c); try done; exfalso; unfold u32, s32 in *; Z.div_mod_to_equations; lia. }
  rewrite Hz. destruct (Z.eqb_spec (s32 a) c), (Z.ltb_spec (s32 a) c), (Z.ltb_spec c (s32 a)); done || lia.
Qed.

Lemma jumptable_s32 n b c d (k : kernel D) :
  Linkage.jumptable fr ev (Linkage.Regs (s32 n) b c d) k = Linkage.jumptable fr ev (Linkage.Regs n b c d) k.
Proof. unfold Linkage.jumptable. cbn [Linkage.eax Linkage.ebx Linkage.ecx Linkage.edx]. by rewrite s32_s32. Qed.

(** The kernels agree but for the registers it has last recorded. *)
Definition same_but_cpu (a b : kernel D) : Prop := with_cpu a (Cpu 0 0) = with_cpu b (Cpu 0 0).

(** The kernel as a system call's function finds it. *)
Definition at_call u : kernel D := called (trap_base u - 12) (x_k u).

(** The words of the gate are on the stack, below them the three that [syscall_linkage] has pushed. *)
Record returning u s : Prop := {
  rt_mode : user_mode s = false;
  rt_sp : x_regs s ESP = trap_base u - 12;
  rt_ss : x_ss s = KERNEL_DS;
  rt_words : holds (x_ks s) (trap_base u) (trap_words u);
  rt_regs : forall r, r = ESI \/ r = EDI \/ r = EBP -> x_regs s r = x_regs u r;
  rt_kb : x_kb s = x_kb u
}.

(** What the caller of INT 0x80 sees afterwards: a result, and registers that are lost. *)
Record returned u (a : Z) (k' : kernel D) v : Prop := {
  rd_eax : x_regs v EAX = a;
  rd_regs : forall r, r = ESI \/ r = EDI \/ r = EBP \/ r = ESP -> x_regs v r = x_regs u r;
  rd_place : x_eip v = x_eip u /\ x_cs v = x_cs u /\ x_ss v = x_ss u /\ flags_word v = flags_word u;
  rd_kb : x_kb v = x_kb u;
  rd_k : same_but_cpu (x_k v) (set_k_if k' (interrupts u))
}.

Lemma trap_base_room u : context_ok u -> 44 <= trap_base u < 2 ^ 32 - 4.
Proof. intros [_ _ Hroom _]. unfold trap_base. rewrite trap_words_length. destruct (user_mode u); lia. Qed.

Lemma cleanup_run f u s :
  context_ok u -> returning u s ->
  exists v, steps (4 + f) (code cleanup_syscall) s = Some (Resumes v) /\ returned u (x_regs s EAX) (x_k s) v.
Proof.
  intros Hc [Hm Hsp Hss Hh Hr Hb]. pose proof (trap_base_room u Hc) as Hbase. destruct Hc as [_ _ Hroom [_ Hks]].
  cbn [code Nat.add]. do 3 (rewrite run_plain by done).
  change (exec (POPL EDX) (exec (POPL ECX) (exec (POPL EBX) s))) with (pop_all [Some EBX; Some ECX; Some EDX] s).
  destruct (pop_all_spec [Some EBX; Some ECX; Some EDX] s
    [ld32 (x_ks s) (x_regs s ESP); ld32 (x_ks s) (x_regs s ESP + 4); ld32 (x_ks s) (x_regs s ESP + 4 + 4)])
    as (P1 & P2 & P3 & P4); [done|lia|rewrite Hsp; cbn; lia|done|cbn; intuition congruence|done|].
  set (t := pop_all _ s) in *. clearbody t. rewrite Hsp in P1. cbn [length] in P1.
  pose proof (same_world_mode _ _ P4) as Hmt. rewrite Hm in Hmt. destruct P4 as (_ & _ & E3 & _ & E5 & E6).
  set (u' := State (upd ESP (x_regs u ESP) (x_regs t)) (x_eip u) (x_cs u) (x_ss u) (x_eflags u) (x_ks u) (x_kb u) (x_k u)).
  destruct (iret_context u' t) as ((I1 & I2 & I3 & I4 & I5) & I6 & I7 & _); [exact Hroom|exact Hks|done| | | |by rewrite E3|].
  - change (trap_base u') with (trap_base u). lia.
  - intros r Hne. symmetry. by apply (upd_ne ESP r).
  - rewrite P3. exact Hh.
  - exists (iret t). split; [done|]. split; [|intros r Hq|done|by rewrite I7, E5|by rewrite I6, E6].
    + rewrite I1. cbn. by rewrite P2.
    + rewrite I1. destruct Hq as [->|[->|[->| ->]]]; cbn; [..|done]; rewrite P2 by done; apply Hr; tauto.
Qed.

Lemma failure_run f u s :
  context_ok u -> returning u s ->
  exists v, steps (6 + f) (code syscall_failure) s = Some (Resumes v) /\ returned u (u32 (-1)) (x_k s) v.
Proof.
  intros Hc [Hm Hsp Hss Hh Hr Hb]. change (code syscall_failure) with [MOVL (-1) EAX; JMP cleanup_syscall].
  cbn [Nat.add]. rewrite run_plain, run_jmp by done. apply (cleanup_run f u (exec (MOVL (-1) EAX) s) Hc).
  split; try done. by intros r [->|[->| ->]]; apply Hr; tauto.
Qed.

(** The C function of a system call that returns to its caller, with the result in EAX. *)
Lemma entry_call u t n x k' :
  returning u t -> x_k t = x_k u ->
  holds (x_ks t) (trap_base u - 12) [x_regs u EBX; x_regs u ECX; x_regs u EDX] ->
  Linkage.jumptable fr ev (Linkage.Regs n (x_regs u EBX) (x_regs u ECX) (x_regs u EDX)) (at_call u) = Some (SRet x k') ->
  k_cpu k' = k_cpu (at_call u) ->
  exists s, c_call fr ev screen_loc (syscall_fn n) t = Some (Resumes s) /\ returning u s /\
    x_k s = k' /\ x_regs s EAX = u32 x.
Proof.
  intros [Hm Hsp Hss Hh Hr Hb'] Hk Ha Hcall Hcpu. unfold c_call, rd. rewrite Hm, Hsp, Hk. fold (at_call u).
  cbn [holds] in Ha. destruct Ha as (Hb & Hc & Hd & _). replace (trap_base u - 12 + 8) with (trap_base u - 12 + 4 + 4) by lia.
  rewrite Hb, Hc, Hd. cbn [effect Linkage.ebx Linkage.ecx Linkage.edx]. rewrite Hcall.
  assert (Hsp' : ebp (k_cpu k') + ebp_depth = trap_base u - 12) by (rewrite Hcpu; cbn; lia). rewrite Hsp', Z.eqb_refl.
  eexists. split; [reflexivity|]. split; [|done]. split; try done.
  - revert Hh. apply holds_ext. intros a Hx. apply leftover_outside.
    pose proof (params_range (syscall_fn n)). rewrite Hsp. lia.
  - by intros r [->|[->| ->]]; apply Hr; tauto.
Qed.

Lemma exec_cmpl c r s :
  exec (CMPL c r) s = set_eflags (arith_flags (x_regs s r - c) (s32 (x_regs s r) - s32 c) (x_eflags s)) s.
Proof. done. Qed.

Lemma x_eflags_set e s : x_eflags (set_eflags e s) = e.
Proof. done. Qed.

Lemma x_regs_set e s r : x_regs (set_eflags e s) r = x_regs s r.
Proof. done. Qed.

Lemma set_eflags_twice e1 e2 s : set_eflags e2 (set_eflags e1 s) = set_eflags e2 s.
Proof. done. Qed.

Lemma push_arguments s :
  exec (PUSHL EBX) (exec (PUSHL ECX) (exec (PUSHL EDX) s)) = push_all [x_regs s EDX; x_regs s ECX; x_regs s EBX] s.
Proof. done. Qed.

Lemma returning_flags u s e : returning u s -> returning u (set_eflags e s).
Proof. intros [Hm Hsp Hss Hh Hr Hb]. by split. Qed.

(** [syscall_linkage] up to the call. *)
Lemma linkage_check f u :
  context_ok u ->
  exists t e1 e2, (forall e, returning u (set_eflags e t)) /\ x_k t = x_k u /\ x_regs t EAX = x_regs u EAX /\
    holds (x_ks t) (trap_base u - 12) [x_regs u EBX; x_regs u ECX; x_regs u EDX] /\
    steps (16 + f) syscall_linkage_code (trap false u) =
      if s32 (x_regs u EAX) <? 1 then steps (11 + f) (code syscall_failure) (set_eflags e1 t)
      else if 11 <? s32 (x_regs u EAX) then steps (9 + f) (code syscall_failure) (set_eflags e2 t)
      else steps (9 + f) (CALL_JUMPTABLE :: code cleanup_syscall) (set_eflags e2 t).
Proof.
  intros Hc. pose proof (trap_base_room u Hc) as Hbase. pose proof (cx_regs u Hc) as Hr.
  destruct (trap_spec false u Hc) as (T1 & T2 & T3 & T4 & T5 & T6 & T7 & _).
  set (s := trap false u) in *. clearbody s.
  unfold syscall_linkage_code. cbn [app Nat.add]. do 3 (rewrite run_plain by done). rewrite push_arguments, !T2 by done.
  destruct (push_all_spec [x_regs u EDX; x_regs u ECX; x_regs u EBX] s (trap_words u)) as (P1 & P2 & P3 & P4 & _);
    [done|cbn [length]; lia|repeat (apply Forall_cons; [apply Hr|]); apply Forall_nil|by rewrite T1|].
  set (t := push_all _ s) in *. clearbody t. rewrite T1 in P1. cbn [length] in P1.
  pose proof (same_world_mode _ _ P4) as Hmt. rewrite T3 in Hmt. destruct P4 as (_ & _ & E3 & _ & E5 & E6).
  rewrite P1 in P3. cbn [rev app] in P3. change (trap_base u - 4 * Z.of_nat 3) with (trap_base u - 12) in *.
  apply (holds_app _ [x_regs u EBX; x_regs u ECX; x_regs u EDX]) in P3 as [Ha Hh].
  cbn [length] in Hh. replace (trap_base u - 12 + 4 * Z.of_nat 3) with (trap_base u) in Hh by lia.
  assert (Ea : x_regs t EAX = x_regs u EAX) by (by rewrite P2, T2).
  pose (e1 := arith_flags (x_regs t EAX - 1) (s32 (x_regs t EAX) - s32 1) (x_eflags t)).
  exists t, e1, (arith_flags (x_regs t EAX - 11) (s32 (x_regs t EAX) - s32 11) e1).
  split; [|split; [by rewrite E6, T6|split; [exact Ea|split; [exact Ha|]]]].
  - assert (Hq : forall r, r = ESI \/ r = EDI \/ r = EBP -> x_regs t r = x_regs u r).
    { intros r Hr'. assert (r <> ESP) by (destruct Hr' as [->|[->| ->]]; done). by rewrite P2, T2. }
    intros e. apply returning_flags. split; congruence || done.
  - rewrite <- Ea, <- (less_spec (x_regs t EAX) 1 (x_eflags t)), <- (greater_spec (x_regs t EAX) 11 e1) by done. clear.
    rewrite run_plain, run_jl, run_plain, run_jg, !exec_cmpl, !x_eflags_set, set_eflags_twice, x_regs_set by done. fold e1.
    reflexivity.
Qed.

(** [syscall_linkage], for a call that returns to its caller. *)
Lemma syscall_run f u x k' :
  context_ok u ->
  Linkage.syscall_linkage fr ev
    (Linkage.Regs (x_regs u EAX) (x_regs u EBX) (x_regs u ECX) (x_regs u EDX)) (at_call u) = Some (SRet x k') ->
  k_cpu k' = k_cpu (at_call u) ->
  exists v, steps (16 + f) syscall_linkage_code (trap false u) = Some (Resumes v) /\ returned u (u32 x) k' v.
Proof.
  intros Hc Hcall Hcpu. destruct (linkage_check f u Hc) as (t & e1 & e2 & Ht & Hk & Ea & Ha & ->).
  unfold Linkage.syscall_linkage in Hcall. cbn [Linkage.eax] in Hcall.
  assert (Hfail : forall e n, Some (SRet (-1) (at_call u)) = Some (SRet x k') ->
    exists v, steps (6 + n) (code syscall_failure) (set_eflags e t) = Some (Resumes v) /\ returned u (u32 x) k' v).
  { intros e n [= <- <-]. destruct (failure_run n u _ Hc (Ht e)) as (v & V1 & [V2 V3 V4 V5 V6]). exists v.
    split; [exact V1|]. split; try done. revert V6. cbn [x_k set_eflags]. by rewrite Hk. }
  destruct (Z.ltb_spec (s32 (x_regs u EAX)) 1) as [Hn|Hn]; [exact (Hfail e1 (5 + f)%nat Hcall)|].
  destruct (Z.ltb_spec 11 (s32 (x_regs u EAX))) as [Hn'|Hn']; [exact (Hfail e2 (3 + f)%nat Hcall)|].
  cbn [orb] in Hcall. rewrite <- jumptable_s32 in Hcall.
  destruct (entry_call u (set_eflags e2 t) _ x k' (Ht e2) Hk Ha Hcall Hcpu) as (s & C1 & C2 & C3 & C4).
  destruct (cleanup_run (4 + f) u s Hc C2) as (v & V1 & V2). exists v. rewrite C3, C4 in V2. split; [|exact V2].
  change (9 + f)%nat with (S (4 + (4 + f))). rewrite <- V1. apply run_jumptable.
  - rewrite x_regs_set, Ea. lia.
  - rewrite x_regs_set, Ea. exact C1.
Qed.

(** ** The wrappers *)

(** The state at the INT of a wrapper. *)
Definition at_int n u : state D :=
  set_eip after_int (exec (LOAD 16 EDX) (exec (LOAD 12 ECX) (exec (LOAD 8 EBX) (exec (MOVL n EAX) (exec (PUSHL EBX) u))))).

(** The kernel that the system call finds: EBX is saved on the user stack. *)
Definition wrapped u : kernel D :=
  called (esp0 (k_tss (x_k u)) - 32)
    (with_mem (x_k u) (st32 (k_mem (x_k u)) (x_regs u ESP - 4) (x_regs u EBX))).

(** A program calls a wrapper: the stack holds the return address and up to three arguments. *)
Record calls_wrapper u : Prop := {
  cw_context : context_ok u;
  cw_user : user_mode u = true;
  cw_stack : 4 <= x_regs u ESP /\ x_regs u ESP + 16 <= 2 ^ 32
}.

Definition argument u (i : Z) : Z := ld32 (k_mem (x_k u)) (x_regs u ESP + 4 * i).

Lemma at_int_spec n u :
  calls_wrapper u -> word n -> word after_int ->
  let s := at_int n u in
  context_ok s /\ at_call s = wrapped u /\
  x_regs s EAX = n /\ x_regs s EBX = argument u 1 /\ x_regs s ECX = argument u 2 /\ x_regs s EDX = argument u 3 /\
  x_regs s ESP = x_regs u ESP - 4 /\ flags_word s = flags_word u /\ interrupts s = interrupts u /\
  (forall r, r = ESI \/ r = EDI \/ r = EBP -> x_regs s r = x_regs u r).
Proof.
  intros [Hc Hu [Hlow Hhigh]] Hn Ha. cbn zeta. pose proof (u32_small (x_regs u ESP - 4) ltac:(lia)) as Hsp.
  set (k1 := with_mem (x_k u) (st32 (k_mem (x_k u)) (x_regs u ESP - 4) (x_regs u EBX))).
  assert (Hld : forall i, 1 <= i -> ld32 (k_mem k1) (x_regs u ESP - 4 + (4 + 4 * i)) = argument u i).
  { intros i Hi. unfold argument. replace (x_regs u ESP - 4 + (4 + 4 * i)) with (x_regs u ESP + 4 * i) by lia.
    apply ld32_ext. intros a Hx. unfold k1. rewrite ld_with_mem. apply ld_st32_ne. lia. }
  assert (E : at_int n u = State
    (upd EDX (argument u 3) (upd ECX (argument u 2) (upd EBX (argument u 1) (upd EAX n (upd ESP (x_regs u ESP - 4) (x_regs u))))))
    after_int (x_cs u) (x_ss u) (x_eflags u) (x_ks u) (x_kb u) k1).
  { assert (L : forall s r off i, user_mode s = true -> x_k s = k1 -> x_regs s ESP = x_regs u ESP - 4 ->
      off = 4 + 4 * i -> 1 <= i -> exec (LOAD off r) s = set_reg r (argument u i) s).
    { intros s r off i Hs Hk Hp -> Hi. cbn [exec]. unfold rd. by rewrite Hs, Hk, Hp, Hld. }
    assert (P : exec (PUSHL EBX) u =
      State (upd ESP (x_regs u ESP - 4) (x_regs u)) (x_eip u) (x_cs u) (x_ss u) (x_eflags u) (x_ks u) (x_kb u) k1).
    { cbn [exec]. unfold push, wr. change (user_mode (set_reg _ _ u)) with (user_mode u). by rewrite Hu, Hsp. }
    assert (M : forall s, exec (MOVL n EAX) s = set_reg EAX n s) by (intros; cbn [exec]; by rewrite (u32_small n)).
    unfold at_int. rewrite P, M.
    rewrite (L _ EBX 8 1), (L _ ECX 12 2), (L _ EDX 16 3) by done. done. }
  rewrite E. pose proof (cx_regs u Hc) as Hr. destruct Hc as [_ (W1 & W2 & W3 & W4) Hroom [Hs0 Hks]].
  assert (Htop : frame_top u = esp0 (k_tss (x_k u))) by (unfold frame_top; by rewrite Hu).
  split; [|split; [|repeat (split; [done|]); by intros r [->|[->| ->]]]].
  - split; [|done| |done].
    + intros r. pose proof (Hr ESP). unfold word in *. destruct r; cbn; try apply ld32_range; try apply Hr; [done|lia].
    + rewrite Htop in Hroom. unfold frame_top. change (user_mode (State _ _ (x_cs u) _ _ _ _ _)) with (user_mode u).
      rewrite Hu. exact Hroom.
  - unfold at_call, wrapped, trap_base, frame_top. rewrite trap_words_length.
    change (user_mode (State _ _ (x_cs u) _ _ _ _ _)) with (user_mode u). rewrite Hu. cbn [x_k].
    by replace (esp0 (k_tss k1) - 4 * Z.of_nat 5 - 12) with (esp0 (k_tss (x_k u)) - 32) by (change (k_tss k1) with (k_tss (x_k u)); lia).
Qed.

(** A wrapper up to the instruction after its INT. *)
Lemma wrapper_run n u rest x k' :
  calls_wrapper u -> word n -> word after_int ->
  Linkage.syscall_linkage fr ev (Linkage.Regs n (argument u 1) (argument u 2) (argument u 3)) (wrapped u) = Some (SRet x k') ->
  k_cpu k' = k_cpu (wrapped u) ->
  exists v, steps 40 ([PUSHL EBX; MOVL n EAX; LOAD 8 EBX; LOAD 12 ECX; LOAD 16 EDX; INT 0x80] ++ rest) u = steps 34 rest v /\
    returned (at_int n u) (u32 x) k' v.
Proof.
  intros Hw Hn Ha Hcall Hcpu. destruct (at_int_spec n u Hw Hn Ha) as (A1 & A2 & A3 & A4 & A5 & A6 & _).
  destruct (syscall_run 18 (at_int n u) x k' A1) as (v & V1 & V2); [by rewrite A2, A3, A4, A5, A6|by rewrite A2|].
  exists v. split; [|exact V2]. cbn [app]. do 5 (rewrite run_plain by done). apply run_int; [exact V1|].
  by destruct (rd_place _ _ _ _ V2) as (-> & _).
Qed.

Lemma same_but_cpu_mem (a b : kernel D) i : same_but_cpu a (set_k_if b i) -> k_mem a = k_mem b.
Proof. intros E. change (k_mem a) with (k_mem (with_cpu a (Cpu 0 0))). by rewrite E. Qed.

(** The word at [i] of the user stack after the call, seen from the stack pointer at the INT. *)
Lemma user_word u n x k' v i :
  calls_wrapper u -> word n -> word after_int -> returned (at_int n u) (u32 x) k' v ->
  rd v (x_regs u ESP + 4 * i) = ld32 (k_mem k') (x_regs u ESP + 4 * i) /\ x_regs v ESP = x_regs u ESP - 4.
Proof.
  intros Hw Hn Ha [_ Hr (_ & Hcs & _) _ Hk]. destruct (at_int_spec n u Hw Hn Ha) as (_ & _ & _ & _ & _ & _ & A7 & _).
  split; [|rewrite Hr by tauto; exact A7]. unfold rd, user_mode. rewrite Hcs.
  change (Z.land (x_cs (at_int n u)) 3 =? 3) with (user_mode u). rewrite (cw_user u Hw). by rewrite (same_but_cpu_mem _ _ _ Hk).
Qed.
End system_call.

(** In every state that keeps the invariant of the running system, a program in user mode can be
    interrupted: the conditions of the theorems below on its context, its kernel stack and the
    schedule hold, when the frames of the C functions fit in the half of a kernel stack. *)
Lemma running_program_interruptible {D} `{MachineLaws D} `{LayoutLaws} `{CompiledLaws D} (u : state D) p :
  System.sys_inv (x_k u) p -> user_mode u = true -> esp_depth <= 0x1000 ->
  (forall r, word (x_regs u r)) -> word (x_eip u) /\ word (x_cs u) /\ word (x_ss u) /\ word (x_eflags u) ->
  context_ok u /\ stack_of u p /\ pid (pcb_at (x_k u) (get_pcb p)) = p /\ sched_ok (x_k u) p /\
  exists q, next_task (k_sched (x_k u)) p = Some q.
Proof.
  intros [I1 I2 I3 I4 I5 I6 I7 I8 I9 I10] Hu Hd Hr Hw. pose proof (Execute.stack_top p) as Hst.
  pose proof (proj1 I3) as Hp. specialize (Hst Hp). pose proof (get_pcb_eq p Hp) as Hb.
  assert (Htop : frame_top u = KERNEL_STACK p) by (unfold frame_top; by rewrite Hu, I7).
  pose proof (frame_height u) as [Hh _]. unfold KERNEL_STACK_SIZE, KERNEL_MEM_END, MAX_PID in *.
  split; [split; [done|done|lia|by rewrite I7, Hu]|]. split; [split; [done|]; unfold KERNEL_STACK_SIZE; lia|]. split; [done|]. split.
  - intros q Hq Hne. apply I8; [by apply I2|done].
  - pose proof (next_task_spec (k_sched (x_k u)) p Hp) as Hn. destruct (next_task _ p) as [q|]; [by exists q|by destruct (Hn p)].
Qed.

(** C13: The system call wrappers.  A program that calls [DO_CALL(name, n)] gets back from it, at
    its return address, with EAX the result of the kernel's [syscall_linkage] for call [n] with
    the three words above the return address as arguments, EBX, ESI, EDI, EBP, the segment
    registers and the flags as before and ESP above the return address, for every call that
    returns to its caller and leaves the two words of the program's stack alone that the wrapper
    needs.  The register EBX comes back although the linkage may lose it: a C function owns the
    stack slots of its arguments, from which the linkage pops it. *)
Theorem wrapper_returns_result {D} `{MachineLaws D} `{LayoutLaws} `{CompiledLaws D} fr ev loc after n (u : state D) x k' :
  calls_wrapper u -> word n -> word after ->
  Linkage.syscall_linkage fr ev (Linkage.Regs n (argument u 1) (argument u 2) (argument u 3)) (wrapped u) = Some (SRet x k') ->
  k_cpu k' = k_cpu (wrapped u) ->
  ld32 (k_mem k') (x_regs u ESP - 4) = x_regs u EBX -> ld32 (k_mem k') (x_regs u ESP) = argument u 0 ->
  exists v, wrapper fr ev loc after (DO_CALL n) u = Some (Resumes v) /\
    x_regs v EAX = u32 x /\ x_eip v = argument u 0 /\ x_regs v ESP = x_regs u ESP + 4 /\
    (forall r, r = EBX \/ r = ESI \/ r = EDI \/ r = EBP -> x_regs v r = x_regs u r) /\
    x_cs v = x_cs u /\ x_ss v = x_ss u /\ flags_word v = flags_word u /\ x_kb v = x_kb u /\
    same_but_cpu (x_k v) (set_k_if k' (interrupts u)).
Proof.
  intros Hw Hn Ha Hcall Hcpu Hebx Hret.
  destruct (wrapper_run fr ev loc after n u [POPL EBX; RET] x k' Hw Hn Ha Hcall Hcpu) as (v & V1 & V2).
  destruct (user_word after u n x k' v (-1) Hw Hn Ha V2) as [Uw Usp]. destruct (user_word after u n x k' v 0 Hw Hn Ha V2) as [Ur _].
  replace (x_regs u ESP + 4 * -1) with (x_regs u ESP - 4) in Uw by lia. replace (x_regs u ESP + 4 * 0) with (x_regs u ESP) in Ur by lia.
  rewrite Hebx in Uw. rewrite Hret in Ur. destruct (at_int_spec after n u Hw Hn Ha) as (_ & _ & _ & _ & _ & _ & _ & A9 & A10 & A8).
  destruct V2 as [R1 R2 (_ & R4 & R5 & R6) R7 R8]. rewrite A9 in R6. rewrite A10 in R8. pose proof (cw_stack u Hw) as Hs.
  assert (E : exec (POPL EBX) v = set_reg EBX (x_regs u EBX) (set_reg ESP (x_regs u ESP) v)).
  { cbn [exec]. unfold pop_reg, pop. rewrite Usp, Uw, u32_small by lia. by replace (x_regs u ESP - 4 + 4) with (x_regs u ESP) by lia. }
  eexists. split; [unfold wrapper; etrans; [exact V1|]; rewrite run_plain, E by done; reflexivity|].
  assert (Hrd : rd (set_reg EBX (x_regs u EBX) (set_reg ESP (x_regs u ESP) v)) (x_regs u ESP) = argument u 0) by exact Ur.
  split; [exact R1|]. split; [exact Hrd|]. split; [cbn; rewrite u32_small; lia|]. split; [|done].
  intros r [->|[->|[->| ->]]]; cbn; [done|..]; rewrite R2 by tauto; apply A8; tauto.
Qed.

(** The copy of the macro in asm_linkage.S adds 8 to ESP before it restores EBX: it takes EBX from
    the first argument and jumps to the second one. *)
Theorem wrapper_copy_jumps_to_argument {D} `{MachineLaws D} `{LayoutLaws} `{CompiledLaws D} fr ev loc after n (u : state D) x k' :
  calls_wrapper u -> word n -> word after -> x_regs u ESP + 20 <= 2 ^ 32 ->
  Linkage.syscall_linkage fr ev (Linkage.Regs n (argument u 1) (argument u 2) (argument u 3)) (wrapped u) = Some (SRet x k') ->
  k_cpu k' = k_cpu (wrapped u) ->
  exists v, wrapper fr ev loc after (DO_CALL_copy n) u = Some (Resumes v) /\
    x_regs v EBX = ld32 (k_mem k') (x_regs u ESP + 4) /\ x_eip v = ld32 (k_mem k') (x_regs u ESP + 8).
Proof.
  intros Hw Hn Ha Hroom Hcall Hcpu.
  destruct (wrapper_run fr ev loc after n u [ADDL 8 ESP; POPL EBX; RET] x k' Hw Hn Ha Hcall Hcpu) as (v & V1 & V2).
  destruct (user_word after u n x k' v 1 Hw Hn Ha V2) as [U1 Usp]. destruct (user_word after u n x k' v 2 Hw Hn Ha V2) as [U2 _].
  pose proof (cw_stack u Hw) as Hs. replace (x_regs u ESP + 4 * 1) with (x_regs u ESP + 4) in U1 by lia.
  replace (x_regs u ESP + 4 * 2) with (x_regs u ESP + 8) in U2 by lia.
  eexists. split; [unfold wrapper; etrans; [exact V1|]; rewrite !run_plain by done; reflexivity|].
  set (s1 := exec (ADDL 8 ESP) v).
  assert (S1 : x_regs s1 ESP = x_regs u ESP + 4) by (cbn; rewrite Usp, u32_small; lia).
  assert (S2 : x_regs (exec (POPL EBX) s1) ESP = x_regs u ESP + 8).
  { change (u32 (x_regs s1 ESP + 4) = x_regs u ESP + 8). rewrite S1, u32_small; lia. }
  split.
  - change (rd s1 (x_regs s1 ESP) = ld32 (k_mem k') (x_regs u ESP + 4)). rewrite S1. exact U1.
  - change (rd (exec (POPL EBX) s1) (x_regs (exec (POPL EBX) s1) ESP) = ld32 (k_mem k') (x_regs u ESP + 8)). rewrite S2. exact U2.
Qed.


(** C12: The context switch keeps every register.  When a tick interrupts process [p], in user
    mode or in the kernel, it returns to another process; as long as nothing writes on the kernel
    stack or the control block of [p], the tick, from any later state, that chooses [p] again ends
    with an IRET after which all the registers, EIP, CS, SS and EFLAGS are the ones [p] was
    interrupted with, in the address space of [p] and with its kernel stack in the task state
    segment. *)
Theorem ticks_restore_registers {D} `{MachineLaws D} `{LayoutLaws} `{CompiledLaws D} fr ev loc after (u : state D) p q :
  context_ok u -> stack_of u p -> pid (pcb_at (x_k u) (get_pcb p)) = p ->
  sched_ok (x_k u) p -> next_task (k_sched (x_k u)) p = Some q ->
  exists v, interrupt fr ev loc after pit_linkage_code u = Some (Resumes v) /\
  forall (u2 : state D) r,
    context_ok u2 -> stack_of u2 r -> pid (pcb_at (x_k u2) (get_pcb r)) = r -> r <> p ->
    next_task (k_sched (x_k u2)) r = Some p ->
    pcb_at (x_k u2) (get_pcb p) = pcb_at (x_k v) (get_pcb p) ->
    (forall a, on_stack p a -> ld (x_ks u2) a = ld (x_ks v) a) ->
    exists v2, interrupt fr ev loc after pit_linkage_code u2 = Some (Resumes v2) /\
      same_context u v2 /\ cr3 (k_paging (x_k v2)) = dir_addr p /\ k_tss (x_k v2) = Tss KERNEL_DS (KERNEL_STACK p).
Proof.
  intros Hc Hst Hp Hok Hn. pose proof Hst as (Hpr & _).
  pose proof (next_task_spec (k_sched (x_k u)) p Hpr) as Hs. rewrite Hn in Hs. destruct Hs as [[Hq Hsq] _].
  assert (Hpq : pid (pcb_at (x_k u) (get_pcb q)) = q) by (destruct (Z.eq_dec q p) as [->|]; [done|by apply Hok]).
  destruct (timer_run fr ev loc after u p q Hc Hst Hp Hn Hq Hpq) as (s & R0 & _ & _ & _ & R4 & _ & _ & _ & R8 & _).
  eexists. split; [exact R0|]. intros u2 r Hc2 Hst2 Hr Hrp Hn2 Hsame Hks. pose proof Hst2 as (Hrr & _).
  change (pcb_at (x_k (iret (exec POPAL s)))) with (pcb_at (x_k s)) in Hsame. rewrite R4 in Hsame.
  change (x_ks (iret (exec POPAL s))) with (x_ks s) in Hks.
  destruct (timer_run fr ev loc after u2 r p Hc2 Hst2 Hr Hn2 Hpr) as (s2 & T0 & T1 & T2 & T3 & _ & T5 & T6 & T7 & _ & T9);
    [by rewrite Hsame|].
  assert (Hne : get_pcb p <> get_pcb r) by (intros E; apply get_pcb_inj in E; congruence).
  rewrite T5, Hsame in T1 by done. cbn [ebp_reg set_regs] in T1. rewrite Z.sub_add in T1.
  assert (Hframe : holds (x_ks s2) (frame_base u) (all_words u)).
  { revert R8. apply holds_ext. intros a Ha. destruct (stack_of_on u p Hst) as [Ho _]. pose proof (frame_height u) as [_ Hh].
    destruct Hst as (_ & _ & Htop). assert (Hon : on_stack p a) by (unfold on_stack in *; lia).
    rewrite T9, Hks; [done|done|]. unfold on_stack in *. rewrite !get_pcb_eq in * by done. unfold KERNEL_STACK_SIZE in *. lia. }
  destruct (restore_context u s2 Hc T2 T1 Hframe T3) as (Q1 & Q2 & _ & _).
  eexists. split; [exact T0|]. split; [exact Q1|]. rewrite Q2. done.
Qed.

(** ** Witnesses *)

(** A compiler that clobbers what it may: the scratch registers, the first argument, the word below. *)
#[export] Instance sample_compiled : Compiled sim := {|
  scratch g s r := 0xDEAD;
  flags_after g s := 0x46;
  leftover g s :=
    let sp := x_regs s ESP in
    let m := if pcb_process sp + 4 <=? sp then st32 (x_ks s) (sp - 4) 0xBAD else x_ks s in
    if (0 <? params g) && (pcb_process sp <=? sp) then st32 m sp 0xBAD else m;
  esp_depth := 64;
  ebp_depth := 56
|}.

#[export] Instance sample_compiled_laws : CompiledLaws sim.
Proof.
  split; [|by vm_compute]. intros g s x Hx. pose proof (params_range g). cbn [leftover sample_compiled]. cbn zeta.
  destruct (Z.leb_spec (pcb_process (x_regs s ESP) + 4) (x_regs s ESP)), (Z.ltb_spec 0 (params g)),
    (Z.leb_spec (pcb_process (x_regs s ESP)) (x_regs s ESP)); cbn [andb]; rewrite ?ld_st32_ne by lia; done.
Qed.

(** A program of process [p] in user mode, on a kernel [k] with its stack in the task state segment. *)
Definition sample_user (p : Z) (ks : mem) (k : kernel sim) : state sim :=
  State (fun r => match r with ESP => 0x83FFF00 | EBX => 7 | _ => 3 end) 0x8048010 0x23 0x2B 0x246 ks
    (Kbd 0 0 0 0 ∅) (with_tss k (Tss KERNEL_DS (KERNEL_STACK p))).

Lemma sample_user_ok p ks k : 0 <= p < MAX_PID -> context_ok (sample_user p ks k).
Proof.
  intros Hp. split; [|by vm_compute| |done]; [by intros []|].
  change (64 <= KERNEL_STACK p < 2 ^ 32). unfold KERNEL_STACK, MAX_PID in *. lia.
Qed.

Lemma sample_user_stack p ks k : 0 <= p < MAX_PID -> stack_of (sample_user p ks k) p.
Proof.
  intros Hp. split; [done|]. pose proof (frame_height (sample_user p ks k)) as [Hh _].
  change (frame_top (sample_user p ks k)) with (KERNEL_STACK p) in *. change esp_depth with 64.
  rewrite get_pcb_eq by done. unfold KERNEL_STACK, KERNEL_STACK_SIZE, KERNEL_MEM_END in *. lia.
Qed.


(** Process 1 is stopped in user mode; process 2 runs, and is stopped in its turn. *)
Lemma ticks_restore_registers_witness :
  exists v v2, interrupt Execute.sample_frame (Env [] []) 0x450000 0 pit_linkage_code
      (sample_user 1 mem_empty sample_kernel) = Some (Resumes v) /\
    interrupt Execute.sample_frame (Env [] []) 0x450000 0 pit_linkage_code
      (sample_user 2 (x_ks v) (set_pcb sample_kernel (get_pcb 1) (pcb_at (x_k v) (get_pcb 1)))) = Some (Resumes v2) /\
    x_regs v2 EBX = 7 /\ x_regs v2 ESP = 0x83FFF00 /\ x_eip v2 = 0x8048010 /\ cr3 (k_paging (x_k v2)) = dir_addr 1.
Proof.
  assert (H1 : 0 <= 1 < MAX_PID) by (by vm_compute). assert (H2 : 0 <= 2 < MAX_PID) by (by vm_compute).
  destruct (ticks_restore_registers Execute.sample_frame (Env [] []) 0x450000 0 (sample_user 1 mem_empty sample_kernel) 1 2
    (sample_user_ok 1 mem_empty sample_kernel H1) (sample_user_stack 1 mem_empty sample_kernel H1) ltac:(by vm_compute)
    (proj2 sample_kernel_ok) ltac:(by vm_compute)) as (v & Hv & Hnext).
  set (k2 := set_pcb sample_kernel (get_pcb 1) (pcb_at (x_k v) (get_pcb 1))).
  destruct (Hnext (sample_user 2 (x_ks v) k2) 2 (sample_user_ok 2 (x_ks v) k2 H2) (sample_user_stack 2 (x_ks v) k2 H2))
    as (v2 & Hv2 & (Hr & He & _) & Hcr & _).
  - change (pid (pcb_at k2 (get_pcb 2)) = 2). unfold k2. rewrite pcb_at_set_ne; by vm_compute.
  - lia.
  - change (next_task (k_sched sample_kernel) 2 = Some 1). by vm_compute.
  - apply (pcb_at_set_eq sample_kernel).
  - done.
  - exists v, v2. rewrite !Hr, He, Hcr. done.
Defined.

(** A write to descriptor 9: the number and the arguments are on the user stack. *)
Definition sample_caller_stack : kernel sim :=
  with_mem sample_kernel (st32 (st32 (k_mem sample_kernel) 0x83FFF00 0x8048020) 0x83FFF04 9).

Definition sample_wrapper : state sim := sample_user 1 mem_empty sample_caller_stack.

Lemma sample_wrapper_stack :
  argument sample_wrapper 0 = 0x8048020 /\ argument sample_wrapper 1 = 9 /\
  ld32 (k_mem (wrapped sample_wrapper)) (x_regs sample_wrapper ESP - 4) = 7 /\
  ld32 (k_mem (wrapped sample_wrapper)) (x_regs sample_wrapper ESP) = argument sample_wrapper 0.
Proof. vm_compute. auto. Qed.

Lemma wrapper_returns_result_witness :
  exists v, wrapper Execute.sample_frame (Env [] []) 0 0x8048100 (DO_CALL 4) sample_wrapper = Some (Resumes v) /\
    x_regs v EAX = 2 ^ 32 - 1 /\ x_eip v = 0x8048020 /\ x_regs v EBX = 7 /\ x_regs v ESP = 0x83FFF04.
Proof.
  assert (Hn : word 4 /\ word 0x8048100) by (unfold word; lia).
  assert (Hc : calls_wrapper sample_wrapper).
  { split; [apply sample_user_ok; unfold MAX_PID; lia|reflexivity|]. change (x_regs sample_wrapper ESP) with 0x83FFF00. lia. }
  destruct sample_wrapper_stack as (S0 & S1 & S2 & S3).
  destruct (wrapper_returns_result Execute.sample_frame (Env [] []) 0 0x8048100 4 sample_wrapper (-1) (wrapped sample_wrapper)
    Hc (proj1 Hn) (proj2 Hn) ltac:(rewrite S1; reflexivity) eq_refl S2 S3) as (v & Hv & H1 & H2 & H3 & H4 & _).
  exists v. rewrite H1, H2, H3, H4, S0 by tauto. split; [exact Hv|]. repeat split; reflexivity.
Defined.
