(* ===== verification/Shell.v ===== *)
(** * Starting and restarting shells

    [syscall_init_shell] is called by [entry] for the first terminal, by the keyboard handler for
    the others, and by [syscall_halt] when a shell exits.  This file shows that it succeeds
    whenever the image holds an executable file "shell" and an identifier is free, and what a
    restart does to the schedule. *)

From S2P Require Import Prelude Mem LibString Console Machine I8259 Rtc Tasks Pcb Fs Paging Termios Keyboard Kernel Scheduling Syscall Execute FileCalls Linkage System.

Section shell.
Context {D : Type} `{Machine D} `{LayoutLaws}.
Implicit Types k : kernel D.

Lemma start_tail_mem fr shell c id flags k : k_mem (start_tail fr shell c id flags k) = k_mem k.
Proof. unfold k_mem, cur_space, start_tail. destruct shell; reflexivity. Qed.

(** [start_program] with the name of an executable in [fname]. *)
Lemma start_program_enters fr shell k name c i :
  live (k_pid_usage k) <> pid_space -> exec_frame (k_fs k) (k_mem k) fr ->
  cstr (k_mem k) (f_fname fr) name -> (length name < 32)%nat -> executable (k_fs k) (k_mem k) name c i ->
  exists k', start_program fr shell k = SUser (entry_of c) k' /\
    bytes (k_mem k') 0x8048000 (length (loaded c)) = loaded c.
Proof.
  intros Hfree Hf Hn Hnl [Hok Hi Hino Hc Hl Hmag He].
  destruct (exec_checks _ _ _ name i c Hok Hf Hn Hi Hino Hc ltac:(lia)) as (m1 & m2 & r & E1 & E2 & Hr0 & Ho2).
  apply Hr0 in Hmag. subst r.
  unfold start_program. rewrite E1. cbn [Z.eqb negb].
  change (k_fs (with_mem k m1)) with (k_fs k). rewrite k_mem_with_mem, E2. cbn [Z.eqb negb].
  rewrite with_mem_twice. change (k_pid_usage (with_mem k m2)) with (k_pid_usage k).
  pose proof (tasks_pid_new_spec (k_pid_usage k)) as Hs. destruct (tasks_pid_new (k_pid_usage k)) as [q u].
  destruct Hs as [(Hq & _)|(_ & ? & _)]; [|done].
  rewrite (u16_pid q) by lia. replace (q =? NEGATIVE_1) with false
    by (symmetry; apply Z.eqb_neq; unfold NEGATIVE_1, MAX_PID in *; lia).
  assert (Hq0 : 0 <= q < MAX_PID) by lia.
  set (k1 := with_paging (with_paging _ _) _).
  assert (Es : cur_space k1 = q) by (apply cur_space_dir; exact (switch_paging_cr3 k q Hq0)).
  assert (Ek : k_mem k1 = switched_mem k m2 q) by (unfold k_mem; by rewrite Es).
  destruct (exec_load (k_fs k) (k_mem k) (switched_mem k m2 q) fr name i c) as (m3 & E4 & Hby & _); try assumption.
  { intros x Hx Hxd Hxm. rewrite ld_switched_mem by (by apply below_window). by apply Ho2. }
  change (k_fs k1) with (k_fs k). rewrite Ek, E4, (proj2 (Z.eqb_neq _ _) He).
  eexists. split; [reflexivity|]. by rewrite start_tail_mem, k_mem_with_mem.
Qed.

(** The string "shell" of [syscall_init_shell] is a local of its own. *)
Record shell_frame (f : fs) (m : mem) (fr : frame) : Prop := {
  sf_frame : exec_frame f m fr;
  sf_off : off_image f m (f_command fr) 6;
  sf_fname : f_command fr + 6 <= f_fname fr \/ f_fname fr + 32 <= f_command fr;
  sf_fargs : f_command fr + 6 <= f_fargs fr \/ f_fargs fr + 128 <= f_command fr
}.

(** [syscall_init_shell] runs [start_program] in a state that differs in its locals only. *)
Lemma init_shell_parse fr t k :
  shell_frame (k_fs k) (k_mem k) fr ->
  exists m, syscall_init_shell fr t k = Some (start_program fr (Some (u8 t)) (with_mem k m)) /\
    cstr m (f_fname fr) (chars "shell") /\ same_image (k_fs k) (k_mem k) m.
Proof.
  intros [Hf Hoff Hc1 Hc2]. unfold syscall_init_shell.
  set (m0 := st_list (k_mem k) (f_command fr) (chars "shell" ++ [0])). rewrite k_mem_with_mem.
  assert (Ho0 : unchanged_outside (k_mem k) m0 (f_command fr) 6) by apply st_list_outside.
  assert (Hcs : cstr m0 (f_command fr) (chars "shell")).
  { unfold m0. cbn -[st ld]. rewrite !ld_st. repeat (case_match; try lia; try done). }
  destruct (exec_frame_facts _ _ _ Hf) as (_ & _ & _ & _ & Hfn & Hfa & Hw & Hap & _).
  destruct (parse_command_noargs m0 (f_command fr) (f_fname fr) (f_fargs fr) (chars "shell") Hcs) as (m & E & Hn & _ & Ho).
  { repeat apply List.Forall_cons; try apply List.Forall_nil; done. }
  { done. }
  { unfold off_image in *. split; cbn; lia. }
  exists m. rewrite E, with_mem_twice. split; [done|]. split; [done|].
  unfold off_image in *. intros x Hx. rewrite Ho, Ho0 by (cbn; lia). done.
Qed.

Lemma init_shell_enters fr t k c i :
  shell_frame (k_fs k) (k_mem k) fr -> live (k_pid_usage k) <> pid_space ->
  executable (k_fs k) (k_mem k) (chars "shell") c i ->
  exists k', syscall_init_shell fr t k = Some (SUser (entry_of c) k') /\
    bytes (k_mem k') 0x8048000 (length (loaded c)) = loaded c.
Proof.
  intros Hf Hfree Hx. destruct (init_shell_parse fr t k Hf) as (m & E & Hn & Hs).
  pose proof (exec_frame_stable _ _ _ _ Hs (sf_frame _ _ _ Hf)) as Hf0.
  apply (executable_stable _ _ m) in Hx; [|apply Nat.leb_le; by vm_compute|exact Hs].
  destruct (start_program_enters fr (Some (u8 t)) (with_mem k m) (chars "shell") c i) as (k' & E' & Hb);
    rewrite ?k_mem_with_mem; try assumption; [apply Nat.ltb_lt; by vm_compute|].
  exists k'. by rewrite E, E'.
Qed.
(** The new process. *)
Lemma init_shell_spawns fr t k p c i :
  runs_as k p -> shell_frame (k_fs k) (k_mem k) fr -> live (k_pid_usage k) <> pid_space ->
  executable (k_fs k) (k_mem k) (chars "shell") c i ->
  exists k' m q, syscall_init_shell fr t k = Some (SUser (entry_of c) k') /\
    bytes (k_mem k') 0x8048000 (length (loaded c)) = loaded c /\ spawned (with_mem k m) k' (Some (u8 t)) p q.
Proof.
  intros Hr Hf Hfree Hx. destruct (init_shell_enters fr t k c i Hf Hfree Hx) as (k' & E & Hb).
  destruct (init_shell_parse fr t k Hf) as (m & E' & _). rewrite E in E'. injection E' as E'.
  pose proof (start_program_cases fr (Some (u8 t)) (with_mem k m) p (runs_as_curr k p Hr) (proj1 Hr) (proj2 (proj2 Hr))) as Hc.
  rewrite <- E' in Hc. destruct Hc as (q & Hs). by exists k', m, q.
Qed.

(** A shell that halts frees its identifier and starts a shell on its terminal. *)
Lemma root_halt_enters fr st k p c i :
  runs_as k p -> 1 <= p -> parent_pcb (pcb_at k (get_pcb p)) = 0 ->
  shell_frame (k_fs k) (k_mem k) fr -> executable (k_fs k) (k_mem k) (chars "shell") c i ->
  exists k', syscall_halt fr st k = Some (SUser (entry_of c) k') /\
    bytes (k_mem k') 0x8048000 (length (loaded c)) = loaded c.
Proof.
  intros Hr Hp1 E0 Hf Hx. pose proof (runs_as_curr _ _ Hr) as Hcu. destruct Hr as (Hp & _ & Hid).
  unfold syscall_halt. set (k0 := set_k_if k false).
  assert (H0k : forall a, pcb_at k0 a = pcb_at k a) by (intros; apply pcb_at_set_if).
  change (curr k0) with (curr k). rewrite Hcu, !H0k, E0. cbn [Z.eqb].
  rewrite Hid. assert (S : s16 p = p) by (unfold s16, MAX_PID in *; rewrite Z.mod_small; lia). rewrite S.
  set (k2 := set_k_if (with_cpu _ _) true).
  assert (Hu : k_pid_usage k2 = tasks_pid_free p (k_pid_usage k)) by reflexivity.
  assert (Em : k_mem k2 = k_mem k /\ k_fs k2 = k_fs k) by done. destruct Em as [Em Ef]. clearbody k2.
  destruct (init_shell_enters fr (u8 (Pcb.term (pcb_at k (get_pcb p)))) k2 c i) as (k' & E & Hb).
  - by rewrite Em, Ef.
  - rewrite Hu, live_free. intros Hall. assert (Hin : p ∈ pid_space) by (apply elem_of_pid_space; lia).
    rewrite <- Hall in Hin. apply elem_of_difference in Hin as [_ Hin]. by apply Hin, elem_of_singleton.
  - by rewrite Em, Ef.
  - exists k'. by rewrite E.
Qed.
End shell.

(** ** Properties *)

(** [syscall_init_shell] starts a shell.  With an executable file "shell" in the image and a free
    identifier it enters the program: the new process has the smallest free identifier, no
    parent, its own address space with the program loaded at 0x8048000, its own kernel stack for
    the next entry, and it is scheduled beside the processes that already were. *)
Theorem init_shell_starts_shell {D} `{Machine D} `{LayoutLaws} fr t (k : kernel D) p c i :
  runs_as k p -> shell_frame (k_fs k) (k_mem k) fr -> live (k_pid_usage k) <> pid_space ->
  executable (k_fs k) (k_mem k) (chars "shell") c i ->
  exists q k', syscall_init_shell fr t k = Some (SUser (entry_of c) k') /\
    bytes (k_mem k') 0x8048000 (length (loaded c)) = loaded c /\
    q = (tasks_pid_new (k_pid_usage k)).1 /\ live (k_pid_usage k') = live (k_pid_usage k) ∪ {[q]} /\
    pid (pcb_at k' (get_pcb q)) = q /\ parent_pcb (pcb_at k' (get_pcb q)) = 0 /\
    cr3 (k_paging k') = dir_addr q /\ k_tss k' = Tss KERNEL_DS (KERNEL_STACK q) /\
    (forall r, 0 <= r < MAX_PID -> scheduled (k_sched k') r <-> r = q \/ scheduled (k_sched k) r).
Proof.
  intros Hr Hf Hfree Hx. destruct (init_shell_spawns fr t k p c i Hr Hf Hfree Hx) as (k' & m & q & E & Hb & Hs). exists q, k'.
  destruct (sp_pid _ _ _ _ _ Hs) as (Hq & _ & Hl). destruct (sp_new _ _ _ _ _ Hs) as [Hi Hpar].
  split; [done|]. split; [done|]. split; [symmetry; apply (sp_smallest _ _ _ _ _ Hs)|]. split; [exact Hl|].
  split; [exact Hi|]. split; [exact Hpar|].
  split; [rewrite (sp_paging _ _ _ _ _ Hs); apply switch_paging_cr3; lia|].
  split; [apply Hs|]. intros r Hr'. rewrite (sp_sched _ _ _ _ _ Hs). apply add_scheduled; [lia|done].
Qed.

(** C24: A shell that exits is replaced, but not always taken off the schedule.  [syscall_halt] of a
    process without a parent frees its identifier and enters a new shell, which takes the
    smallest free identifier.  If that is not the one just freed, the old process stays
    scheduled although its identifier is free: the scheduler will run it again, and the next
    process may be given its identifier. *)
Theorem shell_exit_restarts_shell {D} `{Machine D} `{LayoutLaws} fr st (k : kernel D) p c i :
  runs_as k p -> 1 <= p -> scheduled (k_sched k) p -> parent_pcb (pcb_at k (get_pcb p)) = 0 ->
  shell_frame (k_fs k) (k_mem k) fr -> executable (k_fs k) (k_mem k) (chars "shell") c i ->
  let q := (tasks_pid_new (tasks_pid_free p (k_pid_usage k))).1 in
  exists k', syscall_halt fr st k = Some (SUser (entry_of c) k') /\
    bytes (k_mem k') 0x8048000 (length (loaded c)) = loaded c /\
    scheduled (k_sched k') q /\ q ∈ live (k_pid_usage k') /\
    scheduled (k_sched k') p /\ (p ∈ live (k_pid_usage k') <-> q = p).
Proof.
  intros Hr Hp1 Hsp E0 Hf Hx q. pose proof Hr as (Hp & _).
  destruct (root_halt_enters fr st k p c i Hr Hp1 E0 Hf Hx) as (k' & Hh & Hb). exists k'. do 2 (split; [done|]).
  destruct (root_halt fr st k p _ k' Hr E0 Hh) as (k3 & t & q' & Hl & Hu & Hsc & _ & _ & Hs).
  assert (q' = q) as -> by (unfold q; rewrite <- (sp_smallest _ _ _ _ _ Hs), <- Hu; reflexivity).
  destruct (sp_pid _ _ _ _ _ Hs) as (Hq & _ & Hlive).
  rewrite (sp_sched _ _ _ _ _ Hs), !add_scheduled, Hsc by lia.
  rewrite Hlive, Hl, !elem_of_union, !elem_of_difference, !elem_of_singleton.
  split; [by left|]. split; [by right|]. split; [by right|]. intuition congruence.
Qed.

(** ** Witnesses *)

(** The small image with its program named "shell". *)
Definition shell_image : mem := st_list sample_image 0x4100C0 (chars "shell").

Lemma shell_image_ok : image_ok sample_fs shell_image.
Proof.
  assert (E1 : inode_num shell_image 0x410000 = 1) by (by vm_compute).
  assert (E0 : image_end sample_fs shell_image = 0x414000) by (by vm_compute).
  split; cbn [boot_block num_directories sample_fs]; [lia|by rewrite E0|lia|..].
  - intros ino. rewrite E1. intros Hi. replace ino with 0 by lia. by vm_compute.
  - intros ino b. rewrite E1. intros Hi Hb. replace ino with 0 by lia.
    assert (E2 : file_length sample_fs shell_image 0 = 40) by (by vm_compute).
    rewrite E2. unfold FOUR_KB. intros. replace b with 0 by lia. by vm_compute.
Qed.

Lemma shell_executable : executable sample_fs shell_image (chars "shell") sample_elf 2.
Proof.
  split; [apply shell_image_ok| |by vm_compute|by vm_compute|apply Nat.leb_le; by vm_compute|by vm_compute|by vm_compute].
  split; [by vm_compute|]. split; [by vm_compute|]. intros j Hj.
  assert (j = 0 \/ j = 1) as [-> | ->] by lia; by vm_compute.
Qed.

(** Process 1 and the shell 3 of the second terminal; 2 is free again. *)
Definition sample_second_shell : kernel sim :=
  Kernel (km shell_image) ∅
    (paging_update_control 3 (paging_allocate 3 (paging_init (paging_boot 1 0 0))).2).2
    (arr_at 0 [0; 1; 0; 1]) (arr_at 0 [0; 1; 0; 1])
    (<[get_pcb 3 := Pcb ∅ 0 0 0 0 3 ∅ 0 1 0 0 0]> ∅)
    sample_terms sample_fs 0 (Tss KERNEL_DS (KERNEL_STACK 3)) (Cpu 0x7F8F00 0x7F8F80).

Lemma second_shell_image : same_image sample_fs shell_image (k_mem sample_second_shell).
Proof.
  assert (E : image_end sample_fs shell_image = 0x414000) by (by vm_compute).
  intros x Hx. rewrite E in Hx. cbn [boot_block sample_fs] in Hx. unfold k_mem, sample_second_shell, ld. cbn [k_km].
  rewrite below_window by (unfold USER_WINDOW_START; lia). done.
Qed.

Lemma second_shell_frame : shell_frame sample_fs (k_mem sample_second_shell) sample_frame.
Proof.
  assert (Hoff : forall a n, 0x414000 <= a -> a + n <= 2 ^ 32 -> off_image sample_fs (k_mem sample_second_shell) a n).
  { intros. apply (off_image_stable sample_fs shell_image); [apply second_shell_image|]. unfold off_image.
    assert (E : image_end sample_fs shell_image = 0x414000) by (by vm_compute).
    rewrite E. split; [lia|]. split; [done|]. right. lia. }
  split; [|apply Hoff; by vm_compute|by right|by right].
  split.
  - unfold locals. repeat apply List.Forall_cons; [..|apply List.Forall_nil];
      (split; [apply Hoff; by vm_compute|by vm_compute]).
  - unfold locals. repeat apply List.FOP_cons; [..|apply List.FOP_nil];
      repeat apply List.Forall_cons; try apply List.Forall_nil; left; by vm_compute.
  - by vm_compute.
Qed.

Lemma second_shell_executable : executable sample_fs (k_mem sample_second_shell) (chars "shell") sample_elf 2.
Proof. apply (executable_stable sample_fs shell_image); [apply Nat.leb_le; by vm_compute|apply second_shell_image|apply shell_executable]. Qed.

Lemma init_shell_starts_shell_witness :
  exists k', syscall_init_shell sample_frame 2 sample_second_shell = Some (SUser 0x8048074 k') /\
    cr3 (k_paging k') = dir_addr 2.
Proof.
  destruct (init_shell_starts_shell sample_frame 2 sample_second_shell 3 sample_elf 2) as (q & k' & E & _ & Hq & _ & _ & _ & Hc & _).
  - by vm_compute.
  - apply second_shell_frame.
  - intros Hall. assert (Hin : 2 ∈ pid_space) by (apply elem_of_pid_space; unfold MAX_PID; lia).
    rewrite <- Hall in Hin. apply elem_of_live in Hin as [_ Hin]. by apply Hin.
  - apply second_shell_executable.
  - exists k'. split; [exact E|]. assert (Hq2 : q = 2) by (rewrite Hq; by vm_compute). by rewrite Hq2 in Hc.
Defined.

Lemma shell_exit_restarts_shell_witness :
  exists k', syscall_halt sample_frame 0 sample_second_shell = Some (SUser 0x8048074 k') /\
    scheduled (k_sched k') 3 /\ (3 ∉ live (k_pid_usage k')).
Proof.
  destruct (shell_exit_restarts_shell sample_frame 0 sample_second_shell 3 sample_elf 2) as (k' & E & _ & _ & _ & Hs & Hl).
  - by vm_compute.
  - lia.
  - by vm_compute.
  - by vm_compute.
  - apply second_shell_frame.
  - apply second_shell_executable.
  - exists k'. split; [exact E|]. split; [exact Hs|]. intros Hin. apply Hl in Hin.
    assert (Hq : (tasks_pid_new (tasks_pid_free 3 (k_pid_usage sample_second_shell))).1 = 2) by (by vm_compute). lia.
Defined.
