(* ===== verification/Boot.v ===== *)
(** * kernel.c, x86_desc.h and multiboot.h: from the boot loader to the first shell

    [entry] prints what the boot loader has passed, sets up the descriptor tables, initialises the
    file system, paging, the devices, the task tables and the terminals, and starts the first
    shell.  The console of lib.c and the terminals draw on the same video memory, which is kept
    once, as the terminals' array of cells.  Interrupts that arrive between [sti] and the first
    shell are not modelled. *)

From S2P Require Import Prelude Mem LibString Console Machine I8259 Rtc Tasks Pcb Fs Paging Termios Keyboard Kernel Scheduling Syscall Execute FileCalls Irq Linkage System Shell.

(** ** Segment descriptors *)

Definition USER_CS : Z := 0x0023.

Definition USER_DS : Z := 0x002B.

Definition KERNEL_TSS : Z := 0x0030.

Definition KERNEL_LDT : Z := 0x0038.

Definition TSS_SIZE : Z := 104.

(** x86_desc.S: [tss_bottom - tss - 1] and [ldt_bottom - ldt - 1]. *)
Definition tss_size : Z := 104 - 1.

Definition ldt_size : Z := 4 * 8 - 1.

Record seg_desc := SegDesc {
  seg_lim_15_00 : Z;
  base_15_00 : Z;
  base_23_16 : Z;
  sd_type : Z;
  sd_sys : Z;
  sd_dpl : Z;
  sd_present : Z;
  seg_lim_19_16 : Z;
  sd_avail : Z;
  sd_reserved : Z;
  sd_opsize : Z;
  sd_granularity : Z;
  base_31_24 : Z
}.

Definition SET_LDT_PARAMS (d : seg_desc) (addr lim : Z) : seg_desc :=
  SegDesc (u16 (Z.land lim 0x0000FFFF)) (u16 (Z.land (u32 addr) 0x0000FFFF))
    (u8 (Z.shiftr (Z.land (u32 addr) 0x00FF0000) 16)) (sd_type d) (sd_sys d) (sd_dpl d) (sd_present d)
    (Z.land (Z.shiftr (Z.land lim 0x000F0000) 16) 15) (sd_avail d) (sd_reserved d) (sd_opsize d)
    (sd_granularity d) (u8 (Z.shiftr (Z.land (u32 addr) 0xFF000000) 24)).

Definition SET_TSS_PARAMS (d : seg_desc) (addr lim : Z) : seg_desc :=
  SegDesc (u16 (Z.land lim 0x0000FFFF)) (u16 (Z.land (u32 addr) 0x0000FFFF))
    (u8 (Z.shiftr (Z.land (u32 addr) 0x00FF0000) 16)) (sd_type d) (sd_sys d) (sd_dpl d) (sd_present d)
    (Z.land (Z.shiftr (Z.land lim 0x000F0000) 16) 15) (sd_avail d) (sd_reserved d) (sd_opsize d)
    (sd_granularity d) (u8 (Z.shiftr (Z.land (u32 addr) 0xFF000000) 24)).

(** The two descriptors of [entry] before the address and the limit are set; the first has no
    limit yet, the second has [TSS_SIZE]. *)
Definition the_ldt_desc : seg_desc := SegDesc 0 0 0 0x2 0 0x0 1 0 0 0 1 0 0.

Definition the_tss_desc : seg_desc :=
  SegDesc (Z.land TSS_SIZE 0x0000FFFF) 0 0 0x9 0 0x0 1 (Z.land (Z.land TSS_SIZE 0x000F0000) 15) 0 0 0 0 0.

(** ** The multiboot information *)

Definition MULTIBOOT_BOOTLOADER_MAGIC : Z := 0x2BADB002.

(** The fields of [multiboot_info_t] at [addr]. *)
Definition mbi_flags (m : mem) (addr : Z) : Z := ld32 m addr.

Definition mbi_mem_lower (m : mem) (addr : Z) : Z := ld32 m (addr + 4).

Definition mbi_mem_upper (m : mem) (addr : Z) : Z := ld32 m (addr + 8).

Definition mbi_boot_device (m : mem) (addr : Z) : Z := ld32 m (addr + 12).

Definition mbi_cmdline (m : mem) (addr : Z) : Z := ld32 m (addr + 16).

Definition mbi_mods_count (m : mem) (addr : Z) : Z := ld32 m (addr + 20).

Definition mbi_mods_addr (m : mem) (addr : Z) : Z := ld32 m (addr + 24).

Definition elf_sec (addr : Z) : Z := addr + 28.

Definition mbi_mmap_length (m : mem) (addr : Z) : Z := ld32 m (addr + 44).

Definition mbi_mmap_addr (m : mem) (addr : Z) : Z := ld32 m (addr + 48).

(** The [module_t] at [a]. *)
Definition module_at (m : mem) (a : Z) : module := Module_ (ld32 m a) (ld32 m (a + 4)).

Definition CHECK_FLAG (flags bit : Z) : bool := negb (Z.land flags (Z.shiftl 1 bit) =? 0).

(** The report of one module. *)
Definition print_module (m : mem) (mod_count mod_ : Z) (c : console) : console :=
  let c := printk "Module %d loaded at address: 0x%#x
" [mod_count; mod_start (module_at m mod_)] c in
  let c := printk "Module %d ends at address: 0x%#x
" [mod_count; mod_end (module_at m mod_)] c in
  let c := printk "First few bytes of module:
" [] c in
  let c := for_ 0 16 (fun i c => printk "0x%x " [u32 (s8 (ld m (u32 (mod_start (module_at m mod_) + i))))] c) c in
  printk "
" [] c.

(** The walk over the memory map, whose body is commented out.  Each entry says how far away the
    next one is, so the walk need not end: [false] if it has not ended within [fuel] entries. *)
Fixpoint mmap_walk (fuel : nat) (m : mem) (mmap end_ : Z) : bool :=
  match fuel with
  | O => false
  | S f => if mmap <? end_ then mmap_walk f m (u32 (mmap + u32 (ld32 m mmap + 4))) end_ else true
  end.

Definition mmap_ends (m : mem) (addr : Z) : bool :=
  let end_ := u32 (mbi_mmap_addr m addr + mbi_mmap_length m addr) in
  mmap_walk (S (Z.to_nat (mbi_mmap_length m addr))) m (mbi_mmap_addr m addr) end_.

(** The reports up to the modules, with the early part of the checks.  [%s] prints the string at
    the address. *)
Definition print_info (m : mem) (addr : Z) (c : console) : console :=
  let flags := mbi_flags m addr in
  let c := printk "flags = 0x%#x
" [flags] c in
  let c := if CHECK_FLAG flags 0
           then printk "mem_lower = %uKB, mem_upper = %uKB
" [mbi_mem_lower m addr; mbi_mem_upper m addr] c else c in
  let c := if CHECK_FLAG flags 1 then printk "boot_device = 0x%#x
" [mbi_boot_device m addr] c else c in
  let c := if CHECK_FLAG flags 2
           then printk "
" [] (puts m (mbi_cmdline m addr) (printk "cmdline = " [] c)).1 else c in
  if CHECK_FLAG flags 3
  then for_ 0 (mbi_mods_count m addr) (fun i c => print_module m i (u32 (mbi_mods_addr m addr + 16 * i)) c) c
  else c.

Definition print_elf (m : mem) (addr : Z) (c : console) : console :=
  let e := elf_sec addr in
  printk "elf_sec: num = %u, size = 0x%#x, addr = 0x%#x, shndx = 0x%#x
" [ld32 m e; ld32 m (e + 4); ld32 m (e + 8); ld32 m (e + 12)] c.

(** ** The state during the boot *)

(** Where x86_desc.S puts the two segments. *)
Class Segments := { ldt_addr : Z; tss_addr : Z }.

(** The kernel's state, the console's position and cursor port writes, the descriptor tables and
    the registers that point to them, and the keyboard driver. *)
Record boot (D : Type) := Boot {
  b_k : kernel D;
  b_con : console;
  b_idt : idt_table;
  b_ldt_desc : seg_desc;
  b_tss_desc : seg_desc;
  b_tss_ldt : Z;       (* tss.ldt_segment_selector *)
  b_ldtr : Z;
  b_tr : Z;
  b_idtr : bool;       (* lidt(idt_desc_ptr) has been executed *)
  b_kbd : kbd
}.
Arguments Boot {D} _ _ _ _ _ _ _ _ _ _.
Arguments b_k {D} _.
Arguments b_con {D} _.
Arguments b_idt {D} _.
Arguments b_ldt_desc {D} _.
Arguments b_tss_desc {D} _.
Arguments b_tss_ldt {D} _.
Arguments b_ldtr {D} _.
Arguments b_tr {D} _.
Arguments b_idtr {D} _.
Arguments b_kbd {D} _.

(** The bytes of video memory from its cells, and back. *)
Definition cell_bytes (v : arr) : arr :=
  for_ 0 SCREEN (fun i a => a.[2 * i <- u8 (v.[i])].[2 * i + 1 <- u8 (Z.shiftr (v.[i]) 8)]) ∅.

Definition byte_cells (a v : arr) : arr :=
  for_ 0 SCREEN (fun i v => v.[i <- Z.lor (u8 (a.[2 * i])) (Z.shiftl (u8 (a.[2 * i + 1])) 8)]) v.

Section boot.
Context {D : Type} `{Machine D} `{Layout} `{Handlers} `{Segments}.
Implicit Types b : boot D.

Definition with_k b (k : kernel D) : boot D :=
  Boot k (b_con b) (b_idt b) (b_ldt_desc b) (b_tss_desc b) (b_tss_ldt b) (b_ldtr b) (b_tr b) (b_idtr b) (b_kbd b).

(** The console, on the video memory of the terminals. *)
Definition console_of b : console :=
  Console (screen_x (b_con b)) (screen_y (b_con b)) (cell_bytes (Termios.video (k_terms (b_k b)))) (con_io (b_con b)).

Definition set_video (t : terminals D) (v : arr) : terminals D :=
  Terminals (term_data_array t) (active_term t) (screen_buffers t) v (dev t).

Definition set_console b (c : console) : boot D :=
  let t := k_terms (b_k b) in
  let k := with_terms (b_k b) (set_video t (byte_cells (Console.video c) (Termios.video t))) in
  Boot k c (b_idt b) (b_ldt_desc b) (b_tss_desc b) (b_tss_ldt b) (b_ldtr b) (b_tr b) (b_idtr b) (b_kbd b).

Definition on_console (f : console -> console) b : boot D := set_console b (f (console_of b)).

(** The LDT and the TSS entries of the GDT, and the task state segment. *)
Definition load_ldt b : boot D :=
  Boot (b_k b) (b_con b) (b_idt b) (SET_LDT_PARAMS the_ldt_desc ldt_addr ldt_size) (b_tss_desc b) (b_tss_ldt b)
    KERNEL_LDT (b_tr b) (b_idtr b) (b_kbd b).

Definition load_tss b : boot D :=
  Boot (with_tss (b_k b) (Tss KERNEL_DS 0x800000)) (b_con b) (b_idt b) (b_ldt_desc b)
    (SET_TSS_PARAMS the_tss_desc tss_addr tss_size) KERNEL_LDT (b_ldtr b) KERNEL_TSS (b_idtr b) (b_kbd b).

Definition load_idt b : boot D :=
  Boot (b_k b) (b_con b) (install_exceptions (init_idt (b_idt b))) (b_ldt_desc b) (b_tss_desc b) (b_tss_ldt b)
    (b_ldtr b) (b_tr b) true (b_kbd b).

(** The calls of [entry] after [lidt], each with the state it works on. *)
Definition boot_fs (mods_addr : Z) b : boot D :=
  let k := b_k b in
  let '(_, f, c) := fs_init (module_at (k_mem k) mods_addr) (k_mem k) (console_of b) in
  let b := set_console b c in
  let k := b_k b in
  with_k b (Kernel (k_km k) (k_frames k) (k_paging k) (k_pid_usage k) (k_sched k) (k_pcbs k) (k_terms k) f
              (k_rtc_flag k) (k_tss k) (k_cpu k)).

Definition boot_paging b : boot D := with_k b (with_paging (b_k b) (paging_init (k_paging (b_k b)))).

Definition boot_pic b : boot D :=
  let '(d, c) := i8259_init (dev (k_terms (b_k b)), console_of b) in
  let b := set_console b c in
  with_k b (with_terms (b_k b) (set_dev (k_terms (b_k b)) d)).

Definition boot_terminal b : boot D := with_k b (with_terms (b_k b) (terminal_init (k_terms (b_k b)))).

Definition boot_tasks b : boot D := with_k b (with_pid_usage (b_k b) (init_tasks (k_pid_usage (b_k b)))).

Definition boot_sti b : boot D := with_k b (set_k_if (b_k b) true).

Definition boot_rtc b : boot D :=
  let '((fl, d), c) := rtc_init (k_rtc_flag (b_k b), dev (k_terms (b_k b))) (console_of b) in
  let b := set_console b c in
  with_k b (with_rtc (b_k b) fl d).

Definition boot_keyboard b : boot D :=
  let '(kb, t) := keyboard_init (b_kbd b, k_terms (b_k b)) in
  Boot (with_terms (b_k b) t) (b_con b) (b_idt b) (b_ldt_desc b) (b_tss_desc b) (b_tss_ldt b) (b_ldtr b) (b_tr b)
    (b_idtr b) kb.

Definition boot_open b : boot D := with_k b (with_terms (b_k b) (terminal_open 0 (k_terms (b_k b))).2).

Definition boot_scheduling b : boot D :=
  let '(s, c) := scheduling_init (k_sched (b_k b)) (console_of b) in
  let b := set_console b c in
  with_k b (with_sched (b_k b) s).

Definition boot_pit b : boot D :=
  with_k b (with_terms (b_k b) (set_dev (k_terms (b_k b)) (pit_init (dev (k_terms (b_k b)))))).

(** Everything between the checks and the first shell. *)
Definition boot_init (mods_addr : Z) b : boot D :=
  let b := load_ldt b in
  let b := load_tss b in
  let b := load_idt b in
  let b := boot_fs mods_addr b in
  let b := boot_paging b in
  let b := boot_pic b in
  let b := boot_terminal b in
  let b := boot_tasks b in
  let b := boot_sti b in
  let b := boot_rtc b in
  let b := boot_tasks b in
  let b := boot_keyboard b in
  let b := boot_open b in
  let b := boot_scheduling b in
  let b := boot_pit b in
  on_console clear b.

(** How [entry] ends: it returns to boot.S, enters the shell, spins in its final loop, or is still
    in the walk over the memory map or in the shell's command line. *)
Inductive boot_result :=
  | BReturns (b : boot D)
  | BShell (eip : Z) (b : boot D)
  | BSpins (b : boot D)
  | BLoops.

Definition entry (fr : frame) (magic addr : Z) b : boot_result :=
  let b := on_console clear b in
  if negb (magic =? MULTIBOOT_BOOTLOADER_MAGIC) then
    BReturns (on_console (printk "Invalid magic number: 0x%#x
" [u32 magic]) b)
  else
    let m := k_mem (b_k b) in
    let flags := mbi_flags m addr in
    let b := on_console (print_info m addr) b in
    if CHECK_FLAG flags 4 && CHECK_FLAG flags 5 then
      BReturns (on_console (printk "Both bits 4 and 5 are set.
" []) b)
    else
      let b := if CHECK_FLAG flags 5 then on_console (print_elf m addr) b else b in
      if CHECK_FLAG flags 6 && negb (mmap_ends m addr) then BLoops
      else
        let b := boot_init (mbi_mods_addr m addr) b in
        match syscall_init_shell fr 0 (b_k b) with
        | Some (SUser e k) => BShell e (with_k b k)
        | Some (SRet _ k) => BSpins (on_console (printk "about to spin..
" []) (with_k b k))
        | None => BLoops
        end.
End boot.
Arguments boot_result D : clear implicits.

(** ** Lemmas: the state before the first shell *)

(** The descriptor tables and the registers that point to them. *)
Record tables := Tables {
  t_idt : idt_table;
  t_ldt_desc : seg_desc;
  t_tss_desc : seg_desc;
  t_tss_ldt : Z;
  t_ldtr : Z;
  t_tr : Z;
  t_idtr : bool
}.

(** The parts of the state that the initialisation sets up for the processes. *)
Record parts := Parts {
  p_km : arr;
  p_frames : gmap Z arr;
  p_paging : paging;
  p_pids : arr;
  p_sched : arr;
  p_pcbs : gmap Z pcb;
  p_fs : fs;
  p_cpu : cpu;
  p_tables : tables
}.

Definition fs_of (m : mem) (md : module) : fs :=
  Fs (mod_start md) (mod_end md) (dir_entry_num m (mod_start md)) (inode_num m (mod_start md)).

Section boot_state.
Context {D : Type} `{Machine D} `{LayoutLaws} `{Handlers} `{Segments}.
Implicit Types (b : boot D) (k : kernel D).

Definition parts_of b : parts :=
  let k := b_k b in
  Parts (k_km k) (k_frames k) (k_paging k) (k_pid_usage k) (k_sched k) (k_pcbs k) (k_fs k) (k_cpu k)
    (Tables (b_idt b) (b_ldt_desc b) (b_tss_desc b) (b_tss_ldt b) (b_ldtr b) (b_tr b) (b_idtr b)).

(** The tables that [entry] makes. *)
Definition boot_tables (t : idt_table) : tables :=
  Tables (install_exceptions (init_idt t)) (SET_LDT_PARAMS the_ldt_desc ldt_addr ldt_size)
    (SET_TSS_PARAMS the_tss_desc tss_addr tss_size) KERNEL_LDT KERNEL_LDT KERNEL_TSS true.

Lemma parts_console f b : parts_of (on_console f b) = parts_of b.
Proof. reflexivity. Qed.

Lemma parts_load b :
  let p := parts_of b in
  parts_of (load_idt (load_tss (load_ldt b))) = Parts (p_km p) (p_frames p) (p_paging p) (p_pids p) (p_sched p) (p_pcbs p)
    (p_fs p) (p_cpu p) (boot_tables (t_idt (p_tables p))).
Proof. reflexivity. Qed.

Lemma parts_fs mods b :
  let p := parts_of b in
  let m := k_mem (b_k b) in
  parts_of (boot_fs mods b) = Parts (p_km p) (p_frames p) (p_paging p) (p_pids p) (p_sched p) (p_pcbs p)
    (fs_of m (module_at m mods)) (p_cpu p) (p_tables p).
Proof. reflexivity. Qed.

Lemma parts_paging b :
  let p := parts_of b in
  parts_of (boot_paging b) = Parts (p_km p) (p_frames p) (paging_init (p_paging p)) (p_pids p) (p_sched p) (p_pcbs p)
    (p_fs p) (p_cpu p) (p_tables p).
Proof. reflexivity. Qed.

Lemma parts_pic b : parts_of (boot_pic b) = parts_of b.
Proof. unfold boot_pic. by destruct (i8259_init _) as [d c]. Qed.

Lemma parts_terminal b : parts_of (boot_terminal b) = parts_of b.
Proof. reflexivity. Qed.

Lemma parts_tasks b :
  let p := parts_of b in
  parts_of (boot_tasks b) = Parts (p_km p) (p_frames p) (p_paging p) (init_tasks (p_pids p)) (p_sched p) (p_pcbs p)
    (p_fs p) (p_cpu p) (p_tables p).
Proof. reflexivity. Qed.

Lemma parts_sti b : parts_of (boot_sti b) = parts_of b.
Proof. reflexivity. Qed.

Lemma parts_rtc b : parts_of (boot_rtc b) = parts_of b.
Proof. unfold boot_rtc. by destruct (rtc_init _ _) as [[fl d] c]. Qed.

Lemma parts_keyboard b : parts_of (boot_keyboard b) = parts_of b.
Proof. unfold boot_keyboard. by destruct (keyboard_init _) as [kb t]. Qed.

Lemma parts_open b : parts_of (boot_open b) = parts_of b.
Proof. reflexivity. Qed.

Lemma parts_scheduling b :
  let p := parts_of b in
  parts_of (boot_scheduling b) = Parts (p_km p) (p_frames p) (p_paging p) (p_pids p)
    (for_ 0 (MAX_PID + 1) (fun i s => s.[i <- 0]) (p_sched p)) (p_pcbs p) (p_fs p) (p_cpu p) (p_tables p).
Proof. reflexivity. Qed.

Lemma parts_pit b : parts_of (boot_pit b) = parts_of b.
Proof. reflexivity. Qed.

Lemma load_mem b : k_mem (b_k (load_idt (load_tss (load_ldt b)))) = k_mem (b_k b).
Proof. reflexivity. Qed.

(** What [boot_init] has set up. *)
Lemma parts_init mods b :
  let k := b_k b in
  parts_of (boot_init mods b) =
    Parts (k_km k) (k_frames k) (paging_init (k_paging k)) (init_tasks (init_tasks (k_pid_usage k)))
      (for_ 0 (MAX_PID + 1) (fun i s => s.[i <- 0]) (k_sched k)) (k_pcbs k)
      (fs_of (k_mem k) (module_at (k_mem k) mods)) (k_cpu k) (boot_tables (b_idt b)).
Proof.
  cbn zeta. unfold boot_init.
  rewrite parts_console, parts_pit, parts_scheduling, parts_open, parts_keyboard, parts_tasks, parts_rtc, parts_sti,
    parts_tasks, parts_terminal, parts_pic, parts_paging, parts_fs, parts_load, load_mem.
  reflexivity.
Qed.
End boot_state.

(** ** Lemmas: the first process *)

(** The address parts of a descriptor. *)
Lemma split_address a :
  0 <= a < 2 ^ 32 ->
  u16 (Z.land (u32 a) 0xFFFF) + u8 (Z.shiftr (Z.land (u32 a) 0xFF0000) 16) * 2 ^ 16
  + u8 (Z.shiftr (Z.land (u32 a) 0xFF000000) 24) * 2 ^ 24 = a.
Proof.
  intros Ha. rewrite (u32_small a) by done.
  change 0xFFFF with (Z.ones 16). change 0xFF0000 with (Z.shiftl (Z.ones 8) 16).
  change 0xFF000000 with (Z.shiftl (Z.ones 8) 24).
  rewrite !Z.shiftr_land, !Z.shiftr_shiftl_l, Z.sub_diag, Z.sub_diag, !Z.shiftl_0_r, !Z.land_ones, !Z.shiftr_div_pow2 by lia.
  unfold u8, u16. change (2 ^ 8) with 256. change (2 ^ 16) with 65536. change (2 ^ 24) with 16777216.
  change (2 ^ 32) with 4294967296 in Ha. Z.div_mod_to_equations. lia.
Qed.

Section first.
Context {D : Type} `{Machine D} `{LayoutLaws} `{Handlers} `{Segments}.
Implicit Types (b : boot D) (k : kernel D).

(** A process started when there is none. *)
Lemma first_spawn_inv k k' t q :
  live (k_pid_usage k) = ∅ -> (forall r, ~ scheduled (k_sched k) r) -> paging_reachable (k_paging k) ->
  spawned k k' (Some t) 0 q -> sys_inv k' q /\ q = 1.
Proof.
  intros Hl Hn Hp Hs. destruct (sp_pid _ _ _ _ _ Hs) as (Hq & _ & Hlive). destruct (sp_new _ _ _ _ _ Hs) as [Hid Hpar].
  assert (Hone : forall r, r ∈ live (k_pid_usage k') <-> r = q).
  { intros r. rewrite Hlive, Hl, elem_of_union, elem_of_singleton, elem_of_empty. tauto. }
  assert (Hsc : forall r, 0 <= r < MAX_PID -> scheduled (k_sched k') r <-> r = q).
  { intros r Hr. rewrite (sp_sched _ _ _ _ _ Hs), add_scheduled by lia. specialize (Hn r). tauto. }
  split.
  - split.
    + by apply Hone.
    + intros r Hr. apply Hone, Hsc; [apply Hr|done].
    + apply Hsc; [lia|done].
    + exact Hid.
    + rewrite (sp_paging _ _ _ _ _ Hs). apply switch_paging_cr3. lia.
    + rewrite (sp_paging _ _ _ _ _ Hs). apply switch_paging_reachable; [lia|exact Hp].
    + apply Hs.
    + intros r Hr. by apply Hone in Hr.
    + intros r Hr. apply Hone in Hr as ->. by rewrite Hpar.
    + intros q1 q2 H1' H2' _ _. apply Hone in H1', H2'. congruence.
  - pose proof (tasks_pid_new_spec (k_pid_usage k)) as Hp1. pose proof (sp_smallest _ _ _ _ _ Hs) as Hsm.
    destruct (tasks_pid_new (k_pid_usage k)) as [q0 u]. cbn [fst] in Hsm. subst q0.
    destruct Hp1 as [(_ & _ & _ & Hmin & _)|(-> & _)]; [|lia].
    destruct (Z.eq_dec q 1) as [|Hne]; [done|]. assert (1 ∈ live (k_pid_usage k)) as Hin by (apply Hmin; lia).
    rewrite Hl in Hin. by apply not_elem_of_empty in Hin.
Qed.

(** The base address and the limit that a descriptor describes. *)
Definition seg_base (d : seg_desc) : Z := base_15_00 d + base_23_16 d * 2 ^ 16 + base_31_24 d * 2 ^ 24.

Definition seg_limit (d : seg_desc) : Z := seg_lim_15_00 d + seg_lim_19_16 d * 2 ^ 16.

Definition parts_mem (p : parts) : mem := Mem (p_km p) (default ∅ (p_frames p !! ((cr3 (p_paging p) - pd_loc) / 4096))).

Lemma k_mem_parts b : k_mem (b_k b) = parts_mem (parts_of b).
Proof. reflexivity. Qed.

(** What [entry] needs: the multiboot flags and memory map in order, a stack in the page of
    process 0, paging off with empty tables, and a first module that is a file system image
    with an executable "shell", away from the locals of [syscall_init_shell]. *)
Record bootable (fr : frame) (addr : Z) b (c : list Z) (i : Z) : Prop := {
  bt_flags : CHECK_FLAG (mbi_flags (k_mem (b_k b)) addr) 4 && CHECK_FLAG (mbi_flags (k_mem (b_k b)) addr) 5 = false;
  bt_mmap : CHECK_FLAG (mbi_flags (k_mem (b_k b)) addr) 6 = true -> mmap_ends (k_mem (b_k b)) addr = true;
  bt_stack : runs_as (b_k b) 0;
  bt_paging : exists c0 c3 c4, k_paging (b_k b) = paging_boot c0 c3 c4;
  bt_frame : let m := k_mem (b_k b) in shell_frame (fs_of m (module_at m (mbi_mods_addr m addr))) m fr;
  bt_shell : let m := k_mem (b_k b) in
    executable (fs_of m (module_at m (mbi_mods_addr m addr))) m (chars "shell") c i
}.

(** The first shell, from an initialised state. *)
Lemma init_shell_first fr addr b0 k c i :
  bootable fr addr b0 c i ->
  k_km k = k_km (b_k b0) -> k_pcbs k = k_pcbs (b_k b0) -> k_cpu k = k_cpu (b_k b0) ->
  k_fs k = fs_of (k_mem (b_k b0)) (module_at (k_mem (b_k b0)) (mbi_mods_addr (k_mem (b_k b0)) addr)) ->
  k_paging k = paging_init (k_paging (b_k b0)) ->
  live (k_pid_usage k) = ∅ -> (forall q, 0 <= q < MAX_PID -> (k_sched k).[q] = 0) ->
  exists k', syscall_init_shell fr 0 k = Some (SUser (entry_of c) k') /\
    bytes (k_mem k') 0x8048000 (length (loaded c)) = loaded c /\ sys_inv k' 1.
Proof.
  intros [_ _ Hst (c0 & c3 & c4 & Hpg) Hf Hx] Ikm Ipcb Icpu Ifs Ipg Ipid Isch.
  cbn zeta in Hf, Hx. remember (fs_of _ _) as f eqn:Ef. clear Ef.
  assert (Hs : same_image f (k_mem (b_k b0)) (k_mem k)).
  { intros x Hx'. pose proof (ef_image _ _ _ (sf_frame _ _ _ Hf)) as Him.
    pose proof (Z.lt_le_trans _ _ _ (proj2 Hx') Him) as Hw. unfold k_mem, ld. cbn [km um].
    rewrite (below_window x Hw), Ikm. reflexivity. }
  destruct (init_shell_spawns fr 0 k 0 c i) as (k' & m' & q & E & Hb & Hsp).
  - destruct Hst as (Hr & Hs1 & Hid). split; [done|]. rewrite Icpu. split; [exact Hs1|].
    unfold pcb_at. by rewrite Ipcb.
  - rewrite Ifs. destruct Hf as [F1 F2 F3 F4]. split; [by apply (exec_frame_stable f (k_mem (b_k b0)))|by apply (off_image_stable f (k_mem (b_k b0)))|done|done].
  - rewrite Ipid. intros Hall. assert (Hin : 1 ∈ pid_space) by (apply elem_of_pid_space; unfold MAX_PID; lia).
    rewrite <- Hall in Hin. by apply not_elem_of_empty in Hin.
  - rewrite Ifs. apply (executable_stable f (k_mem (b_k b0))); [apply Nat.leb_le; by vm_compute|exact Hs|exact Hx].
  - exists k'. split; [exact E|]. split; [exact Hb|].
    destruct (first_spawn_inv (with_mem k m') k' (u8 0) q) as [Hinv ->]; try assumption.
    + intros r [Hr Hs1]. cbn [k_sched with_mem] in Hs1. rewrite Isch in Hs1 by exact Hr. discriminate Hs1.
    + cbn [k_paging with_mem]. rewrite Ipg, Hpg. apply reach_init.
Qed.

(** For a start state with the same kernel state up to the screen. *)
Lemma init_shell_boots fr addr b b0 c i :
  bootable fr addr b0 c i -> parts_of b = parts_of b0 ->
  exists k', syscall_init_shell fr 0 (b_k (boot_init (mbi_mods_addr (k_mem (b_k b0)) addr) b)) = Some (SUser (entry_of c) k') /\
    bytes (k_mem k') 0x8048000 (length (loaded c)) = loaded c /\ sys_inv k' 1.
Proof.
  intros Hbt Hp. pose proof (parts_init (mbi_mods_addr (k_mem (b_k b0)) addr) b) as Hi. cbn zeta in Hi.
  rewrite (k_mem_parts b), Hp, <- (k_mem_parts b0) in Hi.
  assert (P1 : k_km (b_k b) = k_km (b_k b0)) by exact (f_equal p_km Hp).
  assert (P3 : k_paging (b_k b) = k_paging (b_k b0)) by exact (f_equal p_paging Hp).
  assert (P6 : k_pcbs (b_k b) = k_pcbs (b_k b0)) by exact (f_equal p_pcbs Hp).
  assert (P8 : k_cpu (b_k b) = k_cpu (b_k b0)) by exact (f_equal p_cpu Hp).
  apply (init_shell_first fr addr b0 _ c i Hbt).
  - rewrite <- P1. exact (f_equal p_km Hi).
  - rewrite <- P6. exact (f_equal p_pcbs Hi).
  - rewrite <- P8. exact (f_equal p_cpu Hi).
  - exact (f_equal p_fs Hi).
  - rewrite <- P3. exact (f_equal p_paging Hi).
  - transitivity (live (init_tasks (init_tasks (k_pid_usage (b_k b))))); [exact (f_equal live (f_equal p_pids Hi))|apply live_init].
  - intros q Hq. transitivity (aget (for_ 0 (MAX_PID + 1) (fun i s => s.[i <- 0]) (k_sched (b_k b))) q).
    + exact (f_equal (fun s => aget s q) (f_equal p_sched Hi)).
    + rewrite aget_for_fill. unfold MAX_PID in *. by decide_b.
Qed.
Lemma entry_shell fr addr b c i :
  bootable fr addr b c i ->
  exists b1 k', entry fr MULTIBOOT_BOOTLOADER_MAGIC addr b = BShell (entry_of c) (with_k b1 k') /\
    p_tables (parts_of b1) = boot_tables (b_idt b) /\
    bytes (k_mem k') 0x8048000 (length (loaded c)) = loaded c /\ sys_inv k' 1.
Proof.
  intros Hb. unfold entry. rewrite Z.eqb_refl. cbn [negb].
  rewrite (k_mem_parts (on_console clear b)), parts_console, <- k_mem_parts, (bt_flags _ _ _ _ _ Hb).
  replace (CHECK_FLAG (mbi_flags (k_mem (b_k b)) addr) 6 && negb (mmap_ends (k_mem (b_k b)) addr)) with false.
  2:{ pose proof (bt_mmap _ _ _ _ _ Hb) as Hm. destruct (CHECK_FLAG _ 6); [rewrite Hm by done|]; done. }
  set (b2 := if CHECK_FLAG _ 5 then _ else _).
  assert (Hp : parts_of b2 = parts_of b) by (unfold b2; destruct (CHECK_FLAG _ 5); rewrite !parts_console; done).
  clearbody b2. destruct (init_shell_boots fr addr b2 b c i Hb Hp) as (k' & E & Hby & Hinv).
  rewrite E. eexists _, k'. split; [reflexivity|]. split; [|done]. rewrite parts_init. cbn [p_tables].
  f_equal. exact (f_equal (fun p => t_idt (p_tables p)) Hp).
Qed.
End first.

(** ** Lemmas: the interrupt lines *)

Section lines.
Context {D : Type} `{MD : Machine D} `{!PicLaws D} `{!MachineLaws D} `{Layout} `{Handlers} `{Segments}.
Implicit Types (b : boot D) (d : D).

(** The controllers are initialised and the lines outside [open] are masked, as is the state of IF. *)
Definition lines (open : Z -> bool) (if_ : bool) d : Prop :=
  pic_ready (fun s => pic_of s d) /\ (forall j, 0 <= j < 16 -> masked (fun s => pic_of s d) j = negb (open j)) /\
  base (pic_of false d) = 0x20 /\ base (pic_of true d) = 0x28 /\ get_if d = if_.

Lemma lines_same open i d d' :
  (forall s, pic_of s d' = pic_of s d) -> get_if d' = get_if d -> lines open i d -> lines open i d'.
Proof.
  intros Hp Hi (L1 & L2 & L3 & L4 & L5). split; [|split; [|rewrite !Hp, Hi; done]].
  - intros s. rewrite Hp. apply L1.
  - intros j Hj. rewrite <- L2 by done. unfold masked. by rewrite !Hp.
Qed.

Lemma lines_outb open i d v p :
  (forall s, p <> pic_cmd s /\ p <> pic_data s) -> lines open i d -> lines open i (outb v p d).
Proof.
  intros Hp. apply lines_same; [|apply get_if_outb]. intros s. rewrite pic_outb. unfold pic_write.
  destruct (Hp s). by decide_b.
Qed.

Lemma lines_inb open i d p v d' : inb p d = (v, d') -> lines open i d -> lines open i d'.
Proof.
  intros E. apply lines_same; [intros s; by apply (inb_pic s _ _ _ _ E)|].
  rewrite <- (get_if_inb p d). by rewrite E.
Qed.

Lemma lines_set_if open i i' d : lines open i d -> lines open i' (set_if i' d).
Proof.
  intros (L1 & L2 & L3 & L4 & _). split; [|split; [|rewrite !pic_set_if, get_set_if; done]].
  - intros s. rewrite pic_set_if. apply L1.
  - intros j Hj. rewrite <- L2 by done. unfold masked. by rewrite !pic_set_if.
Qed.

Lemma lines_enable open i d n :
  0 <= n < 16 -> lines open i d -> lines (fun j => open j || (j =? n)) i (enable_irq n d).
Proof.
  intros Hn (L1 & L2 & L3 & L4 & L5). destruct (enable_irq_masked n d L1 Hn) as (E1 & E2 & E3 & _).
  split; [exact E1|]. split; [|split; [by rewrite E3|split; [by rewrite E3|]]].
  - intros j Hj. rewrite E2, L2 by done. by destruct (open j), (j =? n).
  - rewrite <- L5. by apply (proj2 (enable_irq_pic n d L1 Hn)).
Qed.

Lemma off_pic p : 0x70 <= p < 0xA0 \/ 0x22 <= p < 0x70 \/ 0xA2 <= p -> forall s, p <> pic_cmd s /\ p <> pic_data s.
Proof. intros Hp []; cbn; lia. Qed.

Lemma lines_rtc_rate open i d rate : lines open i d -> lines open i (rtc_set_rate rate d).2.
Proof.
  intros Hl. unfold rtc_set_rate. destruct (_ || _); [done|]. destruct (negb _); [done|]. unfold cli.
  set (d1 := outb 0x8A RTC_PORT _).
  assert (L1 : lines open false d1)
    by (apply lines_outb; [apply off_pic; unfold RTC_PORT; lia|]; eapply lines_set_if; exact Hl).
  destruct (inb RTC_CMOS d1) as [prev d2] eqn:E. pose proof (lines_inb _ _ _ _ _ _ E L1) as L2. cbn [snd].
  replace i with (get_if d) by apply Hl. eapply lines_set_if.
  do 2 (apply lines_outb; [apply off_pic; unfold RTC_PORT, RTC_CMOS; lia|]). exact L2.
Qed.

Lemma lines_rtc_init open i d fl c :
  lines open i d -> lines (fun j => open j || (j =? RTC_IRQ_NUM)) i (rtc_init (fl, d) c).1.2.
Proof.
  intros Hl. unfold rtc_init, cli. cbn [snd].
  set (d1 := outb (Z.lor 0x0B 0x80) RTC_PORT _).
  assert (L1 : lines (fun j => open j || (j =? RTC_IRQ_NUM)) false d1).
  { apply lines_outb; [apply off_pic; unfold RTC_PORT; lia|].
    apply lines_enable; [unfold RTC_IRQ_NUM; lia|]. eapply lines_set_if; exact Hl. }
  destruct (inb RTC_CMOS d1) as [prev d2] eqn:E. pose proof (lines_inb _ _ _ _ _ _ E L1) as L2. cbn [fst snd].
  apply lines_rtc_rate. replace i with (get_if d) by apply Hl. eapply lines_set_if.
  do 2 (apply lines_outb; [apply off_pic; unfold RTC_PORT, RTC_CMOS; lia|]). exact L2.
Qed.

Lemma lines_pit_init open i d : lines open i d -> lines (fun j => open j || (j =? 0)) i (pit_init d).
Proof.
  intros Hl. unfold pit_init, cli. replace i with (get_if d) by apply Hl. eapply lines_set_if.
  apply lines_enable; [lia|]. do 3 (apply lines_outb; [apply off_pic; lia|]). eapply lines_set_if; exact Hl.
Qed.

(** The terminals only write the cursor's ports. *)
Lemma clear_cells_dev ti n (s : terminals D) : dev (clear_cells ti n s) = dev s.
Proof.
  unfold clear_cells. destruct (Z.le_gt_cases 0 n) as [Hn|Hn].
  - apply (for_inv (fun _ t => dev t = dev s)); [done|done|]. intros i t _ Ht. unfold terminal_putc. by case_match.
  - by rewrite for_empty by lia.
Qed.

Lemma lines_refresh open i ti (s : terminals D) :
  lines open i (dev s) -> lines open i (dev (terminal_refresh ti s)).
Proof.
  intros Hl. unfold terminal_refresh. case_match; [|exact Hl]. unfold terminal_set_cursor. cbn [dev set_dev].
  do 4 (apply lines_outb; [apply off_pic; unfold CRTC_ADDR, CRTC_DATA; lia|]). exact Hl.
Qed.

Lemma lines_clear open i ti (s : terminals D) :
  lines open i (dev s) -> lines open i (dev (terminal_clear ti s)).
Proof.
  intros Hl. unfold terminal_clear. rewrite <- (clear_cells_dev ti (TERM_HEIGHT * TERM_WIDTH) s) in Hl.
  revert Hl. generalize (clear_cells ti (TERM_HEIGHT * TERM_WIDTH) s) as t. intros t Hl.
  unfold clear_data. apply lines_refresh. exact Hl.
Qed.

Lemma lines_terminal_open open i n (s : terminals D) :
  lines open i (dev s) -> lines open i (dev (terminal_open n s).2).
Proof.
  intros Hl. unfold terminal_open. destruct (negb _); [exact Hl|]. apply (lines_clear _ _ n) in Hl.
  revert Hl. generalize (terminal_clear n s) as t. intros t Hl. exact Hl.
Qed.

Lemma terminal_init_dev (s : terminals D) : dev (terminal_init s) = dev s.
Proof.
  unfold terminal_init. by apply (for_inv (fun _ t => dev t = dev s)); [done|done|]. 
Qed.

Lemma mask_if f p d : get_if (let '(old, d1) := inb p d in outb (f old) p d1) = get_if d.
Proof. pose proof (get_if_inb p d) as E. destruct (inb p d) as [old d1]. by rewrite get_if_outb. Qed.

Lemma i8259_init_if d c : get_if (i8259_init (d, c)).1 = get_if d.
Proof.
  assert (Hen : forall n x, get_if (enable_irq n x) = get_if x) by (intros n x; unfold enable_irq; case_match; apply mask_if).
  assert (Hdis : forall n x, get_if (disable_irq n x) = get_if x) by (intros n x; unfold disable_irq; case_match; apply mask_if).
  unfold i8259_init. cbn [fst]. rewrite Hen.
  set (d1 := outb 1 SLAVE_MASK_8259_PORT _). transitivity (get_if d1).
  - apply (for_inv (fun _ x => get_if x = get_if d1)); [unfold NR_IRQS; lia|done|]. intros n x _ Hx. by rewrite Hdis.
  - unfold d1. by rewrite !get_if_outb.
Qed.

Definition dev_of b : D := dev (k_terms (b_k b)).

Lemma lines_pic b : lines (fun j => j =? 2) (get_if (dev_of b)) (dev_of (boot_pic b)).
Proof.
  assert (Hg : get_if (i8259_init (dev_of b, console_of b)).1 = get_if (dev_of b)) by apply i8259_init_if.
  pose proof (i8259_init_spec (dev_of b) (console_of b)) as (L1 & L2 & L3 & L4 & _).
  unfold boot_pic. fold (dev_of b). destruct (i8259_init _) as [d c]. cbn [fst] in *.
  exact (conj L1 (conj L2 (conj L3 (conj L4 Hg)))).
Qed.

Lemma lines_rtc b open i : lines open i (dev_of b) -> lines (fun j => open j || (j =? RTC_IRQ_NUM)) i (dev_of (boot_rtc b)).
Proof.
  intros Hl. apply (lines_rtc_init _ _ _ (k_rtc_flag (b_k b)) (console_of b)) in Hl.
  unfold boot_rtc. fold (dev_of b). by destruct (rtc_init _ _) as [[fl d] c].
Qed.

Lemma lines_keyboard b open i : lines open i (dev_of b) -> lines (fun j => open j || (j =? 1)) i (dev_of (boot_keyboard b)).
Proof. apply lines_enable. lia. Qed.

Lemma lines_open b open i : lines open i (dev_of b) -> lines open i (dev_of (boot_open b)).
Proof. apply lines_terminal_open. Qed.

Lemma lines_pit b open i : lines open i (dev_of b) -> lines (fun j => open j || (j =? 0)) i (dev_of (boot_pit b)).
Proof. apply lines_pit_init. Qed.

Lemma lines_sti b open i : lines open i (dev_of b) -> lines open true (dev_of (boot_sti b)).
Proof. apply lines_set_if. Qed.

(** The stages that leave the devices alone. *)
Lemma dev_tasks b : dev_of (boot_tasks b) = dev_of b.
Proof. reflexivity. Qed.

Lemma dev_terminal b : dev_of (boot_terminal b) = dev_of b.
Proof. apply terminal_init_dev. Qed.

Lemma dev_scheduling b : dev_of (boot_scheduling b) = dev_of b.
Proof. reflexivity. Qed.

Lemma dev_console f b : dev_of (on_console f b) = dev_of b.
Proof. reflexivity. Qed.

Lemma lines_init mods b :
  lines (fun j => (j =? 2) || (j =? RTC_IRQ_NUM) || (j =? 1) || (j =? 0)) true (dev_of (boot_init mods b)).
Proof.
  unfold boot_init. rewrite dev_console. apply lines_pit. rewrite dev_scheduling. apply lines_open, lines_keyboard.
  rewrite dev_tasks. apply lines_rtc. eapply lines_sti. rewrite dev_tasks, dev_terminal. apply lines_pic.
Qed.
End lines.

(** ** Properties *)

(** C28: The interrupt lines after the initialisation.  Whatever state the two interrupt controllers and
    the other devices were in, [entry] has initialised both with vectors 0x20 and 0x28, the
    lines of the timer, the keyboard, the cascade and the clock are open, the others are
    masked, and interrupts are on. *)
Theorem boot_opens_interrupt_lines {D} `{MD : Machine D} `{!PicLaws D} `{!MachineLaws D} `{Layout} `{Handlers}
    `{Segments} mods (b : boot D) :
  let d := dev (k_terms (b_k (boot_init mods b))) in
  pic_ready (fun s => pic_of s d) /\
  (forall j, 0 <= j < 16 -> masked (fun s => pic_of s d) j = negb (bool_decide (j ∈ [0; 1; 2; 8]))) /\
  base (pic_of false d) = 0x20 /\ base (pic_of true d) = 0x28 /\ get_if d = true.
Proof.
  destruct (lines_init mods b) as (L1 & L2 & L3). split; [exact L1|]. split; [|exact L3].
  intros j Hj. rewrite L2 by done. f_equal. apply Bool.eqb_prop. revert j Hj.
  apply (check_below 16 (fun j => Bool.eqb ((j =? 2) || (j =? RTC_IRQ_NUM) || (j =? 1) || (j =? 0))
    (bool_decide (j ∈ [0; 1; 2; 8])))). by vm_compute.
Qed.

(** What stops the boot.  A wrong multiboot magic number, or flags that promise both symbol table
    formats, make [entry] return after a message, with nothing initialised: the tables, the paging
    state, the file system, the task tables and memory are as they were. *)
Theorem boot_refuses_bad_loader {D} `{Machine D} `{LayoutLaws} `{Handlers} `{Segments} fr magic addr (b : boot D) :
  magic <> MULTIBOOT_BOOTLOADER_MAGIC \/
  (CHECK_FLAG (mbi_flags (k_mem (b_k b)) addr) 4 = true /\ CHECK_FLAG (mbi_flags (k_mem (b_k b)) addr) 5 = true) ->
  exists b', entry fr magic addr b = BReturns b' /\ parts_of b' = parts_of b.
Proof.
  intros Hbad. unfold entry. destruct (Z.eqb_spec magic MULTIBOOT_BOOTLOADER_MAGIC) as [->|Hne]; cbn [negb].
  - destruct Hbad as [?|[F4 F5]]; [done|]. rewrite (k_mem_parts (on_console clear b)), parts_console, <- k_mem_parts.
    rewrite F4, F5. cbn [andb]. eexists. split; [reflexivity|]. by rewrite !parts_console.
  - eexists. split; [reflexivity|]. by rewrite !parts_console.
Qed.

(** ** Witnesses *)

#[export] Instance sample_segments : Segments := {| ldt_addr := 0x401000; tss_addr := 0x402000 |}.

(** What the loader has left: the information at 0x10000, the list of one module at 0x10100. *)
Definition sample_boot_mem : mem :=
  st32 (st32 (st32 (st32 (st32 shell_image 0x10000 8) 0x10014 1) 0x10018 0x10100) 0x10100 0x410000) 0x10104 0x414000.

Definition sample_boot : boot sim :=
  Boot (Kernel (km sample_boot_mem) ∅ (paging_boot 1 0 0) ∅ ∅ ∅ (Terminals ∅ 0 ∅ ∅ sim0) (Fs 0 0 0 0) 0 (Tss 0 0)
          (Cpu 0x7FFF00 0x7FFF80))
    (Console 0 0 ∅ []) ∅ the_ldt_desc the_tss_desc 0 0 0 false (Kbd 0 0 0 0 ∅).

Lemma sample_boot_image : same_image sample_fs shell_image (k_mem (b_k sample_boot)).
Proof.
  assert (E : image_end sample_fs shell_image = 0x414000) by (by vm_compute).
  intros x Hx. rewrite E in Hx. cbn [boot_block sample_fs] in Hx.
  transitivity (ld sample_boot_mem x).
  - unfold k_mem, sample_boot, ld. cbn [k_km b_k km]. rewrite below_window by (unfold USER_WINDOW_START; lia). reflexivity.
  - unfold sample_boot_mem. rewrite !ld_st32. by decide_b.
Qed.

Lemma boot_refuses_bad_loader_witness :
  exists b', entry sample_frame 7 0x10000 sample_boot = BReturns b' /\ parts_of b' = parts_of sample_boot.
Proof. apply (boot_refuses_bad_loader sample_frame 7 0x10000 sample_boot). by left. Defined.

Lemma boot_opens_interrupt_lines_witness :
  let d := dev (k_terms (b_k (boot_init 0x10100 sample_boot))) in
  masked (fun s => pic_of s d) 1 = false /\ masked (fun s => pic_of s d) 3 = true /\ get_if d = true.
Proof.
  destruct (boot_opens_interrupt_lines 0x10100 sample_boot) as (_ & Hm & _ & _ & Hi).
  split; [rewrite Hm by lia; by vm_compute|]. split; [rewrite Hm by lia; by vm_compute|exact Hi].
Defined.
