(* ===== verification/Startup.v ===== *)
(** * boot.S and x86_desc.S: the segments, and the start of the kernel

    [start] is what a multiboot loader jumps to: it loads the descriptor table, the segment
    registers and a stack, and calls [entry].  The descriptors are the 64-bit words of x86_desc.S;
    the checks of the processor when it loads a segment register are the specification of what
    they mean. *)

From S2P Require Import Prelude Mem LibString Console Machine I8259 Rtc Tasks Pcb Fs Paging Termios Keyboard Kernel Scheduling Syscall Execute FileCalls Irq Linkage System Shell Boot.

(** ** Descriptors as words *)

(** Bit fields, lowest first: widths and values. *)
Fixpoint pack (l : list (Z * Z)) : Z :=
  match l with
  | [] => 0
  | (w, v) :: l' => v mod 2 ^ w + 2 ^ w * pack l'
  end.

Fixpoint unpack (ws : list Z) (x : Z) : list Z :=
  match ws with
  | [] => []
  | w :: ws' => x mod 2 ^ w :: unpack ws' (x / 2 ^ w)
  end.

(** The fields of [seg_desc_t] in memory. *)
Definition seg_fields (d : seg_desc) : list (Z * Z) :=
  [(16, seg_lim_15_00 d); (16, base_15_00 d); (8, base_23_16 d); (4, sd_type d); (1, sd_sys d); (2, sd_dpl d);
   (1, sd_present d); (4, seg_lim_19_16 d); (1, sd_avail d); (1, sd_reserved d); (1, sd_opsize d);
   (1, sd_granularity d); (8, base_31_24 d)].

Definition seg_word (d : seg_desc) : Z := pack (seg_fields d).

Definition no_segment : seg_desc := SegDesc 0 0 0 0 0 0 0 0 0 0 0 0 0.

Definition seg_of_word (x : Z) : seg_desc :=
  match unpack (map fst (seg_fields no_segment)) x with
  | [l0; b0; b1; ty; sy; dp; pr; l1; av; re; op; gr; b2] => SegDesc l0 b0 b1 ty sy dp pr l1 av re op gr b2
  | _ => no_segment
  end.

(** The descriptor table, with the two entries that [entry] sets, and the local one. *)
Definition gdt (tss_entry ldt_entry : seg_desc) : list Z :=
  [0; 0; 0x00CF9A000000FFFF; 0x00CF92000000FFFF; 0x00CFFA000000FFFF; 0x00CFF2000000FFFF;
   seg_word tss_entry; seg_word ldt_entry].

Definition ldt : list Z := [0; 0; 0; 0].

(** ** The processor: loading segment registers *)

Definition rpl (sel : Z) : Z := Z.land sel 3.

(** The descriptor that a selector names; bit 2 chooses the table.  None beyond the table. *)
Definition descriptor (g l : list Z) (sel : Z) : option seg_desc :=
  option_map seg_of_word (nth_error (if Z.testbit sel 2 then l else g) (Z.to_nat (Z.shiftr sel 3))).

Definition is_code (d : seg_desc) : bool := (sd_sys d =? 1) && (sd_present d =? 1) && Z.testbit (sd_type d) 3.

Definition is_data (d : seg_desc) : bool := (sd_sys d =? 1) && (sd_present d =? 1) && negb (Z.testbit (sd_type d) 3).

(** DS, ES, FS and GS: [None] is a fault, [Some None] the null selector. *)
Definition load_data (g l : list Z) (cpl sel : Z) : option (option seg_desc) :=
  if Z.shiftr sel 2 =? 0 then Some None
  else
    match descriptor g l sel with
    | Some d =>
        let readable := is_data d || (is_code d && Z.testbit (sd_type d) 1) in
        let conforming := is_code d && Z.testbit (sd_type d) 2 in
        if readable && (conforming || (Z.max cpl (rpl sel) <=? sd_dpl d)) then Some (Some d) else None
    | None => None
    end.

(** SS: a writable data segment of the current privilege. *)
Definition load_stack (g l : list Z) (cpl sel : Z) : option seg_desc :=
  match descriptor g l sel with
  | Some d =>
      if is_data d && Z.testbit (sd_type d) 1 && (rpl sel =? cpl) && (sd_dpl d =? cpl) then Some d else None
  | None => None
  end.

(** CS: by a far jump that keeps the privilege [cpl], or by a return to it. *)
Definition load_code (g l : list Z) (cpl sel : Z) : option seg_desc :=
  match descriptor g l sel with
  | Some d =>
      if is_code d && negb (Z.testbit (sd_type d) 2) && (rpl sel <=? cpl) && (sd_dpl d =? cpl) then Some d else None
  | None => None
  end.

(** The linear address of an offset; None beyond the limit. *)
Definition byte_limit (d : seg_desc) : Z :=
  if sd_granularity d =? 1 then seg_limit d * 4096 + 4095 else seg_limit d.

Definition linear (d : seg_desc) (offset : Z) : option Z :=
  if offset <=? byte_limit d then Some (u32 (seg_base d + offset)) else None.

(** Segments that leave addresses alone. *)
Definition flat (d : seg_desc) : Prop := forall a, 0 <= a < 2 ^ 32 -> linear d a = Some a.

(** ** boot.S *)

Record segs := Segs { r_cs : Z; r_ss : Z; r_ds : Z; r_es : Z; r_fs : Z; r_gs : Z }.

Section start.
Context {D : Type} `{Machine D} `{Layout} `{Handlers} `{Segments}.
Implicit Types b : boot D.

(** The stack is below the program window. *)
Definition push (v : Z) (k : kernel D) : kernel D :=
  let c := k_cpu k in
  Kernel (km (st32 (Mem (k_km k) ∅) (esp c - 4) v)) (k_frames k) (k_paging k) (k_pid_usage k) (k_sched k) (k_pcbs k)
    (k_terms k) (k_fs k) (k_rtc_flag k) (k_tss k) (Cpu (esp c - 4) (ebp c)).

(** Interrupts off, the stack at 0x800000, the two arguments of [entry] and its return address. *)
Definition start_stack (eax ebx return_addr : Z) b : boot D :=
  let k := set_k_if (b_k b) false in
  let k := with_cpu k (Cpu 0x800000 (ebp (k_cpu k))) in
  with_k b (push return_addr (push eax (push ebx k))).

(** None: a segment register cannot be loaded. *)
Definition start (fr : frame) (eax ebx return_addr : Z) b : option (segs * boot_result D) :=
  let g := gdt (b_tss_desc b) (b_ldt_desc b) in
  match load_code g ldt 0 KERNEL_CS, load_stack g ldt 0 KERNEL_DS, load_data g ldt 0 KERNEL_DS with
  | Some _, Some _, Some _ =>
      let b := start_stack eax ebx return_addr b in
      let sp := esp (k_cpu (b_k b)) in
      Some (Segs KERNEL_CS KERNEL_DS KERNEL_DS KERNEL_DS KERNEL_DS KERNEL_DS,
            entry fr (ld32 (k_mem (b_k b)) (sp + 4)) (ld32 (k_mem (b_k b)) (sp + 8)) b)
  | _, _, _ => None
  end.
End start.

(** ** Lemmas: words *)

Lemma unpack_pack l : Forall (fun p => 0 <= p.1 /\ 0 <= p.2 < 2 ^ p.1) l -> unpack (map fst l) (pack l) = map snd l.
Proof.
  induction 1 as [|[w v] l (Hw & Hv) Hl IH]; [done|]. cbn [map fst snd unpack pack] in *.
  rewrite (Z.mul_comm (2 ^ w)), Z.mod_add, Z.div_add by lia. rewrite (Z.mod_small v), Z.mod_small, Z.div_small by lia.
  by rewrite Z.add_0_l, IH.
Qed.

Definition seg_ok (d : seg_desc) : Prop := Forall (fun p => 0 <= p.1 /\ 0 <= p.2 < 2 ^ p.1) (seg_fields d).

Lemma seg_word_round_trip d : seg_ok d -> seg_of_word (seg_word d) = d.
Proof.
  intros Hok. unfold seg_of_word, seg_word. change (map fst (seg_fields no_segment)) with (map fst (seg_fields d)).
  rewrite (unpack_pack _ Hok). by destruct d.
Qed.

Lemma set_tss_ok d a lim : seg_ok d -> seg_ok (SET_TSS_PARAMS d a lim).
Proof.
  unfold seg_ok, seg_fields. rewrite !List.Forall_cons_iff. cbn [fst snd]. intros Hd. cbn [SET_TSS_PARAMS seg_lim_15_00 base_15_00
    base_23_16 sd_type sd_sys sd_dpl sd_present seg_lim_19_16 sd_avail sd_reserved sd_opsize sd_granularity base_31_24].
  assert (Hu : forall z, 0 <= Z.land z 15 < 2 ^ 4) by (intros z; change 15 with (Z.ones 4); rewrite Z.land_ones by lia; apply Z.mod_pos_bound; lia).
  assert (H16 : forall z, 0 <= u16 z < 2 ^ 16) by (intros z; unfold u16; apply Z.mod_pos_bound; lia).
  assert (H8 : forall z, 0 <= u8 z < 2 ^ 8) by (intros z; apply u8_range).
  intuition (try apply H16; try apply H8; try apply Hu; lia).
Qed.

Lemma set_ldt_ok d a lim : seg_ok d -> seg_ok (SET_LDT_PARAMS d a lim).
Proof. apply (set_tss_ok d a lim). Qed.

(** ** Lemmas: the descriptors *)

(** The four segments of x86_desc.S: 4 GB from 0, code or data, privilege 0 or 3. *)
Definition flat_segment (type dpl : Z) : seg_desc := SegDesc 0xFFFF 0 0 type 1 dpl 1 0xF 0 0 1 1 0.

Lemma flat_segment_flat type dpl : flat (flat_segment type dpl).
Proof.
  intros a Ha. unfold linear. change (byte_limit (flat_segment type dpl)) with (2 ^ 32 - 1).
  rewrite (proj2 (Z.leb_le _ _)) by lia. change (seg_base (flat_segment type dpl)) with 0. by rewrite u32_small.
Qed.

Section descriptors.
Context (t l : seg_desc) (Ht : seg_ok t) (Hl : seg_ok l) (Hst : sd_sys t = 0) (Hsl : sd_sys l = 0).

(** What a selector can name. *)
Definition nameable (d : seg_desc) : Prop :=
  d = no_segment \/ sd_sys d = 0 \/
  exists type dpl, d = flat_segment type dpl /\ Z.testbit type 2 = false /\ (dpl = 0 \/ dpl = 3).

Lemma table_nameable ws n d : (forall w, w ∈ ws -> nameable (seg_of_word w)) ->
  option_map seg_of_word (nth_error ws n) = Some d -> nameable d.
Proof.
  intros Hws. destruct (nth_error ws n) as [w|] eqn:E; [|done]. intros [= <-]. apply Hws, list_elem_of_In. by eapply nth_error_In.
Qed.

Lemma descriptor_cases sel d : descriptor (gdt t l) ldt sel = Some d -> nameable d.
Proof.
  unfold descriptor. destruct (Z.testbit sel 2); apply table_nameable; intros w Hin.
  - left. repeat (apply elem_of_cons in Hin as [->|Hin]; [by vm_compute|]). by apply not_elem_of_nil in Hin.
  - unfold gdt in Hin. do 2 (apply elem_of_cons in Hin as [->|Hin]; [left; by vm_compute|]).
    apply elem_of_cons in Hin as [->|Hin]; [right; right; exists 10, 0; split_and!; [by vm_compute|done|by left]|].
    apply elem_of_cons in Hin as [->|Hin]; [right; right; exists 2, 0; split_and!; [by vm_compute|done|by left]|].
    apply elem_of_cons in Hin as [->|Hin]; [right; right; exists 10, 3; split_and!; [by vm_compute|done|by right]|].
    apply elem_of_cons in Hin as [->|Hin]; [right; right; exists 2, 3; split_and!; [by vm_compute|done|by right]|].
    right. left. do 2 (apply elem_of_cons in Hin as [->|Hin]; [by rewrite seg_word_round_trip|]). by apply not_elem_of_nil in Hin.
Qed.

Lemma loaded_descriptor cpl sel d :
  load_data (gdt t l) ldt cpl sel = Some (Some d) \/ load_stack (gdt t l) ldt cpl sel = Some d \/
  load_code (gdt t l) ldt cpl sel = Some d ->
  descriptor (gdt t l) ldt sel = Some d /\ sd_sys d = 1 /\ (Z.testbit (sd_type d) 2 = false -> cpl <= sd_dpl d).
Proof.
  intros [E|[E|E]]; unfold load_data, load_stack, load_code, is_code, is_data in E; repeat case_match; simplify_eq;
    rewrite ?andb_true_iff, ?orb_true_iff, ?andb_true_iff, ?Z.eqb_eq, ?Z.leb_le in *; intuition (congruence || lia).
Qed.

(** Every segment that can be loaded is flat, and one of privilege 3 when the processor runs there. *)
Lemma loaded_flat cpl sel d :
  load_data (gdt t l) ldt cpl sel = Some (Some d) \/ load_stack (gdt t l) ldt cpl sel = Some d \/
  load_code (gdt t l) ldt cpl sel = Some d ->
  flat d /\ (cpl = 3 -> sd_dpl d = 3).
Proof.
  intros (E & Hs & Hc)%loaded_descriptor. destruct (descriptor_cases sel d E) as [->|[?|(type & dpl & -> & Ht2 & Hd)]]; [done|lia|].
  split; [apply flat_segment_flat|]. intros ->. cbn [flat_segment sd_dpl sd_type] in *. specialize (Hc Ht2). lia.
Qed.
End descriptors.

(** ** Lemmas: the start *)

(** What the loader has to leave for [start], in the memory with the arguments on the stack: the
    flags and the memory map in order, paging off, and a file system image with a shell. *)
Record startable {D} `{Machine D} `{Layout} (fr : frame) (addr : Z) (b : boot D) (c : list Z) (i : Z) : Prop := {
  sb_flags : CHECK_FLAG (mbi_flags (k_mem (b_k b)) addr) 4 && CHECK_FLAG (mbi_flags (k_mem (b_k b)) addr) 5 = false;
  sb_mmap : CHECK_FLAG (mbi_flags (k_mem (b_k b)) addr) 6 = true -> mmap_ends (k_mem (b_k b)) addr = true;
  sb_block : pid (pcb_at (b_k b) (get_pcb 0)) = 0;
  sb_paging : exists c0 c3 c4, k_paging (b_k b) = paging_boot c0 c3 c4;
  sb_frame : let m := k_mem (b_k b) in shell_frame (fs_of m (module_at m (mbi_mods_addr m addr))) m fr;
  sb_shell : let m := k_mem (b_k b) in
    executable (fs_of m (module_at m (mbi_mods_addr m addr))) m (chars "shell") c i
}.

Section started.
Context {D : Type} `{Machine D} `{LayoutLaws} `{Handlers} `{Segments}.

Lemma ld_low m u x : x < USER_WINDOW_START -> ld (Mem (km m) u) x = ld m x.
Proof. intros Hx. unfold ld. by rewrite (below_window x Hx). Qed.

Lemma ld_push v (k : kernel D) x : x < USER_WINDOW_START ->
  ld (k_mem (push v k)) x = ld (st32 (k_mem k) (esp (k_cpu k) - 4) v) x.
Proof.
  intros Hx. unfold k_mem at 1, push. cbn [k_km]. rewrite ld_low by lia.
  rewrite !ld_st32. unfold k_mem. by rewrite <- (ld_low (Mem (k_km k) ∅) (default ∅ (k_frames k !! cur_space k)) x) by lia.
Qed.

Lemma ld32_push v (k : kernel D) a : a + 4 <= USER_WINDOW_START ->
  ld32 (k_mem (push v k)) a = ld32 (st32 (k_mem k) (esp (k_cpu k) - 4) v) a.
Proof. intros Ha. apply ld32_ext. intros x Hx. apply ld_push. lia. Qed.

Lemma ld_started eax ebx ra (b : boot D) x : x < 0x7FFFF4 -> ld (k_mem (b_k (start_stack eax ebx ra b))) x = ld (k_mem (b_k b)) x.
Proof.
  intros Hx. unfold start_stack. cbn [with_k b_k].
  do 3 (rewrite ld_push by (unfold USER_WINDOW_START; lia); cbn [push k_cpu esp with_cpu]; rewrite st32_outside by (unfold push; cbn [k_cpu esp with_cpu]; lia)).
  done.
Qed.

(** The arguments of [entry] are what the loader has left in EAX and EBX. *)
Lemma start_arguments eax ebx ra (b : boot D) : 0 <= eax < 2 ^ 32 -> 0 <= ebx < 2 ^ 32 ->
  let k := b_k (start_stack eax ebx ra b) in
  esp (k_cpu k) = 0x7FFFF4 /\ ld32 (k_mem k) (0x7FFFF4 + 4) = eax /\ ld32 (k_mem k) (0x7FFFF4 + 8) = ebx.
Proof.
  intros Ha Hb k. split; [done|]. unfold k, start_stack. cbn [with_k b_k].
  rewrite !ld32_push by (unfold USER_WINDOW_START; lia). cbn [push k_cpu esp with_cpu]. split.
  - etrans; [apply ld32_ext; intros x Hx; apply st32_outside; lia|]. rewrite ld32_push by (unfold USER_WINDOW_START; lia).
    cbn [push k_cpu esp with_cpu]. etrans; [apply ld32_st32|]. by apply u32_small.
  - etrans; [apply ld32_ext; intros x Hx; apply st32_outside; lia|]. rewrite ld32_push by (unfold USER_WINDOW_START; lia).
    cbn [push k_cpu esp with_cpu]. etrans; [apply ld32_ext; intros x Hx; apply st32_outside; lia|].
    rewrite ld32_push by (unfold USER_WINDOW_START; lia). etrans; [apply ld32_st32|]. by apply u32_small.
Qed.

Lemma started_bootable fr eax ebx ra (b : boot D) c i :
  startable fr ebx (start_stack eax ebx ra b) c i -> bootable fr ebx (start_stack eax ebx ra b) c i.
Proof.
  intros [S1 S2 S3 S4 S5 S6]. split; try assumption. split; [unfold MAX_PID; lia|]. split; [|exact S3].
  change (esp (k_cpu (b_k (start_stack eax ebx ra b)))) with 0x7FFFF4. by vm_compute.
Qed.

(** The segment registers can be loaded whatever the two entries for [entry] hold. *)
Lemma start_segments t l :
  load_code (gdt t l) ldt 0 KERNEL_CS = Some (flat_segment 10 0) /\ load_stack (gdt t l) ldt 0 KERNEL_DS = Some (flat_segment 2 0) /\
  load_data (gdt t l) ldt 0 KERNEL_DS = Some (Some (flat_segment 2 0)).
Proof. split; [by vm_compute|]. split; by vm_compute. Qed.

Lemma user_segments t l :
  load_code (gdt t l) ldt 3 USER_CS = Some (flat_segment 10 3) /\ load_stack (gdt t l) ldt 3 USER_DS = Some (flat_segment 2 3).
Proof. split; by vm_compute. Qed.
End started.

(** ** Properties *)


(** ** Witnesses *)

Lemma sample_started_image :
  same_image sample_fs shell_image (k_mem (b_k (start_stack MULTIBOOT_BOOTLOADER_MAGIC 0x10000 0 sample_boot))).
Proof.
  assert (E : image_end sample_fs shell_image = 0x414000) by (by vm_compute).
  intros x Hx. rewrite ld_started by lia. by apply sample_boot_image.
Qed.

Lemma sample_started_off a n : 0x414000 <= a -> a + n <= 2 ^ 32 ->
  off_image sample_fs (k_mem (b_k (start_stack MULTIBOOT_BOOTLOADER_MAGIC 0x10000 0 sample_boot))) a n.
Proof.
  intros. apply (off_image_stable sample_fs shell_image); [apply sample_started_image|]. unfold off_image.
  assert (E : image_end sample_fs shell_image = 0x414000) by (by vm_compute).
  rewrite E. split; [lia|]. split; [done|]. right. lia.
Qed.

Lemma sample_started_fs :
  let m := k_mem (b_k (start_stack MULTIBOOT_BOOTLOADER_MAGIC 0x10000 0 sample_boot)) in
  fs_of m (module_at m (mbi_mods_addr m 0x10000)) = sample_fs.
Proof. by vm_compute. Qed.

Lemma sample_startable :
  startable sample_frame 0x10000 (start_stack MULTIBOOT_BOOTLOADER_MAGIC 0x10000 0 sample_boot) sample_elf 2.
Proof.
  split; [by vm_compute|by vm_compute|by vm_compute|by exists 1, 0, 0|cbn zeta..]; rewrite sample_started_fs.
  - split; [|apply sample_started_off; by vm_compute|by right|by right]. split.
    + unfold locals. repeat apply List.Forall_cons; [..|apply List.Forall_nil];
        (split; [apply sample_started_off; by vm_compute|by vm_compute]).
    + unfold locals. repeat apply List.FOP_cons; [..|apply List.FOP_nil];
        repeat apply List.Forall_cons; try apply List.Forall_nil; left; by vm_compute.
    + by vm_compute.
  - apply (executable_stable sample_fs shell_image); [apply Nat.leb_le; by vm_compute|apply sample_started_image|apply shell_executable].
Qed.

