(* ===== verification/User.v ===== *)
(** * syscalls: the user library (ece391syscall.S, ece391support.c)

    A user program is a function on a world that has the program's memory and answers INT 0x80;
    [Calls] is that interface.  A program that has been stopped (by a fault, by a call that does
    not return to it, or because a loop bound of the model is used up) gives [None]. *)

From S2P Require Import Prelude Mem LibString Console Execute Linkage.

(** ** The world of a program *)

(** [int80] takes the registers at the INT instruction and returns EAX. *)
Class Calls (W : Type) := {
  w_mem : W -> mem;
  w_put : mem -> W -> W;
  int80 : regs -> W -> option (Z * W)
}.

(** Where the program's string literals are. *)
Class Literals := { lit : string -> Z }.

Arguments lit {_} _%_string.

Definition prog (W A : Type) : Type := W -> option (A * W).

Definition ret {W A} (a : A) : prog W A := fun w => Some (a, w).

Definition stuck {W A} : prog W A := fun _ => None.

Definition bind {W A B} (p : prog W A) (f : A -> prog W B) : prog W B :=
  fun w => match p w with Some (a, w') => f a w' | None => None end.

Declare Scope prog_scope.
Delimit Scope prog_scope with prog.
Notation "'let!' x := p 'in' q" := (bind p (fun x => q)) (at level 10, x name, p at level 100, q at level 200) : prog_scope.
Notation "p ';;' q" := (bind p (fun _ => q)) (at level 100, q at level 200, right associativity) : prog_scope.
#[global] Open Scope prog_scope.

Section world.
Context {W : Type} `{Calls W}.

Definition get_mem : prog W mem := fun w => Some (w_mem w, w).

Definition set_mem (m : mem) : prog W unit := fun w => Some (tt, w_put m w).

(** A store through a pointer faults outside the program's window. *)
Definition store (a v : Z) : prog W unit :=
  if in_user a then let! m := get_mem in set_mem (st m a v) else stuck.

Definition store32 (a v : Z) : prog W unit :=
  if in_user a && in_user (a + 3) then let! m := get_mem in set_mem (st32 m a v) else stuck.

Definition load (a : Z) : prog W Z := let! m := get_mem in ret (ld m a).

(** ** ece391syscall.S *)

Definition SYS_HALT : Z := 1.

Definition SYS_EXECUTE : Z := 2.

Definition SYS_READ : Z := 3.

Definition SYS_WRITE : Z := 4.

Definition SYS_OPEN : Z := 5.

Definition SYS_CLOSE : Z := 6.

Definition SYS_GETARGS : Z := 7.

Definition SYS_VIDMAP : Z := 8.

Definition SYS_SET_HANDLER : Z := 9.

Definition SYS_SIGRETURN : Z := 10.

(** [DO_CALL]: the number in EAX, the three words above the return address in the other
    registers; a call with fewer arguments passes what the stack holds, here 0. *)
Definition do_call (number a b c : Z) : prog W Z := int80 (Regs number (u32 a) (u32 b) (u32 c)).

Definition ece391_halt (status : Z) := do_call SYS_HALT (u8 status) 0 0.

Definition ece391_execute (command : Z) := do_call SYS_EXECUTE command 0 0.

Definition ece391_read (fd buf nbytes : Z) := do_call SYS_READ fd buf nbytes.

Definition ece391_write (fd buf nbytes : Z) := do_call SYS_WRITE fd buf nbytes.

Definition ece391_open (filename : Z) := do_call SYS_OPEN filename 0 0.

Definition ece391_close (fd : Z) := do_call SYS_CLOSE fd 0 0.

Definition ece391_getargs (buf nbytes : Z) := do_call SYS_GETARGS buf nbytes 0.

Definition ece391_vidmap (screen_start : Z) := do_call SYS_VIDMAP screen_start 0 0.

Definition ece391_set_handler (signum handler : Z) := do_call SYS_SET_HANDLER signum handler 0.

Definition ece391_sigreturn := do_call SYS_SIGRETURN 0 0 0.

(** [_start]: the result of [main] is the status. *)
Definition start (main : prog W Z) : prog W Z := let! r := main in ece391_halt r.
End world.

(** ** ece391support.c *)

Fixpoint ece391_strlen_loop (fuel : nat) (m : mem) (s len : Z) : Z :=
  match fuel with
  | O => len
  | S f => if negb (0 =? ld m s) then ece391_strlen_loop f m (s + 1) (u32 (len + 1)) else len
  end.

Definition ece391_strlen (m : mem) (s : Z) : Z := ece391_strlen_loop (mem_fuel m) m s 0.

(** [None]: the copy overwrites the terminator of its source and goes on for ever. *)
Fixpoint ece391_strcpy_loop (fuel : nat) (m : mem) (dst src : Z) : option mem :=
  match fuel with
  | O => None
  | S f =>
      let c := ld m src in
      let m := st m dst c in
      if negb (0 =? c) then ece391_strcpy_loop f m (dst + 1) (src + 1) else Some m
  end.

Definition ece391_strcpy (m : mem) (dst src : Z) : option mem := ece391_strcpy_loop (mem_fuel m) m dst src.

Fixpoint ece391_strcmp_loop (fuel : nat) (m : mem) (s1 s2 : Z) : Z :=
  match fuel with
  | O => 0
  | S f =>
      if ld m s1 =? ld m s2 then
        if ld m s1 =? 0 then 0 else ece391_strcmp_loop f m (s1 + 1) (s2 + 1)
      else ld m s1 - ld m s2
  end.

Definition ece391_strcmp (m : mem) (s1 s2 : Z) : Z := ece391_strcmp_loop (mem_fuel m) m s1 s2.

Fixpoint ece391_strncmp_loop (fuel : nat) (m : mem) (s1 s2 n : Z) : Z :=
  match fuel with
  | O => 0
  | S f =>
      if ld m s1 =? ld m s2 then
        if (ld m s1 =? 0) || (n - 1 =? 0) then 0 else ece391_strncmp_loop f m (s1 + 1) (s2 + 1) (n - 1)
      else ld m s1 - ld m s2
  end.

Definition ece391_strncmp (m : mem) (s1 s2 n : Z) : Z :=
  if 0 =? n then 0 else ece391_strncmp_loop (mem_fuel m) m s1 s2 n.

Fixpoint ece391_strrev_loop (fuel : nat) (m : mem) (s beg end_ : Z) : mem :=
  match fuel with
  | O => m
  | S f =>
      if beg <? end_ then
        let tmp := ld m (s + end_) in
        let m := st m (s + end_) (ld m (s + beg)) in
        let m := st m (s + beg) tmp in
        ece391_strrev_loop f m s (beg + 1) (end_ - 1)
      else m
  end.

Definition ece391_strrev (m : mem) (s : Z) : mem :=
  let end_ := s32 (ece391_strlen m s - 1) in
  if end_ <=? 0 then m else ece391_strrev_loop (Z.to_nat end_) m s 0 end_.

(** [lookup] of [ece391_itoa]; the index is below the radix. *)
Definition ece391_lookup (i : Z) : Z := if i <? 10 then 48 + i else if i <? 36 then 55 + i else 0.

Fixpoint ece391_itoa_loop (fuel : nat) (m : mem) (newbuf newval radix : Z) : mem * Z :=
  match fuel with
  | O => (m, newbuf)
  | S f =>
      if 0 <? newval then
        ece391_itoa_loop f (st m newbuf (ece391_lookup (newval mod radix))) (newbuf + 1) (newval / radix) radix
      else (m, newbuf)
  end.

(** A 32-bit value has at most 32 digits. *)
Definition ece391_itoa (m : mem) (value buf radix : Z) : mem :=
  if value =? 0 then st (st m buf 48) (buf + 1) 0
  else
    let '(m, newbuf) := ece391_itoa_loop 32 m buf value radix in
    ece391_strrev (st m newbuf 0) buf.

Section support.
Context {W : Type} `{Calls W}.

Definition ece391_fdputs (fd s : Z) : prog W unit :=
  let! m := get_mem in
  ece391_write fd s (ece391_strlen m s) ;;
  ret tt.
End support.

(** ** Lemmas *)

Lemma bind_ret {W A B} (a : A) (f : A -> prog W B) w : bind (ret a) f w = f a w.
Proof. reflexivity. Qed.

Lemma bind_some {W A B} (p : prog W A) (f : A -> prog W B) w a w' :
  p w = Some (a, w') -> bind p f w = f a w'.
Proof. unfold bind. by intros ->. Qed.

Lemma strlen_loop_cstr m l : forall fuel s len,
  cstr m s l -> (length l < fuel)%nat -> 0 <= len -> len + Z.of_nat (length l) < 2 ^ 32 ->
  ece391_strlen_loop fuel m s len = len + Z.of_nat (length l).
Proof.
  induction l as [|c l IH]; intros [|fuel] s len Hc Hf Hl Hb; cbn [length] in *; try lia; cbn [ece391_strlen_loop cstr] in *.
  - rewrite Hc. cbn. lia.
  - destruct Hc as (E & Hne & Hc). rewrite E. destruct (Z.eqb_spec 0 c); [congruence|]. cbn [negb].
    rewrite u32_small by lia. rewrite IH by (done || lia). lia.
Qed.

Lemma ece391_strlen_cstr m s l :
  cstr m s l -> Z.of_nat (length l) < 2 ^ 32 -> ece391_strlen m s = Z.of_nat (length l).
Proof.
  intros Hc Hl. unfold ece391_strlen. rewrite (strlen_loop_cstr m l) by (done || lia || by eapply cstr_fuel). lia.
Qed.

(** A copy downwards, or between places apart. *)
Lemma strcpy_loop_copies l : forall fuel m dst src,
  cstr m src l -> (length l < fuel)%nat ->
  dst <= src \/ src + Z.of_nat (length l) < dst ->
  exists m', ece391_strcpy_loop fuel m dst src = Some m' /\ copied m m' dst src (Z.of_nat (length l) + 1).
Proof.
  induction l as [|c l IH]; intros [|fuel] m dst src Hc Hf Hd; cbn [length] in *; try lia; cbn [ece391_strcpy_loop cstr] in *.
  - rewrite Hc. eexists. split; [reflexivity|]. rewrite <- Hc. apply copied_st.
  - destruct Hc as (E & Hne & Hc). rewrite E. destruct (Z.eqb_spec 0 c); [congruence|]. cbn [negb].
    destruct (IH fuel (st m dst c) (dst + 1) (src + 1)) as (m' & E' & Hm'); [|lia|lia|].
    + apply (cstr_ext m); [|done]. intros x Hx. apply ld_st_ne. lia.
    + exists m'. split; [exact E'|]. replace (Z.of_nat (S (length l)) + 1) with (1 + (Z.of_nat (length l) + 1)) by lia.
      eapply copied_trans; [lia|lia|lia| |exact Hm']. rewrite <- E. apply copied_st.
Qed.

Lemma ece391_strcpy_copies m dst src l :
  cstr m src l -> dst <= src \/ src + Z.of_nat (length l) < dst ->
  exists m', ece391_strcpy m dst src = Some m' /\ copied m m' dst src (Z.of_nat (length l) + 1).
Proof. intros Hc Hd. apply (strcpy_loop_copies l); [done|by eapply cstr_fuel|done]. Qed.

(** The comparison tells strings apart. *)
Lemma strcmp_loop_eq l1 : forall fuel m a b l2,
  cstr m a l1 -> cstr m b l2 -> (length l1 < fuel)%nat -> ece391_strcmp_loop fuel m a b = 0 <-> l1 = l2.
Proof.
  induction l1 as [|c l1 IH]; intros [|fuel] m a b [|d l2] H1 H2 Hf; cbn [length] in Hf; try lia; cbn [ece391_strcmp_loop cstr] in *.
  - by rewrite H1, H2.
  - destruct H2 as (-> & Hd & _). rewrite H1, (proj2 (Z.eqb_neq 0 d)) by congruence. split; [lia|done].
  - destruct H1 as (-> & Hc & _). rewrite H2, (proj2 (Z.eqb_neq c 0)) by done. split; [lia|done].
  - destruct H1 as (-> & Hc & H1), H2 as (-> & Hd & H2). destruct (Z.eqb_spec c d) as [->|Hne].
    + rewrite (proj2 (Z.eqb_neq d 0)), (IH fuel m _ _ l2 H1 H2) by (done || lia). split; [by intros ->|by intros [= ->]].
    + split; [lia|congruence].
Qed.

Lemma ece391_strcmp_eq m a b l1 l2 : cstr m a l1 -> cstr m b l2 -> ece391_strcmp m a b = 0 <-> l1 = l2.
Proof. intros H1 H2. apply strcmp_loop_eq; [done|done|by eapply cstr_fuel]. Qed.
