(* ===== verification/Programs.v ===== *)
(** * syscalls: the user programs

    Each [main] over the interface of User.v.  The addresses of local arrays are arguments; the
    loops that only the system calls end have a bound, and a program that exceeds it is
    [stuck]. *)

From S2P Require Import Prelude Mem LibString Console Linkage User.

Definition nl : string := "
".

Section programs.
Context {W : Type} `{Calls W} `{Literals}.

(** [ece391_fdputs(1, "...")]. *)
Definition puts1 (s : string) : prog W unit := ece391_fdputs 1 (lit s).

(** ** ece391cat.c *)

Fixpoint cat_loop (fuel : nat) (fd buf : Z) : prog W Z :=
  match fuel with
  | O => stuck
  | S f =>
      let! cnt := ece391_read fd buf 1024 in
      if cnt =? 0 then ret 0
      else if cnt =? -1 then puts1 ("file read failed" ++ nl) ;; ret 3
      else
        let! r := ece391_write 1 buf cnt in
        if r =? -1 then ret 3 else cat_loop f fd buf
  end.

Definition cat_main (fuel : nat) (buf : Z) : prog W Z :=
  let! r := ece391_getargs buf 1024 in
  if negb (r =? 0) then puts1 ("could not read arguments" ++ nl) ;; ret 3
  else
    let! fd := ece391_open buf in
    if fd =? -1 then puts1 ("file not found" ++ nl) ;; ret 2
    else cat_loop fuel fd buf.

(** ** ece391ls.c *)

Definition SBUFSIZE : Z := 33.

Fixpoint ls_loop (fuel : nat) (fd buf : Z) : prog W Z :=
  match fuel with
  | O => stuck
  | S f =>
      let! cnt := ece391_read fd buf (SBUFSIZE - 1) in
      if cnt =? 0 then ret 0
      else if cnt =? -1 then puts1 ("directory entry read failed" ++ nl) ;; ret 3
      else
        store (buf + cnt) 10 ;;
        let! r := ece391_write 1 buf (cnt + 1) in
        if r =? -1 then ret 3 else ls_loop f fd buf
  end.

Definition ls_main (fuel : nat) (buf : Z) : prog W Z :=
  let! fd := ece391_open (lit ".") in
  if fd =? -1 then puts1 ("directory open failed" ++ nl) ;; ret 2
  else ls_loop fuel fd buf.

(** ** ece391grep.c *)

Definition BUFSIZE : Z := 1024.

(** [while (line_end < last && '\n' != data[line_end]) line_end++]. *)
Definition grep_line_end (m : mem) (data line_start last : Z) : Z :=
  default (Z.max line_start last) (find_ line_start last (fun i => ld m (data + i) =? 10)).

(** The first place of a line where the search string is. *)
Definition grep_match (m : mem) (s data line_start line_end s_len : Z) : option Z :=
  find_ line_start line_end (fun check =>
    (s8 (ld m s) =? ld m (data + check)) && (ece391_strncmp m (data + check) s s_len =? 0)).

(** The lines of the buffer; returns [last] for the next read. *)
Fixpoint grep_lines (fuel : nat) (s fname data s_len cnt last line_start : Z) : prog W Z :=
  match fuel with
  | O => stuck
  | S f =>
      let! m := get_mem in
      let line_end := grep_line_end m data line_start last in
      if negb (ld m (data + line_end) =? 10) && negb (cnt =? 0) && negb (line_start =? 0) then
        store (data + line_end) 0 ;;
        let! m := get_mem in
        match ece391_strcpy m data (data + line_start) with
        | Some m => set_mem m ;; ret (last - line_start)
        | None => stuck
        end
      else
        store (data + line_end) 0 ;;
        let! m := get_mem in
        (match grep_match m s data line_start line_end s_len with
         | Some _ =>
             ece391_fdputs 1 fname ;; puts1 ":" ;; ece391_fdputs 1 (data + line_start) ;; puts1 nl
         | None => ret tt
         end) ;;
        let line_start := line_end + 1 in
        if last <=? line_start then ret 0 else grep_lines f s fname data s_len cnt last line_start
  end.

(** The reads of one file; a buffer of [last] bytes has at most [last + 1] lines. *)
Fixpoint grep_reads (fuel : nat) (fd s fname data s_len last : Z) : prog W Z :=
  match fuel with
  | O => stuck
  | S f =>
      let! cnt := ece391_read fd (data + last) (BUFSIZE - last) in
      if cnt =? -1 then puts1 ("file read failed" ++ nl) ;; ret (-1)
      else
        let last := last + cnt in
        let! last := grep_lines (Z.to_nat (last + 2)) s fname data s_len cnt last 0 in
        if cnt =? 0 then ret 0 else grep_reads f fd s fname data s_len last
  end.

Definition do_one_file (fuel : nat) (s fname data : Z) : prog W Z :=
  let! m := get_mem in
  let s_len := s32 (ece391_strlen m s) in
  let! fd := ece391_open fname in
  if fd =? -1 then puts1 ("file open failed" ++ nl) ;; ret (-1)
  else
    let! r := grep_reads fuel fd s fname data s_len 0 in
    if r =? -1 then ret (-1)
    else
      let! r := ece391_close fd in
      if r =? -1 then puts1 ("file close failed" ++ nl) ;; ret (-1) else ret 0.

Fixpoint grep_loop (fuel : nat) (fd buf search data : Z) : prog W Z :=
  match fuel with
  | O => stuck
  | S f =>
      let! cnt := ece391_read fd buf (SBUFSIZE - 1) in
      if cnt =? 0 then ret 0
      else if cnt =? -1 then puts1 ("directory entry read failed" ++ nl) ;; ret 3
      else
        let! c := load buf in
        if c =? 46 then grep_loop f fd buf search data
        else
          store (buf + cnt) 0 ;;
          let! r := do_one_file f search buf data in
          if negb (r =? 0) then ret 3 else grep_loop f fd buf search data
  end.

Definition grep_main (fuel : nat) (buf search data : Z) : prog W Z :=
  let! r := ece391_getargs search BUFSIZE in
  if negb (r =? 0) then puts1 ("could not read argument" ++ nl) ;; ret 3
  else
    let! fd := ece391_open (lit ".") in
    if fd =? -1 then puts1 ("directory open failed" ++ nl) ;; ret 2
    else grep_loop fuel fd buf search data.

(** ** ece391hello.c and ece391testprint.c *)

Definition hello_main (buf : Z) : prog W Z :=
  puts1 "Hi, what's your name? " ;;
  let! cnt := ece391_read 0 buf (BUFSIZE - 1) in
  if cnt =? -1 then puts1 ("Can't read name from keyboard." ++ nl) ;; ret 3
  else
    store (buf + cnt) 0 ;;
    puts1 "Hello, " ;;
    ece391_fdputs 1 buf ;;
    ret 0.

Definition testprint_main : prog W Z :=
  puts1 ("Hello, if this ran, the program was correct. Yay!" ++ nl) ;; ret 0.

(** ** ece391shell.c *)

(** What the shell says of a result. *)
Definition shell_report (rval : Z) : prog W unit :=
  if rval =? -1 then puts1 ("no such command" ++ nl)
  else if rval =? 256 then puts1 ("program terminated by exception" ++ nl)
  else if negb (rval =? 0) then puts1 ("program terminated abnormally" ++ nl)
  else ret tt.

Fixpoint shell_loop (fuel : nat) (buf : Z) : prog W Z :=
  match fuel with
  | O => stuck
  | S f =>
      puts1 "391OS> " ;;
      let! cnt := ece391_read 0 buf (BUFSIZE - 1) in
      if cnt =? -1 then puts1 ("read from keyboard failed" ++ nl) ;; ret 3
      else
        let! m := get_mem in
        let cnt := if (0 <? cnt) && (ld m (buf + (cnt - 1)) =? 10) then cnt - 1 else cnt in
        store (buf + cnt) 0 ;;
        let! m := get_mem in
        if ece391_strcmp m buf (lit "exit") =? 0 then ret 0
        else if ld m buf =? 0 then shell_loop f buf
        else
          let! rval := ece391_execute buf in
          shell_report rval ;;
          shell_loop f buf
  end.

Definition shell_main (fuel : nat) (buf : Z) : prog W Z :=
  puts1 ("Starting 391 Shell" ++ nl) ;; shell_loop fuel buf.

(** ** ece391counter.c *)

Fixpoint counter_loop (n : nat) (i buf : Z) : prog W Z :=
  match n with
  | O => ret 0
  | S n =>
      let! m := get_mem in
      set_mem (ece391_itoa m (u32 (i + 1)) buf 10) ;;
      ece391_fdputs 1 buf ;;
      puts1 nl ;;
      counter_loop n (i + 1) buf
  end.

(** [cnt] is unsigned, so the comparison with -1 is one of unsigned words. *)
Definition counter_main (buf : Z) : prog W Z :=
  puts1 ("Enter the Test Number: (0): 100, (1): 10000, (2): 100000" ++ nl) ;;
  let! cnt := ece391_read 0 buf (BUFSIZE - 1) in
  let cnt := u32 cnt in
  if cnt =? u32 (-1) then puts1 ("Can't read the number from keyboard." ++ nl) ;; ret 3
  else
    store (u32 (buf + cnt)) 0 ;;
    let! m := get_mem in
    let c := ld m buf in
    if (1 <? ece391_strlen m buf) || ((ece391_strlen m buf =? 1) && ((c <? 48) || (50 <? c)))
    then puts1 ("Wrong Choice!" ++ nl) ;; ret 0
    else
      let max := if c =? 48 then 100 else if c =? 49 then 10000 else if c =? 50 then 100000 else 0 in
      counter_loop (Z.to_nat max) 0 buf.

(** ** ece391pingpong.c *)

Definition BUFMAX : Z := 79 + 2.

Definition START : Z := 1.

Definition STARTLOOP : Z := 1 + 1.

Definition LOOPMAX : Z := 79 + 2 - 2 - 1.

(** The frame with the character at column [j]. *)
Definition pingpong_draw (m : mem) (buf j curchar : Z) : mem :=
  let m := for_ STARTLOOP LOOPMAX (fun i m => st m (buf + i) 32) m in
  st m (buf + j) curchar.

Definition pingpong_frame (rtc_fd buf garbage j curchar : Z) : prog W unit :=
  let! m := get_mem in
  set_mem (pingpong_draw m buf j curchar) ;;
  ece391_fdputs 1 buf ;;
  ece391_read rtc_fd garbage 4 ;;
  ret tt.

Fixpoint pingpong_frames (js : list Z) (rtc_fd buf garbage curchar : Z) : prog W unit :=
  match js with
  | [] => ret tt
  | j :: js => pingpong_frame rtc_fd buf garbage j curchar ;; pingpong_frames js rtc_fd buf garbage curchar
  end.

(** Out and back for one character after another; the program never ends. *)
Fixpoint pingpong_loop (fuel : nat) (rtc_fd buf garbage curchar : Z) : prog W Z :=
  match fuel with
  | O => stuck
  | S f =>
      pingpong_frames (seqZ STARTLOOP (LOOPMAX - STARTLOOP)) rtc_fd buf garbage curchar ;;
      pingpong_frames (rev (seqZ STARTLOOP (LOOPMAX - STARTLOOP))) rtc_fd buf garbage curchar ;;
      pingpong_loop f rtc_fd buf garbage (if curchar =? 90 then 65 else u8 (curchar + 1))
  end.

(** The empty frame between its walls. *)
Definition pingpong_walls (m : mem) (buf : Z) : mem :=
  let m := for_ 0 BUFMAX (fun i m => st m (buf + i) 32) m in
  let m := st m (buf + (BUFMAX - 1)) 0 in
  let m := st m (buf + (BUFMAX - 2)) 10 in
  let m := st m (buf + (BUFMAX - 3)) 124 in
  st m (buf + START) 124.

Definition pingpong_main (fuel : nat) (buf ret_val garbage : Z) : prog W Z :=
  let! m := get_mem in
  set_mem (pingpong_walls m buf) ;;
  let! rtc_fd := ece391_open (lit "rtc") in
  store32 ret_val 32 ;;
  let! r := ece391_write rtc_fd ret_val 4 in
  store32 ret_val r ;;
  pingpong_loop fuel rtc_fd buf garbage 65.

(** ** ece391sigtest.c *)

Definition SEGFAULT : Z := 1.

Definition ALARM : Z := 3.

(** The two handlers; [signum_at] is the address of the parameter, which the first one also uses to
    reach the saved registers. *)
Definition print_signum (signum : Z) : prog W unit :=
  if signum =? 0 then puts1 ("0" ++ nl)
  else if signum =? 1 then puts1 ("1" ++ nl)
  else if signum =? 2 then puts1 ("2" ++ nl)
  else if signum =? 3 then puts1 ("3" ++ nl)
  else puts1 ("invalid" ++ nl).

Definition segfault_sighandler (badbuf charbuf buf signum_at signum : Z) : prog W unit :=
  puts1 "Segfault signal handler called, signum: " ;;
  print_signum signum ;;
  puts1 ("Press enter to continue..." ++ nl) ;;
  ece391_read 0 buf 1 ;;
  store32 badbuf charbuf ;;
  store32 (signum_at + 28) charbuf ;;
  puts1 ("Signal handler returning" ++ nl).

Definition alarm_sighandler (signum : Z) : prog W unit :=
  puts1 "Alarm signal handler called, signum: " ;;
  print_signum signum.

(** The pointer [badbuf] is 0 unless the first handler has run: the store faults. *)
Definition sigtest_main (buf badbuf charbuf segfault_handler alarm_handler : Z) : prog W Z :=
  let! r := ece391_getargs buf BUFSIZE in
  if negb (r =? 0) then puts1 ("could not read argument" ++ nl) ;; ret 3
  else
    let! c := load buf in
    (if c =? 49 then
       puts1 ("Installing signal handlers" ++ nl) ;;
       ece391_set_handler SEGFAULT segfault_handler ;;
       ece391_set_handler ALARM alarm_handler ;;
       ret tt
     else ret tt) ;;
    puts1 "Hi, what's your name? " ;;
    let! cnt := ece391_read 0 buf (BUFSIZE - 1) in
    if cnt =? -1 then puts1 ("Can't read name from keyboard." ++ nl) ;; ret 3
    else
      let! m := get_mem in
      store (ld32 m badbuf) 1 ;;
      store (buf + cnt) 0 ;;
      puts1 "Hello, " ;;
      ece391_fdputs 1 buf ;;
      let! v := load charbuf in
      (if v =? 1 then puts1 ("success" ++ nl) else puts1 ("failure" ++ nl)) ;;
      ret 0.
End programs.
