(* ===== verification/Syserr.v ===== *)
(** * syscalls/ece391syserr.c: the repository's tests of the calls' error behaviour

    Eight tests, each of which prints PASS and returns 0 or prints FAIL and returns 2. *)

From S2P Require Import Prelude Mem LibString Console Linkage User Programs.

Definition NEG_FD : Z := -1073741823.

Definition BIG_FD : Z := 1073741823.

Definition BIG_NUM : Z := 1073741823.

Definition NEG_NUM : Z := -1073741823.

Section tests.
Context {W : Type} `{Calls W} `{Literals}.

(** Only EAX is set; the other registers hold what they happen to. *)
Definition call_sys (g : regs) (num : Z) : prog W Z := int80 (Regs (u32 num) (ebx g) (ecx g) (edx g)).

(** [if (-1 != call) { fail = 2; fdputs(msg); }]. *)
Definition expect_error (p : prog W Z) (msg : string) (fail : Z) : prog W Z :=
  let! r := p in
  if negb (r =? -1) then puts1 msg ;; ret 2 else ret fail.

(** The last lines of a test. *)
Definition report (name : string) (fail : Z) : prog W Z :=
  (if negb (fail =? 0) then puts1 (name ++ ": FAIL" ++ nl) else puts1 (name ++ ": PASS" ++ nl)) ;;
  ret fail.

Definition err_neg_fd (buf : Z) : prog W Z :=
  let! fail := expect_error (ece391_read NEG_FD buf 31) ("read fail" ++ nl) 0 in
  let! fail := expect_error (ece391_write NEG_FD buf 31) ("write fail" ++ nl) fail in
  let! fail := expect_error (ece391_close NEG_FD) ("close fail" ++ nl) fail in
  report "err_neg_fd" fail.

Definition err_big_fd (buf : Z) : prog W Z :=
  let! fail := expect_error (ece391_read BIG_FD buf 31) ("read fail" ++ nl) 0 in
  let! fail := expect_error (ece391_write BIG_FD buf 31) ("write fail" ++ nl) fail in
  let! fail := expect_error (ece391_close BIG_FD) ("close fail" ++ nl) fail in
  report "err_big_fd" fail.

(** [n] opens of the directory; counts the failures. *)
Fixpoint open_lots (n : nat) (cnt : Z) : prog W Z :=
  match n with
  | O => ret cnt
  | S n =>
      let! r := ece391_open (lit ".") in
      open_lots n (if r =? -1 then cnt + 1 else cnt)
  end.

Fixpoint close_from (n : nat) (i : Z) : prog W unit :=
  match n with
  | O => ret tt
  | S n => ece391_close i ;; close_from n (i + 1)
  end.

Definition err_open_lots : prog W Z :=
  let! cnt := open_lots 7 0 in
  close_from 6 2 ;;
  if cnt =? 1 then puts1 ("err_open_lots: PASS" ++ nl) ;; ret 0
  else puts1 ("err_open_lots: FAIL" ++ nl) ;; ret 2.

Definition err_open : prog W Z :=
  let! fail := expect_error (ece391_open (lit "helloo")) ("'helloo' fail" ++ nl) 0 in
  let! fail := expect_error (ece391_open (lit "shel")) ("'shel' fail" ++ nl) fail in
  let! fail := expect_error (ece391_open (lit "")) ("empty string fail" ++ nl) fail in
  report "err_open" fail.

(** One call for each descriptor from [i] on. *)
Fixpoint expect_errors (n : nat) (call : Z -> prog W Z) (i : Z) (msg : string) (fail : Z) : prog W Z :=
  match n with
  | O => ret fail
  | S n =>
      let! fail := expect_error (call i) msg fail in
      expect_errors n call (i + 1) msg fail
  end.

Definition err_unopened (buf : Z) : prog W Z :=
  let! fail := expect_errors 8 ece391_close 0 ("close unopened or invalid fd fail" ++ nl) 0 in
  let! fail := expect_errors 6 (fun i => ece391_read i buf 31) 2 ("read from unopened fd fail" ++ nl) fail in
  let! fail := expect_errors 6 (fun i => ece391_write i buf 31) 2 ("write to unopened fd fail" ++ nl) fail in
  report "err_unopened" fail.

Definition err_vidmap : prog W Z :=
  let! fail := expect_error (ece391_vidmap 0x0) ("Null pointer fail" ++ nl) 0 in
  let! fail := expect_error (ece391_vidmap 0x400000) ("Kernel pointer fail fail" ++ nl) fail in
  report "err_vidmap" fail.

Definition err_stdin_out (buf : Z) : prog W Z :=
  let! fail := expect_error (ece391_write 0 buf 31) ("write to stdin fail" ++ nl) 0 in
  let! fail := expect_error (ece391_read 1 buf 31) ("read from stdout fail" ++ nl) fail in
  report "err_stdin_out" fail.

Definition err_syscall_num (g : regs) : prog W Z :=
  let! fail := expect_error (call_sys g BIG_NUM) ("syscall 0 fail" ++ nl) 0 in
  let! fail := expect_error (call_sys g NEG_NUM) ("big num syscall fail" ++ nl) fail in
  let! fail := expect_error (call_sys g 0) ("neg num syscall fail" ++ nl) fail in
  report "err_syscall_num" fail.

(** Case 0 of the menu: all of them. *)
Definition err_all (g : regs) (buf : Z) : prog W Z :=
  let! f1 := err_neg_fd buf in
  let! f2 := err_big_fd buf in
  let! f3 := err_open_lots in
  let! f4 := err_open in
  let! f5 := err_unopened buf in
  let! f6 := err_vidmap in
  let! f7 := err_stdin_out buf in
  let! f8 := err_syscall_num g in
  let fail := f1 + f2 + f3 + f4 + f5 + f6 + f7 + f8 in
  (if negb (fail =? 0) then puts1 (nl ++ "Overall Tests: FAIL" ++ nl) else puts1 (nl ++ "Overall Tests: PASS" ++ nl)) ;;
  ret fail.

Definition syserr_main (g : regs) (buf small : Z) : prog W Z :=
  puts1 "Choose from tests 1-8. 0 to run all: " ;;
  let! cnt := ece391_read 0 buf 127 in
  if cnt =? -1 then puts1 ("Can't read test #" ++ nl) ;; ret 2
  else
    let! c := load buf in
    let select := c - 48 in
    if select =? 0 then err_all g small
    else if select =? 1 then err_neg_fd small
    else if select =? 2 then err_big_fd small
    else if select =? 3 then err_open_lots
    else if select =? 4 then err_open
    else if select =? 5 then err_unopened small
    else if select =? 6 then err_vidmap
    else if select =? 7 then err_stdin_out small
    else if select =? 8 then err_syscall_num g
    else puts1 "Invalid test number. Choose from tests 1-8 or 0" ;; ret 0.
End tests.
