(* ===== verification/Userland.v ===== *)
(** * User programs on the kernel

    The kernel as the world of a user program: INT 0x80 enters the kernel on the process's stack,
    runs the linkage and comes back with EAX.  A call that does not come back to the program (a
    halt, an execute, a wait without the interrupts that end it) stops it.  The theorems run the
    programs of the repository on the kernel of the repository. *)

From S2P Require Import Prelude Mem LibString Console Machine I8259 Rtc Tasks Pcb Fs Paging Termios Keyboard Kernel Scheduling Syscall Execute FileCalls Linkage System Shell User Programs Syserr.

(** The interrupts that arrive during each call, the addresses of the kernel's locals and the stack
    registers inside the kernel. *)
Record kworld (D : Type) := KW {
  kw_k : kernel D;
  kw_envs : list env;
  kw_frame : frame;
  kw_esp : Z;
  kw_ebp : Z
}.
Arguments KW {D} _ _ _ _ _.
Arguments kw_k {D} _.
Arguments kw_envs {D} _.
Arguments kw_frame {D} _.
Arguments kw_esp {D} _.
Arguments kw_ebp {D} _.

Section kernel_world.
Context {D : Type} `{Machine D} `{Layout}.
Implicit Types (w : kworld D) (k : kernel D).

Definition env_of w : env := List.hd (Env [] []) (kw_envs w).

Definition enter w : kernel D := enter_kernel (kw_k w) (kw_esp w) (kw_ebp w).

Definition next w k : kworld D := KW k (List.tl (kw_envs w)) (kw_frame w) (kw_esp w) (kw_ebp w).

(** Back in the program with the value and the state of a call. *)
Definition back w (o : option (Z * kernel D)) : option (Z * kworld D) :=
  match o with Some (r, k) => Some (r, next w k) | None => None end.

Definition kernel_int80 (r : regs) w : option (Z * kworld D) :=
  match syscall_linkage (kw_frame w) (env_of w) r (enter w) with
  | Some (SRet v k) => Some (v, next w k)
  | _ => None
  end.

#[export] Instance kernel_calls : Calls (kworld D) := {
  w_mem w := k_mem (kw_k w);
  w_put m w := KW (with_mem (kw_k w) m) (kw_envs w) (kw_frame w) (kw_esp w) (kw_ebp w);
  int80 := kernel_int80
}.

(** *** The calls that come back *)

Lemma u32_u32 x : u32 (u32 x) = u32 x.
Proof. unfold u32. by rewrite Z.mod_mod. Qed.

Lemma s32_u32 x : - 2 ^ 31 <= x < 2 ^ 31 -> s32 (u32 x) = x.
Proof. intros Hx. unfold s32, u32. Z.div_mod_to_equations. lia. Qed.

Lemma value_back w o :
  match value o with Some (SRet v k) => Some (v, next w k) | _ => None end = back w o.
Proof. by destruct o as [[r k]|]. Qed.

Lemma call_read w fd buf n :
  ece391_read fd buf n w = back w (syscall_read (kw_frame w) (env_of w) (s32 (u32 fd)) (u32 buf) (s32 (u32 n)) (enter w)).
Proof. rewrite <- value_back, <- (u32_u32 buf). reflexivity. Qed.

Lemma call_write w fd buf n :
  ece391_write fd buf n w = back w (syscall_write (s32 (u32 fd)) (u32 buf) (s32 (u32 n)) (enter w)).
Proof. rewrite <- value_back, <- (u32_u32 buf). reflexivity. Qed.

Lemma call_open w filename : ece391_open filename w = back w (syscall_open (kw_frame w) (u32 filename) (enter w)).
Proof. rewrite <- value_back, <- (u32_u32 filename). reflexivity. Qed.

Lemma call_close w fd : ece391_close fd w = back w (syscall_close (kw_frame w) (s32 (u32 fd)) (enter w)).
Proof. rewrite <- value_back. reflexivity. Qed.

Lemma call_getargs w buf n :
  ece391_getargs buf n w = back w (syscall_getargs (u32 buf) (s32 (u32 n)) (enter w)).
Proof. rewrite <- value_back, <- (u32_u32 buf). reflexivity. Qed.

Lemma call_vidmap w a : ece391_vidmap a w = back w (Some (syscall_vidmap (u32 a) (enter w))).
Proof. rewrite <- value_back, <- (u32_u32 a). reflexivity. Qed.
End kernel_world.

(** ** Lemmas: the tests of ece391syserr.c *)

Section tests.
Context {D : Type} `{Machine D} `{LayoutLaws} `{Literals}.
Implicit Types (w : kworld D) (k : kernel D).

(** [l] is the string literal [s], where the kernel's locals are not. *)
Definition is_literal (m : mem) (fr : frame) (s : string) : Prop :=
  cstr m (lit s) (chars s) /\ 0 < lit s < 2 ^ 32 /\
  (lit s + Z.of_nat (length (chars s)) < f_dentry fr \/ f_dentry fr + sizeof_dentry <= lit s).

(** What the tests need of their process and of the image: the standard output open, of the
    descriptors 2 to 7 those of [dirs] open on a directory and the others closed, a directory ".", and no file with one of the wrong names. *)
Record tests_ready (fr : frame) (p : Z) (dirs : Z -> bool) k : Prop := {
  tr_stdout : fd_open (pcb_at k (get_pcb p)) 1 /\ file_operation_jmp_tbl (elem (pcb_at k (get_pcb p)) 1) = terminal_driver;
  tr_dirs : forall j, 2 <= j < FD_MAX -> if dirs j
    then fd_open (pcb_at k (get_pcb p)) j /\ file_operation_jmp_tbl (elem (pcb_at k (get_pcb p)) j) = dir_driver
    else ~ fd_open (pcb_at k (get_pcb p)) j;
  tr_image : image_ok (k_fs k) (k_mem k);
  tr_dentry : off_image (k_fs k) (k_mem k) (f_dentry fr) sizeof_dentry;
  tr_dir : exists i, names (k_fs k) (k_mem k) (chars ".") i /\
    filetype (k_mem k) (dentry_directory (k_fs k) i) = DIRECTORY_TYPE;
  tr_absent : forall s, s ∈ ["helloo"; "shel"; ""]%string ->
    forall i, 0 <= i < num_directories (k_fs k) -> file_name (k_fs k) (k_mem k) i <> chars s;
  tr_literals : forall s, s ∈ ["."; "helloo"; "shel"; ""]%string -> is_literal (k_mem k) fr s
}.

(** The process [p] is in user mode. *)
Definition in_process w (p : Z) : Prop := 0 <= p < MAX_PID /\ on_stack p (kw_esp w).

Lemma enter_curr w p : in_process w p -> curr (enter w) = get_pcb p.
Proof. intros [Hp Hs]. exact (pcb_process_stack p (kw_esp w) Hp Hs). Qed.

Lemma next_process w k p : in_process w p -> in_process (next w k) p.
Proof. done. Qed.

(** A call by [p] that opens and closes nothing. *)
Record quiet (p : Z) k k' : Prop := {
  qt_fs : k_fs k' = k_fs k;
  qt_mem : k_mem k' = k_mem k;
  qt_elems : forall j, elem (pcb_at k' (get_pcb p)) j = elem (pcb_at k (get_pcb p)) j
}.

Lemma quiet_refl p k : quiet p k k.
Proof. by split. Qed.

Lemma quiet_trans p k1 k2 k3 : quiet p k1 k2 -> quiet p k2 k3 -> quiet p k1 k3.
Proof. intros [A1 A2 A3] [B1 B2 B3]. split; [congruence|congruence|]. intros j. by rewrite B3. Qed.

Lemma quiet_ready fr p d k k' : quiet p k k' -> tests_ready fr p d k -> tests_ready fr p d k'.
Proof.
  intros [A1 A2 A3] [B1 B2 B3 B4 B5 B6 B7]. split; rewrite ?A1, ?A2; try done.
  - unfold fd_open in *. by rewrite A3.
  - intros j Hj. specialize (B2 j Hj). unfold fd_open in *. by rewrite A3.
Qed.

(** Writing to the standard output returns. *)
Lemma write_stdout p buf n k :
  curr k = get_pcb p -> fd_open (pcb_at k (get_pcb p)) 1 ->
  file_operation_jmp_tbl (elem (pcb_at k (get_pcb p)) 1) = terminal_driver ->
  exists r k', syscall_write 1 buf n k = Some (r, k') /\ quiet p k k'.
Proof.
  intros Hc Ho Ht. unfold syscall_write. rewrite Hc. unfold fd_open in Ho.
  change ((FD_MAX <=? 1) || (1 <? FD_MIN)) with false. change (1 =? 0) with false. cbn [orb]. rewrite orb_false_r.
  destruct (n =? 0); [by eexists _, _|]. destruct (buf =? 0); [by eexists _, _|].
  rewrite (proj2 (Z.eqb_neq _ _) Ho).
  set (k1 := if 1 =? _ then _ else k).
  assert (Hq : quiet p k k1).
  { unfold k1. destruct (1 =? _); [|apply quiet_refl]. split; [done|done|]. intros j. by rewrite pcb_at_set_eq. }
  rewrite (qt_elems _ _ _ Hq), Ht. clearbody k1.
  destruct (terminal_write _ _ _ _ _ _) as [r t]. eexists _, _. split; [reflexivity|].
  eapply quiet_trans; [exact Hq|]. by split.
Qed.

(** A call that is refused. *)
Lemma refused w o : o = Some (-1, enter w) -> back w o = Some (-1, next w (enter w)).
Proof. by intros ->. Qed.

Lemma enter_quiet w p : quiet p (kw_k w) (enter w).
Proof. by split. Qed.

(** From [w], [c] gives [a] and leaves a world in which the tests can go on. *)
Definition gives_dirs {A} (p : Z) (d : Z -> bool) (c : prog (kworld D) A) (a : A) w : Prop :=
  exists w', c w = Some (a, w') /\ in_process w' p /\ kw_frame w' = kw_frame w /\ tests_ready (kw_frame w') p d (kw_k w').

Definition gives {A} p c a w := @gives_dirs A p (fun _ => false) c a w.

Definition ready_dirs w (p : Z) (d : Z -> bool) : Prop := in_process w p /\ tests_ready (kw_frame w) p d (kw_k w).

Definition ready w (p : Z) : Prop := ready_dirs w p (fun _ => false).

Lemma gives_ret {A} p (a : A) w : ready w p -> gives p (ret a) a w.
Proof. intros [? ?]. by exists w. Qed.

Lemma gives_bind {A B} p d1 d2 (c : prog (kworld D) A) (f : A -> prog (kworld D) B) a b w :
  gives_dirs p d1 c a w -> (forall w', ready_dirs w' p d1 -> gives_dirs p d2 (f a) b w') -> gives_dirs p d2 (bind c f) b w.
Proof.
  intros (w1 & E1 & P1 & F1 & R1) Hf. destruct (Hf w1 (conj P1 R1)) as (w2 & E2 & P2 & F2 & R2).
  exists w2. unfold bind. rewrite E1, E2. split; [done|]. split; [done|]. split; [congruence|done].
Qed.

Lemma fdputs_gives p d s w : ready_dirs w p d -> gives_dirs p d (puts1 s) tt w.
Proof.
  intros [Hp Hr]. unfold gives_dirs. change (puts1 s w) with (match ece391_write 1 (lit s) (ece391_strlen (w_mem w) (lit s)) w with
    Some (_, w') => Some (tt, w') | None => None end). destruct (tr_stdout _ _ _ _ Hr) as [Ho Ht].
  rewrite call_write. change (s32 (u32 1)) with 1. set (n := s32 _).
  destruct (write_stdout p (u32 (lit s)) n (enter w) (enter_curr _ _ Hp) Ho Ht) as (r & k' & E & Hq).
  rewrite E. exists (next w k'). split; [done|]. split; [by apply next_process|].
  split; [done|]. apply (quiet_ready _ _ _ (enter w)); [done|]. by apply (quiet_ready _ _ _ (kw_k w)).
Qed.

(** The step of a test whose call fails as it should. *)
Lemma expect_gives p (c : prog (kworld D) Z) msg fail w :
  gives p c (-1) w -> gives p (expect_error c msg fail) fail w.
Proof. intros Hc. eapply gives_bind; [exact Hc|]. intros w' Hw. by apply gives_ret. Qed.

Lemma report_gives p name w : ready w p -> gives p (report name 0) 0 w.
Proof. intros Hw. eapply gives_bind; [by apply fdputs_gives|]. intros w' Hw'. by apply gives_ret. Qed.

(** Refused calls leave everything as it is. *)
Lemma refused_gives p (c : prog (kworld D) Z) w o :
  ready w p -> c w = back w o -> o = Some (-1, enter w) -> gives p c (-1) w.
Proof.
  intros [Hp Hr] E Ho. exists (next w (enter w)). rewrite E, Ho. split; [done|]. split; [by apply next_process|].
  split; [done|]. by apply (quiet_ready _ _ _ (kw_k w)).
Qed.

(** A descriptor that is refused. *)
Definition refused_fd (fd : Z) : Prop := - 2 ^ 31 <= fd < 2 ^ 31 /\ (fd < 0 \/ 2 <= fd).

Lemma ready_bad_fd p w fd : ready w p -> refused_fd fd -> bad_fd (pcb_at (enter w) (curr (enter w))) fd.
Proof.
  intros [Hp Hr] [_ Hf]. rewrite (enter_curr _ _ Hp). unfold bad_fd.
  destruct (Z.lt_ge_cases fd 0); [by left|]. destruct (Z.le_gt_cases FD_MAX fd); [by right; left|].
  right. right. apply (tr_dirs _ _ _ _ Hr fd ltac:(lia)).
Qed.

Lemma read_gives p fd buf w : ready w p -> refused_fd fd -> gives p (ece391_read fd buf 31) (-1) w.
Proof.
  intros Hw Hf. eapply refused_gives; [done|apply call_read|]. rewrite s32_u32 by apply Hf.
  change (s32 (u32 31)) with 31. apply read_bad; [done|]. by apply (ready_bad_fd p).
Qed.

Lemma write_gives p fd buf w : ready w p -> refused_fd fd -> gives p (ece391_write fd buf 31) (-1) w.
Proof.
  intros Hw Hf. eapply refused_gives; [done|apply call_write|]. rewrite s32_u32 by apply Hf.
  apply write_bad. by apply (ready_bad_fd p).
Qed.

Lemma close_gives p fd w : ready w p -> - 2 ^ 31 <= fd < 2 ^ 31 -> gives p (ece391_close fd) (-1) w.
Proof.
  intros Hw Hf. eapply refused_gives; [done|apply call_close|]. rewrite s32_u32 by done.
  apply close_bad. destruct (Z.lt_ge_cases fd 2); [by left|]. right. apply (ready_bad_fd p); [done|]. split; [done|lia].
Qed.

Lemma literal_u32 m fr s : is_literal m fr s -> u32 (lit s) = lit s.
Proof. intros (_ & Hl & _). apply u32_small. lia. Qed.

(** Opening a name that is not there. *)
Lemma open_absent_gives p s w : ready w p -> s ∈ ["helloo"; "shel"; ""]%string -> gives p (ece391_open (lit s)) (-1) w.
Proof.
  intros [Hp Hr] Hs. assert (Hl : is_literal (k_mem (kw_k w)) (kw_frame w) s).
  { apply (tr_literals _ _ _ _ Hr). by apply elem_of_cons; right. }
  unfold gives, gives_dirs. rewrite call_open, (literal_u32 _ _ _ Hl). unfold syscall_open.
  rewrite (proj2 (Z.eqb_neq (lit s) 0)), (enter_curr _ _ Hp) by (destruct Hl as (_ & ? & _); lia).
  assert (E : file_open (k_fs (enter w)) (k_mem (enter w)) (pcb_at (enter w) (get_pcb p)) (lit s) (f_dentry (kw_frame w))
    = (-1, pcb_at (enter w) (get_pcb p), k_mem (enter w))).
  { unfold file_open. destruct (read_dentry_by_name_spec (k_fs (kw_k w)) (k_mem (kw_k w)) (lit s) (chars s) (f_dentry (kw_frame w))
      (tr_image _ _ _ _ Hr) (proj1 Hl) (tr_dentry _ _ _ _ Hr)) as [(i & m' & _ & Hi & Hn & _)|[E _]].
    - destruct (tr_absent _ _ _ _ Hr s Hs i Hi Hn).
    - change (k_fs (enter w)) with (k_fs (kw_k w)). change (k_mem (enter w)) with (k_mem (kw_k w)). by rewrite E. }
  rewrite E. cbn [Z.eqb Pos.eqb]. eexists. split; [reflexivity|]. split; [by apply next_process|]. split; [done|].
  apply (quiet_ready _ _ _ (kw_k w)); [|done]. split; [done|by rewrite <- (k_mem_with_mem (kw_k w) (k_mem (kw_k w)))|].
  intros j. cbn [kw_k next]. by rewrite pcb_at_set_eq.
Qed.

(** Memory outside the directory entry that the kernel reads into. *)
Lemma outside_ready fr p (d d' : Z -> bool) k k' :
  tests_ready fr p d k -> k_fs k' = k_fs k -> unchanged_outside (k_mem k) (k_mem k') (f_dentry fr) sizeof_dentry ->
  (elem (pcb_at k' (get_pcb p)) 1 = elem (pcb_at k (get_pcb p)) 1) ->
  (forall j, 2 <= j < FD_MAX -> if d' j
    then fd_open (pcb_at k' (get_pcb p)) j /\ file_operation_jmp_tbl (elem (pcb_at k' (get_pcb p)) j) = dir_driver
    else ~ fd_open (pcb_at k' (get_pcb p)) j) ->
  tests_ready fr p d' k'.
Proof.
  intros [B1 B2 B3 B4 (i & B5 & B5') B6 B7] Efs Hu E1 Hd.
  pose proof (outside_same_image _ _ _ _ _ B4 Hu) as Hs.
  split; rewrite ?Efs; [unfold fd_open in *; by rewrite E1|exact Hd|by apply (image_ok_stable _ (k_mem k))|by apply (off_image_stable _ (k_mem k))| | |].
  - exists i. destruct (dentry_in_image _ _ i B3 (proj1 B5)) as [Hd1 Hd2].
    split; [apply (names_stable _ (k_mem k)); [done|done|apply Nat.leb_le; by vm_compute|done]|].
    rewrite <- B5'. unfold filetype. apply ld32_ext. intros x Hx. apply Hs. unfold sizeof_dentry in *. lia.
  - intros s Hin j Hj E. apply (B6 s Hin j Hj). apply (name_stable _ (k_mem k) (k_mem k')); [done|done| |done|done].
    revert Hin. rewrite !elem_of_cons, elem_of_nil. intros [->|[->|[->|[]]]]; apply Nat.leb_le; by vm_compute.
  - intros s Hin. destruct (B7 s Hin) as (Hc & Hl & Ho). split; [|done]. by apply (cstr_outside (k_mem k) _ _ _ _ _ Hu); [lia|].
Qed.

(** Opening the directory with [n] descriptors open: it succeeds as long as one is free. *)
Lemma open_dir_gives p n w :
  0 <= n <= 6 -> ready_dirs w p (fun j => j <? 2 + n) ->
  exists r, gives_dirs p (fun j => j <? 2 + n + 1) (ece391_open (lit ".")) r w /\ (r = -1 <-> n = 6).
Proof.
  intros Hn [Hp Hr]. assert (Hl : is_literal (k_mem (kw_k w)) (kw_frame w) ".").
  { apply (tr_literals _ _ _ _ Hr). by apply elem_of_cons; left. }
  destruct (tr_dir _ _ _ _ Hr) as (i & Hi & Hty).
  unfold gives_dirs. rewrite call_open, (literal_u32 _ _ _ Hl). unfold syscall_open.
  rewrite (proj2 (Z.eqb_neq (lit ".") 0)), (enter_curr _ _ Hp) by (destruct Hl as (_ & ? & _); lia).
  change (k_fs (enter w)) with (k_fs (kw_k w)). change (k_mem (enter w)) with (k_mem (kw_k w)).
  change (pcb_at (enter w) (get_pcb p)) with (pcb_at (kw_k w) (get_pcb p)).
  pose proof (file_open_found (k_fs (kw_k w)) (k_mem (kw_k w)) (pcb_at (kw_k w) (get_pcb p)) (lit ".") (chars ".")
    (f_dentry (kw_frame w)) i (tr_image _ _ _ _ Hr) (proj1 Hl) (tr_dentry _ _ _ _ Hr) Hi) as Ho.
  cbn zeta in Ho. rewrite Hty in Ho. change (driver_of DIRECTORY_TYPE) with dir_driver in Ho.
  destruct (file_open _ _ _ _ _) as [[fd pb] m]. pose proof (tr_dirs _ _ _ _ Hr) as Hd. cbn beta in Hd.
  set (k1 := set_pcb (with_mem (enter w) m) (get_pcb p) pb).
  assert (Hm1 : k_mem k1 = m) by exact (k_mem_with_mem (enter w) m).
  assert (Hp1 : pcb_at k1 (get_pcb p) = pb) by apply pcb_at_set_eq.
  destruct Ho as [Hu [(Hfd & Hno & Hlow & He & Hoth)|(-> & -> & Hall)]].
  - assert (Efd : fd = 2 + n).
    { pose proof (Hd fd Hfd) as Hx. revert Hx. destruct (Z.ltb_spec fd (2 + n)); [by intros [? _]|]. intros _.
      destruct (Z.eq_dec fd (2 + n)) as [|Hne]; [done|]. exfalso.
      pose proof (Hd (2 + n) ltac:(lia)) as Hy. rewrite Z.ltb_irrefl in Hy. apply Hy, Hlow. lia. }
    subst fd. rewrite (proj2 (Z.eqb_neq (2 + n) (-1))) by lia.
    set (k2 := if negb _ then set_pcb k1 _ _ else k1).
    assert (H2k : k_fs k2 = k_fs (kw_k w) /\ k_mem k2 = m /\ forall j, elem (pcb_at k2 (get_pcb p)) j = elem pb j).
    { unfold k2. destruct (negb _); [|split; [done|split; [done|intros j; by rewrite Hp1]]].
      split; [done|]. split; [exact Hm1|]. intros j. by rewrite pcb_at_set_eq, Hp1. }
    clearbody k2. destruct H2k as (F2 & M2 & P2). rewrite P2, He. cbn [file_operation_jmp_tbl].
    exists (2 + n). split; [|unfold FD_MAX in Hfd; lia]. eexists. split; [reflexivity|]. split; [by apply next_process|]. split; [done|].
    apply (outside_ready _ _ _ _ (kw_k w) _ Hr); [exact F2|by cbn [kw_k next]; rewrite M2| |].
    + cbn [kw_k next]. by rewrite P2, Hoth by lia.
    + intros j Hj. cbn [kw_k next]. unfold fd_open. rewrite !P2. destruct (Z.eq_dec j (2 + n)) as [->|Hne].
      * rewrite (proj2 (Z.ltb_lt _ _)), He by lia. done.
      * rewrite Hoth by done. specialize (Hd j Hj). revert Hd.
        destruct (Z.ltb_spec j (2 + n)), (Z.ltb_spec j (2 + n + 1)); try lia; intros Hd; exact Hd.
  - assert (E6 : n = 6).
    { destruct (Z.eq_dec n 6) as [|Hne]; [done|]. exfalso. pose proof (Hd (2 + n) ltac:(unfold FD_MAX; lia)) as Hy.
      rewrite Z.ltb_irrefl in Hy. apply Hy, Hall. unfold FD_MAX. lia. }
    exists (-1). split; [|done]. cbn [Z.eqb Pos.eqb]. eexists. split; [reflexivity|]. split; [by apply next_process|].
    split; [done|]. apply (outside_ready _ _ _ _ (kw_k w) _ Hr); [done|by cbn [kw_k next]; rewrite Hm1| |].
    + cbn [kw_k next]. by rewrite Hp1.
    + intros j Hj. cbn [kw_k next]. rewrite Hp1. specialize (Hd j Hj). unfold FD_MAX in Hj.
      rewrite (proj2 (Z.ltb_lt _ _)) in Hd by lia. by rewrite (proj2 (Z.ltb_lt _ _)) by lia.
Qed.

(** Closing the directories again. *)
Lemma close_dir_gives p i w :
  2 <= i < 8 -> ready_dirs w p (fun j => i <=? j) -> exists r, gives_dirs p (fun j => i + 1 <=? j) (ece391_close i) r w.
Proof.
  intros Hi [Hp Hr]. exists 0. unfold gives_dirs. rewrite call_close, s32_u32 by lia. unfold syscall_close.
  rewrite (fd_pass i 2) by (unfold FD_MAX; lia). rewrite (enter_curr _ _ Hp).
  pose proof (tr_dirs _ _ _ _ Hr) as Hd. cbn beta in Hd. pose proof (Hd i ltac:(unfold FD_MAX; lia)) as Hi'.
  rewrite Z.leb_refl in Hi'. destruct Hi' as [Ho Ht].
  change (pcb_at (enter w) (get_pcb p)) with (pcb_at (kw_k w) (get_pcb p)).
  set (b := pcb_at (kw_k w) (get_pcb p)) in *. unfold fd_open in Ho. rewrite (proj2 (Z.eqb_neq _ _) Ho).
  assert (Ec : pcb_close b i = (0, set_elem b i (set_flags (elem b i) 0))).
  { unfold pcb_close. rewrite (u8_small i), (proj2 (Z.leb_gt _ _)) by (unfold FD_MAX; lia). done. }
  rewrite Ec. cbn [snd]. rewrite pcb_at_set_eq, elem_set_elem_eq. cbn [file_operation_jmp_tbl set_flags]. rewrite Ht.
  eexists. split; [reflexivity|]. split; [by apply next_process|]. split; [done|].
  apply (outside_ready _ _ _ _ (kw_k w) _ Hr); [done|by intros x _| |]; cbn [kw_k next]; rewrite pcb_at_set_eq.
  - by rewrite elem_set_elem_ne by lia.
  - intros j Hj. unfold fd_open. destruct (Z.eq_dec j i) as [->|Hne].
    + rewrite (proj2 (Z.leb_gt _ _)), elem_set_elem_eq by lia. cbn. lia.
    + rewrite elem_set_elem_ne by done. specialize (Hd j Hj). revert Hd.
      destruct (Z.leb_spec i j), (Z.leb_spec (i + 1) j); try lia; intros Hd; exact Hd.
Qed.

Lemma dirs_ext w p d d' :
  (forall j, 2 <= j < FD_MAX -> d j = d' j) -> ready_dirs w p d -> ready_dirs w p d'.
Proof.
  intros E [Hp [B1 B2 B3 B4 B5 B6 B7]]. split; [done|]. split; try done. intros j Hj. rewrite <- E by done. by apply B2.
Qed.

Lemma gives_ext {A} p d d' (c : prog (kworld D) A) a w :
  (forall j, 2 <= j < FD_MAX -> d j = d' j) -> gives_dirs p d c a w -> gives_dirs p d' c a w.
Proof.
  intros E (w' & Hc & Hp & Hf & Hr). exists w'. split; [done|]. split; [done|]. split; [done|].
  by apply (dirs_ext w' p d d' E (conj Hp Hr)).
Qed.

Lemma open_lots_gives p n : forall m w,
  (n <= 7)%nat -> m = 7 - Z.of_nat n -> ready_dirs w p (fun j => j <? 2 + m) ->
  gives_dirs p (fun j => j <? 2 + 6) (open_lots n (if m =? 7 then 1 else 0)) 1 w.
Proof.
  induction n as [|n IH]; intros m w Hn Hm Hw; cbn [open_lots].
  - replace m with 7 in * by lia. exists w. split; [done|]. destruct Hw as [? Hr]. split; [done|]. split; [done|].
    refine (proj2 (dirs_ext w p _ _ _ (conj _ Hr))); [|done]. intros j Hj. unfold FD_MAX in Hj.
    by rewrite !(proj2 (Z.ltb_lt _ _)) by lia.
  - rewrite (proj2 (Z.eqb_neq m 7)) by lia. destruct (open_dir_gives p m w ltac:(lia) Hw) as (r & Hr & Hf).
    eapply gives_bind; [exact Hr|]. intros w' Hw'.
    replace (if r =? -1 then 0 + 1 else 0) with (if m + 1 =? 7 then 1 else 0).
    + apply IH; [lia|lia|]. eapply dirs_ext; [|exact Hw']. intros j Hj. cbn beta. f_equal. lia.
    + destruct (Z.eqb_spec r (-1)), (Z.eqb_spec (m + 1) 7); try done; exfalso; [apply n0|apply n0]; lia.
Qed.

Lemma close_from_gives p n : forall i w,
  2 <= i -> i + Z.of_nat n = 8 -> ready_dirs w p (fun j => i <=? j) -> gives p (close_from n i) tt w.
Proof.
  induction n as [|n IH]; intros i w Hi Hn Hw; cbn [close_from].
  - apply gives_ret. eapply dirs_ext; [|exact Hw]. intros j Hj. unfold FD_MAX in Hj. apply Z.leb_gt. lia.
  - destruct (close_dir_gives p i w ltac:(lia) Hw) as (r & Hr). eapply gives_bind; [exact Hr|].
    intros w' Hw'. apply IH; [lia|lia|exact Hw'].
Qed.

End tests.

Section eight.
Context {D : Type} `{Machine D} `{LayoutLaws} `{Literals}.
Implicit Types (w : kworld D) (k : kernel D).

Lemma gives_seq {A B} p (c : prog (kworld D) A) (f : A -> prog (kworld D) B) a b w :
  gives p c a w -> (forall w', ready w' p -> gives p (f a) b w') -> gives p (bind c f) b w.
Proof. apply gives_bind. Qed.

Lemma puts_gives p s w : ready w p -> gives p (puts1 s) tt w.
Proof. apply fdputs_gives. Qed.

(** A chain of calls that are refused. *)
Lemma expects_gives p n (call : Z -> prog (kworld D) Z) msg : forall i w,
  (forall j w', i <= j < i + Z.of_nat n -> ready w' p -> gives p (call j) (-1) w') ->
  ready w p -> gives p (expect_errors n call i msg 0) 0 w.
Proof.
  induction n as [|n IH]; intros i w Hc Hw; cbn [expect_errors]; [by apply gives_ret|].
  eapply gives_seq; [apply expect_gives, Hc; [lia|done]|]. intros w' Hw'. apply IH; [|done].
  intros j w2 Hj. apply Hc. lia.
Qed.

Lemma call_sys_gives p g num w :
  ready w p -> - 2 ^ 31 <= num < 2 ^ 31 -> num < 1 \/ 11 < num -> gives p (call_sys g num) (-1) w.
Proof.
  intros [Hp Hr] Hn Ho. exists (next w (enter w)). split.
  - unfold call_sys. change (int80 ?r w) with (kernel_int80 r w). unfold kernel_int80, syscall_linkage.
    cbn [eax]. rewrite s32_u32 by done.
    replace ((num <? 1) || (11 <? num)) with true; [done|]. symmetry. apply orb_true_iff. rewrite !Z.ltb_lt. lia.
  - split; [by apply next_process|]. split; [done|]. by apply (quiet_ready _ _ _ (kw_k w)).
Qed.

Lemma vidmap_gives p a w : ready w p -> 0 <= a < KERNEL_MEM_END -> gives p (ece391_vidmap a) (-1) w.
Proof.
  intros Hw Ha. eapply refused_gives; [done|apply call_vidmap|]. unfold syscall_vidmap, KERNEL_MEM_END in *.
  rewrite u32_u32, (u32_small a) by lia. destruct (a =? 0); [done|]. by rewrite (proj2 (Z.ltb_lt _ _)) by lia.
Qed.

Lemma stdin_gives p buf w : ready w p -> gives p (ece391_write 0 buf 31) (-1) w.
Proof.
  intros Hw. eapply refused_gives; [done|apply call_write|]. unfold syscall_write.
  change (s32 (u32 0)) with 0. by rewrite !orb_true_r.
Qed.

Lemma stdout_gives p buf w : ready w p -> gives p (ece391_read 1 buf 31) (-1) w.
Proof.
  intros Hw. eapply refused_gives; [done|apply call_read|]. unfold syscall_read.
  change (s32 (u32 31)) with 31. change (s32 (u32 1)) with 1. done.
Qed.

Create HintDb tests.

#[local] Hint Resolve expect_gives report_gives read_gives write_gives close_gives vidmap_gives stdin_gives stdout_gives
  open_absent_gives call_sys_gives puts_gives gives_ret : tests.

(** The next call of a test. *)
Ltac next_call := eapply gives_seq; [solve [eauto with tests]|intros ?w ?Hw].

Lemma err_neg_fd_gives p buf w : ready w p -> gives p (err_neg_fd buf) 0 w.
Proof.
  intros Hw. assert (Hf : refused_fd NEG_FD) by (unfold refused_fd, NEG_FD; lia). destruct Hf as [Hr Ho].
  assert (Hf : refused_fd NEG_FD) by done. unfold err_neg_fd. do 3 next_call. solve [eauto with tests].
Qed.

Lemma err_big_fd_gives p buf w : ready w p -> gives p (err_big_fd buf) 0 w.
Proof.
  intros Hw. assert (Hf : refused_fd BIG_FD) by (unfold refused_fd, BIG_FD; lia). destruct Hf as [Hr Ho].
  assert (Hf : refused_fd BIG_FD) by done. unfold err_big_fd. do 3 next_call. solve [eauto with tests].
Qed.

Lemma err_open_lots_gives p w : ready w p -> gives p err_open_lots 0 w.
Proof.
  intros Hw. unfold err_open_lots. eapply gives_bind.
  - apply (open_lots_gives p 7 0); [lia|lia|]. eapply dirs_ext; [|exact Hw]. intros j Hj. symmetry. apply Z.ltb_ge. lia.
  - intros w1 Hw1. eapply gives_bind.
    + apply (close_from_gives p 6 2); [lia|lia|]. eapply dirs_ext; [|exact Hw1]. intros j Hj. unfold FD_MAX in Hj. cbn beta.
      rewrite (proj2 (Z.ltb_lt _ _)), (proj2 (Z.leb_le _ _)) by lia. done.
    + intros w2 Hw2. change (1 =? 1) with true. cbn [negb]. next_call. by apply gives_ret.
Qed.

Lemma err_open_gives p w : ready w p -> gives p err_open 0 w.
Proof.
  intros Hw. assert (E1 : "helloo"%string ∈ ["helloo"; "shel"; ""]%string) by repeat constructor.
  assert (E2 : "shel"%string ∈ ["helloo"; "shel"; ""]%string) by repeat constructor.
  assert (E3 : ""%string ∈ ["helloo"; "shel"; ""]%string) by repeat constructor.
  unfold err_open. do 3 next_call. solve [eauto with tests].
Qed.

Lemma err_unopened_gives p buf w : ready w p -> gives p (err_unopened buf) 0 w.
Proof.
  intros Hw. unfold err_unopened. eapply gives_seq.
  { apply expects_gives; [|done]. intros j w' Hj Hw'. apply close_gives; [done|lia]. }
  intros w1 Hw1. eapply gives_seq.
  { apply expects_gives; [|done]. intros j w' Hj Hw'. apply read_gives; [done|]. split; lia. }
  intros w2 Hw2. eapply gives_seq.
  { apply expects_gives; [|done]. intros j w' Hj Hw'. apply write_gives; [done|]. split; lia. }
  solve [eauto with tests].
Qed.

Lemma err_vidmap_gives p w : ready w p -> gives p err_vidmap 0 w.
Proof.
  intros Hw. assert (E1 : 0 <= 0x0 < KERNEL_MEM_END) by (unfold KERNEL_MEM_END; lia).
  assert (E2 : 0 <= 0x400000 < KERNEL_MEM_END) by (unfold KERNEL_MEM_END; lia).
  unfold err_vidmap. do 2 next_call. solve [eauto with tests].
Qed.

Lemma err_stdin_out_gives p buf w : ready w p -> gives p (err_stdin_out buf) 0 w.
Proof. intros Hw. unfold err_stdin_out. do 2 next_call. eauto with tests. Qed.

Lemma err_syscall_num_gives p g w : ready w p -> gives p (err_syscall_num g) 0 w.
Proof.
  intros Hw. unfold err_syscall_num.
  do 3 (eapply gives_seq; [apply expect_gives, call_sys_gives; [done|unfold BIG_NUM, NEG_NUM; lia..]|intros ?w ?Hw]).
  solve [eauto with tests].
Qed.

#[local] Hint Resolve err_neg_fd_gives err_big_fd_gives err_open_lots_gives err_open_gives err_unopened_gives
  err_vidmap_gives err_stdin_out_gives err_syscall_num_gives : tests.

Lemma err_all_gives p g buf w : ready w p -> gives p (err_all g buf) 0 w.
Proof.
  intros Hw. unfold err_all. do 8 next_call. change (negb (0 + 0 + 0 + 0 + 0 + 0 + 0 + 0 =? 0)) with false.
  next_call. by apply gives_ret.
Qed.
End eight.

(** ** Properties *)

(** C20: The kernel passes the repository's tests of its error behaviour.  In a process with the
    standard output open and no other descriptor, on an image with a directory "." and without
    the names the tests misspell, [err_all] (case 0 of ece391syserr) returns 0: calls on negative,
    too large and unopened descriptors, reading the output, writing the input, wrong names, bad
    vidmap addresses and bad call numbers all return -1; the directory can be opened six times
    and not a seventh; and afterwards the process is as it was. *)
Theorem syserr_tests_pass {D} `{Machine D} `{LayoutLaws} `{Literals} (w : kworld D) p g buf :
  in_process w p -> tests_ready (kw_frame w) p (fun _ => false) (kw_k w) ->
  exists w', err_all g buf w = Some (0, w') /\
    in_process w' p /\ tests_ready (kw_frame w') p (fun _ => false) (kw_k w').
Proof.
  intros Hp Hr. destruct (err_all_gives p g buf w (conj Hp Hr)) as (w' & E & Hp' & _ & Hr').
  by exists w'.
Qed.

(** ** Witnesses *)

(** Process 1 of the small image, with the names of the tests in its program window. *)
Definition tests_window : arr :=
  um (st_list (st_list (st_list mem_empty 0x8048200 (chars ".")) 0x8048210 (chars "helloo")) 0x8048220 (chars "shel")).

Definition sample_tests : kernel sim :=
  set_pcb (Kernel (k_km sample_exec) (<[1 := tests_window]> ∅) (k_paging sample_exec) (k_pid_usage sample_exec)
    (k_sched sample_exec) (k_pcbs sample_exec) (k_terms sample_exec) (k_fs sample_exec) (k_rtc_flag sample_exec)
    (k_tss sample_exec) (k_cpu sample_exec)) (get_pcb 1) (pcb_init (Pcb ∅ 0 0 0 0 1 ∅ 0 0 0 0 0)).2.

#[local] Instance sample_literals : Literals := {|
  lit s := if String.eqb s "." then 0x8048200 else if String.eqb s "helloo" then 0x8048210
    else if String.eqb s "shel" then 0x8048220 else 0x8048230
|}.

Lemma sample_tests_mem : k_mem sample_tests = Mem (km sample_image) tests_window.
Proof.
  unfold k_mem. assert (E : cur_space sample_tests = 1) by (by vm_compute). rewrite E.
  change (k_frames sample_tests) with (<[1 := tests_window]> (∅ : gmap Z arr)).
  change (k_km sample_tests) with (km sample_image). by rewrite lookup_insert_eq.
Qed.

Lemma sample_tests_image : same_image sample_fs sample_image (k_mem sample_tests).
Proof.
  assert (E : image_end sample_fs sample_image = 0x414000) by (by vm_compute).
  intros x Hx. rewrite E in Hx. cbn [boot_block sample_fs] in Hx. rewrite sample_tests_mem. unfold ld.
  rewrite below_window by (unfold USER_WINDOW_START; lia). done.
Qed.

Lemma sample_tests_ready : tests_ready sample_frame 1 (fun _ => false) sample_tests.
Proof.
  assert (Eb : pcb_at sample_tests (get_pcb 1) = (pcb_init (Pcb ∅ 0 0 0 0 1 ∅ 0 0 0 0 0)).2) by apply pcb_at_set_eq.
  split; change (k_fs sample_tests) with sample_fs; rewrite ?Eb.
  - by vm_compute.
  - intros j Hj. unfold fd_open. intros Ho. apply Ho, Z.eqb_eq.
    assert (Hc : (j <? 2) || (flags (elem (pcb_init (Pcb ∅ 0 0 0 0 1 ∅ 0 0 0 0 0)).2 j) =? 0) = true)
      by (apply (check_below 8 (fun j => (j <? 2) || (flags (elem (pcb_init (Pcb ∅ 0 0 0 0 1 ∅ 0 0 0 0 0)).2 j) =? 0)));
          [by vm_compute|unfold FD_MAX in *; lia]).
    by rewrite (proj2 (Z.ltb_ge j 2)) in Hc by lia.
  - apply (image_ok_stable sample_fs sample_image); [apply sample_image_ok|apply sample_tests_image].
  - apply (off_image_stable sample_fs sample_image); [apply sample_tests_image|apply sample_off; by vm_compute].
  - exists 0. rewrite sample_tests_mem. split; [|by vm_compute].
    split; [by vm_compute|]. split; [by vm_compute|]. intros j Hj. lia.
  - intros s Hs i Hi. cbn [num_directories sample_fs] in Hi. rewrite sample_tests_mem.
    assert (i = 0 \/ i = 1 \/ i = 2 \/ i = 3) as Hc by lia. rewrite !elem_of_cons, elem_of_nil in Hs.
    destruct Hs as [->|[->|[->|[]]]], Hc as [->|[->|[->| ->]]]; by vm_compute.
  - intros s Hs. rewrite sample_tests_mem. rewrite !elem_of_cons, elem_of_nil in Hs.
    destruct Hs as [->|[->|[->|[->|[]]]]];
      (split; [by vm_compute|split; [by vm_compute|right; by vm_compute]]).
Qed.

Definition sample_world : kworld sim := KW sample_tests [] sample_frame (KERNEL_STACK 1 - 64) 0.

Lemma syserr_tests_pass_witness :
  exists w', err_all (Regs 0 0 0 0) 0x8200000 sample_world = Some (0, w') /\ ~ fd_open (pcb_at (kw_k w') (get_pcb 1)) 2.
Proof.
  assert (H2 : 2 <= 2 < FD_MAX) by (by vm_compute).
  destruct (syserr_tests_pass sample_world 1 (Regs 0 0 0 0) 0x8200000) as (w' & E & _ & Hr).
  - by vm_compute.
  - exact sample_tests_ready.
  - exists w'. split; [exact E|]. exact (tr_dirs _ _ _ _ Hr 2 H2).
Defined.
