(* ===== verification/Utilities.v ===== *)
(** * cat and ls on the kernel

    What a program of ece391cat.c or ece391ls.c leaves on the screen when it runs on the kernel: the
    chain of calls from the user library through the linkage, the system calls and the drivers
    to the file system image and the terminal. *)

From S2P Require Import Prelude Mem LibString Console Machine I8259 Rtc Tasks Pcb Fs Paging Termios Keyboard Kernel Scheduling Syscall Execute FileCalls Linkage System Shell User Programs Userland.

(** ** Lemmas: strings on the screen *)

Lemma vt_write_app l1 l2 v : vt_write (l1 ++ l2) v = vt_write l2 (vt_write l1 v).
Proof. unfold vt_write. apply fold_left_app. Qed.

Lemma write_safe_app l1 : forall l2 v,
  write_safe (l1 ++ l2) v <-> write_safe l1 v /\ write_safe l2 (vt_write l1 v).
Proof.
  induction l1 as [|c l1 IH]; intros l2 v; cbn [app write_safe vt_write fold_left]; [tauto|].
  rewrite IH. unfold vt_write. tauto.
Qed.

Lemma file_open_term f m p fn d : Pcb.term (file_open f m p fn d).1.2 = Pcb.term p.
Proof.
  unfold file_open, pcb_open. destruct (read_dentry_by_name _ _ _ _) as [r m']. destruct (negb (r =? 0)); [done|].
  destruct (find_ _ _ _) as [i|]; [|done]. destruct (i =? -1); [done|]. cbn [fst snd].
  by destruct (filetype m' d =? FILE_TYPE), (filetype m' d =? DIRECTORY_TYPE), (filetype m' d =? RTC_TYPE).
Qed.

(** [file_open] with any pointer: open descriptors stay as they are. *)
Lemma file_open_frame f m p fn d :
  image_ok f m -> off_image f m d sizeof_dentry ->
  let '(_, p', m') := file_open f m p fn d in
  unchanged_outside m m' d sizeof_dentry /\
  (forall j, j < 2 \/ fd_open p j -> elem p' j = elem p j) /\ Pcb.term p' = Pcb.term p.
Proof.
  intros Hok Hd. pose proof (strlen_cstr m fn) as Hs. set (l := bytes m fn _) in Hs.
  pose proof (file_open_term f m p fn d) as Ht.
  pose proof (file_open_cases f m p fn l d Hok Hs Hd) as Hc.
  pose proof (fun i => file_open_found f m p fn l d i Hok Hs Hd) as Hf.
  assert (Hm : (forall i, 0 <= i < num_directories f -> file_name f m i <> l) -> (file_open f m p fn d).2 = m).
  { intros Hno. unfold file_open. destruct (read_dentry_by_name_spec f m fn l d Hok Hs Hd)
      as [(i & ? & _ & ? & ? & _)|[-> _]]; [by destruct (Hno i)|done]. }
  destruct (file_open f m p fn d) as [[fd p'] m']. cbn [fst snd] in *.
  destruct Hc as [[Hno ->]|[[i Hi] Hc]].
  - rewrite (Hm Hno). by split; [intros x _|split].
  - destruct (Hf i Hi) as [Hu _]. split; [done|]. split; [|done]. intros j Hj.
    destruct Hc as [(Hfd & Hno & _ & Ho)|[-> _]]; [|done]. apply Ho. intros ->. destruct Hj; [lia|done].
Qed.

(** *** The drivers of the open descriptors *)

(** Every directory entry has one of the types. *)
Definition typed_image (f : fs) (m : mem) : Prop :=
  forall i, 0 <= i < num_directories f ->
    let ty := filetype m (dentry_directory f i) in ty = FILE_TYPE \/ ty = DIRECTORY_TYPE \/ ty = RTC_TYPE.

Lemma typed_image_stable f m m' : image_ok f m -> same_image f m m' -> typed_image f m -> typed_image f m'.
Proof.
  intros Hok Hs Ht i Hi. destruct (dentry_in_image f m i Hok Hi) as [Hd1 Hd2].
  replace (filetype m' _) with (filetype m (dentry_directory f i)); [by apply Ht|]. unfold filetype.
  apply ld32_ext. intros x Hx. symmetry. apply Hs. unfold sizeof_dentry in *. lia.
Qed.

Lemma open_drivers_same (b b' : pcb) :
  (forall j, flags (elem b' j) = flags (elem b j) /\ file_operation_jmp_tbl (elem b' j) = file_operation_jmp_tbl (elem b j)) ->
  open_drivers b -> open_drivers b'.
Proof. intros He Hd i Hi Ho. destruct (He i) as [Ef ->]. apply Hd; [done|]. unfold fd_open in *. by rewrite <- Ef. Qed.

Lemma file_open_drivers f m p fn d :
  image_ok f m -> typed_image f m -> off_image f m d sizeof_dentry -> open_drivers p -> open_drivers (file_open f m p fn d).1.2.
Proof.
  intros Hok Hty Hd Hdr. pose proof (strlen_cstr m fn) as Hs. set (l := bytes m fn _) in Hs.
  pose proof (file_open_cases f m p fn l d Hok Hs Hd) as Hc.
  pose proof (fun i => file_open_found f m p fn l d i Hok Hs Hd) as Hf.
  assert (Hm : (forall i, 0 <= i < num_directories f -> file_name f m i <> l) -> (file_open f m p fn d).1.2 = p).
  { intros Hno. unfold file_open. destruct (read_dentry_by_name_spec f m fn l d Hok Hs Hd)
      as [(i & ? & _ & ? & ? & _)|[-> _]]; [by destruct (Hno i)|done]. }
  destruct (file_open f m p fn d) as [[fd p'] m']. cbn [fst snd] in *.
  destruct Hc as [[Hno _]|[[i Hi] _]]; [by rewrite (Hm Hno)|]. destruct (Hf i Hi) as [_ [(Hfd & Hno & _ & He & Ho)|(_ & -> & _)]]; [|done].
  intros j Hj Hop. destruct (Z.eq_dec j fd) as [->|Hne].
  - rewrite He. cbn [file_operation_jmp_tbl]. destruct (Hty i (proj1 Hi)) as [-> |[-> | ->]]; unfold opened_driver; auto.
  - rewrite Ho by done. apply Hdr; [done|]. unfold fd_open in *. by rewrite <- Ho.
Qed.

Section printing.
Context {D : Type} `{Machine D} `{LayoutLaws}.
Implicit Types (w : kworld D) (k : kernel D).

(** The standard output of [p] is the terminal [ti], which shows [v]. *)
Record printer (p ti : Z) (v : vt) k : Prop := {
  pr_open : fd_open (pcb_at k (get_pcb p)) 1;
  pr_driver : file_operation_jmp_tbl (elem (pcb_at k (get_pcb p)) 1) = terminal_driver;
  pr_term : Pcb.term (pcb_at k (get_pcb p)) = ti;
  pr_range : 0 <= ti < NR_TERM;
  pr_bufs : bufs_ok (k_terms k);
  pr_vt : vt_ok v;
  pr_shows : shows (k_terms k) ti v
}.

(** A call that leaves the standard output and the terminals alone. *)
Lemma printer_stable p ti v k k' :
  printer p ti v k -> k_terms k' = k_terms k ->
  elem (pcb_at k' (get_pcb p)) 1 = elem (pcb_at k (get_pcb p)) 1 ->
  Pcb.term (pcb_at k' (get_pcb p)) = Pcb.term (pcb_at k (get_pcb p)) -> printer p ti v k'.
Proof.
  intros [A1 A2 A3 A4 A5 A6 A7] Et E1 En. split; rewrite ?Et, ?En; try done.
  - unfold fd_open in *. by rewrite E1.
  - by rewrite E1.
Qed.

(** A step of a program of process [p]. *)
Definition step_of w w' (p : Z) : Prop := in_process w' p /\ kw_frame w' = kw_frame w.

(** The input of terminal [ti] is as it was, and the same terminal is on the display. *)
Definition same_input (ti : Z) (s s' : terminals D) : Prop :=
  active_term s' = active_term s /\ exists x y, term s' ti = set_cursor (term s ti) x y.

(** The calls keep the drivers of the open descriptors what they should be. *)
Lemma set_pcb_drivers k a b b' :
  (open_drivers (pcb_at k a) -> open_drivers b') -> open_drivers (pcb_at k b) -> open_drivers (pcb_at (set_pcb k a b') b).
Proof.
  intros Hb Hd. destruct (Z.eq_dec a b) as [->|Hne]; [rewrite pcb_at_set_eq; auto|by rewrite pcb_at_set_ne by done].
Qed.

Lemma set_position_drivers b fd pos : open_drivers b -> open_drivers (set_elem b fd (set_file_position (elem b fd) pos)).
Proof.
  apply open_drivers_same. intros j. destruct (Z.eq_dec fd j) as [->|Hne]; [by rewrite elem_set_elem_eq|by rewrite elem_set_elem_ne by done].
Qed.

Lemma read_drivers fd buf n w r w' b :
  ece391_read fd buf n w = Some (r, w') -> open_drivers (pcb_at (kw_k w) b) -> open_drivers (pcb_at (kw_k w') b).
Proof.
  rewrite call_read. unfold back. destruct (syscall_read _ _ _ _ _ _) as [[r1 k1]|] eqn:E; [|done]. intros [= <- <-]. cbn [kw_k next].
  change (pcb_at (kw_k w)) with (pcb_at (enter w)). revert E. unfold syscall_read, file_read, dir_read.
  repeat case_match; intros; simplify_eq; first [done | apply set_pcb_drivers; [apply set_position_drivers|done] | by apply set_pcb_drivers].
Qed.

Lemma open_call_drivers p s w r w' :
  in_process w p -> image_ok (k_fs (kw_k w)) (k_mem (kw_k w)) -> typed_image (k_fs (kw_k w)) (k_mem (kw_k w)) ->
  off_image (k_fs (kw_k w)) (k_mem (kw_k w)) (f_dentry (kw_frame w)) sizeof_dentry ->
  ece391_open s w = Some (r, w') -> open_drivers (pcb_at (kw_k w) (get_pcb p)) -> open_drivers (pcb_at (kw_k w') (get_pcb p)).
Proof.
  intros Hp Hok Hty Hd. rewrite call_open. unfold back. destruct (syscall_open _ _ _) as [[r1 k1]|] eqn:E; [|done].
  intros [= <- <-] Hdr. cbn [kw_k next]. revert E. unfold syscall_open. destruct (_ =? 0); [by intros [= <- <-]|].
  rewrite (enter_curr _ _ Hp). change (pcb_at (enter w) (get_pcb p)) with (pcb_at (kw_k w) (get_pcb p)).
  change (k_fs (enter w)) with (k_fs (kw_k w)). change (k_mem (enter w)) with (k_mem (kw_k w)).
  pose proof (file_open_drivers _ _ _ (u32 s) _ Hok Hty Hd Hdr) as H1'.
  pose proof (file_open_frame _ _ (pcb_at (kw_k w) (get_pcb p)) (u32 s) _ Hok Hd) as Hfr.
  destruct (file_open (k_fs (kw_k w)) (k_mem (kw_k w)) _ _ _) as [[fd pb] m1]. destruct Hfr as [Hu _]. cbn [fst snd] in H1'.
  pose proof (outside_same_image _ _ _ _ _ Hd Hu) as Hs.
  set (k2 := set_pcb (with_mem (enter w) m1) (get_pcb p) pb).
  assert (Ek2 : pcb_at k2 (get_pcb p) = pb) by apply pcb_at_set_eq.
  destruct (fd =? -1); [intros [= <- <-]; by rewrite Ek2|]. set (k3 := if negb _ then _ else k2).
  assert (Hk3 : open_drivers (pcb_at k3 (get_pcb p)) /\ k_fs k3 = k_fs (kw_k w) /\ k_mem k3 = m1).
  { assert (Em : k_mem k2 = m1) by exact (k_mem_with_mem (enter w) m1). unfold k3. destruct (negb _); [|by rewrite Ek2].
    split; [|done]. rewrite pcb_at_set_eq, Ek2. by apply (open_drivers_same pb). }
  clearbody k3. destruct Hk3 as (Hd3 & Ef3 & Em3).
  destruct (file_operation_jmp_tbl _); try done;
    [destruct (rtc_open _); by intros [= <- <-]| |by intros [= <- <-]|destruct (terminal_open _ _); by intros [= <- <-]].
  rewrite Ef3, Em3. pose proof (file_open_drivers (k_fs (kw_k w)) m1 (pcb_at k3 (get_pcb p)) (f_stale (kw_frame w)) (f_dentry (kw_frame w))
    (image_ok_stable _ _ _ Hok Hs) (typed_image_stable _ _ _ Hok Hs Hty) (off_image_stable _ _ _ Hs _ _ Hd) Hd3) as H2'.
  destruct (file_open _ m1 _ _ _) as [[? p2] m2]. intros [= <- <-]. by rewrite pcb_at_set_eq.
Qed.

(** What a program of process [p] on terminal [ti] leaves alone while it only prints and reads files. *)
Record gentle (p ti : Z) w w' : Prop := {
  ge_step : step_of w w' p;
  ge_fs : k_fs (kw_k w') = k_fs (kw_k w);
  ge_image : same_image (k_fs (kw_k w)) (k_mem (kw_k w)) (k_mem (kw_k w'));
  ge_input : same_input ti (k_terms (kw_k w)) (k_terms (kw_k w'));
  ge_drivers : image_ok (k_fs (kw_k w)) (k_mem (kw_k w)) -> typed_image (k_fs (kw_k w)) (k_mem (kw_k w)) ->
    open_drivers (pcb_at (kw_k w) (get_pcb p)) -> open_drivers (pcb_at (kw_k w') (get_pcb p))
}.

Lemma same_input_refl ti (s s' : terminals D) : s' = s -> same_input ti s s'.
Proof. intros ->. split; [done|]. exists (cur_x (term s ti)), (cur_y (term s ti)). by destruct (term s ti). Qed.

Lemma gentle_trans p ti w1 w2 w3 : gentle p ti w1 w2 -> gentle p ti w2 w3 -> gentle p ti w1 w3.
Proof.
  intros [[A1 A1'] A2 A3 [A4 (x & y & A5)] A6] [[B1 B1'] B2 B3 [B4 (x' & y' & B5)] B6].
  split; [split; congruence|congruence| | |].
  - intros z Hz. rewrite A2 in B3. rewrite B3; [by apply A3|]. by rewrite (image_end_stable _ _ _ A3).
  - split; [congruence|]. exists x', y'. rewrite B5, A5. by destruct (term (k_terms (kw_k w1)) ti).
  - intros Hok Hty Hd. apply B6; rewrite ?A2; [by apply (image_ok_stable _ (k_mem (kw_k w1)))|by apply (typed_image_stable _ (k_mem (kw_k w1)))|auto].
Qed.

Lemma quiet_gentle p ti w w' :
  step_of w w' p -> quiet p (kw_k w) (kw_k w') -> same_input ti (k_terms (kw_k w)) (k_terms (kw_k w')) -> gentle p ti w w'.
Proof.
  intros Hs [A1 A2 A3] Hi. split; [done|done| |done|].
  - intros x _. by rewrite A2.
  - intros _ _. apply open_drivers_same. intros j. by rewrite A3.
Qed.

Lemma outside_gentle p ti w w' a n :
  step_of w w' p -> k_fs (kw_k w') = k_fs (kw_k w) -> k_terms (kw_k w') = k_terms (kw_k w) ->
  off_image (k_fs (kw_k w)) (k_mem (kw_k w)) a n -> unchanged_outside (k_mem (kw_k w)) (k_mem (kw_k w')) a n ->
  (image_ok (k_fs (kw_k w)) (k_mem (kw_k w)) -> typed_image (k_fs (kw_k w)) (k_mem (kw_k w)) ->
    open_drivers (pcb_at (kw_k w) (get_pcb p)) -> open_drivers (pcb_at (kw_k w') (get_pcb p))) -> gentle p ti w w'.
Proof.
  intros Hs Hf Ht Ho Hu Hd. split; [done|done|by eapply outside_same_image| |done]. by apply same_input_refl.
Qed.

(** Writing to the standard output shows the bytes. *)
Lemma write_prints p ti v buf n w :
  in_process w p -> printer p ti v (kw_k w) -> 0 < n < 2 ^ 31 -> 0 < buf < 2 ^ 32 ->
  write_safe (bytes (k_mem (kw_k w)) buf (Z.to_nat n)) v ->
  exists w', ece391_write 1 buf n w = Some (n, w') /\ step_of w w' p /\ quiet p (kw_k w) (kw_k w') /\
    printer p ti (vt_write (bytes (k_mem (kw_k w)) buf (Z.to_nat n)) v) (kw_k w') /\
    kw_envs w' = List.tl (kw_envs w) /\ same_input ti (k_terms (kw_k w)) (k_terms (kw_k w')).
Proof.
  intros Hp Hpr Hn Hb Hw. rewrite call_write, !s32_u32, u32_small by lia. unfold syscall_write.
  rewrite (enter_curr _ _ Hp), fd_pass by (unfold FD_MIN, FD_MAX; lia).
  rewrite (proj2 (Z.eqb_neq n 0)), (proj2 (Z.eqb_neq buf 0)) by lia. change (1 =? 0) with false. cbn [orb].
  destruct Hpr as [A1 A2 A3 A4 A5 A6 A7]. change (pcb_at (enter w) (get_pcb p)) with (pcb_at (kw_k w) (get_pcb p)).
  pose proof A1 as A1'. unfold fd_open in A1'. rewrite (proj2 (Z.eqb_neq _ _) A1'). set (k1 := if 1 =? _ then _ else enter w).
  assert (Hk1 : quiet p (kw_k w) k1 /\ k_terms k1 = k_terms (kw_k w) /\
    Pcb.term (pcb_at k1 (get_pcb p)) = Pcb.term (pcb_at (kw_k w) (get_pcb p))).
  { unfold k1. destruct (1 =? _); [|by split; [apply enter_quiet|]].
    split; [split; [done|done|]|split; [done|]]; [intros j|]; by rewrite pcb_at_set_eq. }
  clearbody k1. destruct Hk1 as (Hq & Et & En). rewrite (qt_elems _ _ _ Hq), A2, Et, En, A3, (qt_mem _ _ _ Hq).
  unfold terminal_write. pose proof (write_loop_spec (k_mem (kw_k w)) ti buf (Z.to_nat n) 0 (k_terms (kw_k w)) v A5 A4 A6 A7) as Hl.
  rewrite Z.add_0_r in Hl. specialize (Hl Hw). destruct (terminal_write_loop _ _ _ _ _ _) as [r t].
  destruct Hl as (-> & Hf & Hs & Hv & Hcur). rewrite Z.add_0_l, Z2Nat.id by lia.
  eexists. split; [reflexivity|]. split; [done|]. split; [eapply quiet_trans; [exact Hq|by split]|].
  pose proof (qt_elems _ _ _ Hq 1) as E1.
  split; [|split; [done|split; [exact (tf_active _ _ _ Hf)|exact Hcur]]].
  split; cbn [kw_k next]; try done; unfold fd_open.
  - change (pcb_at (with_terms k1 t) (get_pcb p)) with (pcb_at k1 (get_pcb p)). by rewrite E1.
  - change (pcb_at (with_terms k1 t) (get_pcb p)) with (pcb_at k1 (get_pcb p)). by rewrite E1.
  - change (pcb_at (with_terms k1 t) (get_pcb p)) with (pcb_at k1 (get_pcb p)). by rewrite En.
  - by eapply tframe_bufs.
Qed.

(** ** Lemmas: cat *)

(** Descriptor [fd] of [p] is at position [pos] of the file [ino], whose contents are [c]; [buf]
    is a buffer of [n] bytes. *)
Record reader (p fd ino pos buf n : Z) (c : list Z) k : Prop := {
  re_image : image_ok (k_fs k) (k_mem k);
  re_file : reading_file (k_fs k) (k_mem k) (pcb_at k (get_pcb p)) fd ino;
  re_driver : file_operation_jmp_tbl (elem (pcb_at k (get_pcb p)) fd) = file_driver;
  re_position : file_position (elem (pcb_at k (get_pcb p)) fd) = pos;
  re_content : file_content (k_fs k) (k_mem k) ino = c;
  re_buffer : off_image (k_fs k) (k_mem k) buf n
}.

Lemma quiet_reader p fd ino pos buf n c k k' :
  quiet p k k' -> reader p fd ino pos buf n c k -> reader p fd ino pos buf n c k'.
Proof.
  intros [A1 A2 A3] [B1 B2 B3 B4 B5 B6]. split; rewrite ?A1, ?A2; try done.
  - unfold reading_file, fd_open in *. by rewrite A3.
  - by rewrite A3.
  - by rewrite A3.
Qed.

(** A read through the descriptor. *)
Lemma read_reads p ti v fd ino pos buf n c w :
  in_process w p -> printer p ti v (kw_k w) -> reader p fd ino pos buf n c (kw_k w) ->
  2 <= fd < FD_MAX -> 0 < n < 2 ^ 31 ->
  let chunk := take (Z.to_nat n) (drop (Z.to_nat pos) c) in
  exists w', ece391_read fd buf n w = Some (Z.of_nat (length chunk), w') /\ step_of w w' p /\
    bytes (k_mem (kw_k w')) buf (length chunk) = chunk /\ unchanged_outside (k_mem (kw_k w)) (k_mem (kw_k w')) buf n /\
    k_fs (kw_k w') = k_fs (kw_k w) /\ k_terms (kw_k w') = k_terms (kw_k w) /\
    printer p ti v (kw_k w') /\ reader p fd ino (pos + Z.of_nat (length chunk)) buf n c (kw_k w').
Proof.
  intros Hp Hpr [B1 B2 B3 B4 B5 B6] Hfd Hn chunk. unfold FD_MAX in Hfd.
  assert (Hb : 0 < buf < 2 ^ 32) by (destruct B6; lia).
  rewrite call_read, !s32_u32, u32_small by lia.
  rewrite read_file_call; rewrite ?(enter_curr _ _ Hp); [|unfold FD_MAX; lia|lia|lia|lia|apply B2|exact B3].
  rewrite u32_small by lia.
  destruct (file_read_spec _ _ _ _ _ _ _ B1 B2 B6 ltac:(lia)) as (p' & m' & E & Hby & Ho & Hp' & Hle).
  change (k_fs (enter w)) with (k_fs (kw_k w)). change (k_mem (enter w)) with (k_mem (kw_k w)).
  change (pcb_at (enter w) (get_pcb p)) with (pcb_at (kw_k w) (get_pcb p)).
  rewrite E. rewrite B4, B5 in *. fold chunk in Hby, Hp', Hle |- *. set (k' := set_pcb _ _ _).
  assert (Em : k_mem k' = m') by apply (k_mem_with_mem (enter w) m').
  assert (Ep : pcb_at k' (get_pcb p) = p') by apply pcb_at_set_eq.
  assert (Ef : k_fs k' = k_fs (kw_k w) /\ k_terms k' = k_terms (kw_k w)) by done. clearbody k'. destruct Ef as [Ef Et].
  pose proof (outside_same_image _ _ _ _ _ B6 Ho) as Hs. pose proof B2 as (Hop & Hi & Hir & Hpos).
  exists (next w k'). cbn [kw_k next]. split; [done|]. split; [done|]. split; [by rewrite Em|]. split; [by rewrite Em|]. split; [done|]. split; [done|]. split.
  - eapply printer_stable; [exact Hpr|done|rewrite Ep, Hp'; by rewrite elem_set_elem_ne by lia|by rewrite Ep, Hp'].
  - split; rewrite ?Em, ?Ep, ?Ef, ?Hp', ?elem_set_elem_eq; cbn [file_position set_file_position file_operation_jmp_tbl].
    + by apply (image_ok_stable _ (k_mem (kw_k w))).
    + unfold reading_file, fd_open. rewrite elem_set_elem_eq. cbn [flags inode_ptr file_position set_file_position].
      rewrite (inode_num_stable _ _ _ Hs), (file_length_stable _ _ _ B1 Hs) by done.
      split; [exact Hop|]. split; [exact Hi|]. split; [done|]. lia.
    + exact B3.
    + done.
    + by rewrite (file_content_stable _ _ _ B1 Hs).
    + by apply (off_image_stable _ (k_mem (kw_k w))).
Qed.

Context `{Literals}.

(** The loop of cat shows what is left of the file. *)
Lemma cat_loop_prints p ti fd ino buf c fuel : forall pos v w,
  in_process w p -> printer p ti v (kw_k w) -> reader p fd ino pos buf 1024 c (kw_k w) -> 2 <= fd < FD_MAX ->
  0 <= pos -> Z.of_nat (length c) - pos <= 1024 * Z.of_nat fuel -> write_safe (drop (Z.to_nat pos) c) v ->
  exists w', cat_loop (S fuel) fd buf w = Some (0, w') /\ gentle p ti w w' /\
    printer p ti (vt_write (drop (Z.to_nat pos) c) v) (kw_k w').
Proof.
  induction fuel as [|fuel IH]; intros pos v w Hp Hpr Hrd Hfd Hpos Hl Hw; cbn [cat_loop].
  all: destruct (read_reads p ti v fd ino pos buf 1024 c w Hp Hpr Hrd Hfd ltac:(lia)) as (w1 & E1 & Hst1 & Hb1 & Hu1 & Hef1 & Het1 & Hpr1 & Hrd1).
  all: pose proof (outside_gentle p ti _ _ _ _ Hst1 Hef1 Het1 (re_buffer _ _ _ _ _ _ _ _ Hrd) Hu1
    (fun _ _ => read_drivers _ _ _ _ _ _ _ E1)) as Hg1; destruct Hst1 as [Hp1 Hf1].
  all: set (chunk := take _ _) in *; rewrite (bind_some _ _ _ _ _ E1).
  - assert (Hd : drop (Z.to_nat pos) c = []) by (apply drop_ge; lia).
    assert (Hc : chunk = []) by (unfold chunk; by rewrite Hd). rewrite Hc. exists w1. rewrite Hd.
    split; [done|]. split; [done|exact Hpr1].
  - destruct (Z.eqb_spec (Z.of_nat (length chunk)) 0) as [E0|Hne].
    + assert (Hd : drop (Z.to_nat pos) c = []).
      { apply nil_length_inv. assert (Hlen := f_equal Z.of_nat (length_take (drop (Z.to_nat pos) c) (Z.to_nat 1024))).
        fold chunk in Hlen. lia. }
      exists w1. rewrite Hd. split; [done|]. split; [done|exact Hpr1].
    + rewrite (proj2 (Z.eqb_neq _ (-1))) by lia.
      assert (Hlen : Z.of_nat (length chunk) <= 1024) by (unfold chunk; rewrite length_take; lia).
      assert (Hsplit : drop (Z.to_nat pos) c = chunk ++ drop (Z.to_nat (pos + Z.of_nat (length chunk))) c).
      { rewrite <- (take_drop (Z.to_nat 1024) (drop (Z.to_nat pos) c)) at 1. fold chunk. f_equal.
        rewrite drop_drop. unfold chunk. rewrite length_take, length_drop. 
        destruct (Nat.le_gt_cases (length c - Z.to_nat pos) (Z.to_nat 1024)).
        - rewrite !drop_ge; [done|lia|lia].
        - f_equal. lia. }
      rewrite Hsplit in Hw |- *. apply write_safe_app in Hw as [Hw1 Hw2]. rewrite vt_write_app.
      destruct (write_prints p ti v buf (Z.of_nat (length chunk)) w1 Hp1 Hpr1 ltac:(lia)) as (w2 & E2 & Hst2 & Hq & Hpr2 & _ & Hin2).
      { destruct (re_buffer _ _ _ _ _ _ _ _ Hrd1); lia. }
      { by rewrite Nat2Z.id, Hb1. }
      pose proof (quiet_gentle p ti _ _ Hst2 Hq Hin2) as Hg2. destruct Hst2 as [Hp2 Hf2].
      rewrite Nat2Z.id, Hb1 in Hpr2. rewrite (bind_some _ _ _ _ _ E2), (proj2 (Z.eqb_neq _ (-1))) by lia.
      destruct (IH (pos + Z.of_nat (length chunk)) (vt_write chunk v) w2 Hp2 Hpr2) as (w3 & E3 & Hg3 & Hpr3).
      * eapply quiet_reader; [exact Hq|exact Hrd1].
      * done.
      * lia.
      * destruct (Z.le_gt_cases 1024 (Z.of_nat (length chunk))); [lia|]. 
        assert (Hlen2 := length_take (drop (Z.to_nat pos) c) (Z.to_nat 1024)). fold chunk in Hlen2.
        rewrite length_drop in Hlen2. lia.
      * exact Hw2.
      * exists w3. split; [exact E3|]. split; [|exact Hpr3]. eapply gentle_trans; [exact Hg1|by eapply gentle_trans].
Qed.

(** What cat needs: the standard output, a free descriptor, the name of a regular file in the
    arguments, a buffer apart from the kernel's directory entry and the image. *)
Record cat_ready (fr : frame) (p ti buf : Z) (name : list Z) (i : Z) (v : vt) k : Prop := {
  ca_printer : printer p ti v k;
  ca_free : exists j, 2 <= j < FD_MAX /\ ~ fd_open (pcb_at k (get_pcb p)) j;
  ca_args : has_args (pcb_at k (get_pcb p)) name /\ (length name <= 32)%nat;
  ca_image : image_ok (k_fs k) (k_mem k);
  ca_name : names (k_fs k) (k_mem k) name i;
  ca_file : filetype (k_mem k) (dentry_directory (k_fs k) i) = FILE_TYPE;
  ca_inode : 0 <= inode_index (k_mem k) (dentry_directory (k_fs k) i) < inode_num (k_mem k) (boot_block (k_fs k));
  ca_dentry : off_image (k_fs k) (k_mem k) (f_dentry fr) sizeof_dentry;
  ca_buffer : off_image (k_fs k) (k_mem k) buf 1024;
  ca_apart : f_dentry fr + sizeof_dentry <= buf \/ buf + 1024 <= f_dentry fr
}.

(** The arguments are in the buffer, nothing else has changed. *)
Lemma getargs_gives p buf a w :
  in_process w p -> has_args (pcb_at (kw_k w) (get_pcb p)) a -> Z.of_nat (length a) < 100 -> 0 < buf < 2 ^ 32 ->
  exists w', ece391_getargs buf 1024 w = Some (0, w') /\ step_of w w' p /\
    cstr (k_mem (kw_k w')) buf a /\ unchanged_outside (k_mem (kw_k w)) (k_mem (kw_k w')) buf (Z.of_nat (length a) + 1) /\
    k_fs (kw_k w') = k_fs (kw_k w) /\ k_terms (kw_k w') = k_terms (kw_k w) /\
    pcb_at (kw_k w') (get_pcb p) = pcb_at (kw_k w) (get_pcb p).
Proof.
  intros Hp Ha Hl Hb. rewrite call_getargs, u32_small by lia. change (s32 (u32 1024)) with 1024.
  unfold syscall_getargs. rewrite (proj2 (Z.eqb_neq buf 0)) by lia. change (1024 =? 0) with false. cbn [orb].
  assert (Ha' : has_args (pcb_at (enter w) (curr (enter w))) a) by (by rewrite (enter_curr _ _ Hp)).
  rewrite (getargs_found (enter w) a Ha' Hl). change (u32 1024) with 1024. rewrite (proj2 (Z.ltb_ge _ _)) by lia.
  destruct (copy_args (k_mem (enter w)) _ buf a Ha') as [Hc Hu]. eexists. split; [reflexivity|]. split; [done|].
  cbn [kw_k next]. rewrite k_mem_with_mem. done.
Qed.

(** The image as it was. *)
Lemma cat_ready_image fr p ti buf name i v k m' :
  cat_ready fr p ti buf name i v k -> same_image (k_fs k) (k_mem k) m' ->
  let d := dentry_directory (k_fs k) i in
  image_ok (k_fs k) m' /\ names (k_fs k) m' name i /\ filetype m' d = FILE_TYPE /\
  inode_index m' d = inode_index (k_mem k) d /\ inode_num m' (boot_block (k_fs k)) = inode_num (k_mem k) (boot_block (k_fs k)) /\
  off_image (k_fs k) m' (f_dentry fr) sizeof_dentry /\ off_image (k_fs k) m' buf 1024 /\
  file_content (k_fs k) m' (inode_index (k_mem k) d) = file_content (k_fs k) (k_mem k) (inode_index (k_mem k) d).
Proof.
  intros [A1 A2 [A3 A3'] A4 A5 A6 A7 A8 A9 A10] Hs d.
  destruct (dentry_in_image _ _ i A4 (proj1 A5)) as [Hd1 Hd2]. fold d in Hd1, Hd2.
  assert (Hf : forall x, d <= x < d + sizeof_dentry -> ld m' x = ld (k_mem k) x) by (intros x Hx; apply Hs; lia).
  split; [by apply (image_ok_stable _ (k_mem k))|]. split.
  { by apply (names_stable _ (k_mem k)). }
  split; [rewrite <- A6; unfold filetype; apply ld32_ext; intros x Hx; apply Hf; unfold sizeof_dentry; fold d in Hx; lia|].
  split; [unfold inode_index; apply ld32_ext; intros x Hx; apply Hf; unfold sizeof_dentry; lia|].
  split; [by apply inode_num_stable|].
  split; [by apply (off_image_stable _ (k_mem k))|]. split; [by apply (off_image_stable _ (k_mem k))|].
  by apply file_content_stable.
Qed.

(** Opening a file or a directory by its name: the smallest free descriptor is at its start and
    the standard output is as before. *)
Lemma open_named p ti v s l i ty w :
  in_process w p -> printer p ti v (kw_k w) -> (exists j, 2 <= j < FD_MAX /\ ~ fd_open (pcb_at (kw_k w) (get_pcb p)) j) ->
  let f := k_fs (kw_k w) in let m := k_mem (kw_k w) in let d := dentry_directory f i in
  image_ok f m -> names f m l i -> filetype m d = ty -> ty = FILE_TYPE \/ ty = DIRECTORY_TYPE ->
  off_image f m (f_dentry (kw_frame w)) sizeof_dentry -> 0 < s < 2 ^ 32 -> cstr m s l ->
  exists fd w', ece391_open s w = Some (fd, w') /\ step_of w w' p /\ 2 <= fd < FD_MAX /\
    printer p ti v (kw_k w') /\ (k_fs (kw_k w') = f /\ k_terms (kw_k w') = k_terms (kw_k w)) /\
    unchanged_outside m (k_mem (kw_k w')) (f_dentry (kw_frame w)) sizeof_dentry /\
    elem (pcb_at (kw_k w') (get_pcb p)) fd = Fde (driver_of ty) (if ty =? FILE_TYPE then inode_index m d else 0) 0 1.
Proof.
  intros Hp Hpr (j0 & Hj0 & Hfree) f m d Hok Hi Hty Htys Hd Hsr Hn.
  pose proof (file_open_found f m (pcb_at (kw_k w) (get_pcb p)) s l (f_dentry (kw_frame w)) i Hok Hn Hd Hi) as Ho.
  cbn zeta in Ho. fold d in Ho. rewrite Hty in Ho.
  pose proof (file_open_frame f m (pcb_at (kw_k w) (get_pcb p)) s (f_dentry (kw_frame w)) Hok Hd) as Hfr.
  rewrite call_open, u32_small by lia. unfold syscall_open. rewrite (proj2 (Z.eqb_neq s 0)), (enter_curr _ _ Hp) by lia.
  change (file_open (k_fs (enter w)) (k_mem (enter w)) (pcb_at (enter w) (get_pcb p)) s (f_dentry (kw_frame w)))
    with (file_open f m (pcb_at (kw_k w) (get_pcb p)) s (f_dentry (kw_frame w))).
  destruct (file_open f m _ s _) as [[fd pb] m1]. destruct Hfr as (_ & _ & Htm).
  destruct Ho as [Hu [(Hfd & Hno & _ & He & Hoth)|(_ & _ & Hall)]]; [|by destruct Hfree; apply Hall].
  rewrite (proj2 (Z.eqb_neq fd (-1))) by lia. set (k1 := set_pcb (with_mem (enter w) m1) (get_pcb p) pb).
  set (k2 := if negb _ then set_pcb k1 _ _ else k1).
  assert (Hk2 : k_mem k2 = m1 /\ k_fs k2 = f /\ k_terms k2 = k_terms (kw_k w) /\
    (forall j, elem (pcb_at k2 (get_pcb p)) j = elem pb j) /\ Pcb.term (pcb_at k2 (get_pcb p)) = Pcb.term pb).
  { assert (Em1 : k_mem k1 = m1) by exact (k_mem_with_mem (enter w) m1).
    assert (Ep1 : pcb_at k1 (get_pcb p) = pb) by apply pcb_at_set_eq.
    unfold k2. destruct (negb _); [|by rewrite Ep1]. by rewrite pcb_at_set_eq, Ep1. }
  clearbody k2. destruct Hk2 as (Em & Ef & Et & Hel & Htp). rewrite Hel, He. cbn [file_operation_jmp_tbl].
  pose proof (outside_same_image _ _ _ _ _ Hd Hu) as Hs.
  destruct Htys as [-> | ->].
  - change (driver_of FILE_TYPE) with file_driver in *. cbn iota.
    pose proof (file_open_frame f m1 (pcb_at k2 (get_pcb p)) (f_stale (kw_frame w)) (f_dentry (kw_frame w))
      (image_ok_stable _ _ _ Hok Hs) (off_image_stable _ _ _ Hs _ _ Hd)) as Hfr.
    rewrite Ef, Em. destruct (file_open f m1 _ (f_stale _) _) as [[fd2 p2] m2]. destruct Hfr as (Hu2 & Hel2 & Ht2).
    set (k3 := set_pcb _ _ _). assert (Em3 : k_mem k3 = m2) by exact (k_mem_with_mem k2 m2).
    assert (Ep3 : pcb_at k3 (get_pcb p) = p2) by apply pcb_at_set_eq.
    assert (Et3 : k_terms k3 = k_terms (kw_k w) /\ k_fs k3 = f) by done. clearbody k3. destruct Et3 as [Et3 Ef3].
    exists fd, (next w k3). cbn [kw_k next]. rewrite Em3, Ep3. split; [done|]. split; [done|]. split; [done|].
    split; [|split; [done|split; [intros x Hx; by rewrite Hu2, Hu|]]].
    + eapply printer_stable; [exact Hpr|done|rewrite Ep3|rewrite Ep3; congruence].
      by rewrite Hel2, Hel, Hoth by lia.
    + rewrite Hel2, Hel, He; [done|]. right. unfold fd_open. by rewrite Hel, He.
  - change (driver_of DIRECTORY_TYPE) with dir_driver in *. cbn iota.
    exists fd, (next w k2). cbn [kw_k next]. rewrite Em. split; [done|]. split; [done|]. split; [done|].
    split; [|split; [done|split; [done|by rewrite Hel, He]]].
    eapply printer_stable; [exact Hpr|done|by rewrite Hel, Hoth by lia|congruence].
Qed.

(** The descriptor of a file just opened. *)
Lemma opened_reader p fd buf n k f m d :
  image_ok f m -> 0 <= inode_index m d < inode_num m (boot_block f) -> off_image f m buf n ->
  k_fs k = f -> same_image f m (k_mem k) -> elem (pcb_at k (get_pcb p)) fd = Fde file_driver (inode_index m d) 0 1 ->
  reader p fd (inode_index m d) 0 buf n (file_content f m (inode_index m d)) k.
Proof.
  intros Hok Hino Hb Ef Hs He. split; rewrite ?Ef, ?He.
  - by apply (image_ok_stable _ m).
  - unfold reading_file, fd_open. rewrite He. cbn [flags inode_ptr file_position].
    rewrite (inode_num_stable _ _ _ Hs), (file_length_stable _ _ _ Hok Hs) by done.
    pose proof (ld32_range m (inode_addr f (inode_index m d))). unfold file_length.
    split; [done|]. split; [done|]. split; [done|]. lia.
  - done.
  - done.
  - by rewrite (file_content_stable _ _ _ Hok Hs).
  - by apply (off_image_stable _ m).
Qed.

Lemma cat_prints fr p ti buf name i v w fuel :
  in_process w p -> cat_ready fr p ti buf name i v (kw_k w) -> kw_frame w = fr ->
  let c := file_content (k_fs (kw_k w)) (k_mem (kw_k w))
    (inode_index (k_mem (kw_k w)) (dentry_directory (k_fs (kw_k w)) i)) in
  Z.of_nat (length c) <= 1024 * Z.of_nat fuel -> write_safe c v ->
  exists w', cat_main (S fuel) buf w = Some (0, w') /\ gentle p ti w w' /\ printer p ti (vt_write c v) (kw_k w').
Proof.
  intros Hp Hr Hf c Hl Hw. pose proof (ca_buffer _ _ _ _ _ _ _ _ Hr) as Hb.
  destruct (ca_args _ _ _ _ _ _ _ _ Hr) as [Ha Hn]. assert (Hbr : 0 < buf < 2 ^ 32) by (destruct Hb; lia).
  destruct (getargs_gives p buf name w Hp Ha ltac:(lia) Hbr) as (w1 & E1 & Hst1 & Hc1 & Hu & Ef & Et & Epb).
  assert (Hu' : unchanged_outside (k_mem (kw_k w)) (k_mem (kw_k w1)) buf 1024) by (eapply unchanged_outside_weaken; [| |exact Hu]; lia).
  assert (Hg1 : gentle p ti w w1) by (eapply outside_gentle; [exact Hst1|exact Ef|exact Et|exact Hb|exact Hu'|intros _ _; by rewrite Epb]). destruct Hst1 as [Hp1 Hf1].
  assert (Hs : same_image (k_fs (kw_k w)) (k_mem (kw_k w)) (k_mem (kw_k w1))).
  { exact (ge_image _ _ _ _ Hg1). }
  destruct (cat_ready_image _ _ _ _ _ _ _ _ _ Hr Hs) as (B1 & B2 & B3 & B4 & B5 & B6 & B7 & B8).
  pose proof (ca_inode _ _ _ _ _ _ _ _ Hr) as Hino.
  pose proof (ca_printer _ _ _ _ _ _ _ _ Hr) as Hpr.
  assert (Hpr1 : printer p ti v (kw_k w1)) by (eapply printer_stable; [exact Hpr|done|by rewrite Epb..]).
  destruct (open_named p ti v buf name i FILE_TYPE w1 Hp1 Hpr1) as (fd & w2 & E2 & Hst2 & Hfd & Hpr2 & [Ef2 Et2] & Hu2 & He2);
    rewrite ?Epb, ?Ef, ?Hf1, ?Hf in *; try done.
  - exact (ca_free _ _ _ _ _ _ _ _ Hr).
  - by left.
  - change (FILE_TYPE =? FILE_TYPE) with true in He2. cbn iota in He2.
    assert (Hg2 : gentle p ti w1 w2).
    { eapply outside_gentle; [exact Hst2|congruence|exact Et2|rewrite Ef; exact B6|exact Hu2|].
      intros Hok1 Hty1. eapply open_call_drivers; [exact Hp1|exact Hok1|exact Hty1|rewrite Ef, Hf1; exact B6|exact E2]. }
    destruct Hst2 as [Hp2 Hf2].
    pose proof (opened_reader p fd buf 1024 (kw_k w2) _ _ (dentry_directory (k_fs (kw_k w)) i) B1 ltac:(by rewrite B4, B5) B7
      Ef2 ltac:(eapply outside_same_image; [exact B6|exact Hu2]) He2) as Hrd.
    rewrite B4, B8 in Hrd. fold c in Hrd.
    destruct (cat_loop_prints p ti fd _ buf c fuel 0 v w2 Hp2 Hpr2 Hrd Hfd ltac:(lia) ltac:(lia)) as (w3 & E3 & Hg3 & Hpr3).
    + by rewrite drop_0.
    + rewrite drop_0 in Hpr3. exists w3. unfold cat_main. rewrite (bind_some _ _ _ _ _ E1). cbn [Z.eqb negb].
      rewrite (bind_some _ _ _ _ _ E2), (proj2 (Z.eqb_neq _ _)) by lia. split; [exact E3|].
      split; [|exact Hpr3]. eapply gentle_trans; [exact Hg1|by eapply gentle_trans].
Qed.

(** ** Lemmas: ls *)

(** Every name with a newline after it. *)
Definition listing (ns : list (list Z)) : list Z := concat (map (fun n => n ++ [10]) ns).

(** The names of the directory entries from [pos] on. *)
Definition names_from (f : fs) (m : mem) (pos : Z) : list (list Z) :=
  file_name f m <$> seqZ pos (num_directories f - pos).

Lemma names_from_end f m pos : num_directories f <= pos -> names_from f m pos = [].
Proof. intros Hp. unfold names_from. by rewrite seqZ_nil by lia. Qed.

Lemma names_from_cons f m pos :
  pos < num_directories f -> names_from f m pos = file_name f m pos :: names_from f m (pos + 1).
Proof.
  intros Hp. unfold names_from. rewrite seqZ_cons by lia. cbn [fmap list_fmap]. do 3 f_equal; lia.
Qed.

(** Every name is that of an entry, and ls does not stop at it. *)
Definition listable (f : fs) (m : mem) : Prop :=
  forall j, 0 <= j < num_directories f -> 0 < Z.of_nat (length (file_name f m j)) < sizeof_dentry.

Lemma listable_stable f m m' :
  image_ok f m -> same_image f m m' -> listable f m ->
  listable f m' /\ forall pos, 0 <= pos -> names_from f m' pos = names_from f m pos.
Proof.
  intros Hok Hs Hl. assert (E : forall j, 0 <= j < num_directories f -> file_name f m' j = file_name f m j).
  { intros j Hj. apply (entry_name_stable f m m'); [done|done|apply (Hl j Hj)|done|done]. }
  split; [intros j Hj; rewrite E by done; by apply Hl|]. intros pos Hpos. unfold names_from.
  apply list_fmap_ext. intros i j Hj. apply lookup_seqZ in Hj. apply E. lia.
Qed.

(** Descriptor [fd] is at entry [pos] of the directory. *)
Record lister (fr : frame) (p fd pos buf : Z) k : Prop := {
  li_image : image_ok (k_fs k) (k_mem k);
  li_open : fd_open (pcb_at k (get_pcb p)) fd;
  li_driver : file_operation_jmp_tbl (elem (pcb_at k (get_pcb p)) fd) = dir_driver;
  li_position : file_position (elem (pcb_at k (get_pcb p)) fd) = pos;
  li_names : listable (k_fs k) (k_mem k);
  li_dentry : off_image (k_fs k) (k_mem k) (f_dentry fr) sizeof_dentry;
  li_buffer : off_image (k_fs k) (k_mem k) buf sizeof_dentry;
  li_apart : f_dentry fr + sizeof_dentry <= buf \/ buf + sizeof_dentry <= f_dentry fr
}.

(** Memory changes off the image, and the descriptors stay. *)
Lemma lister_stable fr p fd pos pos' buf k k' :
  lister fr p fd pos buf k -> k_fs k' = k_fs k -> same_image (k_fs k) (k_mem k) (k_mem k') ->
  elem (pcb_at k' (get_pcb p)) fd = set_file_position (elem (pcb_at k (get_pcb p)) fd) pos' ->
  lister fr p fd pos' buf k'.
Proof.
  intros [A1 A2 A3 A4 A5 A6 A7 A8] Ef Hs He. split; rewrite ?Ef, ?He; try done.
  - by apply (image_ok_stable _ (k_mem k)).
  - unfold fd_open in *. by rewrite He.
  - by apply (listable_stable _ (k_mem k)).
  - by apply (off_image_stable _ (k_mem k)).
  - by apply (off_image_stable _ (k_mem k)).
Qed.

Lemma set_file_position_same e : set_file_position e (file_position e) = e.
Proof. by destruct e. Qed.

(** A read of the directory. *)
Lemma read_lists fr p ti v fd pos buf w :
  in_process w p -> kw_frame w = fr -> printer p ti v (kw_k w) -> lister fr p fd pos buf (kw_k w) ->
  2 <= fd < FD_MAX -> 0 <= pos ->
  let f := k_fs (kw_k w) in let m := k_mem (kw_k w) in
  (num_directories f <= pos -> exists w', ece391_read fd buf 32 w = Some (0, w') /\ step_of w w' p /\ printer p ti v (kw_k w')) /\
  (pos < num_directories f -> exists w', ece391_read fd buf 32 w = Some (Z.of_nat (length (file_name f m pos)), w') /\
     step_of w w' p /\ cstr (k_mem (kw_k w')) buf (file_name f m pos) /\ printer p ti v (kw_k w') /\
     k_fs (kw_k w') = f /\ same_image f m (k_mem (kw_k w')) /\
     elem (pcb_at (kw_k w') (get_pcb p)) fd = set_file_position (elem (pcb_at (kw_k w) (get_pcb p)) fd) (pos + 1)).
Proof.
  intros Hp Hfr Hpr Hli Hfd Hpos f m. pose proof Hli as [A1 A2 A3 A4 A5 A6 A7 A8]. unfold FD_MAX in Hfd.
  assert (Hb : 0 < buf < 2 ^ 32) by (destruct A7; unfold sizeof_dentry in *; lia).
  rewrite call_read, !s32_u32, u32_small by lia. unfold syscall_read. rewrite (enter_curr _ _ Hp).
  change (32 =? 0) with false. rewrite fd_pass, (proj2 (Z.eqb_neq fd 1)), (proj2 (Z.eqb_neq buf 0)) by (unfold FD_MIN, FD_MAX; lia).
  cbn [orb]. change (pcb_at (enter w) (get_pcb p)) with (pcb_at (kw_k w) (get_pcb p)).
  pose proof A2 as A2'. unfold fd_open in A2'. rewrite (proj2 (Z.eqb_neq _ _) A2'), A3, Hfr.
  change (k_fs (enter w)) with f. change (k_mem (enter w)) with m.
  destruct (dir_read_delivers_entry f m (pcb_at (kw_k w) (get_pcb p)) fd buf (u32 32) (f_dentry fr) A1 ltac:(lia)) as [Hend Hmid].
  rewrite A4 in Hend, Hmid. split; intros Hn.
  - rewrite (Hend Hn). eexists. split; [reflexivity|]. split; [done|]. cbn [kw_k next].
    eapply printer_stable; [exact Hpr|done|by rewrite pcb_at_set_eq..].
  - pose proof (A5 pos ltac:(fold f; lia)) as Hlen. fold f m in Hlen.
    destruct (Hmid Hn ltac:(lia) A6 ltac:(lia)) as (m' & -> & Hc & Hu). set (k' := set_pcb _ _ _).
    assert (Em : k_mem k' = m') by exact (k_mem_with_mem (enter w) m').
    assert (Ep : pcb_at k' (get_pcb p) = set_elem (pcb_at (kw_k w) (get_pcb p)) fd (set_file_position
      (elem (pcb_at (kw_k w) (get_pcb p)) fd) (pos + 1))) by apply pcb_at_set_eq.
    assert (Et : k_terms k' = k_terms (kw_k w) /\ k_fs k' = f) by done. clearbody k'. destruct Et as [Et Ef].
    assert (Hs : same_image f m m') by (intros x Hx; fold f m in A6, A7; apply Hu; destruct A6 as (? & ? & ?), A7 as (? & ? & ?); unfold sizeof_dentry in *; lia).
    exists (next w k'). cbn [kw_k next]. split; [done|]. split; [done|]. split; [by rewrite Em|]. split.
    { eapply printer_stable; [exact Hpr|done|rewrite Ep; by rewrite elem_set_elem_ne by lia|by rewrite Ep]. }
    rewrite Em, Ep, elem_set_elem_eq. done.
Qed.

(** A store into the buffer. *)
Lemma store_gives a c w : in_user a = true ->
  exists w', store a c w = Some (tt, w') /\ k_mem (kw_k w') = st (k_mem (kw_k w)) a c /\
    k_fs (kw_k w') = k_fs (kw_k w) /\ k_terms (kw_k w') = k_terms (kw_k w) /\ kw_frame w' = kw_frame w /\
    (forall b, pcb_at (kw_k w') b = pcb_at (kw_k w) b) /\ (forall p, in_process w p -> in_process w' p).
Proof.
  intros Ha. unfold store. rewrite Ha. eexists. split; [reflexivity|].
  split; [exact (k_mem_with_mem (kw_k w) (st (k_mem (kw_k w)) a c))|done].
Qed.

(** The name in the buffer with the newline in place of its terminator. *)
Lemma bytes_line m a l : cstr m a l -> bytes (st m (a + Z.of_nat (length l)) 10) a (S (length l)) = l ++ [10].
Proof.
  revert a. induction l as [|c l IH]; intros a Hc; cbn [length app].
  - cbn [bytes]. by rewrite Z.add_0_r, ld_st_eq.
  - destruct Hc as (E & _ & Hc). cbn [bytes]. rewrite ld_st_ne, E by lia. f_equal.
    specialize (IH (a + 1) Hc). cbn [bytes] in IH.
    replace (a + Z.of_nat (S (length l))) with (a + 1 + Z.of_nat (length l)) by lia. exact IH.
Qed.

(** One round of the loop. *)
Lemma ls_step fr p ti fd buf pos v w :
  in_process w p -> kw_frame w = fr -> printer p ti v (kw_k w) -> lister fr p fd pos buf (kw_k w) ->
  2 <= fd < FD_MAX -> USER_WINDOW_START <= buf -> buf + sizeof_dentry <= USER_WINDOW_END ->
  let f := k_fs (kw_k w) in let m := k_mem (kw_k w) in let line := file_name f m pos ++ [10] in
  0 <= pos < num_directories f -> write_safe line v ->
  exists w', (forall fuel, ls_loop (S fuel) fd buf w = ls_loop fuel fd buf w') /\ step_of w w' p /\
    printer p ti (vt_write line v) (kw_k w') /\ lister fr p fd (pos + 1) buf (kw_k w') /\
    k_fs (kw_k w') = f /\ same_image f m (k_mem (kw_k w')).
Proof.
  intros Hp Hfr Hpr Hli Hfd Hb1 Hb2 f m line Hpos Hw.
  destruct (read_lists fr p ti v fd pos buf w Hp Hfr Hpr Hli Hfd ltac:(lia)) as [_ Hmid].
  destruct (Hmid ltac:(apply Hpos)) as (w1 & E1 & [Hp1 Hf1] & Hc & Hpr1 & Ef1 & Hs1 & He1).
  pose proof (li_names _ _ _ _ _ _ Hli pos Hpos) as Hlen. fold f m in Hc, Hlen, E1, Ef1, Hs1. set (name := file_name f m pos) in *.
  assert (Hu : in_user (buf + Z.of_nat (length name)) = true).
  { unfold in_user. rewrite (proj2 (Z.leb_le _ _)), (proj2 (Z.ltb_lt _ _)) by lia. done. }
  destruct (store_gives (buf + Z.of_nat (length name)) 10 w1 Hu) as (w2 & E2 & Em2 & Ef2 & Et2 & Hf2 & Hp2 & Hin2).
  assert (Hby : bytes (k_mem (kw_k w2)) buf (Z.to_nat (Z.of_nat (length name) + 1)) = line).
  { rewrite Em2. replace (Z.to_nat _) with (S (length name)) by lia. by apply bytes_line. }
  assert (Hpr2 : printer p ti v (kw_k w2)) by (eapply printer_stable; [exact Hpr1|done|by rewrite Hp2..]).
  destruct (write_prints p ti v buf (Z.of_nat (length name) + 1) w2 (Hin2 p Hp1) Hpr2) as (w3 & E3 & [Hp3 Hf3] & Hq & Hpr3 & _);
    [unfold sizeof_dentry in *; lia|destruct (li_buffer _ _ _ _ _ _ Hli); unfold sizeof_dentry in *; lia|by rewrite Hby|].
  rewrite Hby in Hpr3.
  assert (Hs3 : same_image f m (k_mem (kw_k w3))).
  { intros x Hx. rewrite (qt_mem _ _ _ Hq), Em2, ld_st_ne; [by apply Hs1|].
    destruct (li_buffer _ _ _ _ _ _ Hli) as (_ & _ & Hoff). fold f m in Hoff. lia. }
  exists w3. split; [|split; [split; [done|congruence]|split; [exact Hpr3|split; [|split; [|exact Hs3]]]]].
  - intros fuel. cbn [ls_loop]. change (SBUFSIZE - 1) with 32. rewrite (bind_some _ _ _ _ _ E1).
    rewrite (proj2 (Z.eqb_neq _ 0)), (proj2 (Z.eqb_neq _ (-1))), (bind_some _ _ _ _ _ E2) by lia.
    by rewrite (bind_some _ _ _ _ _ E3), (proj2 (Z.eqb_neq _ (-1))) by lia.
  - eapply lister_stable; [exact Hli|rewrite (qt_fs _ _ _ Hq), Ef2; exact Ef1|exact Hs3|].
    by rewrite (qt_elems _ _ _ Hq), Hp2.
  - rewrite (qt_fs _ _ _ Hq), Ef2. exact Ef1.
Qed.

Lemma ls_loop_prints fr p ti fd buf fuel : forall pos v w,
  in_process w p -> kw_frame w = fr -> printer p ti v (kw_k w) -> lister fr p fd pos buf (kw_k w) ->
  2 <= fd < FD_MAX -> 0 <= pos -> num_directories (k_fs (kw_k w)) - pos <= Z.of_nat fuel ->
  USER_WINDOW_START <= buf -> buf + sizeof_dentry <= USER_WINDOW_END ->
  write_safe (listing (names_from (k_fs (kw_k w)) (k_mem (kw_k w)) pos)) v ->
  exists w', ls_loop (S fuel) fd buf w = Some (0, w') /\ step_of w w' p /\
    printer p ti (vt_write (listing (names_from (k_fs (kw_k w)) (k_mem (kw_k w)) pos)) v) (kw_k w').
Proof.
  induction fuel as [|fuel IH]; intros pos v w Hp Hfr Hpr Hli Hfd Hpos Hl Hb1 Hb2 Hw.
  all: destruct (Z.lt_ge_cases pos (num_directories (k_fs (kw_k w)))) as [Hlt|Hge]; [try lia|].
  1, 3: destruct (read_lists fr p ti v fd pos buf w Hp Hfr Hpr Hli Hfd Hpos) as [Hend _];
    destruct (Hend ltac:(lia)) as (w1 & E1 & Hst & Hpr1); exists w1; rewrite names_from_end by lia;
    (split; [exact (bind_some _ _ _ _ _ E1)|split; [exact Hst|exact Hpr1]]).
  rewrite names_from_cons in Hw |- * by done.
  change (listing (?n :: ?ns)) with ((n ++ [10]) ++ listing ns) in Hw |- *.
  apply write_safe_app in Hw as [Hw1 Hw2]. rewrite vt_write_app.
  destruct (ls_step fr p ti fd buf pos v w Hp Hfr Hpr Hli Hfd Hb1 Hb2 ltac:(lia) Hw1) as (w1 & E1 & [Hp1 Hf1] & Hpr1 & Hli1 & Ef & Hs).
  destruct (listable_stable _ _ _ (li_image _ _ _ _ _ _ Hli) Hs (li_names _ _ _ _ _ _ Hli)) as [_ En].
  destruct (IH (pos + 1) _ w1 Hp1 ltac:(congruence) Hpr1 Hli1 Hfd) as (w2 & E2 & [Hp2 Hf2] & Hpr2);
    rewrite ?Ef, ?En by lia; try done; try lia.
  rewrite Ef, En in Hpr2 by lia. exists w2. rewrite E1. split; [exact E2|]. split; [|exact Hpr2]. split; [done|congruence].
Qed.

(** What ls needs: the standard output, a free descriptor, a directory ".", names that are not empty
    and end inside their entries, and a buffer of the program. *)
Record ls_ready (fr : frame) (p ti buf i : Z) (v : vt) k : Prop := {
  la_printer : printer p ti v k;
  la_free : exists j, 2 <= j < FD_MAX /\ ~ fd_open (pcb_at k (get_pcb p)) j;
  la_image : image_ok (k_fs k) (k_mem k);
  la_name : names (k_fs k) (k_mem k) (chars ".") i;
  la_type : filetype (k_mem k) (dentry_directory (k_fs k) i) = DIRECTORY_TYPE;
  la_literal : cstr (k_mem k) (lit ".") (chars ".") /\ 0 < lit "." < 2 ^ 32;
  la_names : listable (k_fs k) (k_mem k);
  la_dentry : off_image (k_fs k) (k_mem k) (f_dentry fr) sizeof_dentry;
  la_buffer : off_image (k_fs k) (k_mem k) buf sizeof_dentry;
  la_apart : f_dentry fr + sizeof_dentry <= buf \/ buf + sizeof_dentry <= f_dentry fr;
  la_window : USER_WINDOW_START <= buf /\ buf + sizeof_dentry <= USER_WINDOW_END
}.

Lemma ls_prints fr p ti buf i v w fuel :
  in_process w p -> kw_frame w = fr -> ls_ready fr p ti buf i v (kw_k w) ->
  let f := k_fs (kw_k w) in let l := listing (names_from f (k_mem (kw_k w)) 0) in
  num_directories f <= Z.of_nat fuel -> write_safe l v ->
  exists w', ls_main (S fuel) buf w = Some (0, w') /\ step_of w w' p /\ printer p ti (vt_write l v) (kw_k w').
Proof.
  intros Hp Hf [A1 A2 A3 A4 A5 [A6 A6'] A7 A8 A9 A10 [A11 A12]] f l Hl Hw.
  destruct (open_named p ti v (lit ".") (chars ".") i DIRECTORY_TYPE w Hp A1 A2 A3 A4 A5)
    as (fd & w1 & E1 & [Hp1 Hf1] & Hfd & Hpr1 & [Ef Et] & Hu & He); [by right|by rewrite Hf|exact A6'|exact A6|].
  rewrite Hf in Hu. pose proof (outside_same_image _ _ _ _ _ A8 Hu) as Hs.
  destruct (listable_stable f (k_mem (kw_k w)) (k_mem (kw_k w1)) A3 Hs A7) as [Hl1 En].
  assert (Hli : lister fr p fd 0 buf (kw_k w1)).
  { split; rewrite ?Ef, ?He; try done.
    - by apply (image_ok_stable _ (k_mem (kw_k w))).
    - unfold fd_open. by rewrite He.
    - by apply (off_image_stable _ (k_mem (kw_k w))).
    - by apply (off_image_stable _ (k_mem (kw_k w))). }
  destruct (ls_loop_prints fr p ti fd buf fuel 0 v w1 Hp1 ltac:(congruence) Hpr1 Hli Hfd) as (w2 & E2 & [Hp2 Hf2] & Hpr2);
    rewrite ?Ef, ?En by lia; try done; [fold f; lia|].
  rewrite Ef, En in Hpr2 by lia. exists w2. unfold ls_main.
  rewrite (bind_some _ _ _ _ _ E1), (proj2 (Z.eqb_neq _ _)) by lia. split; [exact E2|]. split; [|exact Hpr2].
  split; [done|congruence].
Qed.
End printing.

(** ** Properties *)

(** C7: cat prints the file.  A process whose argument is the name of a regular file, whose standard
    output is a terminal and that has a descriptor free runs [cat_main] to its end with result 0,
    and its terminal then shows what it showed before with the whole contents of the file
    written to it, whatever the size of the file and whether or not the terminal is on the
    display.  (The contents must not backspace out of the screen, see [write_safe].) *)
Theorem cat_prints_file {D} `{Machine D} `{LayoutLaws} `{Literals} (w : kworld D) p ti buf name i v fuel :
  in_process w p -> cat_ready (kw_frame w) p ti buf name i v (kw_k w) ->
  let f := k_fs (kw_k w) in let m := k_mem (kw_k w) in
  let c := file_content f m (inode_index m (dentry_directory f i)) in
  Z.of_nat (length c) <= 1024 * Z.of_nat fuel -> write_safe c v ->
  exists w', cat_main (S fuel) buf w = Some (0, w') /\ in_process w' p /\ shows (k_terms (kw_k w')) ti (vt_write c v).
Proof.
  intros Hp Hr f m c Hl Hw. destruct (cat_prints _ p ti buf name i v w fuel Hp Hr eq_refl Hl Hw) as (w' & E & Hg & Hpr).
  exists w'. split; [exact E|]. split; [apply (ge_step _ _ _ _ Hg)|exact (pr_shows _ _ _ _ Hpr)].
Qed.

(** C8: ls lists the directory.  In a process with a terminal as standard output and a free
    descriptor, on an image with a directory "." and no empty name, [ls_main] ends with result 0
    and its terminal then shows every name of the directory, in order, each on a line.  A name
    of 32 bytes has no terminator: it goes on with the byte of its type, and with its newline
    fills one byte more than the buffer of 33 that the program has. *)
Theorem ls_lists_directory {D} `{Machine D} `{LayoutLaws} `{Literals} (w : kworld D) p ti buf i v fuel :
  in_process w p -> ls_ready (kw_frame w) p ti buf i v (kw_k w) ->
  let f := k_fs (kw_k w) in let l := listing (names_from f (k_mem (kw_k w)) 0) in
  num_directories f <= Z.of_nat fuel -> write_safe l v ->
  exists w', ls_main (S fuel) buf w = Some (0, w') /\ in_process w' p /\ shows (k_terms (kw_k w')) ti (vt_write l v).
Proof.
  intros Hp Hr f l Hl Hw. destruct (ls_prints _ p ti buf i v w fuel Hp eq_refl Hr Hl Hw) as (w' & E & [Hp' _] & Hpr).
  exists w'. split; [exact E|]. split; [exact Hp'|exact (pr_shows _ _ _ _ Hpr)].
Qed.

(** ** Witnesses *)

#[local] Existing Instance sample_literals.

(** The process of [sample_tests], started with the argument "sh". *)
Definition sample_pcb_args : pcb := set_args (pcb_init (Pcb ∅ 0 0 0 0 1 ∅ 0 0 0 0 0)).2 (arr_at 0 (chars "sh")).

Definition sample_utility : kworld sim :=
  KW (set_pcb sample_tests (get_pcb 1) sample_pcb_args) [] sample_frame (KERNEL_STACK 1 - 64) 0.

Lemma sample_utility_mem : k_mem (kw_k sample_utility) = Mem (km sample_image) tests_window.
Proof. exact sample_tests_mem. Qed.

Lemma sample_utility_image : same_image sample_fs sample_image (k_mem (kw_k sample_utility)).
Proof. exact sample_tests_image. Qed.

Lemma sample_utility_off a n : 0x414000 <= a -> a + n <= 2 ^ 32 -> off_image sample_fs (k_mem (kw_k sample_utility)) a n.
Proof. intros. apply (off_image_stable sample_fs sample_image); [apply sample_utility_image|by apply sample_off]. Qed.

Lemma sample_utility_pcb : pcb_at (kw_k sample_utility) (get_pcb 1) = sample_pcb_args.
Proof. apply pcb_at_set_eq. Qed.

Lemma sample_utility_printer : printer 1 0 blank_vt (kw_k sample_utility).
Proof.
  destruct sample_terms_ok as (Hb & _ & Hs & _).
  split; rewrite ?sample_utility_pcb; [by vm_compute|by vm_compute|by vm_compute|by vm_compute|exact Hb|exact blank_vt_ok|exact Hs].
Qed.

Lemma sample_utility_free : exists j, 2 <= j < FD_MAX /\ ~ fd_open (pcb_at (kw_k sample_utility) (get_pcb 1)) j.
Proof.
  exists 2. rewrite sample_utility_pcb. split; [by vm_compute|]. intros Ho. apply Ho. by vm_compute.
Qed.

Lemma sample_utility_ok : image_ok sample_fs (k_mem (kw_k sample_utility)).
Proof. apply (image_ok_stable sample_fs sample_image); [apply sample_image_ok|apply sample_utility_image]. Qed.

Lemma sample_cat_ready : cat_ready sample_frame 1 0 0x8200000 (chars "sh") 2 blank_vt (kw_k sample_utility).
Proof.
  split; [apply sample_utility_printer|apply sample_utility_free| |apply sample_utility_ok| | | |apply sample_utility_off; by vm_compute..|].
  - rewrite sample_utility_pcb. split; [|apply Nat.leb_le; by vm_compute]. split; [|by vm_compute].
    intros j Hj. cbn [length chars] in Hj. assert (j = 0 \/ j = 1) as [-> | ->] by (cbn in Hj; lia); by vm_compute.
  - rewrite sample_utility_mem. split; [by vm_compute|]. split; [by vm_compute|]. intros j Hj.
    assert (j = 0 \/ j = 1) as [-> | ->] by lia; by vm_compute.
  - rewrite sample_utility_mem. by vm_compute.
  - rewrite sample_utility_mem. by vm_compute.
  - left. by vm_compute.
Qed.

Lemma cat_prints_file_witness :
  exists w', cat_main 2 0x8200000 sample_utility = Some (0, w') /\ shows (k_terms (kw_k w')) 0 (vt_write sample_elf blank_vt).
Proof.
  assert (Hp : in_process sample_utility 1) by (by vm_compute).
  assert (Hl : Z.of_nat (length sample_elf) <= 1024 * Z.of_nat 1) by (by vm_compute).
  assert (Hw : write_safe sample_elf blank_vt) by (vm_compute; repeat split; intros (? & ? & ?); discriminate).
  assert (Ei : inode_index (k_mem (kw_k sample_utility)) (dentry_directory sample_fs 2) = 0)
    by (rewrite sample_utility_mem; by vm_compute).
  assert (Ec : file_content sample_fs (k_mem (kw_k sample_utility)) 0 = sample_elf).
  { rewrite (file_content_stable _ _ _ sample_image_ok sample_utility_image) by (by vm_compute). by vm_compute. }
  destruct (cat_prints_file sample_utility 1 0 0x8200000 (chars "sh") 2 blank_vt 1) as (w' & E & _ & Hs).
  - exact Hp.
  - exact sample_cat_ready.
  - change (k_fs (kw_k sample_utility)) with sample_fs. rewrite Ei, Ec. exact Hl.
  - change (k_fs (kw_k sample_utility)) with sample_fs. rewrite Ei, Ec. exact Hw.
  - change (k_fs (kw_k sample_utility)) with sample_fs in Hs. rewrite Ei, Ec in Hs. exists w'. split; [exact E|exact Hs].
Defined.

(** The last name fills its 32 bytes. *)
Definition sample_names : list (list Z) := [chars "."; chars "rtc"; chars "sh"; sample_name32 ++ [2]].

Lemma sample_utility_names : names_from sample_fs (k_mem (kw_k sample_utility)) 0 = sample_names.
Proof. rewrite sample_utility_mem. by vm_compute. Qed.

Lemma sample_ls_ready : ls_ready sample_frame 1 0 0x8200000 0 blank_vt (kw_k sample_utility).
Proof.
  split; [apply sample_utility_printer|apply sample_utility_free|apply sample_utility_ok| | | | |
    apply sample_utility_off; by vm_compute..|left; by vm_compute|by vm_compute].
  - rewrite sample_utility_mem. split; [by vm_compute|]. split; [by vm_compute|]. intros j Hj. lia.
  - rewrite sample_utility_mem. by vm_compute.
  - rewrite sample_utility_mem. by vm_compute.
  - change (k_fs (kw_k sample_utility)) with sample_fs. rewrite sample_utility_mem. intros j Hj. cbn [num_directories sample_fs] in Hj.
    assert (j = 0 \/ j = 1 \/ j = 2 \/ j = 3) as [-> |[-> |[-> | ->]]] by lia; by vm_compute.
Qed.

Lemma ls_lists_directory_witness :
  exists w', ls_main 5 0x8200000 sample_utility = Some (0, w') /\
    shows (k_terms (kw_k w')) 0 (vt_write (listing sample_names) blank_vt).
Proof.
  destruct (ls_lists_directory sample_utility 1 0 0x8200000 0 blank_vt 4) as (w' & E & _ & Hs).
  - by vm_compute.
  - exact sample_ls_ready.
  - by vm_compute.
  - change (k_fs (kw_k sample_utility)) with sample_fs. rewrite sample_utility_names. apply write_safe_plain.
    vm_compute. repeat constructor; discriminate.
  - change (k_fs (kw_k sample_utility)) with sample_fs in Hs. rewrite sample_utility_names in Hs. exists w'.
    split; [exact E|exact Hs].
Defined.
