(* ===== verification/Interactive.v ===== *)
(** * Programs that talk with their user

    What ece391hello.c, ece391counter.c and ece391shell.c do on the kernel when a line is typed while they
    wait for it: keyboard events, input queue, echo, system calls and output in one run. *)

From S2P Require Import Prelude Mem LibString Console Machine I8259 Rtc Tasks Pcb Fs Paging Termios Keyboard Kernel Scheduling Syscall Execute FileCalls Linkage System Shell User Programs Userland Utilities.

Section talking.
Context {D : Type} `{Machine D} `{LayoutLaws} `{Literals}.
Implicit Types (w : kworld D) (k : kernel D).

(** Both standard descriptors are the terminal on the display, which shows [v] and has no input. *)
Record console (p ti : Z) (v : vt) k : Prop := {
  co_printer : printer p ti v k;
  co_stdin : fd_open (pcb_at k (get_pcb p)) 0 /\ file_operation_jmp_tbl (elem (pcb_at k (get_pcb p)) 0) = terminal_driver;
  co_active : active_term (k_terms k) = ti;
  co_input : input_ok (term (k_terms k) ti) /\ is_active (term (k_terms k) ti) <> 0;
  co_empty : in_dat_nr_ret (term (k_terms k) ti) = 0 /\ inq (term (k_terms k) ti) = []
}.

(** [l] is at [a] in memory, apart from the buffer at [buf]. *)
Definition text_at (m : mem) (buf a : Z) (l : list Z) : Prop :=
  cstr m a l /\ 0 < a < 2 ^ 32 /\ (a + Z.of_nat (length l) < buf \/ buf + 1024 <= a).

Lemma write_console p ti v v' k k' :
  console p ti v k -> quiet p k k' -> printer p ti v' k' -> same_input ti (k_terms k) (k_terms k') ->
  console p ti v' k'.
Proof.
  intros [A1 A2 A3 A4 A5] Hq Hpr [Ha (x & y & Et)]. split; unfold fd_open in *; rewrite ?(qt_elems _ _ _ Hq), ?Ha, ?Et; done.
Qed.

(** Calls of [p] that keep the processes and the file system as they are. *)
Record steady (p : Z) w w' : Prop := {
  sd_fs : k_fs (kw_k w') = k_fs (kw_k w);
  sd_frame : kw_frame w' = kw_frame w;
  sd_benign : benign p (enter w) (enter w')
}.

Lemma steady_trans p w1 w2 w3 : steady p w1 w2 -> steady p w2 w3 -> steady p w1 w3.
Proof. intros [A1 A2 A3] [B1 B2 B3]. split; [congruence|congruence|by eapply benign_trans]. Qed.

(** A system call that comes back. *)
Lemma steady_next p w k : benign p (enter w) k -> k_fs k = k_fs (kw_k w) -> steady p w (next w k).
Proof.
  intros Hb Hf. split; [done|done|]. assert (E : enter (next w k) = k); [|by rewrite E].
  pose proof (bn_cpu _ _ _ Hb) as Hc. unfold enter, enter_kernel, next. cbn [kw_k kw_esp kw_ebp].
  change (Cpu (kw_esp w) (kw_ebp w)) with (k_cpu (enter w)). rewrite <- Hc. by destruct k.
Qed.

Lemma steady_store p a c w w' : store a c w = Some (tt, w') -> steady p w w'.
Proof.
  unfold store, bind, get_mem, set_mem, stuck. destruct (in_user a); [|done]. intros [= <-]. split; [done|done|]. apply (benign_with_mem p (enter w)).
Qed.

Lemma store_envs a c w w' : store a c w = Some (tt, w') -> kw_envs w' = kw_envs w.
Proof. unfold store, bind, get_mem, set_mem, stuck. destruct (in_user a); [|done]. by intros [= <-]. Qed.

Lemma steady_write p fd buf n w r w' :
  ece391_write fd buf n w = Some (r, w') -> k_fs (kw_k w') = k_fs (kw_k w) -> steady p w w'.
Proof.
  rewrite call_write. destruct (syscall_write _ _ _ _) as [[r' k']|] eqn:E; [|done]. intros [= <- <-] Hf.
  apply steady_next; [by eapply write_benign|done].
Qed.

Lemma steady_read p fd buf n w r w' :
  ece391_read fd buf n w = Some (r, w') -> k_fs (kw_k w') = k_fs (kw_k w) -> steady p w w'.
Proof.
  rewrite call_read. destruct (syscall_read _ _ _ _ _ _) as [[r' k']|] eqn:E; [|done]. intros [= <- <-] Hf.
  apply steady_next; [by eapply read_benign|done].
Qed.

Lemma get_mem_world w : get_mem w = Some (k_mem (kw_k w), w).
Proof. reflexivity. Qed.

(** [ece391_fdputs(1, s)]. *)
Lemma fdputs_shows p ti v a l w :
  in_process w p -> console p ti v (kw_k w) -> cstr (k_mem (kw_k w)) a l -> 0 < a < 2 ^ 32 ->
  0 < Z.of_nat (length l) < 2 ^ 31 -> write_safe l v ->
  exists w', ece391_fdputs 1 a w = Some (tt, w') /\ in_process w' p /\ kw_envs w' = List.tl (kw_envs w) /\
    console p ti (vt_write l v) (kw_k w') /\ k_mem (kw_k w') = k_mem (kw_k w) /\ steady p w w'.
Proof.
  intros Hp Hc Hs Ha Hl Hw.
  change (ece391_fdputs 1 a w) with (match ece391_write 1 a (ece391_strlen (k_mem (kw_k w)) a) w with
    Some (_, w') => Some (tt, w') | None => None end).
  rewrite (ece391_strlen_cstr _ _ _ Hs) by lia. pose proof (proj1 (proj1 (cstr_spec _ _ _) Hs)) as Hb.
  destruct (write_prints p ti v a (Z.of_nat (length l)) w Hp (co_printer _ _ _ _ Hc) Hl Ha)
    as (w' & E & [Hp' _] & Hq & Hpr & He & Hi); [by rewrite Nat2Z.id, Hb|].
  rewrite Nat2Z.id, Hb in Hpr. rewrite E. exists w'. split; [done|]. split; [done|]. split; [done|].
  split; [by eapply write_console|]. split; [by rewrite (qt_mem _ _ _ Hq)|]. eapply steady_write; [exact E|exact (qt_fs _ _ _ Hq)].
Qed.

(** Reading the line that is typed meanwhile. *)
Lemma read_types p ti v buf keys w :
  in_process w p -> console p ti v (kw_k w) -> e_keys (env_of w) = map press (keys ++ [KEY_ENTER]) ->
  Forall plain_key keys -> (length keys < 128)%nat -> 0 < buf < 2 ^ 32 ->
  let line := map u8 (keys ++ [KEY_ENTER]) in
  exists w', ece391_read 0 buf 1023 w = Some (Z.of_nat (length line), w') /\ in_process w' p /\
    kw_envs w' = List.tl (kw_envs w) /\ console p ti (vt_write line v) (kw_k w') /\
    bytes (k_mem (kw_k w')) buf (length line) = line /\
    unchanged_outside (k_mem (kw_k w)) (k_mem (kw_k w')) buf (Z.of_nat (length line)) /\ steady p w w'.
Proof.
  intros Hp [[A1 A2 A3 A4 A5 A6 A7] [B1 B2] B3 [B4 B5] [B6 B7]] Hk Hpl Hl Hb line.
  assert (Hlen : length line = S (length keys)) by (unfold line; rewrite length_map, length_app; cbn [length]; lia).
  cut (exists w', ece391_read 0 buf 1023 w = Some (Z.of_nat (length line), w') /\ k_fs (kw_k w') = k_fs (kw_k w) /\ in_process w' p /\
    kw_envs w' = List.tl (kw_envs w) /\ console p ti (vt_write line v) (kw_k w') /\ bytes (k_mem (kw_k w')) buf (length line) = line /\
    unchanged_outside (k_mem (kw_k w)) (k_mem (kw_k w')) buf (Z.of_nat (length line))).
  { intros (w' & E & Hf & X1 & X2 & X3 & X4 & X5). exists w'. split_and!; try done. by eapply steady_read. }
  rewrite call_read, (u32_small buf) by lia. change (s32 (u32 0)) with 0. change (s32 (u32 1023)) with 1023.
  unfold syscall_read. rewrite (enter_curr _ _ Hp). change (1023 =? 0) with false.
  change ((FD_MAX <=? 0) || (0 <? FD_MIN) || (0 =? 1)) with false. cbn iota.
  change (pcb_at (enter w) (get_pcb p)) with (pcb_at (kw_k w) (get_pcb p)). unfold fd_open in B1.
  rewrite (proj2 (Z.eqb_neq _ _) B1), (proj2 (Z.eqb_neq buf 0)), B2, Hk, A3 by lia.
  change (k_terms (enter w)) with (k_terms (kw_k w)). change (k_mem (enter w)) with (k_mem (kw_k w)).
  rewrite <- B3 in *.
  destruct (typed_line_spec (k_terms (kw_k w)) v (k_mem (kw_k w)) 0 buf 1023 keys A5 B4 B5 A6 A7 B6 B7 Hpl)
    as (m' & t & -> & Hby & Hu & Hq & Hn & Ha & Hbufs & Hin & Hia & Hv & Hs); [rewrite length_app; cbn [length]; unfold IN_BUF_SIZE; lia|].
  fold line in Hv, Hs. replace (length (keys ++ [KEY_ENTER])) with (length line) in * by (unfold line; apply length_map).
  rewrite B3 in *. set (k' := with_terms _ t).
  assert (Em : k_mem k' = m') by exact (k_mem_with_mem (enter w) m').
  assert (Ek : pcb_at k' (get_pcb p) = pcb_at (kw_k w) (get_pcb p) /\ k_terms k' = t /\ k_fs k' = k_fs (kw_k w)) by done. clearbody k'. destruct Ek as (Ep & Et & Efs).
  exists (next w k'). cbn [kw_k next kw_envs]. rewrite Em. do 4 (split; [done|]). split; [|done].
  split; [split|..]; unfold fd_open; rewrite ?Ep, ?Et; done.
Qed.

(** The buffer as a string once its end is marked. *)
Lemma line_cstr m a l : bytes m a (length l) = l -> Forall (fun c => c <> 0) l -> cstr (st m (a + Z.of_nat (length l)) 0) a l.
Proof.
  intros Hb Hl. apply cstr_spec. rewrite ld_st_eq. split; [|done]. rewrite <- Hb at 3.
  apply bytes_ext. intros i Hi. by rewrite ld_st_ne by lia.
Qed.

Lemma line_bytes keys : Forall plain_key keys ->
  let line := map u8 (keys ++ [KEY_ENTER]) in
  Forall (fun c => c <> 0) line /\ (forall v, write_safe line v) /\ length line = S (length keys).
Proof.
  intros Hk line. assert (Hc : Forall (fun c => s8 c <> KEY_BACKSPACE /\ s8 c <> KEY_DELETE /\ c <> 0) line).
  { apply List.Forall_map, List.Forall_app. split.
    - eapply List.Forall_impl; [|exact Hk]. intros key (Hr & K1 & K2 & K3 & _).
      assert (E : s8 (u8 key) = key) by (unfold s8, u8; Z.div_mod_to_equations; lia). rewrite E.
      split; [done|]. split; [done|]. unfold u8. Z.div_mod_to_equations. lia.
    - constructor; [|constructor]. by vm_compute. }
  split; [|split].
  - eapply List.Forall_impl; [|exact Hc]. by intros c (_ & _ & ?).
  - intros v. apply write_safe_plain. eapply List.Forall_impl; [|exact Hc]. by intros c (? & ? & _).
  - unfold line. rewrite length_map, length_app. cbn [length]. lia.
Qed.

(** A stored byte of the buffer leaves the terminal alone. *)
Lemma store_console p ti v w w' :
  console p ti v (kw_k w) -> k_terms (kw_k w') = k_terms (kw_k w) ->
  (forall b, pcb_at (kw_k w') b = pcb_at (kw_k w) b) -> console p ti v (kw_k w').
Proof.
  intros [A1 A2 A3 A4 A5] Et Ep. split; rewrite ?Et, ?Ep; try done. eapply printer_stable; [exact A1|done|by rewrite Ep..].
Qed.

(** Text outside the buffer stays when the line and its terminator are stored. *)
Lemma text_stable m m' buf n a l :
  text_at m buf a l -> unchanged_outside m m' buf n -> 0 <= n < 1024 -> text_at (st m' (buf + n) 0) buf a l.
Proof.
  intros (Hc & Ha & Ho) Hu Hn. split; [|done]. eapply cstr_ext; [|exact Hc]. intros x Hx.
  rewrite ld_st_ne by lia. apply Hu. lia.
Qed.

(** A prompt and the line that is typed. *)
Lemma prompt_and_read p ti v a prompt buf keys w :
  in_process w p -> console p ti v (kw_k w) -> text_at (k_mem (kw_k w)) buf a prompt ->
  0 < Z.of_nat (length prompt) < 2 ^ 31 -> (forall v, write_safe prompt v) ->
  e_keys (nth 1 (kw_envs w) (Env [] [])) = map press (keys ++ [KEY_ENTER]) -> Forall plain_key keys ->
  (length keys < 128)%nat -> 0 < buf < 2 ^ 32 ->
  let line := map u8 (keys ++ [KEY_ENTER]) in let n := Z.of_nat (length line) in
  exists w1 w2, ece391_fdputs 1 a w = Some (tt, w1) /\ ece391_read 0 buf 1023 w1 = Some (n, w2) /\
    in_process w2 p /\ console p ti (vt_write (prompt ++ line) v) (kw_k w2) /\
    bytes (k_mem (kw_k w2)) buf (length line) = line /\ unchanged_outside (k_mem (kw_k w)) (k_mem (kw_k w2)) buf n /\
    steady p w w2 /\ kw_envs w2 = List.tl (List.tl (kw_envs w)).
Proof.
  intros Hp Hc (Hs & Ha & Ho) Hl Hw Hk Hpl Hlen Hb line n.
  destruct (fdputs_shows p ti v a prompt w Hp Hc Hs Ha Hl (Hw v)) as (w1 & E1 & Hp1 & He1 & Hc1 & Hm1 & Hs1).
  assert (Hk1 : e_keys (env_of w1) = map press (keys ++ [KEY_ENTER])).
  { unfold env_of. rewrite He1, <- Hk. by destruct (kw_envs w) as [|? [|? ?]]. }
  destruct (read_types p ti _ buf keys w1 Hp1 Hc1 Hk1 Hpl Hlen Hb) as (w2 & E2 & Hp2 & He2 & Hc2 & Hby & Hu & Hs2).
  fold line in E2, Hc2, Hby, Hu. fold n in E2, Hu. rewrite Hm1 in Hu. exists w1, w2. split_and!; try done.
  - by rewrite vt_write_app.
  - by eapply steady_trans.
  - congruence.
Qed.

Lemma in_buffer buf i : USER_WINDOW_START <= buf -> buf + 1024 <= USER_WINDOW_END -> 0 <= i < 1024 -> in_user (buf + i) = true.
Proof. intros Hb1 Hb2 Hi. unfold in_user. rewrite (proj2 (Z.leb_le _ _)), (proj2 (Z.ltb_lt _ _)) by lia. done. Qed.

(** What hello and counter share: a prompt, the line that is typed, its end marked. *)
Lemma prompt_and_line p ti v a prompt buf keys w :
  in_process w p -> console p ti v (kw_k w) -> text_at (k_mem (kw_k w)) buf a prompt ->
  0 < Z.of_nat (length prompt) < 2 ^ 31 -> (forall v, write_safe prompt v) ->
  e_keys (nth 1 (kw_envs w) (Env [] [])) = map press (keys ++ [KEY_ENTER]) -> Forall plain_key keys ->
  (length keys < 128)%nat -> USER_WINDOW_START <= buf -> buf + 1024 <= USER_WINDOW_END ->
  let line := map u8 (keys ++ [KEY_ENTER]) in let n := Z.of_nat (length line) in
  exists w1 w2 w3, ece391_fdputs 1 a w = Some (tt, w1) /\ ece391_read 0 buf 1023 w1 = Some (n, w2) /\
    store (buf + n) 0 w2 = Some (tt, w3) /\ in_process w3 p /\ console p ti (vt_write (prompt ++ line) v) (kw_k w3) /\
    cstr (k_mem (kw_k w3)) buf line /\
    (forall b l, text_at (k_mem (kw_k w)) buf b l -> text_at (k_mem (kw_k w3)) buf b l).
Proof.
  intros Hp Hc Hs Hl Hw Hk Hpl Hlen Hb1 Hb2 line n.
  destruct (line_bytes keys Hpl) as (Hz & _ & Hll). fold line in Hz, Hll. unfold USER_WINDOW_START, USER_WINDOW_END in *.
  destruct (prompt_and_read p ti v a prompt buf keys w Hp Hc Hs Hl Hw Hk Hpl Hlen ltac:(lia))
    as (w1 & w2 & E1 & E2 & Hp2 & Hc2 & Hby & Hu & _). fold line in E2, Hc2, Hby, Hu. fold n in E2, Hu.
  destruct (store_gives (buf + n) 0 w2) as (w3 & E3 & Em3 & _ & Et3 & _ & Hp3 & Hin3); [apply in_buffer; done || lia|].
  exists w1, w2, w3. split; [done|]. split; [done|]. split; [done|]. split; [by apply Hin3|]. split; [by eapply store_console|].
  rewrite Em3. split; [by apply line_cstr|]. intros b l Ht. eapply text_stable; [exact Ht|done|lia].
Qed.

(** What the programs need of their process and of the literals they print. *)
Record talk_ready (p ti buf : Z) (v : vt) (keys : list Z) (texts : list string) w : Prop := {
  ta_process : in_process w p;
  ta_console : console p ti v (kw_k w);
  ta_texts : forall s, s ∈ texts -> text_at (k_mem (kw_k w)) buf (lit s) (chars s);
  ta_typed : e_keys (nth 1 (kw_envs w) (Env [] [])) = map press (keys ++ [KEY_ENTER]);
  ta_keys : Forall plain_key keys /\ (length keys < 128)%nat;
  ta_buffer : USER_WINDOW_START <= buf /\ buf + 1024 <= USER_WINDOW_END
}.
End talking.

(** A text without editing characters. *)
Definition plain_text (s : string) : bool :=
  forallb (fun c => negb (s8 c =? KEY_BACKSPACE) && negb (s8 c =? KEY_DELETE)) (chars s) &&
  (0 <? Z.of_nat (length (chars s))) && (Z.of_nat (length (chars s)) <? 2 ^ 31).

Lemma plain_text_safe s : plain_text s = true ->
  0 < Z.of_nat (length (chars s)) < 2 ^ 31 /\ forall v, write_safe (chars s) v.
Proof.
  unfold plain_text. rewrite !andb_true_iff, forallb_forall, !Z.ltb_lt. intros [[Hc Hl] Hl']. split; [lia|].
  intros v. apply write_safe_plain, List.Forall_forall. intros c Hi. specialize (Hc c Hi).
  rewrite andb_true_iff, !negb_true_iff, !Z.eqb_neq in Hc. exact Hc.
Qed.

(** ** Lemmas: the shell *)

(** A line that is read: the newline is taken off, and the command decides how the shell goes on.  For every
    implementation of the calls. *)
Lemma shell_loop_line {W} `{Calls W} `{Literals} fuel buf n (w w1 w2 w3 : W) :
  ece391_fdputs 1 (lit "391OS> ") w = Some (tt, w1) -> ece391_read 0 buf 1023 w1 = Some (n + 1, w2) -> 0 <= n ->
  ld (w_mem w2) (buf + n) = 10 -> store (buf + n) 0 w2 = Some (tt, w3) ->
  shell_loop (S fuel) buf w =
    if ece391_strcmp (w_mem w3) buf (lit "exit") =? 0 then Some (0, w3)
    else if ld (w_mem w3) buf =? 0 then shell_loop fuel buf w3
    else (let! rval := ece391_execute buf in shell_report rval ;; shell_loop fuel buf) w3.
Proof.
  intros E1 E2 Hn Hnl E3. cbn [shell_loop]. unfold puts1 at 1. change (BUFSIZE - 1) with 1023.
  rewrite (bind_some _ _ _ _ _ E1), (bind_some _ _ _ _ _ E2), (proj2 (Z.eqb_neq _ (-1))) by lia.
  assert (G : forall w : W, get_mem w = Some (w_mem w, w)) by done. rewrite (bind_some _ _ _ _ _ (G w2)).
  replace (buf + (n + 1 - 1)) with (buf + n) by lia. rewrite Hnl, (proj2 (Z.ltb_lt 0 _)) by lia.
  change (true && (10 =? 10)) with true. cbn iota. replace (n + 1 - 1) with n by lia.
  rewrite (bind_some _ _ _ _ _ E3), (bind_some _ _ _ _ _ (G w3)).
  by destruct (_ =? 0); [|destruct (_ =? 0)].
Qed.

Section shell.
Context {D : Type} `{Machine D} `{LayoutLaws} `{Literals}.
Implicit Types (w : kworld D) (k : kernel D).

(** The characters that the keys give. *)
Lemma typed_text keys : Forall plain_key keys ->
  map u8 (keys ++ [KEY_ENTER]) = map u8 keys ++ [10] /\ Forall (fun c => c <> 0) (map u8 keys).
Proof.
  intros Hk. rewrite map_app. split; [done|]. destruct (line_bytes keys Hk) as (Hz & _). rewrite map_app in Hz.
  by apply List.Forall_app in Hz as [Hz _].
Qed.

(** A round of the shell up to its test of the command. *)
Lemma shell_types p ti v buf keys w :
  talk_ready p ti buf v keys ["391OS> "; "exit"]%string w ->
  exists w1 w2 w3, ece391_fdputs 1 (lit "391OS> ") w = Some (tt, w1) /\
    ece391_read 0 buf 1023 w1 = Some (Z.of_nat (length keys) + 1, w2) /\
    ld (k_mem (kw_k w2)) (buf + Z.of_nat (length keys)) = 10 /\ store (buf + Z.of_nat (length keys)) 0 w2 = Some (tt, w3) /\
    in_process w3 p /\ console p ti (vt_write (chars "391OS> " ++ map u8 (keys ++ [KEY_ENTER])) v) (kw_k w3) /\
    cstr (k_mem (kw_k w3)) buf (map u8 keys) /\ cstr (k_mem (kw_k w3)) (lit "exit") (chars "exit") /\
    unchanged_outside (k_mem (kw_k w)) (k_mem (kw_k w3)) buf 1024 /\ steady p w w3 /\
    kw_envs w3 = List.tl (List.tl (kw_envs w)).
Proof.
  intros [A1 A2 A3 A4 [A5 A6] [A7 A8]]. destruct (plain_text_safe "391OS> " eq_refl) as [Hl1 Hs1].
  destruct (typed_text keys A5) as [Eline Hz]. unfold USER_WINDOW_START, USER_WINDOW_END in *.
  destruct (prompt_and_read p ti v _ _ buf keys w A1 A2 (A3 "391OS> "%string ltac:(by constructor)) Hl1 Hs1 A4 A5 A6 ltac:(lia))
    as (w1 & w2 & E1 & E2 & Hp2 & Hc2 & Hby & Hu & Hst & Hen). rewrite Eline in *. set (text := map u8 keys) in *.
  assert (Hlen : length (text ++ [10]) = S (length text)) by (rewrite length_app; cbn [length]; lia).
  assert (Htl : length text = length keys) by apply length_map. rewrite Hlen, Htl in *.
  replace (Z.of_nat (S (length keys))) with (Z.of_nat (length keys) + 1) in * by lia.
  destruct (store_gives (buf + Z.of_nat (length keys)) 0 w2) as (w3 & E3 & Em3 & Ef3 & Et3 & Hf3 & Hp3 & Hin3);
    [apply in_buffer; unfold USER_WINDOW_START, USER_WINDOW_END; lia|].
  assert (Hu3 : unchanged_outside (k_mem (kw_k w)) (k_mem (kw_k w3)) buf 1024).
  { intros x Hx. rewrite Em3, ld_st_ne by lia. apply Hu. lia. }
  exists w1, w2, w3. split; [exact E1|]. split; [exact E2|]. split.
  { rewrite <- (nth_bytes _ (S (length keys)) buf (length keys)) by lia. rewrite Hby, <- Htl. by apply nth_middle. }
  split; [exact E3|]. split; [by apply Hin3|]. split; [by eapply store_console|]. split; [|split; [|split; [exact Hu3|]]].
  - rewrite Em3, <- Htl. apply line_cstr; [|done]. assert (Hb' := f_equal (take (length text)) Hby).
    rewrite take_app_length in Hb'. rewrite <- Hb' at 2. rewrite <- Htl. replace (S (length text)) with (length text + 1)%nat by lia.
    rewrite bytes_app, take_app_length'; [done|by rewrite length_bytes].
  - destruct (A3 "exit"%string ltac:(by repeat constructor)) as (Hlit & _ & Hap).
    apply (cstr_ext (k_mem (kw_k w))); [|exact Hlit]. intros x Hx. apply Hu3. lia.
  - split; [eapply steady_trans; [exact Hst|by eapply steady_store]|]. by rewrite (store_envs _ _ _ _ E3).
Qed.

(** One round of the shell up to the call: what it does with a line that is not empty and not "exit". *)
Lemma shell_round p ti v buf keys w fuel :
  talk_ready p ti buf v keys ["391OS> "; "exit"]%string w -> keys <> [] -> map u8 keys <> chars "exit" ->
  exists w', shell_loop (S fuel) buf w =
      (let! rval := ece391_execute buf in shell_report rval ;; shell_loop fuel buf) w' /\
    in_process w' p /\ console p ti (vt_write (chars "391OS> " ++ map u8 (keys ++ [KEY_ENTER])) v) (kw_k w') /\
    cstr (k_mem (kw_k w')) buf (map u8 keys) /\ unchanged_outside (k_mem (kw_k w)) (k_mem (kw_k w')) buf 1024 /\
    steady p w w'.
Proof.
  intros Ht Hne Hex. destruct (shell_types p ti v buf keys w Ht) as (w1 & w2 & w3 & E1 & E2 & Hnl & E3 & Hp3 & Hc3 & Hcmd & Hexit & Hu & Hst & _).
  exists w3. split; [|done]. rewrite (shell_loop_line fuel buf _ w w1 w2 w3 E1 E2 ltac:(lia) Hnl E3).
  change (w_mem w3) with (k_mem (kw_k w3)). rewrite (proj2 (Z.eqb_neq _ _)).
  - destruct keys as [|key keys]; [done|]. destruct Hcmd as (-> & Hc & _). by rewrite (proj2 (Z.eqb_neq _ _) Hc).
  - intros E. by apply (ece391_strcmp_eq _ _ _ _ _ Hcmd Hexit) in E.
Qed.

(** The shell's process can start programs. *)
Lemma steady_caller p fr buf w w' :
  steady p w w' -> caller (enter w) fr p -> off_image (k_fs (kw_k w)) (k_mem (kw_k w)) buf 1024 ->
  unchanged_outside (k_mem (kw_k w)) (k_mem (kw_k w')) buf 1024 -> caller (enter w') fr p.
Proof.
  intros [Sf _ Sb] [C1 C2 C3 C4 C5] Hb Hu. split.
  - by eapply benign_runs.
  - by rewrite (bn_pids _ _ _ Sb).
  - by rewrite (bn_pids _ _ _ Sb).
  - by apply (bn_space _ _ _ Sb).
  - change (k_fs (enter w')) with (k_fs (kw_k w')). rewrite Sf. apply (exec_frame_stable _ (k_mem (kw_k w))); [|exact C5].
    by eapply outside_same_image.
Qed.

Lemma call_execute w command :
  syscall_linkage (kw_frame w) (env_of w) (Regs SYS_EXECUTE (u32 command) (u32 0) (u32 0)) (enter w) =
  syscall_execute (kw_frame w) (u32 command) (enter w).
Proof. rewrite <- (u32_u32 command) at 2. reflexivity. Qed.
End shell.

(** ** Properties *)

(** C19: hello greets.  In a process whose standard descriptors are the terminal on the display, when
    a line of up to 127 characters and Enter are typed while it waits, [hello_main] returns 0 and
    the terminal shows, after what it showed, the question, the line as it was typed, and the
    greeting with the same line. *)
Theorem hello_greets {D} `{Machine D} `{LayoutLaws} `{Literals} (w : kworld D) p ti v buf keys :
  talk_ready p ti buf v keys ["Hi, what's your name? "; "Hello, "]%string w ->
  let line := map u8 (keys ++ [KEY_ENTER]) in
  exists w', hello_main buf w = Some (0, w') /\ in_process w' p /\
    shows (k_terms (kw_k w')) ti (vt_write (chars "Hi, what's your name? " ++ line ++ chars "Hello, " ++ line) v).
Proof.
  intros [A1 A2 A3 A4 [A5 A6] [A7 A8]] line.
  destruct (plain_text_safe "Hi, what's your name? " eq_refl) as [Hl1 Hs1].
  destruct (plain_text_safe "Hello, " eq_refl) as [Hl2 Hs2]. destruct (line_bytes keys A5) as (_ & Hs3 & Hl3). fold line in Hs3, Hl3.
  destruct (prompt_and_line p ti v _ _ buf keys w A1 A2 (A3 "Hi, what's your name? "%string ltac:(by constructor)) Hl1 Hs1 A4 A5 A6 A7 A8)
    as (w1 & w2 & w3 & E1 & E2 & E3 & Hp3 & Hc3 & Hline & Ht). fold line in E2, E3, Hc3, Hline.
  destruct (Ht _ _ (A3 "Hello, "%string ltac:(by repeat constructor))) as (Hlit & Hlit' & _).
  destruct (fdputs_shows p ti _ _ _ w3 Hp3 Hc3 Hlit Hlit' Hl2 (Hs2 _)) as (w4 & E4 & Hp4 & _ & Hc4 & Hm4 & _).
  rewrite <- Hm4 in Hline. unfold USER_WINDOW_START, USER_WINDOW_END in *.
  destruct (fdputs_shows p ti _ buf line w4 Hp4 Hc4 Hline ltac:(lia) ltac:(lia) (Hs3 _)) as (w5 & E5 & Hp5 & _ & Hc5 & _ & _).
  exists w5. unfold hello_main, puts1. change (BUFSIZE - 1) with 1023.
  rewrite (bind_some _ _ _ _ _ E1), (bind_some _ _ _ _ _ E2), (proj2 (Z.eqb_neq _ (-1))) by lia.
  rewrite (bind_some _ _ _ _ _ E3), (bind_some _ _ _ _ _ E4), (bind_some _ _ _ _ _ E5).
  split; [done|]. split; [done|]. pose proof (pr_shows _ _ _ _ (co_printer _ _ _ _ Hc5)) as Hsh.
  by rewrite !vt_write_app in *.
Qed.

(** counter never counts.  Its menu asks for 0, 1 or 2, but whatever line is typed, the newline that
    ends it is part of what [ece391_read] returns, so the string is never a single digit and
    [counter_main] always prints "Wrong Choice!" and returns. *)
Theorem counter_never_counts {D} `{Machine D} `{LayoutLaws} `{Literals} (w : kworld D) p ti v buf keys :
  let menu := ("Enter the Test Number: (0): 100, (1): 10000, (2): 100000" ++ nl)%string in
  let wrong := ("Wrong Choice!" ++ nl)%string in
  talk_ready p ti buf v keys [menu; wrong] w ->
  exists w', counter_main buf w = Some (0, w') /\ in_process w' p /\
    shows (k_terms (kw_k w')) ti (vt_write (chars menu ++ map u8 (keys ++ [KEY_ENTER]) ++ chars wrong) v).
Proof.
  intros menu wrong [A1 A2 A3 A4 [A5 A6] [A7 A8]]. set (line := map u8 _).
  destruct (plain_text_safe menu eq_refl) as [Hl1 Hs1].
  destruct (plain_text_safe wrong eq_refl) as [Hl2 Hs2]. destruct (line_bytes keys A5) as (_ & _ & Hl3). fold line in Hl3.
  destruct (prompt_and_line p ti v _ _ buf keys w A1 A2 (A3 menu ltac:(by constructor)) Hl1 Hs1 A4 A5 A6 A7 A8)
    as (w1 & w2 & w3 & E1 & E2 & E3 & Hp3 & Hc3 & Hline & Ht). fold line in E2, E3, Hc3, Hline.
  destruct (Ht _ _ (A3 wrong ltac:(by repeat constructor))) as (Hlit & Hlit' & _).
  destruct (fdputs_shows p ti _ _ _ w3 Hp3 Hc3 Hlit Hlit' Hl2 (Hs2 _)) as (w4 & E4 & Hp4 & _ & Hc4 & Hm4 & _).
  unfold USER_WINDOW_START, USER_WINDOW_END in *.
  exists w4. unfold counter_main, puts1. change (BUFSIZE - 1) with 1023. fold menu.
  assert (Hn : Z.of_nat (length line) <> u32 (-1)) by (change (u32 (-1)) with (2 ^ 32 - 1); lia).
  rewrite (bind_some _ _ _ _ _ E1), (bind_some _ _ _ _ _ E2), (u32_small (Z.of_nat _)), (proj2 (Z.eqb_neq _ _) Hn), u32_small by lia.
  rewrite (bind_some _ _ _ _ _ E3), (bind_some _ _ _ _ _ (get_mem_world w3)).
  rewrite (ece391_strlen_cstr _ _ _ Hline) by lia.
  assert (Ew : ((1 <? Z.of_nat (length line)) || ((Z.of_nat (length line) =? 1) &&
    ((ld (k_mem (kw_k w3)) buf <? 48) || (50 <? ld (k_mem (kw_k w3)) buf)))) = true).
  { destruct (Z.ltb_spec 1 (Z.of_nat (length line))); [done|]. destruct keys as [|? ?]; [|cbn [length] in Hl3; lia].
    destruct Hline as (E & _). change (u8 KEY_ENTER) with 10 in E. by rewrite E. }
  rewrite Ew. fold wrong. rewrite (bind_some _ _ _ _ _ E4).
  split; [done|]. split; [done|]. pose proof (pr_shows _ _ _ _ (co_printer _ _ _ _ Hc4)) as Hsh.
  by rewrite !vt_write_app in *.
Qed.

(** A command typed at the shell.  When "name args" and Enter are typed at the prompt, for an
    executable file of the image, the shell shows the prompt and the line, marks the end of the command
    and calls execute with it; the call enters the new process: a fresh identifier, its address space
    with the program, the typed arguments in its control block, its terminal and parent those of the
    shell, scheduled in the shell's place, at the entry point of the file.  After the call the shell
    reports on the result and goes on with its next line. *)
Theorem shell_starts_typed_program {D} `{Machine D} `{LayoutLaws} `{Literals} (w : kworld D) p ti v buf keys name a c i fuel :
  talk_ready p ti buf v keys ["391OS> "; "exit"]%string w -> caller (enter w) (kw_frame w) p ->
  executable (k_fs (kw_k w)) (k_mem (kw_k w)) name c i -> off_image (k_fs (kw_k w)) (k_mem (kw_k w)) buf 1024 ->
  map u8 keys = name ++ 32 :: a -> Forall (fun ch => ch <> 32) name -> (length name < 32)%nat -> (length a < 100)%nat ->
  exists w' q k', shell_loop (S fuel) buf w =
      (let! rval := ece391_execute buf in shell_report rval ;; shell_loop fuel buf) w' /\
    shows (k_terms (kw_k w')) ti (vt_write (chars "391OS> " ++ map u8 (keys ++ [KEY_ENTER])) v) /\
    syscall_linkage (kw_frame w') (env_of w') (Regs SYS_EXECUTE (u32 buf) (u32 0) (u32 0)) (enter w') =
      Some (SUser (entry_of c) k') /\
    executed (enter w') k' (kw_frame w') p q c a /\ Pcb.term (pcb_at k' (get_pcb q)) = Pcb.term (pcb_at (kw_k w') (get_pcb p)) /\
    has_args (pcb_at k' (get_pcb q)) a.
Proof.
  intros Htalk Hca Hx Hb Ekeys Hsp Hn Ha. destruct (ta_buffer _ _ _ _ _ _ _ Htalk) as [Hb1 Hb2].
  destruct (shell_round p ti v buf keys w fuel Htalk) as (w' & E & Hp' & Hc' & Hcmd & Hu & Hst).
  { intros ->. by destruct name. }
  { rewrite Ekeys. intros Eex. assert (Hin : 32 ∈ chars "exit") by (rewrite <- Eex; apply elem_of_app; right; by constructor).
    apply list_elem_of_In in Hin. cbn in Hin. lia. }
  pose proof (steady_caller p (kw_frame w) buf w w' Hst Hca Hb Hu) as Hca'. rewrite <- (sd_frame _ _ _ Hst) in Hca'.
  pose proof (exec_frame_facts _ _ _ (ca_frame _ _ _ Hca')) as (_ & _ & _ & _ & _ & _ & Hw & _). unfold USER_WINDOW_START, USER_WINDOW_END in *.
  assert (Hcl : command_line (k_mem (enter w')) (kw_frame w') buf (name ++ 32 :: a)).
  { rewrite <- Ekeys. split; [exact Hcmd|]. split; [lia|]. split; right; lia. }
  assert (Hx' : executable (k_fs (enter w')) (k_mem (enter w')) name c i).
  { change (k_fs (enter w')) with (k_fs (kw_k w')). rewrite (sd_fs _ _ _ Hst).
    apply (executable_stable _ (k_mem (kw_k w))); [lia|by eapply outside_same_image|exact Hx]. }
  destruct (execute_command_line (kw_frame w') buf (enter w') p name a c i Hca' Hx' Hcl Hsp Hn ltac:(lia)) as (q & k' & Ee & Hex).
  exists w', q, k'. split; [exact E|]. split; [exact (pr_shows _ _ _ _ (co_printer _ _ _ _ Hc'))|]. split.
  { rewrite call_execute, u32_small by lia. exact Ee. }
  split; [exact Hex|]. destruct (ex_args _ _ _ _ _ _ _ Hex) as [Hargs Hterm]; [lia|]. by split.
Qed.

(** ** Witnesses *)

Definition menu_text : string := ("Enter the Test Number: (0): 100, (1): 10000, (2): 100000" ++ nl)%string.

#[local] Instance talk_literals : Literals := {|
  lit s := if String.eqb s "Hi, what's your name? " then 0x8048200 else if String.eqb s "Hello, " then 0x8048240
    else if String.eqb s menu_text then 0x8048280 else if String.eqb s "391OS> " then 0x8048340
    else if String.eqb s "exit" then 0x8048360 else 0x8048300
|}.

Definition talk_window : arr :=
  um (st_list (st_list (st_list (st_list (st_list (st_list mem_empty 0x8048200 (chars "Hi, what's your name? "))
    0x8048240 (chars "Hello, ")) 0x8048280 (chars menu_text)) 0x8048300 (chars ("Wrong Choice!" ++ nl)%string))
    0x8048340 (chars "391OS> ")) 0x8048360 (chars "exit")).

Definition sample_talk : kernel sim :=
  set_pcb (Kernel (k_km sample_exec) (<[1 := talk_window]> ∅) (k_paging sample_exec) (k_pid_usage sample_exec)
    (k_sched sample_exec) (k_pcbs sample_exec) (k_terms sample_exec) (k_fs sample_exec) (k_rtc_flag sample_exec)
    (k_tss sample_exec) (k_cpu sample_exec)) (get_pcb 1) (pcb_init (Pcb ∅ 0 0 0 0 1 ∅ 0 0 0 0 0)).2.

(** A text and Enter are typed during the second call. *)
Definition typing_world (s : string) : kworld sim :=
  KW sample_talk [Env [] []; Env [] (map press (chars s ++ [KEY_ENTER]))] sample_frame (KERNEL_STACK 1 - 64) 0.

Definition talk_world : kworld sim := typing_world "2".

Lemma sample_talk_mem : k_mem sample_talk = Mem (km sample_image) talk_window.
Proof.
  unfold k_mem. assert (E : cur_space sample_talk = 1) by (by vm_compute). rewrite E.
  change (k_frames sample_talk) with (<[1 := talk_window]> (∅ : gmap Z arr)).
  change (k_km sample_talk) with (km sample_image). by rewrite lookup_insert_eq.
Qed.

Lemma talk_pcb : pcb_at sample_talk (get_pcb 1) = (pcb_init (Pcb ∅ 0 0 0 0 1 ∅ 0 0 0 0 0)).2.
Proof. apply pcb_at_set_eq. Qed.

Lemma talk_descriptors j : j = 0 \/ j = 1 ->
  fd_open (pcb_at sample_talk (get_pcb 1)) j /\ file_operation_jmp_tbl (elem (pcb_at sample_talk (get_pcb 1)) j) = terminal_driver.
Proof. rewrite talk_pcb. intros [-> | ->]; split; by vm_compute. Qed.

Lemma talk_term : Pcb.term (pcb_at sample_talk (get_pcb 1)) = 0 /\ 0 <= 0 < NR_TERM.
Proof. rewrite talk_pcb. by vm_compute. Qed.

Lemma talk_console : console 1 0 blank_vt sample_talk.
Proof.
  destruct talk_term as [Ht Hr]. destruct (talk_descriptors 0 (or_introl eq_refl)) as [H0 H0'].
  destruct (talk_descriptors 1 (or_intror eq_refl)) as [H1 H1'].
  destruct sample_terms_ok as (Hb & Ha & Hs & Hq & Hi & Hn & Hact). split.
  - split; [exact H1|exact H1'|exact Ht|exact Hr|exact Hb|exact blank_vt_ok|exact Hs].
  - split; [exact H0|exact H0'].
  - exact Ha.
  - split; [exact Hi|]. change (k_terms sample_talk) with sample_terms. rewrite Hact. discriminate.
  - split; [exact Hn|exact Hq].
Qed.

(** [text_at] by evaluation. *)
Lemma talk_text m buf a l :
  forallb (fun c => negb (c =? 0)) l = true -> bytes m a (length l) = l -> ld m (a + Z.of_nat (length l)) = 0 ->
  (0 <? a) && (a <? 2 ^ 32) && (a + Z.of_nat (length l) <? buf) = true -> text_at m buf a l.
Proof.
  rewrite forallb_forall, !andb_true_iff, !Z.ltb_lt. intros Hl Hb He [[? ?] ?]. split; [|split; [done|by left]].
  apply cstr_spec. split; [done|]. split; [|done]. apply List.Forall_forall. intros c Hc.
  specialize (Hl c Hc). by rewrite negb_true_iff, Z.eqb_neq in Hl.
Qed.

Lemma typing_world_ready s texts : Forall plain_key (chars s) -> (length (chars s) < 128)%nat ->
  (forall s, s ∈ texts -> text_at (Mem (km sample_image) talk_window) 0x8200000 (lit s) (chars s)) ->
  talk_ready 1 0 0x8200000 blank_vt (chars s) texts (typing_world s).
Proof.
  intros Hk Hl Ht. split; [by vm_compute|exact talk_console| |reflexivity|done|by vm_compute].
  change (kw_k (typing_world s)) with sample_talk. by rewrite sample_talk_mem.
Qed.

Lemma talk_world_ready texts :
  (forall s, s ∈ texts -> text_at (Mem (km sample_image) talk_window) 0x8200000 (lit s) (chars s)) ->
  talk_ready 1 0 0x8200000 blank_vt (chars "2") texts talk_world.
Proof.
  apply typing_world_ready; [|apply Nat.leb_le; by vm_compute]. constructor; [|constructor]. by vm_compute.
Qed.

Lemma hello_greets_witness :
  exists w', hello_main 0x8200000 talk_world = Some (0, w') /\
    shows (k_terms (kw_k w')) 0 (vt_write (chars "Hi, what's your name? " ++ [50; 10] ++ chars "Hello, " ++ [50; 10]) blank_vt).
Proof.
  destruct (hello_greets talk_world 1 0 blank_vt 0x8200000 (chars "2")) as (w' & E & _ & Hs).
  - apply talk_world_ready. intros s. rewrite !elem_of_cons, elem_of_nil.
    intros [->|[->|[]]]; apply talk_text; by vm_compute.
  - exists w'. split; [exact E|exact Hs].
Defined.

Lemma counter_never_counts_witness :
  exists w', counter_main 0x8200000 talk_world = Some (0, w') /\
    shows (k_terms (kw_k w')) 0 (vt_write (chars menu_text ++ [50; 10] ++ chars ("Wrong Choice!" ++ nl)%string) blank_vt).
Proof.
  destruct (counter_never_counts talk_world 1 0 blank_vt 0x8200000 (chars "2")) as (w' & E & _ & Hs).
  - apply talk_world_ready. intros s. rewrite !elem_of_cons, elem_of_nil.
    intros [->|[->|[]]]; apply talk_text; by vm_compute.
  - exists w'. split; [exact E|exact Hs].
Defined.

Lemma sample_typing_image s : same_image sample_fs sample_image (k_mem (kw_k (typing_world s))).
Proof.
  assert (E : image_end sample_fs sample_image = 0x414000) by (by vm_compute).
  intros x Hx. rewrite E in Hx. cbn [boot_block sample_fs] in Hx. change (kw_k (typing_world s)) with sample_talk.
  rewrite sample_talk_mem. unfold ld. rewrite below_window by (unfold USER_WINDOW_START; lia). done.
Qed.

Lemma sample_typing_caller s : caller (enter (typing_world s)) sample_frame 1.
Proof.
  destruct sample_caller as [_ C2 C3 C4 _]. split; [by vm_compute|exact C2|exact C3|exact C4|].
  apply (exec_frame_stable sample_fs sample_image); [exact (sample_typing_image s)|]. split.
  - unfold locals. repeat apply List.Forall_cons; [..|apply List.Forall_nil];
      (split; [apply sample_off; by vm_compute|by vm_compute]).
  - unfold locals. repeat apply List.FOP_cons; [..|apply List.FOP_nil];
      repeat apply List.Forall_cons; try apply List.Forall_nil; left; by vm_compute.
  - by vm_compute.
Qed.

Lemma sample_typing_executable s : executable sample_fs (k_mem (kw_k (typing_world s))) (chars "sh") sample_elf 2.
Proof.
  apply (executable_stable sample_fs (k_mem sample_exec)); [apply Nat.leb_le; by vm_compute| |exact sample_executable].
  intros x Hx. rewrite (sample_typing_image s), sample_exec_image; [done| |];
    by rewrite (image_end_stable sample_fs sample_image) in Hx by exact sample_exec_image.
Qed.

Lemma shell_starts_typed_program_witness :
  exists w' q k', syscall_linkage (kw_frame w') (env_of w') (Regs 2 0x8200000 0 0) (enter w') = Some (SUser 0x8048074 k') /\
    has_args (pcb_at k' (get_pcb q)) (chars "hi").
Proof.
  destruct (shell_starts_typed_program (typing_world "sh hi") 1 0 blank_vt 0x8200000 (chars "sh hi") (chars "sh") (chars "hi") sample_elf 2 0)
    as (w' & q & k' & _ & _ & E & _ & _ & Ha).
  - apply typing_world_ready; [|apply Nat.leb_le; by vm_compute|].
    + repeat (constructor; [by vm_compute|]). constructor.
    + intros s. rewrite !elem_of_cons, elem_of_nil. intros [->|[->|[]]]; apply talk_text; by vm_compute.
  - apply sample_typing_caller.
  - apply sample_typing_executable.
  - apply (off_image_stable sample_fs sample_image); [exact (sample_typing_image _)|apply sample_off; by vm_compute].
  - reflexivity.
  - apply List.Forall_forall. intros ch Hch. cbn in Hch. lia.
  - apply Nat.leb_le. by vm_compute.
  - apply Nat.leb_le. by vm_compute.
  - exists w', q, k'. split; [|exact Ha]. exact E.
Defined.
