(* ===== verification/Grep.v ===== *)
(** * grep on the kernel

    What [do_one_file] of ece391grep.c leaves on the screen for a text file: every line that
    contains the string, after the name of the file.  The file goes through a buffer of 1024
    bytes, whose last line, when it is not complete, is moved to the front before the next read. *)

From S2P Require Import Prelude Mem LibString Console Machine I8259 Rtc Tasks Pcb Fs Paging Termios Keyboard Kernel Scheduling Syscall Execute FileCalls Linkage System Shell User Programs Userland Utilities Interactive.

(** ** Specification: lines and matches *)

(** The lines of a text; the last one may be empty. *)
Fixpoint lines (t : list Z) : list (list Z) :=
  match t with
  | [] => [ [] ]
  | c :: t' =>
      if c =? 10 then [] :: lines t'
      else match lines t' with l :: ls => (c :: l) :: ls | [] => [ [c] ] end
  end.

Fixpoint prefix (s l : list Z) : bool :=
  match s, l with
  | [], _ => true
  | c :: s', d :: l' => (c =? d) && prefix s' l'
  | _ :: _, [] => false
  end.

Fixpoint contains (s l : list Z) : bool :=
  prefix s l || match l with [] => false | _ :: l' => contains s l' end.

(** What is printed for one line, and for the lines of a text. *)
Definition report (name s l : list Z) : list Z := if contains s l then name ++ [58] ++ l ++ [10] else [].

Definition reports (name s : list Z) (ls : list (list Z)) : list Z := concat (map (report name s) ls).

(** The lines of one buffer that are searched, and the text that is kept for the next one: the
    last line, unless it is the only one or nothing has been read. *)
Fixpoint scan (first more : bool) (ls : list (list Z)) : list (list Z) * list Z :=
  match ls with
  | [] => ([], [])
  | [l] => if more && negb first then ([], l) else ([l], [])
  | [l; []] => ([l], [])
  | l :: ls' => let '(p, r) := scan false more ls' in (l :: p, r)
  end.

(** ** Lemmas: lines *)

Definition no_newline (l : list Z) : Prop := Forall (fun c => c <> 10) l.

Lemma lines_newline l t : no_newline l -> lines (l ++ 10 :: t) = l :: lines t.
Proof.
  induction 1 as [|c l Hc Hl IH]; [done|]. cbn [app lines]. by rewrite (proj2 (Z.eqb_neq c 10) Hc), IH.
Qed.

Lemma lines_single l : no_newline l -> lines l = [l].
Proof. induction 1 as [|c l Hc Hl IH]; [done|]. cbn [lines]. by rewrite (proj2 (Z.eqb_neq c 10) Hc), IH. Qed.

(** A text is one line or starts with one. *)
Lemma line_cases t : no_newline t \/ exists l t', t = l ++ 10 :: t' /\ no_newline l.
Proof.
  induction t as [|c t IH]; [left; constructor|]. destruct (Z.eq_dec c 10) as [->|Hc].
  - right. exists [], t. split; [done|constructor].
  - destruct IH as [Ht|(l & t' & -> & Hl)]; [left; by constructor|]. right. exists (c :: l), t'. split; [done|by constructor].
Qed.

(** Texts by their lines. *)
Lemma text_ind (P : list Z -> Prop) :
  (forall l, no_newline l -> P l) -> (forall l t, no_newline l -> P t -> P (l ++ 10 :: t)) -> forall t, P t.
Proof.
  intros H1 H2 t. remember (length t) as n eqn:En. revert t En.
  induction n as [n IH] using (well_founded_induction lt_wf). intros t ->.
  destruct (line_cases t) as [Ht|(l & t' & -> & Hl)]; [by apply H1|]. apply H2; [done|].
  apply (IH (length t')); [|done]. rewrite length_app. cbn [length]. lia.
Qed.

Lemma lines_nonempty t : exists l ls, lines t = l :: ls.
Proof.
  induction t as [l Hl|l t Hl IH] using text_ind; [rewrite lines_single by done|rewrite lines_newline by done]; by eexists _, _.
Qed.

Lemma reports_app name s l1 l2 : reports name s (l1 ++ l2) = reports name s l1 ++ reports name s l2.
Proof. unfold reports. by rewrite map_app, concat_app. Qed.

Lemma reports_cons name s l ls : reports name s (l :: ls) = report name s l ++ reports name s ls.
Proof. reflexivity. Qed.

Lemma contains_nil s : s <> [] -> contains s [] = false.
Proof. by destruct s. Qed.

Lemma report_nil name s : s <> [] -> report name s [] = [].
Proof. intros Hs. unfold report. by rewrite (contains_nil s Hs). Qed.

(** *** The buffers of a text *)

(** The lines from [t] on fit into the buffer. *)
Definition short_lines (t : list Z) : Prop := Forall (fun l => (length l <= 1024)%nat) (lines t).

Lemma short_full l r : no_newline l -> (1024 <= length l)%nat -> short_lines (l ++ r) -> r = [] \/ exists r', r = 10 :: r'.
Proof.
  intros Hl Hn Hsh. unfold short_lines in Hsh. destruct (line_cases r) as [Hr|(l2 & r' & -> & Hl2)].
  - rewrite lines_single in Hsh by (by apply List.Forall_app). inversion Hsh as [|? ? Hle _]; subst. rewrite length_app in Hle.
    left. apply nil_length_inv. lia.
  - rewrite app_assoc, lines_newline in Hsh by (by apply List.Forall_app). inversion Hsh as [|? ? Hle _]; subst. rewrite length_app in Hle.
    right. exists r'. by rewrite (nil_length_inv l2) by lia.
Qed.

Lemma lines_not_empty t : t <> [] -> lines t <> [ [] ].
Proof.
  intros Ht. destruct (line_cases t) as [Hl|(l & t' & -> & Hl)]; [rewrite lines_single by done; congruence|].
  rewrite lines_newline by done. destruct (lines_nonempty t') as (? & ? & ->). done.
Qed.

Lemma scan_cons first more l t : t <> [] ->
  scan first more (l :: lines t) = let '(p, r) := scan false more (lines t) in (l :: p, r).
Proof. intros Ht. pose proof (lines_not_empty t Ht) as Hne. destruct (lines_nonempty t) as (x & ls & E). rewrite E in *. by destruct x, ls. Qed.

(** What one buffer [t] leaves, with [r] still in the file. *)
Record scanned (name s t r : list Z) (first : bool) (p : list (list Z)) (q : list Z) : Prop := {
  sc_reports : reports name s (lines (t ++ r)) = reports name s p ++ reports name s (lines (q ++ r));
  sc_short : short_lines (q ++ r);
  sc_line : no_newline q;
  sc_suffix : exists x, t = x ++ q /\ (first = true -> q = [] \/ x <> [])
}.

(** One buffer: what is printed for it and for the rest is what is printed for both together.
    A single line that is not complete is the whole buffer of 1024 bytes or the end of the text. *)
Lemma scan_reports name s r : s <> [] -> forall t first more,
  short_lines (t ++ r) -> (more = false -> r = []) -> (first = true -> (length t < 1024)%nat -> r = []) ->
  scanned name s t r first (scan first more (lines t)).1 (scan first more (lines t)).2.
Proof.
  intros Hs t. induction t as [l Hl|l t Hl IH] using text_ind; intros first more Hsh Hmore Hfirst.
  - rewrite (lines_single l Hl). cbn [scan]. destruct (more && negb first) eqn:Ec.
    + apply andb_true_iff in Ec as [_ ->%negb_true_iff]. split; try done. by exists [].
    + assert (Hr : r = [] \/ exists r', r = 10 :: r').
      { apply andb_false_iff in Ec as [->|Ef%negb_false_iff]; [left; by apply Hmore|].
        destruct (Nat.lt_ge_cases (length l) 1024); [left; by apply Hfirst|by apply (short_full l)]. }
      cbn [fst snd]. split; [..|constructor|exists l; rewrite app_nil_r; split; [done|by left]].
      * rewrite reports_cons. destruct Hr as [->|[r' ->]].
        -- rewrite app_nil_r, lines_single by done. rewrite reports_cons. cbn [app]. rewrite (lines_single []) by constructor.
           rewrite (reports_cons _ _ [] []), report_nil by done. cbn [reports map concat app]. by rewrite !app_nil_r.
        -- rewrite lines_newline by done. cbn [app]. change (10 :: r') with ([] ++ 10 :: r'). rewrite (lines_newline []) by constructor.
           rewrite !reports_cons, report_nil by done. cbn [reports map concat app]. by rewrite app_nil_r.
      * cbn [app]. destruct Hr as [->|[r' ->]]; [repeat constructor; cbn; lia|]. unfold short_lines in *. rewrite lines_newline in Hsh by done.
        inversion Hsh; subst. constructor; [cbn; lia|done].
  - rewrite (lines_newline l t Hl). rewrite <- app_assoc in Hsh. cbn [app] in Hsh. unfold short_lines in Hsh. rewrite lines_newline in Hsh by done.
    inversion Hsh as [|? ? _ Hsh']; subst. rewrite !length_app in *. cbn [length] in *.
    destruct (decide (t = [])) as [->|Ht].
    + change (scan first more (l :: lines [])) with ([l], @nil Z). cbn [fst snd app] in *. split; cbn [app].
      * rewrite <- app_assoc. cbn [app]. rewrite lines_newline by done. by rewrite !reports_cons, <- app_assoc.
      * exact Hsh'.
      * constructor.
      * exists (l ++ [10]). rewrite app_nil_r. split; [done|by left].
    + rewrite scan_cons by done. destruct (IH false more Hsh' Hmore ltac:(done)) as [I1 I2 I3 (x & I4 & _)].
      destruct (scan false more (lines t)) as [p q]. cbn [fst snd] in *. split; [|done|done|].
      * rewrite <- app_assoc. cbn [app]. rewrite lines_newline by done. by rewrite !reports_cons, I1, app_assoc.
      * exists (l ++ 10 :: x). rewrite I4 at 1. rewrite <- app_assoc. split; [done|]. intros _. right. by destruct l.
Qed.

(** Nothing is kept of the text that ends. *)
Lemma scan_last first t : (scan first false (lines t)).2 = [].
Proof.
  revert first. induction t as [l Hl|l t Hl IH] using text_ind; intros first; [by rewrite lines_single|].
  rewrite lines_newline by done. destruct (decide (t = [])) as [->|Ht]; [done|].
  rewrite scan_cons by done. specialize (IH false). by destruct (scan false false (lines t)).
Qed.

(** ** Lemmas: the search in a line *)

Lemma strncmp_loop_prefix s : forall fuel m a b l n,
  cstr m a l -> cstr m b s -> (length s < fuel)%nat -> 0 < n -> n = Z.of_nat (length s) ->
  (ece391_strncmp_loop fuel m a b n =? 0) = prefix s l.
Proof.
  induction s as [|c s IH]; intros [|fuel] m a b l n Ha Hb Hf Hn En; cbn [length] in *; try lia.
  cbn [ece391_strncmp_loop]. destruct Hb as (Eb & Hc & Hb). destruct l as [|d l]; cbn [cstr prefix] in *.
  - rewrite Ha, Eb, (proj2 (Z.eqb_neq 0 c)) by congruence. apply Z.eqb_neq. lia.
  - destruct Ha as (Ea & Hd & Ha). rewrite Ea, Eb, (Z.eqb_sym c d). destruct (Z.eqb_spec d c) as [->|Hdc]; [|by apply Z.eqb_neq; lia].
    rewrite (proj2 (Z.eqb_neq c 0)) by done. cbn [orb andb]. destruct (Z.eqb_spec (n - 1) 0) as [E1|E1].
    + by destruct s; [|cbn [length] in *; lia].
    + apply IH; [done|done|lia|lia|lia].
Qed.

(** A string that [grep] can look for: the comparison of the first byte is with a signed [char]. *)
Definition searchable (s : list Z) : Prop := exists c s', s = c :: s' /\ 0 < c < 128.

Lemma searchable_ne s : searchable s -> s <> [].
Proof. by intros (c & s' & -> & _). Qed.

Lemma check_prefix m sa s a l : searchable s -> cstr m sa s -> cstr m a l ->
  (s8 (ld m sa) =? ld m a) && (ece391_strncmp m a sa (Z.of_nat (length s)) =? 0) = prefix s l.
Proof.
  intros (c & s' & -> & Hc) Hs Hl. unfold ece391_strncmp. rewrite (proj2 (Z.eqb_neq 0 _)) by (cbn [length]; lia).
  rewrite (strncmp_loop_prefix _ _ m a sa l) by (done || (by eapply cstr_fuel) || cbn [length]; lia).
  destruct Hs as (-> & _). assert (E : s8 c = c) by (unfold s8; Z.div_mod_to_equations; lia). rewrite E.
  destruct l as [|d l]; cbn [prefix cstr] in *; [by rewrite andb_false_r|]. destruct Hl as (-> & _).
  by destruct (c =? d).
Qed.

(** The search for the string in a line. *)
Lemma grep_match_contains m sa s data l : searchable s -> cstr m sa s -> forall start, cstr m (data + start) l ->
  match grep_match m sa data start (start + Z.of_nat (length l)) (Z.of_nat (length s)) with
  | Some _ => contains s l = true
  | None => contains s l = false
  end.
Proof.
  intros Hs Hc. unfold grep_match. induction l as [|d l IH]; intros start Hl; cbn [length].
  - rewrite find_empty by lia. apply contains_nil, searchable_ne, Hs.
  - rewrite find_step, (check_prefix m sa s (data + start) (d :: l) Hs Hc Hl) by lia. cbn [contains].
    destruct (prefix s (d :: l)); [done|]. cbn [orb]. destruct Hl as (_ & _ & Hl). rewrite <- Z.add_assoc in Hl.
    specialize (IH (start + 1) Hl). by replace (start + 1 + Z.of_nat (length l)) with (start + Z.of_nat (S (length l))) in IH by lia.
Qed.

(** The end of a line in the buffer: a newline, or the end of the text. *)
Lemma line_end_newline m data start last l t :
  bytes m (data + start) (length l + S (length t)) = l ++ 10 :: t -> no_newline l ->
  last = start + Z.of_nat (length l + S (length t)) -> grep_line_end m data start last = start + Z.of_nat (length l).
Proof.
  intros Hb Hl ->. unfold grep_line_end.
  assert (Hnth : forall i, (i < length l + S (length t))%nat -> ld m (data + (start + Z.of_nat i)) = nth i (l ++ 10 :: t) 0).
  { intros i Hi. rewrite <- Hb, nth_bytes by done. f_equal. lia. }
  destruct (find_is_Some start (start + Z.of_nat (length l + S (length t))) (fun i => ld m (data + i) =? 10) (start + Z.of_nat (length l)))
    as (i & Ei & Hi); [lia|rewrite Hnth, app_nth2, Nat.sub_diag by lia; done|].
  rewrite Ei. cbn [default]. apply find_Some in Ei as (_ & Ei & _). cbn beta in Ei. apply Z.eqb_eq in Ei.
  destruct (Z.eq_dec i (start + Z.of_nat (length l))) as [->|Hne]; [done|exfalso].
  replace i with (start + Z.of_nat (Z.to_nat (i - start))) in Ei by lia. rewrite Hnth, app_nth1 in Ei by lia.
  unfold no_newline in Hl. rewrite List.Forall_forall in Hl. apply (Hl (nth (Z.to_nat (i - start)) l 0)); [apply nth_In; lia|done].
Qed.

Lemma line_end_last m data start l :
  bytes m (data + start) (length l) = l -> no_newline l ->
  grep_line_end m data start (start + Z.of_nat (length l)) = start + Z.of_nat (length l).
Proof.
  intros Hb Hl. unfold grep_line_end. destruct (find_ _ _ _) as [i|] eqn:Ei; cbn [default]; [exfalso|lia].
  apply find_Some in Ei as (Hi & Ei & _). cbn beta in Ei. apply Z.eqb_eq in Ei.
  unfold no_newline in Hl. rewrite List.Forall_forall in Hl. apply (Hl (nth (Z.to_nat (i - start)) l 0)); [apply nth_In; lia|].
  rewrite <- Hb, nth_bytes by lia. rewrite <- Ei. f_equal. lia.
Qed.

Lemma bytes_st m a n x c : x < a \/ a + Z.of_nat n <= x -> bytes (st m x c) a n = bytes m a n.
Proof. intros Hx. apply bytes_ext. intros i Hi. apply ld_st_ne. lia. Qed.

(** ** Lemmas: grep on the kernel *)

Section searching.
Context {D : Type} `{Machine D} `{LayoutLaws} `{Literals}.
Implicit Types (w : kworld D) (k : kernel D).

(** Process [p] on terminal [ti] looks for [s], at [sa], in the file [name], whose name is at [fa];
    its buffer of 1025 bytes is at [data]. *)
Context (p ti sa fa data : Z) (s name : list Z) (Hs : searchable s)
  (Hdata : USER_WINDOW_START <= data /\ data + 1025 <= USER_WINDOW_END).

(** The text [l] at [a], away from the buffer. *)
Definition kept (m : mem) (a : Z) (l : list Z) : Prop :=
  cstr m a l /\ 0 < a < 2 ^ 32 /\ 0 < Z.of_nat (length l) < 2 ^ 31 /\ (a + Z.of_nat (length l) < data \/ data + 1025 <= a).

(** The texts that grep reads and prints. *)
Record texts (m : mem) : Prop := {
  te_search : kept m sa s;
  te_name : kept m fa name;
  te_colon : kept m (lit ":") (chars ":");
  te_newline : kept m (lit nl) (chars nl)
}.

Lemma texts_stable m m' : unchanged_outside m m' data 1025 -> texts m -> texts m'.
Proof.
  intros Hu. assert (Hk : forall a l, kept m a l -> kept m' a l); [|by intros []; split; apply Hk].
  intros a l (Hc & Ha & Hl & Hd). split; [|done]. apply (cstr_ext m); [|done]. intros x Hx. apply Hu. lia.
Qed.

(** A part of the run that changes the memory in the buffer only. *)
Record within w w' : Prop := {
  wi_step : step_of w w' p;
  wi_fs : k_fs (kw_k w') = k_fs (kw_k w);
  wi_elems : forall j, elem (pcb_at (kw_k w') (get_pcb p)) j = elem (pcb_at (kw_k w) (get_pcb p)) j;
  wi_outside : unchanged_outside (k_mem (kw_k w)) (k_mem (kw_k w')) data 1025
}.

Lemma within_trans w1 w2 w3 : within w1 w2 -> within w2 w3 -> within w1 w3.
Proof.
  intros [[A1 A1'] A2 A3 A4] [[B1 B1'] B2 B3 B4]. split; [split; congruence|congruence|intros j; by rewrite B3|].
  intros x Hx. rewrite B4 by done. by apply A4.
Qed.

Lemma quiet_within w w' : step_of w w' p -> quiet p (kw_k w) (kw_k w') -> within w w'.
Proof. intros Hst [A1 A2 A3]. split; [done|done|done|]. intros x _. by rewrite A2. Qed.

(** [ece391_fdputs(1, a)]. *)
Lemma fdputs_prints v a l w :
  in_process w p -> printer p ti v (kw_k w) -> cstr (k_mem (kw_k w)) a l -> 0 < a < 2 ^ 32 ->
  0 < Z.of_nat (length l) < 2 ^ 31 -> write_safe l v ->
  exists w', ece391_fdputs 1 a w = Some (tt, w') /\ step_of w w' p /\ quiet p (kw_k w) (kw_k w') /\ printer p ti (vt_write l v) (kw_k w').
Proof.
  intros Hp Hpr Hc Ha Hl Hw.
  change (ece391_fdputs 1 a w) with (match ece391_write 1 a (ece391_strlen (k_mem (kw_k w)) a) w with
    Some (_, w') => Some (tt, w') | None => None end).
  rewrite (ece391_strlen_cstr _ _ _ Hc) by lia. pose proof (proj1 (proj1 (cstr_spec _ _ _) Hc)) as Hb.
  destruct (write_prints p ti v a (Z.of_nat (length l)) w Hp Hpr Hl Ha) as (w' & -> & Hst & Hq & Hpr' & _); [by rewrite Nat2Z.id, Hb|].
  rewrite Nat2Z.id, Hb in Hpr'. by exists w'.
Qed.

(** A match: the name, a colon and the line. *)
Lemma match_prints v a l w :
  in_process w p -> printer p ti v (kw_k w) -> texts (k_mem (kw_k w)) -> cstr (k_mem (kw_k w)) a l ->
  0 < a < 2 ^ 32 -> 0 < Z.of_nat (length l) < 2 ^ 31 -> write_safe (name ++ [58] ++ l ++ [10]) v ->
  exists w', (ece391_fdputs 1 fa ;; puts1 ":" ;; ece391_fdputs 1 a ;; puts1 nl) w = Some (tt, w') /\
    step_of w w' p /\ quiet p (kw_k w) (kw_k w') /\ printer p ti (vt_write (name ++ [58] ++ l ++ [10]) v) (kw_k w').
Proof.
  intros Hp Hpr [_ (Hn1 & Hn2 & Hn3 & _) (Hc1 & Hc2 & Hc3 & _) (Hl1 & Hl2 & Hl3 & _)] Hc Ha Hl Hw.
  change [58] with (chars ":") in *. change [10] with (chars nl) in *. rewrite !vt_write_app.
  apply write_safe_app in Hw as [Hw1 Hw]. apply write_safe_app in Hw as [Hw2 Hw]. apply write_safe_app in Hw as [Hw3 Hw4].
  destruct (fdputs_prints v fa name w Hp Hpr Hn1 Hn2 Hn3 Hw1) as (w1 & E1 & [Hp1 Hf1] & Hq1 & Hpr1).
  rewrite <- (qt_mem _ _ _ Hq1) in Hc1, Hl1, Hc. destruct (fdputs_prints _ _ _ w1 Hp1 Hpr1 Hc1 Hc2 Hc3 Hw2) as (w2 & E2 & [Hp2 Hf2] & Hq2 & Hpr2).
  rewrite <- (qt_mem _ _ _ Hq2) in Hl1, Hc. destruct (fdputs_prints _ _ _ w2 Hp2 Hpr2 Hc Ha Hl Hw3) as (w3 & E3 & [Hp3 Hf3] & Hq3 & Hpr3).
  rewrite <- (qt_mem _ _ _ Hq3) in Hl1. destruct (fdputs_prints _ _ _ w3 Hp3 Hpr3 Hl1 Hl2 Hl3 Hw4) as (w4 & E4 & [Hp4 Hf4] & Hq4 & Hpr4).
  exists w4. rewrite (bind_some _ _ _ _ _ E1). unfold puts1. rewrite (bind_some _ _ _ _ _ E2), (bind_some _ _ _ _ _ E3).
  split; [exact E4|]. split; [split; [done|congruence]|]. split; [|exact Hpr4].
  eapply quiet_trans; [exact Hq1|]. eapply quiet_trans; [exact Hq2|]. by eapply quiet_trans.
Qed.

(** One line of the buffer: its end is marked, then it is searched. *)
Lemma line_prints v start l w :
  in_process w p -> printer p ti v (kw_k w) -> texts (k_mem (kw_k w)) ->
  bytes (k_mem (kw_k w)) (data + start) (length l) = l -> Forall (fun c => c <> 0) l ->
  0 <= start -> start + Z.of_nat (length l) <= 1024 -> write_safe (report name s l) v ->
  let line_end := start + Z.of_nat (length l) in
  exists w', (forall A (K : prog (kworld D) A), (store (data + line_end) 0 ;;
      let! m := get_mem in
      (match grep_match m sa data start line_end (Z.of_nat (length s)) with
       | Some _ => ece391_fdputs 1 fa ;; puts1 ":" ;; ece391_fdputs 1 (data + start) ;; puts1 nl
       | None => ret tt
       end) ;; K) w = K w') /\
    within w w' /\ printer p ti (vt_write (report name s l) v) (kw_k w') /\ k_mem (kw_k w') = st (k_mem (kw_k w)) (data + line_end) 0.
Proof.
  intros Hp Hpr Ht Hb Hz Hst Hl Hw line_end. unfold USER_WINDOW_START, USER_WINDOW_END in Hdata.
  assert (Hu : in_user (data + line_end) = true).
  { unfold in_user, USER_WINDOW_START, USER_WINDOW_END. rewrite (proj2 (Z.leb_le _ _)), (proj2 (Z.ltb_lt _ _)) by lia. done. }
  destruct (store_gives (data + line_end) 0 w Hu) as (w1 & E1 & Em1 & Ef1 & Et1 & Hf1 & Hpcb & Hin).
  assert (Hc : cstr (k_mem (kw_k w1)) (data + start) l) by (rewrite Em1; unfold line_end; rewrite Z.add_assoc; by apply line_cstr).
  assert (Hpr1 : printer p ti v (kw_k w1)) by (eapply printer_stable; [exact Hpr|done|by rewrite Hpcb..]).
  assert (Hw1 : within w w1).
  { split; [split; [by apply Hin|done]|done|intros j; by rewrite Hpcb|]. rewrite Em1. intros x Hx. apply ld_st_ne. lia. }
  assert (Ht1 : texts (k_mem (kw_k w1))) by (eapply texts_stable; [exact (wi_outside _ _ Hw1)|done]).
  pose proof (grep_match_contains _ sa s data l Hs (proj1 (te_search _ Ht1)) start Hc) as Hm. fold line_end in Hm.
  unfold report in *. destruct (grep_match _ _ _ _ _ _) eqn:Hg; rewrite Hm in *.
  - assert (Hne : (0 < length l)%nat) by (destruct l; [rewrite (contains_nil s (searchable_ne s Hs)) in Hm; done|cbn; lia]).
    destruct (match_prints v (data + start) l w1 (Hin p Hp) Hpr1 Ht1 Hc) as (w2 & E2 & Hst2 & Hq2 & Hpr2); [lia|lia|done|].
    exists w2. split; [intros A K; by rewrite (bind_some _ _ _ _ _ E1), (bind_some _ _ _ _ _ (get_mem_world w1)), Hg, (bind_some _ _ _ _ _ E2)|]. split; [|split; [done|by rewrite (qt_mem _ _ _ Hq2)]].
    eapply within_trans; [exact Hw1|by apply quiet_within].
  - exists w1. split; [intros A K; by rewrite (bind_some _ _ _ _ _ E1), (bind_some _ _ _ _ _ (get_mem_world w1)), Hg|]. split; [done|]. split; [done|done].
Qed.

(** The last line moves to the front of the buffer. *)
Lemma rest_moves v start l w :
  in_process w p -> printer p ti v (kw_k w) ->
  bytes (k_mem (kw_k w)) (data + start) (length l) = l -> Forall (fun c => c <> 0) l ->
  0 < start -> start + Z.of_nat (length l) <= 1024 ->
  let line_end := start + Z.of_nat (length l) in
  exists w', (store (data + line_end) 0 ;;
      let! m := get_mem in
      match ece391_strcpy m data (data + start) with
      | Some m => set_mem m ;; ret (line_end - start)
      | None => stuck
      end) w = Some (Z.of_nat (length l), w') /\
    within w w' /\ printer p ti v (kw_k w') /\ bytes (k_mem (kw_k w')) data (length l) = l /\
    (ld (k_mem (kw_k w)) (data + 1024) <> 10 -> ld (k_mem (kw_k w')) (data + 1024) <> 10).
Proof.
  intros Hp Hpr Hb Hz Hst Hl line_end. unfold USER_WINDOW_START, USER_WINDOW_END in Hdata.
  assert (Hu : in_user (data + line_end) = true).
  { unfold in_user, USER_WINDOW_START, USER_WINDOW_END. rewrite (proj2 (Z.leb_le _ _)), (proj2 (Z.ltb_lt _ _)) by lia. done. }
  destruct (store_gives (data + line_end) 0 w Hu) as (w1 & E1 & Em1 & Ef1 & Et1 & Hf1 & Hpcb & Hin).
  assert (Hc : cstr (k_mem (kw_k w1)) (data + start) l) by (rewrite Em1; unfold line_end; rewrite Z.add_assoc; by apply line_cstr).
  destruct (ece391_strcpy_copies _ data _ l Hc ltac:(lia)) as (m2 & E2 & Hcp).
  set (w2 := w_put m2 w1). exists w2.
  assert (Em2 : k_mem (kw_k w2) = m2) by exact (k_mem_with_mem (kw_k w1) m2).
  assert (Hw2 : pcb_at (kw_k w2) = pcb_at (kw_k w1) /\ k_terms (kw_k w2) = k_terms (kw_k w1) /\ k_fs (kw_k w2) = k_fs (kw_k w1)) by done.
  rewrite (bind_some _ _ _ _ _ E1), (bind_some _ _ _ _ _ (get_mem_world w1)), E2.
  split; [unfold ret, bind, set_mem; fold w2; do 2 f_equal; lia|]. unfold line_end in *.
  split; [split; [by split; [apply Hin|]|done|intros j; by rewrite (proj1 Hw2), Hpcb|]|split; [|split]].
  - rewrite Em2. intros x Hx. rewrite (copied_outside _ _ _ _ _ Hcp) by lia. rewrite Em1. apply ld_st_ne. lia.
  - destruct Hw2 as (Ep & Et & _). eapply printer_stable; [exact Hpr|by rewrite Et|by rewrite Ep, Hpcb..].
  - rewrite Em2, (copied_bytes _ _ _ _ _ _ Hcp) by lia. by apply cstr_spec in Hc as (? & _).
  - intros Hne. rewrite Em2, (copied_outside _ _ _ _ _ Hcp) by lia. rewrite Em1, ld_st. by case_b.
Qed.

(** The lines of a buffer from [start] on. *)
Lemma grep_lines_prints cnt last more t : forall start fuel v w,
  in_process w p -> printer p ti v (kw_k w) -> texts (k_mem (kw_k w)) ->
  bytes (k_mem (kw_k w)) (data + start) (length t) = t -> Forall (fun c => c <> 0) t ->
  0 <= start -> last = start + Z.of_nat (length t) -> last <= 1024 -> (length t < fuel)%nat ->
  more = negb (ld (k_mem (kw_k w)) (data + last) =? 10) && negb (cnt =? 0) ->
  let '(pl, q) := scan (start =? 0) more (lines t) in
  write_safe (reports name s pl) v ->
  exists w', grep_lines fuel sa fa data (Z.of_nat (length s)) cnt last start w = Some (Z.of_nat (length q), w') /\
    within w w' /\ printer p ti (vt_write (reports name s pl) v) (kw_k w') /\
    bytes (k_mem (kw_k w')) data (length q) = q /\
    (ld (k_mem (kw_k w)) (data + 1024) <> 10 -> ld (k_mem (kw_k w')) (data + 1024) <> 10).
Proof.
  induction t as [l Hl|l t Hl IH] using text_ind; intros start [|fuel] v w Hp Hpr Ht Hb Hz Hst -> Hn Hf Hm; try lia.
  all: cbn [grep_lines]; rewrite (bind_some _ _ _ _ _ (get_mem_world w)).
  - rewrite (line_end_last _ _ _ l Hb Hl), <- Hm, (lines_single l Hl). cbn [scan].
    destruct (more && negb (start =? 0)) eqn:Ec; intros Hw.
    + apply andb_true_iff in Ec as [_ Hs0%negb_true_iff%Z.eqb_neq]. by apply rest_moves; [..|lia|].
    + rewrite reports_cons, app_nil_r in Hw |- *.
      destruct (line_prints v start l w Hp Hpr Ht Hb Hz Hst Hn Hw) as (w1 & E1 & Hw1 & Hpr1 & Em1).
      rewrite E1, (proj2 (Z.leb_le _ _)) by lia. exists w1. split; [done|]. split; [done|]. split; [done|]. split; [done|].
      rewrite Em1, ld_st. by case_b.
  - rewrite length_app in *. cbn [length] in *. assert (Hnl := line_end_newline _ data start _ l t Hb Hl eq_refl).
    pose proof (bytes_app (k_mem (kw_k w)) (length l) (S (length t)) (data + start)) as Hba. rewrite Hb in Hba.
    apply app_inj_1 in Hba as [Hb1 Hb2]; [|by rewrite length_bytes]. cbn [bytes] in Hb2. injection Hb2 as Hb2 Hb3.
    apply List.Forall_app in Hz as [Hz1 Hz2]. inversion Hz2 as [|? ? _ Hz3]; subst.
    rewrite <- Z.add_assoc in Hb2. rewrite Hnl, <- Hb2, (lines_newline l t Hl). change (10 =? 10) with true. cbn [negb andb].
    destruct (decide (t = [])) as [->|Hne].
    + change (scan (start =? 0) ?m (l :: lines [])) with ([l], @nil Z). cbn iota. rewrite reports_cons, app_nil_r. intros Hw.
      destruct (line_prints v start l w Hp Hpr Ht (eq_sym Hb1) Hz1 Hst) as (w1 & E1 & Hw1 & Hpr1 & Em1); [cbn [length] in *; lia|done|].
      rewrite E1, (proj2 (Z.leb_le _ _)) by (cbn [length]; lia). exists w1. split; [done|]. split; [done|]. split; [done|]. split; [done|].
      rewrite Em1, ld_st. by case_b.
    + rewrite scan_cons by done. set (more := _ && _) in *. destruct (scan false more (lines t)) as [pl q] eqn:Esc. rewrite reports_cons. intros Hw.
      apply write_safe_app in Hw as [Hw1' Hw2'].
      destruct (line_prints v start l w Hp Hpr Ht (eq_sym Hb1) Hz1 Hst) as (w1 & E1 & Hw1 & Hpr1 & Em1); [lia|done|].
      assert (Hlt : (0 < length t)%nat) by (destruct t; [done|cbn; lia]).
      rewrite E1, (proj2 (Z.leb_gt _ _)) by lia.
      specialize (IH (start + Z.of_nat (length l) + 1) fuel (vt_write (report name s l) v) w1).
      rewrite (proj2 (Z.eqb_neq (start + _ + 1) 0)), Esc in IH by lia.
      destruct IH as (w2 & E2 & Hw2 & Hpr2 & Hb4 & H1024); [by apply Hw1|done|eapply texts_stable; [exact (wi_outside _ _ Hw1)|done]| |done|lia|lia|lia|lia| |done|].
      * rewrite Em1, bytes_st by lia. etrans; [|symmetry; exact Hb3]. f_equal. lia.
      * unfold more. rewrite Em1, ld_st_ne by lia. done.
      * exists w2. split; [exact E2|]. split; [by eapply within_trans|]. rewrite vt_write_app. split; [exact Hpr2|]. split; [exact Hb4|].
        intros Hne2. apply H1024. rewrite Em1, ld_st. by case_b.
Qed.

Lemma reader_buffer fd ino pos buf n buf' n' c k :
  reader p fd ino pos buf n c k -> off_image (k_fs k) (k_mem k) buf' n' -> reader p fd ino pos buf' n' c k.
Proof. intros [A1 A2 A3 A4 A5 A6] Hb. by split. Qed.

Lemma within_reader fd ino pos c w w' :
  within w w' -> reader p fd ino pos data 1025 c (kw_k w) -> reader p fd ino pos data 1025 c (kw_k w').
Proof.
  intros [_ Wf We Wo] [A1 A2 A3 A4 A5 A6]. pose proof (outside_same_image _ _ _ _ _ A6 Wo) as Hi.
  destruct A2 as (B1 & B2 & B3 & B4). split; rewrite ?Wf, ?We; try done.
  - by apply (image_ok_stable _ (k_mem (kw_k w))).
  - unfold reading_file, fd_open in *. rewrite We, (inode_num_stable _ _ _ Hi), (file_length_stable _ _ _ A1 Hi) by done. done.
  - by rewrite (file_content_stable _ _ _ A1 Hi).
  - by apply (off_image_stable _ (k_mem (kw_k w))).
Qed.

(** The buffer is filled behind the text [q] at its front. *)
Lemma read_fills v fd ino pos c q w :
  in_process w p -> printer p ti v (kw_k w) -> reader p fd ino pos data 1025 c (kw_k w) -> 2 <= fd < FD_MAX ->
  bytes (k_mem (kw_k w)) data (length q) = q -> (length q < 1024)%nat ->
  let chunk := take (1024 - length q) (drop (Z.to_nat pos) c) in
  exists w', ece391_read fd (data + Z.of_nat (length q)) (BUFSIZE - Z.of_nat (length q)) w = Some (Z.of_nat (length chunk), w') /\
    step_of w w' p /\ unchanged_outside (k_mem (kw_k w)) (k_mem (kw_k w')) data 1024 /\ printer p ti v (kw_k w') /\
    bytes (k_mem (kw_k w')) data (length (q ++ chunk)) = q ++ chunk /\
    reader p fd ino (pos + Z.of_nat (length chunk)) data 1025 c (kw_k w').
Proof.
  intros Hp Hpr Hr Hfd Hb Hq chunk. pose proof (re_buffer _ _ _ _ _ _ _ _ Hr) as Hoff.
  assert (Hr' : reader p fd ino pos (data + Z.of_nat (length q)) (BUFSIZE - Z.of_nat (length q)) c (kw_k w)).
  { eapply reader_buffer; [exact Hr|]. destruct Hoff as (O1 & O2 & O3). unfold BUFSIZE. split; [lia|]. split; lia. }
  destruct (read_reads p ti v fd ino pos _ _ c w Hp Hpr Hr' Hfd ltac:(unfold BUFSIZE; lia)) as (w' & E & Hst & Hby & Hu & Ef & _ & Hpr' & Hr2).
  replace (Z.to_nat (BUFSIZE - Z.of_nat (length q))) with (1024 - length q)%nat in * by (unfold BUFSIZE; lia). fold chunk in E, Hby, Hr2.
  assert (Hu' : unchanged_outside (k_mem (kw_k w)) (k_mem (kw_k w')) data 1024).
  { eapply unchanged_outside_weaken; [| |exact Hu]; unfold BUFSIZE; lia. }
  exists w'. split; [exact E|]. split; [done|]. split; [done|]. split; [done|]. split.
  - rewrite length_app, bytes_app, Hby. f_equal. rewrite <- Hb at 2. apply bytes_ext. intros i Hi. apply Hu. lia.
  - eapply reader_buffer; [exact Hr2|]. 
    rewrite Ef. eapply off_image_stable; [|exact Hoff]. eapply outside_same_image; [exact Hoff|].
    eapply unchanged_outside_weaken; [| |exact Hu']; lia.
Qed.

(** What a buffer of the text leaves for the next one. *)
Lemma buffer_rest pos c q : short_lines (q ++ drop (Z.to_nat pos) c) -> 0 <= pos -> (length q < 1024)%nat ->
  let chunk := take (1024 - length q) (drop (Z.to_nat pos) c) in
  let rest := drop (Z.to_nat (pos + Z.of_nat (length chunk))) c in
  drop (Z.to_nat pos) c = chunk ++ rest /\ (length (q ++ chunk) <= 1024)%nat /\
  ((length (q ++ chunk) < 1024)%nat -> rest = []) /\ (chunk = [] -> rest = []).
Proof.
  intros Hsh Hpos Hq chunk rest. assert (Hl : length chunk = Nat.min (1024 - length q) (length c - Z.to_nat pos))
    by (unfold chunk; by rewrite length_take, length_drop).
  assert (Er : rest = drop (1024 - length q) (drop (Z.to_nat pos) c)).
  { unfold rest. rewrite drop_drop, Hl. destruct (Nat.le_gt_cases (length c - Z.to_nat pos) (1024 - length q)).
    - rewrite !drop_ge; [done|lia|lia].
    - f_equal. lia. }
  rewrite length_app. split; [rewrite Er; symmetry; apply take_drop|]. split; [lia|]. rewrite Er.
  split; intros Hc; apply drop_ge; rewrite length_drop; [lia|]. rewrite Hc in Hl. cbn [length] in Hl. lia.
Qed.

(** Before a read: the file is at [pos], and the text [q] is in the buffer. *)
Record halfway (fd ino : Z) (c : list Z) (pos : Z) (q : list Z) (v : vt) w : Prop := {
  hw_process : in_process w p;
  hw_printer : printer p ti v (kw_k w);
  hw_texts : texts (k_mem (kw_k w));
  hw_reader : reader p fd ino pos data 1025 c (kw_k w);
  hw_range : 0 <= pos /\ (length q < 1024)%nat;
  hw_buffer : bytes (k_mem (kw_k w)) data (length q) = q;
  hw_line : no_newline q;
  hw_text : Forall (fun ch => ch <> 0) (q ++ drop (Z.to_nat pos) c);
  hw_short : short_lines (q ++ drop (Z.to_nat pos) c);
  hw_last : ld (k_mem (kw_k w)) (data + 1024) <> 10
}.

(** One read and the lines of its buffer. *)
Lemma grep_round fd ino c pos q v w :
  halfway fd ino c pos q v w -> 2 <= fd < FD_MAX -> write_safe (reports name s (lines (q ++ drop (Z.to_nat pos) c))) v ->
  exists cnt pl q' pos' w',
    (forall fuel, grep_reads (S fuel) fd sa fa data (Z.of_nat (length s)) (Z.of_nat (length q)) w =
      if cnt =? 0 then Some (0, w') else grep_reads fuel fd sa fa data (Z.of_nat (length s)) (Z.of_nat (length q')) w') /\
    kw_frame w' = kw_frame w /\ halfway fd ino c pos' q' (vt_write (reports name s pl) v) w' /\
    reports name s (lines (q ++ drop (Z.to_nat pos) c)) = reports name s pl ++ reports name s (lines (q' ++ drop (Z.to_nat pos') c)) /\
    (cnt = 0 -> q' ++ drop (Z.to_nat pos') c = []) /\
    (cnt <> 0 -> (length (drop (Z.to_nat pos') c) < length (drop (Z.to_nat pos) c))%nat).
Proof.
  intros [Hp Hpr Ht Hr [Hpos Hq] Hb Hnl Hz Hsh Hg] Hfd Hw. destruct (buffer_rest pos c q Hsh Hpos Hq) as (Hsplit & Hl & Hfull & Hend).
  destruct (read_fills v fd ino pos c q w Hp Hpr Hr Hfd Hb Hq) as (w1 & E1 & [Hp1 Hf1] & Hu & Hpr1 & Hb1 & Hr1).
  set (chunk := take _ _) in *. set (pos' := pos + _) in *. set (rest := drop (Z.to_nat pos') c) in *.
  rewrite Hsplit, app_assoc in *. apply List.Forall_app in Hz as [Hz1 Hz2].
  assert (Hlast : Z.of_nat (length q) + Z.of_nat (length chunk) = 0 + Z.of_nat (length (q ++ chunk))) by (rewrite length_app; lia).
  assert (Ht1 : texts (k_mem (kw_k w1))) by (eapply texts_stable; [|exact Ht]; eapply unchanged_outside_weaken; [| |exact Hu]; lia).
  assert (Hg1 : ld (k_mem (kw_k w1)) (data + 1024) <> 10) by (by rewrite Hu by lia).
  set (last := 0 + _) in *. set (more := negb (ld (k_mem (kw_k w1)) (data + last) =? 10) && negb (Z.of_nat (length chunk) =? 0)).
  assert (Hmore : more = false -> rest = []).
  { intros [Hm%negb_false_iff%Z.eqb_eq|Hm%negb_false_iff%Z.eqb_eq]%andb_false_iff; [|apply Hend, nil_length_inv; lia].
    apply Hfull. destruct (Nat.eq_dec (length (q ++ chunk)) 1024%nat) as [E|]; [|lia]. unfold last in Hm. rewrite E in Hm. done. }
  pose proof (scan_reports name s rest (searchable_ne s Hs) (q ++ chunk) true more Hsh Hmore (fun _ => Hfull)) as Hsc.
  pose proof (grep_lines_prints (Z.of_nat (length chunk)) last more (q ++ chunk) 0 (Z.to_nat (last + 2)) v w1 Hp1 Hpr1 Ht1) as Hgl.
  change (0 =? 0) with true in Hgl. rewrite Z.add_0_r in Hgl. pose proof (scan_last true (q ++ chunk)) as Hsl.
  destruct (scan true more (lines (q ++ chunk))) as [pl q'] eqn:Esc. destruct Hsc as [S1 S2 S3 (x & S4 & S5)]. cbn [fst snd] in *.
  rewrite S1 in Hw. apply write_safe_app in Hw as [Hw1 _].
  destruct Hgl as (w2 & E2 & W & Hpr2 & Hb2 & Hg2); [done|done|lia|done|lia|unfold last; lia|done|done|].
  exists (Z.of_nat (length chunk)), pl, q', pos', w2. split; [|split; [|split; [split|split; [exact S1|split]]]].
  - intros fuel. cbn [grep_reads]. rewrite (bind_some _ _ _ _ _ E1), (proj2 (Z.eqb_neq _ (-1))), Hlast, (bind_some _ _ _ _ _ E2) by lia.
    by destruct (_ =? 0).
  - rewrite <- Hf1. apply (wi_step _ _ W).
  - apply (wi_step _ _ W).
  - done.
  - eapply texts_stable; [exact (wi_outside _ _ W)|done].
  - by eapply within_reader.
  - split; [lia|]. destruct (S5 eq_refl) as [->|Hx]; [cbn; lia|]. apply (f_equal length) in S4. rewrite (length_app x) in S4.
    destruct x; [done|]. cbn [length] in S4. lia.
  - done.
  - done.
  - apply List.Forall_app. split; [|done]. rewrite S4 in Hz1. by apply List.Forall_app in Hz1 as [_ ?].
  - done.
  - by apply Hg2.
  - intros Ec. assert (Em : more = false) by (unfold more; rewrite Ec; by rewrite andb_false_r). rewrite Em in Esc. rewrite Esc in Hsl.
    cbn [snd] in Hsl. fold rest. by rewrite Hsl, (Hmore Em).
  - intros Ec. fold rest. rewrite length_app. lia.
Qed.

(** The reads of the file from [pos] on. *)
Lemma grep_reads_prints fd ino c fuel : forall pos q v w,
  halfway fd ino c pos q v w -> 2 <= fd < FD_MAX -> (length (drop (Z.to_nat pos) c) < fuel)%nat ->
  let out := reports name s (lines (q ++ drop (Z.to_nat pos) c)) in
  write_safe out v ->
  exists w' pos', grep_reads fuel fd sa fa data (Z.of_nat (length s)) (Z.of_nat (length q)) w = Some (0, w') /\
    step_of w w' p /\ printer p ti (vt_write out v) (kw_k w') /\ reader p fd ino pos' data 1025 c (kw_k w').
Proof.
  induction fuel as [|fuel IH]; intros pos q v w Hh Hfd Hf out Hw; [lia|]. unfold out in *. clear out.
  destruct (grep_round fd ino c pos q v w Hh Hfd Hw) as (cnt & pl & q' & pos' & w1 & E1 & Hf1 & Hh1 & Er & Hz & Hnz).
  rewrite E1, Er, vt_write_app in *. apply write_safe_app in Hw as [_ Hw]. destruct (Z.eqb_spec cnt 0) as [Ec|Ec].
  - rewrite (Hz Ec) in *. change (lines []) with [ @nil Z]. rewrite reports_cons, report_nil by (by apply searchable_ne).
    exists w1, pos'. split; [done|]. destruct Hh1. by split.
  - specialize (Hnz Ec). destruct (IH pos' q' _ w1 Hh1 Hfd ltac:(lia) Hw) as (w2 & pos2 & E2 & [Hp2 Hf2] & Hpr2 & Hr2).
    exists w2, pos2. split; [exact E2|]. split; [split; [done|congruence]|]. by split.
Qed.

(** The file is closed: twice, in the block of the process and in the one that the driver's uninitialised
    pointer points to. *)
Lemma close_gives_zero v fd ino pos c w :
  in_process w p -> printer p ti v (kw_k w) -> reader p fd ino pos data 1025 c (kw_k w) -> 2 <= fd < FD_MAX ->
  exists w', ece391_close fd w = Some (0, w') /\ step_of w w' p /\ printer p ti v (kw_k w').
Proof.
  intros Hp Hpr [_ [B _] Hdr _ _ _] Hfd. unfold FD_MAX in Hfd.
  rewrite call_close, s32_u32 by lia. unfold syscall_close. rewrite (fd_pass fd 2), (enter_curr _ _ Hp) by (unfold FD_MAX; lia).
  change (pcb_at (enter w) (get_pcb p)) with (pcb_at (kw_k w) (get_pcb p)).
  unfold fd_open in B. rewrite (proj2 (Z.eqb_neq _ _) B).
  assert (Ec : forall b, pcb_close b fd = (0, set_elem b fd (set_flags (elem b fd) 0))).
  { intros b. unfold pcb_close. rewrite (u8_small fd), (proj2 (Z.leb_gt _ _)) by (unfold FD_MAX; lia). done. }
  rewrite Ec. cbn [snd]. rewrite pcb_at_set_eq, elem_set_elem_eq. cbn [file_operation_jmp_tbl set_flags]. rewrite Hdr.
  unfold file_close. rewrite (proj2 (Z.leb_gt 8 fd)), (proj2 (Z.ltb_ge fd 0)), Ec by lia. cbn [orb].
  eexists. split; [reflexivity|]. split; [done|]. cbn [kw_k next].
  set (k1 := set_pcb (enter w) _ _). assert (Hk1 : printer p ti v k1).
  { eapply printer_stable; [exact Hpr|done|unfold k1; rewrite pcb_at_set_eq; by rewrite elem_set_elem_ne by lia|unfold k1; by rewrite pcb_at_set_eq]. }
  eapply printer_stable; [exact Hk1|done|..]; destruct (Z.eq_dec (f_wild_pcb (kw_frame w)) (get_pcb p)) as [->|Hne];
    rewrite ?pcb_at_set_eq, ?pcb_at_set_ne by done; try done. by rewrite elem_set_elem_ne by lia.
Qed.

(** What [do_one_file] needs: the standard output, a free descriptor, a regular file of text with lines that
    fit into the buffer, the strings and the buffer in the window of the program, and behind the buffer a byte that is not a
    newline. *)
Record grep_ready (fr : frame) (i : Z) (v : vt) k : Prop := {
  gr_printer : printer p ti v k;
  gr_free : exists j, 2 <= j < FD_MAX /\ ~ fd_open (pcb_at k (get_pcb p)) j;
  gr_image : image_ok (k_fs k) (k_mem k);
  gr_name : names (k_fs k) (k_mem k) name i;
  gr_file : filetype (k_mem k) (dentry_directory (k_fs k) i) = FILE_TYPE;
  gr_inode : 0 <= inode_index (k_mem k) (dentry_directory (k_fs k) i) < inode_num (k_mem k) (boot_block (k_fs k));
  gr_dentry : off_image (k_fs k) (k_mem k) (f_dentry fr) sizeof_dentry /\ f_dentry fr + sizeof_dentry <= USER_WINDOW_START;
  gr_buffer : off_image (k_fs k) (k_mem k) data 1025;
  gr_texts : texts (k_mem k);
  gr_window : Forall (fun a => USER_WINDOW_START <= a) [sa; fa; lit ":"; lit nl];
  gr_last : ld (k_mem k) (data + 1024) <> 10
}.

Lemma texts_window m m' a n :
  unchanged_outside m m' a n -> a + n <= USER_WINDOW_START -> Forall (fun x => USER_WINDOW_START <= x) [sa; fa; lit ":"; lit nl] ->
  texts m -> texts m'.
Proof.
  intros Hu Ha Hf [T1 T2 T3 T4]. rewrite !List.Forall_cons_iff in Hf. destruct Hf as (F1 & F2 & F3 & F4 & _).
  assert (Hk : forall x l, USER_WINDOW_START <= x -> kept m x l -> kept m' x l).
  { intros x l Hx (Hc & Hr). split; [|exact Hr]. apply (cstr_ext m); [|exact Hc]. intros y Hy. apply Hu. lia. }
  split; by apply Hk.
Qed.

(** [do_one_file]. *)
Lemma do_one_file_prints i v w fuel :
  in_process w p -> grep_ready (kw_frame w) i v (kw_k w) ->
  let c := file_content (k_fs (kw_k w)) (k_mem (kw_k w)) (inode_index (k_mem (kw_k w)) (dentry_directory (k_fs (kw_k w)) i)) in
  Forall (fun ch => ch <> 0) c -> short_lines c -> (length c < fuel)%nat -> write_safe (reports name s (lines c)) v ->
  exists w', do_one_file fuel sa fa data w = Some (0, w') /\ step_of w w' p /\ printer p ti (vt_write (reports name s (lines c)) v) (kw_k w').
Proof.
  intros Hp [A1 A2 A3 A4 A5 A6 [A7 A7'] A8 A9 A10 A11] c Hz Hsh Hf Hw.
  destruct (te_search _ A9) as (Hsc & _ & Hsl & _). destruct (te_name _ A9) as (Hnc & Hnr & _).
  unfold do_one_file. rewrite (bind_some _ _ _ _ _ (get_mem_world w)), (ece391_strlen_cstr _ _ _ Hsc) by lia.
  rewrite (s32_small (Z.of_nat (length s))) by lia.
  destruct (open_named p ti v fa name i FILE_TYPE w Hp A1 A2 A3 A4 A5 ltac:(by left) A7 Hnr Hnc)
    as (fd & w1 & E1 & [Hp1 Hf1] & Hfd & Hpr1 & [Ef1 _] & Hu1 & He1).
  change (FILE_TYPE =? FILE_TYPE) with true in He1. cbn iota in He1. rewrite (bind_some _ _ _ _ _ E1), (proj2 (Z.eqb_neq fd (-1))) by lia.
  pose proof (opened_reader p fd data 1025 (kw_k w1) _ _ _ A3 A6 A8 Ef1 (outside_same_image _ _ _ _ _ A7 Hu1) He1) as Hr.
  fold c in Hr. unfold USER_WINDOW_START in *.
  assert (Hh : halfway fd (inode_index (k_mem (kw_k w)) (dentry_directory (k_fs (kw_k w)) i)) c 0 [] v w1).
  { split; [exact Hp1|exact Hpr1|by eapply texts_window|exact Hr|split; [done|cbn; lia]|reflexivity|constructor|exact Hz|exact Hsh|].
    by rewrite Hu1 by lia. }
  destruct (grep_reads_prints fd _ c fuel 0 [] v w1 Hh Hfd) as (w2 & pos & E2 & [Hp2 Hf2] & Hpr2 & Hr2); [done|exact Hw|].
  change (Z.of_nat (length [])) with 0 in E2. rewrite (bind_some _ _ _ _ _ E2). change (0 =? -1) with false. cbn iota.
  destruct (close_gives_zero _ fd _ pos c w2 Hp2 Hpr2 Hr2 Hfd) as (w3 & E3 & [Hp3 Hf3] & Hpr3).
  exists w3. rewrite (bind_some _ _ _ _ _ E3). split; [done|]. split; [split; [done|congruence]|exact Hpr3].
Qed.
End searching.

(** ** Properties *)

(** C9: grep prints the matching lines.  For a string that begins with an ASCII character and a regular
    file of text whose lines fit into the buffer, [do_one_file] ends with result 0, and the terminal
    then shows every line of the file that contains the string, in order, each after the name
    of the file and a colon, whatever the size of the file: a line that a read cuts in two is put together
    again before it is searched, exactly once.  (The byte after the buffer, which the program does not
    initialise, must not be a newline.) *)
Theorem grep_prints_matches {D} `{Machine D} `{LayoutLaws} `{Literals} (w : kworld D) p ti sa fa data s name i v fuel :
  searchable s -> USER_WINDOW_START <= data /\ data + 1025 <= USER_WINDOW_END ->
  in_process w p -> grep_ready p ti sa fa data s name (kw_frame w) i v (kw_k w) ->
  let f := k_fs (kw_k w) in let m := k_mem (kw_k w) in
  let c := file_content f m (inode_index m (dentry_directory f i)) in
  Forall (fun ch => ch <> 0) c -> short_lines c -> (length c < fuel)%nat ->
  write_safe (reports name s (lines c)) v ->
  exists w', do_one_file fuel sa fa data w = Some (0, w') /\ in_process w' p /\
    shows (k_terms (kw_k w')) ti (vt_write (reports name s (lines c)) v).
Proof.
  intros Hs Hd Hp Hr f m c Hz Hsh Hf Hw.
  destruct (do_one_file_prints p ti sa fa data s name Hs Hd i v w fuel Hp Hr Hz Hsh Hf Hw) as (w' & E & [Hp' _] & Hpr).
  exists w'. split; [exact E|]. split; [exact Hp'|exact (pr_shows _ _ _ _ Hpr)].
Qed.

(** ** Witnesses *)

#[local] Instance grep_literals : Literals := {| lit s := if String.eqb s ":" then 0x8048300 else 0x8048310 |}.

(** A text of three lines. *)
Definition grep_text : list Z := chars ("the cat" ++ nl ++ "sat on the mat" ++ nl ++ "with a catalogue" ++ nl).

Definition grep_image : mem := st_list sample_image 0x413000 grep_text.

Definition grep_window : arr :=
  um (st_list (st_list (st_list (st_list mem_empty 0x8048300 (chars ":")) 0x8048310 (chars nl)) 0x8048400 (chars "cat"))
    0x8048500 (chars "sh")).

Definition sample_grep : kworld sim :=
  KW (set_pcb (Kernel (km grep_image) (<[1 := grep_window]> ∅) (k_paging sample_exec) (k_pid_usage sample_exec)
    (k_sched sample_exec) (k_pcbs sample_exec) (k_terms sample_exec) (k_fs sample_exec) (k_rtc_flag sample_exec)
    (k_tss sample_exec) (k_cpu sample_exec)) (get_pcb 1) sample_pcb_args) [] sample_frame (KERNEL_STACK 1 - 64) 0.

Lemma sample_grep_mem : k_mem (kw_k sample_grep) = Mem (km grep_image) grep_window.
Proof.
  unfold k_mem. assert (E : cur_space (kw_k sample_grep) = 1) by (by vm_compute). rewrite E.
  change (k_frames (kw_k sample_grep)) with (<[1 := grep_window]> (∅ : gmap Z arr)).
  change (k_km (kw_k sample_grep)) with (km grep_image). by rewrite lookup_insert_eq.
Qed.

Lemma sample_grep_ok : image_ok sample_fs (k_mem (kw_k sample_grep)).
Proof.
  rewrite sample_grep_mem. set (m := Mem _ _).
  assert (E1 : inode_num m 0x410000 = 1) by (by vm_compute).
  assert (E0 : image_end sample_fs m = 0x414000) by (by vm_compute).
  split; cbn [boot_block num_directories sample_fs]; [lia|by rewrite E0|lia|..].
  - intros ino. rewrite E1. intros Hi. replace ino with 0 by lia. by vm_compute.
  - intros ino b. rewrite E1. intros Hi Hb. replace ino with 0 by lia.
    assert (E2 : file_length sample_fs m 0 = 40) by (by vm_compute).
    rewrite E2. unfold FOUR_KB. intros. replace b with 0 by lia. by vm_compute.
Qed.

Lemma sample_grep_off a n : 0x414000 <= a -> a + n <= 2 ^ 32 -> off_image sample_fs (k_mem (kw_k sample_grep)) a n.
Proof.
  intros. unfold off_image. assert (E : image_end sample_fs (k_mem (kw_k sample_grep)) = 0x414000) by (rewrite sample_grep_mem; by vm_compute).
  rewrite E. split; [lia|]. split; [done|]. right. lia.
Qed.

Lemma sample_grep_ready : grep_ready 1 0 0x8048400 0x8048500 0x8200000 (chars "cat") (chars "sh") sample_frame 2 blank_vt (kw_k sample_grep).
Proof.
  assert (Eb : pcb_at (kw_k sample_grep) (get_pcb 1) = sample_pcb_args) by apply pcb_at_set_eq.
  split; change (k_fs (kw_k sample_grep)) with sample_fs.
  - destruct sample_terms_ok as (Hb & _ & Hs & _).
    split; rewrite ?Eb; [by vm_compute|by vm_compute|by vm_compute|by vm_compute|exact Hb|exact blank_vt_ok|exact Hs].
  - exists 2. rewrite Eb. split; [by vm_compute|]. intros Ho. apply Ho. by vm_compute.
  - exact sample_grep_ok.
  - rewrite sample_grep_mem. split; [by vm_compute|]. split; [by vm_compute|]. intros j Hj.
    assert (j = 0 \/ j = 1) as [-> | ->] by lia; by vm_compute.
  - rewrite sample_grep_mem. by vm_compute.
  - rewrite sample_grep_mem. by vm_compute.
  - split; [apply sample_grep_off; by vm_compute|by vm_compute].
  - apply sample_grep_off; by vm_compute.
  - rewrite sample_grep_mem. by split; (split; [vm_compute; repeat split; discriminate|split; [done|split; [done|left; done]]]).
  - repeat constructor; by vm_compute.
  - rewrite sample_grep_mem. by vm_compute.
Qed.

Lemma sample_grep_content :
  file_content sample_fs (k_mem (kw_k sample_grep)) (inode_index (k_mem (kw_k sample_grep)) (dentry_directory sample_fs 2)) = grep_text.
Proof.
  assert (Ei : inode_index (k_mem (kw_k sample_grep)) (dentry_directory sample_fs 2) = 0) by (rewrite sample_grep_mem; by vm_compute).
  rewrite Ei, sample_grep_mem. by vm_compute.
Qed.

Lemma grep_prints_matches_witness :
  exists w', do_one_file 41 0x8048400 0x8048500 0x8200000 sample_grep = Some (0, w') /\
    shows (k_terms (kw_k w')) 0 (vt_write (chars ("sh:the cat" ++ nl ++ "sh:with a catalogue" ++ nl)) blank_vt).
Proof.
  assert (Hp : in_process sample_grep 1) by (by vm_compute).
  assert (Hs : searchable (chars "cat")) by (exists 99, (chars "at"); split; [reflexivity|lia]).
  assert (Hd : USER_WINDOW_START <= 0x8200000 /\ 0x8200000 + 1025 <= USER_WINDOW_END) by (by vm_compute).
  assert (Hz : Forall (fun ch => ch <> 0) grep_text) by (vm_compute; repeat constructor; discriminate).
  assert (Hsh : short_lines grep_text).
  { apply List.Forall_forall. intros l Hl. assert (Hb : forallb (fun l => Nat.leb (length l) 1024) (lines grep_text) = true) by (by vm_compute).
    rewrite forallb_forall in Hb. apply Nat.leb_le, Hb, Hl. }
  assert (Hf : (length grep_text < 41)%nat) by (apply Nat.ltb_lt; by vm_compute).
  destruct (grep_prints_matches sample_grep 1 0 0x8048400 0x8048500 0x8200000 (chars "cat") (chars "sh") 2 blank_vt 41 Hs Hd Hp
    sample_grep_ready) as (w' & E & _ & Hw).
  - change (k_fs (kw_k sample_grep)) with sample_fs. rewrite sample_grep_content. exact Hz.
  - change (k_fs (kw_k sample_grep)) with sample_fs. rewrite sample_grep_content. exact Hsh.
  - change (k_fs (kw_k sample_grep)) with sample_fs. rewrite sample_grep_content. exact Hf.
  - change (k_fs (kw_k sample_grep)) with sample_fs. rewrite sample_grep_content. apply write_safe_plain. vm_compute. repeat constructor; discriminate.
  - change (k_fs (kw_k sample_grep)) with sample_fs in Hw. rewrite sample_grep_content in Hw. exists w'. split; [exact E|exact Hw].
Defined.
