(* ===== verification/Lawful.v ===== *)
(** * What a run of a user program leaves alone

    Every run of a program that reads, writes, opens, closes and takes its arguments, to whatever
    end, keeps the other processes: their control blocks, their memory, the schedule, the identifiers.
    The proofs go along the program, with a lemma for each call and for the sequence. *)

From S2P Require Import Prelude Mem LibString Console Machine I8259 Rtc Tasks Pcb Fs Paging Termios Keyboard Kernel Scheduling Syscall Execute FileCalls Linkage System Shell User Programs Userland Utilities Interactive.

Section lawful.
Context {D : Type} `{Machine D} `{LayoutLaws} `{Literals}.
Implicit Types (w : kworld D) (k : kernel D).

(** What the calls of [p] leave alone: the memory and the control blocks of the other processes. *)
Record own (p : Z) k k' : Prop := {
  ow_frames : cr3 (k_paging k) = dir_addr p -> forall r, r <> p -> k_frames k' !! r = k_frames k !! r;
  ow_blocks : curr k = get_pcb p -> 0 <= p < MAX_PID ->
    forall r, 0 <= r < MAX_PID -> r <> p -> pcb_at k' (get_pcb r) = pcb_at k (get_pcb r);
  ow_fs : k_fs k' = k_fs k
}.

Lemma own_refl p k : own p k k.
Proof. by split. Qed.

(** The steps that the calls are made of. *)
Lemma own_with_mem p k0 k m : own p k0 k -> k_paging k = k_paging k0 -> own p k0 (with_mem k m).
Proof.
  intros [A1 A2 A3] Ep. split; [|exact A2|exact A3]. intros Hc r Hr.
  rewrite frames_with_mem; [by apply A1|]. rewrite (cur_space_dir k p); [done|by rewrite Ep].
Qed.

Lemma own_set_pcb p k0 k a b : own p k0 k -> a = curr k0 -> own p k0 (set_pcb k a b).
Proof.
  intros [A1 A2 A3] ->. split; [exact A1| |exact A3]. intros Hc Hp r Hr Hne.
  rewrite pcb_at_set_ne by (rewrite Hc; intros E; apply get_pcb_inj in E; lia). by apply A2.
Qed.

Lemma own_wild p fr k0 k b : own p k0 k -> wild_elsewhere fr -> own p k0 (set_pcb k (f_wild_pcb fr) b).
Proof.
  intros [A1 A2 A3] Hw. split; [exact A1| |exact A3]. intros Hc Hp r Hr Hne.
  rewrite pcb_at_set_ne by (by apply Hw). by apply A2.
Qed.

Lemma own_with_terms p k0 k t : own p k0 k -> own p k0 (with_terms k t).
Proof. by intros [A1 A2 A3]. Qed.

Lemma own_with_rtc p k0 k f d : own p k0 k -> own p k0 (with_rtc k f d).
Proof. by intros [A1 A2 A3]. Qed.

Create HintDb own.
#[local] Hint Resolve own_refl own_with_mem own_set_pcb own_wild own_with_terms own_with_rtc : own.

(** The result of a call, step by step. *)
Ltac own_call := repeat case_match; intros; simplify_eq; auto 7 with own.

Lemma read_own p fr ev fd buf n k r k' : syscall_read fr ev fd buf n k = Some (r, k') -> own p k k'.
Proof. unfold syscall_read. own_call. Qed.

Lemma write_own p fd buf n k r k' : syscall_write fd buf n k = Some (r, k') -> own p k k'.
Proof. unfold syscall_write. own_call. Qed.

Lemma open_own p fr fn k r k' : syscall_open fr fn k = Some (r, k') -> own p k k'.
Proof. unfold syscall_open. own_call. Qed.

Lemma close_own p fr fd k r k' : wild_elsewhere fr -> syscall_close fr fd k = Some (r, k') -> own p k k'.
Proof. intros Hw. unfold syscall_close. own_call. Qed.

Lemma getargs_own p buf n k r k' : syscall_getargs buf n k = Some (r, k') -> own p k k'.
Proof. unfold syscall_getargs. own_call. Qed.

(** What any run of a program of [p] leaves alone: the processes, their memory, the stack of its calls. *)
Record carried (p : Z) w w' : Prop := {
  cd_frame : kw_frame w' = kw_frame w;
  cd_stack : kw_esp w' = kw_esp w /\ kw_ebp w' = kw_ebp w;
  cd_benign : benign p (enter w) (enter w');
  cd_own : own p (enter w) (enter w')
}.

Lemma carried_refl p w : carried p w w.
Proof. split; [done|done|apply benign_refl|apply own_refl]. Qed.

Lemma carried_trans p w1 w2 w3 : carried p w1 w2 -> carried p w2 w3 -> carried p w1 w3.
Proof.
  intros [A1 [A2 A2'] A3 [A4 A5 A6]] [B1 [B2 B2'] B3 [B4 B5 B6]].
  split; [congruence|split; congruence|by eapply benign_trans|]. split; [| |congruence].
  - intros Hc r Hr. rewrite B4, A4; [done|done|done|exact (bn_space _ _ _ A3 Hc)|done].
  - intros Hc Hp r Hr Hne. rewrite B5, A5; try done. rewrite <- Hc. unfold curr. by rewrite (bn_cpu _ _ _ A3).
Qed.

Lemma carried_next p w k : benign p (enter w) k -> own p (enter w) k -> carried p w (next w k).
Proof.
  intros Hb [Of Ob Ofs]. split; [done|done| |by split].
  eapply sd_benign. by apply steady_next.
Qed.

(** Every run of the program is like that. *)
Definition lawful {A} (p : Z) (c : prog (kworld D) A) : Prop :=
  forall w a w', wild_elsewhere (kw_frame w) -> c w = Some (a, w') -> carried p w w'.

Lemma lawful_ret {A} p (a : A) : lawful p (ret a).
Proof. intros w a' w' _ [= <- <-]. apply carried_refl. Qed.

Lemma lawful_stuck {A} p : lawful p (@stuck (kworld D) A).
Proof. by intros w a w' _. Qed.

Lemma lawful_bind {A B} p (c : prog (kworld D) A) (f : A -> prog (kworld D) B) :
  lawful p c -> (forall a, lawful p (f a)) -> lawful p (bind c f).
Proof.
  intros Hc Hf w b w' Hw. unfold bind. destruct (c w) as [[a w1]|] eqn:E; [|done]. intros E'.
  pose proof (Hc _ _ _ Hw E) as H1'. eapply carried_trans; [exact H1'|]. eapply Hf; [|exact E'].
  by rewrite (cd_frame _ _ _ H1').
Qed.

Lemma lawful_get_mem p : lawful p get_mem.
Proof. intros w a w' _ [= <- <-]. apply carried_refl. Qed.

Lemma lawful_set_mem p m : lawful p (set_mem m).
Proof.
  intros w a w' _ [= <- <-]. split; [done|done|apply (benign_with_mem p (enter w))|].
  apply (own_with_mem p (enter w) (enter w)); [apply own_refl|done].
Qed.

(** A system call that comes back. *)
Lemma lawful_call p (c : prog (kworld D) Z) (s : kworld D -> option (Z * kernel D)) :
  (forall w, c w = back w (s w)) ->
  (forall w r k, wild_elsewhere (kw_frame w) -> s w = Some (r, k) -> benign p (enter w) k /\ own p (enter w) k) -> lawful p c.
Proof.
  intros Ec Hs w a w' Hw. rewrite Ec. unfold back. destruct (s w) as [[r k]|] eqn:E; [|done]. intros [= <- <-].
  destruct (Hs w r k Hw E). by apply carried_next.
Qed.

Lemma lawful_read p fd buf n : lawful p (ece391_read fd buf n).
Proof. eapply lawful_call; [intros w; apply call_read|]. intros w r k _ E. cbn beta in E. split; [by eapply read_benign|by eapply read_own]. Qed.

Lemma lawful_write p fd buf n : lawful p (ece391_write fd buf n).
Proof. eapply lawful_call; [intros w; apply call_write|]. intros w r k _ E. cbn beta in E. split; [by eapply write_benign|by eapply write_own]. Qed.

Lemma lawful_open p s : lawful p (ece391_open s).
Proof. eapply lawful_call; [intros w; apply call_open|]. intros w r k _ E. cbn beta in E. split; [by eapply open_benign|by eapply open_own]. Qed.

Lemma lawful_close p fd : lawful p (ece391_close fd).
Proof. eapply lawful_call; [intros w; apply call_close|]. intros w r k Hw E. cbn beta in E. split; [by eapply close_benign|by eapply close_own]. Qed.

Lemma lawful_getargs p buf n : lawful p (ece391_getargs buf n).
Proof. eapply lawful_call; [intros w; apply call_getargs|]. intros w r k _ E. cbn beta in E. split; [by eapply getargs_benign|by eapply getargs_own]. Qed.

Lemma lawful_fdputs p fd s : lawful p (ece391_fdputs fd s).
Proof. apply lawful_bind; [apply lawful_get_mem|]. intros m. apply lawful_bind; [apply lawful_write|]. intros _. apply lawful_ret. Qed.

Create HintDb lawful.
#[local] Hint Resolve lawful_ret lawful_stuck lawful_bind lawful_get_mem lawful_set_mem lawful_read lawful_write lawful_open
  lawful_close lawful_getargs lawful_fdputs : lawful.

(** A program of calls, tests and loops. *)
Ltac lawful := repeat first [apply lawful_bind; [|intros ?] | case_match | progress unfold puts1 | solve [eauto with lawful]].

Lemma lawful_cat p fuel buf : lawful p (cat_main fuel buf).
Proof.
  assert (Hl : forall fuel fd, lawful p (cat_loop fuel fd buf)).
  { intros f. induction f as [|f IH]; intros fd; cbn [cat_loop]; lawful. }
  unfold cat_main. lawful.
Qed.
End lawful.
