(* ===== verification/Session.v ===== *)
(** * A session of the shell

    The shell with the programs that it starts, as one run: a call of execute runs the program of the new
    process until it halts and comes back, so that a list of typed commands is executed one after the
    other until "exit". *)

From S2P Require Import Prelude Mem LibString Console Machine I8259 Rtc Tasks Pcb Fs Paging Termios Keyboard Kernel Scheduling Syscall Execute FileCalls Linkage System Shell User Programs Userland Utilities Interactive Lawful.

(** ** The calls of a session *)

Section session.
Context {D : Type} `{MachineLaws D} `{LayoutLaws} `{Literals}.
Implicit Types (w : kworld D) (k : kernel D).

(** The process that a call of execute enters: the [main] of its program, the kernel's local variables and the
    interrupts of its calls, its registers in the kernel. *)
Record child := Child {
  ch_main : prog (kworld D) Z;
  ch_frame : frame;
  ch_envs : list env;
  ch_esp : Z;
  ch_ebp : Z
}.

Definition child_world (c : child) k : kworld D := KW k (ch_envs c) (ch_frame c) (ch_esp c) (ch_ebp c).

(** A system call.  One that enters another program runs it until it halts; the call comes back when the
    kernel is then on the stack on which the call was made. *)
Definition session_int80 (spawn : Z -> kernel D -> child) (r : regs) w : option (Z * kworld D) :=
  match syscall_linkage (kw_frame w) (env_of w) r (enter w) with
  | Some (SRet v k) => Some (v, next w k)
  | Some (SUser entry k) =>
      match start (ch_main (spawn entry k)) (child_world (spawn entry k) k) with
      | Some (v, wc) =>
          let k := kw_k wc in
          if (esp (k_cpu k) =? kw_esp w) && (ebp (k_cpu k) =? kw_ebp w) then Some (v, next w k) else None
      | None => None
      end
  | None => None
  end.

Definition session_calls (spawn : Z -> kernel D -> child) : Calls (kworld D) := {|
  w_mem w := k_mem (kw_k w);
  w_put m w := KW (with_mem (kw_k w) m) (kw_envs w) (kw_frame w) (kw_esp w) (kw_ebp w);
  int80 := session_int80 spawn
|}.

(** A call that comes back by itself is the call of [kernel_calls]. *)
Lemma session_int80_back spawn r w x : kernel_int80 r w = Some x -> session_int80 spawn r w = Some x.
Proof. unfold kernel_int80, session_int80. by destruct (syscall_linkage _ _ _ _) as [[]|]. Qed.

Lemma session_read spawn fd buf n w x :
  ece391_read fd buf n w = Some x -> @ece391_read _ (session_calls spawn) fd buf n w = Some x.
Proof. apply session_int80_back. Qed.

Lemma session_fdputs spawn fd a w x :
  ece391_fdputs fd a w = Some x -> @ece391_fdputs _ (session_calls spawn) fd a w = Some x.
Proof.
  unfold ece391_fdputs, bind, get_mem.
  change (@w_mem _ (session_calls spawn) w) with (w_mem w).
  destruct (ece391_write fd a (ece391_strlen (w_mem w) a) w) as [y|] eqn:E; [|done].
  apply (session_int80_back spawn) in E. change (session_int80 spawn) with (@int80 _ (session_calls spawn)) in E.
  unfold ece391_write, do_call in *. by rewrite E.
Qed.

(** ** What a program promises to the session *)

(** Process [q] just after execute has entered it: the program file [prog] is loaded, the arguments are [a], the
    standard descriptors are terminal [ti], which shows [v]; the file system is [f] on the image of [m]. *)
Record fresh (f : fs) (m : mem) (q ti : Z) (prog a : list Z) (v : vt) k : Prop := {
  fr_fs : k_fs k = f;
  fr_image : same_image f m (k_mem k);
  fr_printer : printer q ti v k;
  fr_elems : forall i, 2 <= i < FD_MAX -> elem (pcb_at k (get_pcb q)) i = fde0;
  fr_args : has_args (pcb_at k (get_pcb q)) a;
  fr_space : cr3 (k_paging k) = dir_addr q;
  fr_code : bytes (k_mem k) 0x8048000 (length (loaded prog)) = loaded prog;
  fr_range : 1 <= q < MAX_PID
}.

(** The program file [prog], started with the arguments [a], prints [out] and ends. *)
Definition serves (spawn : Z -> kernel D -> child) (f : fs) (m : mem) (prog a out : list Z) : Prop :=
  forall k q ti v, fresh f m q ti prog a v k -> write_safe out v ->
    let c := spawn (entry_of prog) k in let w := child_world c k in
    in_process w q /\ wild_elsewhere (ch_frame c) /\ lawful q (ch_main c) /\
    exists r w', ch_main c w = Some (r, w') /\ gentle q ti w w' /\ printer q ti (vt_write out v) (kw_k w').

(** ** Lemmas: a call of execute *)

Lemma screens_input ti k k' : (exists d, k_terms k' = set_dev (k_terms k) d) -> same_input ti (k_terms k) (k_terms k').
Proof.
  intros [d ->]. split; [done|]. exists (cur_x (term (k_terms k) ti)), (cur_y (term (k_terms k) ti)).
  change (term (set_dev (k_terms k) d) ti) with (term (k_terms k) ti). by destruct (term (k_terms k) ti).
Qed.

(** The display as it was, for a process with the terminal as standard output. *)
Lemma printer_screens p q ti v k k' :
  printer p ti v k -> (exists d, k_terms k' = set_dev (k_terms k) d) ->
  fd_open (pcb_at k' (get_pcb q)) 1 -> file_operation_jmp_tbl (elem (pcb_at k' (get_pcb q)) 1) = terminal_driver ->
  Pcb.term (pcb_at k' (get_pcb q)) = ti -> printer q ti v k'.
Proof. intros [A1 A2 A3 A4 A5 A6 A7] [d Et] B1 B2 B3. split; rewrite ?Et; done. Qed.

Lemma ld_low_km k k' x : k_km k' = k_km k -> x < USER_WINDOW_START -> ld (k_mem k') x = ld (k_mem k) x.
Proof. intros Ek Hx. unfold ld. rewrite (below_window x Hx). unfold k_mem. by rewrite Ek. Qed.

(** The window of process [p] through its frame. *)
Lemma ld_window p k x : cr3 (k_paging k) = dir_addr p -> in_user x = true ->
  ld (k_mem k) x = u8 ((default ∅ (k_frames k !! p)).[x]).
Proof. intros Hc Hx. unfold ld, k_mem. rewrite Hx. cbn [um]. by rewrite (cur_space_dir k p Hc). Qed.

Section command.
Context (f : fs) (m0 : mem) (Hok : image_ok f m0) (Hty : typed_image f m0) (p ti : Z) (spawn : Z -> kernel D -> child).

(** The state that execute leaves is what the program is promised. *)
Lemma executed_fresh fr k k1 q prog a v :
  executed k k1 fr p q prog a -> k_fs k = f -> same_image f m0 (k_mem k) -> exec_frame f (k_mem k) fr ->
  printer p ti v k -> Z.of_nat (length a) < 100 -> fresh f m0 q ti prog a v k1.
Proof.
  intros [(Hq & _) [_ Hcr] Hprog (_ & _ & _ & Hel) Hargs _ _ _ _ Hkm _ (Hfs & _) Hscr] Hf Hs Hef Hpr Ha.
  destruct (Hargs Ha) as [Hha Hterm]. split; try done; [congruence| | |].
  - intros x Hx. rewrite <- (Hs x Hx).
    pose proof (ef_image _ _ _ Hef) as Hend. rewrite (image_end_stable _ _ _ Hs) in Hend.
    apply Hkm; [lia|]. intros Hl. apply in_locals_iff in Hl.
    destruct (exec_frame_facts _ _ _ Hef) as (F1 & F2 & F3 & F4 & F5 & F6 & _).
    unfold off_image in *. rewrite (image_end_stable _ _ _ Hs) in *. lia.
  - apply (printer_screens p q ti v k k1 Hpr Hscr); [unfold fd_open|..]; rewrite ?(Hel 1) by (unfold FD_MAX; lia);
      [done|done|]. rewrite Hterm. apply (pr_term _ _ _ _ Hpr).
  - intros i Hi. rewrite Hel by lia. by rewrite (proj2 (Z.ltb_ge i 2)) by lia.
Qed.

Lemma call_halt status w :
  ece391_halt status w = match syscall_halt (kw_frame w) (u8 (u32 (u8 status))) (enter w) with
    | Some (SRet v k) => Some (v, next w k)
    | _ => None
    end.
Proof. reflexivity. Qed.

(** The process has run and halted: its parent goes on in [k3]. *)
Record returned k k1 k3 (q : Z) (out : list Z) (v : vt) : Prop := {
  rt_cpu : k_cpu k3 = k_cpu k;
  rt_space : cr3 (k_paging k3) = dir_addr p;
  rt_pids : live (k_pid_usage k3) = live (k_pid_usage k);
  rt_parent : pcb_at k3 (get_pcb p) = set_child (pcb_at k1 (get_pcb p)) 0;
  rt_frames : forall r, r <> q -> k_frames k3 !! r = k_frames k1 !! r;
  rt_fs : k_fs k3 = f;
  rt_image : same_image f m0 (k_mem k3);
  rt_input : same_input ti (k_terms k1) (k_terms k3);
  rt_screen : bufs_ok (k_terms k3) /\ vt_ok (vt_write out v) /\ shows (k_terms k3) ti (vt_write out v)
}.

Lemma child_returns fr k k1 q prog a out v :
  image_end f m0 <= USER_WINDOW_START -> 0 <= p < MAX_PID -> p <> q -> pid (pcb_at k (get_pcb p)) = p ->
  executed k k1 fr p q prog a -> fresh f m0 q ti prog a v k1 -> serves spawn f m0 prog a out -> write_safe out v ->
  exists wc, start (ch_main (spawn (entry_of prog) k1)) (child_world (spawn (entry_of prog) k1) k1) = Some (0, wc) /\
    returned k k1 (kw_k wc) q out v.
Proof.
  intros Hend Hp Hpq Hpid Hex Hfr Hsv Hw. destruct (Hsv k1 q ti v Hfr Hw) as (Hin & Hwild & Hlaw & r & w2 & Emain & Hg & Hpr).
  set (c := spawn (entry_of prog) k1) in *. set (w1 := child_world c k1) in *.
  destruct (Hlaw w1 r w2 Hwild Emain) as [Cf [Cs Cs'] Cb [Co1 Co2 Co3]].
  destruct (ex_block _ _ _ _ _ _ _ Hex) as (Xp & Xpar & _ & _). pose proof (ex_parent _ _ _ _ _ _ _ Hex) as Xparent.
  pose proof (fr_range _ _ _ _ _ _ _ _ Hfr) as Hq.
  assert (Hrun1 : runs_as (enter w1) q) by (split; [lia|split; [apply Hin|exact Xp]]).
  pose proof (benign_runs _ _ _ Cb Hrun1) as Hrun2.
  assert (Hbp : pcb_at (enter w2) (get_pcb p) = pcb_at k1 (get_pcb p)).
  { apply Co2; [apply (enter_curr _ _ Hin)|lia|done|done]. }
  assert (Hco : child_of (enter w2) (kw_frame w2) p q).
  { split; [exact Hrun2| | | |by rewrite Cf].
    - destruct (bn_blocks _ _ _ Cb q ltac:(lia)) as (E & _). rewrite E. exact Xpar.
    - split; [done|]. split; [done|]. rewrite Hbp, Xparent. exact Hpid.
    - pose proof (fr_image _ _ _ _ _ _ _ _ Hfr) as Hi. apply (ge_drivers _ _ _ _ Hg); change (kw_k w1) with k1; rewrite ?(fr_fs _ _ _ _ _ _ _ _ Hfr).
      + by apply (image_ok_stable f m0).
      + by apply (typed_image_stable f m0).
      + intros i Hir Ho. unfold fd_open in Ho. by rewrite (fr_elems _ _ _ _ _ _ _ _ Hfr) in Ho by done. }
  destruct (halt_spec (kw_frame w2) (u8 (u32 (u8 r))) (enter w2) p q Hco) as (k3 & E3 & Hh).
  exists (next w2 k3). split.
  { unfold start. rewrite (bind_some _ _ _ _ _ Emain), call_halt, E3. done. }
  cbn [kw_k next]. destruct (ha_memory _ _ _ _ _ Hh) as (Hkm & Hfrm & Hfs).
  assert (Hfs1 : k_fs (kw_k w2) = f) by (rewrite (ge_fs _ _ _ _ Hg); apply Hfr).
  split.
  - rewrite (ha_cpu _ _ _ _ _ Hh), Hbp, Xparent. by destruct (k_cpu k).
  - apply Hh.
  - rewrite (ha_pid _ _ _ _ _ Hh), (bn_pids _ _ _ Cb). destruct (ex_pid _ _ _ _ _ _ _ Hex) as (_ & Hnew & Hlive).
    change (k_pid_usage (enter w1)) with (k_pid_usage k1). rewrite Hlive.
    apply set_eq. intros x. rewrite elem_of_difference, elem_of_union, elem_of_singleton.
    split; [intros [[?|?] ?]; done|]. intros Hx. split; [by left|]. by intros ->.
  - by rewrite (ha_parent _ _ _ _ _ Hh), Hbp.
  - intros r' Hr'. rewrite Hfrm. apply Co1; [exact (fr_space _ _ _ _ _ _ _ _ Hfr)|done].
  - rewrite Hfs. exact Hfs1.
  - intros x Hx. rewrite (ld_low_km (kw_k w2) k3) by (done || lia).
    pose proof (ge_image _ _ _ _ Hg) as Hi. change (kw_k w1) with k1 in Hi. rewrite (fr_fs _ _ _ _ _ _ _ _ Hfr) in Hi.
    rewrite (Hi x); [by apply Hfr|]. by rewrite (image_end_stable f m0) by apply Hfr.
  - destruct (ge_input _ _ _ _ Hg) as [G1 (x & y & G2)]. destruct (ha_screens _ _ _ _ _ Hh) as [d Et]. rewrite Et.
    split; [exact G1|]. by exists x, y.
  - destruct (ha_screens _ _ _ _ _ Hh) as [d Et]. rewrite Et. destruct Hpr as [_ _ _ _ P5 P6 P7]. done.
Qed.

Definition greeting_text : string := ("Starting 391 Shell" ++ nl)%string.

(** The shell in process [p] between two commands: its terminal shows [v]. *)
Record shell_at (buf : Z) (v : vt) w : Prop := {
  sa_process : in_process w p;
  sa_console : console p ti v (kw_k w);
  sa_texts : forall s, s ∈ ["391OS> "; "exit"; greeting_text]%string -> text_at (k_mem (kw_k w)) buf (lit s) (chars s) /\
    USER_WINDOW_START <= lit s /\ lit s + Z.of_nat (length (chars s)) < USER_WINDOW_END;
  sa_caller : caller (enter w) (kw_frame w) p;
  sa_fs : k_fs (kw_k w) = f;
  sa_image : same_image f m0 (k_mem (kw_k w))
}.

(** Back from the program: the shell's texts, descriptors and rights are what they were. *)
Lemma returned_shell buf w fr k1 k3 q prog a out v :
  shell_at buf v w -> fr = kw_frame w -> executed (enter w) k1 fr p q prog a ->
  returned (enter w) k1 k3 q out v -> shell_at buf (vt_write out v) (next w k3).
Proof.
  intros [S1 S2 S3 S4 S5 S6] -> Hex [R1 R2 R3 R4 R5 R6 R7 [R8 (x & y & R8')] (R9 & R10 & R11)].
  pose proof (ca_frame _ _ _ S4) as Hef. destruct S4 as [C1 C2 C3 C4 _]. change (k_fs (enter w)) with (k_fs (kw_k w)) in Hef.
  change (k_mem (enter w)) with (k_mem (kw_k w)) in Hef. rewrite S5 in Hef.
  pose proof (ex_parent _ _ _ _ _ _ _ Hex) as Xp. rewrite Xp in R4.
  assert (Hpq : p <> q).
  { intros ->. destruct (ex_pid _ _ _ _ _ _ _ Hex) as (? & Hnew & _). destruct C2 as [->|?]; [lia|done]. }
  assert (Hwin : forall z, in_user z = true -> ld (k_mem k3) z = ld (k_mem (kw_k w)) z).
  { intros z Hz. rewrite (ld_window p k3 z R2 Hz), (ld_window p (kw_k w) z C4 Hz), R5 by done.
    apply (ex_frames _ _ _ _ _ _ _ Hex); [done|]. unfold in_user, USER_WINDOW_START, USER_WINDOW_END in Hz. lia. }
  destruct (ex_screens _ _ _ _ _ _ _ Hex) as [d Et]. rewrite Et in R8, R8'.
  destruct S2 as [[A1 A2 A3 A4 A5 A6 A7] B2 B3 B4 B5].
  assert (Hel : forall j, elem (pcb_at k3 (get_pcb p)) j = elem (pcb_at (kw_k w) (get_pcb p)) j) by (intros j; by rewrite R4).
  assert (Htm : Pcb.term (pcb_at k3 (get_pcb p)) = ti) by (rewrite R4; exact A3).
  split; cbn [kw_k next].
  - exact S1.
  - split; [split; unfold fd_open; rewrite ?Hel; done|unfold fd_open; rewrite !Hel; exact B2|by rewrite R8| |]; rewrite R8'; done.
  - intros t Ht. destruct (S3 t Ht) as ((T1 & T2) & T3 & T4). split; [|done]. split; [|exact T2].
    apply (cstr_ext (k_mem (kw_k w))); [|exact T1]. intros z Hz. apply Hwin. unfold in_user.
    rewrite (proj2 (Z.leb_le _ _)), (proj2 (Z.ltb_lt _ _)) by lia. done.
  - change (kw_frame (next w k3)) with (kw_frame w). split.
    + destruct C1 as (P1 & P2 & P3). split; [exact P1|]. split; [exact P2|].
      change (pcb_at (enter (next w k3)) (get_pcb p)) with (pcb_at k3 (get_pcb p)). rewrite R4. exact P3.
    + change (k_pid_usage (enter (next w k3))) with (k_pid_usage k3). by rewrite R3.
    + change (k_pid_usage (enter (next w k3))) with (k_pid_usage k3). by rewrite R3.
    + exact R2.
    + change (k_fs (enter (next w k3))) with (k_fs k3). change (k_mem (enter (next w k3))) with (k_mem k3). rewrite R6.
      apply (exec_frame_stable f (k_mem (kw_k w))); [|exact Hef]. intros z Hz. rewrite (image_end_stable _ _ _ S6) in Hz.
      by rewrite (R7 z Hz), (S6 z Hz).
  - exact R6.
  - exact R7.
Qed.

(** A command of the session: the call of execute prints the output of the program and returns 0. *)
Lemma command_runs buf v w name prog i a out :
  shell_at buf v w -> command_line (k_mem (kw_k w)) (kw_frame w) buf (name ++ 32 :: a) -> 0 < buf < 2 ^ 32 ->
  executable f m0 name prog i -> Forall (fun ch => ch <> 32) name -> (length name < 32)%nat -> Z.of_nat (length a) < 100 ->
  serves spawn f m0 prog a out -> write_safe out v ->
  exists w', @ece391_execute _ (session_calls spawn) buf w = Some (0, w') /\ shell_at buf (vt_write out v) w' /\
    kw_envs w' = List.tl (kw_envs w).
Proof.
  intros Hsh Hcl Hb Hx Hsp Hn Ha Hsv Hw. pose proof Hsh as [S1 S2 S3 S4 S5 S6].
  assert (Hx' : executable (k_fs (enter w)) (k_mem (enter w)) name prog i).
  { change (k_fs (enter w)) with (k_fs (kw_k w)). rewrite S5. by apply (executable_stable _ m0); [lia|exact S6|]. }
  destruct (execute_command_line (kw_frame w) buf (enter w) p name a prog i S4 Hx' Hcl Hsp Hn ltac:(lia)) as (q & k1 & Ee & Hex).
  pose proof (ca_frame _ _ _ S4) as Hef. change (k_fs (enter w)) with (k_fs (kw_k w)) in Hef. rewrite S5 in Hef.
  assert (Hpr : printer p ti v (enter w)) by (by destruct (co_printer _ _ _ _ S2)).
  assert (Hfr : fresh f m0 q ti prog a v k1) by exact (executed_fresh _ (enter w) k1 q prog a v Hex S5 S6 Hef Hpr Ha).
  pose proof (ef_image _ _ _ Hef) as Hend. change (k_mem (enter w)) with (k_mem (kw_k w)) in Hend.
  rewrite (image_end_stable _ _ _ S6) in Hend. destruct (ca_runs _ _ _ S4) as (Hp & _ & Hpid).
  assert (Hpq : p <> q).
  { intros ->. destruct (ex_pid _ _ _ _ _ _ _ Hex) as (? & Hnew & _). destruct (ca_live _ _ _ S4) as [->|?]; [lia|done]. }
  destruct (child_returns _ (enter w) k1 q prog a out v Hend Hp Hpq Hpid Hex Hfr Hsv Hw) as (wc & Est & Hret).
  exists (next w (kw_k wc)). split; [|split; [by eapply returned_shell|done]].
  unfold ece391_execute, do_call. change (@int80 _ (session_calls spawn)) with (session_int80 spawn). unfold session_int80.
  assert (El : syscall_linkage (kw_frame w) (env_of w) (Regs SYS_EXECUTE (u32 buf) (u32 0) (u32 0)) (enter w) =
    Some (SUser (entry_of prog) k1)).
  { rewrite <- Ee. rewrite <- (u32_small buf) at 2 by lia. rewrite <- (u32_u32 buf) at 2. reflexivity. }
  rewrite El, Est, (rt_cpu _ _ _ _ _ _ Hret). change (k_cpu (enter w)) with (Cpu (kw_esp w) (kw_ebp w)). cbn [esp ebp].
  by rewrite !Z.eqb_refl.
Qed.

(** ** A list of commands *)

(** A typed line "name args" for the program file [prog], which prints [out]. *)
Record command := Command {
  cm_keys : list Z;
  cm_name : list Z;
  cm_args : list Z;
  cm_entry : Z;
  cm_prog : list Z;
  cm_out : list Z
}.

Record command_ok (c : command) : Prop := {
  ck_plain : Forall plain_key (cm_keys c) /\ (length (cm_keys c) < 128)%nat;
  ck_text : map u8 (cm_keys c) = cm_name c ++ 32 :: cm_args c;
  ck_name : Forall (fun ch => ch <> 32) (cm_name c) /\ (length (cm_name c) < 32)%nat;
  ck_length : Z.of_nat (length (cm_args c)) < 100;
  ck_file : executable f m0 (cm_name c) (cm_prog c) (cm_entry c);
  ck_serves : serves spawn f m0 (cm_prog c) (cm_args c) (cm_out c)
}.

(** The prompt with a typed line. *)
Definition prompt_line (keys : list Z) : list Z := chars "391OS> " ++ map u8 (keys ++ [KEY_ENTER]).

(** What a session of these commands leaves on the screen. *)
Definition transcript (cs : list command) : list Z :=
  concat (map (fun c => prompt_line (cm_keys c) ++ cm_out c) cs) ++ prompt_line (chars "exit").

(** The lines are typed while the shell waits for them: every command is three calls of the shell. *)
Fixpoint typed (cs : list command) (envs : list env) : Prop :=
  match cs with
  | [] => e_keys (nth 1 envs (Env [] [])) = map press (chars "exit" ++ [KEY_ENTER])
  | c :: cs => e_keys (nth 1 envs (Env [] [])) = map press (cm_keys c ++ [KEY_ENTER]) /\ typed cs (drop 3 envs)
  end.

Lemma drop3_tl (l : list env) : List.tl (List.tl (List.tl l)) = drop 3 l.
Proof. by destruct l as [|? [|? [|? ?]]]. Qed.

(** Up to the command, for any line. *)
Lemma shell_at_line buf v w keys :
  USER_WINDOW_START <= buf -> buf + 1024 <= USER_WINDOW_END -> off_image f m0 buf 1024 ->
  shell_at buf v w -> e_keys (nth 1 (kw_envs w) (Env [] [])) = map press (keys ++ [KEY_ENTER]) ->
  Forall plain_key keys -> (length keys < 128)%nat ->
  exists w3, shell_at buf (vt_write (prompt_line keys) v) w3 /\ cstr (k_mem (kw_k w3)) buf (map u8 keys) /\
    kw_envs w3 = List.tl (List.tl (kw_envs w)) /\
    forall fuel, @shell_loop _ (session_calls spawn) _ (S fuel) buf w =
      if list_eq_dec Z.eq_dec (map u8 keys) (chars "exit") then Some (0, w3)
      else if bool_decide (keys = []) then @shell_loop _ (session_calls spawn) _ fuel buf w3
      else bind (@ece391_execute _ (session_calls spawn) buf)
        (fun rval => bind (@shell_report _ (session_calls spawn) _ rval) (fun _ => @shell_loop _ (session_calls spawn) _ fuel buf)) w3.
Proof.
  intros Hb1 Hb2 Hoff [S1 S2 S3 S4 S5 S6] Ht Hk Hl.
  assert (Hready : talk_ready p ti buf v keys ["391OS> "; "exit"]%string w).
  { split; try done. intros s Hs. apply (S3 s). apply elem_of_cons in Hs as [->|Hs]; [by left|]. apply list_elem_of_singleton in Hs as ->. right. by left. }
  destruct (shell_types p ti v buf keys w Hready) as (w1 & w2 & w3 & E1 & E2 & Hnl & E3 & Hp3 & Hc3 & Hcmd & Hexit & Hu & Hst & Hen).
  pose proof (off_image_stable _ _ _ S6 _ _ Hoff) as Hoff'. exists w3. split; [|split; [exact Hcmd|split; [exact Hen|]]].
  - split; [exact Hp3|exact Hc3| | | |].
    + intros s Hs. destruct (S3 s Hs) as ((T1 & T2 & T3) & T4). split; [|exact T4]. split; [|done].
      apply (cstr_ext (k_mem (kw_k w))); [|exact T1]. intros x Hx. apply Hu. lia.
    + rewrite (sd_frame _ _ _ Hst). eapply steady_caller; [exact Hst|exact S4| |exact Hu]. by rewrite S5.
    + by rewrite (sd_fs _ _ _ Hst).
    + intros x Hx. rewrite Hu; [by apply S6|]. destruct Hoff as (_ & _ & Ho). lia.
  - intros fuel. pose proof (@shell_loop_line _ (session_calls spawn) _ fuel buf (Z.of_nat (length keys)) w w1 w2 w3
      (session_fdputs _ _ _ _ _ E1) (session_read _ _ _ _ _ _ E2) ltac:(lia) Hnl E3) as ->.
    change (@w_mem _ (session_calls spawn) w3) with (k_mem (kw_k w3)).
    pose proof (ece391_strcmp_eq _ _ _ _ _ Hcmd Hexit) as Hcmp.
    destruct (list_eq_dec _ _ _) as [E|E]; [by rewrite (proj2 (Z.eqb_eq _ _) (proj2 Hcmp E))|].
    rewrite (proj2 (Z.eqb_neq _ _)) by (intros E'; by apply Hcmp in E').
    destruct keys as [|key keys]; [by rewrite Hcmd|]. destruct Hcmd as (-> & Hc & _). by rewrite (proj2 (Z.eqb_neq _ _) Hc).
Qed.

(** The whole session. *)
Lemma session_runs buf cs : 
  USER_WINDOW_START <= buf -> buf + 1024 <= USER_WINDOW_END -> off_image f m0 buf 1024 -> Forall command_ok cs ->
  forall v w, shell_at buf v w -> typed cs (kw_envs w) -> write_safe (transcript cs) v ->
  exists w', @shell_loop _ (session_calls spawn) _ (S (length cs)) buf w = Some (0, w') /\
    shell_at buf (vt_write (transcript cs) v) w'.
Proof.
  intros Hb1 Hb2 Hoff Hcs. induction Hcs as [|c cs Hc Hcs IH]; intros v w Hsh Ht Hw.
  - destruct (shell_at_line buf v w (chars "exit") Hb1 Hb2 Hoff Hsh Ht) as (w3 & Hsh3 & _ & _ & E).
    { repeat (constructor; [by vm_compute|]). constructor. }
    { apply Nat.ltb_lt. by vm_compute. }
    exists w3. split; [|exact Hsh3]. cbn [length]. by rewrite E.
  - destruct Ht as [Ht Hts]. destruct Hc as [[K1 K2] K3 [K4 K5] K6 K7 K8].
    unfold transcript in Hw |- *. cbn [map concat] in Hw |- *. rewrite <- !app_assoc in Hw |- *.
    apply write_safe_app in Hw as [_ Hw]. apply write_safe_app in Hw as [Hw1 Hw2].
    destruct (shell_at_line buf v w (cm_keys c) Hb1 Hb2 Hoff Hsh Ht K1 K2) as (w3 & Hsh3 & Hcmd & Hen & E).
    pose proof (ca_frame _ _ _ (sa_caller _ _ _ Hsh3)) as Hef. pose proof (exec_frame_facts _ _ _ Hef) as (_ & _ & _ & _ & _ & _ & Hwn & _).
    unfold USER_WINDOW_START, USER_WINDOW_END in *. rewrite K3 in Hcmd.
    assert (Hcl : command_line (k_mem (kw_k w3)) (kw_frame w3) buf (cm_name c ++ 32 :: cm_args c)).
    { split; [exact Hcmd|]. split; [lia|]. split; right; lia. }
    destruct (command_runs buf _ w3 (cm_name c) (cm_prog c) (cm_entry c) (cm_args c) (cm_out c) Hsh3 Hcl ltac:(lia) K7 K4 K5 K6 K8 Hw1)
      as (w4 & Ex & Hsh4 & Hen4).
    destruct (IH _ w4 Hsh4) as (w5 & E5 & Hsh5); [by rewrite Hen4, Hen, drop3_tl|exact Hw2|].
    exists w5. split; [|rewrite (vt_write_app (prompt_line _)), (vt_write_app (cm_out c)); exact Hsh5].
    cbn [length]. rewrite E. destruct (list_eq_dec _ _ _) as [E'|_].
    { exfalso. rewrite K3 in E'. assert (Hin : 32 ∈ chars "exit") by (rewrite <- E'; apply elem_of_app; right; by constructor).
      apply list_elem_of_In in Hin. cbn in Hin. lia. }
    rewrite bool_decide_false by (intros E0; rewrite E0 in K3; by destruct (cm_name c)).
    rewrite (bind_some _ _ _ _ _ Ex). exact E5.
Qed.

(** [shell_main]: the greeting, then the session. *)
Lemma shell_main_runs buf cs v w :
  USER_WINDOW_START <= buf -> buf + 1024 <= USER_WINDOW_END -> off_image f m0 buf 1024 -> Forall command_ok cs ->
  shell_at buf v w -> typed cs (List.tl (kw_envs w)) -> write_safe (chars greeting_text ++ transcript cs) v ->
  exists w', @shell_main _ (session_calls spawn) _ (S (length cs)) buf w = Some (0, w') /\
    shell_at buf (vt_write (chars greeting_text ++ transcript cs) v) w'.
Proof.
  intros Hb1 Hb2 Hoff Hcs [S1 S2 S3 S4 S5 S6] Ht [Hw1 Hw2]%write_safe_app.
  destruct (S3 greeting_text) as ((T1 & T2 & _) & _); [by do 2 right; left|].
  destruct (fdputs_shows p ti v _ _ w S1 S2 T1 T2 ltac:(by vm_compute) Hw1) as (w1 & E1 & Hp1 & He1 & Hc1 & Hm1 & Hst).
  assert (Hsh1 : shell_at buf (vt_write (chars greeting_text) v) w1).
  { split; [exact Hp1|exact Hc1|by rewrite Hm1| |by rewrite (sd_fs _ _ _ Hst)|by rewrite Hm1].
    rewrite (sd_frame _ _ _ Hst). eapply (steady_caller p _ buf); [exact Hst|exact S4| |intros x _; by rewrite Hm1].
    rewrite S5. by eapply off_image_stable. }
  destruct (session_runs buf cs Hb1 Hb2 Hoff Hcs _ w1 Hsh1) as (w2 & E2 & Hsh2); [by rewrite He1|exact Hw2|].
  exists w2. rewrite vt_write_app. split; [|exact Hsh2]. unfold shell_main, puts1.
  rewrite (bind_some _ _ _ _ _ (session_fdputs _ _ _ _ _ E1)). exact E2.
Qed.
End command.

(** ** cat in a session *)

(** The program file [prog] is cat: its process runs [cat_main] with a buffer at [cbuf]. *)
Definition runs_cat (spawn : Z -> kernel D -> child) (f : fs) (m : mem) (prog : list Z) (fuel : nat) (cbuf : Z) : Prop :=
  off_image f m cbuf 1024 /\ forall k q, 1 <= q < MAX_PID -> cr3 (k_paging k) = dir_addr q ->
    let c := spawn (entry_of prog) k in
    ch_main c = cat_main (S fuel) cbuf /\ on_stack q (ch_esp c) /\ wild_elsewhere (ch_frame c) /\
    off_image f m (f_dentry (ch_frame c)) sizeof_dentry /\
    (f_dentry (ch_frame c) + sizeof_dentry <= cbuf \/ cbuf + 1024 <= f_dentry (ch_frame c)).

(** A file that cat can show. *)
Record shown (f : fs) (m : mem) (fuel : nat) (name : list Z) (j : Z) : Prop := {
  sh_name : names f m name j /\ (length name <= 32)%nat;
  sh_file : filetype m (dentry_directory f j) = FILE_TYPE;
  sh_inode : 0 <= inode_index m (dentry_directory f j) < inode_num m (boot_block f);
  sh_length : Z.of_nat (length (file_content f m (inode_index m (dentry_directory f j)))) <= 1024 * Z.of_nat fuel
}.

Lemma cat_serves spawn f m prog fuel cbuf name j :
  image_ok f m -> runs_cat spawn f m prog fuel cbuf -> shown f m fuel name j ->
  serves spawn f m prog name (file_content f m (inode_index m (dentry_directory f j))).
Proof.
  intros Hok [Hcb Hcat] [[Hn Hnl] Hty Hino Hlen] k q ti v [F1 F2 F3 F4 F5 F6 F7 F8] Hw c w.
  destruct (Hcat k q F8 F6) as (Em & Hst & Hwild & Hd & Hap). fold c in Em, Hst, Hwild, Hd, Hap.
  assert (Hin : in_process w q) by (split; [lia|exact Hst]). split; [exact Hin|]. split; [exact Hwild|].
  rewrite Em. split; [apply lawful_cat|]. set (d := dentry_directory f j) in *.
  destruct (dentry_in_image _ _ j Hok (proj1 Hn)) as [Hd1 Hd2]. fold d in Hd1, Hd2.
  assert (Hld : forall x, d <= x < d + sizeof_dentry -> ld (k_mem k) x = ld m x) by (intros x Hx; apply F2; lia).
  assert (Ei : inode_index (k_mem k) d = inode_index m d) by (unfold inode_index; apply ld32_ext; intros x Hx; apply Hld; unfold sizeof_dentry; lia).
  assert (Et : filetype (k_mem k) d = filetype m d) by (unfold filetype; apply ld32_ext; intros x Hx; apply Hld; unfold sizeof_dentry; lia).
  assert (Ec : file_content f (k_mem k) (inode_index m d) = file_content f m (inode_index m d)) by (by apply file_content_stable).
  assert (Hr : cat_ready (ch_frame c) q ti cbuf name j v (kw_k w)).
  { change (kw_k w) with k. split; rewrite ?F1; fold d.
    - exact F3.
    - exists 2. split; [by vm_compute|]. unfold fd_open. rewrite F4 by (by vm_compute). by intros [].
    - by split.
    - by apply (image_ok_stable f m).
    - by apply (names_stable f m).
    - by rewrite Et.
    - by rewrite Ei, (inode_num_stable f m) by done.
    - by apply (off_image_stable f m).
    - by apply (off_image_stable f m).
    - exact Hap. }
  destruct (cat_prints (ch_frame c) q ti cbuf name j v w fuel Hin Hr eq_refl) as (w' & E & Hg & Hpr);
    change (kw_k w) with k in *; rewrite ?F1, ?Ei, ?Ec in *; fold d; rewrite ?Ei, ?Ec; try done.
  fold d in Hpr. rewrite Ei, Ec in Hpr. by exists 0, w'.
Qed.

(** A typed line that has a file shown: the keys, the name of the file and its directory entry. *)
Record shown_line (f : fs) (m : mem) (fuel : nat) (name : list Z) (x : list Z * list Z * Z) : Prop := {
  sl_plain : Forall plain_key x.1.1 /\ (length x.1.1 < 128)%nat;
  sl_text : map u8 x.1.1 = name ++ 32 :: x.1.2;
  sl_shown : shown f m fuel x.1.2 x.2
}.

Definition cat_command (f : fs) (m : mem) (name prog : list Z) (i : Z) (x : list Z * list Z * Z) : command :=
  Command x.1.1 name x.1.2 i prog (file_content f m (inode_index m (dentry_directory f x.2))).

Lemma cat_command_ok f m spawn fuel cbuf name prog i x :
  image_ok f m -> executable f m name prog i -> Forall (fun ch => ch <> 32) name -> (length name < 32)%nat ->
  runs_cat spawn f m prog fuel cbuf -> shown_line f m fuel name x -> command_ok f m spawn (cat_command f m name prog i x).
Proof.
  intros Hok Hx Hsp Hn Hrun [A1 A2 A3]. pose proof (sh_name _ _ _ _ _ A3) as [_ Hl].
  split; [exact A1|exact A2|by split|cbn [cm_args cat_command]; lia|exact Hx|]. by eapply cat_serves.
Qed.
End session.

(** ** Properties *)

(** C4: A session of the shell.  For a shell at its start and any list of typed lines "cat file" followed by
    "exit", the run of [shell_main] ends with result 0, and the terminal then shows the greeting and for every
    line the prompt, the line and the whole contents of the file, and the last prompt with "exit".
    Every line goes from the keyboard through the input queue and the read call to the shell, from its execute
    call into a new process that runs [cat_main], and with the halt of that process back to the shell. *)
Theorem shell_session_shows_files {D} `{MachineLaws D} `{LayoutLaws} `{Literals} (w : kworld D) p ti v buf spawn name prog i fuel cbuf lines :
  let f := k_fs (kw_k w) in let m := k_mem (kw_k w) in
  image_ok f m -> typed_image f m -> shell_at f m p ti buf v w ->
  USER_WINDOW_START <= buf -> buf + 1024 <= USER_WINDOW_END -> off_image f m buf 1024 ->
  executable f m name prog i -> Forall (fun ch => ch <> 32) name -> (length name < 32)%nat ->
  runs_cat spawn f m prog fuel cbuf -> Forall (shown_line f m fuel name) lines ->
  let cs := map (cat_command f m name prog i) lines in
  typed cs (List.tl (kw_envs w)) -> write_safe (chars greeting_text ++ transcript cs) v ->
  exists w', @shell_main _ (session_calls spawn) _ (S (length lines)) buf w = Some (0, w') /\ in_process w' p /\
    shows (k_terms (kw_k w')) ti (vt_write (chars greeting_text ++ transcript cs) v).
Proof.
  intros f m Hok Hty Hsh Hb1 Hb2 Hoff Hx Hsp Hn Hrun Hl cs Ht Hw.
  assert (Hcs : Forall (command_ok f m spawn) cs).
  { apply List.Forall_map. eapply List.Forall_impl; [|exact Hl]. intros x Hxl. by eapply cat_command_ok. }
  destruct (shell_main_runs f m Hok Hty p ti spawn buf cs v w Hb1 Hb2 Hoff Hcs Hsh Ht Hw) as (w' & E & Hsh').
  unfold cs in E. rewrite length_map in E. exists w'. split; [exact E|]. split; [apply Hsh'|].
  exact (pr_shows _ _ _ _ (co_printer _ _ _ _ (sa_console _ _ _ _ _ _ _ Hsh'))).
Qed.

(** ** Witness *)

#[local] Instance session_literals : Literals := {|
  lit s := if String.eqb s greeting_text then 0x8048200 else if String.eqb s "391OS> " then 0x8048340 else 0x8048360
|}.

(** The small image, whose program file is called cat. *)
Definition cat_image : mem := st_list sample_image 0x4100C0 (chars "cat").

Definition session_window : arr :=
  um (st_list (st_list (st_list mem_empty 0x8048200 (chars greeting_text)) 0x8048340 (chars "391OS> ")) 0x8048360 (chars "exit")).

Definition sample_session : kernel sim :=
  set_pcb (Kernel (km cat_image) (<[1 := session_window]> ∅) (k_paging sample_exec) (k_pid_usage sample_exec)
    (k_sched sample_exec) (k_pcbs sample_exec) (k_terms sample_exec) (k_fs sample_exec) (k_rtc_flag sample_exec)
    (k_tss sample_exec) (k_cpu sample_exec)) (get_pcb 1) (pcb_init (Pcb ∅ 0 0 0 0 1 ∅ 0 0 0 0 0)).2.

(** "cat cat" and "exit" are typed. *)
Definition session_world : kworld sim :=
  KW sample_session [Env [] []; Env [] []; Env [] (map press (chars "cat cat" ++ [KEY_ENTER])); Env [] []; Env [] [];
    Env [] (map press (chars "exit" ++ [KEY_ENTER]))] sample_frame (KERNEL_STACK 1 - 64) 0.

Definition session_spawn (entry : Z) (k : kernel sim) : child :=
  Child (cat_main 2 0x8200000) sample_frame [] (KERNEL_STACK (cur_space k) - 64) 0.

Definition session_mem : mem := Mem (km cat_image) session_window.

Lemma sample_session_mem : k_mem sample_session = session_mem.
Proof.
  unfold k_mem. assert (E : cur_space sample_session = 1) by (by vm_compute). rewrite E.
  change (k_frames sample_session) with (<[1 := session_window]> (∅ : gmap Z arr)).
  change (k_km sample_session) with (km cat_image). by rewrite lookup_insert_eq.
Qed.

Lemma session_image_ok : image_ok sample_fs session_mem.
Proof.
  assert (E1 : inode_num session_mem 0x410000 = 1) by (by vm_compute).
  assert (E0 : image_end sample_fs session_mem = 0x414000) by (by vm_compute).
  split; cbn [boot_block num_directories sample_fs]; [lia|by rewrite E0|lia|..].
  - intros ino. rewrite E1. intros Hi. replace ino with 0 by lia. by vm_compute.
  - intros ino b. rewrite E1. intros Hi Hb. replace ino with 0 by lia.
    assert (E2 : file_length sample_fs session_mem 0 = 40) by (by vm_compute).
    rewrite E2. unfold FOUR_KB. intros. replace b with 0 by lia. by vm_compute.
Qed.

Lemma session_typed : typed_image sample_fs session_mem.
Proof.
  intros i Hi. cbn [num_directories sample_fs] in Hi.
  assert (i = 0 \/ i = 1 \/ i = 2 \/ i = 3) as [-> |[-> |[-> | ->]]] by lia; vm_compute; auto.
Qed.

Lemma session_off a n : 0x414000 <= a -> a + n <= 2 ^ 32 -> off_image sample_fs session_mem a n.
Proof.
  intros. unfold off_image. assert (E : image_end sample_fs session_mem = 0x414000) by (by vm_compute).
  rewrite E. split; [lia|]. split; [done|]. right. lia.
Qed.

Lemma session_name : names sample_fs session_mem (chars "cat") 2.
Proof.
  split; [by vm_compute|]. split; [by vm_compute|]. intros j Hj.
  assert (j = 0 \/ j = 1) as [-> | ->] by lia; by vm_compute.
Qed.

Lemma session_content : file_content sample_fs session_mem (inode_index session_mem (dentry_directory sample_fs 2)) = sample_elf.
Proof. by vm_compute. Qed.

Lemma session_caller : caller (enter session_world) sample_frame 1.
Proof.
  destruct sample_caller as [_ C2 C3 C4 _]. split; [by vm_compute|exact C2|exact C3|exact C4|].
  change (k_mem (enter session_world)) with (k_mem sample_session). rewrite sample_session_mem. split.
  - unfold locals. repeat apply List.Forall_cons; [..|apply List.Forall_nil];
      (split; [apply session_off; by vm_compute|by vm_compute]).
  - unfold locals. repeat apply List.FOP_cons; [..|apply List.FOP_nil];
      repeat apply List.Forall_cons; try apply List.Forall_nil; left; by vm_compute.
  - by vm_compute.
Qed.

Lemma session_pcb : pcb_at sample_session (get_pcb 1) = (pcb_init (Pcb ∅ 0 0 0 0 1 ∅ 0 0 0 0 0)).2.
Proof. apply pcb_at_set_eq. Qed.

Lemma session_descriptors j : j = 0 \/ j = 1 ->
  fd_open (pcb_at sample_session (get_pcb 1)) j /\ file_operation_jmp_tbl (elem (pcb_at sample_session (get_pcb 1)) j) = terminal_driver.
Proof. rewrite session_pcb. intros [-> | ->]; split; by vm_compute. Qed.

Lemma session_term : Pcb.term (pcb_at sample_session (get_pcb 1)) = 0 /\ 0 <= 0 < NR_TERM.
Proof. rewrite session_pcb. by vm_compute. Qed.

Lemma session_console : console 1 0 blank_vt sample_session.
Proof.
  destruct session_term as [Ht Hr]. destruct (session_descriptors 0 (or_introl eq_refl)) as [H0 H0'].
  destruct (session_descriptors 1 (or_intror eq_refl)) as [H1 H1'].
  destruct sample_terms_ok as (Hb & Ha & Hs & Hq & Hi & Hn & Hact). split.
  - split; [exact H1|exact H1'|exact Ht|exact Hr|exact Hb|exact blank_vt_ok|exact Hs].
  - split; [exact H0|exact H0'].
  - exact Ha.
  - split; [exact Hi|]. change (k_terms sample_session) with sample_terms. rewrite Hact. discriminate.
  - split; [exact Hn|exact Hq].
Qed.

Lemma session_shell : shell_at sample_fs session_mem 1 0 0x8200000 blank_vt session_world.
Proof.
  split; [by vm_compute|exact session_console| |exact session_caller|reflexivity|].
  - change (kw_k session_world) with sample_session. rewrite sample_session_mem.
    intros s. rewrite !elem_of_cons, elem_of_nil. intros [->|[->|[->|[]]]];
      (split; [apply talk_text; by vm_compute|by vm_compute]).
  - change (kw_k session_world) with sample_session. rewrite sample_session_mem. intros x _. done.
Qed.

Lemma session_cat : runs_cat session_spawn sample_fs session_mem sample_elf 1 0x8200000.
Proof.
  split; [apply session_off; by vm_compute|]. intros k q Hq Hc. cbn zeta. cbn [session_spawn ch_main ch_frame ch_esp].
  split; [reflexivity|]. split; [|split; [apply sample_wild|split; [apply session_off; by vm_compute|left; by vm_compute]]].
  rewrite (cur_space_dir k q Hc). unfold on_stack. rewrite get_pcb_eq by lia. unfold KERNEL_STACK, KERNEL_MEM_END, KERNEL_STACK_SIZE, MAX_PID in *. lia.
Qed.

Definition session_lines : list (list Z * list Z * Z) := [(chars "cat cat", chars "cat", 2)].

Lemma session_shown : shown sample_fs session_mem 1 (chars "cat") 2.
Proof.
  split; [split; [exact session_name|apply Nat.leb_le; by vm_compute]|by vm_compute|by vm_compute|].
  rewrite session_content. by vm_compute.
Qed.

Lemma session_lines_ok : Forall (shown_line sample_fs session_mem 1 (chars "cat")) session_lines.
Proof.
  constructor; [|constructor]. split; [|reflexivity|].
  - split; [|apply Nat.ltb_lt; by vm_compute]. repeat (constructor; [by vm_compute|]). constructor.
  - exact session_shown.
Qed.

Lemma session_executable : executable sample_fs session_mem (chars "cat") sample_elf 2.
Proof.
  split; [exact session_image_ok|exact session_name|by vm_compute|exact session_content|apply Nat.leb_le; by vm_compute|by vm_compute|by vm_compute].
Qed.

Definition session_text : list Z :=
  chars greeting_text ++ (chars "391OS> cat cat" ++ [10]) ++ sample_elf ++ chars "391OS> exit" ++ [10].

Lemma session_transcript : chars greeting_text ++ transcript (map (cat_command sample_fs session_mem (chars "cat") sample_elf 2) session_lines) = session_text.
Proof. unfold transcript. cbn [map session_lines concat cat_command cm_out snd]. rewrite session_content. by vm_compute. Qed.

Lemma shell_session_shows_files_witness :
  exists w', @shell_main _ (session_calls session_spawn) _ 2 0x8200000 session_world = Some (0, w') /\
    shows (k_terms (kw_k w')) 0 (vt_write session_text blank_vt).
Proof.
  assert (Hw : write_safe session_text blank_vt) by (vm_compute; repeat split; intros (? & ? & ?); discriminate).
  assert (Hsp : Forall (fun ch => ch <> 32) (chars "cat")) by (repeat constructor; discriminate).
  assert (Hl : (length (chars "cat") < 32)%nat) by (apply Nat.ltb_lt; by vm_compute).
  destruct (shell_session_shows_files session_world 1 0 blank_vt 0x8200000 session_spawn (chars "cat") sample_elf 2 1 0x8200000 session_lines)
    as (w' & E & _ & Hs); change (k_fs (kw_k session_world)) with sample_fs in *;
    change (k_mem (kw_k session_world)) with (k_mem sample_session) in *; rewrite ?sample_session_mem in *.
  - exact session_image_ok.
  - exact session_typed.
  - exact session_shell.
  - by vm_compute.
  - by vm_compute.
  - apply session_off; by vm_compute.
  - exact session_executable.
  - exact Hsp.
  - exact Hl.
  - exact session_cat.
  - exact session_lines_ok.
  - split; [reflexivity|reflexivity].
  - rewrite session_transcript. exact Hw.
  - rewrite session_transcript in Hs. exists w'. split; [exact E|exact Hs].
Defined.
