(* ===== verification/Emulate.v ===== *)
(** * syscalls/ece391emulate.c: the system calls on Linux

    The library that lets the user programs run under Linux: the calls of ece391syscall.S, with the
    arguments, the directory and the screen of the kernel made up from what Linux has.  Linux and
    its C library are the class [Host]. *)

From S2P Require Import Prelude Mem LibString Execute Linkage User.

(** A host of type [H].  [linux] is INT 0x80 and returns EAX.  [readdir] returns the address of the
    next name, 0 at the end.  [fork] lets a child run on a copy of the memory, and returns to the
    parent; [execv] runs a program or, when it cannot, what follows the call. *)
Class Host (H : Type) := {
  linux : regs -> mem -> H -> option (Z * mem * H);
  opendir : string -> H -> Z * H;
  readdir : Z -> mem -> H -> Z * mem * H;
  closedir : Z -> H -> H;
  open_ : string -> Z -> H -> Z * H;
  close_ : Z -> H -> H;
  mmap : Z -> H -> Z * H;
  perror : string -> H -> H;
  fork : (mem -> H -> H) -> mem -> H -> H;
  execv : Z -> Z -> mem -> (H -> H) -> H -> H;
  kill_self : Z -> H -> H;
  wait : H -> Z * H
}.

(** The memory of the program, the static variables of the file, and the host. *)
Record world (H : Type) := World {
  e_mem : mem;
  start_esp : Z;
  dir_fd : Z;
  dir : Z;
  mem_fd : Z;
  host : H
}.

Arguments World {H}.
Arguments e_mem {H}.
Arguments start_esp {H}.
Arguments dir_fd {H}.
Arguments dir {H}.
Arguments mem_fd {H}.
Arguments host {H}.

Definition O_RDONLY : Z := 0.

Definition O_RDWR : Z := 2.

(** sys/wait.h *)
Definition WTERMSIG (status : Z) : Z := Z.land status 0x7F.

Definition WIFEXITED (status : Z) : bool := WTERMSIG status =? 0.

Definition WEXITSTATUS (status : Z) : Z := Z.shiftr (Z.land status 0xFF00) 8.

Section emulate.
Context {H : Type} `{Host H} `{Literals}.

Definition get : prog (world H) (world H) := fun w => Some (w, w).

Definition put_mem (m : mem) : prog (world H) unit :=
  fun w => Some (tt, World m (start_esp w) (dir_fd w) (dir w) (mem_fd w) (host w)).

Definition put_start_esp (v : Z) : prog (world H) unit :=
  fun w => Some (tt, World (e_mem w) v (dir_fd w) (dir w) (mem_fd w) (host w)).

Definition put_dir_fd (v : Z) : prog (world H) unit :=
  fun w => Some (tt, World (e_mem w) (start_esp w) v (dir w) (mem_fd w) (host w)).

Definition put_dir (v : Z) : prog (world H) unit :=
  fun w => Some (tt, World (e_mem w) (start_esp w) (dir_fd w) v (mem_fd w) (host w)).

Definition put_mem_fd (v : Z) : prog (world H) unit :=
  fun w => Some (tt, World (e_mem w) (start_esp w) (dir_fd w) (dir w) v (host w)).

(** A call of the host's library, without and with a result. *)
Definition hosted (f : H -> H) : prog (world H) unit :=
  fun w => Some (tt, World (e_mem w) (start_esp w) (dir_fd w) (dir w) (mem_fd w) (f (host w))).

Definition hosted_get (f : H -> Z * H) : prog (world H) Z :=
  fun w => Some ((f (host w)).1, World (e_mem w) (start_esp w) (dir_fd w) (dir w) (mem_fd w) (f (host w)).2).

Definition int80_linux (r : regs) : prog (world H) Z :=
  fun w =>
    match linux r (e_mem w) (host w) with
    | Some (eax, m, h) => Some (eax, World m (start_esp w) (dir_fd w) (dir w) (mem_fd w) h)
    | None => None
    end.

(** [DO_CALL]: an error number becomes -1. *)
Definition emu_call (number a b c : Z) : prog (world H) Z :=
  let! eax := int80_linux (Regs number (u32 a) (u32 b) (u32 c)) in
  ret (if u32 eax <=? 0xFFFFC000 then s32 eax else -1).

Definition emu_halt (status : Z) := emu_call 1 status 0 0.

Definition __ece391_read (fd buf nbytes : Z) := emu_call 3 fd buf nbytes.

Definition __ece391_write (fd buf nbytes : Z) := emu_call 4 fd buf nbytes.

Definition __ece391_close (fd : Z) := emu_call 6 fd 0 0.

(** [_start] *)
Definition emu_start (esp : Z) (main : prog (world H) Z) : prog (world H) Z :=
  put_start_esp esp ;;
  let! r := main in
  emu_halt r.

(** ** ece391_execute *)

(** The end of a word. *)
Fixpoint word_end (fuel : nat) (m : mem) (scan : Z) : Z :=
  match fuel with
  | O => scan
  | S f =>
      if negb (0 =? ld m scan) && negb (32 =? ld m scan) && negb (10 =? ld m scan) then word_end f m (scan + 1)
      else scan
  end.

Fixpoint skip_spaces (fuel : nat) (m : mem) (scan : Z) : Z :=
  match fuel with
  | O => scan
  | S f => if 32 =? ld m scan then skip_spaces f m (scan + 1) else scan
  end.

(** The loop over the arguments: the memory and [n_arg]. *)
Fixpoint parse_words (fuel : nat) (m : mem) (args n_arg scan : Z) : option (mem * Z) :=
  match fuel with
  | O => None
  | S f =>
      let scan := skip_spaces (mem_fuel m) m scan in
      if (0 =? ld m scan) || (10 =? ld m scan) then Some (st m scan 0, n_arg)
      else
        let m := st32 m (args + 4 * n_arg) scan in
        let scan := word_end (mem_fuel m) m scan in
        if negb (0 =? ld m scan) then parse_words f (st m scan 0) args (n_arg + 1) (scan + 1)
        else parse_words f m args (n_arg + 1) scan
  end.

(** [buf] becomes the path, [args] the array of arguments. *)
Definition emu_parse (m : mem) (buf args command : Z) : option mem :=
  let m := st (st m buf 46) (buf + 1) 47 in
  match ece391_strcpy m (buf + 2) command with
  | None => None
  | Some m =>
      let scan := word_end (mem_fuel m) m (buf + 2) in
      let m := st32 m args buf in
      let parsed :=
        if negb (0 =? ld m scan) then parse_words 1024 (st m scan 0) args 1 (scan + 1) else Some (m, 1) in
      match parsed with
      | None => None
      | Some (m, n_arg) => Some (st32 m (args + 4 * n_arg) 0)
      end
  end.

Definition emu_execute (buf args command : Z) : prog (world H) Z :=
  let! w := get in
  if 1023 <? ece391_strlen (e_mem w) command then ret (-1)
  else
    match emu_parse (e_mem w) buf args command with
    | None => stuck
    | Some m =>
        put_mem m ;;
        hosted (fork (fun m => execv buf args m (kill_self 9)) m) ;;
        let! status := hosted_get wait in
        if WIFEXITED status then ret (WEXITSTATUS status)
        else if 9 =? WTERMSIG status then ret (-1)
        else ret 256
    end.

(** ** The other calls *)

Definition emu_open (filename : Z) : prog (world H) Z :=
  let! w := get in
  if 0 =? ece391_strcmp (e_mem w) filename (lit ".") then
    let! d := hosted_get (opendir ".") in
    put_dir d ;;
    let! fd := hosted_get (open_ "/dev/null" O_RDONLY) in
    put_dir_fd fd ;;
    ret fd
  else
    let! rval := int80_linux (Regs 5 (u32 filename) O_RDONLY 0) in
    ret (if 0xFFFFC000 <? u32 rval then -1 else s32 rval).

Fixpoint getargs_loop (n : nat) (m : mem) (argv idx argc buf nbytes : Z) : option (Z * mem) :=
  match n with
  | O => Some (if nbytes <? 1 then (-1, m) else (0, st m buf 0))
  | S n' =>
      let len := ece391_strlen m (ld32 m (argv + 4 * idx)) in
      if nbytes <? len then Some (-1, m)
      else
        match ece391_strcpy m buf (ld32 m (argv + 4 * idx)) with
        | None => None
        | Some m =>
            let buf := buf + len in
            let nbytes := nbytes - len in
            if argc <=? idx + 1 then Some (if nbytes <? 1 then (-1, m) else (0, st m buf 0))
            else if nbytes <? 1 then Some (-1, m)
            else getargs_loop n' (st m buf 32) argv (idx + 1) argc (buf + 1) (nbytes - 1)
        end
  end.

(** The loop has [argc - 1] rounds. *)
Definition emu_getargs (buf nbytes : Z) : prog (world H) Z :=
  let! w := get in
  let argc := s32 (ld32 (e_mem w) (start_esp w)) in
  match getargs_loop (Z.to_nat (argc - 1)) (e_mem w) (start_esp w + 4) 1 argc buf nbytes with
  | None => stuck
  | Some (r, m) => put_mem m ;; ret r
  end.

Definition emu_vidmap (screen_start : Z) : prog (world H) Z :=
  let! w := get in
  (if mem_fd w =? -1 then let! fd := hosted_get (open_ "/dev/mem" O_RDWR) in put_mem_fd fd else ret tt) ;;
  let! w := get in
  let! mem_image := hosted_get (mmap (mem_fd w)) in
  if u32 mem_image =? 0xFFFFFFFF then hosted (perror "mmap low memory") ;; ret (-1)
  else
    let! w := get in
    put_mem (st32 (e_mem w) screen_start (mem_image + 0xb8000)) ;;
    ret 0.

(** The name at [from] goes to [to], up to the first of its end, [nbytes] and 32 characters. *)
Fixpoint dirent_copy (n : nat) (m : mem) (to from copied nbytes : Z) : mem * Z * bool :=
  match n with
  | O => (m, copied, false)
  | S n' =>
      if negb (0 =? ld m from) then
        let m := st m to (ld m from) in
        let copied := copied + 1 in
        if copied =? nbytes then (m, nbytes, true)
        else if 32 =? copied then (m, 32, true)
        else dirent_copy n' m (to + 1) (from + 1) copied nbytes
      else (m, copied, false)
  end.

Definition dirent_pad (m : mem) (buf copied nbytes : Z) : mem * Z :=
  if (copied <? nbytes) && (copied <? 32) then
    (for_ copied (Z.min nbytes 32) (fun i m => st m (buf + i) 0) m, Z.min nbytes 32)
  else (m, copied).

Definition emu_read (fd buf nbytes : Z) : prog (world H) Z :=
  let! w := get in
  if (0 =? dir w) || negb (dir_fd w =? fd) then __ece391_read fd buf nbytes
  else
    let '(de, m, h) := readdir (dir w) (e_mem w) (host w) in
    put_mem m ;;
    hosted (fun _ => h) ;;
    if de =? 0 then ret 0
    else
      let '(m, copied, done) := dirent_copy 32 m buf de 0 nbytes in
      if done then put_mem m ;; ret copied
      else
        let '(m, copied) := dirent_pad m buf copied nbytes in
        put_mem m ;;
        ret copied.

Definition emu_write (fd buf nbytes : Z) : prog (world H) Z :=
  let! w := get in
  if (0 =? dir w) || negb (dir_fd w =? fd) then __ece391_write fd buf nbytes else ret (-1).

Definition emu_close (fd : Z) : prog (world H) Z :=
  let! w := get in
  if (0 =? dir w) || negb (dir_fd w =? fd) then __ece391_close fd
  else
    hosted (closedir (dir w)) ;;
    put_dir 0 ;;
    hosted (close_ (dir_fd w)) ;;
    put_dir_fd (-1) ;;
    ret 0.
End emulate.

(** ** Lemmas: the words of a text *)

(** The words between the spaces of a text, and words with one space between them. *)
Fixpoint words (t : list Z) : list (list Z) :=
  match t with
  | [] => []
  | c :: t' =>
      if c =? 32 then words t'
      else
        match t' with
        | [] => [ [c] ]
        | d :: _ =>
            if d =? 32 then [c] :: words t'
            else match words t' with w :: ws => (c :: w) :: ws | [] => [ [c] ] end
        end
  end.

Fixpoint join (ws : list (list Z)) : list Z :=
  match ws with
  | [] => []
  | [w] => w
  | w :: ws' => w ++ 32 :: join ws'
  end.

(** A part of a text that [word_end] passes. *)
Definition wordy (w : list Z) : Prop := Forall (fun c => c <> 0 /\ c <> 32 /\ c <> 10) w.

(** What can follow a word. *)
Definition word_ends (t : list Z) : Prop := t = [] \/ exists t', t = 32 :: t'.

Lemma words_spaces n t : words (repeat 32 n ++ t) = words t.
Proof. by induction n. Qed.

Lemma words_word w t : w <> [] -> Forall (fun c => c <> 32) w -> word_ends t -> words (w ++ t) = w :: words t.
Proof.
  intros Hne Hw Ht. induction Hw as [|c w Hc Hw IH]; [done|]. cbn [app words]. rewrite (proj2 (Z.eqb_neq _ _)) by done.
  destruct w as [|d w].
  - cbn [app]. destruct Ht as [->|[t' ->]]; [done|]. done.
  - inversion Hw; subst. cbn [app]. rewrite (proj2 (Z.eqb_neq d 32)) by done. cbn [app] in IH. by rewrite IH.
Qed.

Lemma wordy_no_space w : wordy w -> Forall (fun c => c <> 32) w.
Proof. apply List.Forall_impl. tauto. Qed.

(** A text starts with spaces; then it ends or a word follows. *)
Lemma text_split t : exists n u, t = repeat 32 n ++ u /\ (u = [] \/ exists c u', u = c :: u' /\ c <> 32).
Proof.
  induction t as [|c t IH]; [by exists 0%nat, []; split; [|left]|]. destruct (Z.eq_dec c 32) as [->|Hc].
  - destruct IH as (n & u & -> & Hu). by exists (S n), u.
  - exists 0%nat, (c :: t). split; [done|]. right. by exists c, t.
Qed.

Lemma word_split t : exists w u, t = w ++ u /\ Forall (fun c => c <> 32) w /\ word_ends u.
Proof.
  induction t as [|c t IH]; [by exists [], []; split; [|split; [constructor|left]]|]. destruct (Z.eq_dec c 32) as [->|Hc].
  - exists [], (32 :: t). split; [done|]. split; [constructor|right; by exists t].
  - destruct IH as (w & u & -> & Hw & Hu). exists (c :: w), u. split; [done|]. split; [by constructor|done].
Qed.

(** ** Lemmas: ece391_execute *)

Lemma word_end_spec m w : forall fuel a t, cstr m a (w ++ t) -> wordy w -> word_ends t -> (length w < fuel)%nat ->
  word_end fuel m a = a + Z.of_nat (length w).
Proof.
  induction w as [|c w IH]; intros [|fuel] a t Hc Hw Ht Hf; cbn [length] in *; try lia; cbn [word_end app cstr] in *.
  - destruct Ht as [->|[t' ->]]; cbn [cstr] in Hc; [rewrite Hc|rewrite (proj1 Hc)]; cbn; lia.
  - destruct Hc as (E & _ & Hc). inversion Hw as [|x y (H0 & H1 & H2) Hw']; subst x y. rewrite E, !(proj2 (Z.eqb_neq _ _)) by lia. cbn [negb andb].
    rewrite (IH fuel (a + 1) t) by (done || lia). lia.
Qed.

Lemma skip_spaces_spec m n : forall fuel a t, cstr m a (repeat 32 n ++ t) -> (t = [] \/ exists c t', t = c :: t' /\ c <> 32) ->
  (n < fuel)%nat -> skip_spaces fuel m a = a + Z.of_nat n.
Proof.
  induction n as [|n IH]; intros [|fuel] a t Hc Ht Hf; try lia; cbn [skip_spaces repeat app cstr] in *.
  - assert (E : (32 =? ld m a) = false).
    { apply Z.eqb_neq. destruct Ht as [->|(c & t' & -> & Hne)]; cbn [cstr] in Hc; [lia|]. destruct Hc as (-> & _). lia. }
    rewrite E. lia.
  - destruct Hc as (E & _ & Hc). rewrite E. cbn [Z.eqb Pos.eqb]. rewrite (IH fuel (a + 1) t) by (done || lia). lia.
Qed.

(** Texts of a command line: no newline. *)
Definition one_line (t : list Z) : Prop := Forall (fun c => c <> 10) t.

(** [ts] from the place [n] of the array of pointers [args], each in [lo, hi). *)
Definition pointers (m : mem) (args n lo hi : Z) (ts : list (list Z)) : Prop :=
  forall k t, ts !! k = Some t ->
    let a := ld32 m (args + 4 * (n + Z.of_nat k)) in lo <= a /\ a + Z.of_nat (length t) < hi /\ cstr m a t.

Lemma pointers_nil m args n lo hi : pointers m args n lo hi [].
Proof. by intros k t. Qed.

Lemma pointers_cons m args n lo hi t ts :
  lo <= ld32 m (args + 4 * n) -> ld32 m (args + 4 * n) + Z.of_nat (length t) < hi -> cstr m (ld32 m (args + 4 * n)) t ->
  pointers m args (n + 1) lo hi ts -> pointers m args n lo hi (t :: ts).
Proof.
  intros Hl Hh Hc Hts [|k] u; cbn [lookup list_lookup].
  - intros [= <-]. cbn zeta. by rewrite Z.add_0_r.
  - intros E. specialize (Hts k u E). cbn zeta in Hts. by replace (n + Z.of_nat (S k)) with (n + 1 + Z.of_nat k) by lia.
Qed.

(** The first round for a text that starts with a word. *)
Lemma parse_word_step f m args n scan p w r :
  cstr m scan (repeat 32 p ++ w ++ r) -> w <> [] -> wordy w -> word_ends r -> let a := scan + Z.of_nat p in
  args + 4 * n + 4 <= scan \/ scan + Z.of_nat (p + length (w ++ r)) < args + 4 * n ->
  let m1 := st32 m (args + 4 * n) a in let e := a + Z.of_nat (length w) in
  cstr m1 a (w ++ r) /\
  parse_words (S f) m args n scan =
    match r with [] => parse_words f m1 args (n + 1) e | _ => parse_words f (st m1 e 0) args (n + 1) (e + 1) end.
Proof.
  intros Hc Hne Hw Hr a Hd m1 e. rewrite length_app in Hd. pose proof (cstr_app _ _ _ _ Hc) as Ha. rewrite repeat_length in Ha. fold a in Ha.
  assert (Hc1 : cstr m1 a (w ++ r)).
  { apply (cstr_ext m); [|done]. intros x Hx. rewrite length_app in Hx. unfold m1. rewrite ld_st32.
    destruct (Z.leb_spec (args + 4 * n) x), (Z.ltb_spec x (args + 4 * n + 4)); cbn [andb]; lia || done. }
  split; [exact Hc1|]. cbn [parse_words].
  assert (Hu : w ++ r = [] \/ exists c t', w ++ r = c :: t' /\ c <> 32).
  { destruct Hw as [|c w (_ & ? & _) Hw]; [done|]. right. by exists c, (w ++ r). }
  pose proof (cstr_fuel _ _ _ Hc) as Hf. rewrite length_app, repeat_length in Hf.
  rewrite (skip_spaces_spec m p (mem_fuel m) scan (w ++ r)) by (done || lia). fold a m1.
  assert (Hz : (0 =? ld m a) || (10 =? ld m a) = false).
  { destruct Hw as [|c w (? & _ & ?) Hw]; [done|]. destruct Ha as (-> & _). rewrite !(proj2 (Z.eqb_neq _ _)) by lia. done. }
  rewrite Hz. pose proof (cstr_fuel _ _ _ Hc1) as Hf1. rewrite length_app in Hf1.
  rewrite (word_end_spec m1 w (mem_fuel m1) a r) by (done || lia). fold e.
  apply cstr_app in Hc1. fold e in Hc1. destruct Hr as [->|[r' ->]]; cbn [cstr] in Hc1; [by rewrite Hc1|by rewrite (proj1 Hc1)].
Qed.

Lemma word_split_wordy c u : c <> 32 -> Forall (fun c => c <> 0 /\ c <> 10) (c :: u) ->
  exists w r, c :: u = w ++ r /\ w <> [] /\ wordy w /\ word_ends r.
Proof.
  intros Hc Hu. destruct (word_split (c :: u)) as (w & r & E & Hw & Hr). exists w, r. split; [done|]. split; [|split; [|done]].
  - intros ->. cbn [app] in E. subst r. destruct Hr as [?|[t' [= ? ?]]]; done.
  - rewrite E in Hu. apply List.Forall_app in Hu as [Hu _]. unfold wordy. rewrite List.Forall_forall in *. intros x Hx.
    split; [by apply Hu|]. split; [by apply Hw|by apply Hu].
Qed.

Lemma cstr_one_line m a t : cstr m a t -> one_line t -> Forall (fun c => c <> 0 /\ c <> 10) t.
Proof.
  intros Hc Ht. apply cstr_spec in Hc as (_ & Hz & _). unfold one_line in Ht. rewrite List.Forall_forall in *. intros x Hx.
  split; [by apply Hz|by apply Ht].
Qed.

Lemma parse_words_spec fuel : forall m args n scan t hi,
  (length (words t) < fuel)%nat -> cstr m scan t -> one_line t ->
  0 <= scan -> scan + Z.of_nat (length t) < hi -> hi <= 2 ^ 32 ->
  args + 4 * (n + Z.of_nat (length (words t))) <= scan \/ hi <= args + 4 * n ->
  exists m', parse_words fuel m args n scan = Some (m', n + Z.of_nat (length (words t))) /\
    pointers m' args n scan hi (words t) /\
    forall x, ~ (scan <= x < hi) -> ~ (args + 4 * n <= x < args + 4 * (n + Z.of_nat (length (words t)))) -> ld m' x = ld m x.
Proof.
  induction fuel as [|f IH]; intros m args n scan t hi Hf Hc Hl H0 Hh Hmax Hd; [lia|].
  pose proof (cstr_one_line _ _ _ Hc Hl) as Hz. destruct (text_split t) as (p & u & -> & Hu). rewrite words_spaces in *.
  rewrite length_app, repeat_length in Hh. destruct Hu as [->|(c & u' & -> & Hne)].
  - cbn [parse_words words length] in *. rewrite app_nil_r in Hc. pose proof (cstr_fuel _ _ _ Hc) as Hf'. rewrite repeat_length in Hf'.
    rewrite (skip_spaces_spec m p (mem_fuel m) scan []); [|by rewrite app_nil_r|by left|lia]. pose proof (cstr_end _ _ _ Hc) as He.
    rewrite repeat_length in He. rewrite He. eexists. rewrite Z.add_0_r. split; [reflexivity|]. split; [apply pointers_nil|].
    intros x Hx _. apply ld_st_ne. lia.
  - destruct (word_split_wordy c u' Hne) as (w & r & E & Hw0 & Hw & Hr); [by apply List.Forall_app in Hz as [_ Hz]|]. rewrite E in *.
    rewrite (words_word w r) in * by (done || by apply wordy_no_space). cbn [length] in Hf, Hd. rewrite length_app in Hh.
    destruct (parse_word_step f m args n scan p w r Hc Hw0 Hw Hr) as [Hc1 ->]; [rewrite length_app; lia|].
    set (a := scan + Z.of_nat p) in *. set (m1 := st32 m (args + 4 * n) a) in *.
    assert (Hp : ld32 m1 (args + 4 * n) = a) by (unfold m1; rewrite ld32_st32; apply u32_small; lia).
    assert (Hm1 : forall x, ~ (args + 4 * n <= x < args + 4 * n + 4) -> ld m1 x = ld m x).
    { intros x Hx. unfold m1. rewrite ld_st32. destruct (Z.leb_spec (args + 4 * n) x), (Z.ltb_spec x (args + 4 * n + 4)); cbn [andb]; lia || done. }
    clearbody m1. destruct Hr as [->|[r' ->]].
    + destruct f as [|f]; [cbn [length] in Hf; lia|]. rewrite app_nil_r in Hc1. pose proof (cstr_app _ _ _ [] (eq_ind_r (cstr m1 a) Hc1 (app_nil_r w))) as He.
      cbn [words length parse_words]. set (e := a + Z.of_nat (length w)) in *. cbn [length] in Hh.
      rewrite (skip_spaces_spec m1 0 (mem_fuel m1) e []) by (done || by left || (unfold mem_fuel; lia)). rewrite Z.add_0_r. cbn [cstr] in He. rewrite He.
      cbn [Z.eqb orb]. assert (Hst : forall x, ld (st m1 e 0) x = ld m1 x) by (intros x; rewrite ld_st; destruct (Z.eqb_spec e x) as [<-|]; done).
      exists (st m1 e 0). split; [do 2 f_equal; lia|]. split; [|intros x Hx Hx'; rewrite Hst; apply Hm1; lia].
      assert (Hp' : ld32 (st m1 e 0) (args + 4 * n) = a) by (rewrite <- Hp; by apply ld32_ext).
      apply pointers_cons; rewrite ?Hp'; [lia|unfold e in *; lia|by apply (cstr_ext m1)|apply pointers_nil].
    + change (words (32 :: r')) with (words r') in *. cbn [length] in *. set (e := a + Z.of_nat (length w)) in *.
      assert (Hr : cstr m1 (e + 1) r') by (pose proof (cstr_app _ _ _ _ Hc1) as Hr; fold e in Hr; by destruct Hr as (_ & _ & Hr)).
      destruct (IH (st m1 e 0) args (n + 1) (e + 1) r' hi) as (m' & -> & Hps & Hm'); [lia| | |lia|lia|lia|lia|].
      { apply (cstr_ext m1); [|done]. intros x Hx. apply ld_st_ne. lia. }
      { apply List.Forall_app in Hl as [_ Hl]. apply List.Forall_app in Hl as [_ Hl]. by inversion Hl. }
      exists m'. split; [do 2 f_equal; lia|].
      assert (Hlow : forall x, x <= e \/ hi <= x -> ~ (args + 4 * (n + 1) <= x < args + 4 * (n + 1 + Z.of_nat (length (words r')))) -> ld m' x = ld (st m1 e 0) x)
        by (intros x Hx Hx'; apply Hm'; lia).
      split.
      * assert (Hp' : ld32 m' (args + 4 * n) = a).
        { rewrite <- Hp. apply ld32_ext. intros x Hx. rewrite Hlow by lia. apply ld_st_ne. lia. }
        apply pointers_cons; rewrite ?Hp'; [lia|unfold e in *; lia| |].
        -- apply cstr_intro; fold e.
           ++ intros k Hk. rewrite Hlow, ld_st_ne by lia.
              destruct (cstr_nth _ _ _ k Hc1) as [Ek Hk0]; [rewrite length_app; lia|]. rewrite Ek, app_nth1 in * by lia. done.
           ++ rewrite Hlow by lia. by rewrite ld_st_eq.
        -- intros k t Ek. destruct (Hps k t Ek) as (B1 & B2 & B3). cbn zeta. split; [lia|]. split; [lia|done].
      * intros x Hx Hx'. rewrite Hm', ld_st_ne by lia. apply Hm1. lia.
Qed.

Lemma words_length t : (length (words t) <= length t)%nat.
Proof.
  induction t as [|c t IH]; [done|]. cbn [words length]. destruct (c =? 32); [lia|]. destruct t as [|d t]; [done|].
  destruct (d =? 32); cbn [length] in *; [lia|]. destruct (words (d :: t)); cbn [length] in *; lia.
Qed.

(** Room for the local arrays of [ece391_execute], apart from the command. *)
Record locals_apart (buf args command : Z) (c : list Z) : Prop := {
  la_buf : 0 <= buf /\ buf + 1026 <= 2 ^ 32;
  la_args : args + 4096 <= buf \/ buf + 1026 <= args;
  la_command : command + Z.of_nat (length c) < buf \/ buf + 1026 <= command;
  la_length : (length c <= 1023)%nat
}.

(** What [ece391_execute] passes to execv. *)
Record exec_args (m : mem) (buf args : Z) (path : list Z) (ws : list (list Z)) : Prop := {
  ea_path : cstr m buf path;
  ea_args : pointers m args 0 buf (buf + 1026) (path :: ws);
  ea_null : ld32 m (args + 4 * Z.of_nat (S (length ws))) = 0
}.

(** The command in the buffer, with its path in front. *)
Lemma copy_command m buf args command name t :
  locals_apart buf args command (name ++ t) -> cstr m command (name ++ t) -> wordy name ->
  exists m2, ece391_strcpy (st (st m buf 46) (buf + 1) 47) (buf + 2) command = Some m2 /\
    ld m2 buf = 46 /\ ld m2 (buf + 1) = 47 /\ cstr m2 (buf + 2) (name ++ t) /\ unchanged_outside m m2 buf 1026.
Proof.
  intros [Hb Ha Hd Hn] Hc Hw. set (m1 := st (st m buf 46) (buf + 1) 47).
  assert (Hc1 : cstr m1 command (name ++ t)).
  { apply (cstr_ext m); [|done]. intros x Hx. unfold m1. rewrite !ld_st_ne by lia. done. }
  destruct (ece391_strcpy_copies m1 (buf + 2) command _ Hc1) as (m2 & E & Hcp); [lia|]. exists m2. split; [exact E|].
  pose proof (copied_outside _ _ _ _ _ Hcp) as Ho. rewrite !Ho by lia. unfold m1 at 1 2. rewrite ld_st_eq, ld_st_ne, ld_st_eq by lia.
  split; [done|]. split; [done|]. split; [apply (copied_cstr m1 _ _ command (Z.of_nat (length (name ++ t)) + 1)); done || lia|].
  intros x Hx. rewrite Ho by lia. unfold m1. by rewrite !ld_st_ne by lia.
Qed.

(** The words after the name, in the memory [m3] that has the end of the name at [e]. *)
Lemma parse_rest m3 args buf e t :
  cstr m3 e t -> word_ends t -> one_line t -> 0 <= e -> e + Z.of_nat (length t) < buf + 1026 -> buf <= e -> buf + 1026 <= 2 ^ 32 ->
  (length t <= 1023)%nat -> args + 4096 <= buf \/ buf + 1026 <= args ->
  exists m4, (if negb (0 =? ld m3 e) then parse_words 1024 (st m3 e 0) args 1 (e + 1) else Some (m3, 1))
      = Some (m4, 1 + Z.of_nat (length (words t))) /\
    (length (words t) <= 1022)%nat /\ pointers m4 args 1 buf (buf + 1026) (words t) /\
    forall x, x <= e \/ buf + 1026 <= x -> ~ (args + 4 <= x < args + 4096) -> ld m4 x = ld (st m3 e 0) x.
Proof.
  intros He3 Ht Hl H0 Hh Hb Hmax Hn Ha. destruct Ht as [->|[t' ->]].
  - cbn [cstr] in He3. rewrite He3. exists m3. split; [done|]. split; [cbn; lia|]. split; [apply pointers_nil|].
    intros x Hx _. rewrite ld_st. destruct (Z.eqb_spec e x) as [<-|]; done.
  - change (words (32 :: t')) with (words t'). cbn [length] in Hn, Hh. pose proof (words_length t') as Hwl.
    destruct He3 as (-> & _ & He3). cbn [Z.eqb negb].
    destruct (parse_words_spec 1024 (st m3 e 0) args 1 (e + 1) t' (buf + 1026)) as (m4 & -> & Hps & Ho4);
      [lia| |by inversion Hl|lia|lia|lia|lia|].
    { apply (cstr_ext m3); [|done]. intros x Hx. apply ld_st_ne. lia. }
    exists m4. split; [done|]. split; [lia|]. split; [|intros x Hx Hx'; apply Ho4; lia].
    intros k w Ek. destruct (Hps k w Ek) as (B1 & B2 & B3). cbn zeta. split; [lia|]. done.
Qed.

Lemma emu_parse_spec m buf args command name t :
  locals_apart buf args command (name ++ t) -> cstr m command (name ++ t) -> wordy name -> word_ends t -> one_line t ->
  exists m', emu_parse m buf args command = Some m' /\ exec_args m' buf args (46 :: 47 :: name) (words t) /\
    forall x, ~ (buf <= x < buf + 1026) -> ~ (args <= x < args + 4096) -> ld m' x = ld m x.
Proof.
  intros Hla Hc Hw Ht Hl. unfold emu_parse. destruct (copy_command m buf args command name t Hla Hc Hw) as (m2 & -> & H46 & H47 & Hc2 & Ho2).
  destruct Hla as [Hb Ha Hd Hn]. rewrite length_app in Hn. pose proof (cstr_fuel _ _ _ Hc2) as Hf. rewrite length_app in Hf.
  rewrite (word_end_spec m2 name (mem_fuel m2) (buf + 2) t) by (done || lia). set (e := buf + 2 + Z.of_nat (length name)).
  pose proof (st32_outside m2 args buf) as Ho3. assert (Hp3 : ld32 (st32 m2 args buf) args = buf) by (rewrite ld32_st32; apply u32_small; lia).
  set (m3 := st32 m2 args buf) in *. clearbody m3.
  assert (Hpath : cstr (st m3 e 0) buf (46 :: 47 :: name)).
  { assert (He : forall x, buf <= x < e -> ld (st m3 e 0) x = ld m2 x) by (intros x Hx; rewrite ld_st_ne by lia; apply Ho3; lia).
    cbn [cstr]. rewrite !He by lia. split; [done|]. split; [done|]. split; [done|]. split; [done|].
    replace (buf + 1 + 1) with (buf + 2) by lia. apply cstr_intro; fold e.
    - intros k Hk. rewrite He by lia. destruct (cstr_nth _ _ _ k Hc2) as [Ek H0]; [rewrite length_app; lia|]. by rewrite Ek, app_nth1 in * by lia.
    - by rewrite ld_st_eq. }
  assert (He3 : cstr m3 e t).
  { apply cstr_app in Hc2. fold e in Hc2. apply (cstr_ext m2); [|done]. intros x Hx. apply Ho3. lia. }
  destruct (parse_rest m3 args buf e t He3 Ht Hl) as (m4 & -> & Hwl & Hps & Ho4); [unfold e in *; lia..|].
  pose proof (st32_outside m4 (args + 4 * (1 + Z.of_nat (length (words t)))) 0) as Ho5.
  assert (Hp5 : ld32 (st32 m4 (args + 4 * (1 + Z.of_nat (length (words t)))) 0) (args + 4 * (1 + Z.of_nat (length (words t)))) = 0) by (by rewrite ld32_st32).
  set (m5 := st32 m4 _ 0) in *. clearbody m5.
  assert (Hp4 : cstr m5 buf (46 :: 47 :: name)).
  { apply (cstr_ext (st m3 e 0)); [|done]. intros x Hx. cbn [length] in Hx. rewrite Ho5 by lia. apply Ho4; lia. }
  exists m5. split; [done|]. split; [split|].
  - exact Hp4.
  - assert (E : ld32 m5 (args + 4 * 0) = buf).
    { replace (args + 4 * 0) with args by lia. rewrite <- Hp3. apply ld32_ext. intros x Hx. rewrite Ho5, Ho4, ld_st_ne by lia. done. }
    apply pointers_cons; rewrite ?E; [lia|cbn [length]; lia|done|]. intros k w Ek. destruct (Hps k w Ek) as (B1 & B2 & B3).
    pose proof (lookup_lt_Some _ _ _ Ek). cbn zeta.
    assert (Ep : ld32 m5 (args + 4 * (1 + Z.of_nat k)) = ld32 m4 (args + 4 * (1 + Z.of_nat k))) by (apply ld32_ext; intros x Hx; apply Ho5; lia).
    change (0 + 1) with 1. rewrite Ep. split; [lia|]. split; [lia|]. apply (cstr_ext m4); [|done]. intros x Hx. apply Ho5. lia.
  - rewrite <- Hp5. f_equal. lia.
  - intros x Hx Hx'. rewrite Ho5 by lia. rewrite Ho4 by lia. rewrite ld_st_ne, Ho3, Ho2 by lia. done.
Qed.

(** ** Lemmas: ece391_getargs *)

(** Strings and their pointers, from the place [n] of [argv], outside [lo, hi). *)
Definition strings_apart (m : mem) (argv n lo hi : Z) (ws : list (list Z)) : Prop :=
  forall k w, ws !! k = Some w ->
    let p := argv + 4 * (n + Z.of_nat k) in let a := ld32 m p in
    cstr m a w /\ Z.of_nat (length w) < 2 ^ 31 /\
    (p + 4 <= lo \/ hi <= p) /\ (a + Z.of_nat (length w) < lo \/ hi <= a).

Lemma strings_apart_tail m m' argv n lo lo' hi w ws :
  strings_apart m argv n lo hi (w :: ws) -> unchanged_outside m m' lo (hi - lo) -> lo <= lo' ->
  strings_apart m' argv (n + 1) lo' hi ws.
Proof.
  intros Hs Hu Hlo k v E. destruct (Hs (S k) v E) as (B1 & B2 & B3 & B4). cbn zeta.
  replace (n + Z.of_nat (S k)) with (n + 1 + Z.of_nat k) in * by lia.
  assert (Ep : ld32 m' (argv + 4 * (n + 1 + Z.of_nat k)) = ld32 m (argv + 4 * (n + 1 + Z.of_nat k)))
    by (apply ld32_ext; intros x Hx; apply Hu; lia).
  rewrite Ep. split; [apply (cstr_ext m); [|done]; intros x Hx; apply Hu; lia|]. split; [done|]. lia.
Qed.

(** The words with a space between them, and nothing else, or an error. *)
Definition args_result (m : mem) (buf nbytes : Z) (t : list Z) (r : option (Z * mem)) : Prop :=
  exists v m', r = Some (v, m') /\
    if Z.of_nat (length t) <? nbytes then
      v = 0 /\ bytes m' buf (length t) = t /\ ld m' (buf + Z.of_nat (length t)) = 0 /\
      unchanged_outside m m' buf (Z.of_nat (length t) + 1)
    else v = -1 /\ unchanged_outside m m' buf (nbytes + 1).

Lemma unchanged_grow m m' a n n' : unchanged_outside m m' a n -> n <= n' -> unchanged_outside m m' a n'.
Proof. intros H Hn x Hx. apply H. lia. Qed.

(** A word in front. *)
Lemma args_result_cons m m1 buf nbytes w t r : 0 <= nbytes - Z.of_nat (length w) - 1 ->
  bytes m1 buf (length w) = w -> ld m1 (buf + Z.of_nat (length w)) = 32 -> unchanged_outside m m1 buf (Z.of_nat (length w) + 1) ->
  args_result m1 (buf + Z.of_nat (length w) + 1) (nbytes - Z.of_nat (length w) - 1) t r ->
  args_result m buf nbytes (w ++ 32 :: t) r.
Proof.
  intros Hn Hw Hs Hu (v & m' & -> & Hr). exists v, m'. split; [done|]. rewrite length_app. cbn [length].
  destruct (Z.ltb_spec (Z.of_nat (length t)) (nbytes - Z.of_nat (length w) - 1)) as [Hlt|Hlt];
    destruct (Z.ltb_spec (Z.of_nat (length w + S (length t))) nbytes); try lia.
  - destruct Hr as (-> & Ht & He & Hu'). split; [done|]. split; [|split].
    + rewrite bytes_app. f_equal.
      * rewrite <- Hw at 2. apply bytes_ext. intros k Hk. apply Hu'. lia.
      * cbn [bytes]. f_equal; [|by rewrite <- Ht at 2]. rewrite <- Hs. apply Hu'. lia.
    + rewrite <- He. f_equal. lia.
    + intros x Hx. rewrite Hu', Hu by lia. done.
  - destruct Hr as (-> & Hu'). split; [done|]. intros x Hx. rewrite Hu', Hu by lia. done.
Qed.

Lemma getargs_loop_spec ws : forall m argv idx buf nbytes, ws <> [] -> 0 <= nbytes ->
  strings_apart m argv idx buf (buf + nbytes + 1) ws ->
  args_result m buf nbytes (join ws)
    (getargs_loop (length ws) m argv idx (idx + Z.of_nat (length ws)) buf nbytes).
Proof.
  induction ws as [|w ws IH]; intros m argv idx buf nbytes Hne Hn Hs; [done|].
  destruct (Hs 0%nat w eq_refl) as (Hc & Hw & Hp & Ha). rewrite Z.add_0_r in *. cbn [length getargs_loop].
  set (a := ld32 m (argv + 4 * idx)) in *. rewrite (ece391_strlen_cstr m a w) by (done || lia).
  destruct (Z.ltb_spec nbytes (Z.of_nat (length w))) as [Hlt|Hge].
  { exists (-1), m. split; [done|]. destruct (Z.ltb_spec (Z.of_nat (length (join (w :: ws)))) nbytes) as [Hl|]; [|done].
    destruct ws; cbn [join] in Hl; [lia|]. rewrite length_app in Hl. lia. }
  destruct (ece391_strcpy_copies m buf a w Hc) as (m1 & -> & Hcp); [lia|].
  pose proof (copied_outside _ _ _ _ _ Hcp) as Ho.
  assert (Hb : bytes m1 buf (length w) = w).
  { rewrite (copied_bytes m m1 buf a _ _ Hcp) by lia. by apply cstr_spec in Hc as (? & _). }
  destruct ws as [|w' ws].
  - cbn [length join]. rewrite (proj2 (Z.leb_le _ _)) by lia.
    destruct (Z.ltb_spec (nbytes - Z.of_nat (length w)) 1) as [Hl|Hl].
    + exists (-1), m1. split; [done|]. rewrite (proj2 (Z.ltb_ge _ _)) by lia. split; [done|]. eapply unchanged_grow; [exact Ho|lia].
    + eexists _, _. split; [reflexivity|]. rewrite (proj2 (Z.ltb_lt _ _)) by lia. split; [done|]. split; [|split; [by rewrite ld_st_eq|]].
      * etrans; [|exact Hb]. apply bytes_ext. intros k Hk. apply ld_st_ne. lia.
      * intros x Hx. rewrite ld_st_ne by lia. by apply Ho.
  - rewrite (proj2 (Z.leb_gt _ _)) by (cbn [length]; lia). change (join (w :: w' :: ws)) with (w ++ 32 :: join (w' :: ws)).
    destruct (Z.ltb_spec (nbytes - Z.of_nat (length w)) 1) as [Hl|Hl].
    + exists (-1), m1. split; [done|]. rewrite length_app. cbn [length]. rewrite (proj2 (Z.ltb_ge _ _)) by lia.
      split; [done|]. eapply unchanged_grow; [exact Ho|lia].
    + assert (Hu : unchanged_outside m (st m1 (buf + Z.of_nat (length w)) 32) buf (Z.of_nat (length w) + 1))
        by (intros x Hx; rewrite ld_st_ne by lia; by apply Ho).
      apply (args_result_cons m (st m1 (buf + Z.of_nat (length w)) 32)); [lia| |by rewrite ld_st_eq|exact Hu|].
      * etrans; [|exact Hb]. apply bytes_ext. intros k Hk. apply ld_st_ne. lia.
      * replace (idx + Z.of_nat (S (length (w' :: ws)))) with (idx + 1 + Z.of_nat (length (w' :: ws))) by lia.
        apply IH; [done|lia|]. replace (buf + Z.of_nat (length w) + 1 + (nbytes - Z.of_nat (length w) - 1) + 1) with (buf + nbytes + 1) by lia.
        eapply strings_apart_tail; [exact Hs| |lia]. eapply unchanged_grow; [exact Hu|lia].
Qed.

(** The stack of a process that the host has started with these arguments. *)
Record process_stack (m : mem) (esp lo hi : Z) (args : list (list Z)) : Prop := {
  ps_argc : ld32 m esp = Z.of_nat (length args);
  ps_few : Z.of_nat (length args) < 2 ^ 31;
  ps_argv : strings_apart m (esp + 4) 0 lo hi args
}.

Lemma emu_getargs_spec `{Host H} (w : world H) buf nbytes path ws : 0 <= nbytes ->
  process_stack (e_mem w) (start_esp w) buf (buf + nbytes + 1) (path :: ws) ->
  exists v m', emu_getargs buf nbytes w = Some (v, World m' (start_esp w) (dir_fd w) (dir w) (mem_fd w) (host w)) /\
    args_result (e_mem w) buf nbytes (join ws) (Some (v, m')).
Proof.
  intros Hn [Ha Hf Hs]. unfold emu_getargs, bind, get. cbn [length] in *. rewrite Ha, s32_small by lia.
  assert (Hr : args_result (e_mem w) buf nbytes (join ws)
    (getargs_loop (Z.to_nat (Z.of_nat (S (length ws)) - 1)) (e_mem w) (start_esp w + 4) 1 (Z.of_nat (S (length ws))) buf nbytes)).
  { replace (Z.to_nat (Z.of_nat (S (length ws)) - 1)) with (length ws) by lia. destruct ws as [|w1 ws].
    - cbn [length getargs_loop join]. destruct (Z.ltb_spec nbytes 1).
      + exists (-1), (e_mem w). split; [done|]. cbn [length]. rewrite (proj2 (Z.ltb_ge _ _)) by lia. done.
      + exists 0, (st (e_mem w) buf 0). split; [done|]. cbn [length]. rewrite (proj2 (Z.ltb_lt _ _)) by lia. rewrite Z.add_0_r, ld_st_eq.
        split; [done|]. split; [done|]. split; [done|]. intros x Hx. apply ld_st_ne. lia.
    - replace (Z.of_nat (S (length (w1 :: ws)))) with (1 + Z.of_nat (length (w1 :: ws))) by lia. apply getargs_loop_spec; [done|done|].
      apply (strings_apart_tail (e_mem w) (e_mem w) _ 0 buf buf _ path); [exact Hs|by intros x _|lia]. }
  pose proof Hr as (v & m' & E & _). rewrite E in *. exists v, m'. split; [reflexivity|exact Hr].
Qed.

(** ** Lemmas: ece391_read of the directory *)

(** How many bytes of a name are delivered. *)
Definition dir_limit (nbytes : Z) : Z := if 0 <? nbytes then Z.min nbytes 32 else 32.

Lemma dirent_copy_spec nbytes n : forall m to from c l,
  Z.of_nat n = 32 - c -> 0 <= c < dir_limit nbytes -> cstr m from l ->
  to + (32 - c) <= from \/ from + Z.of_nat (length l) < to ->
  exists m' r done, dirent_copy n m to from c nbytes = (m', r, done) /\ copied m m' to from (r - c) /\
    if c + Z.of_nat (length l) <? dir_limit nbytes then r = c + Z.of_nat (length l) /\ done = false
    else r = dir_limit nbytes /\ done = true.
Proof.
  assert (Hlim : dir_limit nbytes <= 32 /\ (0 < nbytes -> dir_limit nbytes = Z.min nbytes 32) /\ (nbytes <= 0 -> dir_limit nbytes = 32))
    by (unfold dir_limit; destruct (Z.ltb_spec 0 nbytes); lia).
  induction n as [|n IH]; intros m to from c l En Hc Hl Hd; [lia|]. cbn [dirent_copy]. destruct l as [|x l]; cbn [cstr length] in *.
  - rewrite Hl. exists m, c, false. split; [done|]. rewrite Z.sub_diag. split; [apply copied_refl|].
    rewrite (proj2 (Z.ltb_lt _ _)) by lia. split; [lia|done].
  - destruct Hl as (E & Hx & Hl). rewrite E, (proj2 (Z.eqb_neq 0 x)) by congruence. cbn [negb].
    assert (Hc1 : copied m (st m to x) to from 1) by (rewrite <- E; apply copied_st).
    destruct (Z.eqb_spec (c + 1) nbytes) as [En1|En1].
    { exists (st m to x), nbytes, true. split; [done|]. replace (nbytes - c) with 1 by lia. split; [done|].
      rewrite (proj2 (Z.ltb_ge _ _)) by lia. split; [lia|done]. }
    destruct (Z.eqb_spec 32 (c + 1)) as [E32|E32].
    { exists (st m to x), 32, true. split; [done|]. replace (32 - c) with 1 by lia. split; [done|].
      rewrite (proj2 (Z.ltb_ge _ _)) by lia. split; [lia|done]. }
    destruct (IH (st m to x) (to + 1) (from + 1) (c + 1) l) as (m' & r & d & E' & Hcp & Hr); [lia|lia| |lia|].
    { apply (cstr_ext m); [|done]. intros y Hy. apply ld_st_ne. lia. }
    exists m', r, d. split; [exact E'|]. replace (c + Z.of_nat (S (length l))) with (c + 1 + Z.of_nat (length l)) by lia. split; [|done].
    assert (c + 1 <= r <= 32 /\ r <= c + 1 + Z.of_nat (length l)) by (destruct (Z.ltb_spec (c + 1 + Z.of_nat (length l)) (dir_limit nbytes)); destruct Hr as [-> _]; lia).
    replace (r - c) with (1 + (r - (c + 1))) by lia. eapply copied_trans; [lia|lia|lia|exact Hc1|exact Hcp].
Qed.

(** The name, with zeros up to the limit. *)
Lemma dirent_pad_spec m buf r nbytes : 0 <= r ->
  exists m', dirent_pad m buf r nbytes = (m', if (r <? nbytes) && (r <? 32) then Z.min nbytes 32 else r) /\
    forall x, ld m' x = if (buf + r <=? x) && (x <? buf + (if (r <? nbytes) && (r <? 32) then Z.min nbytes 32 else r)) then 0 else ld m x.
Proof.
  intros Hr. unfold dirent_pad. destruct ((r <? nbytes) && (r <? 32)) eqn:E.
  - eexists. split; [reflexivity|]. apply andb_true_iff in E as [H1%Z.ltb_lt H2%Z.ltb_lt].
    apply (for_inv (fun i m' => forall x, ld m' x = if (buf + r <=? x) && (x <? buf + i) then 0 else ld m x)); [lia| |].
    + intros x. destruct (Z.leb_spec (buf + r) x), (Z.ltb_spec x (buf + r)); cbn [andb]; lia || done.
    + intros i m' Hi IH x. rewrite ld_st, IH.
      destruct (Z.eqb_spec (buf + i) x), (Z.leb_spec (buf + r) x), (Z.ltb_spec x (buf + i)), (Z.ltb_spec x (buf + (i + 1))); cbn [andb]; lia || done.
  - eexists. split; [reflexivity|]. intros x. destruct (Z.leb_spec (buf + r) x), (Z.ltb_spec x (buf + r)); cbn [andb]; lia || done.
Qed.

(** ** Properties *)

(** C35: The command line on Linux.  [ece391_execute] gives the host the path "./name" and the words of
    the command line, however many spaces are between them, and returns the status that the host
    reports; when the host starts a process with these arguments, [ece391_getargs] there returns 0 with
    the words separated by one space in the buffer if they and their terminator fit, and -1 otherwise.
    It writes no more than the text and its terminator; in the second case up to one byte past the
    buffer, because the copy of a word that just fits ends with a terminator. *)
Theorem emulated_arguments_reach_the_program `{Host H} (w w' : world H) buf args command name t abuf nbytes :
  locals_apart buf args command (name ++ t) -> cstr (e_mem w) command (name ++ t) ->
  wordy name -> word_ends t -> one_line t ->
  0 <= nbytes -> process_stack (e_mem w') (start_esp w') abuf (abuf + nbytes + 1) ((46 :: 47 :: name) :: words t) ->
  (exists m h, exec_args m buf args (46 :: 47 :: name) (words t) /\
    h = fork (fun m => execv buf args m (kill_self 9)) m (host w) /\
    let '(status, h) := wait h in
    emu_execute buf args command w =
      Some (if WIFEXITED status then WEXITSTATUS status else if 9 =? WTERMSIG status then -1 else 256,
            World m (start_esp w) (dir_fd w) (dir w) (mem_fd w) h)) /\
  exists r m, emu_getargs abuf nbytes w' = Some (r, World m (start_esp w') (dir_fd w') (dir w') (mem_fd w') (host w')) /\
    if Z.of_nat (length (join (words t))) <? nbytes then
      r = 0 /\ bytes m abuf (length (join (words t))) = join (words t) /\ ld m (abuf + Z.of_nat (length (join (words t)))) = 0 /\
      unchanged_outside (e_mem w') m abuf (Z.of_nat (length (join (words t))) + 1)
    else r = -1 /\ unchanged_outside (e_mem w') m abuf (nbytes + 1).
Proof.
  intros Hla Hc Hw Ht Hl Hn Hps. split.
  - destruct (emu_parse_spec _ _ _ _ _ _ Hla Hc Hw Ht Hl) as (m & E & He & _). exists m, (fork (fun m => execv buf args m (kill_self 9)) m (host w)).
    split; [exact He|]. split; [done|]. destruct (wait _) as [status h] eqn:Ew. unfold emu_execute, bind, get. destruct Hla as [_ _ _ Hlen].
    rewrite (ece391_strlen_cstr _ _ _ Hc) by lia. rewrite (proj2 (Z.ltb_ge _ _)) by lia. rewrite E.
    unfold put_mem, hosted, hosted_get. cbn [e_mem host start_esp dir_fd dir mem_fd]. rewrite Ew. cbn [fst snd].
    destruct (WIFEXITED status); [done|]. by destruct (9 =? WTERMSIG status).
  - destruct (emu_getargs_spec w' abuf nbytes _ _ Hn Hps) as (r & m & E & v & m' & [= -> ->] & Hr). by exists v, m'.
Qed.

(** C36: The directory on Linux.  With the directory open on [fd], [ece391_read] delivers the next name, cut
    off or filled up with zeros to the smaller of 32 bytes and the size of the request, and returns
    that number; at the end of the directory it returns 0.  A request for no bytes (or a negative
    number) still writes the name, up to 32 bytes of it. *)
Theorem emulated_directory_read `{Host H} (w : world H) fd buf nbytes de m h :
  dir w <> 0 -> dir_fd w = fd -> readdir (dir w) (e_mem w) (host w) = (de, m, h) ->
  (de = 0 -> emu_read fd buf nbytes w = Some (0, World m (start_esp w) (dir_fd w) (dir w) (mem_fd w) h)) /\
  (forall name, de <> 0 -> cstr m de name -> buf + 32 <= de \/ de + Z.of_nat (length name) < buf ->
    exists m', let n := if 0 <? nbytes then Z.min nbytes 32 else Z.min (Z.of_nat (length name)) 32 in
      emu_read fd buf nbytes w = Some (n, World m' (start_esp w) (dir_fd w) (dir w) (mem_fd w) h) /\
      (forall i, 0 <= i < n -> ld m' (buf + i) = nth (Z.to_nat i) name 0) /\ unchanged_outside m m' buf n).
Proof.
  intros Hd <- Er. unfold emu_read, bind, get, put_mem, hosted. rewrite (proj2 (Z.eqb_neq 0 (dir w))), Z.eqb_refl by congruence. cbn [orb negb].
  rewrite Er. cbn [e_mem host start_esp dir_fd dir mem_fd]. split; [intros ->; reflexivity|]. intros name Hde Hc Hap.
  rewrite (proj2 (Z.eqb_neq de 0)) by done. assert (Hpos : 0 < dir_limit nbytes) by (unfold dir_limit; destruct (Z.ltb_spec 0 nbytes); lia).
  destruct (dirent_copy_spec nbytes 32 m buf de 0 name) as (m1 & r & d & -> & Hcp & Hr); [done|lia|done|lia|].
  rewrite Z.sub_0_r in Hcp. rewrite Z.add_0_l in Hr.
  assert (Hnth : forall i, 0 <= i < r -> r <= Z.of_nat (length name) -> ld m1 (buf + i) = nth (Z.to_nat i) name 0).
  { intros i Hi Hr'. rewrite Hcp. rewrite (proj2 (Z.leb_le _ _)), (proj2 (Z.ltb_lt _ _)) by lia. cbn [andb].
    replace (de + (buf + i - buf)) with (de + i) by lia. by apply cstr_nth; [|lia]. }
  destruct (Z.ltb_spec (Z.of_nat (length name)) (dir_limit nbytes)) as [Hlt|Hge]; destruct Hr as [-> ->].
  - destruct (dirent_pad_spec m1 buf (Z.of_nat (length name)) nbytes ltac:(lia)) as (m2 & -> & Hm2).
    set (n := if 0 <? nbytes then _ else _) in *.
    assert (En : (if (Z.of_nat (length name) <? nbytes) && (Z.of_nat (length name) <? 32) then Z.min nbytes 32 else Z.of_nat (length name)) = n).
    { unfold n, dir_limit in *. destruct (Z.ltb_spec 0 nbytes), (Z.ltb_spec (Z.of_nat (length name)) nbytes), (Z.ltb_spec (Z.of_nat (length name)) 32); cbn [andb]; lia. }
    rewrite En in *. assert (Hn : Z.of_nat (length name) <= n) by (unfold n, dir_limit in *; destruct (Z.ltb_spec 0 nbytes); lia).
    exists m2. cbn zeta. split; [done|]. split.
    + intros i Hi. rewrite Hm2. destruct (Z.leb_spec (buf + Z.of_nat (length name)) (buf + i)); cbn [andb].
      * rewrite (proj2 (Z.ltb_lt _ _)) by lia. rewrite nth_overflow; [done|lia].
      * apply Hnth; lia.
    + intros x Hx. rewrite Hm2. destruct (Z.leb_spec (buf + Z.of_nat (length name)) x), (Z.ltb_spec x (buf + n)); cbn [andb];
        solve [lia | apply (copied_outside _ _ _ _ _ Hcp); lia].
  - exists m1. assert (En : dir_limit nbytes = if 0 <? nbytes then Z.min nbytes 32 else Z.min (Z.of_nat (length name)) 32)
      by (unfold dir_limit in *; destruct (Z.ltb_spec 0 nbytes); lia).
    cbn zeta. rewrite <- En. split; [done|]. split; [intros i Hi; apply Hnth; lia|]. by apply (copied_outside _ _ _ de).
Qed.

(** ** Witnesses *)

(** A host that counts the programs it runs; each exits with 3. *)
#[local] Instance sample_host : Host Z := {
  linux _ m h := Some (0, m, h);
  opendir _ h := (1, h);
  readdir _ m h := (0x9000000, m, h);
  closedir _ h := h;
  open_ _ _ h := (3, h);
  close_ _ h := h;
  mmap _ h := (0x40000000, h);
  perror _ h := h;
  fork f m h := f m h;
  execv _ _ _ _ h := h + 1;
  kill_self _ h := h;
  wait h := (0x300, h)
}.

(** The command "ls  ab c", and the process that it starts. *)
Definition sample_shell_world : world Z :=
  World (st_list mem_empty 0x8049000 [108; 115; 32; 32; 97; 98; 32; 99; 0]) 0 (-1) 0 (-1) 0.

Definition sample_child_mem : mem :=
  let m := st32 (st32 (st32 (st32 mem_empty 0xBFFF0000 3) 0xBFFF0004 0xBFFF1000) 0xBFFF0008 0xBFFF1010) 0xBFFF000C 0xBFFF1020 in
  st_list (st_list (st_list m 0xBFFF1000 [46; 47; 108; 115; 0]) 0xBFFF1010 [97; 98; 0]) 0xBFFF1020 [99; 0].

Definition sample_child_world : world Z := World sample_child_mem 0xBFFF0000 (-1) 0 (-1) 1.

Lemma sample_process_stack :
  process_stack sample_child_mem 0xBFFF0000 0x8050000 (0x8050000 + 10 + 1) [ [46; 47; 108; 115]; [97; 98]; [99] ].
Proof. split; [by vm_compute|by vm_compute|]. intros [|[|[|k]]] w [= <-]; vm_compute; intuition congruence. Qed.

Lemma emulated_arguments_reach_the_program_witness :
  (exists w, emu_execute 0xBFFE0000 0xBFFE1000 0x8049000 sample_shell_world = Some (3, w)) /\
  exists m, emu_getargs 0x8050000 10 sample_child_world = Some (0, World m 0xBFFF0000 (-1) 0 (-1) 1) /\
    bytes m 0x8050000 4 = [97; 98; 32; 99].
Proof.
  destruct (emulated_arguments_reach_the_program sample_shell_world sample_child_world 0xBFFE0000 0xBFFE1000 0x8049000
    [108; 115] [32; 32; 97; 98; 32; 99] 0x8050000 10) as [(m & h & _ & -> & E) (r & m' & E' & -> & Hb & _)].
  - split; [by vm_compute|by right; vm_compute|by left; vm_compute|cbn; lia].
  - by vm_compute.
  - by repeat constructor.
  - right. by eexists.
  - by repeat constructor.
  - lia.
  - exact sample_process_stack.
  - split; [eexists; exact E|]. exists m'. by split.
Defined.

Definition sample_dir_world : world Z := World (st_list mem_empty 0x9000000 [108; 115; 0]) 0 5 1 (-1) 0.

Lemma emulated_directory_read_witness :
  exists w, emu_read 5 0x8050000 33 sample_dir_world = Some (32, w) /\ ld (e_mem w) 0x8050001 = 115 /\ ld (e_mem w) 0x8050002 = 0.
Proof.
  destruct (emulated_directory_read sample_dir_world 5 0x8050000 33 0x9000000 (e_mem sample_dir_world) 0) as [_ Hr];
    [done|done|done|].
  destruct (Hr [108; 115]) as (m' & E & Hb & _); [done|by vm_compute|by left; vm_compute|].
  eexists. split; [exact E|]. split; [exact (Hb 1 ltac:(by vm_compute))|exact (Hb 2 ltac:(by vm_compute))].
Defined.
