(* ===== verification/Blink.v ===== *)
(** * fish/blink.S and the memory routines of fish/fish.c: the blinking characters

    A linked list of packed structures of 16 bytes in the array [blink_array].  Each entry shows one
    of two characters at a place of the screen and changes over to the other one when its count
    of ticks is up.  The routines are translated from the assembly, register by register where a
    register carries a value; [None] is a loop that does not end. *)

From S2P Require Import Prelude Mem.

(** Where the linker and the stack put the variables; the two bytes that [mp1_ioctl_find] copies are
    the last two of the place of [temp_struct]. *)
Class Fish := {
  blink_array : Z;
  mp1_list_head : Z;
  vmem_base_addr : Z;
  temp_struct : Z
}.

(** ** struct mp1_blink_struct *)

Definition LOCATION : Z := 0.

Definition ON_CHAR : Z := 2.

Definition OFF_CHAR : Z := 3.

Definition ON_LENGTH : Z := 4.

Definition OFF_LENGTH : Z := 6.

Definition COUNTDOWN : Z := 8.

Definition STATUS : Z := 10.

Definition NEXT : Z := 12.

Definition STRUCT_SIZE : Z := 16.

Definition RTC_ADD : Z := 0.

Definition RTC_REMOVE : Z := 1.

Definition RTC_FIND : Z := 2.

Definition RTC_SYNC : Z := 3.

(** A 16-bit word. *)
Definition ld16 (m : mem) (a : Z) : Z := ld m a + 2 ^ 8 * ld m (a + 1).

Definition st16 (m : mem) (a v : Z) : mem := st (st m a v) (a + 1) (v / 2 ^ 8).

(** ** fish.c *)

Definition ece391_memset (m : mem) (a c n : Z) : mem := for_ 0 n (fun i m => st m (a + i) c) m.

Definition ece391_memcpy (m : mem) (dest src n : Z) : Z * mem :=
  (0, for_ 0 n (fun i m => st m (dest + i) (ld m (src + i))) m).

Section blink.
Context `{Fish}.

Definition mp1_malloc (m : mem) (size : Z) : Z :=
  match find_ 0 (80 * 25) (fun i => ld16 m (blink_array + STRUCT_SIZE * i + LOCATION) =? 0) with
  | Some i => blink_array + STRUCT_SIZE * i
  | None => 0
  end.

Definition mp1_free (m : mem) (memory : Z) : mem := ece391_memset m memory 0 STRUCT_SIZE.

(** ** blink.S *)

Definition mp1_poke (m : mem) (eax cl : Z) : mem := st m (u32 (ld32 m vmem_base_addr + eax)) cl.

(** [tasklet_loop] for the entry at EBX, up to [next_loop]. *)
Definition tasklet_entry (m : mem) (ebx : Z) : mem :=
  let m := st16 m (ebx + COUNTDOWN) (ld16 m (ebx + COUNTDOWN) - 1) in
  if 0 <? s16 (ld16 m (ebx + COUNTDOWN)) then m
  else
    let eax := Z.shiftl (ld16 m (ebx + LOCATION)) 1 in
    let '(m, dx) :=
      if negb (Z.land 1 (ld16 m (ebx + STATUS)) =? 0) then
        let m := mp1_poke m eax (ld m (ebx + OFF_CHAR)) in (m, ld16 m (ebx + OFF_LENGTH))
      else
        let m := mp1_poke m eax (ld m (ebx + ON_CHAR)) in (m, ld16 m (ebx + ON_LENGTH)) in
    let m := st16 m (ebx + COUNTDOWN) dx in
    st16 m (ebx + STATUS) (Z.lxor (ld16 m (ebx + STATUS)) 1).

Fixpoint tasklet_loop (fuel : nat) (m : mem) (ebx : Z) : option mem :=
  if ebx =? 0 then Some m
  else
    match fuel with
    | O => None
    | S f => let m := tasklet_entry m ebx in tasklet_loop f m (ld32 m (ebx + NEXT))
    end.

(** The array has room for a list of 2000 entries. *)
Definition mp1_rtc_tasklet (m : mem) : option mem := tasklet_loop (80 * 25) m (ld32 m mp1_list_head).

Fixpoint find_loop (fuel : nat) (m : mem) (ax ebx : Z) : option Z :=
  if ebx =? 0 then Some 0
  else if ld16 m (ebx + LOCATION) =? ax then Some ebx
  else
    match fuel with
    | O => None
    | S f => find_loop f m ax (ld32 m (ebx + NEXT))
    end.

Definition mp1_find_helper (m : mem) (location : Z) : option Z :=
  find_loop (80 * 25) m (u16 location) (ld32 m mp1_list_head).

Definition mp1_ioctl_add (m : mem) (arg : Z) : Z * mem :=
  let ebx := temp_struct in
  let '(eax, m) := ece391_memcpy m ebx arg STRUCT_SIZE in
  if negb (eax =? 0) then (-1, m)
  else if 80 * 25 <=? ld16 m (ebx + LOCATION) then (-1, m)
  else
    let m := st16 m (ebx + STATUS) 1 in
    let m := st16 m (ebx + COUNTDOWN) (ld16 m (ebx + ON_LENGTH)) in
    let eax := mp1_malloc m STRUCT_SIZE in
    if eax =? 0 then (-1, m)
    else
      let '(_, m) := ece391_memcpy m eax ebx STRUCT_SIZE in
      let edx := eax in
      let m := st32 m (edx + NEXT) (ld32 m mp1_list_head) in
      let m := st32 m mp1_list_head edx in
      (0, mp1_poke m (Z.shiftl (ld16 m (edx + LOCATION)) 1) (ld m (edx + ON_CHAR))).

(** [remove_find_prev]: EDX is the address of the link to compare. *)
Fixpoint remove_find_prev (fuel : nat) (m : mem) (eax edx : Z) : option Z :=
  if ld32 m edx =? eax then Some edx
  else
    match fuel with
    | O => None
    | S f => remove_find_prev f m eax (ld32 m edx + NEXT)
    end.

Definition mp1_ioctl_remove (m : mem) (arg : Z) : option (Z * mem) :=
  match mp1_find_helper m arg with
  | None => None
  | Some eax =>
      if eax =? 0 then Some (-1, m)
      else
        match remove_find_prev (80 * 25) m eax mp1_list_head with
        | None => None
        | Some edx =>
            let m := st32 m edx (ld32 m (eax + NEXT)) in
            Some (0, mp1_free m eax)
        end
  end.

(** The [cmovl] follows a [testb] with 1, which leaves the sign flag and the overflow flag clear. *)
Definition mp1_ioctl_sync (m : mem) (arg : Z) : option (Z * mem) :=
  match mp1_find_helper m (Z.shiftr (u32 arg) 16) with
  | None => None
  | Some esi =>
      if esi =? 0 then Some (-1, m)
      else
        match mp1_find_helper m (Z.land (u32 arg) 0xFFFF) with
        | None => None
        | Some edi =>
            if edi =? 0 then Some (-1, m)
            else
              let m := st16 m (edi + ON_LENGTH) (ld16 m (esi + ON_LENGTH)) in
              let m := st16 m (edi + OFF_LENGTH) (ld16 m (esi + OFF_LENGTH)) in
              let m := st16 m (edi + COUNTDOWN) (ld16 m (esi + COUNTDOWN)) in
              let m := st16 m (edi + STATUS) (ld16 m (esi + STATUS)) in
              let less := Z.testbit (Z.land 1 (ld m (edi + STATUS))) 7 in
              let cl := if less then ld m (edi + ON_CHAR) else ld m (edi + OFF_CHAR) in
              Some (0, mp1_poke m (Z.shiftl (ld16 m (edi + LOCATION)) 1) cl)
        end
  end.

Definition mp1_ioctl_find (m : mem) (arg : Z) : option (Z * mem) :=
  let edi := temp_struct + STRUCT_SIZE - 2 in
  let '(eax, m) := ece391_memcpy m edi arg 2 in
  if negb (eax =? 0) then Some (-1, m)
  else
    match mp1_find_helper m (ld16 m edi) with
    | None => None
    | Some eax =>
        if eax =? 0 then Some (-1, m)
        else
          let '(eax, m) := ece391_memcpy m arg eax STRUCT_SIZE in
          if eax =? 0 then Some (0, m) else Some (-1, m)
    end.

(** The jump through [call_table]; [None] also for a command that is not in it. *)
Definition mp1_ioctl (m : mem) (arg cmd : Z) : option (Z * mem) :=
  if cmd =? 0 then Some (mp1_ioctl_add m arg)
  else if cmd =? 1 then mp1_ioctl_remove m arg
  else if cmd =? 2 then mp1_ioctl_find m arg
  else if cmd =? 3 then mp1_ioctl_sync m arg
  else None.
End blink.

(** ** Lemmas: words *)

Lemma ld_st16 m a v x :
  ld (st16 m a v) x = if x =? a + 1 then u8 (v / 2 ^ 8) else if x =? a then u8 v else ld m x.
Proof. unfold st16. rewrite !ld_st, (Z.eqb_sym a x), (Z.eqb_sym (a + 1) x). done. Qed.

Lemma ld16_range m a : 0 <= ld16 m a < 2 ^ 16.
Proof. unfold ld16. pose proof (ld_range m a). pose proof (ld_range m (a + 1)). lia. Qed.

Lemma ld16_st16_eq m a v : ld16 (st16 m a v) a = u16 v.
Proof.
  unfold ld16. rewrite !ld_st16, !Z.eqb_refl, (proj2 (Z.eqb_neq a (a + 1))) by lia.
  unfold u8, u16. Z.div_mod_to_equations. lia.
Qed.

Lemma ld_st16_ne m a v x : x < a \/ a + 2 <= x -> ld (st16 m a v) x = ld m x.
Proof. intros. rewrite ld_st16, !(proj2 (Z.eqb_neq _ _)) by lia. done. Qed.

Lemma ld16_ext m m' a : ld m' a = ld m a -> ld m' (a + 1) = ld m (a + 1) -> ld16 m' a = ld16 m a.
Proof. unfold ld16. by intros -> ->. Qed.

Lemma ld16_st16_ne m a v b : b + 2 <= a \/ a + 2 <= b -> ld16 (st16 m a v) b = ld16 m b.
Proof. intros. apply ld16_ext; apply ld_st16_ne; lia. Qed.

Lemma ld16_st_ne m a v b : a < b \/ b + 2 <= a -> ld16 (st m a v) b = ld16 m b.
Proof. intros. apply ld16_ext; apply ld_st_ne; lia. Qed.

Lemma ld16_st32_ne m a v b : b + 2 <= a \/ a + 4 <= b -> ld16 (st32 m a v) b = ld16 m b.
Proof. intros. apply ld16_ext; apply ld_st32_ne; lia. Qed.

Lemma ld32_st_ne m a v b : a < b \/ b + 4 <= a -> ld32 (st m a v) b = ld32 m b.
Proof. intros. apply ld32_ext. intros. apply ld_st_ne. lia. Qed.

Lemma ld32_st16_ne m a v b : b + 4 <= a \/ a + 2 <= b -> ld32 (st16 m a v) b = ld32 m b.
Proof. intros. apply ld32_ext. intros. apply ld_st16_ne. lia. Qed.

Create Rewrite HintDb blink.

#[local] Hint Rewrite ld16_st16_eq ld32_st32 : blink.
#[local] Hint Rewrite ld_st16_ne ld16_st16_ne ld16_st_ne ld_st32_ne ld16_st32_ne ld32_st_ne ld32_st16_ne ld32_st32_ne ld_st_ne
  using lia : blink.

Lemma ece391_memset_spec m a c n : 0 <= n ->
  forall x, ld (ece391_memset m a c n) x = if (a <=? x) && (x <? a + n) then u8 c else ld m x.
Proof.
  intros Hn. apply (for_inv (fun i m' => filled m m' a i (u8 c))); [done|apply filled_refl|].
  intros i m' Hi Hf. eapply filled_trans; [lia|lia|exact Hf|apply filled_st].
Qed.

Lemma ece391_memcpy_spec m d s n : 0 <= n -> d + n <= s \/ s + n <= d -> copied m (ece391_memcpy m d s n).2 d s n.
Proof.
  intros Hn Ho. cbn [ece391_memcpy snd].
  apply (for_inv (fun i m' => copied m m' d s i)); [done|apply copied_refl|].
  intros i m' Hi Hc. eapply copied_trans; [lia|lia|lia|exact Hc|apply copied_st].
Qed.

(** ** Specification: the list and the screen *)

Record blink := Blink {
  b_location : Z;
  b_on_char : Z;
  b_off_char : Z;
  b_on_length : Z;
  b_off_length : Z;
  b_countdown : Z;
  b_status : Z
}.

Definition blink_at (m : mem) (a : Z) : blink :=
  Blink (ld16 m (a + LOCATION)) (ld m (a + ON_CHAR)) (ld m (a + OFF_CHAR)) (ld16 m (a + ON_LENGTH))
    (ld16 m (a + OFF_LENGTH)) (ld16 m (a + COUNTDOWN)) (ld16 m (a + STATUS)).

Definition is_on (b : blink) : bool := Z.odd (b_status b).

(** Whether the next tick changes the character. *)
Definition expires (b : blink) : bool := s16 (b_countdown b - 1) <=? 0.

Definition tick (b : blink) : blink :=
  if expires b then
    Blink (b_location b) (b_on_char b) (b_off_char b) (b_on_length b) (b_off_length b)
      (if is_on b then b_off_length b else b_on_length b) (Z.lxor (b_status b) 1)
  else
    Blink (b_location b) (b_on_char b) (b_off_char b) (b_on_length b) (b_off_length b) (u16 (b_countdown b - 1)) (b_status b).

(** The characters of the screen by place. *)
Definition put_char (l c : Z) (s : Z -> Z) : Z -> Z := fun k => if k =? l then c else s k.

Definition show (s : Z -> Z) (b : blink) : Z -> Z :=
  if expires b then put_char (b_location b) (if is_on b then b_off_char b else b_on_char b) s else s.

(** An entry as [mp1_ioctl_add] starts it. *)
Definition started (b : blink) : blink :=
  Blink (b_location b) (b_on_char b) (b_off_char b) (b_on_length b) (b_off_length b) (b_on_length b) 1.

Lemma blink_at_ext m m' a b :
  (forall x, 0 <= x < 12 -> ld m' (b + x) = ld m (a + x)) -> blink_at m' b = blink_at m a.
Proof.
  intros E. unfold blink_at, ld16, LOCATION, ON_CHAR, OFF_CHAR, ON_LENGTH, OFF_LENGTH, COUNTDOWN, STATUS.
  rewrite <- !Z.add_assoc. cbn [Z.add Pos.add]. change (4 + 1) with 5. by rewrite !E by lia.
Qed.

Lemma show_ext s s' b k : s k = s' k -> show s b k = show s' b k.
Proof. unfold show, put_char. by destruct (expires b), (k =? b_location b). Qed.

(** ** Lemmas: the list in memory *)

(** The variables are in memory, apart from each other and from a screen at [V]. *)
Class FishLaws `{Fish} (V : Z) := {
  fl_array : 0 < blink_array /\ blink_array + STRUCT_SIZE * 2000 <= 2 ^ 32;
  fl_head : 0 < mp1_list_head /\ mp1_list_head + 4 <= 2 ^ 32 /\
    (mp1_list_head + 4 <= blink_array \/ blink_array + STRUCT_SIZE * 2000 <= mp1_list_head);
  fl_base : vmem_base_addr + 4 <= blink_array \/ blink_array + STRUCT_SIZE * 2000 <= vmem_base_addr;
  fl_base_head : vmem_base_addr + 4 <= mp1_list_head \/ mp1_list_head + 4 <= vmem_base_addr;
  fl_temp : temp_struct + STRUCT_SIZE <= blink_array \/ blink_array + STRUCT_SIZE * 2000 <= temp_struct;
  fl_temp_head : temp_struct + STRUCT_SIZE <= mp1_list_head \/ mp1_list_head + 4 <= temp_struct;
  fl_temp_base : temp_struct + STRUCT_SIZE <= vmem_base_addr \/ vmem_base_addr + 4 <= temp_struct;
  fl_screen : 0 <= V /\ V + 4000 <= 2 ^ 32 /\
    (V + 4000 <= blink_array \/ blink_array + STRUCT_SIZE * 2000 <= V) /\
    (V + 4000 <= mp1_list_head \/ mp1_list_head + 4 <= V) /\
    (V + 4000 <= vmem_base_addr \/ vmem_base_addr + 4 <= V) /\
    (V + 4000 <= temp_struct \/ temp_struct + STRUCT_SIZE <= V)
}.

Section list.
Context `{FishLaws}.

Definition slot (i : Z) : Z := blink_array + STRUCT_SIZE * i.

Definition entry (m : mem) (i : Z) : blink := blink_at m (slot i).

Definition link (m : mem) (i : Z) : Z := ld32 m (slot i + NEXT).

(** The list that starts with the pointer [a] goes through the slots [is]. *)
Fixpoint chain (m : mem) (a : Z) (is_ : list Z) : Prop :=
  match is_ with
  | [] => a = 0
  | i :: is' => a = slot i /\ chain m (link m i) is'
  end.

(** The slots of the list are distinct and hold places of the screen other than the first. *)
Record fish_ok (m : mem) (is_ : list Z) : Prop := {
  fo_base : ld32 m vmem_base_addr = V;
  fo_chain : chain m (ld32 m mp1_list_head) is_;
  fo_nodup : NoDup is_;
  fo_slots : forall i, i ∈ is_ -> 0 <= i < 2000 /\ 1 <= b_location (entry m i) < 2000
}.

Definition cell (m : mem) (k : Z) : Z := ld m (V + 2 * k).

Ltac fish_lia :=
  destruct fl_array, fl_head as (? & ? & ?), fl_screen as (? & ? & ? & ? & ? & ?);
  pose proof fl_base; pose proof fl_base_head; pose proof fl_temp; pose proof fl_temp_head; pose proof fl_temp_base;
  unfold entry, link, slot, LOCATION, ON_CHAR, OFF_CHAR, ON_LENGTH, OFF_LENGTH, COUNTDOWN, STATUS, NEXT, STRUCT_SIZE in *;
  cbn [b_location blink_at] in *; lia.

Lemma slot_range i : 0 <= i < 2000 -> 0 < slot i /\ blink_array <= slot i /\ slot i + 16 <= blink_array + STRUCT_SIZE * 2000.
Proof. intros. fish_lia. Qed.

Lemma slot_inj i j : slot i = slot j -> i = j.
Proof. unfold slot, STRUCT_SIZE. lia. Qed.

Lemma chain_ext m m' is_ : forall a, (forall i, i ∈ is_ -> link m' i = link m i) -> chain m a is_ -> chain m' a is_.
Proof.
  induction is_ as [|i is_ IH]; intros a E; cbn [chain]; [done|]. intros [-> Hc]. split; [done|].
  rewrite E by by constructor. apply IH; [|done]. intros j Hj. apply E. by constructor.
Qed.

(** Every list in the array is short enough for the loops. *)
Lemma chain_length m is_ : fish_ok m is_ -> (length is_ <= 80 * 25)%nat.
Proof.
  intros [_ _ Hnd Hs]. change (80 * 25)%nat with (length (seqZ 0 2000)).
  apply submseteq_length, NoDup_submseteq; [done|]. intros i Hi. apply elem_of_seqZ. destruct (Hs i Hi). lia.
Qed.

Lemma land_1_odd s : negb (Z.land 1 s =? 0) = Z.odd s.
Proof. rewrite Z.land_comm. change 1 with (Z.ones 1). rewrite Z.land_ones by lia. change (2 ^ 1) with 2. rewrite Zmod_odd. by destruct (Z.odd s). Qed.

(** *** One tick *)

(** What the tick of the entries [is_] does: [m'] has them ticked, their characters on the screen,
    and is otherwise as [m]. *)
Record ticked (m m' : mem) (is_ : list Z) : Prop := {
  tk_at : forall i, i ∈ is_ -> entry m' i = tick (entry m i);
  tk_other : forall j, 0 <= j < 2000 -> j ∉ is_ -> entry m' j = entry m j;
  tk_link : forall j, 0 <= j < 2000 -> link m' j = link m j;
  tk_cell : forall k, 0 <= k < 2000 -> cell m' k = fold_left show (map (entry m) is_) (cell m) k;
  tk_rest : forall x, x < blink_array \/ blink_array + STRUCT_SIZE * 2000 <= x ->
    (forall k, 0 <= k < 2000 -> x <> V + 2 * k) -> ld m' x = ld m x
}.

Lemma poke_eq m l c : ld32 m vmem_base_addr = V -> 0 <= l < 2000 -> mp1_poke m (Z.shiftl l 1) c = st m (V + 2 * l) c.
Proof.
  intros E Hl. unfold mp1_poke. rewrite E, Z.shiftl_mul_pow2 by lia. change (2 ^ 1) with 2.
  rewrite u32_small by fish_lia. f_equal. lia.
Qed.

Lemma s16_u16 x : s16 (u16 x) = s16 x.
Proof. unfold s16, u16. by rewrite <- (Zplus_mod_idemp_l (x mod 2 ^ 16)), Z.mod_mod, Zplus_mod_idemp_l. Qed.

Lemma u16_lxor s : 0 <= s < 2 ^ 16 -> u16 (Z.lxor s 1) = Z.lxor s 1.
Proof.
  intros Hs. unfold u16. apply Z.mod_small. split; [apply Z.lxor_nonneg; lia|].
  destruct (Z.eq_dec (Z.lxor s 1) 0) as [->|Hne]; [lia|]. assert (Hp : 0 < Z.lxor s 1) by (assert (0 <= Z.lxor s 1) by (apply Z.lxor_nonneg; lia); lia).
  apply Z.log2_lt_pow2; [done|]. pose proof (Z.log2_lxor s 1 ltac:(lia) ltac:(lia)).
  destruct (Z.eq_dec s 0) as [->|]; [cbn in *; lia|]. assert (Z.log2 s < 16) by (apply Z.log2_lt_pow2; lia). cbn in *. lia.
Qed.

Lemma u16_ld16 m a : u16 (ld16 m a) = ld16 m a.
Proof. unfold u16. apply Z.mod_small, ld16_range. Qed.

(** The entry without its screen. *)
Lemma tasklet_entry_cases m i :
  ld32 m vmem_base_addr = V -> 0 <= i < 2000 -> b_location (entry m i) < 2000 ->
  let a := slot i in let b := entry m i in let t := tick b in
  tasklet_entry m a =
    if expires b then
      st16 (st16 (st (st16 m (a + COUNTDOWN) (b_countdown b - 1)) (V + 2 * b_location b) (if is_on b then b_off_char b else b_on_char b))
        (a + COUNTDOWN) (b_countdown t)) (a + STATUS) (b_status t)
    else st16 m (a + COUNTDOWN) (b_countdown b - 1).
Proof.
  intros E Hi Hl. cbn zeta. unfold tasklet_entry. rewrite ld16_st16_eq, s16_u16.
  set (a := slot i) in *. set (m1 := st16 m (a + COUNTDOWN) (ld16 m (a + COUNTDOWN) - 1)).
  pose proof (slot_range i Hi) as (Ha0 & Ha1 & Ha2). fold a in Ha0, Ha1, Ha2.
  assert (Hloc : 0 <= b_location (entry m i) < 2000) by (split; [apply ld16_range|done]).
  assert (Hm1 : forall x, x < a + COUNTDOWN \/ a + COUNTDOWN + 2 <= x -> ld m1 x = ld m x) by (intros; by apply ld_st16_ne).
  assert (Hw1 : forall x, x + 2 <= a + COUNTDOWN \/ a + COUNTDOWN + 2 <= x -> ld16 m1 x = ld16 m x) by (intros; by apply ld16_st16_ne).
  assert (E1 : ld32 m1 vmem_base_addr = V) by (rewrite <- E; apply ld32_st16_ne; fish_lia).
  change (expires (entry m i)) with (s16 (ld16 m (a + COUNTDOWN) - 1) <=? 0). rewrite Z.leb_antisym.
  destruct (0 <? _) eqn:Ex; cbn [negb]; [done|]. rewrite land_1_odd.
  unfold tick. change (expires (entry m i)) with (s16 (ld16 m (a + COUNTDOWN) - 1) <=? 0). rewrite Z.leb_antisym, Ex. cbn [negb].
  rewrite !Hw1 by (unfold LOCATION, COUNTDOWN, STATUS, OFF_LENGTH, ON_LENGTH; lia).
  rewrite !Hm1 by (unfold ON_CHAR, OFF_CHAR, COUNTDOWN; lia).
  change (ld16 m (a + LOCATION)) with (b_location (entry m i)). change (is_on (entry m i)) with (Z.odd (ld16 m (a + STATUS))).
  destruct (Z.odd (ld16 m (a + STATUS))); rewrite poke_eq by done; cbn zeta;
    rewrite ?ld16_st16_ne, ?ld16_st_ne, ?Hw1 by (unfold LOCATION, COUNTDOWN, STATUS, OFF_LENGTH, ON_LENGTH; fish_lia); done.
Qed.

Ltac skip_stores := repeat first [rewrite ld_st16_ne by fish_lia | rewrite ld_st_ne by fish_lia
  | rewrite ld16_st16_ne by fish_lia | rewrite ld16_st_ne by fish_lia].

Lemma ticked_entry m i :
  ld32 m vmem_base_addr = V -> 0 <= i < 2000 -> b_location (entry m i) < 2000 -> ticked m (tasklet_entry m (slot i)) [i].
Proof.
  intros E Hi Hl. rewrite (tasklet_entry_cases m i E Hi Hl). 
  assert (Hloc : 0 <= b_location (entry m i)) by apply ld16_range.
  set (b := entry m i) in *. set (l := b_location b) in *.
  split.
  - intros j. rewrite list_elem_of_singleton. intros ->. fold b. unfold tick. destruct (expires b) eqn:Ex.
    + unfold entry, blink_at. f_equal; try (skip_stores; reflexivity); cbn [b_countdown b_status].
      * skip_stores. rewrite ld16_st16_eq. destruct (is_on b); apply u16_ld16.
      * rewrite ld16_st16_eq. apply u16_lxor, ld16_range.
    + unfold entry, blink_at. f_equal; try (skip_stores; reflexivity). by rewrite ld16_st16_eq.
  - intros j Hj Hne. rewrite list_elem_of_singleton in Hne. apply blink_at_ext. intros x Hx.
    destruct (expires b); skip_stores; done.
  - intros j Hj. apply ld32_ext. intros x Hx.
    destruct (expires b); skip_stores; done.
  - intros k Hk. cbn [map fold_left]. fold b. unfold show, cell. destruct (expires b).
    + unfold put_char. rewrite !ld_st16_ne by fish_lia. rewrite ld_st. fold l.
      destruct (Z.eqb_spec k l) as [->|].
      * rewrite Z.eqb_refl. destruct (is_on b); apply u8_small; apply ld_range.
      * rewrite (proj2 (Z.eqb_neq _ _)) by lia. apply ld_st16_ne. fish_lia.
    + apply ld_st16_ne. fish_lia.
  - intros x Hx Hv. specialize (Hv l). destruct (expires b); skip_stores; done.
Qed.

Lemma entry_location b : b_location (tick b) = b_location b.
Proof. unfold tick. by destruct (expires b). Qed.

Lemma show_fold_ext bs : forall s s' k, s k = s' k -> fold_left show bs s k = fold_left show bs s' k.
Proof. induction bs as [|b bs IH]; intros s s' k E; [done|]. apply IH. by apply show_ext. Qed.

Lemma ticked_cons m m1 m2 i is_ :
  0 <= i < 2000 -> (forall j, j ∈ is_ -> 0 <= j < 2000) -> i ∉ is_ -> ticked m m1 [i] -> ticked m1 m2 is_ -> ticked m m2 (i :: is_).
Proof.
  intros Hi Hr Hni [A1 A2 A3 A4 A5] [B1 B2 B3 B4 B5].
  assert (E : forall j, j ∈ is_ -> entry m1 j = entry m j).
  { intros j Hj. apply A2; [by apply Hr|]. rewrite list_elem_of_singleton. by intros ->. }
  split.
  - intros j Hj. apply elem_of_cons in Hj as [->|Hj].
    + rewrite B2 by done. apply A1. by constructor.
    + rewrite B1, E by done. done.
  - intros j Hj Hne. rewrite not_elem_of_cons in Hne. destruct Hne as [Hne Hn2]. rewrite B2, A2; try done.
    by rewrite list_elem_of_singleton.
  - intros j Hj. by rewrite B3, A3.
  - intros k Hk. rewrite B4 by done. cbn [map fold_left].
    assert (Em : map (entry m1) is_ = map (entry m) is_) by (apply List.map_ext_in; intros j Hj; by apply E, list_elem_of_In).
    rewrite Em. apply show_fold_ext. by rewrite A4.
  - intros x Hx Hv. by rewrite B5, A5.
Qed.

Lemma tasklet_loop_ticks fuel : forall m is_ a,
  ld32 m vmem_base_addr = V -> chain m a is_ -> NoDup is_ ->
  (forall i, i ∈ is_ -> 0 <= i < 2000 /\ b_location (entry m i) < 2000) -> (length is_ <= fuel)%nat ->
  exists m', tasklet_loop fuel m a = Some m' /\ ticked m m' is_.
Proof.
  induction fuel as [|fuel IH]; intros m [|i is_] a E Hc Hnd Hs Hf; cbn [length chain] in *; try lia.
  1, 2: subst a; exists m; cbn [tasklet_loop]; rewrite Z.eqb_refl; split; [done|]; split; intros; try done; by apply not_elem_of_nil in H1.
  destruct Hc as [-> Hc]. apply list.NoDup_cons in Hnd as [Hni Hnd].
  destruct (Hs i ltac:(by constructor)) as [Hi Hl]. pose proof (slot_range i Hi) as (Hp & _).
  pose proof (ticked_entry m i E Hi Hl) as Ht. cbn [tasklet_loop]. rewrite (proj2 (Z.eqb_neq _ _)) by lia.
  set (m1 := tasklet_entry m (slot i)) in *. clearbody m1.
  change (ld32 m1 (slot i + NEXT)) with (link m1 i). rewrite (tk_link _ _ _ Ht i Hi).
  assert (E1 : ld32 m1 vmem_base_addr = V).
  { rewrite <- E. apply ld32_ext. intros x Hx. apply (tk_rest _ _ _ Ht); [|intros k Hk]; fish_lia. }
  destruct (IH m1 is_ (link m i)) as (m2 & E2 & Ht2); try done.
  - apply (chain_ext m); [|done]. intros j Hj. apply (tk_link _ _ _ Ht). by apply Hs; constructor.
  - intros j Hj. destruct (Hs j ltac:(by constructor)) as [Hj1 Hj2]. split; [done|].
    rewrite (tk_other _ _ _ Ht); [done|done|]. rewrite list_elem_of_singleton. by intros ->.
  - lia.
  - exists m2. split; [exact E2|]. eapply ticked_cons; [done| |done|exact Ht|exact Ht2].
    intros j Hj. by apply Hs; constructor.
Qed.

Lemma ticked_ok m m' is_ : fish_ok m is_ -> ticked m m' is_ -> fish_ok m' is_.
Proof.
  intros [A1 A2 A3 A4] Ht. assert (Hh : ld32 m' mp1_list_head = ld32 m mp1_list_head).
  { apply ld32_ext. intros x Hx. apply (tk_rest _ _ _ Ht); [|intros k Hk]; fish_lia. }
  split; [|rewrite Hh|done|].
  - rewrite <- A1. apply ld32_ext. intros x Hx. apply (tk_rest _ _ _ Ht); [|intros k Hk]; fish_lia.
  - apply (chain_ext m); [|done]. intros j Hj. apply (tk_link _ _ _ Ht). by apply A4.
  - intros i Hi. destruct (A4 i Hi) as [Hr Hl]. split; [done|]. by rewrite (tk_at _ _ _ Ht i Hi), entry_location.
Qed.

(** *** Finding and removing *)

(** The first entry of the list at a place. *)
Definition at_place (m : mem) (l : Z) (i : Z) : bool := b_location (entry m i) =? l.

Lemma find_loop_spec m ax fuel : forall is_ a,
  chain m a is_ -> (forall i, i ∈ is_ -> 0 <= i < 2000) -> (length is_ <= fuel)%nat ->
  find_loop fuel m ax a = Some (match List.find (at_place m ax) is_ with Some i => slot i | None => 0 end).
Proof.
  induction fuel as [|fuel IH]; intros [|i is_] a Hc Hr Hl; cbn [length chain] in *; try lia.
  1, 2: subst a; cbn [find_loop List.find]; by rewrite Z.eqb_refl.
  destruct Hc as [-> Hc]. destruct (slot_range i (Hr i ltac:(by constructor))) as (Hp & _).
  cbn [find_loop List.find]. rewrite (proj2 (Z.eqb_neq _ _)) by lia.
  change (ld16 m (slot i + LOCATION) =? ax) with (at_place m ax i). destruct (at_place m ax i); [done|].
  apply (IH is_ (link m i)); [done| |lia]. intros j Hj. apply Hr. by constructor.
Qed.

Lemma find_helper_spec m is_ l : fish_ok m is_ ->
  mp1_find_helper m l = Some (match List.find (at_place m (u16 l)) is_ with Some i => slot i | None => 0 end).
Proof.
  intros Hok. apply find_loop_spec; [apply Hok|intros i Hi; by apply (fo_slots _ _ Hok)|by eapply chain_length].
Qed.

(** The address of the link to an entry, for a list reached from the link at [e]. *)
Fixpoint prev_link (e : Z) (is1 : list Z) : Z :=
  match is1 with
  | [] => e
  | j :: is1 => prev_link (slot j + NEXT) is1
  end.

Lemma find_prev_spec m i is2 fuel : forall is1 e,
  chain m (ld32 m e) (is1 ++ i :: is2) -> i ∉ is1 -> (length is1 <= fuel)%nat ->
  remove_find_prev fuel m (slot i) e = Some (prev_link e is1).
Proof.
  induction fuel as [|fuel IH]; intros [|j is1] e Hc Hn Hl; cbn [app length chain prev_link] in *; try lia.
  1, 2: destruct Hc as [E _]; cbn [remove_find_prev]; by rewrite E, Z.eqb_refl.
  destruct Hc as [E Hc]. apply not_elem_of_cons in Hn as [Hne Hn]. cbn [remove_find_prev].
  rewrite E, (proj2 (Z.eqb_neq _ _)) by (intros Es; apply slot_inj in Es; congruence).
  apply IH; [exact Hc|done|lia].
Qed.

(** A link apart from those of the slots [is_]. *)
Definition apart (e : Z) (is_ : list Z) : Prop :=
  forall k, k ∈ is_ -> e + 4 <= slot k + NEXT \/ slot k + NEXT + 4 <= e.

Lemma apart_slot j is_ : j ∉ is_ -> apart (slot j + NEXT) is_.
Proof.
  intros Hn k Hk. assert (k <> j) by (intros ->; done). unfold slot, STRUCT_SIZE. lia.
Qed.

Lemma prev_link_cases is1 : forall e, prev_link e is1 = e \/ exists j, j ∈ is1 /\ prev_link e is1 = slot j + NEXT.
Proof.
  induction is1 as [|j is1 IH]; intros e; cbn [prev_link]; [by left|right].
  destruct (IH (slot j + NEXT)) as [->|(k & Hk & ->)]; [exists j|exists k]; (split; [by constructor|done]).
Qed.

Lemma chain_remove m i is2 : forall is1 e,
  chain m (ld32 m e) (is1 ++ i :: is2) -> NoDup (is1 ++ i :: is2) -> apart e (is1 ++ i :: is2) ->
  let m' := st32 m (prev_link e is1) (link m i) in chain m' (ld32 m' e) (is1 ++ is2).
Proof.
  induction is1 as [|j is1 IH]; intros e Hc Hnd Ha; cbn [app prev_link chain] in *; apply list.NoDup_cons in Hnd as [Hni Hnd].
  - destruct Hc as [_ Hc]. cbn zeta. rewrite ld32_st32, u32_small by apply ld32_range.
    apply (chain_ext m); [|done]. intros k Hk. apply ld32_st32_ne. specialize (Ha k ltac:(by constructor)). lia.
  - destruct Hc as [E Hc]. cbn zeta. specialize (IH (slot j + NEXT) Hc Hnd (apart_slot j _ Hni)). cbn zeta in IH.
    set (p := prev_link (slot j + NEXT) is1) in *.
    assert (Hp : e + 4 <= p \/ p + 4 <= e).
    { unfold p. destruct (prev_link_cases is1 (slot j + NEXT)) as [->|(k & Hk & ->)].
      - specialize (Ha j ltac:(by constructor)). lia.
      - specialize (Ha k). rewrite elem_of_cons, elem_of_app in Ha. specialize (Ha ltac:(tauto)). lia. }
    rewrite ld32_st32_ne by lia. split; [done|]. exact IH.
Qed.

Lemma head_apart is_ : (forall i, i ∈ is_ -> 0 <= i < 2000) -> apart mp1_list_head is_.
Proof. intros Hr k Hk. specialize (Hr k Hk). fish_lia. Qed.

Lemma nodup_middle (is1 is2 : list Z) i :
  NoDup (is1 ++ i :: is2) -> (i ∉ is1) /\ (i ∉ is2) /\ NoDup (is1 ++ is2).
Proof.
  rewrite !list.NoDup_app, list.NoDup_cons. intros (N1 & N2 & N3 & N4).
  split; [intros Hi; apply (N2 i Hi); by constructor|]. split; [done|]. split; [done|]. split; [|done].
  intros x Hx Hx2. apply (N2 x Hx). by constructor.
Qed.

Lemma elem_middle (is1 is2 : list Z) i j : (j ∈ (is1 ++ i :: is2)) <-> j = i \/ (j ∈ (is1 ++ is2)).
Proof. rewrite !elem_of_app, elem_of_cons. tauto. Qed.

(** Unlinking and freeing one entry. *)
Lemma remove_spec m is1 i is2 :
  fish_ok m (is1 ++ i :: is2) ->
  let m' := mp1_free (st32 m (prev_link mp1_list_head is1) (link m i)) (slot i) in
  fish_ok m' (is1 ++ is2) /\ (forall j, 0 <= j < 2000 -> j <> i -> entry m' j = entry m j) /\
  b_location (entry m' i) = 0 /\ (forall k, 0 <= k < 2000 -> cell m' k = cell m k).
Proof.
  intros [A1 A2 A3 A4]. cbn zeta. set (p := prev_link mp1_list_head is1). set (m1 := st32 m p (link m i)).
  assert (Hr : forall j, j ∈ is1 ++ i :: is2 -> 0 <= j < 2000) by (intros j Hj; by apply A4).
  pose proof (chain_remove m i is2 is1 mp1_list_head A2 A3 (head_apart _ Hr)) as Hc. fold p in Hc. cbn zeta in Hc. fold m1 in Hc.
  pose proof (Hr i ltac:(apply elem_middle; by left)) as Hi. destruct (nodup_middle _ _ _ A3) as (N1 & N2 & N3).
  assert (Hp : p = mp1_list_head \/ exists j, 0 <= j < 2000 /\ j <> i /\ p = slot j + NEXT).
  { destruct (prev_link_cases is1 mp1_list_head) as [E|(j & Hj & E)]; [by left|right]. exists j.
    split; [apply Hr, elem_middle; right; apply elem_of_app; by left|]. split; [|done]. by intros ->. }
  assert (Hm1 : forall x, x < p \/ p + 4 <= x -> ld m1 x = ld m x) by (intros; by apply ld_st32_ne).
  set (m2 := mp1_free m1 (slot i)).
  assert (Hm2 : forall x, ld m2 x = if (slot i <=? x) && (x <? slot i + 16) then 0 else ld m1 x).
  { intros x. unfold m2, mp1_free. rewrite ece391_memset_spec by (unfold STRUCT_SIZE; lia). done. }
  assert (Hs : forall x, x < slot i \/ slot i + 16 <= x -> ld m2 x = ld m1 x).
  { intros x Hx. rewrite Hm2. destruct (Z.leb_spec (slot i) x), (Z.ltb_spec x (slot i + 16)); cbn; lia || done. }
  clearbody m2. 
  assert (He : forall j, 0 <= j < 2000 -> j <> i -> entry m2 j = entry m j).
  { intros j Hj Hne. apply blink_at_ext. intros x Hx. 
    rewrite Hs by (unfold slot, STRUCT_SIZE; lia). apply Hm1. destruct Hp as [->|(q & Hq & _ & ->)]; fish_lia. }
  assert (Hsub : forall j, j ∈ is1 ++ is2 -> j ∈ is1 ++ i :: is2 /\ j <> i).
  { intros j Hj. split; [apply elem_middle; by right|]. intros ->. by apply elem_of_app in Hj as [?|?]. }
  split; [|split; [exact He|split]].
  - split.
    + rewrite <- A1. apply ld32_ext. intros x Hx. rewrite Hs by fish_lia. apply Hm1. destruct Hp as [->|(q & Hq & _ & ->)]; fish_lia.
    + rewrite (ld32_ext m1 m2) by (intros x Hx; apply Hs; fish_lia). apply (chain_ext m1); [|done].
      intros j Hj. destruct (Hsub j Hj) as [Hj1 Hj2]. specialize (Hr j Hj1). apply ld32_ext. intros x Hx. apply Hs. fish_lia.
    + done.
    + intros j Hj. destruct (Hsub j Hj) as [Hj1 Hj2]. destruct (A4 j Hj1) as [Hj3 Hj4]. split; [done|]. by rewrite He.
  - unfold entry, blink_at, ld16. cbn [b_location]. unfold LOCATION. rewrite !Hm2.
    destruct (Z.leb_spec (slot i) (slot i + 0)), (Z.ltb_spec (slot i + 0) (slot i + 16)),
      (Z.leb_spec (slot i) (slot i + 0 + 1)), (Z.ltb_spec (slot i + 0 + 1) (slot i + 16)); cbn; lia.
  - intros k Hk. unfold cell. rewrite Hs by fish_lia. apply Hm1. destruct Hp as [->|(q & Hq & _ & ->)]; fish_lia.
Qed.

(** *** Adding *)

Lemma find_ext a b p q : (forall i, a <= i < b -> p i = q i) -> find_ a b p = find_ a b q.
Proof.
  intros E. destruct (find_ a b p) as [i|] eqn:E1, (find_ a b q) as [j|] eqn:E2; [| | |done].
  - apply find_Some in E1 as (Hi & Pi & Li). apply find_Some in E2 as (Hj & Pj & Lj). f_equal.
    destruct (Z.lt_trichotomy i j) as [?|[?|?]]; [|done|].
    + specialize (Lj i ltac:(lia)). rewrite <- E in Lj by lia. congruence.
    + specialize (Li j ltac:(lia)). rewrite E in Li by lia. congruence.
  - apply find_Some in E1 as (Hi & Pi & _). pose proof (find_None _ _ _ E2 i Hi) as F. cbn beta in F. rewrite <- E in F by lia. congruence.
  - apply find_Some in E2 as (Hi & Pi & _). pose proof (find_None _ _ _ E1 j Hi) as F. cbn beta in F. rewrite E in F by lia. congruence.
Qed.

Lemma copied_blink m m' d s : copied m m' d s STRUCT_SIZE -> blink_at m' d = blink_at m s.
Proof.
  intros Hc. apply blink_at_ext. intros x Hx. rewrite Hc.
  rewrite (proj2 (Z.leb_le _ _)), (proj2 (Z.ltb_lt _ _)) by (unfold STRUCT_SIZE; lia). cbn [andb]. f_equal. lia.
Qed.

(** The structure on the stack that [mp1_ioctl_add] prepares. *)
Definition prepared (m : mem) (arg : Z) : mem :=
  let m := (ece391_memcpy m temp_struct arg STRUCT_SIZE).2 in
  let m := st16 m (temp_struct + STATUS) 1 in
  st16 m (temp_struct + COUNTDOWN) (ld16 m (temp_struct + ON_LENGTH)).

Lemma prepared_spec m arg :
  temp_struct + STRUCT_SIZE <= arg \/ arg + STRUCT_SIZE <= temp_struct ->
  unchanged_outside m (prepared m arg) temp_struct STRUCT_SIZE /\
  blink_at (prepared m arg) temp_struct = started (blink_at m arg).
Proof.
  intros Ha. unfold prepared. pose proof (ece391_memcpy_spec m temp_struct arg STRUCT_SIZE ltac:(unfold STRUCT_SIZE; lia) Ha) as Hc.
  set (m1 := (ece391_memcpy _ _ _ _).2) in *. clearbody m1. cbn zeta.
  pose proof (copied_blink _ _ _ _ Hc) as E1.
  split.
  - intros x Hx. unfold STRUCT_SIZE in Hx. rewrite !ld_st16_ne by (unfold STATUS, COUNTDOWN; lia). apply (copied_outside _ _ _ _ _ Hc). done.
  - rewrite <- E1. unfold blink_at, started. cbn [b_location b_on_char b_off_char b_on_length b_off_length].
    f_equal; try (skip_stores; reflexivity).
    + rewrite ld16_st16_eq. skip_stores. apply u16_ld16.
    + skip_stores. by rewrite ld16_st16_eq.
Qed.

(** The first free slot, linked in. *)
Definition linked (m : mem) (i : Z) : mem :=
  let m := (ece391_memcpy m (slot i) temp_struct STRUCT_SIZE).2 in
  let m := st32 m (slot i + NEXT) (ld32 m mp1_list_head) in
  st32 m mp1_list_head (slot i).

Lemma linked_spec m i : 0 <= i < 2000 ->
  blink_at (linked m i) (slot i) = blink_at m temp_struct /\ link (linked m i) i = ld32 m mp1_list_head /\
  ld32 (linked m i) mp1_list_head = slot i /\
  forall x, x < slot i \/ slot i + 16 <= x -> x < mp1_list_head \/ mp1_list_head + 4 <= x -> ld (linked m i) x = ld m x.
Proof.
  intros Hi. pose proof (slot_range i Hi) as Hsr. unfold linked.
  pose proof (ece391_memcpy_spec m (slot i) temp_struct STRUCT_SIZE ltac:(unfold STRUCT_SIZE; lia) ltac:(fish_lia)) as Hc.
  set (m1 := (ece391_memcpy _ _ _ _).2) in *. clearbody m1. cbn zeta.
  pose proof (copied_outside _ _ _ _ _ Hc) as Hu.
  assert (Eh : ld32 m1 mp1_list_head = ld32 m mp1_list_head) by (apply ld32_ext; intros x Hx; apply Hu; fish_lia).
  split; [|split; [|split]].
  - rewrite <- (copied_blink _ _ _ _ Hc). apply blink_at_ext. intros x Hx. by rewrite !ld_st32_ne by fish_lia.
  - unfold link. rewrite ld32_st32_ne by fish_lia. rewrite ld32_st32, Eh. apply u32_small, ld32_range.
  - rewrite ld32_st32. apply u32_small. fish_lia.
  - intros x Hx Hx2. rewrite !ld_st32_ne by fish_lia. apply Hu. unfold STRUCT_SIZE. lia.
Qed.

Lemma add_cases m arg :
  temp_struct + STRUCT_SIZE <= arg \/ arg + STRUCT_SIZE <= temp_struct ->
  ld32 m vmem_base_addr = V -> 
  let b := blink_at m arg in
  (2000 <= b_location b -> (mp1_ioctl_add m arg).1 = -1 /\ unchanged_outside m (mp1_ioctl_add m arg).2 temp_struct STRUCT_SIZE) /\
  (b_location b < 2000 -> mp1_ioctl_add m arg =
     match find_ 0 2000 (fun i => b_location (entry m i) =? 0) with
     | None => (-1, prepared m arg)
     | Some i => (0, st (linked (prepared m arg) i) (V + 2 * b_location b) (b_on_char b))
     end).
Proof.
  intros Ha E. cbn zeta. destruct (prepared_spec m arg Ha) as [Hu Hb].
  pose proof (ece391_memcpy_spec m temp_struct arg STRUCT_SIZE ltac:(unfold STRUCT_SIZE; lia) Ha) as Hc.
  unfold mp1_ioctl_add. rewrite (surjective_pairing (ece391_memcpy m temp_struct arg STRUCT_SIZE)).
  change ((ece391_memcpy m temp_struct arg STRUCT_SIZE).1) with 0. cbn [Z.eqb negb]. fold (prepared m arg).
  set (m1 := (ece391_memcpy m temp_struct arg STRUCT_SIZE).2) in *.
  pose proof (f_equal b_location (copied_blink _ _ _ _ Hc)) as El. cbn [b_location blink_at] in El. rewrite El.
  change (ld16 m (arg + LOCATION)) with (b_location (blink_at m arg)). split; intros Hl.
  - rewrite (proj2 (Z.leb_le _ _)) by lia. split; [done|]. exact (copied_outside _ _ _ _ _ Hc).
  - rewrite (proj2 (Z.leb_gt _ _)) by lia. fold (prepared m arg). unfold mp1_malloc.
    assert (Ee : find_ 0 (80 * 25) (fun i => ld16 (prepared m arg) (blink_array + STRUCT_SIZE * i + LOCATION) =? 0)
      = find_ 0 2000 (fun i => b_location (entry m i) =? 0)).
    { change (80 * 25) with 2000. apply find_ext. intros i Hi. f_equal. apply ld16_ext; apply Hu; fish_lia. }
    rewrite Ee. destruct (find_ 0 2000 _) as [i|] eqn:Ef; [|done].
    apply find_Some in Ef as (Hi & _). pose proof (slot_range i Hi) as (Hp & _). fold (slot i).
    rewrite (proj2 (Z.eqb_neq _ _)) by lia.
    rewrite (surjective_pairing (ece391_memcpy (prepared m arg) (slot i) temp_struct STRUCT_SIZE)).
    fold (linked (prepared m arg) i). destruct (linked_spec (prepared m arg) i Hi) as (L1 & _ & _ & L4).
    rewrite Hb in L1. pose proof (f_equal b_location L1) as F1. pose proof (f_equal b_on_char L1) as F2.
    cbn [b_location b_on_char blink_at started] in F1, F2. 
    change (st32 (st32 _ _ _) mp1_list_head (slot i)) with (linked (prepared m arg) i).
    rewrite F1, F2. f_equal. apply poke_eq; [|split; [apply ld16_range|exact Hl]].
    rewrite <- E. apply ld32_ext. intros x Hx. rewrite L4 by fish_lia. apply Hu. fish_lia.
Qed.

Lemma add_links m arg i :
  ld32 m vmem_base_addr = V -> temp_struct + STRUCT_SIZE <= arg \/ arg + STRUCT_SIZE <= temp_struct ->
  0 <= i < 2000 -> let b := blink_at m arg in b_location b < 2000 ->
  let m' := st (linked (prepared m arg) i) (V + 2 * b_location b) (b_on_char b) in
  ld32 m' vmem_base_addr = V /\ entry m' i = started b /\ link m' i = ld32 m mp1_list_head /\
  ld32 m' mp1_list_head = slot i /\
  (forall j, 0 <= j < 2000 -> j <> i -> entry m' j = entry m j /\ link m' j = link m j) /\
  (forall k, 0 <= k < 2000 -> cell m' k = put_char (b_location b) (b_on_char b) (cell m) k).
Proof.
  intros A1 Ha Hi b Hl m'. destruct (prepared_spec m arg Ha) as [Hu Hb]. fold b in Hb.
  destruct (linked_spec (prepared m arg) i Hi) as (L1 & L2 & L3 & L4). rewrite Hb in L1.
  assert (Hl0 : 0 <= b_location b) by apply ld16_range.
  assert (Hv : forall x, x <> V + 2 * b_location b -> ld m' x = ld (linked (prepared m arg) i) x) by (intros; by apply ld_st_ne).
  assert (Hx : forall x, x <> V + 2 * b_location b -> x < slot i \/ slot i + 16 <= x -> x < mp1_list_head \/ mp1_list_head + 4 <= x ->
    x < temp_struct \/ temp_struct + STRUCT_SIZE <= x -> ld m' x = ld m x) by (intros; by rewrite Hv, L4, Hu).
  pose proof (slot_range i Hi) as Hsr. split; [|split; [|split; [|split; [|split]]]].
  - rewrite <- A1. apply ld32_ext. intros x ?. apply Hx; fish_lia.
  - rewrite <- L1. apply blink_at_ext. intros x ?. apply Hv. fish_lia.
  - unfold link. rewrite (ld32_ext (linked (prepared m arg) i) m') by (intros x ?; apply Hv; fish_lia).
    unfold link in L2. rewrite L2. apply ld32_ext. intros x ?. apply Hu. fish_lia.
  - rewrite <- L3. apply ld32_ext. intros x ?. apply Hv. fish_lia.
  - intros j Hj Hne. pose proof (slot_range j Hj).
    split; [apply blink_at_ext|apply ld32_ext]; intros x ?; apply Hx; fish_lia.
  - intros k Hk. unfold put_char, cell. unfold m'. destruct (Z.eqb_spec k (b_location b)) as [->|].
    + rewrite ld_st_eq. apply u8_small, ld_range.
    + fold m'. apply Hx; fish_lia.
Qed.

(** The list with the new entry at its head. *)
Lemma add_ok m m' is_ i :
  fish_ok m is_ -> 0 <= i < 2000 -> b_location (entry m i) = 0 -> 1 <= b_location (entry m' i) < 2000 ->
  ld32 m' vmem_base_addr = V -> link m' i = ld32 m mp1_list_head -> ld32 m' mp1_list_head = slot i ->
  (forall j, 0 <= j < 2000 -> j <> i -> entry m' j = entry m j /\ link m' j = link m j) ->
  (i ∉ is_) /\ fish_ok m' (i :: is_).
Proof.
  intros [A1 A2 A3 A4] Hi Hz Hl E1 E2 E3 E4.
  assert (Hni : i ∉ is_) by (intros Hin; destruct (A4 i Hin); lia).
  assert (Hj : forall j, j ∈ is_ -> 0 <= j < 2000 /\ j <> i) by (intros j Hj; split; [by apply A4|by intros ->]).
  split; [done|]. split; [done| | |].
  - rewrite E3. cbn [chain]. split; [done|]. rewrite E2. apply (chain_ext m); [|done].
    intros j Hin. destruct (Hj j Hin). by apply E4.
  - by apply list.NoDup_cons.
  - intros j Hin. apply elem_of_cons in Hin as [->|Hin]; [done|]. destruct (Hj j Hin) as [Hr Hne].
    split; [done|]. rewrite (proj1 (E4 j Hr Hne)). by apply A4.
Qed.

(** A free slot is found again. *)
Lemma first_free m i : find_ 0 2000 (fun i => b_location (entry m i) =? 0) = Some i ->
  0 <= i < 2000 /\ b_location (entry m i) = 0 /\
  forall m', (forall j, 0 <= j < 2000 -> j <> i -> entry m' j = entry m j) -> b_location (entry m' i) = 0 ->
    find_ 0 2000 (fun i => b_location (entry m' i) =? 0) = Some i.
Proof.
  intros E. pose proof E as Ef. apply find_Some in Ef as (Hi & Hz & _). apply Z.eqb_eq in Hz. split; [done|]. split; [done|].
  intros m' He Hz'. rewrite <- E. apply find_ext. intros j Hj. destruct (Z.eq_dec j i) as [->|Hne]; [by rewrite Hz, Hz'|].
  by rewrite He.
Qed.

(** A list that leads back to its first entry. *)
Lemma cycle_never_ends fuel : forall m i,
  ld32 m vmem_base_addr = V -> 0 <= i < 2000 -> b_location (entry m i) < 2000 -> link m i = slot i ->
  tasklet_loop fuel m (slot i) = None.
Proof.
  induction fuel as [|fuel IH]; intros m i E Hi Hl Hc; cbn [tasklet_loop]; destruct (slot_range i Hi) as (Hp & _);
    rewrite (proj2 (Z.eqb_neq _ _)) by lia; [done|].
  pose proof (ticked_entry m i E Hi Hl) as Ht. set (m1 := tasklet_entry m (slot i)) in *. clearbody m1.
  change (ld32 m1 (slot i + NEXT)) with (link m1 i). rewrite (tk_link _ _ _ Ht i Hi), Hc. apply IH.
  - rewrite <- E. apply ld32_ext. intros x Hx. apply (tk_rest _ _ _ Ht); [|intros k Hk]; fish_lia.
  - done.
  - by rewrite (tk_at _ _ _ Ht i) by constructor; rewrite entry_location.
  - by rewrite (tk_link _ _ _ Ht i Hi).
Qed.

(** Memory that a program passes to the routines is apart from their copy on the stack. *)
Definition arg_apart (arg : Z) : Prop := temp_struct + STRUCT_SIZE <= arg \/ arg + STRUCT_SIZE <= temp_struct.

(** A list is left alone by what changes only the copy. *)
Lemma temp_ok m m' is_ : fish_ok m is_ -> unchanged_outside m m' temp_struct STRUCT_SIZE ->
  fish_ok m' is_ /\ (forall j, 0 <= j < 2000 -> entry m' j = entry m j) /\ (forall k, 0 <= k < 2000 -> cell m' k = cell m k).
Proof.
  intros [A1 A2 A3 A4] Hu.
  assert (He : forall j, 0 <= j < 2000 -> entry m' j = entry m j) by (intros j Hj; apply blink_at_ext; intros x ?; apply Hu; fish_lia).
  split; [|split; [done|intros k Hk; apply Hu; fish_lia]]. split.
  - rewrite <- A1. apply ld32_ext. intros x ?. apply Hu. fish_lia.
  - rewrite (ld32_ext m m') by (intros x ?; apply Hu; fish_lia). apply (chain_ext m); [|done].
    intros j Hj. destruct (A4 j Hj) as [Hr _]. apply ld32_ext. intros x ?. apply Hu. fish_lia.
  - done.
  - intros j Hj. destruct (A4 j Hj) as [Hr Hl]. by rewrite He.
Qed.
(** *** The commands *)

Lemma add_refuses_far m is_ arg : fish_ok m is_ -> arg_apart arg -> 2000 <= b_location (blink_at m arg) ->
  exists m', mp1_ioctl m arg RTC_ADD = Some (-1, m') /\ fish_ok m' is_ /\
    (forall i, 0 <= i < 2000 -> entry m' i = entry m i) /\ forall k, 0 <= k < 2000 -> cell m' k = cell m k.
Proof.
  intros Hok Ha Hl. change (mp1_ioctl m arg RTC_ADD) with (Some (mp1_ioctl_add m arg)).
  destruct (proj1 (add_cases m arg Ha (fo_base _ _ Hok)) Hl) as [E Hu].
  destruct (mp1_ioctl_add m arg) as [r m']. cbn [fst snd] in *. subst r. exists m'. split; [done|]. by apply temp_ok.
Qed.

Lemma add_refuses_full m is_ arg : fish_ok m is_ -> arg_apart arg -> b_location (blink_at m arg) < 2000 ->
  (forall i, 0 <= i < 2000 -> b_location (entry m i) <> 0) ->
  exists m', mp1_ioctl m arg RTC_ADD = Some (-1, m') /\ fish_ok m' is_ /\
    (forall i, 0 <= i < 2000 -> entry m' i = entry m i) /\ forall k, 0 <= k < 2000 -> cell m' k = cell m k.
Proof.
  intros Hok Ha Hl Hfull. change (mp1_ioctl m arg RTC_ADD) with (Some (mp1_ioctl_add m arg)).
  rewrite (proj2 (add_cases m arg Ha (fo_base _ _ Hok)) Hl). destruct (find_ 0 2000 _) as [i|] eqn:E.
  { exfalso. apply first_free in E as (Hi & Hz & _). by apply (Hfull i Hi). }
  eexists. split; [reflexivity|]. apply temp_ok; [done|]. by apply prepared_spec.
Qed.

Lemma add_adds m is_ arg (b := blink_at m arg) : fish_ok m is_ -> arg_apart arg -> 1 <= b_location b < 2000 ->
  (exists i, 0 <= i < 2000 /\ b_location (entry m i) = 0) ->
  exists i m', mp1_ioctl m arg RTC_ADD = Some (0, m') /\ (i ∉ is_) /\ fish_ok m' (i :: is_) /\ entry m' i = started b /\
    (forall j, 0 <= j < 2000 -> j <> i -> entry m' j = entry m j) /\
    forall k, 0 <= k < 2000 -> cell m' k = put_char (b_location b) (b_on_char b) (cell m) k.
Proof.
  intros Hok Ha Hl (i0 & Hi0 & Hz0). change (mp1_ioctl m arg RTC_ADD) with (Some (mp1_ioctl_add m arg)).
  pose proof (fo_base _ _ Hok) as Hb. rewrite (proj2 (add_cases m arg Ha Hb) ltac:(apply Hl)). fold b.
  destruct (find_is_Some 0 2000 (fun i => b_location (entry m i) =? 0) i0 Hi0 ltac:(by apply Z.eqb_eq)) as (i & E & _). rewrite E.
  destruct (first_free m i E) as (Hi & Hz & _).
  destruct (add_links m arg i Hb Ha Hi ltac:(apply Hl)) as (E1 & E2 & E3 & E4 & E5 & E6). fold b in E1, E2, E3, E4, E5, E6.
  set (m' := st _ _ _) in *. destruct (add_ok m m' is_ i Hok Hi Hz) as [Hni Hok']; try done; [by rewrite E2|].
  exists i, m'. split; [done|]. split; [done|]. split; [done|]. split; [done|]. split; [|exact E6]. intros j Hj Hne. by apply E5.
Qed.

Lemma remove_refuses m is_ arg : fish_ok m is_ -> (forall i, i ∈ is_ -> b_location (entry m i) <> u16 arg) ->
  mp1_ioctl m arg RTC_REMOVE = Some (-1, m).
Proof.
  intros Hok Hno. change (mp1_ioctl m arg RTC_REMOVE) with (mp1_ioctl_remove m arg). unfold mp1_ioctl_remove.
  rewrite (find_helper_spec m is_ arg Hok). destruct (List.find _ _) as [i|] eqn:E; [|done].
  apply List.find_some in E as [Hin Hp]. exfalso. apply (Hno i); [by apply list_elem_of_In|by apply Z.eqb_eq].
Qed.

Lemma find_first m place is1 i is2 : b_location (entry m i) = place ->
  (forall j, j ∈ is1 -> b_location (entry m j) <> place) -> List.find (at_place m place) (is1 ++ i :: is2) = Some i.
Proof.
  intros Hl Hno. induction is1 as [|j is1 IH]; cbn [app List.find]; unfold at_place at 1; [by rewrite Hl, Z.eqb_refl|].
  rewrite (proj2 (Z.eqb_neq _ _)) by (apply Hno; by constructor). apply IH. intros k Hk. apply Hno. by constructor.
Qed.

Lemma remove_unlinks m is1 i is2 arg : fish_ok m (is1 ++ i :: is2) -> b_location (entry m i) = u16 arg ->
  (forall j, j ∈ is1 -> b_location (entry m j) <> u16 arg) ->
  exists m', mp1_ioctl m arg RTC_REMOVE = Some (0, m') /\ fish_ok m' (is1 ++ is2) /\ b_location (entry m' i) = 0 /\
    (forall j, 0 <= j < 2000 -> j <> i -> entry m' j = entry m j) /\ forall k, 0 <= k < 2000 -> cell m' k = cell m k.
Proof.
  intros Hok Hl Hno. change (mp1_ioctl m arg RTC_REMOVE) with (mp1_ioctl_remove m arg). unfold mp1_ioctl_remove.
  assert (Hi : 0 <= i < 2000) by (apply (fo_slots _ _ Hok), elem_middle; by left).
  rewrite (find_helper_spec m _ arg Hok), (find_first m _ is1 i is2 Hl Hno).
  destruct (slot_range i Hi) as (Hp & _). rewrite (proj2 (Z.eqb_neq _ _)) by lia.
  pose proof (chain_length _ _ Hok) as Hlen. rewrite length_app in Hlen.
  rewrite (find_prev_spec m i is2 (80 * 25) is1 mp1_list_head (fo_chain _ _ Hok)); [|apply (nodup_middle _ _ _ (fo_nodup _ _ Hok))|lia].
  destruct (remove_spec m is1 i is2 Hok) as (R1 & R2 & R3 & R4). eexists. split; [reflexivity|]. done.
Qed.
End list.

Arguments fish_ok {_} V m is_.
Arguments cell : clear implicits.
Arguments ticked {_} V m m' is_.

(** After RTC_SYNC the entry shows its second character, whether it is on or off. *)
Lemma sync_shows_off_char `{Fish} V `{!FishLaws V} m is_ arg i j :
  fish_ok V m is_ -> List.find (at_place m (u16 (Z.shiftr (u32 arg) 16))) is_ = Some i ->
  List.find (at_place m (u16 (Z.land (u32 arg) 0xFFFF))) is_ = Some j -> i <> j ->
  exists m1, mp1_ioctl m arg RTC_SYNC = Some (0, st m1 (V + 2 * b_location (entry m j)) (b_off_char (entry m j))).
Proof.
  intros Hok Ei Ej Hne. change (mp1_ioctl m arg RTC_SYNC) with (mp1_ioctl_sync m arg). unfold mp1_ioctl_sync.
  rewrite (find_helper_spec m is_ _ Hok), Ei, (find_helper_spec m is_ _ Hok), Ej.
  apply List.find_some in Ei as [Hi _], Ej as [Hj _]. apply list_elem_of_In in Hi, Hj.
  destruct (fo_slots _ _ Hok i Hi) as [Hri _], (fo_slots _ _ Hok j Hj) as [Hrj Hlj].
  destruct (slot_range i Hri) as (Hpi & _), (slot_range j Hrj) as (Hpj & _).
  rewrite !(proj2 (Z.eqb_neq (slot _) 0)) by lia. set (m1 := st16 _ (slot j + STATUS) _).
  exists m1. assert (Et : Z.testbit (Z.land 1 (ld m1 (slot j + STATUS))) 7 = false) by (by rewrite Z.land_spec).
  rewrite Et.
  assert (Hm : forall x, slot j <= x < slot j + 4 -> ld m1 x = ld m x).
  { intros x Hx. unfold m1. by rewrite !ld_st16_ne by (unfold ON_LENGTH, OFF_LENGTH, COUNTDOWN, STATUS; lia). }
  rewrite Hm by (unfold OFF_CHAR; lia). assert (El : ld16 m1 (slot j + LOCATION) = b_location (entry m j))
    by (apply ld16_ext; apply Hm; unfold LOCATION; lia).
  rewrite El, (poke_eq m1 _ _); [done| |lia]. rewrite <- (fo_base _ _ Hok). unfold m1.
  pose proof (fl_base (V := V)). unfold slot, ON_LENGTH, OFF_LENGTH, COUNTDOWN, STATUS, STRUCT_SIZE in *.
  by rewrite !ld32_st16_ne by lia.
Qed.

(** ** Properties *)

(** C34: A tick of the blinking list.  On a list in memory whose slots are distinct and hold places of
    the screen, [mp1_rtc_tasklet] ends, every entry is ticked (its count goes down; when the count is
    up it changes over to its other character and starts the count for that one), every place of
    the screen shows the last character that was put there, the list is as it was, and nothing
    else in memory changes. *)
Theorem tasklet_ticks_the_list `{Fish} V `{!FishLaws V} m is_ :
  fish_ok V m is_ -> exists m', mp1_rtc_tasklet m = Some m' /\ fish_ok V m' is_ /\
    (forall i, i ∈ is_ -> entry m' i = tick (entry m i)) /\
    (forall k, 0 <= k < 2000 -> cell V m' k = fold_left show (map (entry m) is_) (cell V m) k) /\
    (forall x, x < blink_array \/ blink_array + STRUCT_SIZE * 2000 <= x ->
       (forall k, 0 <= k < 2000 -> x <> V + 2 * k) -> ld m' x = ld m x).
Proof.
  intros Hok. destruct (tasklet_loop_ticks (80 * 25) m is_ (ld32 m mp1_list_head)) as (m' & E & Ht); try apply Hok.
  - intros i Hi. destruct (fo_slots _ _ Hok i Hi). lia.
  - by eapply chain_length.
  - exists m'. split; [exact E|]. split; [by eapply ticked_ok|]. split; [apply Ht|]. split; apply Ht.
Qed.

(** C33: Adding and removing.  [mp1_ioctl] with RTC_ADD refuses a place beyond the screen, and any entry
    when all 2000 slots are taken, with -1 and the list as it was; any other entry (at a place other
    than the first) goes to a free slot at the head of the list, started with its first character,
    which is on the screen at once.  RTC_REMOVE unlinks the first entry at the place, wherever in the
    list it is, and frees its slot; without one it returns -1 and does nothing. *)
Theorem ioctl_adds_and_removes `{Fish} V `{!FishLaws V} m is_ arg :
  fish_ok V m is_ ->
  (arg_apart arg -> let b := blink_at m arg in
    (2000 <= b_location b \/ (b_location b < 2000 /\ forall i, 0 <= i < 2000 -> b_location (entry m i) <> 0) ->
       exists m', mp1_ioctl m arg RTC_ADD = Some (-1, m') /\ fish_ok V m' is_ /\
         (forall i, 0 <= i < 2000 -> entry m' i = entry m i) /\ forall k, 0 <= k < 2000 -> cell V m' k = cell V m k) /\
    (1 <= b_location b < 2000 -> (exists i, 0 <= i < 2000 /\ b_location (entry m i) = 0) ->
       exists i m', mp1_ioctl m arg RTC_ADD = Some (0, m') /\ (i ∉ is_) /\ fish_ok V m' (i :: is_) /\ entry m' i = started b /\
         (forall j, 0 <= j < 2000 -> j <> i -> entry m' j = entry m j) /\
         forall k, 0 <= k < 2000 -> cell V m' k = put_char (b_location b) (b_on_char b) (cell V m) k)) /\
  ((forall i, i ∈ is_ -> b_location (entry m i) <> u16 arg) -> mp1_ioctl m arg RTC_REMOVE = Some (-1, m)) /\
  (forall is1 i is2, is_ = is1 ++ i :: is2 -> b_location (entry m i) = u16 arg ->
     (forall j, j ∈ is1 -> b_location (entry m j) <> u16 arg) ->
     exists m', mp1_ioctl m arg RTC_REMOVE = Some (0, m') /\ fish_ok V m' (is1 ++ is2) /\ b_location (entry m' i) = 0 /\
       (forall j, 0 <= j < 2000 -> j <> i -> entry m' j = entry m j) /\ forall k, 0 <= k < 2000 -> cell V m' k = cell V m k).
Proof.
  intros Hok. split; [|split].
  - intros Ha b. split; [|by apply add_adds]. intros [Hl|[Hl Hfull]]; [by apply add_refuses_far|by apply add_refuses_full].
  - intros Hno. by eapply remove_refuses.
  - intros is1 i is2 -> Hl Hno. by apply remove_unlinks.
Qed.

(** C40: The first place of the screen breaks the list.  [mp1_malloc] takes a slot for free when its place is
    0, which [mp1_ioctl_add] accepts: after an entry at place 0, adding any other entry takes the same slot
    again and links it to itself, and the next [mp1_rtc_tasklet] runs for ever. *)
Theorem place_zero_makes_a_cycle `{Fish} V `{!FishLaws V} m is_ arg1 arg2 m1 :
  fish_ok V m is_ -> arg_apart arg1 -> arg_apart arg2 ->
  b_location (blink_at m arg1) = 0 -> mp1_ioctl m arg1 RTC_ADD = Some (0, m1) -> b_location (blink_at m1 arg2) < 2000 ->
  exists m2, mp1_ioctl m1 arg2 RTC_ADD = Some (0, m2) /\ forall fuel, tasklet_loop fuel m2 (ld32 m2 mp1_list_head) = None.
Proof.
  intros Hok Ha1 Ha2 Hz E Hl. pose proof (fo_base _ _ Hok) as Hb.
  change (mp1_ioctl m arg1 RTC_ADD) with (Some (mp1_ioctl_add m arg1)) in E.
  change (mp1_ioctl m1 arg2 RTC_ADD) with (Some (mp1_ioctl_add m1 arg2)).
  destruct (add_cases m arg1 Ha1 Hb) as [_ E1]. rewrite E1 in E by lia. destruct (find_ 0 2000 _) as [i|] eqn:Ef; [|by injection E].
  destruct (first_free m i Ef) as (Hi & Hzi & Hagain).
  destruct (add_links m arg1 i Hb Ha1 Hi ltac:(lia)) as (A1 & A2 & A3 & A4 & A5 & _).
  assert (Em : st (linked (prepared m arg1) i) (V + 2 * b_location (blink_at m arg1)) (b_on_char (blink_at m arg1)) = m1) by congruence.
  rewrite Em in *. clear E Em E1. destruct (add_cases m1 arg2 Ha2 A1) as [_ E2]. rewrite (E2 Hl).
  rewrite (Hagain m1); [|intros j Hj Hne; by apply A5|by rewrite A2]. eexists. split; [reflexivity|]. intros fuel.
  destruct (add_links m1 arg2 i A1 Ha2 Hi Hl) as (B1 & B2 & B3 & B4 & _). rewrite B4.
  apply cycle_never_ends; [done|done|by rewrite B2|congruence].
Qed.

(** ** Witnesses *)

#[local] Instance sample_fish : Fish :=
  {| blink_array := 0x8050000; mp1_list_head := 0x8049000; vmem_base_addr := 0x8049010; temp_struct := 0x83FFF00 |}.

#[local] Instance sample_fish_laws : FishLaws 0x7CB8000.
Proof. split; cbn; unfold STRUCT_SIZE; lia. Qed.

(** An empty list, and two entries of the program. *)
Definition sample_blinks : mem :=
  let m := st32 mem_empty 0x8049010 0x7CB8000 in
  let m := st_list m 0x83FFE00 [5; 0; 65; 66; 1; 0; 3; 0] in
  st_list m 0x83FFE20 [0; 0; 67; 68; 1; 0; 3; 0].

Lemma sample_empty_ok : fish_ok 0x7CB8000 sample_blinks [].
Proof. split; [by vm_compute|by vm_compute|constructor|]. intros i Hi. by apply not_elem_of_nil in Hi. Qed.

Lemma sample_args_apart : arg_apart 0x83FFE00 /\ arg_apart 0x83FFE20.
Proof. split; right; by vm_compute. Qed.

(** With the first entry added. *)
Definition sample_one : mem := (mp1_ioctl_add sample_blinks 0x83FFE00).2.

Lemma sample_one_ok : fish_ok 0x7CB8000 sample_one [0].
Proof.
  split; [by vm_compute|by vm_compute|apply NoDup_singleton|]. intros i Hi. apply list_elem_of_singleton in Hi as ->.
  by vm_compute.
Qed.

Lemma tasklet_ticks_the_list_witness : exists m', mp1_rtc_tasklet sample_one = Some m' /\ cell 0x7CB8000 m' 5 = 66.
Proof.
  destruct (tasklet_ticks_the_list 0x7CB8000 sample_one [0] sample_one_ok) as (m' & E & _ & _ & Hc & _).
  exists m'. split; [exact E|]. rewrite Hc by lia. vm_compute. reflexivity.
Defined.

Lemma ioctl_adds_and_removes_witness :
  (exists i m', mp1_ioctl sample_blinks 0x83FFE00 RTC_ADD = Some (0, m') /\ fish_ok 0x7CB8000 m' [i]) /\
  (exists m', mp1_ioctl sample_one 5 RTC_REMOVE = Some (0, m') /\ fish_ok 0x7CB8000 m' []).
Proof.
  split.
  - destruct (ioctl_adds_and_removes 0x7CB8000 sample_blinks [] 0x83FFE00 sample_empty_ok) as [Hadd _].
    destruct (proj2 (Hadd (proj1 sample_args_apart))) as (i & m' & E & _ & Hok & _).
    + by vm_compute.
    + exists 0. by vm_compute.
    + exists i, m'. split; [exact E|exact Hok].
  - destruct (ioctl_adds_and_removes 0x7CB8000 sample_one [0] 5 sample_one_ok) as (_ & _ & Hrem).
    destruct (Hrem [] 0 [] eq_refl) as (m' & E & Hok & _).
    + by vm_compute.
    + intros j Hj. by apply not_elem_of_nil in Hj.
    + exists m'. split; [exact E|exact Hok].
Defined.

Lemma place_zero_makes_a_cycle_witness :
  exists m1 m2, mp1_ioctl sample_blinks 0x83FFE20 RTC_ADD = Some (0, m1) /\
    mp1_ioctl m1 0x83FFE00 RTC_ADD = Some (0, m2) /\ mp1_rtc_tasklet m2 = None.
Proof.
  destruct (place_zero_makes_a_cycle 0x7CB8000 sample_blinks [] 0x83FFE20 0x83FFE00 (mp1_ioctl_add sample_blinks 0x83FFE20).2)
    as (m2 & E & Hf).
  - exact sample_empty_ok.
  - apply sample_args_apart.
  - apply sample_args_apart.
  - by vm_compute.
  - vm_compute. reflexivity.
  - by vm_compute.
  - exists (mp1_ioctl_add sample_blinks 0x83FFE20).2, m2. split; [vm_compute; reflexivity|]. split; [exact E|exact (Hf (80 * 25)%nat)].
Defined.
