(* ===== verification/Fish.v ===== *)
(** * fish/fish.c: the fish animation

    The program of src/fish over the interface of User.v: it maps the screen, adds an entry of the
    blinking list for every place where its two pictures differ from a blank, and waits for the
    clock between ticks.  The addresses of the locals whose address is taken are arguments. *)

From S2P Require Import Prelude Mem LibString Console Linkage User Programs Blink.

Definition WAIT : Z := 200.

Section fish.
Context {W : Type} `{Calls W} `{Literals} `{Fish}.

(** A routine of blink.S that ends. *)
Definition routine (f : mem -> option (Z * mem)) : prog W Z :=
  let! m := get_mem in
  match f m with
  | Some (r, m) => set_mem m ;; ret r
  | None => stuck
  end.

Definition ioctl (arg cmd : Z) : prog W Z := routine (fun m => mp1_ioctl m arg cmd).

Definition tasklet : prog W Z :=
  routine (fun m => match mp1_rtc_tasklet m with Some m => Some (0, m) | None => None end).

Definition store16 (a v : Z) : prog W unit := store a v ;; store (a + 1) (v / 2 ^ 8).

(** NULL if the screen could not be mapped. *)
Definition mp1_set_video_mode : prog W Z :=
  let! r := ece391_vidmap vmem_base_addr in
  if r =? -1 then ret 0 else let! m := get_mem in ret (ld32 m vmem_base_addr).

(** One character of a picture: nothing after the end of its line; the end of the file counts as an
    end of the line and is remembered. *)
Definition next_char (fd c eof : Z) : prog W Z :=
  let! v := load c in
  if negb (v =? 10) then
    let! num_bytes := ece391_read fd c 1 in
    if num_bytes =? 0 then store c 10 ;; ret 1 else ret eof
  else ret eof.

(** The inner loop: a row of both pictures. *)
Fixpoint add_row (fuel : nat) (fd0 fd1 c0 c1 bs row col offset eof0 eof1 : Z) : prog W (Z * Z) :=
  match fuel with
  | O => stuck
  | S f =>
      let! eof0 := next_char fd0 c0 eof0 in
      let! eof1 := next_char fd1 c1 eof1 in
      let! v0 := load c0 in
      let! v1 := load c1 in
      if (v0 =? 10) && (v1 =? 10) then ret (eof0, eof1)
      else
        (if (negb (v0 =? 32) && negb (v0 =? 10)) || (negb (v1 =? 32) && negb (v1 =? 10)) then
           store (bs + ON_CHAR) (if v0 =? 10 then 32 else v0) ;;
           store (bs + OFF_CHAR) (if v1 =? 10 then 32 else v1) ;;
           store16 (bs + LOCATION) (row * 80 + col + offset) ;;
           ioctl bs RTC_ADD ;;
           ret tt
         else ret tt) ;;
        add_row f fd0 fd1 c0 c1 bs row (col + 1) offset eof0 eof1
  end.

(** What happens to a picture between two rows. *)
Definition end_row (fd c eof : Z) : prog W unit :=
  if negb (eof =? 0) then store c 10 ;; ece391_close fd ;; ret tt else store c 48.

Fixpoint add_rows (fuel : nat) (fd0 fd1 c0 c1 bs row offset eof0 eof1 : Z) : prog W unit :=
  if (eof0 =? 0) || (eof1 =? 0) then
    match fuel with
    | O => stuck
    | S f =>
        let! eofs := add_row fuel fd0 fd1 c0 c1 bs row 0 offset eof0 eof1 in
        end_row fd0 c0 eofs.1 ;;
        end_row fd1 c1 eofs.2 ;;
        add_rows f fd0 fd1 c0 c1 bs (row + 1) offset eofs.1 eofs.2
    end
  else ret tt.

Definition add_frames (fuel : nat) (f0 f1 rtc_fd c0 c1 bs : Z) : prog W unit :=
  store c0 48 ;;
  store c1 48 ;;
  store16 (bs + ON_LENGTH) 15 ;;
  store16 (bs + OFF_LENGTH) 15 ;;
  let! fd0 := ece391_open f0 in
  (if fd0 <? 0 then ece391_halt (-1) ;; ret tt else ret tt) ;;
  let! fd1 := ece391_open f1 in
  (if fd1 <? 0 then ece391_halt (-1) ;; ret tt else ret tt) ;;
  add_rows fuel fd0 fd1 c0 c1 bs 0 40 0 0.

(** [n] ticks of the clock. *)
Fixpoint wait_ticks (n : nat) (rtc_fd garbage : Z) : prog W unit :=
  match n with
  | O => ret tt
  | S n => ece391_read rtc_fd garbage 4 ;; tasklet ;; wait_ticks n rtc_fd garbage
  end.

Definition fish_main (fuel : nat) (ret_val garbage bs c0 c1 bs' : Z) : prog W Z :=
  let! m := get_mem in
  set_mem (ece391_memset m blink_array 0 (STRUCT_SIZE * 80 * 25)) ;;
  let! v := mp1_set_video_mode in
  if v =? 0 then ret (-1)
  else
    let! rtc_fd := ece391_open (lit "rtc") in
    add_frames fuel (lit "frame0.txt") (lit "frame1.txt") rtc_fd c0 c1 bs' ;;
    store32 ret_val 32 ;;
    let! r := ece391_write rtc_fd ret_val 4 in
    store32 ret_val r ;;
    wait_ticks (Z.to_nat WAIT) rtc_fd garbage ;;
    store (bs + ON_CHAR) 73 ;;
    store (bs + OFF_CHAR) 77 ;;
    store16 (bs + ON_LENGTH) 7 ;;
    store16 (bs + OFF_LENGTH) 6 ;;
    store16 (bs + LOCATION) (6 * 80 + 60) ;;
    ioctl bs RTC_ADD ;;
    wait_ticks (Z.to_nat WAIT) rtc_fd garbage ;;
    ioctl (Z.lor (Z.shiftl 40 16) (6 * 80 + 60)) RTC_SYNC ;;
    wait_ticks (Z.to_nat WAIT) rtc_fd garbage ;;
    store16 (bs + LOCATION) 60 ;;
    ioctl WAIT RTC_REMOVE ;;
    wait_ticks (80 * 25) rtc_fd garbage ;;
    ece391_close rtc_fd ;;
    ret 0.
End fish.
